(* ===== verification/_CoqProject ===== *)
-Q . S2P
Prelude.v
GoLib.v
Schema.v
Limiter.v
Usernames.v
TxMonad.v
Secrets.v
PasskeyVerifier.v
Engine.v
Process.v
Mail.v
Passkeys.v
OAuth.v
Challenge.v
Sessions.v
Account.v
Totp.v
Identities.v
Outbox.v
Server.v
Toy.v
ProcessFacts.v
ChallengeFacts.v
Cleanup.v
FlowFacts.v
SessionFacts.v
AccountFacts.v
MailFacts.v
FactorFacts.v
OAuthFacts.v
ServerFacts.v
OutboxFacts.v
ProviderAdapters.v
LegacyReads.v
Invariants.v
Preservation.v
Ownership.v
Authority.v
System.v
History.v
Configuration.v
Installation.v
Application.v
LegacyProgram.v
LegacyServices.v
LegacyFacts.v
LegacyTransport.v
LegacyResponses.v
LegacyDatabase.v
LegacyRepository.v
LegacyRepositoryFacts.v
LegacyMail.v
LegacySystem.v
LegacySystemFacts.v
LegacyWiring.v
Logging.v
