(* ===== verification/Prelude.v ===== *)
(** * Verification of chefbook-backend-auth

    The service authenticates the users of ChefBook: it keeps accounts and their credentials in
    PostgreSQL, runs multi-step authentication processes, issues sessions, and tells other
    services about accounts through a transactional outbox. This library is a shallow embedding
    of the Go code under src/ and of the constraints of src/schema/initial.sql, with the theorems
    that make it correct.

    ** How the program works

    A client starts an authentication process for a purpose (signIn, signUp, or one of ten
    sensitive purposes), completes steps of it (password, email code, TOTP, backup code, passkey,
    Google, VK) until the evidence suffices, and receives a one-time confirmation token. Every
    sensitive operation consumes a confirmation of its own purpose. An operation is one
    transaction under one advisory lock; those that ask an identity provider are two, with the
    network call between them. Mails and events are rows of the outbox, written in the
    transaction that causes them and handed to the broker by a worker. A daemon deletes due
    accounts, another expired temporary state.

    ** The files

    Foundations:
    - Prelude: notations, tables as lists with their queries, automation.
    - GoLib: what the code uses of Go's standard library (strings, time, fmt, base64), error
      values, and the class [Platform] of the functions outside the repository.
    - Schema: schema/initial.sql. One record per table; [schema_ok] decides every CHECK, UNIQUE
      and foreign key; [cascade] is ON DELETE CASCADE.
    - Limiter: internal/authentication/limiter.go.
    - TxMonad: internal/authentication/transaction.go. The state-and-error monad [M], its weakest
      preconditions and tactics ([wp_go], [solve_effect]), the effect classes ([ReadOnly],
      [NoCommit], [Atomic], [Errors]).

    The engine, internal/authentication, one file each: Secrets (secrets.go), Engine (types.go and
    values), Process (process.go, steps.go), Mail (mail.go), Passkeys (passkeys.go), OAuth
    (oauth.go), Challenge (challenge.go), Sessions (sessions.go), Account (account.go), Totp
    (totp.go), Identities (identities.go), Cleanup (cleanup.go); PasskeyVerifier is
    pkg/passkey/verifier.go, ProviderAdapters is provider/provider.go. A definition has the name of
    its Go function; a method on Engine takes the engine as its first argument. Usernames holds
    the user name rules of account.go and the validators of internal/transport/utils.

    Around the engine:
    - Server: authenticationgrpc/server.go; [Server_X] is the method X, [serve] the service as one
      function of requests. LegacyReads: legacy_reads.go.
    - Outbox: internal/outbox/worker.go over the class [Broker].
    - Configuration: internal/config, the flags of cmd/app and configureEngine of
      internal/app/app.go. Installation: schema/apply.go and cmd/migrations. Application: start-up,
      workers and shutdown of internal/app.
    - Invariants: the interface [RowInvariant], what an invariant asks of each row the engine
      changes, with the effect classes [Keeps], [Maintains] and [Yields]. Preservation: every
      operation, request and daemon maintains any row invariant, proved once against it.
    - Ownership: what belongs to an account ([belongings]) and which changes of the tables leave it
      alone. Authority: what a request may do it with ([authority]), for each of the requests.
    - System: requests, single transactions of the requests that make two, daemons, the outbox
      worker and restarts as one step relation. History: what every run of it preserves of the
      past.
    - The previous generation of the service (internal/service, internal/repository,
      internal/transport/grpc, pkg/oauth, pkg/ip), which nothing starts any more:
      LegacyProgram has its values (internal/entity) and its programs, finite interaction trees
      whose events are the calls of their collaborators; [always p Q] says what holds of the calls
      made and the result whatever the collaborators answer. LegacyServices is internal/service and
      pkg/oauth with the daemon, LegacyTransport the handlers of internal/transport/grpc and pkg/ip,
      LegacyResponses the error responses of internal/entity/fail, LegacyMail
      internal/service/mail. LegacyDatabase has the statements of database/sql as events
      and what of a run the database keeps ([track], [kept]); LegacyRepository is
      internal/repository/postgres as the statements each method makes; LegacySystem is
      internal/repository/amqp and the services run over repository, queue and mail
      ([run_over]); LegacyWiring is internal/transport/dependencies/service, with the connections of
      the queue and of internal/repository/grpc it opens and closes.
    - Logging: internal/logging, every log event as the call it makes of the log package, and the
      classification of errors ([safeErrorType]) that stands in for their texts.
    - Toy: the concrete platform and database on which the witnesses evaluate.

    The files that end in Facts hold the theorems about the file they are named after, or about
    several (FlowFacts: what operations share; FactorFacts: TOTP, passkeys, identities).

    ** The model

    State is a [World]: the committed database, the view of the open transaction, process memory
    (the limiter, the dummy password hash), the identity sequence, and a counter of moments. An
    [Oracle] answers every effect at its moment: clocks, randomness, new UUIDs, and whether and
    how a statement fails; every theorem holds for every oracle, so for every failure at every
    statement. A statement that violates [schema_ok] fails with an SQLSTATE and has no effect. A
    transaction commits its view or leaves the committed database alone. Operations of the engine
    take the advisory lock, so a transaction runs alone; between the two transactions of a
    provider attempt, between two RPCs and between two transactions of a daemon the committed
    database may have been replaced; in System those changes are the other steps. The transactions of the outbox worker take no lock; rows
    another worker holds are skipped ([locked]). Commit fails without effect or succeeds.

    Times are microseconds in Z; identity columns stop at the largest bigint, parsed numbers at
    int64. Loops of the code that need not end take fuel and answer None when it is used up: the
    outbox loops (rounds and connections), the daemon loops. [deliver_drains] and
    [deletion_pass_ends] say which fuel suffices: one round per event, one transaction per account
    and one more. The other loops are structural. The limiter's constants (10 attempts, 5 minutes,
    10,000 windows) are those of the code.

    Parameters, with the laws the theorems name as hypotheses: [Platform] (Unicode, URLs, mail
    addresses, HMAC, AEAD, bcrypt, UUID text), [WebAuthn] (the go-webauthn library), [Remote] (HTTP,
    oauth2, ID tokens, JSON), [Broker] and [BrokerLaws] (a confirmed mandatory message is stored or
    was returned before its confirmation), [Wire] (what uuid.Parse returns beside an error),
    [TokenIssuer] and [TokenKeys] (access tokens and their keys), [URLText], [Host] (database/sql,
    sockets, the health server); of the previous generation [StatusCodes] and [StatusLaws] (which
    gRPC code an error carries), [LegacyLibraries] (JSON, user agents), [MailLibraries] (templates),
    [LegacyClients] (which clients can be built) and [FailTypes] (the common module's types of
    errors); [LogComponents] (the component names of the log package).

    ** What is proved

    - Confirmations and evidence (ProcessFacts, ChallengeFacts): a confirmation is accepted once,
      for its purpose and account only; a process is completed only on complete evidence; rejected
      proofs are counted; codes and backup codes are not replayed; sign-up creates exactly the
      account that was proved and discloses nothing before the email is.
    - Sessions (SessionFacts): created from a spent sign-in, rotated by a token that works once.
    - Accounts, mail and factors (AccountFacts, MailFacts, FactorFacts): a new password ends what
      the old one granted; user names are canonical and unique; an email changes in two stages;
      deletions happen when due and only then; the last credential cannot be removed.
    - Providers (OAuthFacts, ProviderAdapters): state used once, nonce and freshness checked.
    - The service (ServerFacts, Authority): fixed statuses; what a refusal leaves behind, which is
      nothing but counted failures, sign-ups that are over and used OAuth requests; and, for every
      request, that the belongings of an account change only with authority over that account, a
      confirmation of its own purpose behind each sensitive one.
    - The outbox (OutboxFacts): the worker refines a queue from which an event leaves only when
      the broker has it; without faults it empties the outbox.
    - The past (History): along every run, however the transactions of requests interleave, a
      confirmation authorises one request and a refresh token, an OAuth state and a reset token
      are redeemed once, provided the random source does not draw the same value again; a process
      that has ended does not change; once its budget of attempts is used up, no proof is looked at
      again.
    - The whole (System, Application, Configuration, Installation): every reachable database is
      well-formed whatever configuration the process was started with; a configuration that is
      accepted is safe; the deletion daemon's passes end; the schema command never touches data.
    - The previous generation: the password comes before what an account discloses, a
      reauthentication needs evidence of the method it names, a sign-up only stages its password, a
      link is never the last way to sign in that is removed (LegacyFacts); every method of the
      repository ends its transaction and keeps all of its writes or, when it fails, none, and they
      are those that belong together: a password with the use of its code, an account with the event
      that announces its end (LegacyRepositoryFacts, LegacySystemFacts).
    - Logs (Logging): the events of the database, the providers, start-up and the daemons report
      an error by its type, which no text inside the error changes.

    ** Not modelled

    The tables of the previous generation (users, oauth, email_bindings, ...), which
    src/migrations/sql defines: their rows and constraints have no model, and its statements may
    answer anything of the types they are scanned into, which allows more than the tables do. What
    is proved is which of them are made and kept. What its AMQP and gRPC
    libraries do inside is unknown. The calls of log events are left out of
    every component but Logging: they change no state. The generated protobuf code, the
    embedding of assets and the scheduling of goroutines have no model; concurrency appears as
    steps, as the changes of the database between transactions and as started tasks. Error texts
    that cannot reach a client are kept only where the code compares them. *)
From Stdlib Require Export String Ascii ZArith NArith List Bool Lia.
From stdpp Require Export base tactics option strings list numbers gmap.
Export ListNotations.

(** ** Notations *)

Declare Scope auth_scope.
Delimit Scope auth_scope with auth.
#[global] Open Scope auth_scope.
#[local] Open Scope Z_scope.
#[local] Open Scope list_scope.

(** Equality tests of the source (Go [==] and [!=], SQL [=] and [<>]) as booleans; orders on
    integers are [Z.ltb] and [Z.leb]. *)
Notation "x == y" := (bool_decide (x = y)) (at level 70, no associativity) : auth_scope.
Notation "x != y" := (negb (bool_decide (x = y))) (at level 70, no associativity) : auth_scope.

(** Byte strings: a Go [string] and a Go [[]byte] are both sequences of bytes. *)
Abbreviation bytes := string (only parsing).

(** ** Hint databases *)

Create Rewrite HintDb tables.


(** ** Booleans *)

Lemma beq_true {A} `{EqDecision A} (x y : A) : (x == y) = true <-> x = y.
Proof. apply bool_decide_eq_true. Qed.

Lemma beq_false {A} `{EqDecision A} (x y : A) : (x == y) = false <-> x <> y.
Proof. apply bool_decide_eq_false. Qed.

Lemma beq_refl {A} `{EqDecision A} (x : A) : (x == x) = true.
Proof. by apply beq_true. Qed.

Lemma negb_beq_true {A} `{EqDecision A} (x y : A) : (x != y) = true <-> x <> y.
Proof. rewrite negb_true_iff. apply beq_false. Qed.

Lemma negb_beq_false {A} `{EqDecision A} (x y : A) : (x != y) = false <-> x = y.
Proof. rewrite negb_false_iff. apply beq_true. Qed.

(** [IS NOT NULL], a non-nil pointer. *)
Definition isSome {A} (o : option A) : bool := match o with Some _ => true | None => false end.

Lemma isSome_false {A} (o : option A) : isSome o = false <-> o = None.
Proof. by destruct o. Qed.
Lemma isSome_true {A} (o : option A) : isSome o = true <-> exists x, o = Some x.
Proof. destruct o; naive_solver. Qed.

(** [bsimp] turns the boolean tests of hypotheses and goal into propositions. *)
Ltac bsimp :=
  repeat (progress (
    rewrite ?andb_true_iff, ?andb_false_iff, ?orb_true_iff, ?orb_false_iff,
      ?negb_beq_true, ?negb_beq_false, ?negb_true_iff, ?negb_false_iff,
      ?beq_true, ?beq_false, ?isSome_false, ?Z.ltb_lt, ?Z.ltb_ge, ?Z.leb_le, ?Z.leb_gt in *));
  destruct_and?; simplify_eq/=.

(** [bdone] closes goals that follow from boolean tests by congruence or arithmetic. *)
Ltac bdone := bsimp; solve [done | congruence | lia | naive_solver lia].

(** ** Tables

    A table is the list of its rows in storage order. [one] is a query that returns a
    single row (the first match: PostgreSQL promises no order, uniqueness constraints make
    the choice irrelevant), [sel] a multi-row query, [any] an [EXISTS], [del] a [DELETE]
    and [upd] an [UPDATE ... WHERE]. *)
Section Tables.
Context {R : Type}.
Implicit Types (p q : R -> bool) (f : R -> R) (t : list R).

Definition one p t : option R := List.find p t.
Definition sel p t : list R := List.filter p t.
Definition any p t : bool := existsb p t.
Definition del p t : list R := List.filter (fun r => negb (p r)) t.
Definition upd p f t : list R := map (fun r => if p r then f r else r) t.
Definition ins (r : R) t : list R := t ++ [r].

Lemma in_sel p t r : In r (sel p t) <-> In r t /\ p r = true.
Proof. apply filter_In. Qed.

Lemma in_del p t r : In r (del p t) <-> In r t /\ p r = false.
Proof. unfold del. rewrite filter_In, negb_true_iff. done. Qed.

Lemma length_del_le p t : (length (del p t) <= length t)%nat.
Proof. apply filter_length_le. Qed.

Lemma length_del_lt p t r : In r t -> p r = true -> (length (del p t) < length t)%nat.
Proof.
  unfold del. induction t as [|x t IH]; simpl; [done|]. intros [->|Hr] Hp.
  - rewrite Hp. simpl. pose proof (length_del_le p t). unfold del in *. lia.
  - specialize (IH Hr Hp). destruct (negb (p x)); simpl; lia.
Qed.

Lemma in_ins x t r : In r (ins x t) <-> In r t \/ r = x.
Proof. unfold ins. rewrite in_app_iff. simpl. naive_solver. Qed.

Lemma in_upd p f t r :
  In r (upd p f t) <-> exists x, In x t /\ r = (if p x then f x else x).
Proof. unfold upd. rewrite in_map_iff. naive_solver. Qed.

(** An update whose rows stay among those it selects leaves the others alone. *)
Lemma in_upd_other p f t r :
  p r = false -> (forall x, p x = true -> p (f x) = true) -> In r (upd p f t) <-> In r t.
Proof.
  intros Hr Hf. rewrite in_upd. split.
  - intros (x & Hx & ->). destruct (p x) eqn:E; [|done]. rewrite Hf in Hr; done.
  - intros Ht. exists r. by rewrite Hr.
Qed.

Lemma any_true p t : any p t = true <-> exists r, In r t /\ p r = true.
Proof. apply existsb_exists. Qed.

Lemma any_false p t : any p t = false <-> forall r, In r t -> p r = false.
Proof.
  rewrite <- not_true_iff_false, any_true. split.
  - intros H r Hr. apply not_true_is_false. eauto.
  - intros H (r & Hr & Hp). rewrite H in Hp; done.
Qed.

Lemma one_some p t r : one p t = Some r -> In r t /\ p r = true.
Proof. apply find_some. Qed.

Lemma one_none p t : one p t = None <-> forall r, In r t -> p r = false.
Proof.
  split; [apply find_none|]. intros H. unfold one.
  destruct (List.find p t) as [r|] eqn:E; [|done].
  apply find_some in E as [Hr Hp]. rewrite H in Hp; done.
Qed.

Lemma one_is_some p t r : In r t -> p r = true -> exists x, one p t = Some x.
Proof.
  intros Hr Hp. destruct (one p t) as [x|] eqn:E; [eauto|].
  rewrite one_none in E. rewrite E in Hp; done.
Qed.

Lemma sel_nil p t : sel p t = [] <-> any p t = false.
Proof.
  rewrite any_false. split.
  - intros H r Hr. apply not_true_is_false. intros Hp.
    assert (In r (sel p t)) as Hin by (rewrite in_sel; done).
    rewrite H in Hin. done.
  - intros H. destruct (sel p t) as [|r l] eqn:E; [done|].
    assert (In r (sel p t)) as Hin by (rewrite E; left; done).
    rewrite in_sel in Hin. destruct Hin as [Hr Hp]. rewrite H in Hp; done.
Qed.

Lemma del_nop p t : (forall r, In r t -> p r = false) -> del p t = t.
Proof.
  unfold del. induction t as [|r t IH]; intros H; [done|]. simpl.
  rewrite H by (left; done). simpl. rewrite IH; [done|].
  intros; apply H; right; done.
Qed.

Lemma sel_app p t t' : sel p (t ++ t') = sel p t ++ sel p t'.
Proof. apply List.filter_app. Qed.

Lemma sel_all p t : (forall r, In r t -> p r = true) -> sel p t = t.
Proof.
  unfold sel. induction t as [|r t IH]; intros Hp; simpl; [done|].
  rewrite Hp by (by left). f_equal. apply IH. intros x Hx. apply Hp. by right.
Qed.

Lemma sel_del p t : sel p (del p t) = [].
Proof. apply sel_nil, any_false. intros r. rewrite in_del. tauto. Qed.

Lemma upd_nop p f t : (forall r, In r t -> p r = false) -> upd p f t = t.
Proof.
  unfold upd. induction t as [|r t IH]; intros H; [done|]. simpl.
  rewrite H by (left; done). rewrite IH; [done|].
  intros; apply H; right; done.
Qed.

Lemma upd_skip p q f t :
  (forall r, In r t -> p r = true -> q r = true) ->
  (forall r, In r t -> q r = true -> p r = false -> f r = r) -> upd p f t = upd q f t.
Proof.
  intros Hp Hq. unfold upd. apply map_ext_in. intros r Hr. specialize (Hp r Hr). specialize (Hq r Hr).
  destruct (p r), (q r); try done; [by specialize (Hp eq_refl)|by rewrite Hq].
Qed.

Lemma length_upd p f t : length (upd p f t) = length t.
Proof. apply length_map. Qed.

(** A predicate that an update leaves alone is counted the same. *)
Lemma sel_upd_ext p q f t :
  (forall r, In r t -> p r = true -> q (f r) = q r) ->
  map q (upd p f t) = map q t.
Proof.
  induction t as [|r t IH]; intros H; [done|]. unfold upd in *. simpl.
  rewrite IH by (intros; apply H; [right|]; done). f_equal.
  destruct (p r) eqn:E; [|done]. apply H; [left|]; done.
Qed.

Lemma any_upd_ext p q f t :
  (forall r, In r t -> p r = true -> q (f r) = q r) -> any q (upd p f t) = any q t.
Proof.
  intros H. unfold any. transitivity (existsb id (map q (upd p f t))).
  - generalize (upd p f t). intros l. induction l; simpl; congruence.
  - rewrite sel_upd_ext by done. clear. induction t; simpl; congruence.
Qed.
End Tables.

Lemma map_upd_ext {R K} (k : R -> K) (p : R -> bool) (f : R -> R) (t : list R) :
  (forall r, In r t -> p r = true -> k (f r) = k r) -> map k (upd p f t) = map k t.
Proof.
  induction t as [|r t IH]; intros H; [done|]. unfold upd in *. simpl.
  rewrite IH by (intros; apply H; [right|]; done). f_equal.
  destruct (p r) eqn:E; [|done]. apply H; [left|]; done.
Qed.

#[export] Hint Rewrite @in_sel @in_del @in_ins @in_upd @any_true @any_false : tables.

(** Primary keys and unique columns: no two rows share the (non-null) key. *)
Definition distinct {K} `{EqDecision K} (l : list K) : bool := bool_decide (base.NoDup l).

Lemma distinct_inj {R K} `{EqDecision K} (k : R -> K) (t : list R) x y :
  distinct (map k t) = true -> In x t -> In y t -> k x = k y -> x = y.
Proof.
  unfold distinct. rewrite bool_decide_eq_true.
  induction t as [|r t IH]; simpl; [done|]. intros [Hn Hd]%NoDup_cons Hx Hy Hk.
  assert (forall z, In z t -> k r <> k z) as Hne.
  { intros z Hz E. apply Hn. rewrite E. apply list_elem_of_In, in_map, Hz. }
  destruct Hx as [->|Hx], Hy as [->|Hy]; [done|by destruct (Hne y)| |by apply IH].
  by destruct (Hne x).
Qed.

(** A unique nullable column: [NULL]s never collide. *)
Definition distinct_opt {K} `{EqDecision K} (l : list (option K)) : bool :=
  distinct (omap id l).

Lemma distinct_opt_inj {R K} `{EqDecision K} (k : R -> option K) (t : list R) x y v :
  distinct_opt (map k t) = true -> In x t -> In y t ->
  k x = Some v -> k y = Some v -> x = y.
Proof.
  unfold distinct_opt, distinct. rewrite bool_decide_eq_true.
  induction t as [|r t IH]; simpl; [done|]. intros Hd Hx Hy Ex Ey.
  assert (forall z, In z t -> k z = Some v -> v ∈ omap id (map k t)) as Hin.
  { intros z Hz E. apply list_elem_of_omap. exists (Some v). split; [|done].
    rewrite <- E. apply list_elem_of_In, in_map, Hz. }
  destruct (k r) as [u|] eqn:Er; simpl in Hd.
  - apply NoDup_cons in Hd as [Hn Hd].
    destruct Hx as [->|Hx], Hy as [->|Hy]; [done| | |by apply IH].
    + assert (u = v) as -> by congruence. by destruct Hn; eapply Hin.
    + assert (u = v) as -> by congruence. by destruct Hn; eapply Hin.
  - destruct Hx as [->|Hx], Hy as [->|Hy]; [congruence..|by apply IH].
Qed.

(** The only candidate is the row found. *)
Lemma one_unique {R} (p : R -> bool) (t : list R) r :
  In r t -> p r = true -> (forall x, In x t -> p x = true -> x = r) -> one p t = Some r.
Proof.
  intros Hr Hp Hu. destruct (one_is_some p t r Hr Hp) as [x E]. rewrite E. f_equal.
  apply one_some in E as [Hx Ex]. by apply Hu.
Qed.

(** ** ORDER BY

    A stable insertion sort; [le] is the boolean order of the sort keys. *)
Section OrderBy.
Context {R : Type} (le : R -> R -> bool).

Fixpoint insert_by (r : R) (t : list R) : list R :=
  match t with
  | [] => [r]
  | x :: t' => if le r x then r :: t else x :: insert_by r t'
  end.

Fixpoint order_by (t : list R) : list R :=
  match t with [] => [] | r :: t' => insert_by r (order_by t') end.

Lemma insert_by_perm r t : insert_by r t ≡ₚ r :: t.
Proof.
  induction t as [|x t IH]; simpl; [done|]. destruct (le r x); [done|].
  rewrite IH. constructor.
Qed.

Lemma order_by_perm t : order_by t ≡ₚ t.
Proof. induction t as [|r t IH]; simpl; [done|]. by rewrite insert_by_perm, IH. Qed.

Lemma in_order_by t r : In r (order_by t) <-> In r t.
Proof. rewrite <- !list_elem_of_In. by rewrite order_by_perm. Qed.

Hypothesis le_total : forall x y, le x y = true \/ le y x = true.
Hypothesis le_trans : forall x y z, le x y = true -> le y z = true -> le x z = true.

(** Every element is below the ones that follow it. *)
Fixpoint ordered (t : list R) : Prop :=
  match t with [] => True | r :: t' => (forall x, In x t' -> le r x = true) /\ ordered t' end.

Lemma order_by_ordered t : ordered (order_by t).
Proof using le_total le_trans.
  induction t as [|r t IH]; simpl; [done|]. revert IH. generalize (order_by t).
  intros l. induction l as [|x l IHl]; simpl; [by intros _|]. intros [Hx Hl].
  destruct (le r x) eqn:E; simpl.
  - split; [|done]. intros y [<-|Hy]; [done|]. by eapply le_trans; [|apply Hx].
  - split; [|by apply IHl]. intros y Hy.
    rewrite <- list_elem_of_In, insert_by_perm, list_elem_of_In in Hy.
    destruct Hy as [<-|Hy]; [|by apply Hx]. destruct (le_total r x); congruence.
Qed.

(** [LIMIT 1]: the first row is below every other one. *)
Lemma order_by_head t r :
  head (order_by t) = Some r -> In r t /\ forall x, In x t -> le r x = true.
Proof using le_total le_trans.
  intros Hh. split.
  - apply in_order_by. destruct (order_by t); simplify_eq/=. by left.
  - intros x Hx. apply in_order_by in Hx. pose proof (order_by_ordered t) as Ho.
    destruct (order_by t) as [|y l]; simplify_eq/=. destruct Ho as [Ho _].
    destruct Hx as [->|Hx]; [|by apply Ho]. by destruct (le_total x x).
Qed.

Lemma order_by_none t : head (order_by t) = None -> t = [].
Proof.
  intros Hh. destruct t as [|r t]; [done|].
  assert (In r (order_by (r :: t))) as Hr by (apply in_order_by; by left).
  by destruct (order_by (r :: t)).
Qed.
End OrderBy.
