(* ===== verification/GoLib.v ===== *)
(** The parts of the Go language and standard library the service leans on: [time],
    [strings], [fmt], [strconv], [encoding/base64], error values, and the parameters that
    stand for code outside the repository (Unicode tables, [net/mail], [net/url],
    [google/uuid], cryptographic primitives, PostgreSQL's [inet]). *)
From S2P Require Import Prelude.
#[local] Open Scope string_scope.
#[local] Open Scope Z_scope.
#[local] Open Scope list_scope.

(** ** Errors

    The sentinel errors of internal/authentication/types.go, [sql.ErrNoRows], the driver's
    errors (which may answer [SQLState()]) and every other error value. *)
Inductive dberror : Type :=
| SQLState (code : string)
| Driver (msg : string).

Inductive error : Type :=
| ErrAccountExists | ErrNotFound | ErrSession | ErrInvalid | ErrUnauthorized
| ErrCredentials | ErrConflict | ErrForbidden | ErrUnavailable | ErrAttempts
| ErrNoRows
| ErrDB (d : dberror)
| ErrOther (msg : string).

#[export] Instance dberror_eq_dec : EqDecision dberror.
Proof. solve_decision. Defined.
#[export] Instance error_eq_dec : EqDecision error.
Proof. solve_decision. Defined.

(** A Go call that returns a value and an error. *)
Inductive result (A : Type) : Type :=
| Ok (a : A)
| Err (e : error).
Arguments Ok {A} a.
Arguments Err {A} e.

(** [errors.As(err, &state) && state.SQLState() == code]. *)
Definition sql_state_is (code : string) (e : error) : bool :=
  match e with ErrDB (SQLState c) => c == code | _ => false end.

(** ** Time

    An instant is a count of microseconds, the resolution PostgreSQL stores. *)
Abbreviation time := Z (only parsing).
Abbreviation duration := Z (only parsing).
Definition Second : duration := 1000000.
Definition Minute : duration := 60 * Second.
Definition Hour : duration := 60 * Minute.

(** [t.After(u)], [t.Before(u)] and [t.Unix()]. *)
Definition After (t u : time) : bool := u <? t.
Definition Before (t u : time) : bool := t <? u.
Definition Unix (t : time) : Z := t / Second.

(** ** UUIDs *)
Abbreviation uuid := N (only parsing).
Definition uuid_Nil : uuid := 0%N.

(** ** Parameters: code that is not in the repository *)
Record URL := { Scheme : string; Host : string; User : bool; Fragment : string }.

Class Platform : Type := {
  (* unicode, for strings with bytes outside ASCII *)
  unicode_ToLower : string -> string;
  unicode_TrimSpace : string -> string;
  (* net/mail: the Address field of the parsed address, its Name *)
  mail_ParseAddress : string -> option (string * string);
  (* net/url *)
  url_Parse : string -> option URL;
  url_SetQuery : string -> list (string * string) -> string;
  (* URL{Scheme, Host, Path}.String() after Query().Set of each pair *)
  url_String : string -> string -> string -> list (string * string) -> string;
  (* github.com/google/uuid *)
  uuid_String : uuid -> string;
  uuid_Parse : string -> option uuid;
  (* crypto/hmac over crypto/sha256 and crypto/sha1, crypto/sha256, AES-256-GCM *)
  hmac_sha256 : bytes -> bytes -> bytes;
  hmac_sha1 : bytes -> bytes -> bytes;
  sha256_Sum256 : bytes -> bytes;
  aead_Seal : bytes -> bytes -> bytes -> bytes -> bytes;
  aead_Open : bytes -> bytes -> bytes -> bytes -> option bytes;
  (* golang.org/x/crypto/bcrypt: salt, password, cost *)
  bcrypt_Generate : bytes -> string -> Z -> option string;
  bcrypt_Compare : string -> string -> bool;
  (* PostgreSQL: host(inet) *)
  pg_host : string -> string;
}.

(** ** strings *)

Definition byte_code (c : ascii) : N := N_of_ascii c.

Fixpoint bytes_forall (p : ascii -> bool) (s : string) : bool :=
  match s with EmptyString => true | String c s => p c && bytes_forall p s end.

Fixpoint bytes_map (f : ascii -> ascii) (s : string) : string :=
  match s with EmptyString => EmptyString | String c s => String (f c) (bytes_map f s) end.

Definition is_ascii (s : string) : bool := bytes_forall (fun c => N.ltb (byte_code c) 128) s.

Definition in_range (lo hi : ascii) (c : ascii) : bool :=
  N.leb (byte_code lo) (byte_code c) && N.leb (byte_code c) (byte_code hi).

Definition lower_byte (c : ascii) : ascii :=
  if in_range "A" "Z" c then ascii_of_N (byte_code c + 32) else c.

(** Go's white space among the ASCII bytes: tab, newline, vertical tab, form feed, carriage
    return and blank. *)
Definition is_space (c : ascii) : bool :=
  (N.leb 9 (byte_code c) && N.leb (byte_code c) 13) || N.eqb (byte_code c) 32.

Fixpoint trim_left (s : string) : string :=
  match s with
  | EmptyString => EmptyString
  | String c s' => if is_space c then trim_left s' else s
  end.

Fixpoint trim_right (s : string) : string :=
  match s with
  | EmptyString => EmptyString
  | String c s' =>
      match trim_right s' with
      | EmptyString => if is_space c then EmptyString else String c EmptyString
      | s'' => String c s''
      end
  end.

Section Strings.
Context `{Platform}.

(** [strings.ToLower]: byte-wise on ASCII strings, Unicode case mapping otherwise. *)
Definition ToLower (s : string) : string :=
  if is_ascii s then bytes_map lower_byte s else unicode_ToLower s.

(** [strings.TrimSpace]. *)
Definition TrimSpace (s : string) : string :=
  if is_ascii s then trim_right (trim_left s) else unicode_TrimSpace s.
End Strings.

(** [strings.HasPrefix] and [strings.Contains]. *)
Fixpoint HasPrefix (s pre : string) : bool :=
  match pre, s with
  | EmptyString, _ => true
  | String p pre', String c s' => Ascii.eqb p c && HasPrefix s' pre'
  | _, EmptyString => false
  end.

Fixpoint Contains (s sub : string) : bool :=
  HasPrefix s sub ||
  match s with EmptyString => false | String _ s' => Contains s' sub end.

(** [strings.Fields] on ASCII text: maximal runs of non-space bytes. *)
Fixpoint fields_go (acc : string) (s : string) : list string :=
  match s with
  | EmptyString => if acc == "" then [] else [acc]
  | String c s' =>
      if is_space c then (if acc == "" then [] else [acc]) ++ fields_go "" s'
      else fields_go (acc +:+ String c "") s'
  end.
Definition Fields (s : string) : list string := fields_go "" s.

(** [strings.Split] for a one-byte separator: n separators give n+1 pieces. *)
Fixpoint split_go (sep : ascii) (acc : string) (s : string) : list string :=
  match s with
  | EmptyString => [acc]
  | String c s' =>
      if Ascii.eqb c sep then acc :: split_go sep "" s' else split_go sep (acc +:+ String c "") s'
  end.
Definition Split (s : string) (sep : ascii) : list string := split_go sep "" s.

(** [s[i]] for an index in range, and [len(s)]. *)
Definition len (s : string) : Z := Z.of_nat (String.length s).
Definition byte_at (s : string) (i : nat) : option ascii := String.get i s.

(** ** fmt and strconv *)

Fixpoint repeat_zero (n : nat) : string :=
  match n with O => "" | S n => String "0" (repeat_zero n) end.

(** Decimal digits; a number below [2^k] has at most [k] of them. *)
Definition digit (n : Z) : ascii := ascii_of_N (48 + Z.to_N n).
Fixpoint decimal_go (fuel : nat) (n : Z) (acc : string) : string :=
  match fuel with
  | O => acc
  | S fuel =>
      let acc := String (digit (n mod 10)) acc in
      if n <? 10 then acc else decimal_go fuel (n / 10) acc
  end.
Definition decimal (n : Z) : string := decimal_go (S (Z.to_nat (Z.log2 n))) n "".

(** [fmt.Sprintf("%06d", n)] for a non-negative n. *)
Definition Sprintf06d (n : Z) : string :=
  let s := decimal n in repeat_zero (6 - String.length s) +:+ s.

(** [strconv.FormatInt(n, 10)]. *)
Definition FormatInt (n : Z) : string := if n <? 0 then "-" +:+ decimal (- n) else decimal n.

Definition is_digit (c : ascii) : bool := in_range "0" "9" c.

(** ** encoding/base64 (RawURLEncoding) and encoding/base32 (NoPadding)

    The bits of the input, most significant first, are cut into groups of [k] bits, the last
    one filled with zero bits; each group selects a letter of the alphabet. *)
Definition bits_of_byte (c : ascii) : list bool :=
  match c with Ascii a b c d e f g h => [h; g; f; e; d; c; b; a] end.

Fixpoint bits_of (s : bytes) : list bool :=
  match s with EmptyString => [] | String c s => bits_of_byte c ++ bits_of s end.

Definition group_value (g : list bool) : nat :=
  fold_left (fun acc (b : bool) => 2 * acc + (if b then 1 else 0))%nat g 0%nat.

Fixpoint encode_groups (fuel k : nat) (alphabet : string) (bs : list bool) : string :=
  match fuel, bs with
  | O, _ | _, [] => ""
  | S fuel, _ =>
      let g := take k bs ++ replicate (k - length bs) false in
      match String.get (group_value g) alphabet with
      | Some c => String c (encode_groups fuel k alphabet (drop k bs))
      | None => ""
      end
  end.

Definition encode_bits (k : nat) (alphabet : string) (s : bytes) : string :=
  let bs := bits_of s in encode_groups (length bs) k alphabet bs.

Definition base64_url_alphabet : string :=
  "ABCDEFGHIJKLMNOPQRSTUVWXYZabcdefghijklmnopqrstuvwxyz0123456789-_".
Definition base32_alphabet : string := "ABCDEFGHIJKLMNOPQRSTUVWXYZ234567".

Definition base64_RawURL_Encode : bytes -> string := encode_bits 6 base64_url_alphabet.
Definition base32_Encode : bytes -> string := encode_bits 5 base32_alphabet.

Example base64_hello : base64_RawURL_Encode "Hello?>" = "SGVsbG8_Pg".
Proof. vm_compute. reflexivity. Qed.
Example base32_foobar : base32_Encode "foobar" = "MZXW6YTBOI".
Proof. vm_compute. reflexivity. Qed.

(** ** Facts *)

Lemma HasPrefix_app s pre : HasPrefix s pre = true <-> exists r, s = pre +:+ r.
Proof.
  revert s. induction pre as [|p pre IH]; intros s; simpl.
  - split; [intros _; by exists s|destruct s; done].
  - destruct s as [|c s]; [split; [done|by intros [r ?]]|].
    cbn [HasPrefix]. rewrite andb_true_iff, Ascii.eqb_eq, IH. split.
    + intros [-> [r ->]]. by exists r.
    + intros [r [= -> ->]]. split; [done|by exists r].
Qed.

Lemma Contains_app s sub : Contains s sub = true <-> exists l r, s = l +:+ (sub +:+ r).
Proof.
  induction s as [|c s IH]; cbn [Contains]; rewrite orb_true_iff, HasPrefix_app.
  - split.
    + intros [[r ?]|?]; [by exists "", r|done].
    + intros (l & r & Hs). left. exists r. by destruct l.
  - rewrite IH. split.
    + intros [[r ->]|(l & r & ->)]; [by exists "", r|by exists (String c l), r].
    + intros ([|c' l] & r & Hs); [left; by exists r|].
      injection Hs as -> ->. right. by exists l, r.
Qed.

Lemma Contains_empty s : Contains s "" = true.
Proof. by destruct s. Qed.

Lemma bytes_forall_app p s1 s2 :
  bytes_forall p (s1 +:+ s2) = bytes_forall p s1 && bytes_forall p s2.
Proof. induction s1 as [|c s1 IH]; simpl; [done|]. by rewrite IH, andb_assoc. Qed.

Lemma bytes_forall_impl p q s :
  (forall c, p c = true -> q c = true) -> bytes_forall p s = true -> bytes_forall q s = true.
Proof. intros Hpq. induction s; simpl; [done|]. rewrite !andb_true_iff. naive_solver. Qed.

(** ** base64.RawURLEncoding.DecodeString

    Line breaks are skipped, every other byte must belong to the alphabet, a lone trailing
    character is an error and the unused low bits of the last character are ignored. *)
Fixpoint index_of (c : ascii) (alphabet : string) : option nat :=
  match alphabet with
  | EmptyString => None
  | String x rest => if Ascii.eqb x c then Some O else option_map S (index_of c rest)
  end.

Definition sextet_bits (n : nat) : list bool :=
  map (fun i => Nat.testbit n i) [5; 4; 3; 2; 1; 0]%nat.

Definition is_line_break (c : ascii) : bool := (c == "010"%char) || (c == "013"%char).

Fixpoint decode_chars (s : string) : option (list bool) :=
  match s with
  | EmptyString => Some []
  | String c s' =>
      if is_line_break c then decode_chars s' else
      match index_of c base64_url_alphabet, decode_chars s' with
      | Some i, Some bs => Some (sextet_bits i ++ bs)
      | _, _ => None
      end
  end.

Definition byte_of_bits (h g f e d c b a : bool) : ascii := Ascii a b c d e f g h.

Fixpoint bytes_of_bits (bs : list bool) : bytes :=
  match bs with
  | h :: g :: f :: e :: d :: c :: b :: a :: rest =>
      String (byte_of_bits h g f e d c b a) (bytes_of_bits rest)
  | _ => ""
  end.

Definition base64_RawURL_Decode (s : string) : option bytes :=
  match decode_chars s with
  | Some bs => if (length bs mod 24 =? 6)%nat then None else Some (bytes_of_bits bs)
  | None => None
  end.

Lemma bytes_of_bits_of s pad : (length pad < 8)%nat -> bytes_of_bits (bits_of s ++ pad) = s.
Proof.
  intros Hp. induction s as [|c s IH]; simpl.
  - do 8 (destruct pad as [|? pad]; [done|simpl in Hp]). lia.
  - destruct c. simpl. by rewrite IH.
Qed.

Lemma length_bits_of s : length (bits_of s) = (8 * String.length s)%nat.
Proof. induction s as [|c s IH]; simpl; [done|]. rewrite length_app, IH. destruct c; simpl; lia. Qed.

(** One character carries its six bits through the alphabet and back. *)
Lemma sextet_roundtrip g :
  length g = 6%nat -> exists c, String.get (group_value g) base64_url_alphabet = Some c /\
    is_line_break c = false /\ index_of c base64_url_alphabet = Some (group_value g) /\
    sextet_bits (group_value g) = g.
Proof.
  do 6 (destruct g as [|[] g]; [done| |]; simpl);
    (destruct g; [intros _; eexists; repeat split; vm_compute; reflexivity|done]).
Qed.

Lemma decode_encode_groups fuel bs :
  (length bs <= fuel)%nat -> exists pad,
    decode_chars (encode_groups fuel 6 base64_url_alphabet bs) = Some (bs ++ pad) /\
    (length pad < 6)%nat /\ ((length bs + length pad) mod 6 = 0)%nat.
Proof.
  revert bs. induction fuel as [|fuel IH]; intros bs Hf.
  { destruct bs; [|simpl in Hf; lia]. exists []. simpl. repeat split; lia. }
  destruct bs as [|b bs]; [exists []; simpl; repeat split; lia|].
  set (l := b :: bs) in *.
  assert (encode_groups (S fuel) 6 base64_url_alphabet l =
    match String.get (group_value (take 6 l ++ replicate (6 - length l) false)) base64_url_alphabet with
    | Some c => String c (encode_groups fuel 6 base64_url_alphabet (drop 6 l))
    | None => "" end) as -> by reflexivity.
  assert (length (take 6 l ++ replicate (6 - length l) false) = 6)%nat as Hg
    by (rewrite length_app, length_take, length_replicate; lia).
  destruct (sextet_roundtrip _ Hg) as (c & -> & Hb & Hi & Hs).
  assert (length l = S (length bs)) as Hl by reflexivity.
  destruct (IH (drop 6 l)) as (pad & Hd & Hp & Hm); [rewrite length_drop; lia|].
  cbn [decode_chars]. rewrite Hb, Hi, Hd, Hs. rewrite length_drop in Hm.
  destruct (decide (6 <= length l)%nat) as [H6|H6].
  - exists pad. replace (6 - length l)%nat with O by lia. simpl replicate.
    rewrite app_nil_r, app_assoc, take_drop. repeat split; [done|].
    replace (length l + length pad)%nat with ((length l - 6 + length pad) + 1 * 6)%nat by lia.
    by rewrite Nat.Div0.mod_add.
  - exists (replicate (6 - length l) false ++ pad).
    rewrite take_ge, drop_ge in * by lia.
    assert (pad = []) as ->.
    { destruct pad as [|x pad]; [done|]. exfalso.
      replace (length l - 6)%nat with O in Hm by lia.
      rewrite Nat.mod_small in Hm; simpl in *; lia. }
    rewrite !app_nil_r, length_replicate. split; [|split]; [|lia|].
    + done.
    + replace (length l + (6 - length l))%nat with 6%nat by lia. done.
Qed.

(** Decoding inverts encoding, so the encoding is injective. *)
Lemma base64_roundtrip s : base64_RawURL_Decode (base64_RawURL_Encode s) = Some s.
Proof.
  unfold base64_RawURL_Decode, base64_RawURL_Encode, encode_bits.
  destruct (decode_encode_groups (length (bits_of s)) (bits_of s)) as (pad & -> & Hp & Hm); [done|].
  rewrite length_app. rewrite length_bits_of in *.
  destruct (Nat.eqb_spec ((8 * String.length s + length pad) mod 24) 6) as [E|_].
  - exfalso. pose proof (Nat.div_mod_eq (8 * String.length s + length pad) 24).
    pose proof (Nat.div_mod_eq (8 * String.length s + length pad) 6). lia.
  - rewrite bytes_of_bits_of; [done|lia].
Qed.

Lemma base64_inj s1 s2 : base64_RawURL_Encode s1 = base64_RawURL_Encode s2 -> s1 = s2.
Proof.
  intros E. apply (f_equal base64_RawURL_Decode) in E. rewrite !base64_roundtrip in E. congruence.
Qed.

(** ** Decimal numbers *)

Lemma string_app_cons x (a b : string) : String x a +:+ b = String x (a +:+ b).
Proof. done. Qed.
Lemma string_app_nil (a : string) : "" +:+ a = a.
Proof. done. Qed.
Lemma string_app_assoc (a b c : string) : a +:+ (b +:+ c) = (a +:+ b) +:+ c.
Proof. induction a as [|x a IH]; [done|]. rewrite !string_app_cons. congruence. Qed.
Lemma string_length_app (a b : string) :
  String.length (a +:+ b) = (String.length a + String.length b)%nat.
Proof. induction a as [|x a IH]; [done|]. rewrite string_app_cons. simpl. congruence. Qed.
Lemma string_app_nil_r (a : string) : a +:+ "" = a.
Proof. induction a as [|x a IH]; [done|]. rewrite string_app_cons. congruence. Qed.

(** The number a digit string denotes. *)
Fixpoint decimal_value (acc : Z) (s : string) : Z :=
  match s with
  | EmptyString => acc
  | String c s => decimal_value (10 * acc + (Z.of_N (byte_code c) - 48)) s
  end.

Lemma byte_code_digit n : 0 <= n < 10 -> Z.of_N (byte_code (digit n)) = 48 + n.
Proof.
  intros Hn. unfold byte_code, digit. rewrite N_ascii_embedding by lia. lia.
Qed.

Lemma is_digit_digit n : 0 <= n < 10 -> is_digit (digit n) = true.
Proof.
  intros Hn. pose proof (byte_code_digit n Hn). unfold is_digit, in_range.
  change (byte_code "0") with 48%N. change (byte_code "9") with 57%N.
  rewrite andb_true_iff, !N.leb_le. lia.
Qed.

Lemma decimal_go_spec fuel n acc k :
  0 <= n -> n < 2 ^ Z.of_nat fuel -> (0 < fuel)%nat -> n < 10 ^ Z.of_nat k -> (0 < k)%nat ->
  exists d, decimal_go fuel n acc = d +:+ acc /\ bytes_forall is_digit d = true /\
    (0 < String.length d <= k)%nat /\ forall v, decimal_value 0 (d +:+ v) = decimal_value n v.
Proof.
  revert n acc k. induction fuel as [|fuel IH]; intros n acc k Hn Hf H0 Hk Hk0; [lia|].
  cbn [decimal_go].
  pose proof (Z.mod_pos_bound n 10 ltac:(lia)) as Hm. pose proof (is_digit_digit _ Hm) as Hd.
  pose proof (byte_code_digit _ Hm) as Hc. pose proof (Z.div_mod n 10 ltac:(lia)) as Hdm.
  destruct (Z.ltb_spec n 10) as [Hs|Hs].
  - exists (String (digit (n mod 10)) ""). simpl. rewrite Hd. repeat split; [lia..|].
    intros v. change (decimal_value (10 * 0 + (Z.of_N (byte_code (digit (n mod 10))) - 48)) v = decimal_value n v). f_equal. rewrite Z.mod_small by lia. rewrite Z.mod_small in Hc by lia. lia.
  - destruct fuel as [|fuel]; [change (2 ^ Z.of_nat 1) with 2 in Hf; lia|].
    destruct k as [|[|k]]; [lia|change (10 ^ Z.of_nat 1) with 10 in Hk; lia|].
    rewrite (Nat2Z.inj_succ (S fuel)), Z.pow_succ_r in Hf by lia.
    rewrite (Nat2Z.inj_succ (S k)), Z.pow_succ_r in Hk by lia.
    destruct (IH (n / 10) (String (digit (n mod 10)) acc) (S k)) as (d & -> & Hdd & Hl & Hv);
      [lia..|].
    exists (d +:+ String (digit (n mod 10)) ""). rewrite bytes_forall_app. simpl.
    rewrite Hdd, Hd, string_length_app, <- string_app_assoc. simpl.
    repeat split; [lia..|]. intros v. rewrite <- string_app_assoc, Hv.
    change (decimal_value (10 * (n / 10) + (Z.of_N (byte_code (digit (n mod 10))) - 48)) v = decimal_value n v).
    f_equal. lia.
Qed.

Lemma decimal_spec n k :
  0 <= n < 10 ^ Z.of_nat k -> (0 < k)%nat ->
  bytes_forall is_digit (decimal n) = true /\ (0 < String.length (decimal n) <= k)%nat /\
  decimal_value 0 (decimal n) = n.
Proof.
  intros Hn Hk. unfold decimal.
  destruct (decimal_go_spec (S (Z.to_nat (Z.log2 n))) n "" k) as (d & -> & Hd & Hl & Hv);
    [lia| |lia..|].
  - rewrite Nat2Z.inj_succ, Z2Nat.id by apply Z.log2_nonneg.
    destruct (Z.eq_dec n 0) as [->|]; [done|]. apply Z.log2_spec. lia.
  - rewrite string_app_nil_r. repeat split; [done|lia|lia|].
    specialize (Hv ""). rewrite string_app_nil_r in Hv. done.
Qed.

Lemma repeat_zero_spec k s :
  bytes_forall is_digit (repeat_zero k +:+ s) = bytes_forall is_digit s /\
  String.length (repeat_zero k +:+ s) = (k + String.length s)%nat /\
  decimal_value 0 (repeat_zero k +:+ s) = decimal_value 0 s.
Proof.
  induction k as [|k (IH1 & IH2 & IH3)]; [done|]. cbn [repeat_zero]. rewrite string_app_cons.
  cbn [bytes_forall String.length decimal_value]. rewrite IH1, IH2. by repeat split.
Qed.

(** Six digits denote every number below a million, without loss. *)
Lemma Sprintf06d_spec n :
  0 <= n < 1000000 ->
  bytes_forall is_digit (Sprintf06d n) = true /\ String.length (Sprintf06d n) = 6%nat /\
  decimal_value 0 (Sprintf06d n) = n.
Proof.
  intros Hn. destruct (decimal_spec n 6) as (Hd & Hl & Hv); [done|lia|].
  unfold Sprintf06d. destruct (repeat_zero_spec (6 - String.length (decimal n)) (decimal n))
    as (-> & -> & ->). repeat split; [done|lia|done].
Qed.

Lemma Sprintf06d_inj n m :
  0 <= n < 1000000 -> 0 <= m < 1000000 -> Sprintf06d n = Sprintf06d m -> n = m.
Proof.
  intros Hn Hm E. destruct (Sprintf06d_spec n Hn) as (_ & _ & <-).
  destruct (Sprintf06d_spec m Hm) as (_ & _ & <-). by rewrite E.
Qed.
