(* ===== verification/Schema.v ===== *)
(** The database of schema/initial.sql: one record per table, the tables' declared
    constraints as executable checks, and the [ON DELETE CASCADE] rules.

    A column that may be [NULL] is an [option]. Columns no query of the service reads
    (creation timestamps other than those used for ordering) are left out. The JSON body of
    an outbox message is kept as the data it encodes. *)
From S2P Require Import Prelude GoLib.
#[local] Open Scope string_scope.
#[local] Open Scope Z_scope.
#[local] Open Scope list_scope.

(** ** Message bodies (internal/authentication/mail.go [mailRequest] and the JSON objects of
    register and DeleteDueAccount) *)
Record mailRequest := {
  m_Username : string;
  m_Timestamp : option time;
  m_DeleteSharedData : bool;
  m_Client : string;
  m_To : string;
  m_Template : string;
  m_Code : string;
  m_URL : string;
  m_ExpirationTimestamp : option time;  (* None: the zero time.Time *)
}.

Inductive Body :=
| MailBody (m : mailRequest)
| ProfileCreated (userId : uuid)
| ProfileDeleted (userId : uuid) (deleteSharedData : bool).

#[export] Instance mailRequest_eq_dec : EqDecision mailRequest.
Proof. solve_decision. Defined.
#[export] Instance Body_eq_dec : EqDecision Body.
Proof. solve_decision. Defined.

(** ** Rows *)

Record Account := {
  a_id : uuid;
  a_email : string;
  a_email_verification_timestamp : option time;
  a_username : option string;
  a_password_hash : option string;
  a_password_change_timestamp : option time;
  a_blocking_timestamp : option time;
  a_creation_timestamp : time;
}.

Record IdentityRow := {
  i_account_id : uuid;
  i_provider : string;
  i_subject : string;
}.

Record SessionRow := {
  s_id : Z;
  s_account_id : uuid;
  s_refresh_token_hash : bytes;
  s_ip : string;
  s_user_agent : string;
  s_last_refresh_timestamp : time;
  s_expiration_timestamp : time;
}.

Record Authentication := {
  u_id : uuid;
  u_purpose : string;
  u_status : string;
  u_account_id : option uuid;
  u_session_id : option Z;
  u_flow_token_hash : bytes;
  u_failed_attempts : Z;
  u_expiration_timestamp : time;
  u_completion_timestamp : option time;
  u_invalidation_timestamp : option time;
  u_confirmation_token_hash : option bytes;
  u_confirmation_expiration_timestamp : option time;
}.

Record Registration := {
  r_authentication_id : uuid;
  r_email : string;
  r_password_hash : option string;
}.

Record Step := {
  t_id : uuid;
  t_authentication_id : uuid;
  t_type : string;
  t_status : string;
  t_failed_attempts : Z;
  t_creation_timestamp : time;
  t_expiration_timestamp : time;
  t_completion_timestamp : option time;
}.

Record EmailStep := {
  et_step_id : uuid;
  et_email : string;
  et_code_hash : bytes;
}.

Record PasskeyStep := {
  pt_step_id : uuid;
  pt_challenge : bytes;
}.

Record GoogleStep := {
  gt_step_id : uuid;
  gt_nonce_hash : bytes;
}.

Record OAuthRequest := {
  o_state_hash : bytes;
  o_provider : string;
  o_step_id : option uuid;
  o_session_id : option Z;
  o_client_binding_hash : bytes;
  o_redirect_uri : string;
  o_nonce_hash : bytes;
  o_encrypted_code_verifier : bytes;
  o_expiration_timestamp : time;
}.

Record EmailChangeRequest := {
  ec_account_id : uuid;
  ec_previous_email : string;
  ec_email : string;
  ec_stage : string;
  ec_token_hash : bytes;
  ec_expiration_timestamp : time;
}.

Record PasswordResetRequest := {
  pr_account_id : uuid;
  pr_token_hash : bytes;
  pr_creation_timestamp : time;
  pr_expiration_timestamp : time;
}.

Record DeletionRequest := {
  d_account_id : uuid;
  d_delete_shared_data : bool;
  d_deletion_timestamp : time;
}.

Record TotpRow := {
  tp_account_id : uuid;
  tp_encrypted_secret : bytes;
  tp_last_used_step : Z;
  tp_activation_timestamp : time;
}.

Record TotpActivationRequest := {
  ta_account_id : uuid;
  ta_session_id : Z;
  ta_encrypted_secret : bytes;
  ta_expiration_timestamp : time;
}.

Record PasskeyRow := {
  k_id : uuid;
  k_account_id : uuid;
  k_credential_id : bytes;
  k_public_key : bytes;
  k_name : string;
  k_sign_count : Z;
  k_backup_eligible : bool;
  k_backup_state : bool;
  k_creation_timestamp : time;
  k_last_use_timestamp : option time;
}.

Record TransportRow := {
  kt_passkey_id : uuid;
  kt_transport : string;
}.

Record PasskeyRegistrationRow := {
  kr_request_id : uuid;
  kr_session_id : Z;
  kr_challenge : bytes;
  kr_expiration_timestamp : time;
}.

Record BackupCodeRow := {
  b_account_id : uuid;
  b_code_hash : bytes;
  b_generation_timestamp : time;
}.

Record OutboxRow := {
  x_message_id : uuid;
  x_exchange : string;
  x_type : string;
  x_body : Body;
  x_creation_timestamp : time;
}.

(** ** The database *)
Record DB := mkDB {
  accounts : list Account;
  identities : list IdentityRow;
  sessions : list SessionRow;
  authentications : list Authentication;
  registrations : list Registration;
  authentication_steps : list Step;
  email_authentication_steps : list EmailStep;
  passkey_authentication_steps : list PasskeyStep;
  google_authentication_steps : list GoogleStep;
  oauth_requests : list OAuthRequest;
  email_change_requests : list EmailChangeRequest;
  password_reset_requests : list PasswordResetRequest;
  account_deletion_requests : list DeletionRequest;
  totp : list TotpRow;
  totp_activation_requests : list TotpActivationRequest;
  passkeys : list PasskeyRow;
  passkey_transports : list TransportRow;
  passkey_registration_requests : list PasskeyRegistrationRow;
  backup_codes : list BackupCodeRow;
  outbox : list OutboxRow;
}.

Definition empty_db : DB := mkDB [] [] [] [] [] [] [] [] [] [] [] [] [] [] [] [] [] [] [] [].

(** Table updates. *)
Definition set_accounts (v : list Account) (d : DB) : DB :=
  mkDB v (identities d) (sessions d) (authentications d) (registrations d) (authentication_steps
    d) (email_authentication_steps d) (passkey_authentication_steps d)
    (google_authentication_steps d) (oauth_requests d) (email_change_requests d)
    (password_reset_requests d) (account_deletion_requests d) (totp d) (totp_activation_requests
    d) (passkeys d) (passkey_transports d) (passkey_registration_requests d) (backup_codes d)
    (outbox d).
Definition set_identities (v : list IdentityRow) (d : DB) : DB :=
  mkDB (accounts d) v (sessions d) (authentications d) (registrations d) (authentication_steps
    d) (email_authentication_steps d) (passkey_authentication_steps d)
    (google_authentication_steps d) (oauth_requests d) (email_change_requests d)
    (password_reset_requests d) (account_deletion_requests d) (totp d) (totp_activation_requests
    d) (passkeys d) (passkey_transports d) (passkey_registration_requests d) (backup_codes d)
    (outbox d).
Definition set_sessions (v : list SessionRow) (d : DB) : DB :=
  mkDB (accounts d) (identities d) v (authentications d) (registrations d) (authentication_steps
    d) (email_authentication_steps d) (passkey_authentication_steps d)
    (google_authentication_steps d) (oauth_requests d) (email_change_requests d)
    (password_reset_requests d) (account_deletion_requests d) (totp d) (totp_activation_requests
    d) (passkeys d) (passkey_transports d) (passkey_registration_requests d) (backup_codes d)
    (outbox d).
Definition set_authentications (v : list Authentication) (d : DB) : DB :=
  mkDB (accounts d) (identities d) (sessions d) v (registrations d) (authentication_steps d)
    (email_authentication_steps d) (passkey_authentication_steps d) (google_authentication_steps
    d) (oauth_requests d) (email_change_requests d) (password_reset_requests d)
    (account_deletion_requests d) (totp d) (totp_activation_requests d) (passkeys d)
    (passkey_transports d) (passkey_registration_requests d) (backup_codes d) (outbox d).
Definition set_registrations (v : list Registration) (d : DB) : DB :=
  mkDB (accounts d) (identities d) (sessions d) (authentications d) v (authentication_steps d)
    (email_authentication_steps d) (passkey_authentication_steps d) (google_authentication_steps
    d) (oauth_requests d) (email_change_requests d) (password_reset_requests d)
    (account_deletion_requests d) (totp d) (totp_activation_requests d) (passkeys d)
    (passkey_transports d) (passkey_registration_requests d) (backup_codes d) (outbox d).
Definition set_authentication_steps (v : list Step) (d : DB) : DB :=
  mkDB (accounts d) (identities d) (sessions d) (authentications d) (registrations d) v
    (email_authentication_steps d) (passkey_authentication_steps d) (google_authentication_steps
    d) (oauth_requests d) (email_change_requests d) (password_reset_requests d)
    (account_deletion_requests d) (totp d) (totp_activation_requests d) (passkeys d)
    (passkey_transports d) (passkey_registration_requests d) (backup_codes d) (outbox d).
Definition set_email_authentication_steps (v : list EmailStep) (d : DB) : DB :=
  mkDB (accounts d) (identities d) (sessions d) (authentications d) (registrations d)
    (authentication_steps d) v (passkey_authentication_steps d) (google_authentication_steps d)
    (oauth_requests d) (email_change_requests d) (password_reset_requests d)
    (account_deletion_requests d) (totp d) (totp_activation_requests d) (passkeys d)
    (passkey_transports d) (passkey_registration_requests d) (backup_codes d) (outbox d).
Definition set_passkey_authentication_steps (v : list PasskeyStep) (d : DB) : DB :=
  mkDB (accounts d) (identities d) (sessions d) (authentications d) (registrations d)
    (authentication_steps d) (email_authentication_steps d) v (google_authentication_steps d)
    (oauth_requests d) (email_change_requests d) (password_reset_requests d)
    (account_deletion_requests d) (totp d) (totp_activation_requests d) (passkeys d)
    (passkey_transports d) (passkey_registration_requests d) (backup_codes d) (outbox d).
Definition set_google_authentication_steps (v : list GoogleStep) (d : DB) : DB :=
  mkDB (accounts d) (identities d) (sessions d) (authentications d) (registrations d)
    (authentication_steps d) (email_authentication_steps d) (passkey_authentication_steps d) v
    (oauth_requests d) (email_change_requests d) (password_reset_requests d)
    (account_deletion_requests d) (totp d) (totp_activation_requests d) (passkeys d)
    (passkey_transports d) (passkey_registration_requests d) (backup_codes d) (outbox d).
Definition set_oauth_requests (v : list OAuthRequest) (d : DB) : DB :=
  mkDB (accounts d) (identities d) (sessions d) (authentications d) (registrations d)
    (authentication_steps d) (email_authentication_steps d) (passkey_authentication_steps d)
    (google_authentication_steps d) v (email_change_requests d) (password_reset_requests d)
    (account_deletion_requests d) (totp d) (totp_activation_requests d) (passkeys d)
    (passkey_transports d) (passkey_registration_requests d) (backup_codes d) (outbox d).
Definition set_email_change_requests (v : list EmailChangeRequest) (d : DB) : DB :=
  mkDB (accounts d) (identities d) (sessions d) (authentications d) (registrations d)
    (authentication_steps d) (email_authentication_steps d) (passkey_authentication_steps d)
    (google_authentication_steps d) (oauth_requests d) v (password_reset_requests d)
    (account_deletion_requests d) (totp d) (totp_activation_requests d) (passkeys d)
    (passkey_transports d) (passkey_registration_requests d) (backup_codes d) (outbox d).
Definition set_password_reset_requests (v : list PasswordResetRequest) (d : DB) : DB :=
  mkDB (accounts d) (identities d) (sessions d) (authentications d) (registrations d)
    (authentication_steps d) (email_authentication_steps d) (passkey_authentication_steps d)
    (google_authentication_steps d) (oauth_requests d) (email_change_requests d) v
    (account_deletion_requests d) (totp d) (totp_activation_requests d) (passkeys d)
    (passkey_transports d) (passkey_registration_requests d) (backup_codes d) (outbox d).
Definition set_account_deletion_requests (v : list DeletionRequest) (d : DB) : DB :=
  mkDB (accounts d) (identities d) (sessions d) (authentications d) (registrations d)
    (authentication_steps d) (email_authentication_steps d) (passkey_authentication_steps d)
    (google_authentication_steps d) (oauth_requests d) (email_change_requests d)
    (password_reset_requests d) v (totp d) (totp_activation_requests d) (passkeys d)
    (passkey_transports d) (passkey_registration_requests d) (backup_codes d) (outbox d).
Definition set_totp (v : list TotpRow) (d : DB) : DB :=
  mkDB (accounts d) (identities d) (sessions d) (authentications d) (registrations d)
    (authentication_steps d) (email_authentication_steps d) (passkey_authentication_steps d)
    (google_authentication_steps d) (oauth_requests d) (email_change_requests d)
    (password_reset_requests d) (account_deletion_requests d) v (totp_activation_requests d)
    (passkeys d) (passkey_transports d) (passkey_registration_requests d) (backup_codes d)
    (outbox d).
Definition set_totp_activation_requests (v : list TotpActivationRequest) (d : DB) : DB :=
  mkDB (accounts d) (identities d) (sessions d) (authentications d) (registrations d)
    (authentication_steps d) (email_authentication_steps d) (passkey_authentication_steps d)
    (google_authentication_steps d) (oauth_requests d) (email_change_requests d)
    (password_reset_requests d) (account_deletion_requests d) (totp d) v (passkeys d)
    (passkey_transports d) (passkey_registration_requests d) (backup_codes d) (outbox d).
Definition set_passkeys (v : list PasskeyRow) (d : DB) : DB :=
  mkDB (accounts d) (identities d) (sessions d) (authentications d) (registrations d)
    (authentication_steps d) (email_authentication_steps d) (passkey_authentication_steps d)
    (google_authentication_steps d) (oauth_requests d) (email_change_requests d)
    (password_reset_requests d) (account_deletion_requests d) (totp d) (totp_activation_requests
    d) v (passkey_transports d) (passkey_registration_requests d) (backup_codes d) (outbox d).
Definition set_passkey_transports (v : list TransportRow) (d : DB) : DB :=
  mkDB (accounts d) (identities d) (sessions d) (authentications d) (registrations d)
    (authentication_steps d) (email_authentication_steps d) (passkey_authentication_steps d)
    (google_authentication_steps d) (oauth_requests d) (email_change_requests d)
    (password_reset_requests d) (account_deletion_requests d) (totp d) (totp_activation_requests
    d) (passkeys d) v (passkey_registration_requests d) (backup_codes d) (outbox d).
Definition set_passkey_registration_requests (v : list PasskeyRegistrationRow) (d : DB) : DB :=
  mkDB (accounts d) (identities d) (sessions d) (authentications d) (registrations d)
    (authentication_steps d) (email_authentication_steps d) (passkey_authentication_steps d)
    (google_authentication_steps d) (oauth_requests d) (email_change_requests d)
    (password_reset_requests d) (account_deletion_requests d) (totp d) (totp_activation_requests
    d) (passkeys d) (passkey_transports d) v (backup_codes d) (outbox d).
Definition set_backup_codes (v : list BackupCodeRow) (d : DB) : DB :=
  mkDB (accounts d) (identities d) (sessions d) (authentications d) (registrations d)
    (authentication_steps d) (email_authentication_steps d) (passkey_authentication_steps d)
    (google_authentication_steps d) (oauth_requests d) (email_change_requests d)
    (password_reset_requests d) (account_deletion_requests d) (totp d) (totp_activation_requests
    d) (passkeys d) (passkey_transports d) (passkey_registration_requests d) v (outbox d).
Definition set_outbox (v : list OutboxRow) (d : DB) : DB :=
  mkDB (accounts d) (identities d) (sessions d) (authentications d) (registrations d)
    (authentication_steps d) (email_authentication_steps d) (passkey_authentication_steps d)
    (google_authentication_steps d) (oauth_requests d) (email_change_requests d)
    (password_reset_requests d) (account_deletion_requests d) (totp d) (totp_activation_requests
    d) (passkeys d) (passkey_transports d) (passkey_registration_requests d) (backup_codes d) v.

(** Column updates. *)
Definition set_a_email (v : string) (x : Account) : Account :=
  {| a_id := a_id x; a_email := v; a_email_verification_timestamp :=
     a_email_verification_timestamp x; a_username := a_username x; a_password_hash :=
     a_password_hash x; a_password_change_timestamp := a_password_change_timestamp x;
     a_blocking_timestamp := a_blocking_timestamp x; a_creation_timestamp :=
     a_creation_timestamp x |}.
Definition set_a_email_verification_timestamp (v : option time) (x : Account) : Account :=
  {| a_id := a_id x; a_email := a_email x; a_email_verification_timestamp := v; a_username :=
     a_username x; a_password_hash := a_password_hash x; a_password_change_timestamp :=
     a_password_change_timestamp x; a_blocking_timestamp := a_blocking_timestamp x;
     a_creation_timestamp := a_creation_timestamp x |}.
Definition set_a_username (v : option string) (x : Account) : Account :=
  {| a_id := a_id x; a_email := a_email x; a_email_verification_timestamp :=
     a_email_verification_timestamp x; a_username := v; a_password_hash := a_password_hash x;
     a_password_change_timestamp := a_password_change_timestamp x; a_blocking_timestamp :=
     a_blocking_timestamp x; a_creation_timestamp := a_creation_timestamp x |}.
Definition set_a_password_hash (v : option string) (x : Account) : Account :=
  {| a_id := a_id x; a_email := a_email x; a_email_verification_timestamp :=
     a_email_verification_timestamp x; a_username := a_username x; a_password_hash := v;
     a_password_change_timestamp := a_password_change_timestamp x; a_blocking_timestamp :=
     a_blocking_timestamp x; a_creation_timestamp := a_creation_timestamp x |}.
Definition set_a_password_change_timestamp (v : option time) (x : Account) : Account :=
  {| a_id := a_id x; a_email := a_email x; a_email_verification_timestamp :=
     a_email_verification_timestamp x; a_username := a_username x; a_password_hash :=
     a_password_hash x; a_password_change_timestamp := v; a_blocking_timestamp :=
     a_blocking_timestamp x; a_creation_timestamp := a_creation_timestamp x |}.
Definition set_s_refresh_token_hash (v : bytes) (x : SessionRow) : SessionRow :=
  {| s_id := s_id x; s_account_id := s_account_id x; s_refresh_token_hash := v; s_ip := s_ip x;
     s_user_agent := s_user_agent x; s_last_refresh_timestamp := s_last_refresh_timestamp x;
     s_expiration_timestamp := s_expiration_timestamp x |}.
Definition set_s_ip (v : string) (x : SessionRow) : SessionRow :=
  {| s_id := s_id x; s_account_id := s_account_id x; s_refresh_token_hash :=
     s_refresh_token_hash x; s_ip := v; s_user_agent := s_user_agent x; s_last_refresh_timestamp
     := s_last_refresh_timestamp x; s_expiration_timestamp := s_expiration_timestamp x |}.
Definition set_s_user_agent (v : string) (x : SessionRow) : SessionRow :=
  {| s_id := s_id x; s_account_id := s_account_id x; s_refresh_token_hash :=
     s_refresh_token_hash x; s_ip := s_ip x; s_user_agent := v; s_last_refresh_timestamp :=
     s_last_refresh_timestamp x; s_expiration_timestamp := s_expiration_timestamp x |}.
Definition set_s_last_refresh_timestamp (v : time) (x : SessionRow) : SessionRow :=
  {| s_id := s_id x; s_account_id := s_account_id x; s_refresh_token_hash :=
     s_refresh_token_hash x; s_ip := s_ip x; s_user_agent := s_user_agent x;
     s_last_refresh_timestamp := v; s_expiration_timestamp := s_expiration_timestamp x |}.
Definition set_s_expiration_timestamp (v : time) (x : SessionRow) : SessionRow :=
  {| s_id := s_id x; s_account_id := s_account_id x; s_refresh_token_hash :=
     s_refresh_token_hash x; s_ip := s_ip x; s_user_agent := s_user_agent x;
     s_last_refresh_timestamp := s_last_refresh_timestamp x; s_expiration_timestamp := v |}.
Definition set_u_status (v : string) (x : Authentication) : Authentication :=
  {| u_id := u_id x; u_purpose := u_purpose x; u_status := v; u_account_id := u_account_id x;
     u_session_id := u_session_id x; u_flow_token_hash := u_flow_token_hash x; u_failed_attempts
     := u_failed_attempts x; u_expiration_timestamp := u_expiration_timestamp x;
     u_completion_timestamp := u_completion_timestamp x; u_invalidation_timestamp :=
     u_invalidation_timestamp x; u_confirmation_token_hash := u_confirmation_token_hash x;
     u_confirmation_expiration_timestamp := u_confirmation_expiration_timestamp x |}.
Definition set_u_account_id (v : option uuid) (x : Authentication) : Authentication :=
  {| u_id := u_id x; u_purpose := u_purpose x; u_status := u_status x; u_account_id := v;
     u_session_id := u_session_id x; u_flow_token_hash := u_flow_token_hash x; u_failed_attempts
     := u_failed_attempts x; u_expiration_timestamp := u_expiration_timestamp x;
     u_completion_timestamp := u_completion_timestamp x; u_invalidation_timestamp :=
     u_invalidation_timestamp x; u_confirmation_token_hash := u_confirmation_token_hash x;
     u_confirmation_expiration_timestamp := u_confirmation_expiration_timestamp x |}.
Definition set_u_failed_attempts (v : Z) (x : Authentication) : Authentication :=
  {| u_id := u_id x; u_purpose := u_purpose x; u_status := u_status x; u_account_id :=
     u_account_id x; u_session_id := u_session_id x; u_flow_token_hash := u_flow_token_hash x;
     u_failed_attempts := v; u_expiration_timestamp := u_expiration_timestamp x;
     u_completion_timestamp := u_completion_timestamp x; u_invalidation_timestamp :=
     u_invalidation_timestamp x; u_confirmation_token_hash := u_confirmation_token_hash x;
     u_confirmation_expiration_timestamp := u_confirmation_expiration_timestamp x |}.
Definition set_u_completion_timestamp (v : option time) (x : Authentication) : Authentication :=
  {| u_id := u_id x; u_purpose := u_purpose x; u_status := u_status x; u_account_id :=
     u_account_id x; u_session_id := u_session_id x; u_flow_token_hash := u_flow_token_hash x;
     u_failed_attempts := u_failed_attempts x; u_expiration_timestamp := u_expiration_timestamp
     x; u_completion_timestamp := v; u_invalidation_timestamp := u_invalidation_timestamp x;
     u_confirmation_token_hash := u_confirmation_token_hash x;
     u_confirmation_expiration_timestamp := u_confirmation_expiration_timestamp x |}.
Definition set_u_invalidation_timestamp (v : option time) (x : Authentication) : Authentication :=
  {| u_id := u_id x; u_purpose := u_purpose x; u_status := u_status x; u_account_id :=
     u_account_id x; u_session_id := u_session_id x; u_flow_token_hash := u_flow_token_hash x;
     u_failed_attempts := u_failed_attempts x; u_expiration_timestamp := u_expiration_timestamp
     x; u_completion_timestamp := u_completion_timestamp x; u_invalidation_timestamp := v;
     u_confirmation_token_hash := u_confirmation_token_hash x;
     u_confirmation_expiration_timestamp := u_confirmation_expiration_timestamp x |}.
Definition set_u_confirmation_token_hash (v : option bytes) (x : Authentication) : Authentication :=
  {| u_id := u_id x; u_purpose := u_purpose x; u_status := u_status x; u_account_id :=
     u_account_id x; u_session_id := u_session_id x; u_flow_token_hash := u_flow_token_hash x;
     u_failed_attempts := u_failed_attempts x; u_expiration_timestamp := u_expiration_timestamp
     x; u_completion_timestamp := u_completion_timestamp x; u_invalidation_timestamp :=
     u_invalidation_timestamp x; u_confirmation_token_hash := v;
     u_confirmation_expiration_timestamp := u_confirmation_expiration_timestamp x |}.
Definition set_u_confirmation_expiration_timestamp (v : option time) (x : Authentication) : Authentication :=
  {| u_id := u_id x; u_purpose := u_purpose x; u_status := u_status x; u_account_id :=
     u_account_id x; u_session_id := u_session_id x; u_flow_token_hash := u_flow_token_hash x;
     u_failed_attempts := u_failed_attempts x; u_expiration_timestamp := u_expiration_timestamp
     x; u_completion_timestamp := u_completion_timestamp x; u_invalidation_timestamp :=
     u_invalidation_timestamp x; u_confirmation_token_hash := u_confirmation_token_hash x;
     u_confirmation_expiration_timestamp := v |}.
Definition set_r_password_hash (v : option string) (x : Registration) : Registration :=
  {| r_authentication_id := r_authentication_id x; r_email := r_email x; r_password_hash := v
     |}.
Definition set_t_status (v : string) (x : Step) : Step :=
  {| t_id := t_id x; t_authentication_id := t_authentication_id x; t_type := t_type x; t_status
     := v; t_failed_attempts := t_failed_attempts x; t_creation_timestamp :=
     t_creation_timestamp x; t_expiration_timestamp := t_expiration_timestamp x;
     t_completion_timestamp := t_completion_timestamp x |}.
Definition set_t_failed_attempts (v : Z) (x : Step) : Step :=
  {| t_id := t_id x; t_authentication_id := t_authentication_id x; t_type := t_type x; t_status
     := t_status x; t_failed_attempts := v; t_creation_timestamp := t_creation_timestamp x;
     t_expiration_timestamp := t_expiration_timestamp x; t_completion_timestamp :=
     t_completion_timestamp x |}.
Definition set_t_completion_timestamp (v : option time) (x : Step) : Step :=
  {| t_id := t_id x; t_authentication_id := t_authentication_id x; t_type := t_type x; t_status
     := t_status x; t_failed_attempts := t_failed_attempts x; t_creation_timestamp :=
     t_creation_timestamp x; t_expiration_timestamp := t_expiration_timestamp x;
     t_completion_timestamp := v |}.
Definition set_ec_stage (v : string) (x : EmailChangeRequest) : EmailChangeRequest :=
  {| ec_account_id := ec_account_id x; ec_previous_email := ec_previous_email x; ec_email :=
     ec_email x; ec_stage := v; ec_token_hash := ec_token_hash x; ec_expiration_timestamp :=
     ec_expiration_timestamp x |}.
Definition set_ec_token_hash (v : bytes) (x : EmailChangeRequest) : EmailChangeRequest :=
  {| ec_account_id := ec_account_id x; ec_previous_email := ec_previous_email x; ec_email :=
     ec_email x; ec_stage := ec_stage x; ec_token_hash := v; ec_expiration_timestamp :=
     ec_expiration_timestamp x |}.
Definition set_ec_expiration_timestamp (v : time) (x : EmailChangeRequest) : EmailChangeRequest :=
  {| ec_account_id := ec_account_id x; ec_previous_email := ec_previous_email x; ec_email :=
     ec_email x; ec_stage := ec_stage x; ec_token_hash := ec_token_hash x;
     ec_expiration_timestamp := v |}.
Definition set_pr_token_hash (v : bytes) (x : PasswordResetRequest) : PasswordResetRequest :=
  {| pr_account_id := pr_account_id x; pr_token_hash := v; pr_creation_timestamp :=
     pr_creation_timestamp x; pr_expiration_timestamp := pr_expiration_timestamp x |}.
Definition set_pr_creation_timestamp (v : time) (x : PasswordResetRequest) : PasswordResetRequest :=
  {| pr_account_id := pr_account_id x; pr_token_hash := pr_token_hash x; pr_creation_timestamp
     := v; pr_expiration_timestamp := pr_expiration_timestamp x |}.
Definition set_pr_expiration_timestamp (v : time) (x : PasswordResetRequest) : PasswordResetRequest :=
  {| pr_account_id := pr_account_id x; pr_token_hash := pr_token_hash x; pr_creation_timestamp
     := pr_creation_timestamp x; pr_expiration_timestamp := v |}.
Definition set_d_delete_shared_data (v : bool) (x : DeletionRequest) : DeletionRequest :=
  {| d_account_id := d_account_id x; d_delete_shared_data := v; d_deletion_timestamp :=
     d_deletion_timestamp x |}.
Definition set_tp_last_used_step (v : Z) (x : TotpRow) : TotpRow :=
  {| tp_account_id := tp_account_id x; tp_encrypted_secret := tp_encrypted_secret x;
     tp_last_used_step := v; tp_activation_timestamp := tp_activation_timestamp x |}.
Definition set_ta_session_id (v : Z) (x : TotpActivationRequest) : TotpActivationRequest :=
  {| ta_account_id := ta_account_id x; ta_session_id := v; ta_encrypted_secret :=
     ta_encrypted_secret x; ta_expiration_timestamp := ta_expiration_timestamp x |}.
Definition set_ta_encrypted_secret (v : bytes) (x : TotpActivationRequest) : TotpActivationRequest :=
  {| ta_account_id := ta_account_id x; ta_session_id := ta_session_id x; ta_encrypted_secret :=
     v; ta_expiration_timestamp := ta_expiration_timestamp x |}.
Definition set_ta_expiration_timestamp (v : time) (x : TotpActivationRequest) : TotpActivationRequest :=
  {| ta_account_id := ta_account_id x; ta_session_id := ta_session_id x; ta_encrypted_secret :=
     ta_encrypted_secret x; ta_expiration_timestamp := v |}.
Definition set_k_name (v : string) (x : PasskeyRow) : PasskeyRow :=
  {| k_id := k_id x; k_account_id := k_account_id x; k_credential_id := k_credential_id x;
     k_public_key := k_public_key x; k_name := v; k_sign_count := k_sign_count x;
     k_backup_eligible := k_backup_eligible x; k_backup_state := k_backup_state x;
     k_creation_timestamp := k_creation_timestamp x; k_last_use_timestamp :=
     k_last_use_timestamp x |}.
Definition set_k_sign_count (v : Z) (x : PasskeyRow) : PasskeyRow :=
  {| k_id := k_id x; k_account_id := k_account_id x; k_credential_id := k_credential_id x;
     k_public_key := k_public_key x; k_name := k_name x; k_sign_count := v; k_backup_eligible :=
     k_backup_eligible x; k_backup_state := k_backup_state x; k_creation_timestamp :=
     k_creation_timestamp x; k_last_use_timestamp := k_last_use_timestamp x |}.
Definition set_k_backup_state (v : bool) (x : PasskeyRow) : PasskeyRow :=
  {| k_id := k_id x; k_account_id := k_account_id x; k_credential_id := k_credential_id x;
     k_public_key := k_public_key x; k_name := k_name x; k_sign_count := k_sign_count x;
     k_backup_eligible := k_backup_eligible x; k_backup_state := v; k_creation_timestamp :=
     k_creation_timestamp x; k_last_use_timestamp := k_last_use_timestamp x |}.
Definition set_k_last_use_timestamp (v : option time) (x : PasskeyRow) : PasskeyRow :=
  {| k_id := k_id x; k_account_id := k_account_id x; k_credential_id := k_credential_id x;
     k_public_key := k_public_key x; k_name := k_name x; k_sign_count := k_sign_count x;
     k_backup_eligible := k_backup_eligible x; k_backup_state := k_backup_state x;
     k_creation_timestamp := k_creation_timestamp x; k_last_use_timestamp := v |}.

(** ** CHECK constraints *)
Definition one_of (l : list string) (s : string) : bool := existsb (fun x => x == s) l.

Definition known_purposes : list string :=
  ["signIn"; "signUp"; "passwordChange"; "emailChange"; "accountDeletion"; "totpEnrollment";
   "totpRemoval"; "passkeyEnrollment"; "passkeyRemoval"; "backupCodesRotation";
   "identityLink"; "identityUnlink"].
Definition known_statuses : list string := ["pending"; "completed"; "failed"; "cancelled"].
Definition known_step_types : list string :=
  ["registration"; "passwordSetup"; "passwordVerification"; "googleVerification";
   "vkVerification"; "passkeyVerification"; "totpVerification"; "backupCodeVerification";
   "emailVerification"].
Definition known_providers : list string := ["google"; "vk"].


Definition authentication_ok (u : Authentication) : bool :=
  one_of known_purposes (u_purpose u) && one_of known_statuses (u_status u) &&
  (0 <=? u_failed_attempts u) &&
  Bool.eqb (isSome (u_confirmation_token_hash u)) (isSome (u_confirmation_expiration_timestamp u)) &&
  (one_of ["signIn"; "signUp"] (u_purpose u) ||
   (isSome (u_account_id u) && isSome (u_session_id u))) &&
  ((u_status u != "completed") ||
   (isSome (u_account_id u) && isSome (u_completion_timestamp u))).

Definition step_ok (t : Step) : bool :=
  one_of known_step_types (t_type t) && one_of known_statuses (t_status t) &&
  (0 <=? t_failed_attempts t) &&
  ((t_status t != "completed") || isSome (t_completion_timestamp t)).

Definition checks_ok (d : DB) : bool :=
  forallb (fun i => one_of known_providers (i_provider i) && (i_subject i != "")) (identities d) &&
  forallb authentication_ok (authentications d) &&
  forallb step_ok (authentication_steps d) &&
  forallb (fun o => one_of known_providers (o_provider o) &&
                    negb (Bool.eqb (isSome (o_step_id o)) (isSome (o_session_id o))))
    (oauth_requests d) &&
  forallb (fun c => one_of ["awaiting_previous_email"; "awaiting_new_email"] (ec_stage c))
    (email_change_requests d) &&
  forallb (fun t => 0 <=? tp_last_used_step t) (totp d) &&
  forallb (fun k => (0 <=? k_sign_count k) && (negb (k_backup_state k) || k_backup_eligible k))
    (passkeys d).

(** ** PRIMARY KEY and UNIQUE constraints *)
Definition accounts_unique (d : DB) : bool :=
  distinct (map a_id (accounts d)) && distinct (map a_email (accounts d)) &&
  distinct_opt (map a_username (accounts d)).
Definition identities_unique (d : DB) : bool :=
  distinct (map (fun i => (i_account_id i, i_provider i)) (identities d)) &&
  distinct (map (fun i => (i_provider i, i_subject i)) (identities d)).
Definition sessions_unique (d : DB) : bool :=
  distinct (map s_id (sessions d)) && distinct (map s_refresh_token_hash (sessions d)).
Definition authentications_unique (d : DB) : bool :=
  distinct (map u_id (authentications d)) &&
  distinct (map u_flow_token_hash (authentications d)) &&
  distinct_opt (map u_confirmation_token_hash (authentications d)).
Definition steps_unique (d : DB) : bool :=
  distinct (map r_authentication_id (registrations d)) &&
  distinct (map t_id (authentication_steps d)) &&
  distinct (map et_step_id (email_authentication_steps d)) &&
  distinct (map pt_step_id (passkey_authentication_steps d)) &&
  distinct (map gt_step_id (google_authentication_steps d)) &&
  distinct (map o_state_hash (oauth_requests d)).
Definition requests_unique (d : DB) : bool :=
  distinct (map ec_account_id (email_change_requests d)) &&
  distinct (map ec_token_hash (email_change_requests d)) &&
  distinct (map pr_account_id (password_reset_requests d)) &&
  distinct (map pr_token_hash (password_reset_requests d)) &&
  distinct (map d_account_id (account_deletion_requests d)).
Definition factors_unique (d : DB) : bool :=
  distinct (map tp_account_id (totp d)) &&
  distinct (map ta_account_id (totp_activation_requests d)) &&
  distinct (map k_id (passkeys d)) && distinct (map k_credential_id (passkeys d)) &&
  distinct (map (fun t => (kt_passkey_id t, kt_transport t)) (passkey_transports d)) &&
  distinct (map kr_request_id (passkey_registration_requests d)) &&
  distinct (map (fun b => (b_account_id b, b_code_hash b)) (backup_codes d)) &&
  distinct (map x_message_id (outbox d)).
Definition unique_ok (d : DB) : bool :=
  accounts_unique d && identities_unique d && sessions_unique d && authentications_unique d &&
  steps_unique d && requests_unique d && factors_unique d.

(** ** Foreign keys and ON DELETE CASCADE *)
Definition has_account (d : DB) (x : uuid) : bool := any (fun a => a_id a == x) (accounts d).
Definition has_session (d : DB) (x : Z) : bool := any (fun s => s_id s == x) (sessions d).
Definition has_authentication (d : DB) (x : uuid) : bool :=
  any (fun u => u_id u == x) (authentications d).
Definition has_step (d : DB) (x : uuid) : bool :=
  any (fun t => t_id t == x) (authentication_steps d).
Definition has_passkey (d : DB) (x : uuid) : bool := any (fun k => k_id k == x) (passkeys d).
(** A [NULL] reference satisfies its foreign key. *)
Definition opt_ref {A} (p : A -> bool) (o : option A) : bool :=
  match o with Some x => p x | None => true end.

Definition fk_ok (d : DB) : bool :=
  forallb (fun i => has_account d (i_account_id i)) (identities d) &&
  forallb (fun s => has_account d (s_account_id s)) (sessions d) &&
  forallb (fun u => opt_ref (has_account d) (u_account_id u) &&
                    opt_ref (has_session d) (u_session_id u)) (authentications d) &&
  forallb (fun r => has_authentication d (r_authentication_id r)) (registrations d) &&
  forallb (fun t => has_authentication d (t_authentication_id t)) (authentication_steps d) &&
  forallb (fun e => has_step d (et_step_id e)) (email_authentication_steps d) &&
  forallb (fun e => has_step d (pt_step_id e)) (passkey_authentication_steps d) &&
  forallb (fun e => has_step d (gt_step_id e)) (google_authentication_steps d) &&
  forallb (fun o => opt_ref (has_step d) (o_step_id o) &&
                    opt_ref (has_session d) (o_session_id o)) (oauth_requests d) &&
  forallb (fun c => has_account d (ec_account_id c)) (email_change_requests d) &&
  forallb (fun c => has_account d (pr_account_id c)) (password_reset_requests d) &&
  forallb (fun c => has_account d (d_account_id c)) (account_deletion_requests d) &&
  forallb (fun c => has_account d (tp_account_id c)) (totp d) &&
  forallb (fun c => has_account d (ta_account_id c) && has_session d (ta_session_id c))
    (totp_activation_requests d) &&
  forallb (fun k => has_account d (k_account_id k)) (passkeys d) &&
  forallb (fun k => has_passkey d (kt_passkey_id k)) (passkey_transports d) &&
  forallb (fun k => has_session d (kr_session_id k)) (passkey_registration_requests d) &&
  forallb (fun b => has_account d (b_account_id b)) (backup_codes d).

(** The first violated constraint of a statement's outcome, as PostgreSQL's SQLSTATE:
    check_violation, unique_violation, foreign_key_violation. *)
Definition violation (d : DB) : option string :=
  if negb (checks_ok d) then Some "23514"
  else if negb (unique_ok d) then Some "23505"
  else if negb (fk_ok d) then Some "23503"
  else None.

Definition schema_ok (d : DB) : bool := checks_ok d && unique_ok d && fk_ok d.

Lemma violation_none d : violation d = None <-> schema_ok d = true.
Proof. unfold violation, schema_ok. destruct (checks_ok d), (unique_ok d), (fk_ok d); done. Qed.

(** Rows that lost their parent disappear; parents come before children. *)
Definition drop_orphans_of_accounts (d : DB) : DB :=
  let keep x := has_account d x in
  mkDB (accounts d)
    (sel (fun i => keep (i_account_id i)) (identities d))
    (sel (fun s => keep (s_account_id s)) (sessions d))
    (sel (fun u => opt_ref keep (u_account_id u)) (authentications d))
    (registrations d) (authentication_steps d) (email_authentication_steps d)
    (passkey_authentication_steps d) (google_authentication_steps d) (oauth_requests d)
    (sel (fun c => keep (ec_account_id c)) (email_change_requests d))
    (sel (fun c => keep (pr_account_id c)) (password_reset_requests d))
    (sel (fun c => keep (d_account_id c)) (account_deletion_requests d))
    (sel (fun c => keep (tp_account_id c)) (totp d))
    (sel (fun c => keep (ta_account_id c)) (totp_activation_requests d))
    (sel (fun k => keep (k_account_id k)) (passkeys d))
    (passkey_transports d) (passkey_registration_requests d)
    (sel (fun b => keep (b_account_id b)) (backup_codes d)) (outbox d).

Definition drop_orphans_of_sessions (d : DB) : DB :=
  let keep x := has_session d x in
  mkDB (accounts d) (identities d) (sessions d)
    (sel (fun u => opt_ref keep (u_session_id u)) (authentications d))
    (registrations d) (authentication_steps d) (email_authentication_steps d)
    (passkey_authentication_steps d) (google_authentication_steps d)
    (sel (fun o => opt_ref keep (o_session_id o)) (oauth_requests d))
    (email_change_requests d) (password_reset_requests d) (account_deletion_requests d)
    (totp d) (sel (fun c => keep (ta_session_id c)) (totp_activation_requests d))
    (passkeys d) (passkey_transports d)
    (sel (fun c => keep (kr_session_id c)) (passkey_registration_requests d))
    (backup_codes d) (outbox d).

Definition drop_orphans_of_authentications (d : DB) : DB :=
  let keep x := has_authentication d x in
  mkDB (accounts d) (identities d) (sessions d) (authentications d)
    (sel (fun r => keep (r_authentication_id r)) (registrations d))
    (sel (fun t => keep (t_authentication_id t)) (authentication_steps d))
    (email_authentication_steps d) (passkey_authentication_steps d)
    (google_authentication_steps d) (oauth_requests d) (email_change_requests d)
    (password_reset_requests d) (account_deletion_requests d) (totp d)
    (totp_activation_requests d) (passkeys d) (passkey_transports d)
    (passkey_registration_requests d) (backup_codes d) (outbox d).

Definition drop_orphans_of_steps (d : DB) : DB :=
  let keep x := has_step d x in
  mkDB (accounts d) (identities d) (sessions d) (authentications d) (registrations d)
    (authentication_steps d)
    (sel (fun e => keep (et_step_id e)) (email_authentication_steps d))
    (sel (fun e => keep (pt_step_id e)) (passkey_authentication_steps d))
    (sel (fun e => keep (gt_step_id e)) (google_authentication_steps d))
    (sel (fun o => opt_ref keep (o_step_id o)) (oauth_requests d))
    (email_change_requests d) (password_reset_requests d) (account_deletion_requests d)
    (totp d) (totp_activation_requests d) (passkeys d) (passkey_transports d)
    (passkey_registration_requests d) (backup_codes d) (outbox d).

Definition drop_orphans_of_passkeys (d : DB) : DB :=
  set_passkey_transports
    (sel (fun k => has_passkey d (kt_passkey_id k)) (passkey_transports d)) d.

Definition cascade (d : DB) : DB :=
  drop_orphans_of_passkeys (drop_orphans_of_steps (drop_orphans_of_authentications (drop_orphans_of_sessions (drop_orphans_of_accounts d)))).

(** *** What the cascade does to each table *)
Section Cascade.
Context (d : DB).

Lemma cascade_accounts :
  accounts (cascade d) =
    accounts d.
Proof. reflexivity. Qed.
Lemma cascade_identities :
  identities (cascade d) =
    sel (fun i => has_account (cascade d) (i_account_id i)) (identities d).
Proof. reflexivity. Qed.
Lemma cascade_sessions :
  sessions (cascade d) =
    sel (fun s => has_account (cascade d) (s_account_id s)) (sessions d).
Proof. reflexivity. Qed.
Lemma cascade_authentications :
  authentications (cascade d) =
    sel (fun u => opt_ref (has_session (cascade d)) (u_session_id u))
    (sel (fun u => opt_ref (has_account (cascade d)) (u_account_id u)) (authentications d)).
Proof. reflexivity. Qed.
Lemma cascade_registrations :
  registrations (cascade d) =
    sel (fun r => has_authentication (cascade d) (r_authentication_id r)) (registrations d).
Proof. reflexivity. Qed.
Lemma cascade_authentication_steps :
  authentication_steps (cascade d) =
    sel (fun t => has_authentication (cascade d) (t_authentication_id t)) (authentication_steps d).
Proof. reflexivity. Qed.
Lemma cascade_email_authentication_steps :
  email_authentication_steps (cascade d) =
    sel (fun e => has_step (cascade d) (et_step_id e)) (email_authentication_steps d).
Proof. reflexivity. Qed.
Lemma cascade_passkey_authentication_steps :
  passkey_authentication_steps (cascade d) =
    sel (fun e => has_step (cascade d) (pt_step_id e)) (passkey_authentication_steps d).
Proof. reflexivity. Qed.
Lemma cascade_google_authentication_steps :
  google_authentication_steps (cascade d) =
    sel (fun e => has_step (cascade d) (gt_step_id e)) (google_authentication_steps d).
Proof. reflexivity. Qed.
Lemma cascade_oauth_requests :
  oauth_requests (cascade d) =
    sel (fun o => opt_ref (has_step (cascade d)) (o_step_id o))
    (sel (fun o => opt_ref (has_session (cascade d)) (o_session_id o)) (oauth_requests d)).
Proof. reflexivity. Qed.
Lemma cascade_email_change_requests :
  email_change_requests (cascade d) =
    sel (fun c => has_account (cascade d) (ec_account_id c)) (email_change_requests d).
Proof. reflexivity. Qed.
Lemma cascade_password_reset_requests :
  password_reset_requests (cascade d) =
    sel (fun c => has_account (cascade d) (pr_account_id c)) (password_reset_requests d).
Proof. reflexivity. Qed.
Lemma cascade_account_deletion_requests :
  account_deletion_requests (cascade d) =
    sel (fun c => has_account (cascade d) (d_account_id c)) (account_deletion_requests d).
Proof. reflexivity. Qed.
Lemma cascade_totp :
  totp (cascade d) =
    sel (fun c => has_account (cascade d) (tp_account_id c)) (totp d).
Proof. reflexivity. Qed.
Lemma cascade_totp_activation_requests :
  totp_activation_requests (cascade d) =
    sel (fun c => has_session (cascade d) (ta_session_id c))
    (sel (fun c => has_account (cascade d) (ta_account_id c)) (totp_activation_requests d)).
Proof. reflexivity. Qed.
Lemma cascade_passkeys :
  passkeys (cascade d) =
    sel (fun k => has_account (cascade d) (k_account_id k)) (passkeys d).
Proof. reflexivity. Qed.
Lemma cascade_passkey_transports :
  passkey_transports (cascade d) =
    sel (fun k => has_passkey (cascade d) (kt_passkey_id k)) (passkey_transports d).
Proof. reflexivity. Qed.
Lemma cascade_passkey_registration_requests :
  passkey_registration_requests (cascade d) =
    sel (fun c => has_session (cascade d) (kr_session_id c)) (passkey_registration_requests d).
Proof. reflexivity. Qed.
Lemma cascade_backup_codes :
  backup_codes (cascade d) =
    sel (fun b => has_account (cascade d) (b_account_id b)) (backup_codes d).
Proof. reflexivity. Qed.
Lemma cascade_outbox :
  outbox (cascade d) =
    outbox d.
Proof. reflexivity. Qed.
End Cascade.

#[global] Arguments cascade : simpl never.
Create Rewrite HintDb cascade.
#[export] Hint Rewrite cascade_accounts
  cascade_identities
  cascade_sessions
  cascade_authentications
  cascade_registrations
  cascade_authentication_steps
  cascade_email_authentication_steps
  cascade_passkey_authentication_steps
  cascade_google_authentication_steps
  cascade_oauth_requests
  cascade_email_change_requests
  cascade_password_reset_requests
  cascade_account_deletion_requests
  cascade_totp
  cascade_totp_activation_requests
  cascade_passkeys
  cascade_passkey_transports
  cascade_passkey_registration_requests
  cascade_backup_codes
  cascade_outbox : cascade.

(** The cascade restores every foreign key. *)
Lemma cascade_fk d : fk_ok (cascade d) = true.
Proof.
  unfold fk_ok. rewrite !andb_true_iff. repeat split;
    apply forallb_forall; intros x Hx; autorewrite with cascade in Hx;
    rewrite ?in_sel in Hx; rewrite ?andb_true_iff; tauto.
Qed.

(** *** Rows survive a cascade unless a parent is gone *)

Lemma has_account_cascade d x : has_account (cascade d) x = has_account d x.
Proof. unfold has_account. by rewrite cascade_accounts. Qed.

(** Unique keys survive the removal of rows. *)
Lemma distinct_sublist {K} `{EqDecision K} (l k : list K) :
  sublist l k -> distinct k = true -> distinct l = true.
Proof. unfold distinct. rewrite !bool_decide_eq_true. intros Hs Hk. by eapply sublist_NoDup. Qed.

Lemma map_sel_sublist {R K} (k : R -> K) p t : sublist (map k (sel p t)) (map k t).
Proof.
  induction t as [|r t IH]; simpl; [constructor|].
  destruct (p r); simpl; by constructor.
Qed.

(** ** Keys of a database that satisfies its schema *)
Section Keys.
Context (d : DB) (Hok : schema_ok d = true).

Local Ltac keys :=
  revert Hok; unfold schema_ok, unique_ok, accounts_unique, identities_unique, sessions_unique,
    authentications_unique, steps_unique, requests_unique, factors_unique;
  rewrite !andb_true_iff; intros; destruct_and?; eauto using distinct_inj, distinct_opt_inj.

Lemma account_id_key x y :
  In x (accounts d) -> In y (accounts d) -> a_id x = a_id y -> x = y.
Proof using Hok. keys. Qed.
Lemma account_email_key x y :
  In x (accounts d) -> In y (accounts d) -> a_email x = a_email y -> x = y.
Proof using Hok. keys. Qed.
Lemma account_username_key x y v :
  In x (accounts d) -> In y (accounts d) -> a_username x = Some v -> a_username y = Some v -> x = y.
Proof using Hok. keys. Qed.
Lemma identity_key x y :
  In x (identities d) -> In y (identities d) ->
  (i_provider x, i_subject x) = (i_provider y, i_subject y) -> x = y.
Proof using Hok. keys. Qed.
Lemma session_id_key x y : In x (sessions d) -> In y (sessions d) -> s_id x = s_id y -> x = y.
Proof using Hok. keys. Qed.
Lemma session_token_key x y :
  In x (sessions d) -> In y (sessions d) -> s_refresh_token_hash x = s_refresh_token_hash y -> x = y.
Proof using Hok. keys. Qed.
Lemma authentication_id_key x y :
  In x (authentications d) -> In y (authentications d) -> u_id x = u_id y -> x = y.
Proof using Hok. keys. Qed.
Lemma grant_key x y v :
  In x (authentications d) -> In y (authentications d) ->
  u_confirmation_token_hash x = Some v -> u_confirmation_token_hash y = Some v -> x = y.
Proof using Hok. keys. Qed.
Lemma registration_key x y :
  In x (registrations d) -> In y (registrations d) ->
  r_authentication_id x = r_authentication_id y -> x = y.
Proof using Hok. keys. Qed.
Lemma step_id_key x y :
  In x (authentication_steps d) -> In y (authentication_steps d) -> t_id x = t_id y -> x = y.
Proof using Hok. keys. Qed.
Lemma email_step_key x y :
  In x (email_authentication_steps d) -> In y (email_authentication_steps d) ->
  et_step_id x = et_step_id y -> x = y.
Proof using Hok. keys. Qed.
Lemma totp_key x y :
  In x (totp d) -> In y (totp d) -> tp_account_id x = tp_account_id y -> x = y.
Proof using Hok. keys. Qed.
Lemma backup_code_key x y :
  In x (backup_codes d) -> In y (backup_codes d) ->
  (b_account_id x, b_code_hash x) = (b_account_id y, b_code_hash y) -> x = y.
Proof using Hok. keys. Qed.
Lemma deletion_key x y :
  In x (account_deletion_requests d) -> In y (account_deletion_requests d) ->
  d_account_id x = d_account_id y -> x = y.
Proof using Hok. keys. Qed.
Lemma oauth_key x y :
  In x (oauth_requests d) -> In y (oauth_requests d) -> o_state_hash x = o_state_hash y -> x = y.
Proof using Hok. keys. Qed.
Lemma reset_key x y :
  In x (password_reset_requests d) -> In y (password_reset_requests d) ->
  pr_token_hash x = pr_token_hash y -> x = y.
Proof using Hok. keys. Qed.
Lemma outbox_key x y :
  In x (outbox d) -> In y (outbox d) -> x_message_id x = x_message_id y -> x = y.
Proof using Hok. keys. Qed.
End Keys.

(** Removing events breaks no constraint. *)
Lemma schema_ok_outbox p d :
  schema_ok d = true -> schema_ok (set_outbox (del p (outbox d)) d) = true.
Proof.
  unfold schema_ok. rewrite !andb_true_iff. intros [[Hc Hu] Hf]. split_and!; [done| |done].
  revert Hu. unfold unique_ok, factors_unique. rewrite !andb_true_iff. simpl.
  intros Hu. destruct_and! Hu. split_and!; try done.
  eapply distinct_sublist; [apply (map_sel_sublist _ (fun r => negb (p r)))|done].
Qed.

(** Step types are the known ones. *)
Lemma schema_step_type d t :
  schema_ok d = true -> In t (authentication_steps d) -> In (t_type t) known_step_types.
Proof.
  unfold schema_ok, checks_ok. rewrite !andb_true_iff, !forallb_forall. intros Hd Ht.
  destruct_and! Hd. match goal with F : forall x, In x (authentication_steps _) -> _ |- _ =>
    specialize (F t Ht); unfold step_ok in F end.
  rewrite !andb_true_iff in *. destruct_and?.
  match goal with F : one_of known_step_types _ = true |- _ =>
    unfold one_of in F; apply existsb_exists in F as (x & Hx & Ex) end.
  rewrite beq_true in Ex. by subst.
Qed.
