(* ===== verification/Limiter.v ===== *)
(** internal/authentication/limiter.go: the bounded per-process attempt limiter that guards
    TOTP activation. *)
From S2P Require Import Prelude GoLib.
#[local] Open Scope string_scope.
#[local] Open Scope Z_scope.
#[local] Open Scope list_scope.

Record attemptWindow := { start : time; count : Z }.

(** [windows] is [None] until the first call (a nil Go map). *)
Record activationLimiter := { windows : option (gmap uuid attemptWindow) }.

Definition zero_limiter : activationLimiter := {| windows := None |}.

Definition window_length : duration := 5 * Minute.
Definition max_windows : Z := 10000.
Definition max_count : Z := 10.

Definition stale (now : time) (w : attemptWindow) : bool := window_length <=? now - start w.

(** The table after the nil check and, when it is full, after dropping the stale windows. *)
Definition swept (l : activationLimiter) (now : time) : gmap uuid attemptWindow :=
  let m := match windows l with None => ∅ | Some m => m end in
  if (max_windows <=? Z.of_nat (size m))
  then filter (fun '(_, w) => stale now w = false) m
  else m.

Definition allow (l : activationLimiter) (id : uuid) (now : time) : bool * activationLimiter :=
  let m := swept l now in
  let found := m !! id in
  if negb (isSome found) && (max_windows <=? Z.of_nat (size m))
  then (false, {| windows := Some m |})
  else
    let w := match found with
             | Some w => if stale now w then {| start := now; count := 0 |} else w
             | None => {| start := now; count := 0 |}
             end in
    if max_count <=? count w then (false, {| windows := Some m |})
    else (true, {| windows := Some (<[id := {| start := start w; count := count w + 1 |}]> m) |}).

(** ** Facts *)

(** The map behind a limiter; a nil map reads as an empty one. *)
Definition table (l : activationLimiter) : gmap uuid attemptWindow :=
  match windows l with None => ∅ | Some m => m end.

Lemma swept_table l now :
  swept l now =
    if max_windows <=? Z.of_nat (size (table l))
    then filter (fun '(_, w) => stale now w = false) (table l) else table l.
Proof. done. Qed.

Lemma swept_lookup l now id w : swept l now !! id = Some w -> table l !! id = Some w.
Proof.
  rewrite swept_table. case_match; [|done]. intros Hw. by apply map_lookup_filter_Some in Hw as [? _].
Qed.

(** A sweep drops nothing but stale windows. *)
Lemma swept_kept l now id w :
  table l !! id = Some w -> stale now w = false -> swept l now !! id = Some w.
Proof. rewrite swept_table. intros Hw Hs. case_match; [|done]. by apply map_lookup_filter_Some. Qed.

Lemma swept_size l now : (size (swept l now) <= size (table l))%nat.
Proof. rewrite swept_table. case_match; [|done]. apply map_size_filter. Qed.

(** Memory stays bounded and no window counts past the maximum. *)
Definition bounded (l : activationLimiter) : Prop :=
  Z.of_nat (size (table l)) <= max_windows /\
  forall id w, table l !! id = Some w -> 0 <= count w <= max_count.

Lemma bounded_zero : bounded zero_limiter.
Proof. split; [vm_compute; discriminate|]. intros id w Hw. unfold table in Hw. simpl in Hw.
  by rewrite lookup_empty in Hw.
Qed.

Lemma bounded_swept l now :
  bounded l -> bounded {| windows := Some (swept l now) |}.
Proof.
  intros [Hs Hc]. split; unfold table; simpl.
  - pose proof (swept_size l now). lia.
  - intros id w Hw. apply (Hc id w). by eapply swept_lookup.
Qed.

Lemma allow_bounded_step l id now : bounded l -> bounded (allow l id now).2.
Proof.
  intros Hb. pose proof (bounded_swept l now Hb) as [Hs Hc]. unfold table in Hs, Hc. simpl in Hs, Hc.
  unfold allow. destruct (swept l now !! id) as [w|] eqn:Ew; simpl.
  - destruct (max_count <=? count _) eqn:Em; simpl; [by split|]. split; unfold table; simpl.
    + by rewrite map_size_insert_Some by eauto.
    + specialize (Hc id w Ew) as Hw. bsimp. intros i x. rewrite lookup_insert_Some.
      intros [[<- <-]|[_ Hx]]; [|by eapply Hc]. simpl. destruct (stale now w); simpl in *; lia.
  - destruct (max_windows <=? _) eqn:Em; simpl; [by split|]. bsimp. split; unfold table; simpl.
    + rewrite map_size_insert_None by done. lia.
    + intros i x. rewrite lookup_insert_Some. intros [[<- <-]|[_ Hx]]; [|by eapply Hc].
      unfold max_count. simpl. lia.
Qed.

(** *** Sequences of calls *)
Fixpoint run_limiter (l : activationLimiter) (calls : list (uuid * time)) : list bool * activationLimiter :=
  match calls with
  | [] => ([], l)
  | (id, now) :: rest =>
      let '(ok, l1) := allow l id now in
      let '(oks, l2) := run_limiter l1 rest in (ok :: oks, l2)
  end.

(** How often [id] was let through. *)
Fixpoint granted (id : uuid) (calls : list (uuid * time)) (oks : list bool) : Z :=
  match calls, oks with
  | (i, _) :: calls, ok :: oks => (if (i == id) && ok then 1 else 0) + granted id calls oks
  | _, _ => 0
  end.

(** What [id] used up of its window when every call comes at [t0] or later: a window that is
    stale by then counts for nothing. *)
Definition used (l : activationLimiter) (id : uuid) (t0 : time) (n : Z) : Prop :=
  match table l !! id with
  | None => n = 0
  | Some w => (stale t0 w = true /\ n = 0) \/ (t0 <= start w /\ count w = n /\ n <= max_count)
  end.

Lemma used_swept l id now t0 n :
  used l id t0 n -> t0 <= now < t0 + window_length -> used {| windows := Some (swept l now) |} id t0 n.
Proof.
  unfold used. intros Hu Hn. change (table {| windows := Some ?m |}) with m.
  destruct (swept l now !! id) as [w|] eqn:Ew; [by rewrite (swept_lookup _ _ _ _ Ew) in Hu|].
  destruct (table l !! id) as [w|] eqn:El; [|done]. destruct Hu as [[_ ->]|(Hs & _)]; [done|].
  rewrite (swept_kept l now id w) in Ew; [done|done|]. unfold stale. apply Z.leb_gt. lia.
Qed.

Lemma allow_used l i id now t0 n :
  used l id t0 n -> 0 <= n -> t0 <= now < t0 + window_length ->
  let '(ok, l1) := allow l i now in
  used l1 id t0 (if (i == id) && ok then n + 1 else n) /\ ((i == id) && ok = true -> n < max_count).
Proof.
  intros Hu Hn Ht. apply (used_swept _ _ now) in Hu; [|done]. unfold allow. revert Hu.
  generalize (swept l now). intros m Hu. unfold used in Hu. change (table _) with m in Hu.
  assert (forall ok c, i <> id -> used {| windows := Some (if ok : bool then <[i := c]> m else m) |} id t0 n)
    as Hother.
  { intros ok c Hne. unfold used. destruct ok; unfold table; simpl; [|done]. by rewrite lookup_insert_ne. }
  destruct (decide (i = id)) as [->|Hne].
  - rewrite beq_refl. simpl. destruct (m !! id) as [w|] eqn:Ew; simpl.
    + destruct Hu as [[Hs ->]|(Hs & <- & Hc)].
      * assert (stale now w = true) as -> by (unfold stale in *; bsimp; lia). simpl.
        split; [|unfold max_count; lia]. unfold used, table. simpl. rewrite lookup_insert_eq.
        right. unfold max_count. simpl. lia.
      * assert (stale now w = false) as -> by (unfold stale; apply Z.leb_gt; lia).
        destruct (max_count <=? count w) eqn:Em; bsimp; (split; [|try done; lia]);
          unfold used, table; simpl; rewrite ?Ew, ?lookup_insert_eq; right; simpl; lia.
    + subst n. destruct (max_windows <=? _); simpl;
        [split; [unfold used, table; simpl; by rewrite Ew|done]|].
      split; [|unfold max_count; lia]. unfold used, table. simpl. rewrite lookup_insert_eq.
      right. unfold max_count. simpl. lia.
  - assert ((i == id) = false) as -> by by apply beq_false. simpl.
    destruct (_ && _); [split; [exact (Hother false (Build_attemptWindow 0 0) Hne)|done]|].
    destruct (max_count <=? _); (split; [|done]);
      [exact (Hother false (Build_attemptWindow 0 0) Hne)|exact (Hother true _ Hne)].
Qed.

Lemma run_used calls l id t0 n :
  used l id t0 n -> 0 <= n <= max_count ->
  Forall (fun c => t0 <= c.2 < t0 + window_length) calls ->
  n + granted id calls (run_limiter l calls).1 <= max_count.
Proof.
  revert l n. induction calls as [|[i now] calls IH]; intros l n Hu Hn Hc; simpl; [lia|].
  apply Forall_cons in Hc as [Ht Hc]. simpl in Ht.
  pose proof (allow_used l i id now t0 n Hu (proj1 Hn) Ht) as Ha.
  destruct (allow l i now) as [ok l1]. destruct Ha as [Hu1 Hlt].
  specialize (IH l1 _ Hu1). destruct (run_limiter l1 calls) as [oks l2]. simpl in *.
  destruct ((i == id) && ok); [specialize (Hlt eq_refl)|]; specialize (IH ltac:(lia) Hc); lia.
Qed.

(** ** Properties *)

(** The limiter's memory is bounded and stays so: at most ten thousand windows, each with a
  count between zero and ten, whatever is asked when. *)
Theorem allow_keeps_bounds l id now : bounded l -> bounded (allow l id now).2.
Proof. apply allow_bounded_step. Qed.

(** C33: an account without a running window is let through at most ten times within five minutes
  of its first call, whatever other accounts do in between, sweeps of the full table
  included. *)
Theorem limiter_at_most_ten l calls id t0 :
match table l !! id with None => True | Some w => stale t0 w = true end ->
Forall (fun c => t0 <= c.2 < t0 + window_length) calls ->
granted id calls (run_limiter l calls).1 <= 10.
Proof.
intros Hl Hc. pose proof (run_used calls l id t0 0) as Hr. apply Hr; [|unfold max_count; lia|done].
unfold used. destruct (table l !! id); [by left|done].
Qed.

Lemma allow_keeps_bounds_witness : bounded (allow zero_limiter 1%N 0).2.
Proof. apply (allow_keeps_bounds zero_limiter 1%N 0). exact bounded_zero. Defined.

Definition eager : list (uuid * time) := repeat (1%N, 7) 12.
Lemma limiter_at_most_ten_witness :
  granted 1%N eager (run_limiter zero_limiter eager).1 = 10 /\
  granted 1%N eager (run_limiter zero_limiter eager).1 <= 10.
Proof.
  split; [vm_compute; reflexivity|].
  apply (limiter_at_most_ten zero_limiter eager 1%N 0); [exact I|].
  unfold eager. simpl. repeat constructor; vm_compute; congruence.
Defined.
