(* ===== verification/Usernames.v ===== *)
(** Usernames: internal/authentication/account.go (normalizeUsername, validUsername) with the
    embedded word list of assets/usernames, and the validators of internal/transport/utils
    that the previous API used. *)
From S2P Require Import Prelude GoLib.
#[local] Open Scope string_scope.
#[local] Open Scope Z_scope.
#[local] Open Scope list_scope.

(** ** assets/usernames/forbidden_usernames.txt, embedded in the binary: one word per line,
    every line ends with a newline. *)
Definition newline : ascii := "010"%char.
Definition forbidden_words : list string :=
  ["admin"; "moderator"; "anal"; "anus"; "arse"; "ass"; "ballsack"; "bastard"; "bitch";
   "bloody"; "blowjob"; "boner"; "boob"; "bugger"; "bum"; "butt"; "clitor"; "cock"; "coon";
   "crap"; "cunt"; "damn"; "dick"; "dildo"; "dyke"; "fag"; "feck"; "fellat"; "felching";
   "fuck"; "fudgepacker"; "flange"; "hell"; "homo"; "jerk"; "jizz"; "labia"; "muff"; "nigger";
   "nigga"; "porn"; "penis"; "piss"; "poop"; "prick"; "pube"; "pussy"; "queer"; "scrotum";
   "sex"; "shit"; "slut"; "smegma"; "spunk"; "tit"; "tosser"; "turd"; "twat"; "vagina"; "wank";
   "whore"].
Definition ForbiddenUsernames : string :=
  fold_right (fun w rest => w +:+ String newline rest) "" forbidden_words.

(** ** account.go *)

Definition username_byte (c : ascii) : bool :=
  in_range "a" "z" c || in_range "0" "9" c || (c == "_"%char).

(** The letters the word filter looks at: a digit 1 reads as an i. *)
Fixpoint letters_of (s : string) : string :=
  match s with
  | EmptyString => ""
  | String c s =>
      if in_range "a" "z" c then String c (letters_of s)
      else if c == "1"%char then String "i" (letters_of s)
      else letters_of s
  end.

Definition last_byte (s : string) : option ascii := byte_at s (String.length s - 1).

Section Usernames.
Context `{Platform}.

Definition normalizeUsername (s : string) : string := ToLower (TrimSpace s).

(** Bytes of a multi-byte rune are outside the three ranges, as the rune is. *)
Definition validUsername (s : string) : bool :=
  if (len s <? 5) || (64 <? len s) ||
     negb (match byte_at s 0 with Some c => in_range "a" "z" c | None => false end) ||
     (last_byte s == Some "_"%char) || Contains s "__"
  then false
  else if negb (bytes_forall username_byte s) then false
  else negb (existsb (Contains (letters_of s)) (Fields ForbiddenUsernames)).
End Usernames.

(** ** internal/transport/utils/username/validator.go *)
Inductive username_error :=
| GrpcUsernameTooShort | GrpcUsernameTooLong | GrpcUsernameId | GrpcUsernameStartLetter
| GrpcUsernameEndLetter | GrpcUsernameForbiddenSymbols | GrpcUsernameForbiddenWord
| GrpcUsernameDoubleUnderscore.

Record Validator := { forbiddenUsernames : list string }.

(** [os.ReadFile]: [None] is a failed read, whose contents are empty (the error is logged). *)
Definition NewValidator (file : option string) : Validator :=
  {| forbiddenUsernames :=
       Split (match file with Some text => text | None => "" end) newline |}.

Definition is_letter (c : ascii) : bool := in_range "a" "z" c || in_range "A" "Z" c.
Definition word_byte (c : ascii) : bool := is_letter c || is_digit c || (c == "_"%char).

(** The accumulation over the runes of an ASCII name; [1] adds an i. *)
Fixpoint letter_username (s : string) : string :=
  match s with
  | EmptyString => ""
  | String c s =>
      (if is_letter c then String (lower_byte c) "" else "") +:+
      ((if c == "1"%char then "i" else "") +:+ letter_username s)
  end.

Section Legacy.
Context `{Platform}.

Definition Validate (v : Validator) (username : string) : option username_error :=
  if len username <? 5 then Some GrpcUsernameTooShort
  else if 64 <? len username then Some GrpcUsernameTooLong
  else if match uuid_Parse username with Some _ => true | None => false end
  then Some GrpcUsernameId
  else if negb (match byte_at username 0 with Some c => is_letter c | None => false end)
  then Some GrpcUsernameStartLetter
  else if negb (match last_byte username with Some c => is_letter c || is_digit c | None => false end)
  then Some GrpcUsernameEndLetter
  else if negb (bytes_forall word_byte username) then Some GrpcUsernameForbiddenSymbols
  else if existsb (Contains (letter_username username)) (forbiddenUsernames v)
  then Some GrpcUsernameForbiddenWord
  else if Contains username "__" then Some GrpcUsernameDoubleUnderscore
  else None.
End Legacy.

(** ** internal/transport/utils/credentials/validators.go *)
Inductive password_error :=
| GrpcPasswordTooShort | GrpcPasswordTooLong | GrpcPasswordForbiddenSymbols
| GrpcPasswordNoLower | GrpcPasswordNoUpper | GrpcPasswordNoNumber.

Definition password_byte (c : ascii) : bool :=
  word_byte c || existsb (fun x => x == c) ["!"; "@"; "#"; "$"; "%"; "^"; "&"; "*"]%char.

Fixpoint bytes_exists (p : ascii -> bool) (s : string) : bool :=
  match s with EmptyString => false | String c s => p c || bytes_exists p s end.

(** The loop over the runes stops once all three kinds were seen, which changes no answer. *)
Definition ValidatePassword (password : string) : option password_error :=
  if len password <? 8 then Some GrpcPasswordTooShort
  else if 64 <? len password then Some GrpcPasswordTooLong
  else if negb (bytes_forall password_byte password) then Some GrpcPasswordForbiddenSymbols
  else if negb (bytes_exists (in_range "a" "z") password) then Some GrpcPasswordNoLower
  else if negb (bytes_exists (in_range "A" "Z") password) then Some GrpcPasswordNoUpper
  else if negb (bytes_exists is_digit password) then Some GrpcPasswordNoNumber
  else None.

Definition ValidateEmail `{Platform} (email : string) : bool :=
  match mail_ParseAddress email with
  | Some (address, name) => (address == email) && (name == "")
  | None => false
  end.

(** ** Facts *)

Lemma lower_byte_fixed c : username_byte c = true -> lower_byte c = c.
Proof.
  destruct c as [[] [] [] [] [] [] [] []]; vm_compute; congruence.
Qed.

Lemma username_byte_ascii c : username_byte c = true -> N.ltb (byte_code c) 128 = true.
Proof. destruct c as [[] [] [] [] [] [] [] []]; vm_compute; congruence. Qed.

Lemma username_byte_not_space c : username_byte c = true -> is_space c = false.
Proof. destruct c as [[] [] [] [] [] [] [] []]; vm_compute; congruence. Qed.

Lemma bytes_map_fixed f p s :
  (forall c, p c = true -> f c = c) -> bytes_forall p s = true -> bytes_map f s = s.
Proof.
  intros Hf. induction s as [|c s IH]; simpl; [done|]. rewrite andb_true_iff.
  intros [Hc Hs]. rewrite Hf, IH by done. done.
Qed.

Section Facts.
Context `{Platform}.

Lemma validUsername_bytes s : validUsername s = true -> bytes_forall username_byte s = true.
Proof.
  unfold validUsername. destruct (_ || Contains s "__"); [done|].
  by destruct (bytes_forall username_byte s).
Qed.

(** A valid name is its own lower-case form. *)
Lemma validUsername_lower s : validUsername s = true -> ToLower s = s.
Proof.
  intros Hv%validUsername_bytes. unfold ToLower.
  assert (is_ascii s = true) as ->.
  { unfold is_ascii. eapply bytes_forall_impl; [|exact Hv]. apply username_byte_ascii. }
  eapply bytes_map_fixed; [|exact Hv]. apply lower_byte_fixed.
Qed.
End Facts.

(** A text that ends with its separator splits into pieces one of which is empty. *)
Lemma split_go_last sep acc s :
  In "" (split_go sep acc (s +:+ String sep "")).
Proof.
  revert acc. induction s as [|c s IH]; intros acc.
  - rewrite string_app_nil. cbn. rewrite Ascii.eqb_refl. right. by left.
  - rewrite string_app_cons. cbn [split_go]. destruct (Ascii.eqb c sep); [right|]; apply IH.
Qed.

Lemma Validate_accepts_none `{Platform} file username :
  match file with None => True | Some text => exists s, text = s +:+ String newline "" end ->
  Validate (NewValidator file) username <> None.
Proof.
intros Hf. assert (In "" (forbiddenUsernames (NewValidator file))) as Hin.
{ unfold NewValidator, Split. simpl. destruct file as [text|]; [|by left].
  destruct Hf as [s ->]. apply split_go_last. }
assert (existsb (Contains (letter_username username)) (forbiddenUsernames (NewValidator file)) = true)
  as Hx by (apply existsb_exists; exists ""; split; [done|apply Contains_empty]).
unfold Validate. rewrite Hx. repeat first [destruct (negb _)|destruct (_ <? _)|destruct (uuid_Parse _)]; done.
Qed.

(** C37: the legacy validator accepts no name at all when its word list ends with a line break, as
  the repository's does, or cannot be read: the empty last line is a word every name contains. *)
Theorem legacy_Validate_rejects_all `{Platform} file username :
match file with None => True | Some text => exists s, text = s +:+ String newline "" end ->
Validate (NewValidator file) username <> None.
Proof. apply Validate_accepts_none. Qed.
