(* ===== verification/TxMonad.v ===== *)
(** internal/authentication/transaction.go and the [database/sql] transactions of the service:
    a state-and-error monad over the database, in which every statement may fail, the clock
    and the random source are read through an oracle, and nothing is kept unless committed.

    The advisory lock serialises transitions, so one transaction runs at a time; between two
    transactions of a handler the committed database may be replaced by anything else. *)
From S2P Require Import Prelude GoLib Schema Limiter.
#[local] Open Scope string_scope.
#[local] Open Scope Z_scope.
#[local] Open Scope list_scope.

(** ** Oracle and world

    Every effect reads the oracle at the current [tick] and advances it. [o_fault] is any
    failure of the database or the driver (lost connection, cancelled context, lock timeout,
    malformed text): when it answers, the statement fails with that error. *)
Record Oracle := {
  o_now : nat -> time;              (* the process clock, Engine.Now *)
  o_db_now : nat -> time;           (* now() of PostgreSQL, the transaction's start *)
  o_random_ok : nat -> bool;        (* crypto/rand answers *)
  o_byte : nat -> nat -> ascii;     (* the bytes it answers with *)
  o_int : nat -> N;                 (* rand.Int before reduction *)
  o_uuid : nat -> uuid;             (* uuid.New() *)
  o_fault : nat -> option dberror;
}.

(** Process memory of an Engine (not shared between replicas, not transactional). *)
Record Memory := {
  dummyPasswordHash : option (string + string);
    (* sync.Once: None before the first call, then the hash or the message of the error *)
  activationAttempts : activationLimiter;
}.

Record World := mkWorld {
  committed : DB;
  working : DB;
  tx_now : time;
  session_sequence : Z;  (* the identity sequence: not rolled back *)
  memory : Memory;
  tick : nat;
}.

Definition bump (w : World) : World :=
  mkWorld (committed w) (working w) (tx_now w) (session_sequence w) (memory w) (S (tick w)).
Definition set_working (d : DB) (w : World) : World :=
  mkWorld (committed w) d (tx_now w) (session_sequence w) (memory w) (tick w).
Definition set_committed (d : DB) (w : World) : World :=
  mkWorld d (working w) (tx_now w) (session_sequence w) (memory w) (tick w).
Definition set_tx_now (t : time) (w : World) : World :=
  mkWorld (committed w) (working w) t (session_sequence w) (memory w) (tick w).
Definition set_session_sequence (n : Z) (w : World) : World :=
  mkWorld (committed w) (working w) (tx_now w) n (memory w) (tick w).
Definition set_memory (m : Memory) (w : World) : World :=
  mkWorld (committed w) (working w) (tx_now w) (session_sequence w) m (tick w).

(** ** The monad *)
Definition M (A : Type) : Type := Oracle -> World -> result A * World.

Definition ret {A} (a : A) : M A := fun _ w => (Ok a, w).
Definition fail {A} (e : error) : M A := fun _ w => (Err e, w).
Definition bind {A B} (m : M A) (k : A -> M B) : M B := fun o w =>
  match m o w with
  | (Ok a, w') => k a o w'
  | (Err e, w') => (Err e, w')
  end.
(** [x, err := f()] where the code goes on to inspect [err]. *)
Definition try {A} (m : M A) : M (result A) := fun o w =>
  let '(r, w') := m o w in (Ok r, w').
Definition lift {A} (r : result A) : M A := fun _ w => (r, w).

Declare Scope tx_scope.
Delimit Scope tx_scope with tx.
#[global] Open Scope tx_scope.
Notation "x <- m ;; k" := (bind m (fun x => k))
  (at level 100, m at next level, right associativity) : tx_scope.
Notation "m ;;; k" := (bind m (fun _ => k)) (at level 100, right associativity) : tx_scope.
(** [if cond { return err }]. *)
Definition reject_if (c : bool) (e : error) : M unit := if c then fail e else ret tt.

(** ** Effects *)
Definition Now : M time := fun o w => (Ok (o_now o (tick w)), bump w).
Definition uuid_New : M uuid := fun o w => (Ok (o_uuid o (tick w)), bump w).
Definition string_of_bytes (f : nat -> ascii) (n : nat) : bytes :=
  String.string_of_list_ascii (map f (seq 0 n)).
(** [rand.Read(make([]byte, n))]. *)
Definition rand_Read (n : nat) : M bytes := fun o w =>
  if o_random_ok o (tick w) then (Ok (string_of_bytes (o_byte o (tick w)) n), bump w)
  else (Err (ErrOther "crypto/rand"), bump w).
(** [rand.Int(rand.Reader, big.NewInt(max))]: a value in [0, max). *)
Definition rand_Int (max : Z) : M Z := fun o w =>
  if o_random_ok o (tick w) then (Ok (Z.of_N (o_int o (tick w)) mod max), bump w)
  else (Err (ErrOther "crypto/rand"), bump w).
Definition get_memory : M Memory := fun _ w => (Ok (memory w), w).
Definition put_memory (m : Memory) : M unit := fun _ w => (Ok tt, set_memory m w).
(** [DEFAULT now()]. *)
Definition sql_now : M time := fun _ w => (Ok (tx_now w), w).
(** An identity column's next value. *)
Definition max_bigint : Z := 9223372036854775807.
Definition nextval : M Z := fun _ w =>
  if max_bigint <? session_sequence w then (Err (ErrDB (SQLState "2200H")), w)
  else (Ok (session_sequence w), set_session_sequence (session_sequence w + 1) w).

(** ** Statements *)

(** The common shape: a statement reads the transaction's view and answers with a value and a
    new view, or fails and leaves the view alone. *)
Definition statement {A} (f : DB -> result (A * DB)) : M A := fun o w =>
  match o_fault o (tick w) with
  | Some e => (Err (ErrDB e), bump w)
  | None =>
      match f (working w) with
      | Ok (a, d) => (Ok a, set_working d (bump w))
      | Err e => (Err e, bump w)
      end
  end.

(** The constraints of the schema hold after every statement. *)
Definition checked {A} (a : A) (d : DB) : result (A * DB) :=
  match violation d with
  | None => Ok (a, d)
  | Some code => Err (ErrDB (SQLState code))
  end.

(** [SELECT] of any shape; [query_row] is [QueryRow(...).Scan(...)]. *)
Definition query {A} (q : DB -> A) : M A := statement (fun d => Ok (q d, d)).
Definition query_row {A} (q : DB -> option A) : M A :=
  statement (fun d => match q d with Some a => Ok (a, d) | None => Err ErrNoRows end).
(** [Exec] of an INSERT, UPDATE or DELETE. *)
Definition exec (f : DB -> DB) : M unit := statement (fun d => checked tt (f d)).
(** INSERT, UPDATE or DELETE ... RETURNING through [QueryRow]: no row is [sql.ErrNoRows]. *)
Definition query_row_returning {A} (f : DB -> option (A * DB)) : M A :=
  statement (fun d => match f d with Some (a, d') => checked a d' | None => Err ErrNoRows end).
(** [Exec] whose [RowsAffected] is read. *)
Definition exec_count (f : DB -> Z * DB) : M Z :=
  statement (fun d => let '(n, d') := f d in checked n d').

(** ** Transactions *)

(** [Engine.begin]: BeginTx, the lock timeout, the advisory lock. A lock timeout (SQLSTATE
    55P03) on the last one is reported as the method being unavailable. *)
Definition begin_tx : M unit := fun o w =>
  match o_fault o (tick w) with
  | Some e => (Err (ErrDB e), bump w)
  | None => (Ok tt, set_tx_now (o_db_now o (tick w)) (set_working (committed w) (bump w)))
  end.
Definition set_lock_timeout : M unit := query (fun _ => tt).
Definition advisory_lock : M unit := query (fun _ => tt).

Definition begin : M unit :=
  begin_tx;;;
  set_lock_timeout;;;
  r <- try advisory_lock;;
  match r with
  | Ok _ => ret tt
  | Err e => if sql_state_is "55P03" e then fail ErrUnavailable else fail e
  end.

Definition commit : M unit := fun o w =>
  match o_fault o (tick w) with
  | Some e => (Err (ErrDB e), bump w)
  | None => (Ok tt, set_committed (working w) (bump w))
  end.

(** [defer tx.Rollback()]: whatever was not committed is dropped when the function returns. *)
Definition rollback (w : World) : World := set_working (committed w) w.

Definition transaction {A} (body : M A) : M A := fun o w =>
  match begin o w with
  | (Ok _, w1) => let '(r, w2) := body o w1 in (r, rollback w2)
  | (Err e, w1) => (Err e, rollback w1)
  end.

(** [return value, tx.Commit()]. *)
Definition commit_with {A} (a : A) : M A := commit;;; ret a.

(** ** Weakest preconditions

    [wp m o w Q]: the run of [m] ends in a result and a world that satisfy [Q]. *)
Definition wp {A} (m : M A) (o : Oracle) (w : World) (Q : result A -> World -> Prop) : Prop :=
  let '(r, w') := m o w in Q r w'.

Section WP.
Context {A B : Type} (o : Oracle).
Implicit Types (w : World).

Lemma wp_run (m : M A) w r w' (Q : result A -> World -> Prop) :
  m o w = (r, w') -> wp m o w Q -> Q r w'.
Proof. unfold wp. intros ->. done. Qed.

Lemma wp_intro (m : M A) w (Q : result A -> World -> Prop) :
  (forall r w', m o w = (r, w') -> Q r w') -> wp m o w Q.
Proof. unfold wp. intros H. destruct (m o w) as [r w'] eqn:E. eauto. Qed.

Lemma wp_mono (m : M A) w (Q Q' : result A -> World -> Prop) :
  wp m o w Q -> (forall r w', Q r w' -> Q' r w') -> wp m o w Q'.
Proof. unfold wp. destruct (m o w). eauto. Qed.

Lemma wp_ret (a : A) w (Q : result A -> World -> Prop) : Q (Ok a) w -> wp (ret a) o w Q.
Proof. done. Qed.

Lemma wp_fail e w (Q : result A -> World -> Prop) : Q (Err e) w -> wp (fail e) o w Q.
Proof. done. Qed.

Lemma wp_lift r w (Q : result A -> World -> Prop) : Q r w -> wp (lift r) o w Q.
Proof. done. Qed.

Lemma wp_bind (m : M A) (k : A -> M B) w (Q : result B -> World -> Prop) :
  wp m o w (fun r w' => match r with Ok a => wp (k a) o w' Q | Err e => Q (Err e) w' end) ->
  wp (bind m k) o w Q.
Proof. unfold wp, bind. destruct (m o w) as [[a|e] w']; done. Qed.

Lemma wp_try (m : M A) w (Q : result (result A) -> World -> Prop) :
  wp m o w (fun r w' => Q (Ok r) w') -> wp (try m) o w Q.
Proof. unfold wp, try. by destruct (m o w). Qed.

Lemma wp_reject_if c e w (Q : result unit -> World -> Prop) :
  (c = true -> Q (Err e) w) -> (c = false -> Q (Ok tt) w) -> wp (reject_if c e) o w Q.
Proof. unfold reject_if. destruct c; [intros H _|intros _ H]; by apply H. Qed.

Lemma wp_Now w (Q : result time -> World -> Prop) :
  Q (Ok (o_now o (tick w))) (bump w) -> wp Now o w Q.
Proof. done. Qed.

Lemma wp_uuid_New w (Q : result uuid -> World -> Prop) :
  Q (Ok (o_uuid o (tick w))) (bump w) -> wp uuid_New o w Q.
Proof. done. Qed.

Lemma wp_rand_Read n w (Q : result bytes -> World -> Prop) :
  Q (Ok (string_of_bytes (o_byte o (tick w)) n)) (bump w) ->
  Q (Err (ErrOther "crypto/rand")) (bump w) -> wp (rand_Read n) o w Q.
Proof. unfold wp, rand_Read. by destruct (o_random_ok o (tick w)). Qed.

Lemma wp_rand_Int n w (Q : result Z -> World -> Prop) :
  Q (Ok (Z.of_N (o_int o (tick w)) mod n)) (bump w) ->
  Q (Err (ErrOther "crypto/rand")) (bump w) -> wp (rand_Int n) o w Q.
Proof. unfold wp, rand_Int. by destruct (o_random_ok o (tick w)). Qed.

Lemma wp_get_memory w (Q : result Memory -> World -> Prop) :
  Q (Ok (memory w)) w -> wp get_memory o w Q.
Proof. done. Qed.

Lemma wp_put_memory m w (Q : result unit -> World -> Prop) :
  Q (Ok tt) (set_memory m w) -> wp (put_memory m) o w Q.
Proof. done. Qed.

Lemma wp_sql_now w (Q : result time -> World -> Prop) :
  Q (Ok (tx_now w)) w -> wp sql_now o w Q.
Proof. done. Qed.

Lemma wp_nextval w (Q : result Z -> World -> Prop) :
  Q (Err (ErrDB (SQLState "2200H"))) w ->
  Q (Ok (session_sequence w)) (set_session_sequence (session_sequence w + 1) w) ->
  wp nextval o w Q.
Proof. unfold wp, nextval. by destruct (_ <? _). Qed.

(** A statement either fails for reasons of its own or answers from the view. *)
Lemma wp_statement (f : DB -> result (A * DB)) w (Q : result A -> World -> Prop) :
  (forall e, o_fault o (tick w) = Some e -> Q (Err (ErrDB e)) (bump w)) ->
  (match f (working w) with
   | Ok (a, d) => Q (Ok a) (set_working d (bump w))
   | Err e => Q (Err e) (bump w)
   end) -> wp (statement f) o w Q.
Proof.
  unfold wp, statement. intros Hf Hs.
  destruct (o_fault o (tick w)) as [e|] eqn:E; [by apply Hf|].
  destruct (f (working w)) as [[a d]|e]; done.
Qed.
End WP.

Lemma wp_query {A} o w (q : DB -> A) (Q : result A -> World -> Prop) :
  (forall e, Q (Err (ErrDB e)) (bump w)) ->
  Q (Ok (q (working w))) (set_working (working w) (bump w)) -> wp (query q) o w Q.
Proof. intros Hf Hs. apply wp_statement; eauto. Qed.

Lemma wp_query_row {A} o w (q : DB -> option A) (Q : result A -> World -> Prop) :
  (forall e, Q (Err (ErrDB e)) (bump w)) ->
  (q (working w) = None -> Q (Err ErrNoRows) (bump w)) ->
  (forall a, q (working w) = Some a -> Q (Ok a) (set_working (working w) (bump w))) ->
  wp (query_row q) o w Q.
Proof.
  intros Hf Hn Hs. apply wp_statement; [eauto|].
  destruct (q (working w)) eqn:E; eauto.
Qed.

Lemma wp_checked {A} (a : A) (d : DB) (P : result (A * DB) -> Prop) :
  (forall e, P (Err (ErrDB e))) -> (schema_ok d = true -> P (Ok (a, d))) -> P (checked a d).
Proof.
  unfold checked. intros Hf Hs. destruct (violation d) eqn:E; [done|].
  apply Hs. by apply violation_none.
Qed.

Lemma wp_exec o w (f : DB -> DB) (Q : result unit -> World -> Prop) :
  (forall e, Q (Err (ErrDB e)) (bump w)) ->
  (schema_ok (f (working w)) = true -> Q (Ok tt) (set_working (f (working w)) (bump w))) ->
  wp (exec f) o w Q.
Proof. intros Hf Hs. apply wp_statement; [eauto|]. apply wp_checked; eauto. Qed.

Lemma wp_query_row_returning {A} o w (f : DB -> option (A * DB)) (Q : result A -> World -> Prop) :
  (forall e, Q (Err (ErrDB e)) (bump w)) ->
  (f (working w) = None -> Q (Err ErrNoRows) (bump w)) ->
  (forall a d, f (working w) = Some (a, d) -> schema_ok d = true ->
     Q (Ok a) (set_working d (bump w))) ->
  wp (query_row_returning f) o w Q.
Proof.
  intros Hf Hn Hs. apply wp_statement; [eauto|].
  destruct (f (working w)) as [[a d]|] eqn:E; [|eauto]. apply wp_checked; eauto.
Qed.

Lemma wp_exec_count o w (f : DB -> Z * DB) (Q : result Z -> World -> Prop) :
  (forall e, Q (Err (ErrDB e)) (bump w)) ->
  (schema_ok (f (working w)).2 = true ->
     Q (Ok (f (working w)).1) (set_working (f (working w)).2 (bump w))) ->
  wp (exec_count f) o w Q.
Proof.
  intros Hf Hs. apply wp_statement; [eauto|].
  destruct (f (working w)) as [n d]. apply wp_checked; eauto.
Qed.

Lemma wp_commit o w (Q : result unit -> World -> Prop) :
  (forall e, Q (Err (ErrDB e)) (bump w)) ->
  Q (Ok tt) (set_committed (working w) (bump w)) -> wp commit o w Q.
Proof. unfold wp, commit. intros Hf Hs. by destruct (o_fault o (tick w)). Qed.

Lemma wp_commit_with {A} (a : A) o w (Q : result A -> World -> Prop) :
  (forall e, Q (Err (ErrDB e)) (bump w)) ->
  Q (Ok a) (set_committed (working w) (bump w)) -> wp (commit_with a) o w Q.
Proof. intros Hf Hs. apply wp_bind. apply wp_commit; [apply Hf|done]. Qed.

(** A transaction starts from the committed database; its errors before the body are the
    driver's or "unavailable". *)
Lemma wp_begin o w (Q : result unit -> World -> Prop) :
  (forall e w', committed w' = committed w -> session_sequence w' = session_sequence w ->
     memory w' = memory w -> (e = ErrUnavailable \/ exists d, e = ErrDB d) -> Q (Err e) w') ->
  (forall w', committed w' = committed w -> working w' = committed w ->
     session_sequence w' = session_sequence w -> memory w' = memory w ->
     tick w' = S (S (S (tick w))) -> Q (Ok tt) w') ->
  wp begin o w Q.
Proof.
  intros He Hs.
  unfold wp, begin, bind, begin_tx, set_lock_timeout, advisory_lock, try, query, statement.
  destruct (o_fault o (tick w)) as [e|]; [apply He; eauto|]. cbn.
  destruct (o_fault o (S (tick w))) as [e|]; [apply He; eauto|]. cbn.
  destruct (o_fault o (S (S (tick w)))) as [e|]; cbn; [|by apply Hs].
  destruct (sql_state_is "55P03" (ErrDB e)) eqn:E; unfold sql_state_is in E; rewrite E;
    apply He; eauto.
Qed.

Lemma wp_transaction {A} (body : M A) o w (Q : result A -> World -> Prop) :
  (forall e w', committed w' = committed w -> session_sequence w' = session_sequence w ->
     memory w' = memory w -> working w' = committed w ->
     (e = ErrUnavailable \/ exists d, e = ErrDB d) -> Q (Err e) w') ->
  (forall w', committed w' = committed w -> working w' = committed w ->
     session_sequence w' = session_sequence w -> memory w' = memory w ->
     tick w' = S (S (S (tick w))) ->
     wp body o w' (fun r w'' => Q r (rollback w''))) ->
  wp (transaction body) o w Q.
Proof.
  intros He Hb.
  assert (wp begin o w (fun r w1 =>
    match r with
    | Ok _ => wp body o w1 (fun r2 w2 => Q r2 (rollback w2))
    | Err e => Q (Err e) (rollback w1)
    end)) as H.
  { apply wp_begin; [|eauto]. intros e w' ????. apply He; done. }
  revert H. unfold wp, transaction. destruct (begin o w) as [[u|e] w1]; [|done].
  destruct (body o w1) as [r w2]. done.
Qed.

(** ** Automation

    [ok_post P] asks for [P] of a successful run only. *)
Definition ok_post {A} (P : A -> World -> Prop) : result A -> World -> Prop :=
  fun r w => match r with Ok a => P a w | Err _ => True end.

Lemma wp_ok {A} (m : M A) o w (P : A -> World -> Prop) a w' :
  wp m o w (ok_post P) -> m o w = (Ok a, w') -> P a w'.
Proof. unfold wp. intros H E. rewrite E in H. done. Qed.

(** Continues from what a successful call is known to do. *)
Lemma wp_spec {A} (m : M A) o w (Q : result A -> World -> Prop) :
  (forall e w', Q (Err e) w') -> (forall a w', m o w = (Ok a, w') -> Q (Ok a) w') -> wp m o w Q.
Proof. intros He Ha. apply wp_intro. intros [a|e] w' E; [by apply Ha|apply He]. Qed.

(** Runs that succeed, by evaluation. *)
Definition succeeds {A} (P : A -> bool) (r : result A) : bool :=
  match r with Ok a => P a | Err _ => false end.
Lemma run_ok {A} (m : M A) o w a : (m o w).1 = Ok a -> m o w = (Ok a, (m o w).2).
Proof. destruct (m o w). simpl. by intros ->. Defined.
Lemma run_ex {A} (m : M A) o w (P : A -> bool) :
  succeeds P (m o w).1 = true -> exists a, m o w = (Ok a, (m o w).2) /\ P a = true.
Proof. destruct (m o w) as [[a|] w1]; simpl; [|done]. intros ?. by exists a. Defined.

Lemma run_never {A} (m : M A) o w :
  (forall a w', m o w <> (Ok a, w')) -> succeeds (fun _ => true) (m o w).1 = false.
Proof. destruct (m o w) as [[a|err] w1]; [|done]. intros H. by destruct (H a w1). Defined.

(** [t] is a reading of the process clock. *)
Definition reads_clock (o : Oracle) (t : time) : Prop := exists k, o_now o k = t.
Lemma reads_clock_intro o k : reads_clock o (o_now o k).
Proof. by exists k. Qed.
#[export] Hint Resolve reads_clock_intro : core.

(** Reduces the projections of an updated world. *)
Ltac wsimpl :=
  cbn [committed working tx_now session_sequence memory tick bump set_working set_committed
       set_tx_now set_session_sequence set_memory rollback ok_post fst snd] in *.

(** From a hypothesis [E : m o w = (Ok a, w')] and a goal about [a] and [w'] to the
    weakest precondition of that goal. *)
Ltac wp_start E :=
  match type of E with
  | ?m ?o ?w = (Ok ?a, ?w') =>
      revert E;
      match goal with
      | |- _ -> ?G =>
          let F := eval pattern a, w' in G in
          match F with
          | ?P _ _ => intros E; refine (wp_ok m o w P a w' _ E); clear E; clear a w'
          end
      end
  end.

Ltac wp_rule :=
  lazymatch goal with
  | |- wp (bind _ _) _ _ _ => apply wp_bind
  | |- wp (ret _) _ _ _ => apply wp_ret
  | |- wp (fail _) _ _ _ => apply wp_fail
  | |- wp (lift _) _ _ _ => apply wp_lift
  | |- wp (try _) _ _ _ => apply wp_try
  | |- wp (reject_if _ _) _ _ _ => apply wp_reject_if; intros ?
  | |- wp Now _ _ _ => apply wp_Now
  | |- wp uuid_New _ _ _ => apply wp_uuid_New
  | |- wp (rand_Read _) _ _ _ => apply wp_rand_Read
  | |- wp (rand_Int _) _ _ _ => apply wp_rand_Int
  | |- wp get_memory _ _ _ => apply wp_get_memory
  | |- wp (put_memory _) _ _ _ => apply wp_put_memory
  | |- wp sql_now _ _ _ => apply wp_sql_now
  | |- wp nextval _ _ _ => apply wp_nextval
  | |- wp (query _) _ _ _ => apply wp_query; [intros ?|]
  | |- wp (query_row _) _ _ _ => apply wp_query_row; [intros ?|intros ?|intros ? ?]
  | |- wp (exec _) _ _ _ => apply wp_exec; [intros ?|intros ?]
  | |- wp (query_row_returning _) _ _ _ =>
      apply wp_query_row_returning; [intros ?|intros ?|intros ? ? ? ?]
  | |- wp (exec_count _) _ _ _ => apply wp_exec_count; [intros ?|intros ?]
  | |- wp (commit_with _) _ _ _ => apply wp_commit_with; [intros ?|]
  | |- wp commit _ _ _ => apply wp_commit; [intros ?|]
  | |- wp (transaction _) _ _ _ =>
      apply wp_transaction;
      [ intros ? ? ? ? ? ? ?
      | let c := fresh "c" in let d := fresh "d" in let t := fresh "t" in
        let q := fresh "q" in let m := fresh "m" in let k := fresh "k" in
        intros [c d t q m k] ? ? ? ? ?;
        cbn [committed working session_sequence memory tick] in *; subst c d q m k ]
  | |- wp (if ?c then _ else _) _ _ _ => destruct c eqn:?
  | |- wp (match ?x with _ => _ end) _ _ _ => destruct x eqn:?
  | |- match ?x with _ => _ end => destruct x eqn:?
  end; cbv beta iota.

Ltac wp_step := wp_rule; try exact I.

(** Symbolic execution up to the first call that has a specification of its own. *)
Ltac wp_go := repeat (wp_step; wsimpl).

(** ** Effects that a body cannot have

    [ReadOnly]: the database is left as it is. [NoCommit]: nothing is committed. [Atomic]: a
    failed run has committed nothing. *)
Class ReadOnly {A} (m : M A) : Prop :=
  read_only : forall o w, working (m o w).2 = working w /\ committed (m o w).2 = committed w /\
    tx_now (m o w).2 = tx_now w /\ session_sequence (m o w).2 = session_sequence w.
Class NoCommit {A} (m : M A) : Prop :=
  no_commit : forall o w, committed (m o w).2 = committed w.
Class Atomic {A} (m : M A) : Prop :=
  atomic : forall o w e w', m o w = (Err e, w') -> committed w' = committed w.

Ltac effect :=
  intros; intros o w; intros; cbv [Now uuid_New rand_Read rand_Int get_memory put_memory sql_now nextval
    ret fail lift] in *;
  repeat case_match; simpl in *; simplify_eq/=; try tauto; try done.

Section ReadOnlyInstances.
Context {A B : Type}.
#[export] Instance ro_ret (a : A) : ReadOnly (ret a). Proof. effect. Qed.
#[export] Instance ro_fail e : ReadOnly (@fail A e). Proof. effect. Qed.
#[export] Instance ro_lift (r : result A) : ReadOnly (lift r). Proof. effect. Qed.
#[export] Instance ro_reject c e : ReadOnly (reject_if c e). Proof. destruct c; effect. Qed.
#[export] Instance ro_Now : ReadOnly Now. Proof. effect. Qed.
#[export] Instance ro_uuid : ReadOnly uuid_New. Proof. effect. Qed.
#[export] Instance ro_rand n : ReadOnly (rand_Read n). Proof. effect. Qed.
#[export] Instance ro_int n : ReadOnly (rand_Int n). Proof. effect. Qed.
#[export] Instance ro_get : ReadOnly get_memory. Proof. effect. Qed.
#[export] Instance ro_put m : ReadOnly (put_memory m). Proof. effect. Qed.
#[export] Instance ro_sql_now : ReadOnly sql_now. Proof. effect. Qed.
#[export] Instance ro_query (q : DB -> A) : ReadOnly (query q).
Proof. intros o w. unfold query, statement. by destruct (o_fault o (tick w)). Qed.
#[export] Instance ro_query_row (q : DB -> option A) : ReadOnly (query_row q).
Proof.
  intros o w. unfold query_row, statement.
  destruct (o_fault o (tick w)); [done|]. by destruct (q (working w)).
Qed.
#[export] Instance ro_try (m : M A) : ReadOnly m -> ReadOnly (try m).
Proof. intros H o w. specialize (H o w). unfold try. by destruct (m o w). Qed.
#[export] Instance ro_if (c : bool) (m m' : M A) :
  ReadOnly m -> ReadOnly m' -> ReadOnly (if c then m else m').
Proof. by destruct c. Qed.
#[export] Instance ro_bind (m : M A) (k : A -> M B) :
  ReadOnly m -> (forall a, ReadOnly (k a)) -> ReadOnly (bind m k).
Proof.
  intros Hm Hk o w. specialize (Hm o w). unfold bind.
  destruct (m o w) as [[a|e] w1]; simpl in *; [|done].
  destruct (Hk a o w1) as (-> & -> & -> & ->). done.
Qed.

Lemma wp_ro (m : M A) o w (Q : result A -> World -> Prop) :
  ReadOnly m ->
  (forall r w', m o w = (r, w') -> working w' = working w -> committed w' = committed w ->
     tx_now w' = tx_now w -> session_sequence w' = session_sequence w -> Q r w') ->
  wp m o w Q.
Proof.
  intros H HQ. apply wp_intro. intros r w' E.
  specialize (H o w). rewrite E in H. naive_solver.
Qed.
End ReadOnlyInstances.

#[export] Instance nc_statement {A} (f : DB -> result (A * DB)) : NoCommit (statement f).
Proof.
  intros o w. unfold statement. destruct (o_fault o (tick w)); [done|].
  by destruct (f (working w)) as [[??]|?].
Qed.

(** A successful read-only call, for use with its specification. *)
Lemma ro_run {A} (m : M A) o w r w' :
  ReadOnly m -> m o w = (r, w') ->
  working w' = working w /\ committed w' = committed w /\ tx_now w' = tx_now w.
Proof. intros H E. specialize (H o w). rewrite E in H. naive_solver. Qed.

Lemma wp_ro_ok {A} (m : M A) o w (Q : result A -> World -> Prop) :
  ReadOnly m -> (forall e w', Q (Err e) w') ->
  (forall a w', m o w = (Ok a, w') -> working w' = working w -> committed w' = committed w ->
     tx_now w' = tx_now w -> Q (Ok a) w') -> wp m o w Q.
Proof.
  intros H He Ha. apply wp_spec; [done|]. intros a w' E.
  destruct (ro_run _ _ _ _ _ H E) as (?&?&?). by apply Ha.
Qed.

Section NoCommitInstances.
Context {A B : Type}.
#[export] Instance nc_ro (m : M A) : ReadOnly m -> NoCommit m.
Proof. intros H o w. apply H. Qed.
#[export] Instance nc_nextval : NoCommit nextval. Proof. effect. Qed.
#[export] Instance nc_exec f : NoCommit (exec f). Proof. apply nc_statement. Qed.
#[export] Instance nc_qrr (f : DB -> option (A * DB)) : NoCommit (query_row_returning f).
Proof. apply nc_statement. Qed.
#[export] Instance nc_count f : NoCommit (exec_count f). Proof. apply nc_statement. Qed.
#[export] Instance nc_try (m : M A) : NoCommit m -> NoCommit (try m).
Proof. intros H o w. specialize (H o w). unfold try. by destruct (m o w). Qed.
#[export] Instance nc_bind (m : M A) (k : A -> M B) :
  NoCommit m -> (forall a, NoCommit (k a)) -> NoCommit (bind m k) | 5.
Proof.
  intros Hm Hk o w. specialize (Hm o w). unfold bind.
  destruct (m o w) as [[a|e] w1]; simpl in *; [|done]. by rewrite Hk.
Qed.

#[export] Instance atomic_nc (m : M A) : NoCommit m -> Atomic m.
Proof. intros H o w e w' E. specialize (H o w). by rewrite E in H. Qed.
#[export] Instance atomic_commit : Atomic commit.
Proof. intros o w e w'. unfold commit. by destruct (o_fault o (tick w)); intros; simplify_eq/=. Qed.
#[export] Instance atomic_commit_with (a : A) : Atomic (commit_with a).
Proof.
  intros o w e w'. unfold commit_with, bind, commit.
  by destruct (o_fault o (tick w)); intros; simplify_eq/=.
Qed.
#[export] Instance atomic_bind (m : M A) (k : A -> M B) :
  NoCommit m -> (forall a, Atomic (k a)) -> Atomic (bind m k) | 10.
Proof.
  intros Hm Hk o w e w' E. specialize (Hm o w). unfold bind in E.
  destruct (m o w) as [[a|e1] w1]; simpl in *; [|by simplify_eq].
  rewrite (Hk a _ _ _ _ E). done.
Qed.
Lemma begin_committed o w : committed (begin o w).2 = committed w.
Proof.
  assert (wp begin o w (fun _ w' => committed w' = committed w)) as H
    by (apply wp_begin; naive_solver).
  revert H. unfold wp. by destruct (begin o w).
Qed.
#[export] Instance atomic_transaction (m : M A) : Atomic m -> Atomic (transaction m).
Proof.
  intros H o w e w' E. unfold transaction in E. pose proof (begin_committed o w) as Hb.
  destruct (begin o w) as [[[]|e1] w1]; simpl in *; [|by simplify_eq/=].
  destruct (m o w1) as [r w2] eqn:E2. simplify_eq/=. by rewrite (H _ _ _ _ E2).
Qed.
#[export] Instance nc_transaction (m : M A) : NoCommit m -> NoCommit (transaction m).
Proof.
  intros H o w. unfold transaction. pose proof (begin_committed o w) as Hb.
  destruct (begin o w) as [[[]|e1] w1]; simpl in *; [|done].
  specialize (H o w1). destruct (m o w1) as [r w2]. simpl in *. congruence.
Qed.
End NoCommitInstances.

#[global] Typeclasses Opaque bind ret fail try lift reject_if Now uuid_New rand_Read rand_Int
  get_memory put_memory sql_now nextval statement query query_row exec query_row_returning
  exec_count commit commit_with transaction.

(** Bodies with branches: one step per branch or call. *)
Ltac effect_branch :=
  match goal with
  | |- context [if ?c then _ else _] => destruct c
  | |- context [match ?x with _ => _ end] => destruct x
  end.
Ltac solve_effect :=
  repeat (cbv beta iota;
    first
      [ progress intros
      | lazymatch goal with
        | |- _ (if ?c then _ else _) => destruct c
        | |- _ (match ?x with _ => _ end) => destruct x
        | |- ReadOnly (bind _ _) => apply ro_bind
        | |- ReadOnly (try _) => apply ro_try
        | |- NoCommit (bind _ _) => apply nc_bind
        | |- NoCommit (try _) => apply nc_try
        | |- Atomic (bind _ _) => apply atomic_bind
        | |- NoCommit (transaction _) => apply nc_transaction
        | |- Atomic (transaction _) => apply atomic_transaction
        end
      | apply _
      | done
      | effect_branch ]).

(** Steps over a read-only call: [wp_skip] forgets its answer, [wp_use lem] keeps what the
    lemma [lem] says of a successful run. The database stays where it was. *)
Ltac wp_binds :=
  repeat lazymatch goal with |- wp (bind _ _) _ _ _ => apply wp_bind; cbv beta iota end.
Ltac wp_enter E :=
  wp_binds; apply wp_ro_ok; [apply _|intros; exact I|];
  let a := fresh "a" in
  let c := fresh "c" in let d := fresh "d" in let t := fresh "t" in
  let q := fresh "q" in let m := fresh "m" in let k := fresh "k" in
  let Hw := fresh "Hw" in let Hc := fresh "Hc" in let Ht := fresh "Ht" in
  intros a [c d t q m k] E Hw Hc Ht; cbn [working committed tx_now] in Hw, Hc, Ht; subst d c t;
  cbv beta iota; wsimpl.
Ltac wp_skip := let E := fresh "E" in wp_enter E; clear E.
Tactic Notation "wp_use" uconstr(lem) "as" simple_intropattern(pat) :=
  let E := fresh "E" in wp_enter E; wsimpl; apply lem in E; wsimpl; revert E; intros pat.

(** Calls with effects of their own: the specification [lem] of a successful run. *)
Tactic Notation "wp_call" uconstr(lem) "as" simple_intropattern(pat) :=
  wp_binds; apply wp_spec; [intros; exact I|];
  let a := fresh "a" in let w1 := fresh "w" in let E := fresh "E" in
  intros a w1 E; apply lem in E; cbv beta iota; wsimpl; revert E; intros pat.

(** The outcome of a read-only call, error included. *)
Lemma wp_ro_any {A} (m : M A) o w (Q : result A -> World -> Prop) :
  ReadOnly m ->
  (forall r w', m o w = (r, w') -> working w' = working w -> committed w' = committed w ->
     tx_now w' = tx_now w -> Q r w') -> wp m o w Q.
Proof.
  intros H HQ. apply wp_intro. intros r w' E. destruct (ro_run _ _ _ _ _ H E) as (?&?&?).
  by apply HQ.
Qed.
Ltac wp_any E :=
  wp_binds; apply wp_ro_any; [apply _|];
  let a := fresh "a" in let err := fresh "err" in
  let c := fresh "c" in let d := fresh "d" in let t := fresh "t" in
  let q := fresh "q" in let m := fresh "m" in let k := fresh "k" in
  let Hw := fresh "Hw" in let Hc := fresh "Hc" in let Ht := fresh "Ht" in
  intros [a|err] [c d t q m k] E Hw Hc Ht; cbn [working committed tx_now] in Hw, Hc, Ht;
  subst d c t; cbv beta iota; wsimpl.

(** ** Errors a body can report

    [Errors P m]: every error of [m] satisfies [P]. *)
Class Errors (P : error -> Prop) {A} (m : M A) : Prop :=
  errors : forall o w e w', m o w = (Err e, w') -> P e.

Section Errors.
Context (P : error -> Prop) (P_db : forall d, P (ErrDB d)) {A B : Type}.

Lemma errors_ret (a : A) : Errors P (ret a).
Proof. by intros o w e w' [=]. Qed.
Lemma errors_fail e : P e -> Errors P (@fail A e).
Proof. by intros He o w e' w' [= <- _]. Qed.
Lemma errors_lift (r : result A) : (forall e, r = Err e -> P e) -> Errors P (lift r).
Proof. intros Hr o w e w' [= -> _]. by apply Hr. Qed.
Lemma errors_reject c e : P e -> Errors P (reject_if c e).
Proof. intros He o w e' w'. destruct c; by intros [= <- _]. Qed.
Lemma errors_bind (m : M A) (k : A -> M B) :
  Errors P m -> (forall a, Errors P (k a)) -> Errors P (bind m k).
Proof.
  intros Hm Hk o w e w'. unfold bind. destruct (m o w) as [[a|e1] w1] eqn:E; [by apply Hk|].
  intros [= <- _]. by eapply Hm.
Qed.
Lemma errors_try (m : M A) (k : result A -> M B) :
  Errors P m -> (forall a, Errors P (k (Ok a))) -> (forall e, P e -> Errors P (k (Err e))) ->
  Errors P (bind (try m) k).
Proof.
  intros Hm Ha He o w e w'. unfold bind, try. destruct (m o w) as [[a|e1] w1] eqn:E;
    [by apply Ha|apply He; by eapply Hm].
Qed.
Lemma errors_statement (f : DB -> result (A * DB)) :
  (forall d e, f d = Err e -> P e) -> Errors P (statement f).
Proof using P_db.
  intros Hf o w e w'. unfold statement. destruct (o_fault o (tick w)); [intros [= <- _]; auto|].
  destruct (f (working w)) as [[a d]|e1] eqn:E; intros [= <- _]. by eapply Hf.
Qed.
Lemma errors_query (q : DB -> A) : Errors P (query q).
Proof using P_db. by apply errors_statement. Qed.
Lemma errors_query_row (q : DB -> option A) : P ErrNoRows -> Errors P (query_row q).
Proof using P_db. intros Hn. apply errors_statement. intros d e. destruct (q d); by intros [= <-]. Qed.
Lemma errors_qrr (f : DB -> option (A * DB)) : P ErrNoRows -> Errors P (query_row_returning f).
Proof using P_db.
  intros Hn. apply errors_statement. intros d e. unfold checked.
  destruct (f d) as [[a d']|]; [destruct (violation d')|]; intros [= <-]; auto.
Qed.
Lemma errors_commit_with (a : A) : Errors P (commit_with a).
Proof using P_db.
  intros o w e w'. unfold commit_with, bind, commit. destruct (o_fault o (tick w));
    intros [= <- _]; auto.
Qed.
End Errors.
Lemma errors_exec (P : error -> Prop) f : (forall d, P (ErrDB d)) -> Errors P (exec f).
Proof.
  intros Hd. apply errors_statement; [done|]. intros d e. unfold checked.
  destruct (violation (f d)); intros [= <-]; auto.
Qed.
Lemma errors_commit (P : error -> Prop) : (forall d, P (ErrDB d)) -> Errors P commit.
Proof. intros Hd o w e w'. unfold commit. destruct (o_fault o (tick w)); intros [= <- _]; auto. Qed.
Lemma errors_now (P : error -> Prop) : Errors P Now.
Proof. by intros o w e w' [=]. Qed.
Lemma errors_uuid (P : error -> Prop) : Errors P uuid_New.
Proof. by intros o w e w' [=]. Qed.
Lemma errors_sql_now (P : error -> Prop) : Errors P sql_now.
Proof. by intros o w e w' [=]. Qed.
Lemma errors_rand_Read (P : error -> Prop) n :
  (forall s, P (ErrOther s)) -> Errors P (rand_Read n).
Proof. intros Hs o w e w'. unfold rand_Read. destruct (o_random_ok _ _); intros [= <- _]; auto. Qed.

(** For a predicate that is [True] of each error named: [solve_errors]. *)
Ltac solve_errors :=
  repeat (cbv beta iota;
    first
      [ progress intros
      | lazymatch goal with
        | |- _ (if ?c then _ else _) => destruct c
        | |- _ (match ?x with _ => _ end) => destruct x
        | |- Errors _ (bind (try _) _) => apply errors_try
        | |- Errors _ (bind _ _) => apply errors_bind
        | |- Errors _ (ret _) => apply errors_ret
        | |- Errors _ (fail _) => apply errors_fail
        | |- Errors _ (reject_if _ _) => apply errors_reject
        | |- Errors _ (query _) => apply errors_query
        | |- Errors _ (query_row _) => apply errors_query_row
        | |- Errors _ (query_row_returning _) => apply errors_qrr
        | |- Errors _ (exec _) => apply errors_exec
        | |- Errors _ commit => apply errors_commit
        | |- Errors _ (commit_with _) => apply errors_commit_with
        | |- Errors _ Now => apply errors_now
        | |- Errors _ uuid_New => apply errors_uuid
        | |- Errors _ sql_now => apply errors_sql_now
        | |- Errors _ (rand_Read _) => apply errors_rand_Read
        end
      | exact I
      | assumption
      | apply _ ]).
