(* ===== verification/Secrets.v ===== *)
(** internal/authentication/secrets.go: keyed hashes with separated domains, authenticated
    encryption of stored secrets, random tokens and codes, and the RFC 6238 verifier. *)
From S2P Require Import Prelude GoLib Schema Limiter TxMonad.
#[local] Open Scope string_scope.
#[local] Open Scope Z_scope.
#[local] Open Scope list_scope.

(** [macKey], and the key of the AES-256-GCM [cipher]. *)
Record Secrets := { macKey : bytes; cipher : bytes }.

(** [cipher.NonceSize()] of GCM. *)
Definition NonceSize : nat := 12.

Definition NewSecrets (mac enc : bytes) : result Secrets :=
  if (len mac <? 32) || (len enc != 32)
  then Err (ErrOther "auth keys must be at least 32 / exactly 32 bytes")
  else Ok {| macKey := mac; cipher := enc |}.

Definition randomToken : M string :=
  b <- rand_Read 32;; ret (base64_RawURL_Encode b).

(** The token a moment of the random source yields, and that [token] is such a one: it was drawn,
    and not taken from a request or a row. *)
Definition token_at (o : Oracle) (k : nat) : string :=
  base64_RawURL_Encode (string_of_bytes (o_byte o k) 32).
Definition drawn (o : Oracle) (token : string) : Prop :=
  exists k, o_random_ok o k = true /\ token = token_at o k.
Lemma randomToken_ok o w token w' : randomToken o w = (Ok token, w') -> drawn o token.
Proof.
  unfold randomToken, bind, rand_Read. destruct (o_random_ok o (tick w)) eqn:E; [|done].
  intros [= <- _]. by exists (tick w).
Qed.

Definition randomCode : M string :=
  n <- rand_Int 1000000;; ret (Sprintf06d n).

Fixpoint byte_take (n : nat) (s : bytes) : bytes :=
  match n, s with S n, String c s => String c (byte_take n s) | _, _ => "" end.
Fixpoint byte_drop (n : nat) (s : bytes) : bytes :=
  match n, s with S n, String _ s => byte_drop n s | _, _ => s end.

(** [binary.BigEndian.PutUint64]. *)
Definition PutUint64 (n : Z) : bytes :=
  String.string_of_list_ascii
    (map (fun i => ascii_of_N (Z.to_N (Z.land (Z.shiftr n (8 * i)) 255))) [7; 6; 5; 4; 3; 2; 1; 0]).

(** [sum[i]] of a digest. *)
Definition sum_byte (sum : bytes) (i : Z) : Z :=
  match byte_at sum (Z.to_nat i) with Some c => Z.of_N (byte_code c) | None => 0 end.

Section Secrets.
Context `{Platform}.

(** What is written to the MAC: kind, NUL, context, NUL, value. *)
Definition hash_input (kind context value : string) : bytes :=
  kind +:+ String "000" (context +:+ String "000" value).

Definition Hash (s : Secrets) (kind context value : string) : bytes :=
  hmac_sha256 (macKey s) (hash_input kind context value).

Definition Encrypt (s : Secrets) (value : bytes) (context : string) : M bytes :=
  nonce <- rand_Read NonceSize;;
  ret (nonce +:+ aead_Seal (cipher s) nonce value context).

Definition Decrypt (s : Secrets) (value : bytes) (context : string) : result bytes :=
  if Nat.ltb (String.length value) NonceSize then Err ErrInvalid
  else match aead_Open (cipher s) (byte_take NonceSize value) (byte_drop NonceSize value) context with
       | Some v => Ok v
       | None => Err (ErrOther "cipher: message authentication failed")
       end.

(** RFC 4226 truncation of the digest of one moving factor. *)
Definition totp_code (secret : bytes) (step : Z) : string :=
  let sum := hmac_sha1 secret (PutUint64 step) in
  let o := Z.land (sum_byte sum (len sum - 1)) 15 in
  let word := Z.lor (Z.shiftl (sum_byte sum o) 24)
               (Z.lor (Z.shiftl (sum_byte sum (o + 1)) 16)
                 (Z.lor (Z.shiftl (sum_byte sum (o + 2)) 8) (sum_byte sum (o + 3)))) in
  let n := Z.land word (Z.ones 31) in
  Sprintf06d (n mod 1000000).

(** The loop over the three candidate steps; [None] is the pair [0, false]. *)
Fixpoint totp_search (secret : bytes) (code : string) (last : Z) (steps : list Z) : option Z :=
  match steps with
  | [] => None
  | step :: rest =>
      if (step <=? last) || (step <? 0) then totp_search secret code last rest
      else if totp_code secret step == code then Some step
      else totp_search secret code last rest
  end.

Definition totp_window (now : time) : list Z :=
  let current := Z.quot (Unix now) 30 in [current; current - 1; current + 1].

Definition totpStep (secret : bytes) (code : string) (now : time) (last : Z) : option Z :=
  if len code != 6 then None else totp_search secret code last (totp_window now).
End Secrets.

(** ** Facts *)

Lemma byte_take_drop n s : byte_take n s +:+ byte_drop n s = s.
Proof.
  revert s. induction n as [|n IH]; intros s; [by destruct s|].
  destruct s as [|c s]; [done|]. cbn. rewrite string_app_cons, IH. done.
Qed.

Lemma byte_take_app n a b : String.length a = n -> byte_take n (a +:+ b) = a.
Proof.
  revert a. induction n as [|n IH]; intros [|c a] E; simpl in E; try done.
  rewrite string_app_cons. cbn. rewrite IH by lia. done.
Qed.

Lemma byte_drop_app n a b : String.length a = n -> byte_drop n (a +:+ b) = b.
Proof.
  revert a. induction n as [|n IH]; intros [|c a] E; simpl in E; try done.
  rewrite string_app_cons. cbn. apply IH. lia.
Qed.

Lemma length_string_of_bytes f n : String.length (string_of_bytes f n) = n.
Proof.
  unfold string_of_bytes. generalize 0%nat. induction n as [|n IH]; intros k; simpl; [done|].
  by rewrite IH.
Qed.

(** A byte string without NUL. *)
Definition nul_free (s : string) : bool := bytes_forall (fun c => c != "000"%char) s.

Lemma nul_split a a' b b' :
  nul_free a = true -> nul_free a' = true ->
  a +:+ String "000" b = a' +:+ String "000" b' -> a = a' /\ b = b'.
Proof.
  unfold nul_free. revert a'.
  induction a as [|c a IH]; intros [|c' a'] Ha Ha'; rewrite ?string_app_nil, ?string_app_cons;
    intros E; simplify_eq; cbn [bytes_forall] in *; bsimp; try done.
  edestruct IH as [-> ->]; eauto.
Qed.

Section Facts.
Context `{Platform}.

Lemma hash_input_inj k c v k' c' v' :
  nul_free k = true -> nul_free k' = true -> nul_free c = true -> nul_free c' = true ->
  hash_input k c v = hash_input k' c' v' -> k = k' /\ c = c' /\ v = v'.
Proof.
  unfold hash_input. intros Hk Hk' Hc Hc' E.
  apply nul_split in E as [-> E]; [|done..]. apply nul_split in E as [-> E]; done.
Qed.

Lemma totp_search_some secret code last steps s :
  totp_search secret code last steps = Some s ->
  In s steps /\ last < s /\ 0 <= s /\ totp_code secret s = code.
Proof.
  induction steps as [|x steps IH]; cbn [totp_search]; [done|].
  destruct ((x <=? last) || (x <? 0)) eqn:E.
  - intros Hs. apply IH in Hs. simpl. tauto.
  - destruct (totp_code secret x == code) eqn:Ec.
    + intros [= ->]. bsimp. simpl. tauto.
    + intros Hs. apply IH in Hs. simpl. tauto.
Qed.

Lemma totp_search_none secret code last steps :
  totp_search secret code last steps = None <->
  forall s, In s steps -> last < s -> 0 <= s -> totp_code secret s <> code.
Proof.
  induction steps as [|x steps IH]; cbn [totp_search]; [simpl; tauto|].
  destruct ((x <=? last) || (x <? 0)) eqn:E.
  - rewrite IH. bsimp. split; [|simpl; naive_solver].
    intros Hs s [->|Hin]; [lia|auto].
  - destruct (totp_code secret x == code) eqn:Ec.
    + bsimp. split; [done|]. intros Hs. exfalso. eapply Hs; [by left|lia|lia|done].
    + rewrite IH. bsimp. split; [|simpl; naive_solver].
      intros Hs s [->|Hin]; [done|auto].
Qed.

Lemma length_totp_code secret s : len (totp_code secret s) = 6.
Proof.
  unfold totp_code, len. cbv zeta.
  match goal with |- context [Sprintf06d ?n] => destruct (Sprintf06d_spec n) as (_ & -> & _) end;
    [apply Z.mod_pos_bound; lia|done].
Qed.

(** What a successful and a failed verification mean. *)
Lemma totpStep_some secret code now last s :
  totpStep secret code now last = Some s ->
  In s (totp_window now) /\ last < s /\ 0 <= s /\ totp_code secret s = code.
Proof.
  unfold totpStep. destruct (len code != 6); [done|]. apply totp_search_some.
Qed.
End Facts.
