(* ===== verification/PasskeyVerifier.v ===== *)
(** pkg/passkey/verifier.go: WebAuthn ceremonies against server-held challenges.

    The go-webauthn library is the class [WebAuthn]: its parsers, its challenge generator and
    its verifiers are parameters. JSON options are kept as the data they encode. *)
From S2P Require Import Prelude GoLib Schema Limiter TxMonad.
#[local] Open Scope string_scope.
#[local] Open Scope Z_scope.
#[local] Open Scope list_scope.

(** passkey.ErrInvalid (not the engine's ErrInvalid). *)
Definition ErrCeremony : error := ErrOther "invalid passkey ceremony".

Record Config := { RPID : string; Origins : list string; OpaqueOrigins : list string }.

(** The webauthn.Config that [New] builds. *)
Record WebConfig := {
  web_RPID : string;
  web_RPDisplayName : string;
  web_RPOrigins : list string;
  web_RPOpaqueOrigins : list string;
  web_AttestationPreference : string;
  web_ResidentKey : string;
  web_UserVerification : string;
}.
Record Verifier := { web : WebConfig }.

Record Credential := {
  cr_ID : bytes;
  cr_PublicKey : bytes;
  cr_SignCount : Z;
  cr_BackupEligible : bool;
  cr_BackupState : bool;
  cr_Transports : list string;
  cr_CounterWarning : bool;
}.
Record PasskeyAccount := {
  acc_ID : uuid;
  acc_Name : string;
  acc_Credentials : list Credential;
}.

(** ** Data exchanged with the library *)
Record LibraryCredential := {
  l_ID : bytes;
  l_PublicKey : bytes;
  l_UserPresent : bool;
  l_UserVerified : bool;
  l_BackupEligible : bool;
  l_BackupState : bool;
  l_SignCount : Z;
  l_CloneWarning : bool;
  l_Transport : list string;
}.
Record LibraryUser := {
  lu_ID : bytes;
  lu_Name : string;
  lu_DisplayName : string;
  lu_Credentials : list LibraryCredential;
}.
Record CredentialParameter := { cp_Type : string; cp_Algorithm : Z }.
Record SessionData := {
  sd_Challenge : string;
  sd_RelyingPartyID : string;
  sd_UserID : bytes;
  sd_Expires : time;
  sd_UserVerification : string;
  sd_CredParams : list CredentialParameter;
}.
Record RequestOptions := {
  ro_Challenge : bytes;
  ro_RelyingPartyID : string;
  ro_UserVerification : string;
  ro_Timeout : Z;
}.
Record CreationOptions := {
  co_RelyingPartyName : string;
  co_RelyingPartyID : string;
  co_UserName : string;
  co_UserDisplayName : string;
  co_UserID : bytes;
  co_Challenge : bytes;
  co_Parameters : list CredentialParameter;
  co_Timeout : Z;
  co_ResidentKey : string;
  co_UserVerification : string;
  co_Attestation : string;
}.
(** A json.RawMessage. *)
Inductive Options := Request (r : RequestOptions) | Creation (c : CreationOptions).
Record Ceremony := { cer_Challenge : bytes; cer_Options : Options }.

(** ** The library. The [nat] argument is the moment of the call (its randomness and clock). *)
Class WebAuthn : Type := {
  ParsedCreation : Type;
  ParsedAssertion : Type;
  webauthn_New : WebConfig -> bool;
  lib_BeginRegistration :
    nat -> WebConfig -> LibraryUser -> list CredentialParameter -> option (string * CreationOptions);
  lib_BeginDiscoverableLogin : nat -> WebConfig -> string -> option (string * RequestOptions);
  ParseCredentialCreationResponseBytes : bytes -> option ParsedCreation;
  ParseCredentialRequestResponseBytes : bytes -> option ParsedAssertion;
  RawID : ParsedAssertion -> bytes;
  UserHandle : ParsedAssertion -> bytes;
  lib_CreateCredential :
    nat -> WebConfig -> LibraryUser -> SessionData -> ParsedCreation -> option LibraryCredential;
  lib_ValidatePasskeyLogin :
    nat -> WebConfig -> (bytes -> bytes -> option LibraryUser) -> SessionData ->
    ParsedAssertion -> option LibraryCredential;
  (* github.com/google/uuid: id[:] and FromBytes *)
  uuid_Bytes : uuid -> bytes;
  uuid_FromBytes : bytes -> option uuid;
}.

(** A library call reads the oracle's moment. *)
Definition library {A} (f : nat -> option A) : M A := fun _ w =>
  match f (tick w) with
  | Some a => (Ok a, bump w)
  | None => (Err ErrCeremony, bump w)
  end.

#[export] Instance ro_library {A} (f : nat -> option A) : ReadOnly (library f).
Proof. intros o w. unfold library. by destruct (f (tick w)). Qed.

Definition optionTimeout (expires now : time) : Z :=
  let n := Z.quot (expires - now) 1000 in if n <? 1 then 1 else n.

Definition parameters : list CredentialParameter :=
  [{| cp_Type := "public-key"; cp_Algorithm := -7 |};
   {| cp_Type := "public-key"; cp_Algorithm := -257 |}].

Definition max_response : Z := 65536.

Section Verifier.
Context `{WebAuthn}.

Definition WebAuthnID (a : PasskeyAccount) : bytes := uuid_Bytes (acc_ID a).
Definition WebAuthnName (a : PasskeyAccount) : string := acc_Name a.
Definition WebAuthnDisplayName (a : PasskeyAccount) : string := acc_Name a.
Definition WebAuthnCredentials (a : PasskeyAccount) : list LibraryCredential :=
  map (fun c => {| l_ID := cr_ID c; l_PublicKey := cr_PublicKey c; l_UserPresent := true;
                   l_UserVerified := true; l_BackupEligible := cr_BackupEligible c;
                   l_BackupState := cr_BackupState c; l_SignCount := cr_SignCount c;
                   l_CloneWarning := false; l_Transport := cr_Transports c |})
    (acc_Credentials a).
Definition library_user (a : PasskeyAccount) : LibraryUser :=
  {| lu_ID := WebAuthnID a; lu_Name := WebAuthnName a; lu_DisplayName := WebAuthnDisplayName a;
     lu_Credentials := WebAuthnCredentials a |}.

Definition fromLibrary (c : LibraryCredential) : Credential :=
  {| cr_ID := l_ID c; cr_PublicKey := l_PublicKey c; cr_SignCount := l_SignCount c;
     cr_BackupEligible := l_BackupEligible c; cr_BackupState := l_BackupState c;
     cr_Transports := l_Transport c; cr_CounterWarning := l_CloneWarning c |}.

Definition AuthenticationOptions (v : Verifier) (challenge : bytes) (expires now : time)
    : result Options :=
  if len challenge <? 32 then Err ErrCeremony
  else Ok (Request {| ro_Challenge := challenge; ro_RelyingPartyID := web_RPID (web v);
                      ro_UserVerification := "required";
                      ro_Timeout := optionTimeout expires now |}).

Definition RegistrationOptions (v : Verifier) (a : PasskeyAccount) (challenge : bytes)
    (expires now : time) : result Options :=
  if (acc_ID a == uuid_Nil) || (len challenge <? 32) then Err ErrCeremony
  else Ok (Creation {| co_RelyingPartyName := web_RPDisplayName (web v);
                       co_RelyingPartyID := web_RPID (web v);
                       co_UserName := acc_Name a; co_UserDisplayName := acc_Name a;
                       co_UserID := WebAuthnID a; co_Challenge := challenge;
                       co_Parameters := parameters; co_Timeout := optionTimeout expires now;
                       co_ResidentKey := web_ResidentKey (web v);
                       co_UserVerification := web_UserVerification (web v);
                       co_Attestation := "none" |}).

Definition New (c : Config) : result Verifier :=
  if (RPID c == "") || (match Origins c with [] => true | _ => false end) then Err ErrCeremony
  else
    let w := {| web_RPID := RPID c; web_RPDisplayName := "ChefBook"; web_RPOrigins := Origins c;
                web_RPOpaqueOrigins := OpaqueOrigins c; web_AttestationPreference := "none";
                web_ResidentKey := "required"; web_UserVerification := "required" |} in
    if webauthn_New w then Ok {| web := w |} else Err ErrCeremony.

Definition ceremony (challenge : string) (options : Options) : result Ceremony :=
  match base64_RawURL_Decode challenge with
  | None => Err ErrCeremony
  | Some b => Ok {| cer_Challenge := b; cer_Options := options |}
  end.

Definition BeginRegistration (v : Verifier) (a : PasskeyAccount) (expires : time) : M Ceremony :=
  now <- Now;;
  reject_if ((acc_ID a == uuid_Nil) || negb (After expires now)) ErrCeremony;;;
  r <- library (fun t => lib_BeginRegistration t (web v) (library_user a) parameters);;
  lift (ceremony r.1 (Creation r.2)).

Definition BeginAuthentication (v : Verifier) (expires : time) : M Ceremony :=
  now <- Now;;
  reject_if (negb (After expires now)) ErrCeremony;;;
  r <- library (fun t => lib_BeginDiscoverableLogin t (web v) "required");;
  lift (ceremony r.1 (Request r.2)).

Definition session (v : Verifier) (challenge : bytes) (expires : time) : M SessionData :=
  now <- Now;;
  reject_if ((len challenge <? 32) || negb (After expires now)) ErrCeremony;;;
  ret {| sd_Challenge := base64_RawURL_Encode challenge; sd_RelyingPartyID := web_RPID (web v);
         sd_UserID := ""; sd_Expires := expires; sd_UserVerification := "required";
         sd_CredParams := parameters |}.

Definition set_UserID (id : bytes) (s : SessionData) : SessionData :=
  {| sd_Challenge := sd_Challenge s; sd_RelyingPartyID := sd_RelyingPartyID s; sd_UserID := id;
     sd_Expires := sd_Expires s; sd_UserVerification := sd_UserVerification s;
     sd_CredParams := sd_CredParams s |}.

Definition VerifyRegistration (v : Verifier) (a : PasskeyAccount) (challenge : bytes)
    (expires : time) (response : bytes) : M Credential :=
  reject_if ((acc_ID a == uuid_Nil) || (max_response <? len response)) ErrCeremony;;;
  s <- session v challenge expires;;
  let s := set_UserID (WebAuthnID a) s in
  match ParseCredentialCreationResponseBytes response with
  | None => fail ErrCeremony
  | Some parsed =>
      c <- library (fun t => lib_CreateCredential t (web v) (library_user a) s parsed);;
      reject_if (existsb (fun existing => cr_ID existing == l_ID c) (acc_Credentials a))
        ErrCeremony;;;
      ret (fromLibrary c)
  end.

Definition AssertionIdentity (response : bytes) : result (bytes * uuid) :=
  if max_response <? len response then Err ErrCeremony
  else match ParseCredentialRequestResponseBytes response with
       | None => Err ErrCeremony
       | Some p =>
           match uuid_FromBytes (UserHandle p) with
           | None => Err ErrCeremony
           | Some id => if id == uuid_Nil then Err ErrCeremony else Ok (RawID p, id)
           end
       end.

(** The discoverable-user handler: the handle must be the account's, the credential one of
    its own. *)
Definition passkey_user (a : PasskeyAccount) (id handle : bytes) : option LibraryUser :=
  if handle != WebAuthnID a then None
  else if existsb (fun candidate => cr_ID candidate == id) (acc_Credentials a)
       then Some (library_user a)
       else None.

Definition VerifyAuthentication (v : Verifier) (a : PasskeyAccount) (challenge : bytes)
    (expires : time) (response : bytes) : M Credential :=
  reject_if ((acc_ID a == uuid_Nil) || (max_response <? len response)) ErrCeremony;;;
  s <- session v challenge expires;;
  match ParseCredentialRequestResponseBytes response with
  | None => fail ErrCeremony
  | Some p =>
      c <- library (fun t => lib_ValidatePasskeyLogin t (web v) (passkey_user a) s p);;
      reject_if (l_CloneWarning c && negb (l_BackupEligible c)) ErrCeremony;;;
      ret (fromLibrary c)
  end.

#[export] Instance ro_session v ch ex : ReadOnly (session v ch ex).
Proof. unfold session. solve_effect. Qed.
#[export] Instance ro_BeginRegistration v a ex : ReadOnly (BeginRegistration v a ex).
Proof. unfold BeginRegistration. solve_effect. Qed.
#[export] Instance ro_BeginAuthentication v ex : ReadOnly (BeginAuthentication v ex).
Proof. unfold BeginAuthentication. solve_effect. Qed.
#[export] Instance ro_VerifyRegistration v a ch ex r : ReadOnly (VerifyRegistration v a ch ex r).
Proof. unfold VerifyRegistration. solve_effect. Qed.
#[export] Instance ro_VerifyAuthentication v a ch ex r :
  ReadOnly (VerifyAuthentication v a ch ex r).
Proof. unfold VerifyAuthentication. solve_effect. Qed.
End Verifier.
