(* ===== verification/Engine.v ===== *)
(** internal/authentication/types.go, steps.go (discriminators) and the provider interface of
    oauth.go: the values the engine's operations exchange and the engine's configuration. *)
From S2P Require Import Prelude GoLib Schema Limiter TxMonad Secrets PasskeyVerifier.
#[local] Open Scope string_scope.
#[local] Open Scope Z_scope.
#[local] Open Scope list_scope.

(** ** Values *)
Record Principal := { AccountID : uuid; SessionID : Z }.
Definition no_principal : Principal := {| AccountID := uuid_Nil; SessionID := 0 |}.

Record Challenge := {
  c_URL : string;
  c_Nonce : string;
  c_PublicKey : option Options;
  c_ID : uuid;
  c_Method : string;
  c_Status : string;
  c_ExpirationTimestamp : time;
}.

Record Process := {
  p_ID : uuid;
  p_Purpose : string;
  p_Status : string;
  p_ExpirationTimestamp : time;
  p_Next : list string;
  p_Steps : list Challenge;
  p_FlowToken : string;
  p_ConfirmationToken : string;
  p_ConfirmationExpirationTimestamp : option time;
  p_accountID : option uuid;
  p_sessionID : option Z;
  p_failures : Z;
}.

Record Proof := {
  f_Email : string;
  f_Name : string;
  f_IDToken : string;
  f_State : string;
  f_Method : string;
  f_Login : string;
  f_Password : string;
  f_Code : string;
  f_Credential : bytes;
}.
Record Attempt := { at_Challenge : Challenge; at_Authentication : Process }.

(** ** Field updates of local values *)
Definition set_p_Next (v : list string) (p : Process) : Process :=
  Build_Process (p_ID p) (p_Purpose p) (p_Status p) (p_ExpirationTimestamp p) v (p_Steps p)
    (p_FlowToken p) (p_ConfirmationToken p) (p_ConfirmationExpirationTimestamp p)
    (p_accountID p) (p_sessionID p) (p_failures p).
Definition set_p_Steps (v : list Challenge) (p : Process) : Process :=
  Build_Process (p_ID p) (p_Purpose p) (p_Status p) (p_ExpirationTimestamp p) (p_Next p) v
    (p_FlowToken p) (p_ConfirmationToken p) (p_ConfirmationExpirationTimestamp p)
    (p_accountID p) (p_sessionID p) (p_failures p).
Definition set_p_accountID (v : option uuid) (p : Process) : Process :=
  Build_Process (p_ID p) (p_Purpose p) (p_Status p) (p_ExpirationTimestamp p) (p_Next p)
    (p_Steps p) (p_FlowToken p) (p_ConfirmationToken p) (p_ConfirmationExpirationTimestamp p)
    v (p_sessionID p) (p_failures p).
Definition set_p_sessionID (v : option Z) (p : Process) : Process :=
  Build_Process (p_ID p) (p_Purpose p) (p_Status p) (p_ExpirationTimestamp p) (p_Next p)
    (p_Steps p) (p_FlowToken p) (p_ConfirmationToken p) (p_ConfirmationExpirationTimestamp p)
    (p_accountID p) v (p_failures p).
Definition set_c_Status (v : string) (c : Challenge) : Challenge :=
  Build_Challenge (c_URL c) (c_Nonce c) (c_PublicKey c) (c_ID c) (c_Method c) v
    (c_ExpirationTimestamp c).
Definition set_c_PublicKey (v : option Options) (c : Challenge) : Challenge :=
  Build_Challenge (c_URL c) (c_Nonce c) v (c_ID c) (c_Method c) (c_Status c)
    (c_ExpirationTimestamp c).
Definition set_c_Nonce (v : string) (c : Challenge) : Challenge :=
  Build_Challenge (c_URL c) v (c_PublicKey c) (c_ID c) (c_Method c) (c_Status c)
    (c_ExpirationTimestamp c).
Definition set_c_URL (v : string) (c : Challenge) : Challenge :=
  Build_Challenge v (c_Nonce c) (c_PublicKey c) (c_ID c) (c_Method c) (c_Status c)
    (c_ExpirationTimestamp c).

(** ** Purposes and step types *)
Definition validPurpose (p : string) : bool :=
  one_of ["signIn"; "signUp"; "passwordChange"; "emailChange"; "accountDeletion";
          "totpEnrollment"; "totpRemoval"; "passkeyEnrollment"; "passkeyRemoval";
          "backupCodesRotation"; "identityLink"; "identityUnlink"] p.
Definition sensitive (p : string) : bool := (p != "signIn") && (p != "signUp").

Definition StepType (method : string) : string :=
  if one_of ["password"; "email"; "totp"; "backupCode"; "google"; "vk"; "passkey"] method
  then method +:+ "Verification" else method.

Definition StepMethod (kind : string) : string :=
  if kind == "passwordVerification" then "password"
  else if kind == "emailVerification" then "email"
  else if kind == "totpVerification" then "totp"
  else if kind == "backupCodeVerification" then "backupCode"
  else if kind == "googleVerification" then "google"
  else if kind == "vkVerification" then "vk"
  else if kind == "passkeyVerification" then "passkey"
  else kind.

Definition contains (values : list string) (value : string) : bool :=
  existsb (fun v => v == value) values.

(** ** Providers (network adapters) *)
Record ProviderIdentity := {
  id_Subject : string;
  id_Email : string;
  id_Nonce : string;
  id_AuthenticatedAt : option time;  (* None: the zero time *)
}.
(** The moment argument of a network call stands for the remote side's answer then. *)
Record Provider := {
  Authorize : string -> string -> string -> string -> bool -> result string;
  Exchange : nat -> string -> string -> string -> result ProviderIdentity;
  Native : nat -> string -> result ProviderIdentity;
}.
Definition remote {A} (f : nat -> result A) : M A := fun _ w => (f (tick w), bump w).
#[export] Instance ro_remote {A} (f : nat -> result A) : ReadOnly (remote f).
Proof. by intros o w. Qed.

Record OAuthOptions := { CredentialType : string; RedirectURI : string }.

(** [MailSink]: writes into the transaction of the transition that triggers it. *)
Record MailSink := { QueueCode : string -> string -> time -> M unit }.

(** ** Engine *)
Record Engine := {
  Providers : string -> option Provider;
  OAuthRedirects : list string;
  Passkeys : option Verifier;
  e_Secrets : Secrets;
  Mail : option MailSink;
  BcryptCost : Z;
  FlowTTL : duration;
  ChallengeTTL : duration;
  GrantTTL : duration;
  ReuseTTL : duration;
  MaxAttempts : Z;
}.

(** [New]: the defaults; Providers, OAuthRedirects and Passkeys start empty. *)
Definition NewEngine (secrets : Secrets) (mail : option MailSink) : Engine :=
  {| Providers := fun _ => None; OAuthRedirects := []; Passkeys := None; e_Secrets := secrets;
     Mail := mail; BcryptCost := 12; FlowTTL := 15 * Minute; ChallengeTTL := 5 * Minute;
     GrantTTL := 2 * Minute; ReuseTTL := 5 * Minute; MaxAttempts := 10 |}.

(** [sql.NullX] values read without looking at [Valid]. *)
Definition uuid_of (o : option uuid) : uuid := match o with Some x => x | None => uuid_Nil end.
Definition int_of (o : option Z) : Z := match o with Some x => x | None => 0 end.
(** [column > $n]: false for NULL. *)
Definition later_than (o : option time) (t : time) : bool :=
  match o with Some x => t <? x | None => false end.

(** ** Table access *)
Definition with_id (id : uuid) (u : Authentication) : bool := u_id u == id.
Definition steps_of (id : uuid) (t : Step) : bool := t_authentication_id t == id.
Definition update_authentications (p : Authentication -> bool) (f : Authentication -> Authentication)
    (d : DB) : DB := set_authentications (upd p f (authentications d)) d.
Definition update_steps (p : Step -> bool) (f : Step -> Step) (d : DB) : DB :=
  set_authentication_steps (upd p f (authentication_steps d)) d.
Definition update_accounts (p : Account -> bool) (f : Account -> Account) (d : DB) : DB :=
  set_accounts (upd p f (accounts d)) d.
(** [DELETE FROM sessions WHERE p], with its cascades. *)
Definition delete_sessions (p : SessionRow -> bool) (d : DB) : DB :=
  cascade (set_sessions (del p (sessions d)) d).

(** ** Facts *)

Lemma one_of_spec l s : one_of l s = true <-> In s l.
Proof.
  unfold one_of. rewrite existsb_exists. split.
  - intros (x & Hx & E). rewrite beq_true in E. by subst.
  - intros Hs. exists s. split; [done|]. apply beq_refl.
Qed.

Lemma contains_spec l s : contains l s = true <-> In s l.
Proof. apply one_of_spec. Qed.

Lemma validPurpose_known p : validPurpose p = one_of known_purposes p.
Proof. done. Qed.
