(* ===== verification/Process.v ===== *)
(** internal/authentication/process.go and steps.go: the authentication process, its required
    next steps, reuse of evidence, completion and the one-time confirmation token. *)
From S2P Require Import Prelude GoLib Schema Limiter TxMonad Secrets PasskeyVerifier Engine.
#[local] Open Scope string_scope.
#[local] Open Scope Z_scope.
#[local] Open Scope list_scope.

Definition first_factors : list string :=
  ["passwordVerification"; "googleVerification"; "vkVerification"; "passkeyVerification"].
Definition second_factors : list string :=
  ["totpVerification"; "backupCodeVerification"; "passkeyVerification"].

(** A completed step of the process whose type is one of [kinds]. *)
Definition completed_step (id : uuid) (kinds : list string) (t : Step) : bool :=
  steps_of id t && (t_status t == "completed") && one_of kinds (t_type t).
Definition has_completed (d : DB) (id : uuid) (kinds : list string) : bool :=
  any (completed_step id kinds) (authentication_steps d).
Definition has_registration (d : DB) (id : uuid) : bool :=
  any (fun r => r_authentication_id r == id) (registrations d).
Definition has_totp (d : DB) (account : uuid) : bool :=
  any (fun t => tp_account_id t == account) (totp d).
Definition has_deletion (d : DB) (account : uuid) : bool :=
  any (fun x => d_account_id x == account) (account_deletion_requests d).

(** The two EXISTS of [checkRecoveryPrincipal] and [checkSession]. *)
Definition live_session (d : DB) (p : Principal) (now : time) : bool :=
  any (fun s => (s_id s == SessionID p) && (s_account_id s == AccountID p) &&
                (now <? s_expiration_timestamp s)) (sessions d).
Definition live_unblocked_session (d : DB) (p : Principal) (now : time) : bool :=
  any (fun s => (s_id s == SessionID p) && (s_account_id s == AccountID p) &&
                (now <? s_expiration_timestamp s) &&
                any (fun a => (a_id a == s_account_id s) && negb (isSome (a_blocking_timestamp a)))
                  (accounts d)) (sessions d).

(** The EXISTS of [reusable]; [cut] is now - ReuseTTL. *)
Definition fresh_step (id : uuid) (kinds : list string) (cut : time) (t : Step) : bool :=
  completed_step id kinds t && later_than (t_completion_timestamp t) cut.
Definition reusable_evidence (d : DB) (account : uuid) (session : Z) (cut : time)
    (a : Authentication) : bool :=
  (u_account_id a == Some account) && (u_session_id a == Some session) &&
  (u_status a == "completed") && negb (isSome (u_invalidation_timestamp a)) &&
  any (fresh_step (u_id a) first_factors cut) (authentication_steps d) &&
  (negb (has_totp d account) ||
   any (fresh_step (u_id a) second_factors cut) (authentication_steps d)).

(** The row a grant is consumed from. *)
Definition grant_row (hash : bytes) (purpose : string) (now : time) (u : Authentication) : bool :=
  (u_confirmation_token_hash u == Some hash) && (u_purpose u == purpose) &&
  (u_status u == "completed") && negb (isSome (u_invalidation_timestamp u)) &&
  later_than (u_confirmation_expiration_timestamp u) now.

Definition clear_grant (u : Authentication) : Authentication :=
  set_u_confirmation_token_hash None (set_u_confirmation_expiration_timestamp None u).

Definition step_le (x y : Step) : bool :=
  (t_creation_timestamp x <? t_creation_timestamp y) ||
  ((t_creation_timestamp x == t_creation_timestamp y) && N.leb (t_id x) (t_id y)).

Section Process.
Context `{Platform} `{WebAuthn} (e : Engine).

(** *** steps.go *)
Definition cancelAlternatives (process accepted : uuid) : M unit :=
  exec (update_steps (fun t => steps_of process t && (t_id t != accepted) &&
                               (t_status t == "pending"))
          (set_t_status "cancelled")).

Definition registration_taken (d : DB) (id : uuid) : bool :=
  any (fun r => (r_authentication_id r == id) &&
                any (fun a => a_email a == r_email r) (accounts d)) (registrations d).

Definition registrationAvailable (id : uuid) : M unit :=
  exists_ <- query (fun d => registration_taken d id);;
  if exists_ then fail ErrAccountExists else ret tt.

(** Commits the terminal state, then reports [reason]. *)
Definition failRegistration {A} (id : uuid) (reason : error) : M A :=
  exec (update_authentications (with_id id) (set_u_status "failed"));;;
  cancelAlternatives id uuid_Nil;;;
  exec (fun d => set_registrations
    (upd (fun r => r_authentication_id r == id) (set_r_password_hash None) (registrations d)) d);;;
  commit;;;
  fail reason.

Definition hydrateStep (c : Challenge) : M Challenge :=
  if c_Method c != "passkey" then ret c
  else match Passkeys e with
       | None => fail ErrUnavailable
       | Some v =>
           challenge <- query_row (fun d =>
             option_map pt_challenge (one (fun x => pt_step_id x == c_ID c)
                                        (passkey_authentication_steps d)));;
           now <- Now;;
           options <- lift (AuthenticationOptions v challenge (c_ExpirationTimestamp c) now);;
           ret (set_c_PublicKey (Some options) c)
       end.

Definition challenge_of (t : Step) : Challenge :=
  {| c_URL := ""; c_Nonce := ""; c_PublicKey := None; c_ID := t_id t;
     c_Method := StepMethod (t_type t); c_Status := t_status t;
     c_ExpirationTimestamp := t_expiration_timestamp t |}.

Fixpoint hydrateSteps (cs : list Challenge) : M (list Challenge) :=
  match cs with
  | [] => ret []
  | c :: cs => c <- hydrateStep c;; cs <- hydrateSteps cs;; ret (c :: cs)
  end.

Definition steps (p : Process) : M (list Challenge) :=
  result <- query (fun d =>
    map challenge_of (order_by step_le (sel (steps_of (p_ID p)) (authentication_steps d))));;
  hydrateSteps result.

(** *** process.go *)
Definition checkRecoveryPrincipal (p : Principal) : M unit :=
  now <- Now;;
  ok <- query (fun d => live_unblocked_session d p now);;
  if negb ok then fail ErrForbidden else ret tt.

Definition checkPrincipal (p : Principal) : M unit :=
  checkRecoveryPrincipal p;;;
  deleting <- query (fun d => has_deletion d (AccountID p));;
  if deleting then fail ErrForbidden else ret tt.

Definition checkPurposePrincipal (p : Principal) (purpose : string) : M unit :=
  if purpose == "accountDeletion" then checkRecoveryPrincipal p else checkPrincipal p.

Definition process_of (u : Authentication) : Process :=
  {| p_ID := u_id u; p_Purpose := u_purpose u; p_Status := u_status u;
     p_ExpirationTimestamp := u_expiration_timestamp u; p_Next := []; p_Steps := [];
     p_FlowToken := ""; p_ConfirmationToken := "";
     p_ConfirmationExpirationTimestamp := None; p_accountID := u_account_id u;
     p_sessionID := u_session_id u; p_failures := u_failed_attempts u |}.

Definition load (id : uuid) (flow : string) (who : Principal) : M Process :=
  r <- try (query_row (fun d => one (with_id id) (authentications d)));;
  match r with
  | Err ErrNoRows => fail ErrUnauthorized
  | Err err => fail err
  | Ok u =>
      now <- Now;;
      reject_if ((u_flow_token_hash u != Hash (e_Secrets e) "flow" "" flow) ||
                 isSome (u_invalidation_timestamp u) ||
                 negb (After (u_expiration_timestamp u) now)) ErrUnauthorized;;;
      let p := process_of u in
      if sensitive (p_Purpose p) then
        reject_if ((p_accountID p != Some (AccountID who)) ||
                   (p_sessionID p != Some (SessionID who))) ErrForbidden;;;
        checkPurposePrincipal who (p_Purpose p);;;
        ret p
      else ret p
  end.

Definition providerMethods : list string :=
  List.filter (fun name => isSome (Providers e name)) ["google"; "vk"].

Definition next (p : Process) : M (list string) :=
  if p_Status p != "pending" then ret []
  else if p_Purpose p == "signUp" then
    r <- query (fun d => (has_registration d (p_ID p),
                          has_completed d (p_ID p) ["emailVerification"],
                          has_completed d (p_ID p) ["passwordSetup"]));;
    let '(exists_, verified, credential) := r in
    if negb exists_ then ret ["registration"]
    else if negb verified then ret ["email"]
    else if credential then ret []
    else ret ["passwordSetup"]
  else
    first <- query (fun d => has_completed d (p_ID p) first_factors);;
    if negb first then
      ret (["password"] ++ providerMethods ++
           (if isSome (Passkeys e) then ["passkey"] else []))
    else match p_accountID p with
         | None => fail ErrForbidden
         | Some account =>
             totp_ <- query (fun d => has_totp d account);;
             if totp_ then
               second <- query (fun d => has_completed d (p_ID p) second_factors);;
               if negb second then ret ["totp"; "backupCode"] else ret []
             else ret []
         end.

Definition reusable (p : Process) : M bool :=
  now <- Now;;
  query (fun d => any (reusable_evidence d (uuid_of (p_accountID p)) (int_of (p_sessionID p))
                         (now - ReuseTTL e)) (authentications d)).

Definition completed_process (token : string) (expiry : time) (p : Process) : Process :=
  Build_Process (p_ID p) (p_Purpose p) "completed" (p_ExpirationTimestamp p) [] (p_Steps p)
    (p_FlowToken p) token (Some expiry) (p_accountID p) (p_sessionID p) (p_failures p).

Definition complete_row (account : uuid) (now : time) (hash : bytes) (expiry : time)
    (u : Authentication) : Authentication :=
  set_u_status "completed" (set_u_account_id (Some account)
    (set_u_completion_timestamp (Some now) (set_u_confirmation_token_hash (Some hash)
      (set_u_confirmation_expiration_timestamp (Some expiry) u)))).

Definition complete (p : Process) : M Process :=
  token <- randomToken;;
  t <- Now;;
  let expiry := t + GrantTTL e in
  now <- Now;;
  exec (update_authentications (with_id (p_ID p))
          (complete_row (uuid_of (p_accountID p)) now
             (Hash (e_Secrets e) "grant" "" token) expiry));;;
  ret (completed_process token expiry p).

Definition new_authentication (p : Process) (hash : bytes) : Authentication :=
  {| u_id := p_ID p; u_purpose := p_Purpose p; u_status := "pending";
     u_account_id := p_accountID p; u_session_id := p_sessionID p; u_flow_token_hash := hash;
     u_failed_attempts := 0; u_expiration_timestamp := p_ExpirationTimestamp p;
     u_completion_timestamp := None; u_invalidation_timestamp := None;
     u_confirmation_token_hash := None; u_confirmation_expiration_timestamp := None |}.

Definition Start (purpose : string) (who : Principal) : M Process :=
  if negb (validPurpose purpose) then fail ErrInvalid
  else if sensitive purpose && ((AccountID who == uuid_Nil) || (SessionID who <=? 0))
  then fail ErrForbidden
  else
    flow <- randomToken;;
    id <- uuid_New;;
    now <- Now;;
    let p := {| p_ID := id; p_Purpose := purpose; p_Status := "pending";
                p_ExpirationTimestamp := now + FlowTTL e; p_Next := []; p_Steps := [];
                p_FlowToken := flow; p_ConfirmationToken := "";
                p_ConfirmationExpirationTimestamp := None; p_accountID := None;
                p_sessionID := None; p_failures := 0 |} in
    transaction (
      (if sensitive purpose then checkPurposePrincipal who purpose else ret tt);;;
      let p := if sensitive purpose
               then set_p_accountID (Some (AccountID who))
                      (set_p_sessionID (Some (SessionID who)) p)
               else p in
      exec (fun d => set_authentications
        (ins (new_authentication p (Hash (e_Secrets e) "flow" "" flow)) (authentications d)) d);;;
      n <- next p;;
      let p := set_p_Next n p in
      p <- (if sensitive purpose then
              r <- reusable p;; if r then complete p else ret p
            else ret p);;
      commit_with p).

Definition Get (id : uuid) (flow : string) (who : Principal) : M Process :=
  transaction (
    p <- load id flow who;;
    n <- next p;;
    let p := set_p_Next n p in
    s <- steps p;;
    ret (set_p_Steps s p)).

(** Runs inside the transaction of the action it authorises. *)
Definition ConsumeGrant (token purpose : string) (who : Principal) : M uuid :=
  now <- Now;;
  r <- try (query_row (fun d =>
    one (grant_row (Hash (e_Secrets e) "grant" "" token) purpose now) (authentications d)));;
  match r with
  | Err ErrNoRows => fail ErrForbidden
  | Err err => fail err
  | Ok u =>
      let account := uuid_of (u_account_id u) in
      (if sensitive purpose then
         reject_if ((account != AccountID who) || (u_session_id u != Some (SessionID who)))
           ErrForbidden;;;
         checkPurposePrincipal who purpose
       else ret tt);;;
      blocked <- query_row (fun d =>
        option_map a_blocking_timestamp (one (fun a => a_id a == account) (accounts d)));;
      reject_if (isSome blocked) ErrForbidden;;;
      exec (update_authentications (with_id (u_id u)) clear_grant);;;
      ret account
  end.

(** *** challenge.go: loadChallenge *)
Definition loadChallenge (id process : uuid) : M Challenge :=
  r <- try (query_row (fun d =>
    one (fun t => (t_id t == id) && steps_of process t) (authentication_steps d)));;
  match r with
  | Ok t => ret (challenge_of t)
  | Err ErrNoRows => fail ErrUnauthorized
  | Err err => fail err
  end.

(** *** account.go: invalidate, conflict *)
Definition invalidate_row (now : time) (u : Authentication) : Authentication :=
  set_u_invalidation_timestamp (Some now) (clear_grant u).
Definition live_of (account : uuid) (u : Authentication) : bool :=
  (u_account_id u == Some account) && negb (isSome (u_invalidation_timestamp u)).

Definition invalidate (account : uuid) : M unit :=
  now <- Now;;
  exec (update_authentications (live_of account) (invalidate_row now)).

(** Wraps a statement: a unique violation becomes [ErrConflict]. *)
Definition conflict (err : error) : error :=
  if sql_state_is "23505" err then ErrConflict else err.
Definition or_conflict {A} (m : M A) : M A :=
  r <- try m;; match r with Ok a => ret a | Err err => fail (conflict err) end.
End Process.

(** ** Effects *)
Section Effects.
Context `{Platform} `{WebAuthn} (e : Engine).

#[export] Instance ro_hydrateStep c : ReadOnly (hydrateStep e c).
Proof. unfold hydrateStep. solve_effect. Qed.
#[export] Instance ro_hydrateSteps cs : ReadOnly (hydrateSteps e cs).
Proof. induction cs; simpl; solve_effect. Qed.
#[export] Instance ro_steps p : ReadOnly (steps e p).
Proof. unfold steps. solve_effect. Qed.
#[export] Instance ro_registrationAvailable id : ReadOnly (registrationAvailable id).
Proof. unfold registrationAvailable. solve_effect. Qed.
#[export] Instance ro_checkRecoveryPrincipal p : ReadOnly (checkRecoveryPrincipal p).
Proof. unfold checkRecoveryPrincipal. solve_effect. Qed.
#[export] Instance ro_checkPrincipal p : ReadOnly (checkPrincipal p).
Proof. unfold checkPrincipal. solve_effect. Qed.
#[export] Instance ro_checkPurposePrincipal p purpose : ReadOnly (checkPurposePrincipal p purpose).
Proof. unfold checkPurposePrincipal. solve_effect. Qed.
#[export] Instance ro_load id flow who : ReadOnly (load e id flow who).
Proof. unfold load. solve_effect. Qed.
#[export] Instance ro_loadChallenge id process : ReadOnly (loadChallenge id process).
Proof. unfold loadChallenge. solve_effect. Qed.
#[export] Instance ro_next p : ReadOnly (next e p).
Proof. unfold next. solve_effect. Qed.
#[export] Instance ro_reusable p : ReadOnly (reusable e p).
Proof. unfold reusable. solve_effect. Qed.
#[export] Instance ro_randomToken : ReadOnly randomToken.
Proof. unfold randomToken. solve_effect. Qed.
#[export] Instance ro_randomCode : ReadOnly randomCode.
Proof. unfold randomCode. solve_effect. Qed.
#[export] Instance ro_Encrypt s v c : ReadOnly (Encrypt s v c).
Proof. unfold Encrypt. solve_effect. Qed.
#[export] Instance nc_cancelAlternatives p a : NoCommit (cancelAlternatives p a).
Proof. unfold cancelAlternatives. solve_effect. Qed.
#[export] Instance nc_complete p : NoCommit (complete e p).
Proof. unfold complete. solve_effect. Qed.
#[export] Instance nc_ConsumeGrant t p who : NoCommit (ConsumeGrant e t p who).
Proof. unfold ConsumeGrant. solve_effect. Qed.
#[export] Instance nc_invalidate a : NoCommit (invalidate a).
Proof. unfold invalidate. solve_effect. Qed.
#[export] Instance nc_or_conflict {A} (m : M A) : NoCommit m -> NoCommit (or_conflict m).
Proof. unfold or_conflict. solve_effect. Qed.
#[export] Instance ro_or_conflict {A} (m : M A) : ReadOnly m -> ReadOnly (or_conflict m).
Proof. unfold or_conflict. solve_effect. Qed.
#[export] Instance atomic_Start purpose who : Atomic (Start e purpose who).
Proof. unfold Start. solve_effect. Qed.
#[export] Instance nc_Get id flow who : NoCommit (Get e id flow who).
Proof. unfold Get. solve_effect. Qed.
End Effects.
