(* ===== verification/Mail.v ===== *)
(** internal/authentication/mail.go: mail queued in the outbox by the transition that causes
    it, password reset, and the two-stage change of an account's email. *)
From S2P Require Import Prelude GoLib Schema Limiter TxMonad Secrets PasskeyVerifier Engine Process.
#[local] Open Scope string_scope.
#[local] Open Scope Z_scope.
#[local] Open Scope list_scope.

(** ** The outbox *)

(** [INSERT INTO outbox ... VALUES (uuid.New(), ...)]. *)
Definition outbox_insert (exchange kind : string) (body : Body) : M unit :=
  id <- uuid_New;;
  now <- sql_now;;
  exec (fun d => set_outbox
    (ins {| x_message_id := id; x_exchange := exchange; x_type := kind; x_body := body;
            x_creation_timestamp := now |} (outbox d)) d).

Definition queueMail (m : mailRequest) : M unit :=
  outbox_insert "mail" "mail.send.v1" (MailBody m).

(** A mailRequest with only [To], [Template] and the expiration set. *)
Definition mail_request (to template : string) (expiry : option time) : mailRequest :=
  {| m_Username := ""; m_Timestamp := None; m_DeleteSharedData := false; m_Client := "";
     m_To := to; m_Template := template; m_Code := ""; m_URL := "";
     m_ExpirationTimestamp := expiry |}.
Definition with_code (code : string) (m : mailRequest) : mailRequest :=
  Build_mailRequest (m_Username m) (m_Timestamp m) (m_DeleteSharedData m) (m_Client m) (m_To m)
    (m_Template m) code (m_URL m) (m_ExpirationTimestamp m).
Definition with_url (link : string) (m : mailRequest) : mailRequest :=
  Build_mailRequest (m_Username m) (m_Timestamp m) (m_DeleteSharedData m) (m_Client m) (m_To m)
    (m_Template m) (m_Code m) link (m_ExpirationTimestamp m).
Definition with_client (client : string) (m : mailRequest) : mailRequest :=
  Build_mailRequest (m_Username m) (m_Timestamp m) (m_DeleteSharedData m) client (m_To m)
    (m_Template m) (m_Code m) (m_URL m) (m_ExpirationTimestamp m).
Definition with_username (name : string) (m : mailRequest) : mailRequest :=
  Build_mailRequest name (m_Timestamp m) (m_DeleteSharedData m) (m_Client m) (m_To m)
    (m_Template m) (m_Code m) (m_URL m) (m_ExpirationTimestamp m).
Definition with_deletion (at_ : time) (shared : bool) (m : mailRequest) : mailRequest :=
  Build_mailRequest (m_Username m) (Some at_) shared (m_Client m) (m_To m)
    (m_Template m) (m_Code m) (m_URL m) (m_ExpirationTimestamp m).
Definition with_recipient (to : string) (expiry : time) (m : mailRequest) : mailRequest :=
  Build_mailRequest (m_Username m) (m_Timestamp m) (m_DeleteSharedData m) (m_Client m) to
    (m_Template m) (m_Code m) (m_URL m) (Some expiry).

Definition OutboxMail : MailSink :=
  {| QueueCode := fun to code expiry =>
       queueMail (with_code code (mail_request to "registration_code" (Some expiry))) |}.

(** An account's email, as [SELECT email FROM accounts WHERE account_id=$1]. *)
Definition account_row (d : DB) (account : uuid) : option Account :=
  one (fun a => a_id a == account) (accounts d).

Definition notifyAccount (account : uuid) (m : mailRequest) : M unit :=
  to <- query_row (fun d => option_map a_email (account_row d account));;
  expiry <- (match m_ExpirationTimestamp m with
             | None => now <- Now;; ret (now + 24 * Hour)
             | Some t => ret t
             end);;
  queueMail (with_recipient to expiry m).

(** [DELETE ... WHERE p RETURNING row]. *)
Definition delete_returning {R} (p : R -> bool) (t : list R) : option (R * list R) :=
  match one p t with Some r => Some (r, del p t) | None => None end.

(** [bcrypt.GenerateFromPassword]: 16 bytes of salt. *)
Definition GenerateFromPassword `{Platform} (password : string) (cost : Z) : M string :=
  salt <- rand_Read 16;;
  match bcrypt_Generate salt password cost with
  | Some h => ret h
  | None => fail (ErrOther "bcrypt")
  end.
#[export] Instance ro_GenerateFromPassword `{Platform} p c : ReadOnly (GenerateFromPassword p c).
Proof. unfold GenerateFromPassword. solve_effect. Qed.

Definition password_length_ok (password : string) : bool :=
  negb ((len password <? 8) || (72 <? len password)).

Section Mail.
Context `{Platform} `{WebAuthn} (e : Engine).

Definition confirmationURL (base token : string) : result string :=
  match url_Parse base with
  | None => Err ErrUnavailable
  | Some u =>
      if (Scheme u != "https") || (Host u == "") then Err ErrUnavailable
      else Ok (url_SetQuery base [("token", token)])
  end.

Definition reset_row (account : uuid) (hash : bytes) (now expiry : time) : PasswordResetRequest :=
  {| pr_account_id := account; pr_token_hash := hash; pr_creation_timestamp := now;
     pr_expiration_timestamp := expiry |}.

Definition upsert_reset (r : PasswordResetRequest) (d : DB) : DB :=
  let same x := pr_account_id x == pr_account_id r in
  set_password_reset_requests
    (if any same (password_reset_requests d)
     then upd same (fun _ => r) (password_reset_requests d)
     else ins r (password_reset_requests d)) d.

Definition StartPasswordReset (email baseURL : string) : M unit :=
  lift (confirmationURL baseURL "configuration-check");;;
  let email := ToLower (TrimSpace email) in
  transaction (
    r <- try (query_row (fun d =>
      one (fun a => (a_email a == email) && negb (isSome (a_blocking_timestamp a)))
        (accounts d)));;
    match r with
    | Err ErrNoRows => ret tt
    | Err err => fail err
    | Ok a =>
        token <- randomToken;;
        link <- lift (confirmationURL baseURL token);;
        now <- Now;;
        let expiry := now + 30 * Minute in
        db_now <- sql_now;;
        exec (upsert_reset (reset_row (a_id a) (Hash (e_Secrets e) "reset" "" token) db_now expiry));;;
        queueMail (with_url link (mail_request email "password_reset" (Some expiry)));;;
        commit
    end).

(** [UPDATE accounts SET password_hash=$2, password_change_timestamp=$3 WHERE account_id=$1]. *)
Definition set_password (account : uuid) (hash : string) (now : time) : DB -> DB :=
  update_accounts (fun a => a_id a == account)
    (fun a => set_a_password_hash (Some hash) (set_a_password_change_timestamp (Some now) a)).

Definition reset_token (hash : bytes) (now : time) (r : PasswordResetRequest) : bool :=
  (pr_token_hash r == hash) && (now <? pr_expiration_timestamp r).

Definition ConfirmPasswordReset (token password : string) : M unit :=
  if negb (password_length_ok password) then fail ErrInvalid else
  hash <- GenerateFromPassword password (BcryptCost e);;
  transaction (
    now <- Now;;
    r <- try (query_row_returning (fun d =>
      match delete_returning (reset_token (Hash (e_Secrets e) "reset" "" token) now)
              (password_reset_requests d) with
      | Some (r, rest) => Some (pr_account_id r, set_password_reset_requests rest d)
      | None => None
      end));;
    match r with
    | Err ErrNoRows => fail ErrInvalid
    | Err err => fail err
    | Ok account =>
        now <- Now;;
        exec (set_password account hash now);;;
        invalidate account;;;
        notifyAccount account (mail_request "" "password_changed" None);;;
        exec (delete_sessions (fun s => s_account_id s == account));;;
        commit
    end).

(** [mail.ParseAddress(email)] must give back the very same address. *)
Definition exact_address (email : string) : bool :=
  match mail_ParseAddress email with Some (address, _) => address == email | None => false end.

Definition ChangeEmail (who : Principal) (grant email baseURL : string) : M unit :=
  let email := ToLower (TrimSpace email) in
  if negb (exact_address email) then fail ErrInvalid else
  transaction (
    ConsumeGrant e grant "emailChange" who;;;
    old <- query_row (fun d => option_map a_email (account_row d (AccountID who)));;
    reject_if (old == email) ErrConflict;;;
    token <- randomToken;;
    now <- Now;;
    let expiry := now + 30 * Minute in
    link <- lift (confirmationURL baseURL token);;
    or_conflict (exec (fun d => set_email_change_requests
      (ins {| ec_account_id := AccountID who; ec_previous_email := old; ec_email := email;
              ec_stage := "awaiting_previous_email";
              ec_token_hash := Hash (e_Secrets e) "email-change" "" token;
              ec_expiration_timestamp := expiry |} (email_change_requests d)) d));;;
    queueMail (with_url link (mail_request old "email_change_previous" (Some expiry)));;;
    commit).

Definition change_token (hash : bytes) (now : time) (c : EmailChangeRequest) : bool :=
  (ec_token_hash c == hash) && (now <? ec_expiration_timestamp c).

(** [UPDATE accounts SET email ... WHERE account_id=$1 AND email=$4], counted. *)
Definition replace_email (account : uuid) (old email : string) (now : time) (d : DB) : Z * DB :=
  let p a := (a_id a == account) && (a_email a == old) in
  (Z.of_nat (length (sel p (accounts d))),
   update_accounts p (fun a => set_a_email email
     (set_a_email_verification_timestamp (Some now) a)) d).

Definition ConfirmEmail (token baseURL : string) : M string :=
  transaction (
    now <- Now;;
    r <- try (query_row (fun d =>
      one (change_token (Hash (e_Secrets e) "email-change" "" token) now)
        (email_change_requests d)));;
    match r with
    | Err ErrNoRows => fail ErrInvalid
    | Err err => fail err
    | Ok c =>
        let account := ec_account_id c in
        let mine x := ec_account_id x == account in
        if ec_stage c == "awaiting_previous_email" then
          next_ <- randomToken;;
          now <- Now;;
          let expiry := now + 30 * Minute in
          link <- lift (confirmationURL baseURL next_);;
          exec (fun d => set_email_change_requests
            (upd mine (fun x => set_ec_stage "awaiting_new_email"
              (set_ec_token_hash (Hash (e_Secrets e) "email-change" "" next_)
                (set_ec_expiration_timestamp expiry x))) (email_change_requests d)) d);;;
          queueMail (with_url link (mail_request (ec_email c) "email_change_new" (Some expiry)));;;
          commit_with "pendingNewEmail"
        else
          now <- Now;;
          n <- or_conflict (exec_count (replace_email account (ec_previous_email c) (ec_email c) now));;
          reject_if (n != 1) ErrConflict;;;
          exec (fun d => set_email_change_requests (del mine (email_change_requests d)) d);;;
          invalidate account;;;
          commit_with "changed"
    end).
End Mail.

(** ** Effects *)
Section MailEffects.
Context `{Platform} `{WebAuthn} (e : Engine).

#[export] Instance nc_outbox_insert x k b : NoCommit (outbox_insert x k b).
Proof. unfold outbox_insert. solve_effect. Qed.
#[export] Instance nc_queueMail m : NoCommit (queueMail m).
Proof. unfold queueMail. solve_effect. Qed.
#[export] Instance nc_notifyAccount a m : NoCommit (notifyAccount a m).
Proof. unfold notifyAccount. solve_effect. Qed.
#[export] Instance atomic_StartPasswordReset a b : Atomic (StartPasswordReset e a b).
Proof. unfold StartPasswordReset. solve_effect. Qed.
#[export] Instance atomic_ConfirmPasswordReset t p : Atomic (ConfirmPasswordReset e t p).
Proof. unfold ConfirmPasswordReset. solve_effect. Qed.
#[export] Instance atomic_ChangeEmail who g a b : Atomic (ChangeEmail e who g a b).
Proof. unfold ChangeEmail. solve_effect. Qed.
#[export] Instance atomic_ConfirmEmail t b : Atomic (ConfirmEmail e t b).
Proof. unfold ConfirmEmail. solve_effect. Qed.
End MailEffects.
