(* ===== verification/Passkeys.v ===== *)
(** internal/authentication/passkeys.go: enrolment, listing, renaming, removal and the
    verification of passkeys. *)
From S2P Require Import Prelude GoLib Schema Limiter TxMonad Secrets PasskeyVerifier Engine Process Mail.
#[local] Open Scope string_scope.
#[local] Open Scope Z_scope.
#[local] Open Scope list_scope.

Record Passkey := {
  pk_ID : uuid;
  pk_Name : string;
  pk_CreationTimestamp : time;
  pk_LastUseTimestamp : option time;
  pk_Transports : list string;
  pk_BackupEligible : bool;
  pk_BackupState : bool;
}.
Record PasskeyRequest := {
  pq_ID : uuid;
  pq_PublicKey : Options;
  pq_ExpirationTimestamp : time;
}.

(** [Scan] of a BIGINT into a uint32. *)
Definition scan_uint32 (n : Z) : result Z :=
  if (0 <=? n) && (n <? 4294967296) then Ok n else Err (ErrOther "sql: Scan error: uint32").

Fixpoint scan_credentials (rows : list PasskeyRow) : result (list Credential) :=
  match rows with
  | [] => Ok []
  | k :: rows =>
      match scan_uint32 (k_sign_count k), scan_credentials rows with
      | Ok n, Ok cs =>
          Ok ({| cr_ID := k_credential_id k; cr_PublicKey := k_public_key k; cr_SignCount := n;
                 cr_BackupEligible := k_backup_eligible k; cr_BackupState := k_backup_state k;
                 cr_Transports := []; cr_CounterWarning := false |} :: cs)
      | Err err, _ => Err err
      | _, Err err => Err err
      end
  end.

Definition string_leb (a b : string) : bool := String.leb a b.

(** The transports of a passkey; [ORDER BY transport] where the query says so. *)
Definition transports_of (d : DB) (id : uuid) : list string :=
  map kt_transport (sel (fun t => kt_passkey_id t == id) (passkey_transports d)).

Definition passkey_of (k : PasskeyRow) : Passkey :=
  {| pk_ID := k_id k; pk_Name := k_name k; pk_CreationTimestamp := k_creation_timestamp k;
     pk_LastUseTimestamp := k_last_use_timestamp k; pk_Transports := [];
     pk_BackupEligible := k_backup_eligible k; pk_BackupState := k_backup_state k |}.
Definition set_pk_Transports (v : list string) (p : Passkey) : Passkey :=
  Build_Passkey (pk_ID p) (pk_Name p) (pk_CreationTimestamp p) (pk_LastUseTimestamp p) v
    (pk_BackupEligible p) (pk_BackupState p).

Definition created_le (x y : PasskeyRow) : bool :=
  k_creation_timestamp x <=? k_creation_timestamp y.

(** The ways an account can still prove a first factor: password, identities, passkeys. *)
Definition password_count (a : Account) : Z := if isSome (a_password_hash a) then 1 else 0.
Definition identity_count (p : IdentityRow -> bool) (d : DB) : Z :=
  Z.of_nat (length (sel p (identities d))).
Definition passkey_count (p : PasskeyRow -> bool) (d : DB) : Z :=
  Z.of_nat (length (sel p (passkeys d))).

(** [name]: 1 to 128 bytes. *)
Definition passkey_name_ok (name : string) : bool := negb ((name == "") || (128 <? len name)).

Section Passkeys.
Context `{Platform} `{WebAuthn} (e : Engine).

Definition passkeyAccount (id : uuid) : M PasskeyAccount :=
  r <- try (query_row (fun d => account_row d id));;
  match r with
  | Err ErrNoRows => fail ErrCredentials
  | Err err => fail err
  | Ok a =>
      reject_if (isSome (a_blocking_timestamp a)) ErrForbidden;;;
      rows <- query (fun d => sel (fun k => k_account_id k == id) (passkeys d));;
      cs <- lift (scan_credentials rows);;
      ret {| acc_ID := id; acc_Name := a_email a; acc_Credentials := cs |}
  end.

Fixpoint load_transports (ps : list Passkey) : M (list Passkey) :=
  match ps with
  | [] => ret []
  | p :: ps =>
      ts <- query (fun d => order_by string_leb (transports_of d (pk_ID p)));;
      ps <- load_transports ps;;
      ret (set_pk_Transports ts p :: ps)
  end.

Definition GetPasskeys (who : Principal) : M (list Passkey) :=
  transaction (
    checkPrincipal who;;;
    out <- query (fun d => map passkey_of
      (order_by created_le (sel (fun k => k_account_id k == AccountID who) (passkeys d))));;
    load_transports out).

Definition StartPasskey (who : Principal) (grant : string) : M PasskeyRequest :=
  match Passkeys e with
  | None => fail ErrUnavailable
  | Some v =>
      transaction (
        ConsumeGrant e grant "passkeyEnrollment" who;;;
        a <- passkeyAccount (AccountID who);;
        now <- Now;;
        let expiry := now + 5 * Minute in
        r <- try (BeginRegistration v a expiry);;
        match r with
        | Err _ => fail ErrInvalid
        | Ok c =>
            id <- uuid_New;;
            exec (fun d => set_passkey_registration_requests
              (ins {| kr_request_id := id; kr_session_id := SessionID who;
                      kr_challenge := cer_Challenge c; kr_expiration_timestamp := expiry |}
                 (passkey_registration_requests d)) d);;;
            commit_with {| pq_ID := id; pq_PublicKey := cer_Options c;
                           pq_ExpirationTimestamp := expiry |}
        end)
  end.

(** [INSERT INTO passkey_transports ... ON CONFLICT DO NOTHING]. *)
Definition insert_transport (id : uuid) (transport : string) (d : DB) : DB :=
  if any (fun t => (kt_passkey_id t == id) && (kt_transport t == transport)) (passkey_transports d)
  then d
  else set_passkey_transports
         (ins {| kt_passkey_id := id; kt_transport := transport |} (passkey_transports d)) d.

Fixpoint insert_transports (id : uuid) (ts : list string) : M unit :=
  match ts with
  | [] => ret tt
  | t :: ts => exec (insert_transport id t);;; insert_transports id ts
  end.

Definition registration_request (id : uuid) (who : Principal) (now : time)
    (r : PasskeyRegistrationRow) : bool :=
  (kr_request_id r == id) && (kr_session_id r == SessionID who) &&
  (now <? kr_expiration_timestamp r).

Definition RegisterPasskey (who : Principal) (id : uuid) (name : string) (response : bytes)
    : M Passkey :=
  match Passkeys e with
  | None => fail ErrUnavailable
  | Some v =>
      if negb (passkey_name_ok name) then fail ErrInvalid else
      transaction (
        checkPrincipal who;;;
        now <- Now;;
        r <- try (query_row (fun d =>
          one (registration_request id who now) (passkey_registration_requests d)));;
        match r with
        | Err ErrNoRows => fail ErrInvalid
        | Err err => fail err
        | Ok request =>
            a <- passkeyAccount (AccountID who);;
            c <- try (VerifyRegistration v a (kr_challenge request)
                        (kr_expiration_timestamp request) response);;
            match c with
            | Err _ => fail ErrCredentials
            | Ok credential =>
                pid <- uuid_New;;
                now <- Now;;
                let p := {| pk_ID := pid; pk_Name := name; pk_CreationTimestamp := now;
                            pk_LastUseTimestamp := None;
                            pk_Transports := cr_Transports credential;
                            pk_BackupEligible := cr_BackupEligible credential;
                            pk_BackupState := cr_BackupState credential |} in
                or_conflict (exec (fun d => set_passkeys
                  (ins {| k_id := pid; k_account_id := AccountID who;
                          k_credential_id := cr_ID credential;
                          k_public_key := cr_PublicKey credential; k_name := name;
                          k_sign_count := cr_SignCount credential;
                          k_backup_eligible := cr_BackupEligible credential;
                          k_backup_state := cr_BackupState credential;
                          k_creation_timestamp := now; k_last_use_timestamp := None |}
                     (passkeys d)) d));;;
                insert_transports pid (cr_Transports credential);;;
                exec (fun d => set_passkey_registration_requests
                  (del (fun r => kr_request_id r == id) (passkey_registration_requests d)) d);;;
                invalidate (AccountID who);;;
                commit_with p
            end
        end)
  end.

Definition RenamePasskey (who : Principal) (id : uuid) (name : string) : M Passkey :=
  if negb (passkey_name_ok name) then fail ErrInvalid else
  transaction (
    checkPrincipal who;;;
    r <- try (query_row_returning (fun d =>
      let mine k := (k_id k == id) && (k_account_id k == AccountID who) in
      match one mine (passkeys d) with
      | Some k => Some (set_k_name name k, set_passkeys (upd mine (set_k_name name) (passkeys d)) d)
      | None => None
      end));;
    match r with
    | Err ErrNoRows => fail ErrNotFound
    | Err err => fail err
    | Ok k =>
        ts <- query (fun d => transports_of d id);;
        commit_with (set_pk_Transports ts (passkey_of k))
    end).

Definition remaining_after_passkey (account id : uuid) (d : DB) : option Z :=
  option_map (fun a => password_count a +
                identity_count (fun i => i_account_id i == account) d +
                passkey_count (fun k => (k_account_id k == account) && (k_id k != id)) d)
    (account_row d account).

(** [DELETE FROM passkeys WHERE p], with its cascade to the transports. *)
Definition delete_passkeys (p : PasskeyRow -> bool) (d : DB) : DB :=
  cascade (set_passkeys (del p (passkeys d)) d).

Definition DeletePasskey (who : Principal) (grant : string) (id : uuid) : M unit :=
  transaction (
    ConsumeGrant e grant "passkeyRemoval" who;;;
    count <- query_row (remaining_after_passkey (AccountID who) id);;
    reject_if (count == 0) ErrConflict;;;
    exec (delete_passkeys (fun k => (k_account_id k == AccountID who) && (k_id k == id)));;;
    invalidate (AccountID who);;;
    commit).

Definition use_passkey (account : uuid) (cred : Credential) (now : time) (d : DB) : DB :=
  set_passkeys
    (upd (fun k => (k_credential_id k == cr_ID cred) && (k_account_id k == account))
       (fun k => set_k_sign_count (cr_SignCount cred) (set_k_backup_state (cr_BackupState cred)
                   (set_k_last_use_timestamp (Some now) k))) (passkeys d)) d.

(** [UPDATE authentications SET account_id=$2 WHERE authentication_id=$1]. *)
Definition bind_account (id account : uuid) : DB -> DB :=
  update_authentications (with_id id) (set_u_account_id (Some account)).

(** Returns the process with [accountID] set. *)
Definition verifyPasskey (p : Process) (c : Challenge) (proof : Proof) : M Process :=
  match Passkeys e with
  | None => fail ErrUnavailable
  | Some v =>
      match AssertionIdentity (f_Credential proof) with
      | Err _ => fail ErrCredentials
      | Ok (_, account) =>
          reject_if (sensitive (p_Purpose p) && (account != uuid_of (p_accountID p)))
            ErrCredentials;;;
          a <- passkeyAccount account;;
          challenge <- query_row (fun d =>
            option_map pt_challenge (one (fun x => pt_step_id x == c_ID c)
                                       (passkey_authentication_steps d)));;
          r <- try (VerifyAuthentication v a challenge (c_ExpirationTimestamp c)
                      (f_Credential proof));;
          match r with
          | Err _ => fail ErrCredentials
          | Ok cred =>
              now <- Now;;
              exec (use_passkey account cred now);;;
              exec (bind_account (p_ID p) account);;;
              ret (set_p_accountID (Some account) p)
          end
      end
  end.
End Passkeys.

(** ** Effects *)
Section PasskeysEffects.
Context `{Platform} `{WebAuthn} (e : Engine).

#[export] Instance ro_passkeyAccount id : ReadOnly (passkeyAccount id).
Proof. unfold passkeyAccount. solve_effect. Qed.
#[export] Instance ro_load_transports ps : ReadOnly (load_transports ps).
Proof. induction ps; simpl; solve_effect. Qed.
#[export] Instance nc_insert_transports id ts : NoCommit (insert_transports id ts).
Proof. induction ts; simpl; solve_effect. Qed.
#[export] Instance nc_GetPasskeys who : NoCommit (GetPasskeys who).
Proof. unfold GetPasskeys. solve_effect. Qed.
#[export] Instance atomic_StartPasskey who g : Atomic (StartPasskey e who g).
Proof. unfold StartPasskey. solve_effect. Qed.
#[export] Instance atomic_RegisterPasskey who i n r : Atomic (RegisterPasskey e who i n r).
Proof. unfold RegisterPasskey. solve_effect. Qed.
#[export] Instance atomic_RenamePasskey who i n : Atomic (RenamePasskey who i n).
Proof. unfold RenamePasskey. solve_effect. Qed.
#[export] Instance atomic_DeletePasskey who g i : Atomic (DeletePasskey e who g i).
Proof. unfold DeletePasskey. solve_effect. Qed.
#[export] Instance nc_verifyPasskey p c f : NoCommit (verifyPasskey e p c f).
Proof. unfold verifyPasskey. solve_effect. Qed.
End PasskeysEffects.
