(* ===== verification/OAuth.v ===== *)
(** internal/authentication/oauth.go: OAuth and ID-token steps. The one-time request is
    consumed and committed before the provider is asked; the process and the step are
    checked again afterwards, in a transaction of their own. *)
From S2P Require Import Prelude GoLib Schema Limiter TxMonad Secrets PasskeyVerifier Engine Process Mail Passkeys.
#[local] Open Scope string_scope.
#[local] Open Scope Z_scope.
#[local] Open Scope list_scope.

(** The base64 encoded S256 code challenge of a verifier. *)
Definition code_challenge `{Platform} (verifier : string) : string :=
  base64_RawURL_Encode (sha256_Sum256 verifier).

(** UPDATE ... SET failed_attempts=failed_attempts+1, status=CASE ... of both tables. *)
Definition fail_authentication (max : Z) (u : Authentication) : Authentication :=
  set_u_failed_attempts (u_failed_attempts u + 1)
    (set_u_status (if max <=? u_failed_attempts u + 1 then "failed" else u_status u) u).
Definition fail_step (max : Z) (t : Step) : Step :=
  set_t_failed_attempts (t_failed_attempts t + 1)
    (set_t_status (if max <=? t_failed_attempts t + 1 then "failed" else t_status t) t).
Definition with_step_id (id : uuid) (t : Step) : bool := t_id t == id.

Definition complete_step (now : time) (t : Step) : Step :=
  set_t_status "completed" (set_t_completion_timestamp (Some now) t).

(** What the first transaction of [attemptProvider] hands to the network call. *)
Record Consumed := {
  co_process : Process;
  co_nonce_hash : bytes;
  co_redirect : string;
  co_encrypted : bytes;
}.

Section OAuth.
Context `{Platform} `{WebAuthn} (e : Engine).

Definition createOAuthChallenge (p : Process) (c : Challenge) (flow : string) (o : OAuthOptions)
    : M Challenge :=
  if (CredentialType o != "") && (CredentialType o != "idToken") &&
     (CredentialType o != "authorizationCode") then fail ErrInvalid else
  match Providers e (c_Method c) with
  | None => fail ErrUnavailable
  | Some provider =>
      nonce <- randomToken;;
      if CredentialType o == "idToken" then
        if (c_Method c != "google") || (RedirectURI o != "") then fail ErrInvalid else
        exec (fun d => set_google_authentication_steps
          (ins {| gt_step_id := c_ID c; gt_nonce_hash := Hash (e_Secrets e) "nonce" "" nonce |}
             (google_authentication_steps d)) d);;;
        ret (set_c_Nonce nonce c)
      else
        reject_if (negb (contains (OAuthRedirects e) (RedirectURI o))) ErrInvalid;;;
        state <- randomToken;;
        verifier <- randomToken;;
        encrypted <- Encrypt (e_Secrets e) verifier ("oauth:" +:+ state);;
        url <- lift (Authorize provider state nonce (code_challenge verifier) (RedirectURI o)
                       (sensitive (p_Purpose p)));;
        exec (fun d => set_oauth_requests
          (ins {| o_state_hash := Hash (e_Secrets e) "state" "" state;
                  o_provider := c_Method c; o_step_id := Some (c_ID c); o_session_id := None;
                  o_client_binding_hash := Hash (e_Secrets e) "binding" "" flow;
                  o_redirect_uri := RedirectURI o;
                  o_nonce_hash := Hash (e_Secrets e) "nonce" "" nonce;
                  o_encrypted_code_verifier := encrypted;
                  o_expiration_timestamp := c_ExpirationTimestamp c |} (oauth_requests d)) d);;;
        ret (set_c_URL url c)
  end.

(** The request a state consumes: of this provider, this step and this client. *)
Definition oauth_request (state provider : string) (cid : uuid) (flow : string) (now : time)
    (o : OAuthRequest) : bool :=
  (o_state_hash o == Hash (e_Secrets e) "state" "" state) && (o_provider o == provider) &&
  (o_step_id o == Some cid) &&
  (o_client_binding_hash o == Hash (e_Secrets e) "binding" "" flow) &&
  (now <? o_expiration_timestamp o).

(** *** attemptProvider, first transaction *)
Definition consume_request (id cid : uuid) (flow : string) (who : Principal) (proof : Proof)
    : M Consumed :=
  transaction (
    p <- load e id flow who;;
    c <- loadChallenge cid id;;
    now <- Now;;
    reject_if ((p_Status p != "pending") || (c_Status c != "pending") ||
               (c_Method c != f_Method proof) || negb (After (c_ExpirationTimestamp c) now))
      ErrConflict;;;
    next_ <- next e p;;
    reject_if (negb (contains next_ (c_Method c))) ErrForbidden;;;
    r <- (if f_IDToken proof != "" then
            if (f_Method proof != "google") || (f_Code proof != "") || (f_State proof != "")
            then fail ErrInvalid
            else try (query_row (fun d => option_map
                   (fun g => {| co_process := p; co_nonce_hash := gt_nonce_hash g;
                                co_redirect := ""; co_encrypted := "" |})
                   (one (fun g => gt_step_id g == cid) (google_authentication_steps d))))
          else
            now <- Now;;
            try (query_row_returning (fun d =>
              match delete_returning (oauth_request (f_State proof) (f_Method proof) cid flow now)
                      (oauth_requests d) with
              | Some (o, rest) =>
                  Some ({| co_process := p; co_nonce_hash := o_nonce_hash o;
                           co_redirect := o_redirect_uri o;
                           co_encrypted := o_encrypted_code_verifier o |},
                        set_oauth_requests rest d)
              | None => None
              end)));;
    match r with
    | Err ErrNoRows => fail ErrCredentials
    | Err err => fail err
    | Ok consumed => commit_with consumed
    end).

(** *** The network call and the checks of its answer *)
Definition provider_identity (provider : Provider) (proof : Proof) (c : Consumed)
    : M ProviderIdentity :=
  identity <- (if f_IDToken proof != "" then
                 remote (fun t => Native provider t (f_IDToken proof))
               else
                 verifier <- lift (Decrypt (e_Secrets e) (co_encrypted c)
                                     ("oauth:" +:+ f_State proof));;
                 remote (fun t => Exchange provider t (f_Code proof) (co_redirect c) verifier));;
  reject_if ((id_Subject identity == "") ||
             ((f_Method proof == "google") &&
              ((id_Nonce identity == "") ||
               (co_nonce_hash c != Hash (e_Secrets e) "nonce" "" (id_Nonce identity)))))
    ErrCredentials;;;
  now <- Now;;
  now' <- Now;;
  reject_if (sensitive (p_Purpose (co_process c)) &&
             match id_AuthenticatedAt identity with
             | None => true
             | Some t => Before t (now - ReuseTTL e) || After t (now' + Minute)
             end) ErrForbidden;;;
  ret identity.

(** The account an unblocked identity belongs to. *)
Definition identity_account (provider subject : string) (d : DB) : option uuid :=
  option_map i_account_id
    (one (fun i => (i_provider i == provider) && (i_subject i == subject) &&
                   any (fun a => (a_id a == i_account_id i) && negb (isSome (a_blocking_timestamp a)))
                     (accounts d)) (identities d)).

(** *** attemptProvider, second transaction *)
Definition finish_provider (id cid : uuid) (flow : string) (who : Principal) (proof : Proof)
    (identity : ProviderIdentity) : M Attempt :=
  transaction (
    p <- load e id flow who;;
    c <- loadChallenge cid id;;
    now <- Now;;
    reject_if ((p_Status p != "pending") || (c_Status c != "pending") ||
               negb (After (c_ExpirationTimestamp c) now)) ErrConflict;;;
    next_ <- next e p;;
    reject_if (negb (contains next_ (c_Method c))) ErrForbidden;;;
    r <- try (query_row (identity_account (f_Method proof) (id_Subject identity)));;
    match r with
    | Err ErrNoRows => fail ErrCredentials
    | Err err => fail err
    | Ok account =>
        reject_if (sensitive (p_Purpose p) && (uuid_of (p_accountID p) != account))
          ErrCredentials;;;
        let p := set_p_accountID (Some account) p in
        exec (bind_account id account);;;
        now <- Now;;
        exec (update_steps (with_step_id cid) (complete_step now));;;
        let c := set_c_Status "completed" c in
        cancelAlternatives (p_ID p) (c_ID c);;;
        next_ <- next e p;;
        let p := set_p_Next next_ p in
        p <- (match p_Next p with [] => complete e p | _ => ret p end);;
        s <- steps e p;;
        commit_with {| at_Challenge := c; at_Authentication := set_p_Steps s p |}
    end).

Definition attemptProvider (id cid : uuid) (flow : string) (who : Principal) (proof : Proof)
    : M Attempt :=
  match Providers e (f_Method proof) with
  | None => fail ErrUnavailable
  | Some provider =>
      c <- consume_request id cid flow who proof;;
      identity <- provider_identity provider proof c;;
      finish_provider id cid flow who proof identity
  end.

Definition validateRedirect (value : string) : bool :=
  match url_Parse value with
  | None => false
  | Some u => (Scheme u != "") && (Fragment u == "")
  end.

(** The failure accounting of [AttemptProvider], in a transaction of its own. *)
Definition count_provider_failure (id cid : uuid) (flow : string) (who : Principal)
    : M Attempt :=
  transaction (
    p <- load e id flow who;;
    c <- loadChallenge cid id;;
    reject_if ((p_Status p != "pending") || (c_Status c != "pending")) ErrConflict;;;
    exec (update_authentications (with_id id) (fail_authentication (MaxAttempts e)));;;
    exec (update_steps (with_step_id cid) (fail_step (MaxAttempts e)));;;
    commit;;;
    if MaxAttempts e <=? p_failures p + 1 then fail ErrAttempts else fail ErrCredentials).

Definition AttemptProvider (id cid : uuid) (flow : string) (who : Principal) (proof : Proof)
    : M Attempt :=
  r <- try (attemptProvider id cid flow who proof);;
  match r with
  | Ok result => ret result
  | Err ErrCredentials => count_provider_failure id cid flow who
  | Err err => fail err
  end.
End OAuth.

(** ** Effects *)
Section OAuthEffects.
Context `{Platform} `{WebAuthn} (e : Engine).

#[export] Instance nc_createOAuthChallenge p c f o : NoCommit (createOAuthChallenge e p c f o).
Proof. unfold createOAuthChallenge. solve_effect. Qed.
#[export] Instance atomic_consume_request i c f w p : Atomic (consume_request e i c f w p).
Proof. unfold consume_request. solve_effect. Qed.
#[export] Instance ro_provider_identity pr p c : ReadOnly (provider_identity e pr p c).
Proof. unfold provider_identity. solve_effect. Qed.
#[export] Instance atomic_finish_provider i c f w p x : Atomic (finish_provider e i c f w p x).
Proof. unfold finish_provider. solve_effect. Qed.
End OAuthEffects.
