(* ===== verification/Challenge.v ===== *)
(** internal/authentication/challenge.go: steps of a process are created, read, attempted and
    verified; a sign-up's last step registers the account. *)
From S2P Require Import Prelude GoLib Schema Limiter TxMonad Secrets PasskeyVerifier Engine Process Mail Passkeys OAuth.
#[local] Open Scope string_scope.
#[local] Open Scope Z_scope.
#[local] Open Scope list_scope.

(** [dummyPasswordHash, dummyPasswordError]: the errors of bcrypt are plain errors. *)
Definition dummy_of (r : result string) : string + string :=
  match r with Ok h => inl h | Err (ErrOther msg) => inr msg | Err _ => inr "bcrypt" end.
Definition dummy_result (r : string + string) : result string :=
  match r with inl h => Ok h | inr msg => Err (ErrOther msg) end.
Definition set_dummy (r : string + string) (m : Memory) : Memory :=
  {| dummyPasswordHash := Some r; activationAttempts := activationAttempts m |}.

Section Challenges.
Context `{Platform} `{WebAuthn} (e : Engine).

Definition new_step (c : Challenge) (process : uuid) (now : time) : Step :=
  {| t_id := c_ID c; t_authentication_id := process; t_type := StepType (c_Method c);
     t_status := "pending"; t_failed_attempts := 0; t_creation_timestamp := now;
     t_expiration_timestamp := c_ExpirationTimestamp c; t_completion_timestamp := None |}.

Definition CreateChallenge (id : uuid) (flow method : string) (who : Principal)
    (options : list OAuthOptions) : M Challenge :=
  transaction (
    p <- load e id flow who;;
    reject_if (p_Status p != "pending") ErrConflict;;;
    next_ <- next e p;;
    reject_if (negb (contains next_ method)) ErrForbidden;;;
    cid <- uuid_New;;
    now <- Now;;
    let expiry := now + ChallengeTTL e in
    let c := {| c_URL := ""; c_Nonce := ""; c_PublicKey := None; c_ID := cid;
                c_Method := method; c_Status := "pending";
                c_ExpirationTimestamp :=
                  if After expiry (p_ExpirationTimestamp p) then p_ExpirationTimestamp p
                  else expiry |} in
    exec (update_steps (fun t => steps_of id t && (t_type t == StepType method) &&
                                 (t_status t == "pending"))
            (set_t_status "cancelled"));;;
    db_now <- sql_now;;
    exec (fun d => set_authentication_steps (ins (new_step c id db_now) (authentication_steps d)) d);;;
    c <- (if (method == "google") || (method == "vk") then
            createOAuthChallenge e p c flow
              (match options with o :: _ => o | [] => {| CredentialType := ""; RedirectURI := "" |} end)
          else ret c);;
    c <- (if method == "passkey" then
            match Passkeys e with
            | None => fail ErrUnavailable
            | Some v =>
                r <- try (BeginAuthentication v (c_ExpirationTimestamp c));;
                match r with
                | Err _ => fail ErrUnavailable
                | Ok ceremony =>
                    exec (fun d => set_passkey_authentication_steps
                      (ins {| pt_step_id := c_ID c; pt_challenge := cer_Challenge ceremony |}
                         (passkey_authentication_steps d)) d);;;
                    ret (set_c_PublicKey (Some (cer_Options ceremony)) c)
                end
            end
          else ret c);;
    (if method == "email" then
       match Mail e with
       | None => fail ErrUnavailable
       | Some sink =>
           email <- query_row (fun d => option_map r_email
             (one (fun r => r_authentication_id r == id) (registrations d)));;
           code <- randomCode;;
           exec (fun d => set_email_authentication_steps
             (ins {| et_step_id := c_ID c; et_email := email;
                     et_code_hash := Hash (e_Secrets e) "email" (uuid_String (c_ID c)) code |}
                (email_authentication_steps d)) d);;;
           QueueCode sink email code (c_ExpirationTimestamp c)
       end
     else ret tt);;;
    c <- hydrateStep e c;;
    commit_with c).

Definition GetChallenge (id challenge : uuid) (flow : string) (who : Principal) : M Challenge :=
  transaction (
    load e id flow who;;;
    c <- loadChallenge challenge id;;
    hydrateStep e c).

(** The dummy hash is computed once per Engine, its error included. *)
Definition dummyPassword : M string :=
  m <- get_memory;;
  match dummyPasswordHash m with
  | Some r => lift (dummy_result r)
  | None =>
      r <- try (GenerateFromPassword "not-an-account-password" (BcryptCost e));;
      put_memory (set_dummy (dummy_of r) m);;;
      lift (dummy_result (dummy_of r))
  end.

(** The row of [email=$1 OR username=$1]. *)
Definition login_row (login : string) (a : Account) : bool :=
  (a_email a == login) || (a_username a == Some login).

Definition verify_registration (p : Process) (proof : Proof) : M Process :=
  let email := ToLower (TrimSpace (f_Email proof)) in
  if negb (exact_address email) then fail ErrInvalid else
  exec (fun d => set_registrations
    (ins {| r_authentication_id := p_ID p; r_email := email; r_password_hash := None |}
       (registrations d)) d);;;
  ret p.

Definition verify_passwordSetup (p : Process) (proof : Proof) : M Process :=
  if negb (password_length_ok (f_Password proof)) then fail ErrInvalid else
  hash <- GenerateFromPassword (f_Password proof) (BcryptCost e);;
  exec (fun d => set_registrations
    (upd (fun r => r_authentication_id r == p_ID p) (set_r_password_hash (Some hash))
       (registrations d)) d);;;
  ret p.

Definition verify_password (p : Process) (proof : Proof) : M Process :=
  dummy <- dummyPassword;;
  reject_if ((sensitive (p_Purpose p) && (f_Login proof != "")) ||
             (negb (sensitive (p_Purpose p)) && (f_Login proof == ""))) ErrInvalid;;;
  let login := ToLower (TrimSpace (f_Login proof)) in
  r <- try (query_row (fun d =>
    if sensitive (p_Purpose p) then account_row d (uuid_of (p_accountID p))
    else one (login_row login) (accounts d)));;
  match r with
  | Err ErrNoRows =>
      (* the dummy hash is compared all the same *)
      let _ := bcrypt_Compare dummy (f_Password proof) in
      fail ErrCredentials
  | Err err => fail err
  | Ok a =>
      let compareHash := match a_password_hash a with Some h => h | None => dummy end in
      let valid := bcrypt_Compare compareHash (f_Password proof) in
      if negb valid || negb (isSome (a_password_hash a)) || isSome (a_blocking_timestamp a)
      then fail ErrCredentials
      else
        exec (bind_account (p_ID p) (a_id a));;;
        ret (set_p_accountID (Some (a_id a)) p)
  end.

Definition verify_email (p : Process) (c : Challenge) (proof : Proof) : M Process :=
  hash <- query_row (fun d => option_map et_code_hash
    (one (fun x => et_step_id x == c_ID c) (email_authentication_steps d)));;
  if hash != Hash (e_Secrets e) "email" (uuid_String (c_ID c)) (f_Code proof)
  then fail ErrCredentials else ret p.

Definition verify_totp (p : Process) (proof : Proof) : M Process :=
  match p_accountID p with
  | None => fail ErrForbidden
  | Some account =>
      r <- try (query_row (fun d => one (fun t => tp_account_id t == account) (totp d)));;
      match r with
      | Err ErrNoRows => fail ErrCredentials
      | Err err => fail err
      | Ok row =>
          secret <- lift (Decrypt (e_Secrets e) (tp_encrypted_secret row) (uuid_String account));;
          now <- Now;;
          match totpStep secret (f_Code proof) now (tp_last_used_step row) with
          | None => fail ErrCredentials
          | Some step =>
              exec (fun d => set_totp (upd (fun t => tp_account_id t == account)
                                         (set_tp_last_used_step step) (totp d)) d);;;
              ret p
          end
      end
  end.

Definition backup_row (account : uuid) (hash : bytes) (b : BackupCodeRow) : bool :=
  (b_account_id b == account) && (b_code_hash b == hash).

Definition verify_backupCode (p : Process) (proof : Proof) : M Process :=
  match p_accountID p with
  | None => fail ErrForbidden
  | Some account =>
      r <- try (query_row_returning (fun d =>
        match delete_returning
                (backup_row account (Hash (e_Secrets e) "backup" (uuid_String account) (f_Code proof)))
                (backup_codes d) with
        | Some (_, rest) => Some (1, set_backup_codes rest d)
        | None => None
        end));;
      match r with
      | Err ErrNoRows => fail ErrCredentials
      | Err err => fail err
      | Ok _ => ret p
      end
  end.

Definition verify (p : Process) (c : Challenge) (proof : Proof) : M Process :=
  if c_Method c == "registration" then verify_registration p proof
  else if c_Method c == "passwordSetup" then verify_passwordSetup p proof
  else if c_Method c == "passkey" then verifyPasskey e p c proof
  else if c_Method c == "password" then verify_password p proof
  else if c_Method c == "email" then verify_email p c proof
  else if c_Method c == "totp" then verify_totp p proof
  else if c_Method c == "backupCode" then verify_backupCode p proof
  else fail ErrUnavailable.

Definition new_account (id : uuid) (email password : string) (now db_now : time) : Account :=
  {| a_id := id; a_email := email; a_email_verification_timestamp := Some now;
     a_username := None; a_password_hash := Some password;
     a_password_change_timestamp := Some now; a_blocking_timestamp := None;
     a_creation_timestamp := db_now |}.

(** [INSERT INTO accounts ... ON CONFLICT(email) DO NOTHING RETURNING account_id]. *)
Definition insert_account (a : Account) (d : DB) : option (uuid * DB) :=
  if any (fun x => a_email x == a_email a) (accounts d) then None
  else Some (a_id a, set_accounts (ins a (accounts d)) d).

Definition register (p : Process) : M Process :=
  account <- uuid_New;;
  r <- query_row (fun d => one (fun r => r_authentication_id r == p_ID p) (registrations d));;
  match r_password_hash r with
  | None => fail ErrForbidden
  | Some password =>
      exists_ <- query (fun d => any (fun a => a_email a == r_email r) (accounts d));;
      reject_if exists_ ErrAccountExists;;;
      now <- Now;;
      db_now <- sql_now;;
      inserted <- try (query_row_returning
        (insert_account (new_account account (r_email r) password now db_now)));;
      match inserted with
      | Err ErrNoRows => fail ErrAccountExists
      | Err err => fail (if sql_state_is "23505" err then ErrConflict else err)
      | Ok _ =>
          outbox_insert "auth.profiles" "profile.created" (ProfileCreated account);;;
          exec (fun d => set_registrations
            (del (fun r => r_authentication_id r == p_ID p) (registrations d)) d);;;
          ret (set_p_accountID (Some account) p)
      end
  end.

(** The transition after a proof was accepted, up to the response. *)
Definition advance_signUp (p : Process) (c : Challenge) : M Attempt :=
  available <- (if c_Method c == "email" then try (registrationAvailable (p_ID p))
                else ret (Ok tt));;
  match available with
  | Err ErrAccountExists => failRegistration (p_ID p) ErrAccountExists
  | Err err => fail err
  | Ok _ =>
      next_ <- next e p;;
      let p := set_p_Next next_ p in
      match p_Next p with
      | _ :: _ =>
          s <- steps e p;;
          commit_with {| at_Challenge := c; at_Authentication := set_p_Steps s p |}
      | [] =>
          r <- try (register p);;
          match r with
          | Err ErrAccountExists => failRegistration (p_ID p) ErrAccountExists
          | Err err => fail err
          | Ok p =>
              p <- complete e p;;
              s <- steps e p;;
              let p := set_p_Steps s p in
              c <- hydrateStep e c;;
              commit_with {| at_Challenge := c; at_Authentication := p |}
          end
      end
  end.

Definition advance (p : Process) (c : Challenge) : M Attempt :=
  next_ <- next e p;;
  let p := set_p_Next next_ p in
  p <- (match p_Next p with [] => complete e p | _ => ret p end);;
  s <- steps e p;;
  let p := set_p_Steps s p in
  c <- hydrateStep e c;;
  commit_with {| at_Challenge := c; at_Authentication := p |}.

(** A rejected proof is counted against the process and the step, and committed. *)
Definition count_failure (p : Process) (id challenge : uuid) : M Attempt :=
  exec (update_authentications (with_id id) (fail_authentication (MaxAttempts e)));;;
  exec (update_steps (with_step_id challenge) (fail_step (MaxAttempts e)));;;
  commit;;;
  if MaxAttempts e <=? p_failures p + 1 then fail ErrAttempts else fail ErrCredentials.

Definition AttemptStep (id challenge : uuid) (flow : string) (who : Principal) (proof : Proof)
    : M Attempt :=
  transaction (
    p <- load e id flow who;;
    reject_if (p_Status p != "pending") ErrConflict;;;
    c <- loadChallenge challenge id;;
    now <- Now;;
    reject_if ((c_Status c != "pending") || negb (After (c_ExpirationTimestamp c) now)) ErrConflict;;;
    reject_if (c_Method c != f_Method proof) ErrInvalid;;;
    next_ <- next e p;;
    reject_if (negb (contains next_ (c_Method c))) ErrForbidden;;;
    r <- try (verify p c proof);;
    match r with
    | Err ErrCredentials => count_failure p id challenge
    | Err err => fail err
    | Ok p =>
        now <- Now;;
        exec (update_steps (with_step_id challenge) (complete_step now));;;
        let c := set_c_Status "completed" c in
        cancelAlternatives (p_ID p) (c_ID c);;;
        if p_Purpose p == "signUp" then advance_signUp p c else advance p c
    end).
End Challenges.

(** ** Effects *)
Section ChallengeEffects.
Context `{Platform} `{WebAuthn} (e : Engine).

#[export] Instance nc_QueueCode to code expiry : NoCommit (QueueCode OutboxMail to code expiry).
Proof. simpl. apply _. Qed.
#[export] Instance ro_dummyPassword : ReadOnly (dummyPassword e).
Proof. unfold dummyPassword. solve_effect. Qed.
#[export] Instance nc_verify p c f : NoCommit (verify e p c f).
Proof.
  unfold verify, verify_registration, verify_passwordSetup, verify_password, verify_email,
    verify_totp, verify_backupCode. solve_effect.
Qed.
#[export] Instance nc_register p : NoCommit (register p).
Proof. unfold register. solve_effect. Qed.
#[export] Instance nc_GetChallenge i c f w : NoCommit (GetChallenge e i c f w).
Proof. unfold GetChallenge. solve_effect. Qed.
End ChallengeEffects.
