(* ===== verification/Sessions.v ===== *)
(** internal/authentication/sessions.go: sessions are created from a consumed confirmation,
    rotated by their refresh token, listed and revoked. *)
From S2P Require Import Prelude GoLib Schema Limiter TxMonad Secrets PasskeyVerifier Engine Process Mail.
#[local] Open Scope string_scope.
#[local] Open Scope Z_scope.
#[local] Open Scope list_scope.

(** access.Payload of chefbook-backend-common: what the engine fills in. *)
Record Payload := {
  ap_UserId : uuid;
  ap_SessionID : Z;
  ap_Email : string;
  ap_Username : option string;
  ap_Deleted : bool;
}.
(** [TokenIssuer]: outside the repository. *)
Record TokenIssuer := { CreateAccess : nat -> Payload -> duration -> result string }.

Record Restriction := {
  rs_Type : string;
  rs_DeletionTimestamp : time;
  rs_DeleteSharedData : bool;
}.
Record Tokens := {
  tk_UserID : uuid;
  tk_SessionID : Z;
  tk_AccessToken : string;
  tk_RefreshToken : string;
  tk_ExpirationTimestamp : time;
  tk_Restrictions : list Restriction;
}.
Record Session := {
  ss_ID : Z;
  ss_IP : string;
  ss_UserAgent : string;
  ss_LastRefreshTimestamp : time;
}.

Definition recent_first (x y : SessionRow) : bool :=
  s_last_refresh_timestamp y <=? s_last_refresh_timestamp x.

(** The session a refresh token rotates. *)
Definition refresh_row (id : Z) (hash : bytes) (now : time) (s : SessionRow) : bool :=
  (s_id s == id) && (s_refresh_token_hash s == hash) && (now <? s_expiration_timestamp s).

Definition rotate_row (hash : bytes) (ip ua : string) (now expiry : time) (s : SessionRow)
    : SessionRow :=
  set_s_refresh_token_hash hash (set_s_ip ip (set_s_user_agent ua
    (set_s_last_refresh_timestamp now (set_s_expiration_timestamp expiry s)))).

Section Sessions.
Context `{Platform} `{WebAuthn} (e : Engine).

Definition deletion_row (d : DB) (account : uuid) : option DeletionRequest :=
  one (fun x => d_account_id x == account) (account_deletion_requests d).

Definition issue (account : uuid) (id : Z) (refresh : string) (expiry : time)
    (issuer : TokenIssuer) (accessTTL : duration) : M Tokens :=
  a <- query_row (fun d => account_row d account);;
  reject_if (isSome (a_blocking_timestamp a)) ErrForbidden;;;
  r <- try (query_row (fun d => deletion_row d account));;
  match r with
  | Err ErrNoRows =>
      access <- remote (fun t => CreateAccess issuer t
        {| ap_UserId := account; ap_SessionID := id; ap_Email := a_email a;
           ap_Username := a_username a; ap_Deleted := false |} accessTTL);;
      ret {| tk_UserID := account; tk_SessionID := id; tk_AccessToken := access;
             tk_RefreshToken := refresh; tk_ExpirationTimestamp := expiry;
             tk_Restrictions := [] |}
  | Err err => fail err
  | Ok x =>
      now <- Now;;
      reject_if (negb (After (d_deletion_timestamp x) now)) ErrForbidden;;;
      access <- remote (fun t => CreateAccess issuer t
        {| ap_UserId := account; ap_SessionID := id; ap_Email := a_email a;
           ap_Username := a_username a; ap_Deleted := true |} accessTTL);;
      ret {| tk_UserID := account; tk_SessionID := id; tk_AccessToken := access;
             tk_RefreshToken := refresh; tk_ExpirationTimestamp := expiry;
             tk_Restrictions :=
               [{| rs_Type := "pendingDeletion"; rs_DeletionTimestamp := d_deletion_timestamp x;
                   rs_DeleteSharedData := d_delete_shared_data x |}] |}
  end.

Definition new_session (id : Z) (account : uuid) (hash : bytes) (ip ua : string)
    (db_now expiry : time) : SessionRow :=
  {| s_id := id; s_account_id := account; s_refresh_token_hash := hash; s_ip := ip;
     s_user_agent := ua; s_last_refresh_timestamp := db_now; s_expiration_timestamp := expiry |}.

Definition CreateSession (grant ip ua : string) (issuer : TokenIssuer)
    (accessTTL refreshTTL : duration) : M Tokens :=
  transaction (
    r <- try (query_row (fun d => option_map u_purpose
      (one (fun u => u_confirmation_token_hash u == Some (Hash (e_Secrets e) "grant" "" grant))
         (authentications d))));;
    match r with
    | Err ErrNoRows => fail ErrForbidden
    | Err err => fail err
    | Ok purpose =>
        reject_if ((purpose != "signIn") && (purpose != "signUp")) ErrForbidden;;;
        account <- ConsumeGrant e grant purpose no_principal;;
        refresh <- randomToken;;
        now <- Now;;
        let expiry := now + refreshTTL in
        id <- nextval;;
        db_now <- sql_now;;
        exec (fun d => set_sessions
          (ins (new_session id account (Hash (e_Secrets e) "refresh" "" refresh) ip ua db_now expiry)
             (sessions d)) d);;;
        result <- issue account id refresh expiry issuer accessTTL;;
        notifyAccount account (with_client ua (mail_request "" "new_login" None));;;
        commit_with result
    end).

Definition Refresh (id : Z) (refresh ip ua : string) (issuer : TokenIssuer)
    (accessTTL refreshTTL : duration) : M Tokens :=
  transaction (
    now <- Now;;
    r <- try (query_row (fun d =>
      one (refresh_row id (Hash (e_Secrets e) "refresh" "" refresh) now) (sessions d)));;
    match r with
    | Err ErrNoRows => fail ErrCredentials
    | Err err => fail err
    | Ok s =>
        let account := s_account_id s in
        next_ <- randomToken;;
        now <- Now;;
        let expiry := now + refreshTTL in
        now' <- Now;;
        exec (fun d => set_sessions
          (upd (fun s => s_id s == id)
             (rotate_row (Hash (e_Secrets e) "refresh" "" next_) ip ua now' expiry) (sessions d)) d);;;
        result <- issue account id next_ expiry issuer accessTTL;;
        commit_with result
    end).

Definition checkSession (p : Principal) : M unit :=
  now <- Now;;
  ok <- query (fun d => live_session d p now);;
  if negb ok then fail ErrSession else ret tt.

Definition RevokeSessions (who : Principal) (id : option Z) : M unit :=
  transaction (
    checkSession who;;;
    match id with
    | None => exec (delete_sessions (fun s => s_account_id s == AccountID who))
    | Some id =>
        exec (delete_sessions (fun s => (s_account_id s == AccountID who) && (s_id s == id)))
    end;;;
    commit).

Definition LogoutRefresh (id : Z) (refresh : string) : M unit :=
  transaction (
    exec (delete_sessions (fun s => (s_id s == id) &&
      (s_refresh_token_hash s == Hash (e_Secrets e) "refresh" "" refresh)));;;
    commit).

Definition ValidateSession (who : Principal) : M unit :=
  transaction (checkSession who).

Definition GetSessions (who : Principal) : M (list Session) :=
  transaction (
    checkRecoveryPrincipal who;;;
    now <- Now;;
    query (fun d => map (fun s =>
        {| ss_ID := s_id s; ss_IP := pg_host (s_ip s); ss_UserAgent := s_user_agent s;
           ss_LastRefreshTimestamp := s_last_refresh_timestamp s |})
      (order_by recent_first
         (sel (fun s => (s_account_id s == AccountID who) && (now <? s_expiration_timestamp s))
            (sessions d))))).
End Sessions.

(** ** Effects *)
Section SessionsEffects.
Context `{Platform} `{WebAuthn} (e : Engine).

#[export] Instance ro_issue a i r x s t : ReadOnly (issue a i r x s t).
Proof. unfold issue. solve_effect. Qed.
#[export] Instance ro_checkSession p : ReadOnly (checkSession p).
Proof. unfold checkSession. solve_effect. Qed.
#[export] Instance atomic_CreateSession g i u s a r : Atomic (CreateSession e g i u s a r).
Proof. unfold CreateSession. solve_effect. Qed.
#[export] Instance atomic_Refresh i r p u s a t : Atomic (Refresh e i r p u s a t).
Proof. unfold Refresh. solve_effect. Qed.
#[export] Instance atomic_RevokeSessions w i : Atomic (RevokeSessions w i).
Proof. unfold RevokeSessions. solve_effect. Qed.
#[export] Instance atomic_LogoutRefresh i r : Atomic (LogoutRefresh e i r).
Proof. unfold LogoutRefresh. solve_effect. Qed.
#[export] Instance nc_ValidateSession w : NoCommit (ValidateSession w).
Proof. unfold ValidateSession. solve_effect. Qed.
#[export] Instance nc_GetSessions w : NoCommit (GetSessions w).
Proof. unfold GetSessions. solve_effect. Qed.
End SessionsEffects.
