(* ===== verification/Account.v ===== *)
(** internal/authentication/account.go: password, username, and the deletion of accounts. *)
From S2P Require Import Prelude GoLib Schema Limiter TxMonad Secrets PasskeyVerifier Engine Process Mail Usernames.
#[local] Open Scope string_scope.
#[local] Open Scope Z_scope.
#[local] Open Scope list_scope.

Record Deletion := { dl_DeletionTimestamp : time; dl_DeleteSharedData : bool }.
Definition deletion_of (x : DeletionRequest) : Deletion :=
  {| dl_DeletionTimestamp := d_deletion_timestamp x; dl_DeleteSharedData := d_delete_shared_data x |}.

Definition due_le (x y : Account * DeletionRequest) : bool :=
  d_deletion_timestamp x.2 <=? d_deletion_timestamp y.2.

(** [DELETE FROM accounts WHERE account_id=$1], with everything that hangs on the account. *)
Definition delete_account (account : uuid) (d : DB) : DB :=
  cascade (set_accounts (del (fun a => a_id a == account) (accounts d)) d).

Section Account.
Context `{Platform} `{WebAuthn} (e : Engine).

Definition SetPassword (who : Principal) (grant password : string) : M unit :=
  if negb (password_length_ok password) then fail ErrInvalid else
  hash <- GenerateFromPassword password (BcryptCost e);;
  transaction (
    checkPrincipal who;;;
    existing <- query_row (fun d => option_map a_password_hash (account_row d (AccountID who)));;
    same <- (match existing with
             | Some old =>
                 ConsumeGrant e grant "passwordChange" who;;;
                 ret (bcrypt_Compare old password)
             | None => ret false
             end);;
    if same then commit
    else
      now <- Now;;
      exec (set_password (AccountID who) hash now);;;
      invalidate (AccountID who);;;
      notifyAccount (AccountID who) (mail_request "" "password_changed" None);;;
      exec (delete_sessions (fun s => (s_account_id s == AccountID who) &&
                                      (s_id s != SessionID who)));;;
      commit).

(** One query outside the lock. *)
Definition UsernameAvailable (username : string) : M bool := fun o w =>
  let username := normalizeUsername username in
  if negb (validUsername username) then (Ok false, w)
  else
    let '(r, w') := query (fun d => any (fun a => a_username a == Some (ToLower username))
                                      (accounts d)) o (set_working (committed w) w) in
    (match r with Ok found => Ok (negb found) | Err err => Err err end, w').

Definition SetUsername (who : Principal) (username : string) : M unit :=
  let username := normalizeUsername username in
  if negb (validUsername username) then fail ErrInvalid else
  transaction (
    checkPrincipal who;;;
    r <- try (query_row_returning (fun d =>
      let changed a := (a_id a == AccountID who) && (a_username a != Some username) in
      match one changed (accounts d) with
      | Some a => Some (a_email a, update_accounts changed (set_a_username (Some username)) d)
      | None => None
      end));;
    match r with
    | Err ErrNoRows => commit
    | Err err => fail (conflict err)
    | Ok _ =>
        notifyAccount (AccountID who) (with_username username (mail_request "" "username_changed" None));;;
        commit
    end).

(** [INSERT ... ON CONFLICT(account_id) DO UPDATE SET delete_shared_data ... WHERE
    deletion_timestamp>$4 RETURNING ...]. *)
Definition upsert_deletion (account : uuid) (shared : bool) (deadline now : time) (d : DB)
    : option (Deletion * DB) :=
  let mine x := d_account_id x == account in
  match one mine (account_deletion_requests d) with
  | None =>
      let x := {| d_account_id := account; d_delete_shared_data := shared;
                  d_deletion_timestamp := deadline |} in
      Some (deletion_of x,
            set_account_deletion_requests (ins x (account_deletion_requests d)) d)
  | Some x =>
      if now <? d_deletion_timestamp x
      then Some (deletion_of (set_d_delete_shared_data shared x),
                 set_account_deletion_requests
                   (upd mine (set_d_delete_shared_data shared) (account_deletion_requests d)) d)
      else None
  end.

Definition RequestDeletion (who : Principal) (grant : string) (shared : bool) (delay : duration)
    : M Deletion :=
  transaction (
    ConsumeGrant e grant "accountDeletion" who;;;
    now <- Now;;
    now' <- Now;;
    r <- try (query_row_returning (upsert_deletion (AccountID who) shared (now + delay) now'));;
    match r with
    | Err ErrNoRows => fail ErrConflict
    | Err err => fail err
    | Ok x =>
        notifyAccount (AccountID who) (with_deletion (dl_DeletionTimestamp x) shared
          (mail_request "" "account_deletion_requested" None));;;
        commit_with x
    end).

Definition PatchDeletion (who : Principal) (shared : bool) : M Deletion :=
  transaction (
    checkRecoveryPrincipal who;;;
    now <- Now;;
    r <- try (query_row_returning (fun d =>
      let live x := (d_account_id x == AccountID who) && (now <? d_deletion_timestamp x) in
      match one live (account_deletion_requests d) with
      | Some x => Some (deletion_of (set_d_delete_shared_data shared x),
                        set_account_deletion_requests
                          (upd live (set_d_delete_shared_data shared)
                             (account_deletion_requests d)) d)
      | None => None
      end));;
    match r with
    | Err ErrNoRows =>
        exists_ <- query (fun d => has_deletion d (AccountID who));;
        if exists_ then fail ErrConflict else fail ErrNotFound
    | Err err => fail err
    | Ok x => commit_with x
    end).

Definition CancelDeletion (who : Principal) : M unit :=
  transaction (
    checkRecoveryPrincipal who;;;
    r <- try (query_row (fun d => option_map d_deletion_timestamp
      (one (fun x => d_account_id x == AccountID who) (account_deletion_requests d))));;
    match r with
    | Err ErrNoRows => commit
    | Err err => fail err
    | Ok deadline =>
        now <- Now;;
        reject_if (negb (After deadline now)) ErrConflict;;;
        exec (fun d => set_account_deletion_requests
          (del (fun x => d_account_id x == AccountID who) (account_deletion_requests d)) d);;;
        commit
    end).

(** The accounts whose deadline has passed, the earliest first. No other transaction holds
    row locks here (the advisory lock), so SKIP LOCKED skips nothing. *)
Definition due_accounts (now : time) (d : DB) : list (Account * DeletionRequest) :=
  order_by due_le
    (flat_map (fun a => map (fun x => (a, x))
       (sel (fun x => (d_account_id x == a_id a) && (d_deletion_timestamp x <=? now))
          (account_deletion_requests d))) (accounts d)).

Definition DeleteDueAccount : M bool :=
  transaction (
    now <- Now;;
    r <- try (query_row (fun d => head (due_accounts now d)));;
    match r with
    | Err ErrNoRows => ret false
    | Err err => fail err
    | Ok (a, x) =>
        let account := a_id a in
        outbox_insert "auth.profiles" "profile.deleted"
          (ProfileDeleted account (d_delete_shared_data x));;;
        notifyAccount account (mail_request "" "account_deleted" None);;;
        exec (delete_account account);;;
        commit_with true
    end).
End Account.

(** ** Effects *)
Section AccountEffects.
Context `{Platform} `{WebAuthn} (e : Engine).

#[export] Instance atomic_SetPassword w g p : Atomic (SetPassword e w g p).
Proof. unfold SetPassword. solve_effect. Qed.
#[export] Instance atomic_SetUsername w n : Atomic (SetUsername w n).
Proof. unfold SetUsername. solve_effect. Qed.
#[export] Instance atomic_RequestDeletion w g s t : Atomic (RequestDeletion e w g s t).
Proof. unfold RequestDeletion. solve_effect. Qed.
#[export] Instance atomic_PatchDeletion w s : Atomic (PatchDeletion w s).
Proof. unfold PatchDeletion. solve_effect. Qed.
#[export] Instance atomic_CancelDeletion w : Atomic (CancelDeletion w).
Proof. unfold CancelDeletion. solve_effect. Qed.
#[export] Instance atomic_DeleteDueAccount : Atomic DeleteDueAccount.
Proof. unfold DeleteDueAccount. solve_effect. Qed.
End AccountEffects.
