(* ===== verification/Totp.v ===== *)
(** internal/authentication/totp.go: enrolment, confirmation and removal of TOTP, and the
    backup codes. *)
From S2P Require Import Prelude GoLib Schema Limiter TxMonad Secrets PasskeyVerifier Engine Process Mail.
#[local] Open Scope string_scope.
#[local] Open Scope Z_scope.
#[local] Open Scope list_scope.

Record TotpState := { ts_Enabled : bool; ts_ActivationTimestamp : option time }.
Record TotpActivation := {
  tv_Secret : string;
  tv_OtpauthURI : string;
  tv_ExpirationTimestamp : time;
}.
Record BackupCodes := { bc_Codes : list string; bc_GenerationTimestamp : time }.
Record BackupState := { bs_RemainingCount : Z; bs_GenerationTimestamp : option time }.

Definition set_limiter (l : activationLimiter) (m : Memory) : Memory :=
  {| dummyPasswordHash := dummyPasswordHash m; activationAttempts := l |}.

(** [max(generation_timestamp)] of a group: NULL when it is empty. *)
Fixpoint max_time (l : list time) : option time :=
  match l with
  | [] => None
  | x :: l => match max_time l with None => Some x | Some y => Some (Z.max x y) end
  end.

Section Totp.
Context `{Platform} `{WebAuthn} (e : Engine).

Definition GetTotp (who : Principal) : M TotpState :=
  transaction (
    checkPrincipal who;;;
    r <- try (query_row (fun d => one (fun t => tp_account_id t == AccountID who) (totp d)));;
    match r with
    | Err ErrNoRows => ret {| ts_Enabled := false; ts_ActivationTimestamp := None |}
    | Err err => fail err
    | Ok t => ret {| ts_Enabled := true; ts_ActivationTimestamp := Some (tp_activation_timestamp t) |}
    end).

Definition upsert_activation (r : TotpActivationRequest) (d : DB) : DB :=
  let same x := ta_account_id x == ta_account_id r in
  set_totp_activation_requests
    (if any same (totp_activation_requests d)
     then upd same (fun _ => r) (totp_activation_requests d)
     else ins r (totp_activation_requests d)) d.

Definition StartTotp (who : Principal) (grant : string) : M TotpActivation :=
  transaction (
    ConsumeGrant e grant "totpEnrollment" who;;;
    exists_ <- query (fun d => has_totp d (AccountID who));;
    reject_if exists_ ErrConflict;;;
    secret <- rand_Read 20;;
    encrypted <- Encrypt (e_Secrets e) secret (uuid_String (AccountID who));;
    now <- Now;;
    let expiry := now + 5 * Minute in
    exec (upsert_activation
      {| ta_account_id := AccountID who; ta_session_id := SessionID who;
         ta_encrypted_secret := encrypted; ta_expiration_timestamp := expiry |});;;
    email <- query_row (fun d => option_map a_email (account_row d (AccountID who)));;
    let encoded := base32_Encode secret in
    let uri := url_String "otpauth" "totp" ("/ChefBook:" +:+ email)
                 [("secret", encoded); ("issuer", "ChefBook"); ("algorithm", "SHA1");
                  ("digits", "6"); ("period", "30")] in
    commit_with {| tv_Secret := encoded; tv_OtpauthURI := uri; tv_ExpirationTimestamp := expiry |}).

(** [make([]string, 10)], filled in order. *)
Definition backup_code_count : nat := 10.

Fixpoint insert_backup_codes (account : uuid) (at_ : time) (n : nat) : M (list string) :=
  match n with
  | O => ret []
  | S n =>
      token <- randomToken;;
      exec (fun d => set_backup_codes
        (ins {| b_account_id := account;
                b_code_hash := Hash (e_Secrets e) "backup" (uuid_String account) token;
                b_generation_timestamp := at_ |} (backup_codes d)) d);;;
      codes <- insert_backup_codes account at_ n;;
      ret (token :: codes)
  end.

Definition replaceBackupCodes (who : Principal) : M BackupCodes :=
  at_ <- Now;;
  exec (fun d => set_backup_codes
    (del (fun b => b_account_id b == AccountID who) (backup_codes d)) d);;;
  codes <- insert_backup_codes (AccountID who) at_ backup_code_count;;
  ret {| bc_Codes := codes; bc_GenerationTimestamp := at_ |}.

(** The limiter is asked before any transaction is begun. *)
Definition limiter_allows (account : uuid) : M bool :=
  now <- Now;;
  m <- get_memory;;
  let '(ok, l) := allow (activationAttempts m) account now in
  put_memory (set_limiter l m);;;
  ret ok.

Definition activation_request (who : Principal) (now : time) (r : TotpActivationRequest) : bool :=
  (ta_account_id r == AccountID who) && (ta_session_id r == SessionID who) &&
  (now <? ta_expiration_timestamp r).

Definition ConfirmTotp (who : Principal) (code : string) : M BackupCodes :=
  ok <- limiter_allows (AccountID who);;
  if negb ok then fail ErrAttempts else
  transaction (
    checkPrincipal who;;;
    now <- Now;;
    r <- try (query_row (fun d => option_map ta_encrypted_secret
      (one (activation_request who now) (totp_activation_requests d))));;
    match r with
    | Err ErrNoRows => fail ErrInvalid
    | Err err => fail err
    | Ok encrypted =>
        secret <- lift (Decrypt (e_Secrets e) encrypted (uuid_String (AccountID who)));;
        now <- Now;;
        match totpStep secret code now (-1) with
        | None => fail ErrCredentials
        | Some step =>
            now <- Now;;
            or_conflict (exec (fun d => set_totp
              (ins {| tp_account_id := AccountID who; tp_encrypted_secret := encrypted;
                      tp_last_used_step := step; tp_activation_timestamp := now |} (totp d)) d));;;
            exec (fun d => set_totp_activation_requests
              (del (fun r => ta_account_id r == AccountID who) (totp_activation_requests d)) d);;;
            invalidate (AccountID who);;;
            exec (delete_sessions (fun s => (s_account_id s == AccountID who) &&
                                            (s_id s != SessionID who)));;;
            result <- replaceBackupCodes who;;
            commit_with result
        end
    end).

Definition DeleteTotp (who : Principal) (grant : string) : M unit :=
  transaction (
    ConsumeGrant e grant "totpRemoval" who;;;
    exec (fun d => set_totp (del (fun t => tp_account_id t == AccountID who) (totp d)) d);;;
    invalidate (AccountID who);;;
    commit).

Definition RotateBackupCodes (who : Principal) (grant : string) : M BackupCodes :=
  transaction (
    ConsumeGrant e grant "backupCodesRotation" who;;;
    result <- replaceBackupCodes who;;
    invalidate (AccountID who);;;
    commit_with result).

Definition GetBackupCodes (who : Principal) : M BackupState :=
  transaction (
    checkPrincipal who;;;
    query (fun d =>
      let mine := sel (fun b => b_account_id b == AccountID who) (backup_codes d) in
      {| bs_RemainingCount := Z.of_nat (length mine);
         bs_GenerationTimestamp := max_time (map b_generation_timestamp mine) |})).
End Totp.

(** ** Effects *)
Section TotpEffects.
Context `{Platform} `{WebAuthn} (e : Engine).

#[export] Instance nc_insert_backup_codes a t n : NoCommit (insert_backup_codes e a t n).
Proof. induction n; simpl; solve_effect. Qed.
#[export] Instance nc_replaceBackupCodes w : NoCommit (replaceBackupCodes e w).
Proof. unfold replaceBackupCodes. solve_effect. Qed.
#[export] Instance ro_limiter_allows a : ReadOnly (limiter_allows a).
Proof. unfold limiter_allows. solve_effect. Qed.
#[export] Instance nc_GetTotp w : NoCommit (GetTotp w).
Proof. unfold GetTotp. solve_effect. Qed.
#[export] Instance atomic_StartTotp w g : Atomic (StartTotp e w g).
Proof. unfold StartTotp. solve_effect. Qed.
#[export] Instance atomic_ConfirmTotp w c : Atomic (ConfirmTotp e w c).
Proof. unfold ConfirmTotp. solve_effect. Qed.
#[export] Instance atomic_DeleteTotp w g : Atomic (DeleteTotp e w g).
Proof. unfold DeleteTotp. solve_effect. Qed.
#[export] Instance atomic_RotateBackupCodes w g : Atomic (RotateBackupCodes e w g).
Proof. unfold RotateBackupCodes. solve_effect. Qed.
#[export] Instance nc_GetBackupCodes w : NoCommit (GetBackupCodes w).
Proof. unfold GetBackupCodes. solve_effect. Qed.
End TotpEffects.
