(* ===== verification/Identities.v ===== *)
(** internal/authentication/identities.go: linked Google and VK identities. *)
From S2P Require Import Prelude GoLib Schema Limiter TxMonad Secrets PasskeyVerifier Engine Process Mail Passkeys OAuth.
#[local] Open Scope string_scope.
#[local] Open Scope Z_scope.
#[local] Open Scope list_scope.

Record Identity := { idn_Provider : string; idn_Subject : string }.
Record PreparedOAuth := { po_URL : string; po_ExpirationTimestamp : time }.

Definition provider_le (x y : IdentityRow) : bool := String.leb (i_provider x) (i_provider y).

Section Identities.
Context `{Platform} `{WebAuthn} (e : Engine).

Definition GetIdentities (who : Principal) : M (list Identity) :=
  transaction (
    checkPrincipal who;;;
    query (fun d => map (fun i => {| idn_Provider := i_provider i; idn_Subject := i_subject i |})
      (order_by provider_le (sel (fun i => i_account_id i == AccountID who) (identities d))))).

(** Identity requests are bound to the session, not to a flow token. *)
Definition session_binding (who : Principal) : bytes :=
  Hash (e_Secrets e) "binding" "" (FormatInt (SessionID who)).

Definition PrepareIdentityOAuth (who : Principal) (provider redirect : string) : M PreparedOAuth :=
  match Providers e provider with
  | None => fail ErrUnavailable
  | Some adapter =>
      if negb (contains (OAuthRedirects e) redirect) then fail ErrInvalid else
      transaction (
        checkPrincipal who;;;
        state <- randomToken;;
        nonce <- randomToken;;
        verifier <- randomToken;;
        encrypted <- Encrypt (e_Secrets e) verifier ("oauth:" +:+ state);;
        link <- lift (Authorize adapter state nonce (code_challenge verifier) redirect false);;
        now <- Now;;
        let expiry := now + 5 * Minute in
        exec (fun d => set_oauth_requests
          (ins {| o_state_hash := Hash (e_Secrets e) "state" "" state; o_provider := provider;
                  o_step_id := None; o_session_id := Some (SessionID who);
                  o_client_binding_hash := session_binding who; o_redirect_uri := redirect;
                  o_nonce_hash := Hash (e_Secrets e) "nonce" "" nonce;
                  o_encrypted_code_verifier := encrypted;
                  o_expiration_timestamp := expiry |} (oauth_requests d)) d);;;
        commit_with {| po_URL := link; po_ExpirationTimestamp := expiry |})
  end.

Definition link_request (who : Principal) (provider state : string) (now : time)
    (o : OAuthRequest) : bool :=
  (o_state_hash o == Hash (e_Secrets e) "state" "" state) && (o_provider o == provider) &&
  (o_session_id o == Some (SessionID who)) &&
  (o_client_binding_hash o == session_binding who) && (now <? o_expiration_timestamp o).

(** First transaction: the request is consumed. *)
Definition consume_link (who : Principal) (provider state : string) : M OAuthRequest :=
  transaction (
    checkPrincipal who;;;
    now <- Now;;
    r <- try (query_row_returning (fun d =>
      match delete_returning (link_request who provider state now) (oauth_requests d) with
      | Some (o, rest) => Some (o, set_oauth_requests rest d)
      | None => None
      end));;
    match r with
    | Err ErrNoRows => fail ErrCredentials
    | Err err => fail err
    | Ok o => commit_with o
    end).

Definition link_identity (adapter : Provider) (provider code state : string) (o : OAuthRequest)
    : M ProviderIdentity :=
  verifier <- lift (Decrypt (e_Secrets e) (o_encrypted_code_verifier o) ("oauth:" +:+ state));;
  identity <- remote (fun t => Exchange adapter t code (o_redirect_uri o) verifier);;
  reject_if ((id_Subject identity == "") ||
             ((provider == "google") &&
              ((id_Nonce identity == "") ||
               (o_nonce_hash o != Hash (e_Secrets e) "nonce" "" (id_Nonce identity)))))
    ErrCredentials;;;
  ret identity.

(** Second transaction: the grant is consumed with the link. *)
Definition finish_link (who : Principal) (grant provider subject : string) : M bool :=
  transaction (
    ConsumeGrant e grant "identityLink" who;;;
    r <- try (query_row (fun d => option_map i_subject
      (one (fun i => (i_account_id i == AccountID who) && (i_provider i == provider))
         (identities d))));;
    match r with
    | Ok existing =>
        reject_if (existing != subject) ErrConflict;;;
        commit_with false
    | Err ErrNoRows =>
        or_conflict (exec (fun d => set_identities
          (ins {| i_account_id := AccountID who; i_provider := provider; i_subject := subject |}
             (identities d)) d));;;
        invalidate (AccountID who);;;
        commit_with true
    | Err err => fail err
    end).

Definition LinkIdentity (who : Principal) (grant provider code state : string) : M bool :=
  match Providers e provider with
  | None => fail ErrUnavailable
  | Some adapter =>
      o <- consume_link who provider state;;
      identity <- link_identity adapter provider code state o;;
      finish_link who grant provider (id_Subject identity)
  end.

Definition remaining_after_identity (account : uuid) (provider : string) (d : DB) : option Z :=
  option_map (fun a => password_count a +
                identity_count (fun i => (i_account_id i == account) && (i_provider i != provider)) d +
                passkey_count (fun k => k_account_id k == account) d)
    (account_row d account).

Definition UnlinkIdentity (who : Principal) (grant provider : string) : M unit :=
  if (provider != "google") && (provider != "vk") then fail ErrInvalid else
  transaction (
    ConsumeGrant e grant "identityUnlink" who;;;
    count <- query_row (remaining_after_identity (AccountID who) provider);;
    reject_if (count == 0) ErrConflict;;;
    exec (fun d => set_identities
      (del (fun i => (i_account_id i == AccountID who) && (i_provider i == provider))
         (identities d)) d);;;
    invalidate (AccountID who);;;
    commit).
End Identities.

(** ** Effects *)
Section IdentitiesEffects.
Context `{Platform} `{WebAuthn} (e : Engine).

#[export] Instance nc_GetIdentities w : NoCommit (GetIdentities w).
Proof. unfold GetIdentities. solve_effect. Qed.
#[export] Instance atomic_PrepareIdentityOAuth w p r : Atomic (PrepareIdentityOAuth e w p r).
Proof. unfold PrepareIdentityOAuth. solve_effect. Qed.
#[export] Instance atomic_consume_link w p s : Atomic (consume_link e w p s).
Proof. unfold consume_link. solve_effect. Qed.
#[export] Instance ro_link_identity a p c s o : ReadOnly (link_identity e a p c s o).
Proof. unfold link_identity. solve_effect. Qed.
#[export] Instance atomic_finish_link w g p s : Atomic (finish_link e w g p s).
Proof. unfold finish_link. solve_effect. Qed.
#[export] Instance atomic_UnlinkIdentity w g p : Atomic (UnlinkIdentity e w g p).
Proof. unfold UnlinkIdentity. solve_effect. Qed.
End IdentitiesEffects.
