(* ===== verification/Outbox.v ===== *)
(** internal/outbox/worker.go: the worker that hands the queued events to the message broker.
    Its transactions are plain ones (no advisory lock), so another worker may hold rows locked;
    the broker, its connection and the client library are the [Net] of the class [Broker]. *)
From S2P Require Import Prelude GoLib Schema Limiter TxMonad.
#[local] Open Scope string_scope.
#[local] Open Scope Z_scope.
#[local] Open Scope list_scope.

(** ** The broker's client library

    [amqp.Publishing] with the arguments of PublishWithDeferredConfirmWithContext. *)
Record Publishing := {
  pb_Exchange : string;
  pb_RoutingKey : string;
  pb_Mandatory : bool;
  pb_Immediate : bool;
  pb_ContentType : string;
  pb_Persistent : bool;
  pb_MessageId : uuid;
  pb_Type : string;
  pb_AppId : string;
  pb_Body : Body;
  pb_Timestamp : time;
}.

Class Broker : Type := {
  Net : Type;
  Confirmation : Type;
  amqp_Dial : string -> Net -> result unit * Net;
  amqp_Channel : Net -> result unit * Net;
  amqp_ExchangeDeclare : string -> string -> Net -> result unit * Net;
  amqp_Confirm : Net -> result unit * Net;
  amqp_NotifyReturn : nat -> Net -> Net;
  amqp_Publish : Publishing -> Net -> result (option Confirmation) * Net;
  amqp_Wait : Confirmation -> Net -> result bool * Net;
  (* a non-blocking receive from the channel of returns *)
  amqp_Returned : Net -> bool * Net;
  amqp_Close : Net -> Net;
}.

(** ** The worker's monad: the database and the network *)
Section Outbox.
Context `{Broker}.

Definition B (A : Type) : Type := Oracle -> World * Net -> result A * (World * Net).
Definition doB {A} (m : M A) : B A := fun o '(w, n) => let '(r, w') := m o w in (r, (w', n)).
Definition netB {A} (f : Net -> result A * Net) : B A := fun _ '(w, n) =>
  let '(r, n') := f n in (r, (bump w, n')).
Definition bindB {A C} (m : B A) (k : A -> B C) : B C := fun o s =>
  match m o s with (Ok a, s') => k a o s' | (Err e, s') => (Err e, s') end.
Definition retB {A} (a : A) : B A := doB (ret a).
Definition failB {A} (e : error) : B A := doB (fail e).
Definition tryB {A} (m : B A) : B (result A) := fun o s => let '(r, s') := m o s in (Ok r, s').

(** BeginTx and the deferred Rollback. *)
Definition plain_tx {A} (body : B A) : B A := fun o '(w, n) =>
  match begin_tx o w with
  | (Ok _, w1) => let '(r, (w2, n2)) := body o (w1, n) in (r, (rollback w2, n2))
  | (Err e, w1) => (Err e, (rollback w1, n))
  end.
End Outbox.

Declare Scope outbox_scope.
#[local] Open Scope outbox_scope.
Notation "x <~ m ;; k" := (bindB m (fun x => k))
  (at level 100, m at next level, right associativity) : outbox_scope.

(** ORDER BY creation_timestamp, message_id; UUIDs are ordered by their bytes. *)
Definition outbox_le (x y : OutboxRow) : bool :=
  (x_creation_timestamp x <? x_creation_timestamp y) ||
  ((x_creation_timestamp x =? x_creation_timestamp y) && N.leb (x_message_id x) (x_message_id y)).

Section Worker.
Context `{Broker}.
(** Rows that another worker's transaction holds at a moment, moments at which the context is
    over. *)
Context (locked : nat -> uuid -> bool) (cancelled : nat -> bool) (url : string).

(** FOR UPDATE SKIP LOCKED LIMIT 1 *)
Definition oldest_event (t : nat) (d : DB) : option OutboxRow :=
  head (order_by outbox_le (sel (fun x => negb (locked t (x_message_id x))) (outbox d))).
Definition select_event : M OutboxRow := fun o w => query_row (oldest_event (tick w)) o w.

Definition publishing (x : OutboxRow) (routing : string) (now : time) : Publishing :=
  {| pb_Exchange := x_exchange x; pb_RoutingKey := routing; pb_Mandatory := true;
     pb_Immediate := false; pb_ContentType := "application/json"; pb_Persistent := true;
     pb_MessageId := x_message_id x; pb_Type := x_type x; pb_AppId := "auth-service";
     pb_Body := x_body x; pb_Timestamp := now |}.

Definition routing_key (exchange : string) : option string :=
  if exchange == "mail" then Some "mail.send"
  else if exchange == "auth.profiles" then Some "" else None.

Definition delete_event (id : uuid) (d : DB) : DB :=
  set_outbox (del (fun x => x_message_id x == id) (outbox d)) d.

Definition one_event : B bool :=
  plain_tx (
    r <~ tryB (doB select_event);;
    match r with
    | Err ErrNoRows => retB false
    | Err err => failB err
    | Ok x =>
        match routing_key (x_exchange x) with
        | None => failB (ErrOther "unsupported outbox exchange")
        | Some routing =>
            now <~ doB Now;;
            confirmation <~ netB (amqp_Publish (publishing x routing now));;
            match confirmation with
            | None => failB (ErrOther "missing publisher confirmation")
            | Some c =>
                ack <~ netB (amqp_Wait c);;
                if negb ack then failB (ErrOther "broker rejected event") else
                returned <~ netB (fun n => let '(b, n') := amqp_Returned n in (Ok b, n'));;
                if returned then failB (ErrOther "event has no bound consumer") else
                _ <~ doB (exec (delete_event (x_message_id x)));;
                doB (commit_with true)
            end
        end
    end).

Definition context_error : error := ErrOther "context canceled".
Definition is_cancelled : B bool := fun _ '(w, n) => (Ok (cancelled (tick w)), (w, n)).
Definition sleep : B unit := fun _ '(w, n) => (Ok tt, (bump w, n)).

(** The loop of [runConnection]; [None]: it is still running after [fuel] rounds. *)
Fixpoint deliver (fuel : nat) : B (option error) :=
  match fuel with
  | O => retB None
  | S fuel =>
      over <~ is_cancelled;;
      if over then retB (Some context_error) else
      r <~ tryB one_event;;
      match r with
      | Err err => retB (Some err)
      | Ok true => deliver fuel
      | Ok false =>
          _ <~ sleep;;
          over <~ is_cancelled;;
          if over then retB (Some context_error) else deliver fuel
      end
  end.

(** [runConnection]: the error it returns, if it has returned. *)
Definition runConnection (fuel : nat) : B (option error) :=
  r <~ tryB (
    _ <~ netB (amqp_Dial url);;
    s <~ tryB (
      _ <~ netB amqp_Channel;;
      _ <~ netB (amqp_ExchangeDeclare "auth.profiles" "fanout");;
      _ <~ netB (amqp_ExchangeDeclare "mail" "direct");;
      _ <~ netB amqp_Confirm;;
      _ <~ netB (fun n => (Ok tt, amqp_NotifyReturn 1 n));;
      deliver fuel);;
    _ <~ netB (fun n => (Ok tt, amqp_Close n));;
    doB (lift s));;
  match r with Ok v => retB v | Err err => retB (Some err) end.

(** [Run] for [rounds] connections of at most [fuel] rounds each: true when the context ended
    it. *)
Fixpoint Run (rounds fuel : nat) : B bool :=
  match rounds with
  | O => retB false
  | S rounds =>
      over <~ is_cancelled;;
      if over then retB true else
      _ <~ runConnection fuel;;
      _ <~ sleep;;
      over <~ is_cancelled;;
      if over then retB true else Run rounds fuel
  end.
End Worker.
