(* ===== verification/Server.v ===== *)
(** internal/transport/authenticationgrpc/server.go: the RPCs of AuthenticationService. A
    handler [Server_X] is the method [X] of [Server]; [serve] is the service that the generated
    code dispatches to.

    A gRPC handler that returns a status has its message dropped, so a handler answers with
    one of the two. Protobuf timestamps are instants; a message field that the wire may leave
    out is an option, a oneof is an inductive type. *)
From S2P Require Import Prelude GoLib Schema Limiter Usernames TxMonad Secrets PasskeyVerifier Engine Process Mail Passkeys OAuth Challenge Sessions Account Totp Identities.
#[local] Open Scope string_scope.
#[local] Open Scope Z_scope.
#[local] Open Scope list_scope.

(** ** Messages *)
Record AuthPrincipal := { ap_AccountId : string; ap_SessionId : Z }.
Record FlowContext := {
  fc_AuthenticationId : string;
  fc_FlowToken : string;
  fc_Principal : option AuthPrincipal;
}.
Record SensitiveAction := {
  sa_Principal : option AuthPrincipal;
  sa_ConfirmationToken : string;
}.
Record AuthenticationStepContext := { sc_Flow : option FlowContext; sc_StepId : string }.

(** The oneof of CompleteAuthenticationStepRequest. *)
Inductive StepProof :=
| NoProof
| PasswordProof (password login : string)
| EmailProof (code : string)
| TotpProof (code : string)
| BackupCodeProof (code : string)
| GoogleProof (code state id_token : string)
| VkProof (code state id_token : string)
| PasskeyProof (credential : bytes)
| RegistrationProof (email : string)
| PasswordSetupProof (password : string).

Record AuthenticationStep := {
  as_Id : string;
  as_Type : string;
  as_Status : string;
  as_ExpirationTimestamp : time;
  as_Url : string;
  as_Nonce : string;
  as_CodeLength : Z;
  as_PublicKeyOptions : option Options;
}.
Record AuthenticationState := {
  st_Id : string;
  st_Purpose : string;
  st_Status : string;
  st_ExpirationTimestamp : time;
  st_Options : list string;
  st_FlowToken : string;
  st_ConfirmationToken : string;
  st_ConfirmationExpirationTimestamp : option time;
  st_Steps : list AuthenticationStep;
}.
Record AuthTokens := {
  at_UserId : string;
  at_SessionId : Z;
  at_AccessToken : string;
  at_RefreshToken : string;
  at_ExpirationTimestamp : time;
  at_Restrictions : list Restriction;
}.
Record AuthPasskey := {
  ak_Id : string;
  ak_Name : string;
  ak_CreationTimestamp : time;
  ak_LastUseTimestamp : option time;
  ak_Transports : list string;
  ak_BackupEligible : bool;
  ak_BackupState : bool;
}.
Record PasskeyRegistrationOptions := {
  ro_RequestId : string;
  ro_PublicKeyOptions : Options;
  ro_ExpirationTimestamp : time;
}.

(** ** Statuses *)
Inductive code :=
| Canceled | InvalidArgument | DeadlineExceeded | NotFound | PermissionDenied
| ResourceExhausted | FailedPrecondition | Internal | Unavailable | Unauthenticated.
#[export] Instance code_eq_dec : EqDecision code.
Proof. solve_decision. Defined.

(** A status with the reason as its message and in its ErrorInfo detail. *)
Record Status := { Code : code; Reason : string }.
#[export] Instance Status_eq_dec : EqDecision Status.
Proof. solve_decision. Defined.

Definition rpcError (c : code) (reason : string) : Status := {| Code := c; Reason := reason |}.

(** The texts of the sentinel errors. *)
Definition error_text (err : error) : string :=
  match err with
  | ErrAccountExists => "account_exists"
  | ErrNotFound => "not_found"
  | ErrSession => "invalid_session"
  | ErrInvalid => "invalid_request"
  | ErrUnauthorized => "invalid_flow_token"
  | ErrCredentials => "invalid_credentials"
  | ErrConflict => "conflict"
  | ErrForbidden => "insufficient_authentication"
  | ErrUnavailable => "method_unavailable"
  | ErrAttempts => "too_many_attempts"
  | ErrNoRows => "sql: no rows in result set"
  | ErrDB (SQLState s) => "SQLSTATE " +:+ s
  | ErrDB (Driver s) => s
  | ErrOther s => s
  end.

Definition failure (err : error) : Status :=
  match err with
  | ErrNotFound => rpcError NotFound (error_text err)
  | ErrSession => rpcError Unauthenticated (error_text err)
  | ErrInvalid => rpcError InvalidArgument (error_text err)
  | ErrUnauthorized => rpcError NotFound (error_text err)
  | ErrCredentials => rpcError InvalidArgument (error_text err)
  | ErrForbidden => rpcError PermissionDenied (error_text err)
  | ErrConflict | ErrAccountExists => rpcError FailedPrecondition (error_text err)
  | ErrAttempts => rpcError ResourceExhausted (error_text err)
  | ErrUnavailable => rpcError Unavailable (error_text err)
  | ErrNoRows | ErrDB _ | ErrOther _ => rpcError Internal "authentication operation failed"
  end.

(** ** Handlers *)
Definition rpc (A : Type) : Type := Oracle -> World -> (Status + A) * World.

(** [v, err := call; if err != nil { return nil, failure(err) }; return f(v), nil]. *)
Definition reply {A B} (f : A -> B) (m : M A) : rpc B := fun o w =>
  match m o w with
  | (Ok a, w') => (inr (f a), w')
  | (Err err, w') => (inl (failure err), w')
  end.
Definition refuse {A} (err : error) : rpc A := fun _ w => (inl (failure err), w).
Definition empty (_ : unit) : unit := tt.

(** int32(n) of a 64-bit int. *)
Definition int32 (n : Z) : Z := (n + 2147483648) mod 4294967296 - 2147483648.

(** What [uuid.Parse] returns next to its error: the bytes read so far. *)
Class Wire : Type := { uuid_Partial : string -> uuid }.

Record ServerConfig := {
  sv_Engine : Engine;
  sv_Issuer : TokenIssuer;
  sv_AccessTTL : duration;
  sv_RefreshTTL : duration;
  sv_DeletionDelay : duration;
  sv_PasswordResetURL : string;
  sv_EmailChangeURL : string;
}.

Definition validStepType (value : string) : bool :=
  one_of ["registration"; "passwordSetup"; "passwordVerification"; "emailVerification";
          "totpVerification"; "backupCodeVerification"; "googleVerification"; "vkVerification";
          "passkeyVerification"] value.

Section Server.
Context `{Platform} `{WebAuthn} `{Wire} (s : ServerConfig).

Definition principal (p : option AuthPrincipal) : Principal :=
  match p with
  | None => no_principal
  | Some p =>
      {| AccountID := match uuid_Parse (ap_AccountId p) with
                      | Some id => id
                      | None => uuid_Partial (ap_AccountId p)
                      end;
         SessionID := ap_SessionId p |}
  end.

Definition flow (f : option FlowContext) : result (uuid * string * Principal) :=
  match f with
  | None => Err ErrInvalid
  | Some f =>
      match uuid_Parse (fc_AuthenticationId f) with
      | None => Err ErrInvalid
      | Some id => Ok (id, fc_FlowToken f, principal (fc_Principal f))
      end
  end.

Definition action (a : option SensitiveAction) : Principal * string :=
  match a with
  | None => (no_principal, "")
  | Some a => (principal (sa_Principal a), sa_ConfirmationToken a)
  end.

Definition stepOptions (methods : list string) : list string := map StepType methods.

Definition challenge (c : Challenge) : AuthenticationStep :=
  {| as_Id := uuid_String (c_ID c); as_Type := StepType (c_Method c); as_Status := c_Status c;
     as_ExpirationTimestamp := c_ExpirationTimestamp c; as_Url := c_URL c;
     as_Nonce := c_Nonce c; as_CodeLength := if c_Method c == "email" then 6 else 0;
     as_PublicKeyOptions := c_PublicKey c |}.

Definition state (p : Process) : AuthenticationState :=
  {| st_Id := uuid_String (p_ID p); st_Purpose := p_Purpose p; st_Status := p_Status p;
     st_ExpirationTimestamp := p_ExpirationTimestamp p; st_Options := stepOptions (p_Next p);
     st_FlowToken := p_FlowToken p; st_ConfirmationToken := p_ConfirmationToken p;
     st_ConfirmationExpirationTimestamp := p_ConfirmationExpirationTimestamp p;
     st_Steps := map challenge (p_Steps p) |}.

Definition tokens (t : Tokens) : AuthTokens :=
  {| at_UserId := uuid_String (tk_UserID t); at_SessionId := tk_SessionID t;
     at_AccessToken := tk_AccessToken t; at_RefreshToken := tk_RefreshToken t;
     at_ExpirationTimestamp := tk_ExpirationTimestamp t; at_Restrictions := tk_Restrictions t |}.

Definition passkey (p : Passkey) : AuthPasskey :=
  {| ak_Id := uuid_String (pk_ID p); ak_Name := pk_Name p;
     ak_CreationTimestamp := pk_CreationTimestamp p; ak_LastUseTimestamp := pk_LastUseTimestamp p;
     ak_Transports := pk_Transports p; ak_BackupEligible := pk_BackupEligible p;
     ak_BackupState := pk_BackupState p |}.

(** *** Processes and steps *)
Definition Server_CreateAuthentication (purpose : string) (p : option AuthPrincipal)
    : rpc AuthenticationState :=
  reply state (Start (sv_Engine s) purpose (principal p)).

Definition Server_GetAuthentication (r : option FlowContext) : rpc AuthenticationState :=
  match flow r with
  | Err err => refuse err
  | Ok (id, t, p) => reply state (Get (sv_Engine s) id t p)
  end.

Definition Server_StartAuthenticationStep (f : option FlowContext)
    (type redirect credential : string) : rpc AuthenticationStep :=
  if negb (validStepType type) then refuse ErrInvalid else
  match flow f with
  | Err err => refuse err
  | Ok (id, t, p) =>
      reply challenge (CreateChallenge (sv_Engine s) id t (StepMethod type) p
        [{| CredentialType := credential; RedirectURI := redirect |}])
  end.

Definition Server_GetAuthenticationStep (r : AuthenticationStepContext)
    : rpc AuthenticationStep :=
  match flow (sc_Flow r) with
  | Err err => refuse err
  | Ok (id, t, p) =>
      match uuid_Parse (sc_StepId r) with
      | None => refuse ErrInvalid
      | Some cid => reply challenge (GetChallenge (sv_Engine s) id cid t p)
      end
  end.

(** [engine.Proof] of the oneof; the fields a proof does not have are empty. *)
Definition step_proof (v : StepProof) : option Proof :=
  let proof method email login password code state id_token credential :=
    Some {| f_Email := email; f_Name := ""; f_IDToken := id_token; f_State := state;
            f_Method := method; f_Login := login; f_Password := password; f_Code := code;
            f_Credential := credential |} in
  match v with
  | RegistrationProof email => proof "registration" email "" "" "" "" "" ""
  | PasswordSetupProof password => proof "passwordSetup" "" "" password "" "" "" ""
  | GoogleProof code state id_token => proof "google" "" "" "" code state id_token ""
  | VkProof code state _ => proof "vk" "" "" "" code state "" ""
  | PasskeyProof credential => proof "passkey" "" "" "" "" "" "" credential
  | PasswordProof password login => proof "password" "" login password "" "" "" ""
  | EmailProof code => proof "email" "" "" "" code "" "" ""
  | TotpProof code => proof "totp" "" "" "" code "" "" ""
  | BackupCodeProof code => proof "backupCode" "" "" "" code "" "" ""
  | NoProof => None
  end.

Definition step_response (a : Attempt) : AuthenticationStep * AuthenticationState :=
  (challenge (at_Challenge a), state (at_Authentication a)).

Definition Server_CompleteAuthenticationStep (step : option AuthenticationStepContext)
    (v : StepProof) : rpc (AuthenticationStep * AuthenticationState) :=
  match step with
  | None => refuse ErrInvalid
  | Some step =>
      match flow (sc_Flow step) with
      | Err err => refuse err
      | Ok (id, t, p) =>
          match uuid_Parse (sc_StepId step) with
          | None => refuse ErrInvalid
          | Some cid =>
              match step_proof v with
              | None => refuse ErrUnavailable
              | Some proof =>
                  if (f_Method proof == "google") || (f_Method proof == "vk")
                  then reply step_response (AttemptProvider (sv_Engine s) id cid t p proof)
                  else reply step_response (AttemptStep (sv_Engine s) id cid t p proof)
              end
          end
      end
  end.

(** *** Sessions *)
Definition Server_CreateSession (token ip ua : string) : rpc AuthTokens :=
  reply tokens (CreateSession (sv_Engine s) token ip ua (sv_Issuer s) (sv_AccessTTL s)
    (sv_RefreshTTL s)).

Definition Server_RefreshSession (id : Z) (refresh ip ua : string) : rpc AuthTokens := fun o w =>
  match Refresh (sv_Engine s) id refresh ip ua (sv_Issuer s) (sv_AccessTTL s) (sv_RefreshTTL s)
          o w with
  | (Err ErrCredentials, w') => (inl (rpcError InvalidArgument "invalid_refresh_token"), w')
  | (Err err, w') => (inl (failure err), w')
  | (Ok t, w') => (inr (tokens t), w')
  end.

Definition Server_RevokeSessions (p : option AuthPrincipal) (id : option Z) (refresh : string)
    : rpc unit :=
  if refresh != "" then
    match id with
    | None => refuse ErrInvalid
    | Some id => reply empty (LogoutRefresh (sv_Engine s) id refresh)
    end
  else reply empty (RevokeSessions (principal p) id).

Definition Server_ValidateSession (p : option AuthPrincipal) : rpc unit :=
  reply empty (ValidateSession (principal p)).

Definition Server_GetSessions (p : option AuthPrincipal) : rpc (list Session) :=
  reply id (GetSessions (principal p)).

(** *** Account *)
Definition Server_SetPassword (a : option SensitiveAction) (password : string) : rpc unit :=
  let '(p, t) := action a in reply empty (SetPassword (sv_Engine s) p t password).
Definition Server_SetUsername (p : option AuthPrincipal) (username : string) : rpc unit :=
  reply empty (SetUsername (principal p) username).
Definition Server_UsernameAvailability (username : string) : rpc bool :=
  reply id (UsernameAvailable username).
Definition Server_StartPasswordReset (email : string) : rpc unit :=
  reply empty (StartPasswordReset (sv_Engine s) email (sv_PasswordResetURL s)).
Definition Server_ConfirmPasswordReset (token password : string) : rpc unit :=
  reply empty (ConfirmPasswordReset (sv_Engine s) token password).
Definition Server_ChangeEmail (a : option SensitiveAction) (email : string) : rpc unit :=
  let '(p, t) := action a in reply empty (ChangeEmail (sv_Engine s) p t email (sv_EmailChangeURL s)).
Definition Server_ConfirmEmail (token : string) : rpc string :=
  reply id (ConfirmEmail (sv_Engine s) token (sv_EmailChangeURL s)).
Definition Server_RequestDeletion (a : option SensitiveAction) (shared : bool) : rpc Deletion :=
  let '(p, t) := action a in
  reply id (RequestDeletion (sv_Engine s) p t shared (sv_DeletionDelay s)).
Definition Server_PatchDeletion (p : option AuthPrincipal) (shared : bool) : rpc Deletion :=
  reply id (PatchDeletion (principal p) shared).
Definition Server_CancelDeletion (p : option AuthPrincipal) : rpc unit :=
  reply empty (CancelDeletion (principal p)).

(** *** Second factors *)
Definition Server_GetTotp (p : option AuthPrincipal) : rpc TotpState :=
  reply id (GetTotp (principal p)).
Definition Server_StartTotp (a : option SensitiveAction) : rpc TotpActivation :=
  let '(p, t) := action a in reply id (StartTotp (sv_Engine s) p t).
Definition Server_ConfirmTotp (p : option AuthPrincipal) (c : string) : rpc BackupCodes :=
  reply id (ConfirmTotp (sv_Engine s) (principal p) c).
Definition Server_DeleteTotp (a : option SensitiveAction) : rpc unit :=
  let '(p, t) := action a in reply empty (DeleteTotp (sv_Engine s) p t).
Definition Server_GetBackupCodes (p : option AuthPrincipal) : rpc (Z * option time) :=
  reply (fun v => (int32 (bs_RemainingCount v), bs_GenerationTimestamp v))
    (GetBackupCodes (principal p)).
Definition Server_RotateBackupCodes (a : option SensitiveAction) : rpc BackupCodes :=
  let '(p, t) := action a in reply id (RotateBackupCodes (sv_Engine s) p t).

(** *** Passkeys *)
Definition Server_GetPasskeys (p : option AuthPrincipal) : rpc (list AuthPasskey) :=
  reply (map passkey) (GetPasskeys (principal p)).
Definition Server_StartPasskeyRegistration (a : option SensitiveAction)
    : rpc PasskeyRegistrationOptions :=
  let '(p, t) := action a in
  reply (fun v => {| ro_RequestId := uuid_String (pq_ID v); ro_PublicKeyOptions := pq_PublicKey v;
                     ro_ExpirationTimestamp := pq_ExpirationTimestamp v |})
    (StartPasskey (sv_Engine s) p t).
Definition Server_RegisterPasskey (p : option AuthPrincipal) (request : string)
    (credential : bytes) (name : string) : rpc AuthPasskey :=
  match uuid_Parse request with
  | None => refuse ErrInvalid
  | Some id => reply passkey (RegisterPasskey (sv_Engine s) (principal p) id name credential)
  end.
Definition Server_RenamePasskey (p : option AuthPrincipal) (key name : string) : rpc AuthPasskey :=
  match uuid_Parse key with
  | None => refuse ErrInvalid
  | Some id => reply passkey (RenamePasskey (principal p) id name)
  end.
Definition Server_DeletePasskey (a : option SensitiveAction) (key : string) : rpc unit :=
  match uuid_Parse key with
  | None => refuse ErrInvalid
  | Some id => let '(p, t) := action a in reply empty (DeletePasskey (sv_Engine s) p t id)
  end.

(** *** Identities *)
Definition Server_GetIdentities (p : option AuthPrincipal) : rpc (list Identity) :=
  reply id (GetIdentities (principal p)).
Definition Server_PrepareIdentityOAuth (p : option AuthPrincipal) (provider redirect : string)
    : rpc PreparedOAuth :=
  reply id (PrepareIdentityOAuth (sv_Engine s) (principal p) provider redirect).
Definition Server_LinkIdentity (a : option SensitiveAction) (provider c st : string) : rpc bool :=
  let '(p, t) := action a in reply id (LinkIdentity (sv_Engine s) p t provider c st).
Definition Server_UnlinkIdentity (a : option SensitiveAction) (provider : string) : rpc unit :=
  let '(p, t) := action a in reply empty (UnlinkIdentity (sv_Engine s) p t provider).
End Server.

(** ** The service *)
Inductive Request :=
| rq_ValidateSession (p : option AuthPrincipal)
| rq_CreateAuthentication (purpose : string) (p : option AuthPrincipal)
| rq_GetAuthentication (r : option FlowContext)
| rq_StartAuthenticationStep (f : option FlowContext) (type redirect credential : string)
| rq_GetAuthenticationStep (r : AuthenticationStepContext)
| rq_CompleteAuthenticationStep (step : option AuthenticationStepContext) (v : StepProof)
| rq_CreateSession (token ip ua : string)
| rq_RefreshSession (id : Z) (refresh ip ua : string)
| rq_GetSessions (p : option AuthPrincipal)
| rq_RevokeSessions (p : option AuthPrincipal) (id : option Z) (refresh : string)
| rq_SetPassword (a : option SensitiveAction) (password : string)
| rq_StartPasswordReset (email : string)
| rq_ConfirmPasswordReset (token password : string)
| rq_SetUsername (p : option AuthPrincipal) (username : string)
| rq_UsernameAvailability (username : string)
| rq_ChangeEmail (a : option SensitiveAction) (email : string)
| rq_ConfirmEmail (token : string)
| rq_RequestDeletion (a : option SensitiveAction) (shared : bool)
| rq_PatchDeletion (p : option AuthPrincipal) (shared : bool)
| rq_CancelDeletion (p : option AuthPrincipal)
| rq_GetIdentities (p : option AuthPrincipal)
| rq_LinkIdentity (a : option SensitiveAction) (provider c st : string)
| rq_UnlinkIdentity (a : option SensitiveAction) (provider : string)
| rq_PrepareIdentityOAuth (p : option AuthPrincipal) (provider redirect : string)
| rq_GetTotp (p : option AuthPrincipal)
| rq_StartTotp (a : option SensitiveAction)
| rq_ConfirmTotp (p : option AuthPrincipal) (c : string)
| rq_DeleteTotp (a : option SensitiveAction)
| rq_GetPasskeys (p : option AuthPrincipal)
| rq_StartPasskeyRegistration (a : option SensitiveAction)
| rq_RegisterPasskey (p : option AuthPrincipal) (request : string) (credential : bytes)
    (name : string)
| rq_RenamePasskey (p : option AuthPrincipal) (key name : string)
| rq_DeletePasskey (a : option SensitiveAction) (key : string)
| rq_GetBackupCodes (p : option AuthPrincipal)
| rq_RotateBackupCodes (a : option SensitiveAction).

Inductive Response :=
| rs_Empty
| rs_State (v : AuthenticationState)
| rs_Step (v : AuthenticationStep)
| rs_Completed (v : AuthenticationStep * AuthenticationState)
| rs_Tokens (v : AuthTokens)
| rs_Sessions (v : list Session)
| rs_Available (v : bool)
| rs_ConfirmEmail (v : string)
| rs_Deletion (v : Deletion)
| rs_Identities (v : list Identity)
| rs_Linked (v : bool)
| rs_Prepared (v : PreparedOAuth)
| rs_Totp (v : TotpState)
| rs_Activation (v : TotpActivation)
| rs_Codes (v : BackupCodes)
| rs_CodesState (v : Z * option time)
| rs_Passkeys (v : list AuthPasskey)
| rs_Registration (v : PasskeyRegistrationOptions)
| rs_Passkey (v : AuthPasskey).

Definition answer {A} (f : A -> Response) (h : rpc A) : rpc Response := fun o w =>
  match h o w with (inl st, w') => (inl st, w') | (inr a, w') => (inr (f a), w') end.
Definition answer_empty : rpc unit -> rpc Response := answer (fun _ => rs_Empty).

Section Serve.
Context `{Platform} `{WebAuthn} `{Wire} (s : ServerConfig).

Definition serve (r : Request) : rpc Response :=
  match r with
  | rq_ValidateSession p => answer_empty (Server_ValidateSession p)
  | rq_CreateAuthentication purpose p => answer rs_State (Server_CreateAuthentication s purpose p)
  | rq_GetAuthentication r => answer rs_State (Server_GetAuthentication s r)
  | rq_StartAuthenticationStep f type redirect credential =>
      answer rs_Step (Server_StartAuthenticationStep s f type redirect credential)
  | rq_GetAuthenticationStep r => answer rs_Step (Server_GetAuthenticationStep s r)
  | rq_CompleteAuthenticationStep step v =>
      answer rs_Completed (Server_CompleteAuthenticationStep s step v)
  | rq_CreateSession token ip ua => answer rs_Tokens (Server_CreateSession s token ip ua)
  | rq_RefreshSession id refresh ip ua =>
      answer rs_Tokens (Server_RefreshSession s id refresh ip ua)
  | rq_GetSessions p => answer rs_Sessions (Server_GetSessions p)
  | rq_RevokeSessions p id refresh => answer_empty (Server_RevokeSessions s p id refresh)
  | rq_SetPassword a password => answer_empty (Server_SetPassword s a password)
  | rq_StartPasswordReset email => answer_empty (Server_StartPasswordReset s email)
  | rq_ConfirmPasswordReset token password =>
      answer_empty (Server_ConfirmPasswordReset s token password)
  | rq_SetUsername p username => answer_empty (Server_SetUsername p username)
  | rq_UsernameAvailability username => answer rs_Available (Server_UsernameAvailability username)
  | rq_ChangeEmail a email => answer_empty (Server_ChangeEmail s a email)
  | rq_ConfirmEmail token => answer rs_ConfirmEmail (Server_ConfirmEmail s token)
  | rq_RequestDeletion a shared => answer rs_Deletion (Server_RequestDeletion s a shared)
  | rq_PatchDeletion p shared => answer rs_Deletion (Server_PatchDeletion p shared)
  | rq_CancelDeletion p => answer_empty (Server_CancelDeletion p)
  | rq_GetIdentities p => answer rs_Identities (Server_GetIdentities p)
  | rq_LinkIdentity a provider c st => answer rs_Linked (Server_LinkIdentity s a provider c st)
  | rq_UnlinkIdentity a provider => answer_empty (Server_UnlinkIdentity s a provider)
  | rq_PrepareIdentityOAuth p provider redirect =>
      answer rs_Prepared (Server_PrepareIdentityOAuth s p provider redirect)
  | rq_GetTotp p => answer rs_Totp (Server_GetTotp p)
  | rq_StartTotp a => answer rs_Activation (Server_StartTotp s a)
  | rq_ConfirmTotp p c => answer rs_Codes (Server_ConfirmTotp s p c)
  | rq_DeleteTotp a => answer_empty (Server_DeleteTotp s a)
  | rq_GetPasskeys p => answer rs_Passkeys (Server_GetPasskeys p)
  | rq_StartPasskeyRegistration a =>
      answer rs_Registration (Server_StartPasskeyRegistration s a)
  | rq_RegisterPasskey p request credential name =>
      answer rs_Passkey (Server_RegisterPasskey s p request credential name)
  | rq_RenamePasskey p key name => answer rs_Passkey (Server_RenamePasskey p key name)
  | rq_DeletePasskey a key => answer_empty (Server_DeletePasskey s a key)
  | rq_GetBackupCodes p => answer rs_CodesState (Server_GetBackupCodes p)
  | rq_RotateBackupCodes a => answer rs_Codes (Server_RotateBackupCodes s a)
  end.
End Serve.
