(* ===== verification/Toy.v ===== *)
(** A small concrete platform, oracle and database on which the witnesses evaluate: hashes and
    ciphers are the identity on tagged text, the clock stands still, nothing fails. *)
From S2P Require Import Prelude GoLib Schema Limiter TxMonad Secrets PasskeyVerifier Engine.
#[local] Open Scope string_scope.
#[local] Open Scope Z_scope.
#[local] Open Scope list_scope.

Definition toy_digest : bytes := "aaaaaaaaaaaaaaaaaaaa".

#[export] Instance toy : Platform := {
  unicode_ToLower := fun s => s;
  unicode_TrimSpace := fun s => s;
  mail_ParseAddress := fun s => if s == "" then None else Some (s, "");
  url_Parse := fun _ => Some {| Scheme := "https"; Host := "h"; User := false; Fragment := "" |};
  url_SetQuery := fun base _ => base;
  url_String := fun _ _ path _ => path;
  uuid_String := fun u => FormatInt (Z.of_N u);
  uuid_Parse := fun s => if (s == "") || negb (bytes_forall is_digit s) then None else Some (Z.to_N (decimal_value 0 s));
  hmac_sha256 := fun _ m => m;
  hmac_sha1 := fun _ _ => toy_digest;
  sha256_Sum256 := fun m => m;
  aead_Seal := fun _ _ v _ => v;
  aead_Open := fun _ _ c _ => Some c;
  bcrypt_Generate := fun _ pw _ => Some ("h" +:+ pw);
  bcrypt_Compare := fun h pw => h == "h" +:+ pw;
  pg_host := fun s => s;
}.

#[export] Instance toy_webauthn : WebAuthn := {
  ParsedCreation := unit;
  ParsedAssertion := unit;
  webauthn_New := fun _ => true;
  lib_BeginRegistration := fun _ _ _ _ => None;
  lib_BeginDiscoverableLogin := fun _ _ _ => None;
  ParseCredentialCreationResponseBytes := fun _ => None;
  ParseCredentialRequestResponseBytes := fun _ => None;
  RawID := fun _ => "";
  UserHandle := fun _ => "";
  lib_CreateCredential := fun _ _ _ _ _ => None;
  lib_ValidatePasskeyLogin := fun _ _ _ _ _ => None;
  uuid_Bytes := fun u => FormatInt (Z.of_N u);
  uuid_FromBytes := fun _ => None;
}.

(** The clock shows 1000 s, random bytes are letters that depend on the moment, new UUIDs and
    codes are the moment. *)
Definition toy_now : time := 1000 * Second.
Definition quiet : Oracle := {|
  o_now := fun _ => toy_now;
  o_db_now := fun _ => toy_now;
  o_random_ok := fun _ => true;
  o_byte := fun t _ => ascii_of_nat (65 + t);
  o_int := fun t => N.of_nat t;
  o_uuid := fun t => N.of_nat (100 + t);
  o_fault := fun _ => None;
|}.

Definition toy_memory : Memory :=
  {| dummyPasswordHash := None; activationAttempts := zero_limiter |}.
(** A world whose committed database is [d]. *)
Definition at_rest (d : DB) : World := mkWorld d d toy_now 7 toy_memory 0.

Lemma working_at_rest d : working (at_rest d) = d.
Proof. reflexivity. Defined.
Lemma committed_at_rest d : committed (at_rest d) = d.
Proof. reflexivity. Defined.

Definition toy_secrets : Secrets := {| macKey := "k"; cipher := "c" |}.

Definition alice_id : uuid := 1%N.
Definition alice : Account :=
  {| a_id := alice_id; a_email := "a@b"; a_email_verification_timestamp := Some 1;
     a_username := Some "alice"; a_password_hash := Some "hsecret-1";
     a_password_change_timestamp := Some 1; a_blocking_timestamp := None;
     a_creation_timestamp := 1 |}.
Definition alice_session : SessionRow :=
  {| s_id := 5; s_account_id := alice_id; s_refresh_token_hash := hash_input "refresh" "" "R";
     s_ip := "::1"; s_user_agent := "ua"; s_last_refresh_timestamp := 1;
     s_expiration_timestamp := toy_now + Hour |}.
Definition who_alice : Principal := {| AccountID := alice_id; SessionID := 5 |}.

(** A process of Alice's live session. *)
Definition alice_process (id : uuid) (purpose status : string) (flow : string) : Authentication :=
  {| u_id := id; u_purpose := purpose; u_status := status; u_account_id := Some alice_id;
     u_session_id := Some 5; u_flow_token_hash := hash_input "flow" "" flow;
     u_failed_attempts := 0; u_expiration_timestamp := toy_now + Hour;
     u_completion_timestamp := Some (toy_now - Minute); u_invalidation_timestamp := None;
     u_confirmation_token_hash := None; u_confirmation_expiration_timestamp := None |}.
Definition with_grant (grant : string) (u : Authentication) : Authentication :=
  set_u_confirmation_token_hash (Some (hash_input "grant" "" grant))
    (set_u_confirmation_expiration_timestamp (Some (toy_now + Minute)) u).

(** A database with Alice and her session, and one where a process of hers was completed for
    [purpose] with the confirmation token [G]. *)
Definition alice_db : DB := set_sessions [alice_session] (set_accounts [alice] empty_db).
Definition granted_db (purpose : string) : DB :=
  set_authentications [with_grant "G" (alice_process 9 purpose "completed" "F")] alice_db.

Definition toy_engine : Engine := NewEngine toy_secrets None.

Example granted_db_ok : schema_ok (granted_db "passwordChange") = true.
Proof. vm_compute. reflexivity. Qed.

(** A step of process [process]. *)
Definition toy_step (id process : uuid) (kind status : string) : Step :=
  {| t_id := id; t_authentication_id := process; t_type := kind; t_status := status;
     t_failed_attempts := 0; t_creation_timestamp := 1;
     t_expiration_timestamp := toy_now + Minute;
     t_completion_timestamp := Some (toy_now - Minute) |}.

(** Alice proved her password a minute ago in a process of her session. *)
Definition evidence_db : DB :=
  set_authentication_steps [toy_step 20 9 "passwordVerification" "completed"]
    (set_authentications [alice_process 9 "passwordChange" "completed" "F"] alice_db).

(** A pending process [id] of [purpose] with one pending step [30] of type [kind]. *)
Definition pending_db (purpose kind : string) : DB :=
  set_authentication_steps [toy_step 30 9 kind "pending"]
    (set_authentications [alice_process 9 purpose "pending" "F"] alice_db).
