(* ===== verification/ProcessFacts.v ===== *)
(** What the operations of Process.v guarantee: the conditions of a confirmation, its single
    use, the meaning of the required next steps and of reusable evidence. *)
From S2P Require Import Prelude GoLib Schema Limiter TxMonad Secrets PasskeyVerifier Engine Process Toy.
#[local] Open Scope string_scope.
#[local] Open Scope Z_scope.
#[local] Open Scope list_scope.

(** The principal may act: a live session of an unblocked account, and no pending deletion
    unless the purpose is the deletion itself. *)
Definition principal_ok (o : Oracle) (d : DB) (who : Principal) (purpose : string) : Prop :=
  (exists now, reads_clock o now /\ live_unblocked_session d who now = true) /\
  (purpose <> "accountDeletion" -> has_deletion d (AccountID who) = false).

Section Facts.
Context `{Platform} `{WebAuthn} (e : Engine).

(** *** Principals *)
Lemma checkRecoveryPrincipal_ok who o w u w' :
  checkRecoveryPrincipal who o w = (Ok u, w') ->
  exists now, reads_clock o now /\ live_unblocked_session (working w) who now = true.
Proof.
  intros E. wp_start E. unfold checkRecoveryPrincipal. wp_go.
  eexists. split; [eauto|]. by apply negb_false_iff.
Qed.

Lemma checkPrincipal_ok who o w u w' :
  checkPrincipal who o w = (Ok u, w') ->
  (exists now, reads_clock o now /\ live_unblocked_session (working w) who now = true) /\
  has_deletion (working w) (AccountID who) = false.
Proof.
  intros E. wp_start E. unfold checkPrincipal. wp_step.
  apply wp_ro_ok; [apply _|done|]. intros a w1 E1%checkRecoveryPrincipal_ok Hw _ _.
  wp_go. rewrite Hw in *. split; done.
Qed.

Lemma checkPurposePrincipal_ok who purpose o w u w' :
  checkPurposePrincipal who purpose o w = (Ok u, w') -> principal_ok o (working w) who purpose.
Proof.
  unfold checkPurposePrincipal, principal_ok. destruct (purpose == "accountDeletion") eqn:Ep.
  - intros E%checkRecoveryPrincipal_ok. bsimp. split; [done|]. intros []. done.
  - intros [E1 E2]%checkPrincipal_ok. done.
Qed.

(** *** Loading a process *)
Definition loaded (o : Oracle) (d : DB) (id : uuid) (flow : string) (who : Principal)
    (u : Authentication) : Prop :=
  In u (authentications d) /\ u_id u = id /\ u_flow_token_hash u = Hash (e_Secrets e) "flow" "" flow /\
  u_invalidation_timestamp u = None /\
  (exists now, reads_clock o now /\ now < u_expiration_timestamp u) /\
  (sensitive (u_purpose u) = true ->
     u_account_id u = Some (AccountID who) /\ u_session_id u = Some (SessionID who) /\
     principal_ok o d who (u_purpose u)).

Lemma load_ok id flow who o w p w' :
  load e id flow who o w = (Ok p, w') ->
  exists u, p = process_of u /\ loaded o (working w) id flow who u.
Proof.
  intros E. wp_start E. unfold load. wp_go.
  1: apply wp_ro_ok; [apply _|done|]; intros [] w1 E1%checkPurposePrincipal_ok _ _ _; wp_go.
  all: match goal with F : one _ _ = Some ?u |- _ =>
         exists u; apply one_some in F as [? ?]; unfold with_id, After in * end;
       bsimp; split; [done|]; unfold loaded; repeat split; try done; eauto.
  all: try match goal with P : principal_ok _ _ _ _ |- _ => by apply P end.
  all: congruence.
Qed.

Lemma loadChallenge_ok id process o w c w' :
  loadChallenge id process o w = (Ok c, w') ->
  exists t, In t (authentication_steps (working w)) /\ t_id t = id /\
    t_authentication_id t = process /\ c = challenge_of t.
Proof.
  intros E. wp_start E. unfold loadChallenge. wp_go.
  match goal with F : one _ _ = Some ?t |- _ => apply one_some in F as [? ?]; exists t end.
  unfold steps_of in *. by bsimp.
Qed.

(** *** Required next steps *)

(** The steps a process still has to prove: none are left exactly when its evidence is
    complete. *)
Definition evidence_complete (d : DB) (p : Process) : Prop :=
  if p_Purpose p == "signUp" then
    has_registration d (p_ID p) = true /\
    has_completed d (p_ID p) ["emailVerification"] = true /\
    has_completed d (p_ID p) ["passwordSetup"] = true
  else
    has_completed d (p_ID p) first_factors = true /\
    exists account, p_accountID p = Some account /\
      (has_totp d account = true -> has_completed d (p_ID p) second_factors = true).

Lemma next_done p o w ms w' :
  next e p o w = (Ok ms, w') -> p_Status p = "pending" ->
  (ms = [] <-> evidence_complete (working w) p).
Proof.
  intros E Hp. wp_start E. unfold next, evidence_complete. rewrite Hp, beq_refl. simpl.
  wp_go; bsimp;
    match goal with
    | |- [] = [] <-> _ => split; [intros _|done]; naive_solver congruence
    | |- _ => split; [done|naive_solver congruence]
    end.
Qed.

(** *** Confirmations *)

(** What a confirmation must be to authorise [purpose] for [who]. *)
Definition grant_accepted (o : Oracle) (d : DB) (token purpose : string) (who : Principal)
    (u : Authentication) : Prop :=
  In u (authentications d) /\
  u_confirmation_token_hash u = Some (Hash (e_Secrets e) "grant" "" token) /\
  u_purpose u = purpose /\ u_status u = "completed" /\ u_invalidation_timestamp u = None /\
  (exists now, reads_clock o now /\ later_than (u_confirmation_expiration_timestamp u) now = true) /\
  (exists a, In a (accounts d) /\ a_id a = uuid_of (u_account_id u) /\ a_blocking_timestamp a = None) /\
  (sensitive purpose = true ->
     uuid_of (u_account_id u) = AccountID who /\ u_session_id u = Some (SessionID who) /\
     principal_ok o d who purpose).

Lemma ConsumeGrant_ok token purpose who o w account w' :
  ConsumeGrant e token purpose who o w = (Ok account, w') ->
  exists u, grant_accepted o (working w) token purpose who u /\
    account = uuid_of (u_account_id u) /\
    working w' = update_authentications (with_id (u_id u)) clear_grant (working w) /\
    committed w' = committed w /\ tx_now w' = tx_now w /\ schema_ok (working w') = true.
Proof.
  intros E. wp_start E. unfold ConsumeGrant. wp_go.
  1: apply wp_ro_ok; [apply _|done|]; intros [] w1 E1%checkPurposePrincipal_ok Hw Hc Ht; wp_go.
  all: wsimpl; try rewrite !Hw in *; try rewrite Hc; try rewrite Ht.
  all: match goal with F : one (grant_row _ _ _) _ = Some ?u |- _ =>
         exists u; apply one_some in F as [? ?]; unfold grant_row in * end.
  all: match goal with F : option_map _ (one _ _) = Some ?b |- _ =>
         destruct (one _ _) eqn:?; simplify_eq/= end.
  all: match goal with F : one _ (accounts _) = Some ?a |- _ =>
         apply one_some in F as [? ?] end.
  all: bsimp; split; [|done]; unfold grant_accepted; repeat split; try done; eauto.
  all: try match goal with P : principal_ok _ _ _ _ |- _ => by apply P end.
  all: congruence.
Qed.

(** A spent confirmation is on no row. *)
Definition spent (d : DB) (token : string) : Prop :=
  forall u, In u (authentications d) ->
    u_confirmation_token_hash u <> Some (Hash (e_Secrets e) "grant" "" token).

Lemma clear_grant_spent d token u :
  schema_ok d = true -> In u (authentications d) ->
  u_confirmation_token_hash u = Some (Hash (e_Secrets e) "grant" "" token) ->
  spent (update_authentications (with_id (u_id u)) clear_grant d) token.
Proof.
  intros Hd Hu Hh x. simpl. rewrite in_upd. intros (y & Hy & ->) E.
  unfold with_id in E. destruct (u_id y == u_id u) eqn:Ey; [done|]. bsimp.
  apply Ey. f_equal. by eapply grant_key.
Qed.

(** *** Reuse of earlier evidence *)
Lemma reusable_ok p o w r w' :
  reusable e p o w = (Ok r, w') -> r = true ->
  exists now a, reads_clock o now /\ In a (authentications (working w)) /\
    reusable_evidence (working w) (uuid_of (p_accountID p)) (int_of (p_sessionID p))
      (now - ReuseTTL e) a = true.
Proof.
  intros E. wp_start E. unfold reusable. wp_go. rewrite any_true.
  intros (a & ? & ?). eauto 6.
Qed.

Lemma complete_status p o w p' w' :
  complete e p o w = (Ok p', w') ->
  p_Status p' = "completed" /\ p_accountID p' = p_accountID p /\ p_ID p' = p_ID p /\
  p_Purpose p' = p_Purpose p /\ p_failures p' = p_failures p /\
  exists token t now,
    p_ConfirmationToken p' = token /\ reads_clock o t /\ reads_clock o now /\
    working w' = update_authentications (with_id (p_ID p))
      (complete_row (uuid_of (p_accountID p)) now (Hash (e_Secrets e) "grant" "" token)
         (t + GrantTTL e)) (working w) /\
    committed w' = committed w /\ tx_now w' = tx_now w /\ schema_ok (working w') = true /\
    drawn o token.
Proof.
  intros E. wp_start E. unfold complete. wp_step. wp_use randomToken_ok as Hdr. wp_go. simpl.
  repeat (split; [done|]). do 3 eexists. split; [done|]. repeat split; eauto.
Qed.
End Facts.

(** ** Properties *)
Section Properties.
Context `{Platform} `{WebAuthn} (e : Engine).

(** C2: a confirmation is accepted only if it belongs to a completed, not invalidated process of
  exactly the requested purpose, has not expired, and its account exists and is not blocked;
  for a sensitive purpose it must also belong to the caller's own account and live session
  (and, deletion aside, no deletion may be pending). Accepting it clears it and changes
  nothing else. *)
Theorem ConsumeGrant_authorised token purpose who o w account w' :
ConsumeGrant e token purpose who o w = (Ok account, w') ->
exists u, grant_accepted e o (working w) token purpose who u /\
  account = uuid_of (u_account_id u) /\
  working w' = update_authentications (with_id (u_id u)) clear_grant (working w) /\
  committed w' = committed w.
Proof. intros (u & ? & ? & ? & ? & _)%ConsumeGrant_ok. eauto. Qed.

(** A confirmation is accepted at most once: in the database its acceptance leaves behind,
  the same token authorises nothing, for any purpose and any caller, at any time. *)
Theorem ConsumeGrant_single_use token purpose who o w account w' :
schema_ok (working w) = true ->
ConsumeGrant e token purpose who o w = (Ok account, w') ->
forall purpose2 who2 o2 w2 account2 w3,
  working w2 = working w' -> ConsumeGrant e token purpose2 who2 o2 w2 <> (Ok account2, w3).
Proof.
intros Hd (u & (Hu & Hh & _) & _ & Hw & _)%ConsumeGrant_ok purpose2 who2 o2 w2 a2 w3 E2 E.
apply ConsumeGrant_ok in E as (u2 & (Hu2 & Hh2 & _) & _).
rewrite E2, Hw in Hu2. by eapply clear_grant_spent.
Qed.

(** C5: a process is created completed only for a sensitive purpose of a principal who may act,
  and only when a completed, not invalidated process of the same account and session holds a
  first factor (and, with TOTP enabled, a second factor) proved within the reuse window. *)
Theorem Start_completed_has_evidence purpose who o w p w' :
Start e purpose who o w = (Ok p, w') -> p_Status p = "completed" ->
sensitive purpose = true /\ principal_ok o (committed w) who purpose /\
exists now a, reads_clock o now /\ In a (authentications (committed w)) /\
  reusable_evidence (committed w) (AccountID who) (SessionID who) (now - ReuseTTL e) a = true.
Proof.
intros E. wp_start E. unfold Start. wp_go. wp_skip. wp_go.
2: wp_skip; wp_go; done.
wp_use checkPurposePrincipal_ok as Hp. wp_go. wp_skip. wp_step.
wp_enter E. wp_go; [|done].
apply reusable_ok in E; [|done]. simpl in E. destruct E as (now & x & Hn & Hx & He).
wp_call complete_status as (Hs & _). wp_go. intros _. repeat (split; [done|]).
exists now, x. split; [done|]. apply in_ins in Hx as [Hx| ->]; [done|].
unfold reusable_evidence in He. simpl in He. bsimp.
Qed.

(** C6: the next steps of a pending process are empty exactly when its evidence is complete: a
  sign-up has its registration, a verified email and a password; any other process has a first
  factor of a known account and, if that account uses TOTP, a second factor. *)
Theorem next_empty_iff_evidence p o w ms w' :
next e p o w = (Ok ms, w') -> p_Status p = "pending" ->
(ms = [] <-> evidence_complete (working w) p).
Proof. apply next_done. Qed.

(** An unknown process, a wrong flow token, an expired and an invalidated process are the
  same error to the caller, who learns nothing from it. *)
Theorem load_refuses_alike id flow who o w :
o_fault o (tick w) = None ->
(forall u, In u (authentications (working w)) -> u_id u = id ->
   u_flow_token_hash u <> Hash (e_Secrets e) "flow" "" flow \/
   u_invalidation_timestamp u <> None \/
   u_expiration_timestamp u <= o_now o (S (tick w))) ->
(load e id flow who o w).1 = Err ErrUnauthorized.
Proof.
intros Hf Hu. unfold load, try, bind, query_row, statement. rewrite Hf.
destruct (one (with_id id) (authentications (working w))) as [u|] eqn:E; simpl; [|done].
apply one_some in E as [Hin Hid]. unfold with_id in Hid. bsimp.
specialize (Hu u Hin eq_refl). unfold After.
destruct ((u_flow_token_hash u != _) || _ || _) eqn:Ec; [done|].
bsimp. exfalso. destruct Hu as [?|[?|?]]; [done..|lia].
Qed.
End Properties.

Definition toy_consume (purpose : string) : result uuid * World :=
  ConsumeGrant toy_engine "G" purpose who_alice quiet (at_rest (granted_db purpose)).

Lemma ConsumeGrant_authorised_witness :
  (toy_consume "passwordChange").1 = Ok alice_id /\
  exists u, grant_accepted toy_engine quiet (granted_db "passwordChange") "G" "passwordChange" who_alice u.
Proof.
  split; [reflexivity|].
  destruct (ConsumeGrant_authorised toy_engine "G" "passwordChange" who_alice quiet
    (at_rest (granted_db "passwordChange")) alice_id (toy_consume "passwordChange").2)
    as (u & Hu & _); [apply run_ok; reflexivity|]. exists u. exact Hu.
Defined.

Lemma ConsumeGrant_single_use_witness :
  succeeds (fun _ => true) (ConsumeGrant toy_engine "G" "passwordChange" who_alice quiet
    (at_rest (working (toy_consume "passwordChange").2))).1 = false.
Proof.
  apply run_never. intros a w'.
  refine (ConsumeGrant_single_use toy_engine "G" "passwordChange" who_alice quiet
    (at_rest (granted_db "passwordChange")) alice_id (toy_consume "passwordChange").2 _ _
    "passwordChange" who_alice quiet _ a w' _); [reflexivity| |apply working_at_rest].
  apply run_ok. reflexivity.
Defined.

Lemma Start_completed_has_evidence_witness :
  exists now a, In a (authentications evidence_db) /\
    reusable_evidence evidence_db alice_id 5 (now - 5 * Minute) a = true.
Proof.
  destruct (run_ex (Start toy_engine "emailChange" who_alice) quiet (at_rest evidence_db)
    (fun p => p_Status p == "completed")) as (p & E & Hp); [reflexivity|].
  apply (proj1 (beq_true (p_Status p) "completed")) in Hp.
  destruct (Start_completed_has_evidence toy_engine "emailChange" who_alice quiet
    (at_rest evidence_db) p _ E Hp) as (_ & _ & now & a & _ & Ha & He).
  exists now, a. split; [exact Ha|exact He].
Defined.

Lemma next_empty_iff_evidence_witness :
  evidence_complete evidence_db (process_of (alice_process 9 "emailChange" "pending" "F")).
Proof.
  apply (next_empty_iff_evidence toy_engine
    (process_of (alice_process 9 "emailChange" "pending" "F")) quiet (at_rest evidence_db) []
    (next toy_engine (process_of (alice_process 9 "emailChange" "pending" "F")) quiet
       (at_rest evidence_db)).2); [apply run_ok|..]; reflexivity.
Defined.

Lemma load_refuses_alike_witness :
  (load toy_engine 9 "wrong" who_alice quiet (at_rest evidence_db)).1 = Err ErrUnauthorized.
Proof.
  apply (load_refuses_alike toy_engine 9 "wrong" who_alice quiet (at_rest evidence_db));
    [reflexivity|]. intros u [<-|[]] _. left. discriminate.
Defined.
