(* ===== verification/ChallengeFacts.v ===== *)
(** What the attempts of Challenge.v guarantee: a process is completed only on complete
    evidence, proofs are counted against a budget, one-time proofs are used once, and a sign-up
    discloses and creates accounts only after the email was proved. *)
From S2P Require Import Prelude GoLib Schema Limiter TxMonad Secrets PasskeyVerifier Engine Process Mail Passkeys OAuth Challenge Toy ProcessFacts.
#[local] Open Scope string_scope.
#[local] Open Scope Z_scope.
#[local] Open Scope list_scope.

(** The process value keeps its identity while a proof is verified; only the account it is
    bound to may change. *)
Definition same_process (p p' : Process) : Prop :=
  p_ID p' = p_ID p /\ p_Purpose p' = p_Purpose p /\ p_Status p' = p_Status p /\
  p_failures p' = p_failures p /\ p_ConfirmationToken p' = p_ConfirmationToken p.

(** Verifying a proof leaves these tables alone. *)
Definition frame (d d' : DB) : Prop :=
  authentication_steps d' = authentication_steps d /\ accounts d' = accounts d /\
  sessions d' = sessions d /\ outbox d' = outbox d /\
  map u_status (authentications d') = map u_status (authentications d) /\
  map u_id (authentications d') = map u_id (authentications d) /\
  map u_failed_attempts (authentications d') = map u_failed_attempts (authentications d) /\
  map u_confirmation_token_hash (authentications d') =
    map u_confirmation_token_hash (authentications d).

Section Frame.
Context `{Platform} `{WebAuthn} (e : Engine).

Lemma frame_refl d : frame d d.
Proof. by unfold frame. Qed.

Lemma bind_account_map {A} (k : Authentication -> A) id account d :
  (forall u, k (set_u_account_id (Some account) u) = k u) ->
  map k (authentications (bind_account id account d)) = map k (authentications d).
Proof. intros Hk. apply map_upd_ext. intros u _ _. apply Hk. Qed.

Lemma frame_bind id account d : frame d (bind_account id account d).
Proof. unfold frame. repeat split; by apply (bind_account_map _ id account d). Qed.

Lemma verifyPasskey_frame p c f o w p' w' :
  verifyPasskey e p c f o w = (Ok p', w') ->
  same_process p p' /\ frame (working w) (working w') /\ committed w' = committed w /\
  tx_now w' = tx_now w /\ isSome (p_accountID p') = true.
Proof.
  intros E. wp_start E. unfold verifyPasskey. wp_go. wp_skip. wp_go. wp_skip. wp_go.
  repeat split; try done; by rewrite bind_account_map.
Qed.

(** *** One lemma per kind of proof *)
Lemma verify_registration_ok p f o w p' w' :
  verify_registration p f o w = (Ok p', w') ->
  p' = p /\ committed w' = committed w /\ tx_now w' = tx_now w /\
  working w' = set_registrations
    (ins {| r_authentication_id := p_ID p; r_email := ToLower (TrimSpace (f_Email f));
            r_password_hash := None |} (registrations (working w))) (working w).
Proof. intros E. wp_start E. unfold verify_registration. by wp_go. Qed.

Lemma verify_passwordSetup_ok p f o w p' w' :
  verify_passwordSetup e p f o w = (Ok p', w') ->
  p' = p /\ committed w' = committed w /\ tx_now w' = tx_now w /\
  exists salt hash, bcrypt_Generate salt (f_Password f) (BcryptCost e) = Some hash /\
    working w' = set_registrations
      (upd (fun r => r_authentication_id r == p_ID p) (set_r_password_hash (Some hash))
         (registrations (working w))) (working w).
Proof.
  intros E. wp_start E. unfold verify_passwordSetup, GenerateFromPassword. wp_go. eauto 8.
Qed.

Lemma verify_password_ok p f o w p' w' :
  verify_password e p f o w = (Ok p', w') ->
  exists a h, In a (accounts (working w)) /\ a_password_hash a = Some h /\
    bcrypt_Compare h (f_Password f) = true /\ a_blocking_timestamp a = None /\
    (if sensitive (p_Purpose p) then a_id a = uuid_of (p_accountID p)
     else login_row (ToLower (TrimSpace (f_Login f))) a = true) /\
    p' = set_p_accountID (Some (a_id a)) p /\ committed w' = committed w /\
    tx_now w' = tx_now w /\ working w' = bind_account (p_ID p) (a_id a) (working w).
Proof.
  intros E. wp_start E. unfold verify_password. wp_skip. wp_go; bsimp.
  match goal with F : _ = Some ?r |- _ => rename r into x; rename F into Hx end.
  destruct (a_password_hash x) as [h|] eqn:Eh; simplify_eq/=. exists x, h.
  destruct (sensitive (p_Purpose p)); apply one_some in Hx as [? ?]; bsimp; done.
Qed.

Lemma verify_email_ok p c f o w p' w' :
  verify_email e p c f o w = (Ok p', w') ->
  p' = p /\ committed w' = committed w /\ tx_now w' = tx_now w /\ working w' = working w /\
  exists x, In x (email_authentication_steps (working w)) /\ et_step_id x = c_ID c /\
    et_code_hash x = Hash (e_Secrets e) "email" (uuid_String (c_ID c)) (f_Code f).
Proof.
  intros E. wp_start E. unfold verify_email. wp_go; bsimp. repeat (split; [done|]).
  destruct (one _ _) as [x|] eqn:Ex; simplify_eq/=. apply one_some in Ex as [? ?]. bsimp. eauto.
Qed.

Lemma verify_totp_ok p f o w p' w' :
  verify_totp e p f o w = (Ok p', w') ->
  p' = p /\ committed w' = committed w /\ tx_now w' = tx_now w /\
  exists account row secret step now, p_accountID p = Some account /\
    In row (totp (working w)) /\ tp_account_id row = account /\ reads_clock o now /\
    Decrypt (e_Secrets e) (tp_encrypted_secret row) (uuid_String account) = Ok secret /\
    totpStep secret (f_Code f) now (tp_last_used_step row) = Some step /\
    working w' = set_totp (upd (fun t => tp_account_id t == account)
                             (set_tp_last_used_step step) (totp (working w))) (working w).
Proof.
  intros E. wp_start E. unfold verify_totp. wp_go. repeat (split; [done|]).
  match goal with F : one _ _ = Some ?r |- _ => apply one_some in F as [? ?] end. bsimp.
  do 5 eexists. repeat split; eauto.
Qed.

Lemma verify_backupCode_ok p f o w p' w' :
  verify_backupCode e p f o w = (Ok p', w') ->
  p' = p /\ committed w' = committed w /\ tx_now w' = tx_now w /\
  exists account b, let spends := backup_row account
      (Hash (e_Secrets e) "backup" (uuid_String account) (f_Code f)) in
    p_accountID p = Some account /\ In b (backup_codes (working w)) /\ spends b = true /\
    working w' = set_backup_codes (del spends (backup_codes (working w))) (working w).
Proof.
  intros E. wp_start E. unfold verify_backupCode. wp_go. repeat (split; [done|]).
  unfold delete_returning in *. destruct (one _ _) as [b|] eqn:Eb; simplify_eq/=.
  apply one_some in Eb as [? ?]. eauto 8.
Qed.

Lemma verify_frame p c f o w p' w' :
  verify e p c f o w = (Ok p', w') ->
  same_process p p' /\ frame (working w) (working w') /\ committed w' = committed w /\
  tx_now w' = tx_now w.
Proof.
  unfold verify. intros E.
  destruct (c_Method c == "registration").
  { apply verify_registration_ok in E as (-> & -> & -> & ->). by repeat split. }
  destruct (c_Method c == "passwordSetup").
  { apply verify_passwordSetup_ok in E as (-> & -> & -> & ? & ? & _ & ->). by repeat split. }
  destruct (c_Method c == "passkey").
  { apply verifyPasskey_frame in E as (? & ? & ? & ? & _). done. }
  destruct (c_Method c == "password").
  { apply verify_password_ok in E as (? & ? & _ & _ & _ & _ & _ & -> & -> & -> & ->).
    split; [by repeat split|]. split; [apply frame_bind|done]. }
  destruct (c_Method c == "email").
  { apply verify_email_ok in E as (-> & -> & -> & -> & _). by repeat split. }
  destruct (c_Method c == "totp").
  { apply verify_totp_ok in E as (-> & -> & -> & ? & ? & ? & ? & ? & _ & _ & _ & _ & _ & _ & ->).
    by repeat split. }
  destruct (c_Method c == "backupCode"); [|done].
  apply verify_backupCode_ok in E as (-> & -> & -> & ? & ? & _ & _ & _ & ->). by repeat split.
Qed.

(** *** Registrations

    What a proof does to the staged registrations: a registration proof stages one without a
    password, a password setup sets its hash, no other proof touches them. *)
Definition registrations_after (method : string) (p : Process) (f : Proof)
    (before after : list Registration) : Prop :=
  if method == "registration" then
    after = ins {| r_authentication_id := p_ID p; r_email := ToLower (TrimSpace (f_Email f));
                   r_password_hash := None |} before
  else if method == "passwordSetup" then
    exists salt hash, bcrypt_Generate salt (f_Password f) (BcryptCost e) = Some hash /\
      after = upd (fun r => r_authentication_id r == p_ID p) (set_r_password_hash (Some hash)) before
  else after = before.

Lemma verifyPasskey_registrations p c f o w p' w' :
  verifyPasskey e p c f o w = (Ok p', w') -> registrations (working w') = registrations (working w).
Proof. intros E. wp_start E. unfold verifyPasskey. wp_go. wp_skip. wp_go. wp_skip. by wp_go. Qed.

Lemma verify_registrations p c f o w p' w' :
  verify e p c f o w = (Ok p', w') ->
  registrations_after (c_Method c) p f (registrations (working w)) (registrations (working w')).
Proof.
  unfold verify, registrations_after. intros E.
  destruct (c_Method c == "registration").
  { by apply verify_registration_ok in E as (_ & _ & _ & ->). }
  destruct (c_Method c == "passwordSetup").
  { apply verify_passwordSetup_ok in E as (_ & _ & _ & salt & hash & Hb & ->). by exists salt, hash. }
  destruct (c_Method c == "passkey"); [by apply verifyPasskey_registrations in E|].
  destruct (c_Method c == "password").
  { by apply verify_password_ok in E as (? & ? & _ & _ & _ & _ & _ & _ & _ & _ & ->). }
  destruct (c_Method c == "email"); [by apply verify_email_ok in E as (_ & _ & _ & -> & _)|].
  destruct (c_Method c == "totp").
  { by apply verify_totp_ok in E as (_ & _ & _ & ? & ? & ? & ? & ? & _ & _ & _ & _ & _ & _ & ->). }
  destruct (c_Method c == "backupCode"); [|done].
  by apply verify_backupCode_ok in E as (_ & _ & _ & ? & ? & _ & _ & _ & ->).
Qed.

(** A registration with a password was staged before the attempt, which at most set its hash. *)
Lemma registration_found method p f d d1 r password :
  schema_ok d1 = true -> registrations_after method p f (registrations d) (registrations d1) ->
  In r (registrations d1) -> r_authentication_id r = p_ID p -> r_password_hash r = Some password ->
  exists r0, In r0 (registrations d) /\ r_authentication_id r0 = p_ID p /\ r_email r0 = r_email r /\
    if method == "passwordSetup"
    then exists salt, bcrypt_Generate salt (f_Password f) (BcryptCost e) = Some password
    else r_password_hash r0 = Some password.
Proof.
  unfold registrations_after. intros Hd Ha Hr Hi Hp.
  destruct (method == "registration") eqn:Er; [|destruct (method == "passwordSetup")].
  - exfalso. rewrite beq_true in Er.
    assert (r = {| r_authentication_id := p_ID p; r_email := ToLower (TrimSpace (f_Email f));
                   r_password_hash := None |}) as ->; [|done].
    apply (registration_key _ Hd); [done| |done]. rewrite Ha. apply in_ins. by right.
  - destruct Ha as (salt & hash & Hb & Ha). rewrite Ha, in_upd in Hr. destruct Hr as (r0 & Hr & ->).
    exists r0. destruct (r_authentication_id r0 == p_ID p) eqn:E0; bsimp. split_and!; try done.
    by exists salt.
  - rewrite Ha in Hr. by exists r.
Qed.

(** Without the registration of [p], an attempt leaves the registrations it found. *)
Lemma registrations_left method p f d d1 :
  registrations_after method p f (registrations d) (registrations d1) ->
  map r_authentication_id (del (fun r => r_authentication_id r == p_ID p) (registrations d1)) =
    List.filter (fun i => negb (i == p_ID p)) (map r_authentication_id (registrations d)).
Proof.
  assert (forall l, map r_authentication_id (del (fun r => r_authentication_id r == p_ID p) l) =
    List.filter (fun i => negb (i == p_ID p)) (map r_authentication_id l)) as Hdel.
  { induction l as [|x l IH]; [done|]. unfold del in *. simpl.
    destruct (negb (r_authentication_id x == p_ID p)); simpl; by rewrite IH. }
  unfold registrations_after. intros Ha. rewrite Hdel.
  destruct (method == "registration"); [|destruct (method == "passwordSetup")].
  - rewrite Ha. unfold ins. rewrite map_app, List.filter_app. simpl. rewrite beq_refl.
    by rewrite app_nil_r.
  - destruct Ha as (salt & hash & _ & ->). f_equal. by apply map_upd_ext.
  - by rewrite Ha.
Qed.

(** *** Errors that say something about the proof *)
Definition unremarkable (err : error) : Prop :=
  match err with ErrCredentials | ErrAttempts | ErrAccountExists => False | _ => True end.

#[export] Instance err_randomToken : Errors unremarkable randomToken.
Proof. unfold randomToken. solve_errors. Qed.
#[export] Instance err_checkRecovery who : Errors unremarkable (checkRecoveryPrincipal who).
Proof. unfold checkRecoveryPrincipal. solve_errors. Qed.
#[export] Instance err_checkPurpose who p : Errors unremarkable (checkPurposePrincipal who p).
Proof. unfold checkPurposePrincipal, checkPrincipal. solve_errors. Qed.
#[export] Instance err_load id flow who : Errors unremarkable (load e id flow who).
Proof. unfold load. solve_errors. Qed.
#[export] Instance err_loadChallenge id p : Errors unremarkable (loadChallenge id p).
Proof. unfold loadChallenge. solve_errors. Qed.
#[export] Instance err_next p : Errors unremarkable (next e p).
Proof. unfold next. solve_errors. Qed.
#[export] Instance err_complete p : Errors unremarkable (complete e p).
Proof. unfold complete. solve_errors. Qed.
#[export] Instance err_hydrateStep c : Errors unremarkable (hydrateStep e c).
Proof.
  unfold hydrateStep. solve_errors. apply errors_lift. unfold AuthenticationOptions.
  intros err. destruct (_ <? _); by intros [= <-].
Qed.
#[export] Instance err_hydrateSteps cs : Errors unremarkable (hydrateSteps e cs).
Proof. induction cs; simpl; solve_errors. Qed.
#[export] Instance err_steps p : Errors unremarkable (steps e p).
Proof. unfold steps. solve_errors. Qed.
#[export] Instance err_cancelAlternatives p a : Errors unremarkable (cancelAlternatives p a).
Proof. unfold cancelAlternatives. solve_errors. Qed.

#[export] Instance err_GenerateFromPassword pw c : Errors unremarkable (GenerateFromPassword pw c).
Proof. unfold GenerateFromPassword. solve_errors. Qed.
#[export] Instance err_dummyPassword : Errors unremarkable (dummyPassword e).
Proof.
  unfold dummyPassword. apply errors_bind; [by intros o w err w' [=]|]. intros m.
  assert (forall r, Errors unremarkable (lift (dummy_result r))) as Hl.
  { intros [h|msg]; apply errors_lift; by intros err [= <-]. }
  destruct (dummyPasswordHash m) as [r|]; [done|].
  apply errors_try; [apply _|..]; intros; (apply errors_bind; [by intros o w err w' [=]|done]).
Qed.
#[export] Instance err_Decrypt s v c : Errors unremarkable (lift (Decrypt s v c)).
Proof.
  apply errors_lift. unfold Decrypt. intros err. destruct (Nat.ltb _ _); [by intros [= <-]|].
  destruct (aead_Open _ _ _ _); by intros [= <-].
Qed.
#[export] Instance err_scan rows : Errors unremarkable (lift (scan_credentials rows)).
Proof.
  apply errors_lift. induction rows as [|k rows IH]; simpl; [done|]. unfold scan_uint32.
  intros err. destruct (_ && _); [|by intros [= <-]].
  destruct (scan_credentials rows); [done|]. by apply IH.
Qed.

(** A rejected proof has changed nothing. *)
Definition rejected_post (d : DB) {A} (r : result A) (w' : World) : Prop :=
  match r with
  | Err ErrCredentials => working w' = d
  | Err ErrAttempts | Err ErrAccountExists => False
  | _ => True
  end.

Lemma unremarkable_post d {A} err w' : unremarkable err -> @rejected_post d A (Err err) w'.
Proof. by destruct err. Qed.

Lemma passkeyAccount_rejected id o w r w' :
  passkeyAccount id o w = (r, w') -> rejected_post (working w) r w'.
Proof.
  intros E. eapply wp_run; [exact E|]. unfold passkeyAccount. wp_go; try exact I; try done.
  match goal with F : scan_credentials _ = Err ?x |- _ =>
    apply unremarkable_post; eapply (err_scan _ quiet w x w); unfold lift; by rewrite F end.
Qed.

Lemma verify_rejected p c f o w r w' :
  verify e p c f o w = (r, w') -> rejected_post (working w) r w'.
Proof.
  intros E. eapply wp_run; [exact E|].
  unfold verify, verify_registration, verify_passwordSetup, verify_password, verify_email,
    verify_totp, verify_backupCode, verifyPasskey.
  wp_go; try exact I; try done.
  - wp_any E1; [by wp_go; try exact I|apply unremarkable_post; by eapply err_GenerateFromPassword].
  - wp_any E1; [|by apply passkeyAccount_rejected in E1].
    wp_go; try exact I. wp_any E2; wp_go; try exact I; done.
  - wp_any E1; [by wp_go; try exact I|apply unremarkable_post; by eapply err_dummyPassword].
  - match goal with F : Decrypt ?s ?v ?c = Err ?x |- _ =>
      apply unremarkable_post; eapply (err_Decrypt s v c quiet w x w); unfold lift; by rewrite F end.
Qed.

(** *** After an accepted proof *)

(** What a finished transition leaves: the process still needs steps, or its evidence was
    complete and it now carries a fresh confirmation. *)
Definition finished (o : Oracle) (d d' : DB) (p p' : Process) : Prop :=
  p_ID p' = p_ID p /\ p_Purpose p' = p_Purpose p /\ p_accountID p' = p_accountID p /\
  ((p_Status p' = p_Status p /\ p_ConfirmationToken p' = p_ConfirmationToken p /\ d' = d) \/
   (p_Status p' = "completed" /\ evidence_complete d p /\ exists token t now,
      p_ConfirmationToken p' = token /\ drawn o token /\
      d' = update_authentications (with_id (p_ID p))
        (complete_row (uuid_of (p_accountID p)) now (Hash (e_Secrets e) "grant" "" token)
           (t + GrantTTL e)) d)).

(** The answered process is completed in the database, with the answered token as its only
    confirmation: one drawn for it. *)
Definition confirmed (o : Oracle) (d : DB) (p : Process) : Prop :=
  drawn o (p_ConfirmationToken p) /\ exists u, In u (authentications d) /\ u_id u = p_ID p /\
    u_status u = "completed" /\ u_account_id u = Some (uuid_of (p_accountID p)) /\
    u_confirmation_token_hash u = Some (Hash (e_Secrets e) "grant" "" (p_ConfirmationToken p)).

Lemma complete_confirmed o d p account token now expiry :
  drawn o token -> In (p_ID p) (map u_id (authentications d)) ->
  account = uuid_of (p_accountID p) -> p_ConfirmationToken p = token ->
  confirmed o (update_authentications (with_id (p_ID p))
    (complete_row account now (Hash (e_Secrets e) "grant" "" token) expiry) d) p.
Proof.
  intros Hd (u & Hi & Hu)%in_map_iff -> <-. split; [done|]. eexists. split_and!.
  - simpl. apply in_upd. exists u. split; [done|]. unfold with_id. by rewrite Hi, beq_refl.
  - done.
  - done.
  - done.
  - done.
Qed.

Lemma finished_confirmed o d d' p p' :
  finished o d d' p p' -> p_Status p = "pending" -> p_Status p' = "completed" ->
  In (p_ID p) (map u_id (authentications d)) -> confirmed o d' p'.
Proof.
  intros (Hi & _ & Ha & [(Hs & _)|(_ & _ & token & t & now & Ht & Hd & ->)]) Hp Hc Hin;
    [congruence|].
  rewrite <- Hi, <- Ha. apply complete_confirmed; [done| |done..]. by rewrite Hi.
Qed.

Lemma advance_ok p c o w a w' :
  advance e p c o w = (Ok a, w') -> p_Status p = "pending" ->
  finished o (working w) (committed w') p (at_Authentication a).
Proof.
  intros E Hp. wp_start E. unfold advance. wp_enter En.
  wp_binds. wp_rule.
  - wp_call complete_status as
      (Hs & Ha & Hi & Hu & _ & token & t & now & Ht & _ & _ & Hw & _ & _ & _ & Hd).
    wp_skip. wp_skip. wp_go. unfold finished. simpl in *. repeat (split; [done|]). right.
    split; [done|]. split; [|by eexists _, _, _]. apply next_done in En; [|done]. by apply En.
  - wp_step. wp_skip. wp_skip. wp_go. unfold finished. simpl. repeat (split; [done|]). by left.
Qed.

(** Registration: the account of the proved email, its event, and nothing else. *)
Definition registered (d d' : DB) (p p' : Process) : Prop :=
  exists r password a x,
    In r (registrations d) /\ r_authentication_id r = p_ID p /\ r_password_hash r = Some password /\
    (forall b, In b (accounts d) -> a_email b <> r_email r) /\
    a_email a = r_email r /\ a_password_hash a = Some password /\
    isSome (a_email_verification_timestamp a) = true /\ a_blocking_timestamp a = None /\
    accounts d' = accounts d ++ [a] /\ p_accountID p' = Some (a_id a) /\
    outbox d' = outbox d ++ [x] /\ x_exchange x = "auth.profiles" /\ x_type x = "profile.created" /\
    x_body x = ProfileCreated (a_id a) /\ sessions d' = sessions d /\
    authentication_steps d' = authentication_steps d /\
    registrations d' = del (fun r => r_authentication_id r == p_ID p) (registrations d).

Lemma register_ok p o w p' w' :
  register p o w = (Ok p', w') ->
  registered (working w) (working w') p p' /\ committed w' = committed w /\
  authentications (working w') = authentications (working w) /\ p_ID p' = p_ID p /\
  p_Purpose p' = p_Purpose p.
Proof.
  intros E. wp_start E. unfold register, outbox_insert. wp_go.
  unfold insert_account in *. simpl in *.
  match goal with F : any _ (accounts (working w)) = false |- _ => rewrite F in *; rename F into Ea end.
  simplify_eq/=. split; [|done]. rewrite any_false in Ea.
  match goal with F : one _ (registrations _) = Some ?r |- _ =>
    apply one_some in F as [? ?]; exists r end. bsimp.
  do 3 eexists. repeat split; try done.
  intros b Hb. specialize (Ea b Hb). by bsimp.
Qed.

Definition signUp_finished (o : Oracle) (d d' : DB) (p p' : Process) : Prop :=
  p_ID p' = p_ID p /\ p_Purpose p' = p_Purpose p /\
  ((p_Status p' = p_Status p /\ p_ConfirmationToken p' = p_ConfirmationToken p /\ d' = d) \/
   (p_Status p' = "completed" /\ evidence_complete d p /\ registered d d' p p' /\
    (In (p_ID p) (map u_id (authentications d)) -> confirmed o d' p'))).

Lemma wp_failRegistration {A} id reason o w (P : A -> World -> Prop) :
  wp (failRegistration id reason) o w (ok_post P).
Proof. unfold failRegistration, cancelAlternatives. wp_go. Qed.

Lemma advance_signUp_ok p c o w a w' :
  advance_signUp e p c o w = (Ok a, w') -> p_Status p = "pending" ->
  signUp_finished o (working w) (committed w') p (at_Authentication a).
Proof.
  intros E Hp. wp_start E. unfold advance_signUp. wp_skip.
  wp_go; try apply wp_failRegistration. wp_enter En. wp_go.
  - apply wp_intro. intros [p1|err] w1 Er; cbv beta iota;
      [|wp_go; try apply wp_failRegistration].
    apply register_ok in Er as (Hr & _ & Hu & Hi & Hpu).
    wp_call complete_status as
      (Hs & Ha & Hi' & Hpu' & _ & token & t & now & Ht & _ & _ & Hw & _ & _ & _ & Hd).
    wp_skip. wp_skip. wp_go. unfold signUp_finished. simpl in *.
    split; [congruence|]. split; [congruence|]. right. split; [done|]. split_and!.
    + apply next_done in En; [|done]. by apply En.
    + unfold registered in *. destruct Hr as (r & pw & x & y & Hr).
      exists r, pw, x, y. rewrite Hw. simpl. rewrite Ha. exact Hr.
    + intros Hin. rewrite Hw, <- Hi'.
      eapply (complete_confirmed o _ (set_p_Steps _ _)); simpl; [done| |by rewrite Ha|done].
      by rewrite Hi', Hu, Hi.
  - wp_skip. wp_go. unfold signUp_finished. simpl. repeat (split; [done|]). by left.
Qed.

(** *** A whole attempt *)
Definition attempt_accepted (o : Oracle) (d : DB) (id challenge : uuid) (proof : Proof) (a : Attempt) (d' : DB)
    : Prop :=
  exists u t p, In u (authentications d) /\ u_id u = id /\ u_status u = "pending" /\
    In t (authentication_steps d) /\ t_id t = challenge /\ t_authentication_id t = id /\
    t_status t = "pending" /\ StepMethod (t_type t) = f_Method proof /\ p_ID p = id /\
    p_Purpose p = u_purpose u /\ p_Status p = "pending" /\
    p_ConfirmationToken p = "" /\
    exists d1, accounts d1 = accounts d /\ outbox d1 = outbox d /\ sessions d1 = sessions d /\
      In id (map u_id (authentications d1)) /\ schema_ok d1 = true /\
      registrations_after (f_Method proof) p proof (registrations d) (registrations d1) /\
      if p_Purpose p == "signUp" then signUp_finished o d1 d' p (at_Authentication a)
      else finished o d1 d' p (at_Authentication a).

Lemma wp_count_failure p id challenge o w (P : Attempt -> World -> Prop) :
  wp (count_failure e p id challenge) o w (ok_post P).
Proof. unfold count_failure. wp_go. Qed.

Lemma AttemptStep_ok id challenge flow who proof o w a w' :
  AttemptStep e id challenge flow who proof o w = (Ok a, w') ->
  attempt_accepted o (committed w) id challenge proof a (committed w').
Proof.
  intros E. wp_start E. unfold AttemptStep. wp_go.
  wp_use load_ok as (u & -> & Hu). wp_go.
  wp_use loadChallenge_ok as (st & Hst & Hid & Hp & ->). wp_go. wp_skip. wp_go.
  apply wp_intro. intros [p1|err] w1 Ev; cbv beta iota; [|wp_go; apply wp_count_failure].
  pose proof (verify_registrations _ _ _ _ _ _ _ Ev) as Hreg.
  apply verify_frame in Ev as ((Hi & Hpu & Hs & _ & Hto) & (_ & Ha & Hse & Ho & _ & Hids & _) & Hc & _).
  wsimpl. unfold cancelAlternatives. destruct Hu as (Hu & Hui & _). simpl in *. bsimp.
  assert (registrations_after (f_Method proof) p1 proof (registrations (committed w))
    (registrations (working w1))) as Hreg1.
  { unfold registrations_after in *. simpl in Hreg. rewrite Hi. by match goal with
      F : StepMethod _ = f_Method proof |- _ => rewrite <- F end. }
  assert (forall d1 d', accounts d1 = accounts (working w1) -> outbox d1 = outbox (working w1) ->
    sessions d1 = sessions (working w1) -> authentications d1 = authentications (working w1) ->
    registrations d1 = registrations (working w1) -> schema_ok d1 = true -> forall at1,
    (if p_Purpose p1 == "signUp" then signUp_finished o d1 d' p1 (at_Authentication at1)
     else finished o d1 d' p1 (at_Authentication at1)) ->
    attempt_accepted o (committed w) (u_id u) (t_id st) proof at1 d') as Hacc.
  { intros d1 d' E1 E2 E3 E4 E5 E6 at1 Hf. exists u, st, p1. repeat (split; [congruence|]).
    exists d1. rewrite E4, E5, Hids. repeat (split; [congruence|]).
    split; [by apply in_map|]. split; [exact E6|]. split; [exact Hreg1|]. exact Hf. }
  wp_go; (apply wp_spec; [done|]); intros at1 w2 Ef; wsimpl.
  - apply advance_signUp_ok in Ef; [|congruence]. by eapply Hacc, Ef.
  - apply advance_ok in Ef; [|congruence]. by eapply Hacc, Ef.
Qed.

(** *** Refused attempts *)

(** The rejected proof is counted on the process and on the step, nothing else. *)
Definition counted (d d' : DB) (id challenge : uuid) : Prop :=
  d' = update_steps (with_step_id challenge) (fail_step (MaxAttempts e))
         (update_authentications (with_id id) (fail_authentication (MaxAttempts e)) d).

(** The pending steps of a process, but one, are over. *)
Definition cancel_steps (process accepted : uuid) : DB -> DB :=
  update_steps (fun t => steps_of process t && (t_id t != accepted) && (t_status t == "pending"))
    (set_t_status "cancelled").
(** The registration of [id] has no password, the others are as they were. *)
Definition password_dropped (id : uuid) (before after : list Registration) : Prop :=
  (forall r, In r after -> r_authentication_id r = id -> r_password_hash r = None) /\
  (forall r, r_authentication_id r <> id -> In r after <-> In r before).

(** A sign-up whose proved email already has an account. Its step is completed, which proves the
    email before the disclosure; then the process has failed, its other steps are cancelled and its
    registration keeps no password. Nothing else has changed. *)
Definition signUp_refused (d d' : DB) (id challenge : uuid) : Prop :=
  has_completed d' id ["emailVerification"] = true /\
  exists now rs, password_dropped id (registrations d) rs /\
    d' = set_registrations rs (cancel_steps id uuid_Nil (cancel_steps id challenge
           (update_steps (with_step_id challenge) (complete_step now)
              (update_authentications (with_id id) (set_u_status "failed") d)))).

(** What [failRegistration] makes of a database. *)
Definition registration_failed (id : uuid) (d : DB) : DB :=
  set_registrations
    (upd (fun r => r_authentication_id r == id) (set_r_password_hash None) (registrations d))
    (cancel_steps id uuid_Nil (update_authentications (with_id id) (set_u_status "failed") d)).

Lemma password_dropped_upd method p f before after :
  registrations_after method p f before after ->
  password_dropped (p_ID p) before
    (upd (fun r => r_authentication_id r == p_ID p) (set_r_password_hash None) after).
Proof.
  intros Ha. split.
  - intros r. rewrite in_upd. intros (x & _ & ->). destruct (r_authentication_id x == p_ID p) eqn:E;
      [done|]. bsimp. done.
  - intros r Hr. assert (In r after <-> In r before) as <-.
    { unfold registrations_after in Ha. destruct (method == "registration"); [|destruct (method == "passwordSetup")].
      - rewrite Ha, in_ins. naive_solver.
      - destruct Ha as (salt & hash & _ & ->). by apply in_upd_other; [apply beq_false|].
      - by rewrite Ha. }
    by apply in_upd_other; [apply beq_false|].
Qed.

Lemma completed_after d st now kinds :
  In st (authentication_steps d) -> one_of kinds (t_type st) = true ->
  has_completed (update_steps (with_step_id (t_id st)) (complete_step now) d)
    (t_authentication_id st) kinds = true.
Proof.
  intros Hst Hk. unfold has_completed. rewrite any_true. exists (complete_step now st). split.
  - simpl. rewrite in_upd. exists st. split; [done|]. unfold with_step_id. by rewrite beq_refl.
  - unfold completed_step, steps_of. simpl. by rewrite beq_refl, Hk.
Qed.

Lemma completed_cancel d (p : Step -> bool) id kinds :
  has_completed (update_steps (fun t => p t && (t_status t == "pending")) (set_t_status "cancelled") d)
    id kinds = has_completed d id kinds.
Proof.
  apply any_upd_ext. intros t _ Ht. unfold completed_step, steps_of. simpl.
  apply andb_true_iff in Ht as [_ Ht]. rewrite beq_true in Ht. rewrite Ht.
  by rewrite !andb_false_r.
Qed.

Lemma wp_failRegistration_post {A} id o w (Q : result A -> World -> Prop) :
  (forall d w', committed w' = committed w -> Q (Err (ErrDB d)) w') ->
  (forall w', committed w' = registration_failed id (working w) -> Q (Err ErrAccountExists) w') ->
  wp (failRegistration id ErrAccountExists) o w Q.
Proof.
  intros Hd Hq. unfold failRegistration, cancelAlternatives. wp_go; try by apply Hd.
  by apply Hq.
Qed.
Lemma completed_failed id d kinds :
  has_completed (registration_failed id d) id kinds = has_completed d id kinds.
Proof. exact (completed_cancel d (fun t => steps_of id t && (t_id t != uuid_Nil)) id kinds). Qed.

(** Errors of a registration attempt. *)
Definition not_counted (err : error) : Prop :=
  match err with ErrCredentials | ErrAttempts => False | _ => True end.

Lemma register_refused p o w err w' :
  register p o w = (Err err, w') ->
  not_counted err /\ (err = ErrAccountExists -> working w' = working w) /\ committed w' = committed w.
Proof.
  intros E. refine (wp_run o (register p) w (Err err) w' (fun r w' => match r with Err err =>
    not_counted err /\ (err = ErrAccountExists -> working w' = working w) /\
    committed w' = committed w | Ok _ => True end) E _).
  unfold register, outbox_insert. wp_go; try exact I; try by repeat split.
  all: destruct (sql_state_is _ _); by repeat split.
Qed.

(** The failure of a pending process was counted, and [err] tells whether it was the last. *)
Definition failure_counted (d d' : DB) (id challenge : uuid) (err : error) : Prop :=
  counted d d' id challenge /\ exists u, In u (authentications d) /\ u_id u = id /\
    u_status u = "pending" /\
    err = if MaxAttempts e <=? u_failed_attempts u + 1 then ErrAttempts else ErrCredentials.

(** What an attempt that reports an error has committed. *)
Definition attempt_refused (d : DB) (id challenge : uuid) (err : error) (d' : DB) : Prop :=
  match err with
  | ErrCredentials | ErrAttempts => failure_counted d d' id challenge err
  | ErrAccountExists => signUp_refused d d' id challenge
  | _ => d' = d
  end.

Lemma unremarkable_refused d id challenge err d' :
  unremarkable err -> d' = d -> attempt_refused d id challenge err d'.
Proof. intros He ->. by destruct err. Qed.

#[export] Instance err_advance p c : Errors unremarkable (advance e p c).
Proof. unfold advance. solve_errors. Qed.
#[export] Instance atomic_advance p c : Atomic (advance e p c).
Proof. unfold advance. solve_effect. Qed.

Lemma advance_refused p c o w err w' :
  advance e p c o w = (Err err, w') -> unremarkable err /\ committed w' = committed w.
Proof.
  intros E. split; [by eapply err_advance|by eapply atomic_advance].
Qed.

(** The rest of a body that can only fail quietly and commits at its end. *)
Lemma wp_tail {A} (m : M A) o w (Q : result A -> World -> Prop) :
  Errors unremarkable m -> Atomic m -> (forall a w', Q (Ok a) w') ->
  (forall err w', unremarkable err -> committed w' = committed w -> Q (Err err) w') -> wp m o w Q.
Proof.
  intros He Ha Hok Herr. apply wp_intro. intros [a|err] w' E; [done|].
  apply Herr; [by eapply He|by eapply Ha].
Qed.

Definition signUp_outcome (c d : DB) (id : uuid) {A} (r : result A) (w' : World) : Prop :=
  match r with
  | Ok _ => True
  | Err ErrAccountExists =>
      has_completed d id ["emailVerification"] = true /\ committed w' = registration_failed id d
  | Err err => unremarkable err /\ committed w' = c
  end.

Lemma signUp_plain c d id {A} err w' :
  unremarkable err -> committed w' = c -> @signUp_outcome c d id A (Err err) w'.
Proof. by destruct err. Qed.

Lemma wp_refuse_signUp {A} c d id o w :
  committed w = c -> working w = d -> has_completed d id ["emailVerification"] = true ->
  wp (@failRegistration A id ErrAccountExists) o w (signUp_outcome c d id).
Proof.
  intros <- <- Hc. apply wp_failRegistration_post.
  - intros x w' E. by apply signUp_plain.
  - done.
Qed.

Lemma advance_signUp_refused p c o w r w' :
  advance_signUp e p c o w = (r, w') -> p_Status p = "pending" -> p_Purpose p = "signUp" ->
  (c_Method c = "email" -> has_completed (working w) (p_ID p) ["emailVerification"] = true) ->
  signUp_outcome (committed w) (working w) (p_ID p) r w'.
Proof.
  intros E Hs Hp Hm. eapply wp_run; [exact E|]. clear E r w'. unfold advance_signUp.
  apply wp_bind. apply wp_intro. intros [av|err] w1 E1; cbv beta iota.
  2: { exfalso. revert E1. destruct (c_Method c == "email"); [|done].
       unfold try. by destruct (registrationAvailable _ _ _). }
  assert (working w1 = working w /\ committed w1 = committed w /\ tx_now w1 = tx_now w)
    as (Hw1 & Hc1 & _) by (eapply ro_run; [|exact E1]; apply _).
  destruct av as [[]|err].
  - clear E1. rewrite <- Hw1, <- Hc1 in *. wp_any En;
      [|by apply signUp_plain; [eapply err_next|]].
    wp_go.
    + apply wp_intro. intros [p1|err] w2 Er; cbv beta iota.
      * apply register_ok in Er as (_ & Hc & _).
        apply wp_tail; [solve_errors|solve_effect|done|].
        intros err w3 He Hc3. simpl in Hc, Hc3. apply signUp_plain; [done|congruence].
      * apply register_refused in Er as (Hn & Hw & Hc). simpl in Hw, Hc.
        destruct err; try done; try (apply wp_fail; by apply signUp_plain).
        apply wp_refuse_signUp; [done|by apply Hw|].
        apply next_done in En; [|done]. apply En in Heql. unfold evidence_complete in Heql.
        rewrite Hp in Heql. apply Heql.
    + wp_any Es; [|by apply signUp_plain; [eapply err_steps|]].
      apply wp_commit_with; [intros; by apply signUp_plain|done].
  - destruct (c_Method c == "email") eqn:Em; [|done]. bsimp.
    assert (err = ErrAccountExists \/ unremarkable err) as He.
    { revert E1. unfold try, registrationAvailable, bind, query, statement.
      destruct (o_fault o (tick w)); simpl; [intros [= <- _]; by right|].
      destruct (registration_taken _ _); simpl; intros [= <- _]. by left. }
    destruct He as [->|He].
    + apply wp_refuse_signUp; [done..|]. by apply Hm.
    + destruct err; try done; apply wp_fail; by apply signUp_plain.
Qed.

Definition refused_post (d : DB) (id challenge : uuid) {A} (r : result A) (w' : World) : Prop :=
  match r with Ok _ => True | Err err => attempt_refused d id challenge err (committed w') end.

Lemma refused_plain d id challenge {A} err w' :
  unremarkable err -> committed w' = d -> @refused_post d id challenge A (Err err) w'.
Proof. intros He Hd. by apply unremarkable_refused. Qed.

Lemma count_failure_refused d p u id challenge o w :
  working w = d -> committed w = d -> p_failures p = u_failed_attempts u ->
  In u (authentications d) -> u_id u = id -> u_status u = "pending" ->
  wp (count_failure e p id challenge) o w (refused_post d id challenge).
Proof.
  intros <- Hc Hf Hu Hi Hs. unfold count_failure. wp_go; try (by apply refused_plain); simpl.
  - split; [done|]. exists u. rewrite <- Hf, Heqb. done.
  - split; [done|]. exists u. rewrite <- Hf, Heqb. done.
Qed.

(** The proofs of a sign-up touch nothing but its registration. *)
Definition signUp_methods : list string := ["registration"; "email"; "passwordSetup"].
Lemma next_signUp p o w ms w' m :
  next e p o w = (Ok ms, w') -> p_Purpose p = "signUp" -> contains ms m = true ->
  one_of signUp_methods m = true.
Proof.
  intros E Hp Hm%contains_spec. apply one_of_spec. revert Hm. wp_start E. unfold next. rewrite Hp.
  simpl. wp_go; simpl; tauto.
Qed.
Lemma verify_signUp p c f o w p' w' :
  verify e p c f o w = (Ok p', w') -> one_of signUp_methods (c_Method c) = true ->
  working w' = set_registrations (registrations (working w')) (working w).
Proof.
  unfold verify. intros E Hm.
  destruct (c_Method c == "registration").
  { by apply verify_registration_ok in E as (_ & _ & _ & ->). }
  destruct (c_Method c == "passwordSetup").
  { by apply verify_passwordSetup_ok in E as (_ & _ & _ & ? & ? & _ & ->). }
  apply one_of_spec in Hm. simpl in Hm. destruct Hm as [F|[F|[F|[]]]]; rewrite <- F in *; try done.
  simpl in E. apply verify_email_ok in E as (_ & _ & _ & -> & _). by destruct (working w).
Qed.
Lemma signUp_refused_intro d d1 id challenge method p f now :
  p_ID p = id -> registrations_after method p f (registrations d) (registrations d1) ->
  d1 = set_registrations (registrations d1) d ->
  let d2 := cancel_steps id challenge (update_steps (with_step_id challenge) (complete_step now) d1) in
  has_completed d2 id ["emailVerification"] = true ->
  signUp_refused d (registration_failed id d2) id challenge.
Proof.
  intros <- Hr Hd d2 Hc. split; [by rewrite completed_failed|]. exists now. eexists.
  split; [eapply password_dropped_upd; exact Hr|]. unfold d2. rewrite Hd. reflexivity.
Qed.

Lemma email_step_type d t :
  schema_ok d = true -> In t (authentication_steps d) -> StepMethod (t_type t) = "email" ->
  t_type t = "emailVerification".
Proof.
  intros Hd Ht Hm. apply schema_step_type in Ht; [|done].
  revert Ht Hm. generalize (t_type t). intros k Hk Hm. simpl in Hk.
  repeat (destruct Hk as [<-|Hk]; [done|]). done.
Qed.

Lemma AttemptStep_refused id challenge flow who proof o w err w' :
  AttemptStep e id challenge flow who proof o w = (Err err, w') ->
  attempt_refused (committed w) id challenge err (committed w').
Proof.
  intros E. refine (wp_run o _ w (Err err) w' (refused_post (committed w) id challenge) E _).
  clear E err w'. unfold AttemptStep. wp_rule.
  { apply refused_plain; [|done]. by destruct_or?; naive_solver. }
  wp_any E1; [|by apply refused_plain; [eapply err_load|]].
  apply load_ok in E1 as (u & -> & (Hu & Hui & _)).
  wp_go; try by apply refused_plain.
  wp_any E1; [|by apply refused_plain; [eapply err_loadChallenge|]].
  apply loadChallenge_ok in E1 as (st & Hst & Hid & Hpr & ->). wsimpl.
  wp_go; try by apply refused_plain.
  wp_any En; [|by apply refused_plain; [eapply err_next|]].
  wp_go; try by apply refused_plain.
  match goal with F : negb (contains _ ?m) = false |- _ => apply negb_false_iff in F;
    assert (u_purpose u = "signUp" -> one_of signUp_methods m = true) as Hsm
      by (intros Hp; exact (next_signUp _ _ _ _ _ m En Hp F)) end.
  clear En. apply wp_intro. intros [p1|err] w1 Ev; cbv beta iota.
  - pose proof (verify_registrations _ _ _ _ _ _ _ Ev) as Hreg.
    pose proof (verify_signUp _ _ _ _ _ _ _ Ev) as Hsu.
    apply verify_frame in Ev as ((Hi & Hpu & Hs & _) & Hfr & Hc & _).
    destruct Hfr as (Hst' & _). wsimpl. simpl in *.
    unfold cancelAlternatives. bsimp.
    wp_go; try by apply refused_plain.
    + apply wp_intro. intros r w2 Ea. apply advance_signUp_refused in Ea; [|congruence|by bsimp|].
      * destruct r as [|err]; [done|]. wsimpl. unfold signUp_outcome, refused_post in *. simpl in *.
        destruct err; simpl; try (by destruct Ea as [[] _]); try (by destruct Ea; congruence).
        destruct Ea as [Ea ->]. rewrite Hi in *. rewrite Hpu in *. bsimp.
        eapply (signUp_refused_intro _ (working w1)); [|exact Hreg|by apply Hsu, Hsm|exact Ea]. done.
      * simpl. intros Hm. rewrite Hi, <- Hpr. wsimpl.
        rewrite (completed_cancel _ (fun t => steps_of _ t && (t_id t != t_id st))).
        rewrite <- Hst' in Hst. apply completed_after; [done|].
        match goal with F : schema_ok (update_steps (with_step_id _) (complete_step ?now) _) = true |- _ =>
          pose proof (email_step_type _ (complete_step now st) F) as Ht end.
        simpl in Ht. rewrite Ht; [done| |done]. rewrite in_upd. exists st.
        unfold with_step_id. by rewrite beq_refl.
    + apply wp_intro. intros r w2 Ea. destruct r as [|err]; [done|].
      apply advance_refused in Ea as [He Hc2]. wsimpl. apply refused_plain; [done|].
      simpl. congruence.
  - pose proof (nc_verify e (process_of u) (challenge_of st) proof o
      (mkWorld (committed w) (committed w) t q1 m1 k1)) as Hc.
    rewrite Ev in Hc. simpl in Hc. apply verify_rejected in Ev. simpl in Ev.
    destruct err; try done; try (apply wp_fail; by apply refused_plain).
    eapply wp_mono; [eapply (count_failure_refused (committed w)); try done; by bsimp|].
    intros [|err] w2 Hr; [done|]. exact Hr.
Qed.
End Frame.

(** ** Properties *)
Section Properties.
Context `{Platform} `{WebAuthn} (e : Engine).

Lemma evidence_complete_ext d d' p p' :
  authentication_steps d' = authentication_steps d -> registrations d' = registrations d ->
  totp d' = totp d -> p_ID p' = p_ID p -> p_Purpose p' = p_Purpose p ->
  p_accountID p' = p_accountID p -> evidence_complete d p -> evidence_complete d' p'.
Proof.
  unfold evidence_complete, has_completed, has_registration, has_totp.
  by intros -> -> -> -> -> ->.
Qed.

(** The evidence behind a completed process, in the databases before and after its last attempt.
    A sign-up needs its registration, which is gone once the account exists. *)
Definition evidence_shown (d d' : DB) (p : Process) : Prop :=
  if p_Purpose p == "signUp" then
    has_registration d (p_ID p) = true /\
    has_completed d' (p_ID p) ["emailVerification"] = true /\
    has_completed d' (p_ID p) ["passwordSetup"] = true
  else evidence_complete d' p.

(** C4: an attempt answers with a completed process, or with a confirmation token, only when both
    hold and the evidence is complete: for a sign-up, a staged registration, a proved address and a
    password; for any other process, in the committed database, a first factor and, where the
    account uses TOTP, a second one. The token was drawn in this run and its hash is the
    confirmation that the process's row, completed, carries in the committed database. *)
Theorem Attempt_completed_needs_evidence id challenge flow who proof o w a w' :
  AttemptStep e id challenge flow who proof o w = (Ok a, w') ->
  p_Status (at_Authentication a) = "completed" \/
    p_ConfirmationToken (at_Authentication a) <> "" ->
  p_ID (at_Authentication a) = id /\ p_Status (at_Authentication a) = "completed" /\
  evidence_shown (committed w) (committed w') (at_Authentication a) /\
  confirmed e o (committed w') (at_Authentication a).
Proof.
  intros E Hc. apply AttemptStep_ok in E as (u & t & p & _ & _ & _ & _ & _ & _ & _ & _ & Hid & _ &
    Hp & Hto & d1 & _ & _ & _ & Hin & Hd & Hreg & Hf). unfold evidence_shown.
  rewrite <- Hid in Hin. destruct (p_Purpose p == "signUp") eqn:Es.
  - destruct Hf as (Hi & Hpu & [(Hs & Ht & _)|(Hs & He & Hr & Hcf)]).
    { exfalso. rewrite Hs, Ht, Hp, Hto in Hc. by destruct Hc. }
    split; [congruence|]. split; [done|]. split; [|by apply Hcf]. rewrite Hpu, Es, Hi.
    destruct Hr as (r & pw & acc & x & Hr & Hri & Hpw & _ & _ & _ & _ & _ & _ & _ & _ & _ & _ & _ & _ &
      Hst & _).
    unfold evidence_complete in He. rewrite Es in He. destruct He as (_ & He1 & He2).
    unfold has_completed in *. rewrite Hst. split; [|done].
    destruct (registration_found e _ p proof (committed w) d1 r pw Hd Hreg Hr Hri Hpw)
      as (r0 & Hr0 & Hi0 & _).
    unfold has_registration. rewrite any_true. exists r0. by rewrite Hi0, beq_refl.
  - pose proof Hf as (Hi & Hpu & Ha & [(Hs & Ht & _)|(Hs & He & token & x & now & _ & _ & Hd')]).
    { exfalso. rewrite Hs, Ht, Hp, Hto in Hc. by destruct Hc. }
    split; [congruence|]. split; [done|]. rewrite Hpu, Es. split.
    + rewrite Hd'. by eapply evidence_complete_ext, He.
    + by eapply finished_confirmed.
Qed.

(** C28: a completed sign-up has created exactly one account, from the registration the process had
    staged: for the registration's address, which no account had and whose ownership was proved in
    a completed email step, and with the password that was set up, by this attempt or before it.
    The account is unblocked, the event that announces it is queued in the same commit, and the
    registration is removed, and no other. *)
Theorem Attempt_signUp_registers id challenge flow who proof o w a w' :
  AttemptStep e id challenge flow who proof o w = (Ok a, w') ->
  p_Status (at_Authentication a) = "completed" -> p_Purpose (at_Authentication a) = "signUp" ->
  exists r password acc x,
    In r (registrations (committed w)) /\ r_authentication_id r = id /\
    (if f_Method proof == "passwordSetup"
     then exists salt, bcrypt_Generate salt (f_Password proof) (BcryptCost e) = Some password
     else r_password_hash r = Some password) /\
    accounts (committed w') = accounts (committed w) ++ [acc] /\
    a_email acc = r_email r /\ a_password_hash acc = Some password /\
    (forall b, In b (accounts (committed w)) -> a_email b <> r_email r) /\
    isSome (a_email_verification_timestamp acc) = true /\ a_blocking_timestamp acc = None /\
    has_completed (committed w') id ["emailVerification"] = true /\
    has_completed (committed w') id ["passwordSetup"] = true /\
    p_accountID (at_Authentication a) = Some (a_id acc) /\
    outbox (committed w') = outbox (committed w) ++ [x] /\ x_exchange x = "auth.profiles" /\
    x_type x = "profile.created" /\ x_body x = ProfileCreated (a_id acc) /\
    map r_authentication_id (registrations (committed w')) =
      List.filter (fun i => negb (i == id)) (map r_authentication_id (registrations (committed w))).
Proof.
  intros E Hc Hn. apply AttemptStep_ok in E as (u & t & p & _ & _ & _ & _ & _ & _ & _ & _ & Hid & _ &
    Hp & _ & d1 & Ea & Eo & _ & _ & Hd & Hreg & Hf).
  destruct (p_Purpose p == "signUp") eqn:Es; [|destruct Hf as (_ & ? & _); bsimp; congruence].
  destruct Hf as (_ & _ & [(? & _)|(_ & He & Hr & _)]); [congruence|].
  destruct Hr as (r & pw & acc & x & Hr & Hri & Hpw & Hfr & Hem & Hap & Hv & Hb & -> & Hacc & -> &
    Hx1 & Hx2 & Hx & _ & Hst & Hrs).
  destruct (registration_found e _ p proof (committed w) d1 r pw Hd Hreg Hr Hri Hpw)
    as (r0 & Hr0 & Hi0 & Hem0 & Hpw0).
  unfold evidence_complete in He. rewrite Es in He. destruct He as (_ & He1 & He2).
  exists r0, pw, acc, x. unfold has_completed in *. rewrite Hst, Hem0, Ea, Eo, Hrs, <- Hid in *.
  repeat (split; [done|]). by eapply registrations_left.
Qed.

(** C11: a rejected proof commits exactly one count on the process and one on the step, each of
    which fails when it reaches the budget; the caller is told "too many attempts" exactly when
    the process has failed, "invalid credentials" otherwise. *)
Theorem Attempt_rejection_is_counted id challenge flow who proof o w err w' :
  AttemptStep e id challenge flow who proof o w = (Err err, w') ->
  err = ErrCredentials \/ err = ErrAttempts ->
  committed w' = update_steps (with_step_id challenge) (fail_step (MaxAttempts e))
    (update_authentications (with_id id) (fail_authentication (MaxAttempts e)) (committed w)) /\
  exists u, In u (authentications (committed w)) /\ u_id u = id /\
    (err = ErrAttempts <-> u_status (fail_authentication (MaxAttempts e) u) = "failed").
Proof.
  intros E%AttemptStep_refused He.
  assert (counted e (committed w) (committed w') id challenge /\
    exists u, In u (authentications (committed w)) /\ u_id u = id /\ u_status u = "pending" /\
      err = if MaxAttempts e <=? u_failed_attempts u + 1 then ErrAttempts else ErrCredentials)
    as [Hcd (u & Hu & Hi & Hs & ->)] by (destruct He as [-> | ->]; exact E).
  split; [exact Hcd|]. exists u. repeat (split; [done|]). simpl.
  destruct (MaxAttempts e <=? u_failed_attempts u + 1); [done|]. by rewrite Hs.
Qed.







(** The password proof binds the process to an unblocked account whose stored hash matches
    the password: the process's own account for a sensitive purpose, otherwise the one whose
    email or username is the normalised login. *)
Theorem verify_password_binds p f o w p' w' :
  verify_password e p f o w = (Ok p', w') ->
  exists a h, In a (accounts (working w)) /\ a_password_hash a = Some h /\
    bcrypt_Compare h (f_Password f) = true /\ a_blocking_timestamp a = None /\
    p_accountID p' = Some (a_id a) /\
    (sensitive (p_Purpose p) = true -> a_id a = uuid_of (p_accountID p)) /\
    (sensitive (p_Purpose p) = false ->
       a_email a = ToLower (TrimSpace (f_Login f)) \/
       a_username a = Some (ToLower (TrimSpace (f_Login f)))).
Proof.
  intros (a & h & Ha & Hh & Hc & Hb & Hs & -> & _)%verify_password_ok.
  exists a, h. repeat (split; [done|]). unfold login_row in Hs.
  destruct (sensitive (p_Purpose p)); split; try done; intros _. by bsimp.
Qed.

(** C26: an accepted TOTP code is the code of one step of the window around the clock, later
    than every step used before, and that step is recorded: the code cannot be replayed. *)
Theorem verify_totp_no_replay p f o w p' w' :
  schema_ok (working w) = true -> verify_totp e p f o w = (Ok p', w') ->
  exists account secret step now, p_accountID p = Some account /\ reads_clock o now /\
    In step (totp_window now) /\ f_Code f = totp_code secret step /\
    (forall t, In t (totp (working w)) -> tp_account_id t = account -> tp_last_used_step t < step) /\
    (forall t, In t (totp (working w')) -> tp_account_id t = account -> tp_last_used_step t = step).
Proof.
  intros Hd (_ & _ & _ & account & row & secret & step & now & Ha & Hr & Hra & Hn & _ & Ht & ->)%
    verify_totp_ok.
  apply totpStep_some in Ht as (Hin & Hlast & _ & Hcode).
  exists account, secret, step, now. repeat (split; [done|]). split.
  - intros t Hin' Hta. assert (t = row) as -> by (eapply totp_key; [exact Hd|done|done|congruence]).
    done.
  - simpl. intros t. rewrite in_upd. intros (x & _ & ->) E.
    destruct (tp_account_id x == account) eqn:Ex; [done|]. by bsimp.
Qed.

(** C27: a backup code is spent by its use: once accepted it is accepted no more for that
    account, and the account's other codes stay. *)
Theorem verify_backupCode_single_use p f o w p' w' :
  verify_backupCode e p f o w = (Ok p', w') ->
  (forall p2 f2 o2 w2 p3 w3, working w2 = working w' -> p_accountID p2 = p_accountID p ->
     f_Code f2 = f_Code f -> verify_backupCode e p2 f2 o2 w2 <> (Ok p3, w3)) /\
  (forall b account, p_accountID p = Some account -> In b (backup_codes (working w)) ->
     b_code_hash b <> Hash (e_Secrets e) "backup" (uuid_String account) (f_Code f) ->
     In b (backup_codes (working w'))).
Proof.
  intros (_ & _ & _ & account & b & Ha & Hb & Hs & Hw)%verify_backupCode_ok. split.
  - intros p2 f2 o2 w2 p3 w3 Hw2 Hp Hf
      (_ & _ & _ & account2 & b2 & Ha2 & Hb2 & Hs2 & _)%verify_backupCode_ok.
    assert (account2 = account) as -> by congruence. rewrite Hf in Hs2.
    rewrite Hw2, Hw in Hb2. simpl in Hb2. apply in_del in Hb2 as [_ Hb2]. congruence.
  - intros x account' Ha' Hx Hne. simplify_eq. rewrite Hw. simpl. apply in_del. split; [done|].
    unfold backup_row. bsimp. by right.
Qed.
End Properties.

(** ** Witnesses *)
Definition password_proof (password : string) : Proof :=
  {| f_Email := ""; f_Name := ""; f_IDToken := ""; f_State := ""; f_Method := "password";
     f_Login := ""; f_Password := password; f_Code := ""; f_Credential := "" |}.
Definition code_proof (method code : string) : Proof :=
  {| f_Email := ""; f_Name := ""; f_IDToken := ""; f_State := ""; f_Method := method;
     f_Login := ""; f_Password := ""; f_Code := code; f_Credential := "" |}.

Definition password_db : DB := pending_db "emailChange" "passwordVerification".
(** An engine that allows a single attempt. *)
Definition strict_engine : Engine :=
  {| Providers := fun _ => None; OAuthRedirects := []; Passkeys := None; e_Secrets := toy_secrets;
     Mail := Some OutboxMail; BcryptCost := 12; FlowTTL := 15 * Minute; ChallengeTTL := 5 * Minute;
     GrantTTL := 2 * Minute; ReuseTTL := 5 * Minute; MaxAttempts := 1 |}.

(** A sign-up for [email] whose step [30] of type [kind] is pending, after the steps [done]. *)
Definition signUp_db (email kind : string) (hash : option string) (done : list Step) : DB :=
  set_registrations [{| r_authentication_id := 9%N; r_email := email; r_password_hash := hash |}]
    (set_email_authentication_steps
       [{| et_step_id := 30%N; et_email := email; et_code_hash := hash_input "email" "30" "123456" |}]
       (set_authentication_steps (toy_step 30 9 kind "pending" :: done)
          (set_authentications
             [{| u_id := 9%N; u_purpose := "signUp"; u_status := "pending"; u_account_id := None;
                 u_session_id := None; u_flow_token_hash := hash_input "flow" "" "F";
                 u_failed_attempts := 0; u_expiration_timestamp := toy_now + Hour;
                 u_completion_timestamp := None; u_invalidation_timestamp := None;
                 u_confirmation_token_hash := None; u_confirmation_expiration_timestamp := None |}]
             alice_db))).
Definition setup_proof : Proof :=
  {| f_Email := ""; f_Name := ""; f_IDToken := ""; f_State := ""; f_Method := "passwordSetup";
     f_Login := ""; f_Password := "new-password"; f_Code := ""; f_Credential := "" |}.
Definition setup_db : DB :=
  signUp_db "new@b" "passwordSetup" None [toy_step 31 9 "emailVerification" "completed"].

Lemma Attempt_completed_needs_evidence_witness :
  exists a, evidence_shown password_db (committed (AttemptStep toy_engine 9 30 "F" who_alice
      (password_proof "secret-1") quiet (at_rest password_db)).2) (at_Authentication a) /\
    confirmed toy_engine quiet (committed (AttemptStep toy_engine 9 30 "F" who_alice
      (password_proof "secret-1") quiet (at_rest password_db)).2) (at_Authentication a).
Proof.
  destruct (run_ex (AttemptStep toy_engine 9 30 "F" who_alice (password_proof "secret-1")) quiet
    (at_rest password_db) (fun a => p_Status (at_Authentication a) == "completed"))
    as (a & E & Hs); [reflexivity|]. exists a.
  destruct (Attempt_completed_needs_evidence toy_engine 9 30 "F" who_alice
    (password_proof "secret-1") quiet (at_rest password_db) a _ E) as (_ & _ & He & Hc).
  - left. exact (proj1 (beq_true _ _) Hs).
  - split; [exact He|exact Hc].
Defined.

Lemma Attempt_signUp_registers_witness :
  exists acc x, accounts (committed (AttemptStep toy_engine 9 30 "F" no_principal setup_proof quiet
      (at_rest setup_db)).2) = [alice; acc] /\ a_email acc = "new@b" /\
    x_body x = ProfileCreated (a_id acc).
Proof.
  destruct (run_ex (AttemptStep toy_engine 9 30 "F" no_principal setup_proof) quiet
    (at_rest setup_db) (fun a => (p_Status (at_Authentication a) == "completed") &&
                                 (p_Purpose (at_Authentication a) == "signUp")))
    as (a & E & Hp); [reflexivity|].
  apply andb_true_iff in Hp as [Hs Hp].
  destruct (Attempt_signUp_registers toy_engine 9 30 "F" no_principal setup_proof quiet
    (at_rest setup_db) a _ E (proj1 (beq_true _ _) Hs) (proj1 (beq_true _ _) Hp))
    as (r & pw & acc & x & Hr & _ & _ & Ha & Hem & _ & _ & _ & _ & _ & _ & _ & _ & _ & _ & Hx & _).
  exists acc, x. split; [exact Ha|split; [|exact Hx]]. destruct Hr as [<-|[]]. exact Hem.
Defined.

Definition toy_rejected (e : Engine) : result Attempt * World :=
  AttemptStep e 9 30 "F" who_alice (password_proof "wrong") quiet (at_rest password_db).
Lemma run_err {A} (m : M A) o w err : (m o w).1 = Err err -> m o w = (Err err, (m o w).2).
Proof. destruct (m o w). simpl. by intros ->. Defined.

Lemma Attempt_rejection_is_counted_witness :
  committed (toy_rejected toy_engine).2 =
    update_steps (with_step_id 30) (fail_step 10)
      (update_authentications (with_id 9) (fail_authentication 10) password_db).
Proof.
  destruct (Attempt_rejection_is_counted toy_engine 9 30 "F" who_alice (password_proof "wrong")
    quiet (at_rest password_db) ErrCredentials (toy_rejected toy_engine).2) as [Hc _];
    [apply run_err; reflexivity|by left|exact Hc].
Defined.


Definition alice_pending : Process :=
  process_of (alice_process 9 "emailChange" "pending" "F").

Lemma verify_password_binds_witness :
  exists p' a, p_accountID p' = Some (a_id a) /\ a_id a = alice_id.
Proof.
  destruct (run_ex (verify_password toy_engine alice_pending (password_proof "secret-1")) quiet
    (at_rest password_db) (fun _ => true)) as (p' & E & _); [reflexivity|].
  destruct (verify_password_binds toy_engine alice_pending (password_proof "secret-1") quiet
    (at_rest password_db) p' _ E) as (a & h & _ & _ & _ & _ & Ha & Hs & _).
  exists p', a. split; [exact Ha|]. exact (Hs eq_refl).
Defined.

(** Alice uses TOTP; the toy digest makes every step's code the same six digits. *)
Definition toy_code : string := totp_code "s" 0.
Definition totp_db : DB :=
  set_totp [{| tp_account_id := alice_id; tp_encrypted_secret := "nnnnnnnnnnnnsecret";
               tp_last_used_step := 3; tp_activation_timestamp := 1 |}] alice_db.
Definition backup_db : DB :=
  set_backup_codes [{| b_account_id := alice_id; b_code_hash := hash_input "backup" "1" "B";
                       b_generation_timestamp := 1 |}] alice_db.

Lemma verify_totp_no_replay_witness :
  exists step now, In step (totp_window now) /\ 3 < step.
Proof.
  destruct (run_ex (verify_totp toy_engine alice_pending (code_proof "totp" toy_code)) quiet
    (at_rest totp_db) (fun _ => true)) as (p' & E & _); [reflexivity|].
  destruct (verify_totp_no_replay toy_engine alice_pending (code_proof "totp" toy_code) quiet
    (at_rest totp_db) p' _ eq_refl E) as (account & secret & step & now & Ha & _ & Hs & _ & Hl & _).
  exists step, now. split; [exact Hs|]. apply (Hl _ (or_introl eq_refl)). by injection Ha as <-.
Defined.

Lemma verify_backupCode_single_use_witness :
  succeeds (fun _ => true) (verify_backupCode toy_engine alice_pending
    (code_proof "backupCode" "B") quiet
    (at_rest (working (verify_backupCode toy_engine alice_pending (code_proof "backupCode" "B")
       quiet (at_rest backup_db)).2))).1 = false.
Proof.
  destruct (run_ex (verify_backupCode toy_engine alice_pending (code_proof "backupCode" "B")) quiet
    (at_rest backup_db) (fun _ => true)) as (p' & E & _); [reflexivity|].
  destruct (verify_backupCode_single_use toy_engine alice_pending (code_proof "backupCode" "B")
    quiet (at_rest backup_db) p' _ E) as [Hs _].
  apply run_never. intros p3 w3. apply Hs; [apply working_at_rest|reflexivity|reflexivity].
Defined.
