(* ===== verification/Cleanup.v ===== *)
(** internal/authentication/cleanup.go: expired temporary state is deleted. *)
From S2P Require Import Prelude GoLib Schema Limiter TxMonad Secrets PasskeyVerifier Engine Process.
#[local] Open Scope string_scope.
#[local] Open Scope Z_scope.
#[local] Open Scope list_scope.

(** [column < $n]: false for NULL. *)
Definition earlier_than (o : option time) (t : time) : bool :=
  match o with Some x => x <? t | None => false end.

(** The WHERE clause of the process query: [now] is $1, [cut] is $2 (now - ReuseTTL). *)
Definition spent_process (now cut : time) (u : Authentication) : bool :=
  (u_expiration_timestamp u <? now) &&
  (negb (isSome (u_completion_timestamp u)) || earlier_than (u_completion_timestamp u) cut) &&
  (negb (isSome (u_confirmation_expiration_timestamp u)) ||
   earlier_than (u_confirmation_expiration_timestamp u) now).

(** The seven statements, in order. *)
Definition cleanup_statements : list (time -> time -> DB -> DB) :=
  [ (fun now _ d => set_oauth_requests
       (del (fun o => o_expiration_timestamp o <? now) (oauth_requests d)) d);
    (fun now _ d => set_email_change_requests
       (del (fun c => ec_expiration_timestamp c <? now) (email_change_requests d)) d);
    (fun now _ d => set_password_reset_requests
       (del (fun r => pr_expiration_timestamp r <? now) (password_reset_requests d)) d);
    (fun now _ d => set_totp_activation_requests
       (del (fun r => ta_expiration_timestamp r <? now) (totp_activation_requests d)) d);
    (fun now _ d => set_passkey_registration_requests
       (del (fun r => kr_expiration_timestamp r <? now) (passkey_registration_requests d)) d);
    (fun now cut d => cascade (set_authentications
       (del (spent_process now cut) (authentications d)) d));
    (fun now _ d => delete_sessions (fun s => s_expiration_timestamp s <? now) d) ].

Section Cleanup.
Context `{Platform} `{WebAuthn} (e : Engine).

Fixpoint run_statements (qs : list (time -> time -> DB -> DB)) : M unit :=
  match qs with
  | [] => ret tt
  | q :: qs =>
      now <- Now;;
      now' <- Now;;
      exec (q now (now' - ReuseTTL e));;;
      run_statements qs
  end.

Definition Cleanup : M unit :=
  transaction (
    run_statements cleanup_statements;;;
    commit).

#[export] Instance nc_run_statements qs : NoCommit (run_statements qs).
Proof. induction qs; simpl; solve_effect. Qed.
#[export] Instance atomic_Cleanup : Atomic Cleanup.
Proof. unfold Cleanup. solve_effect. Qed.
End Cleanup.
