(* ===== verification/FlowFacts.v ===== *)
(** What the operations shared by sessions, account settings, mail and factors do: queued
    mail, invalidated processes, deleted sessions and their cascades. *)
From S2P Require Import Prelude GoLib Schema Limiter TxMonad Secrets PasskeyVerifier Engine Process Mail Toy ProcessFacts.
#[local] Open Scope string_scope.
#[local] Open Scope Z_scope.
#[local] Open Scope list_scope.

(** *** Mail *)

(** [d'] is [d] with one more message: a mail of [m]'s content to [to]. *)
Definition mailed (to : string) (m : mailRequest) (d d' : DB) : Prop :=
  exists x expiry, x_exchange x = "mail" /\ x_type x = "mail.send.v1" /\
    x_body x = MailBody (with_recipient to expiry m) /\
    d' = set_outbox (ins x (outbox d)) d.

Lemma notifyAccount_ok account m o w u w' :
  notifyAccount account m o w = (Ok u, w') ->
  exists a, In a (accounts (working w)) /\ a_id a = account /\
    mailed (a_email a) m (working w) (working w') /\
    committed w' = committed w /\ tx_now w' = tx_now w /\ schema_ok (working w') = true.
Proof.
  intros E. wp_start E. unfold notifyAccount, queueMail, outbox_insert, account_row. wp_go.
  all: destruct (one _ (accounts _)) as [b|] eqn:Ea; simplify_eq/=;
    apply one_some in Ea as [? ?]; bsimp; eexists; repeat split; try done.
  all: do 2 eexists; split_and!; [..|reflexivity]; simpl; reflexivity.
Qed.

Lemma queueMail_ok m o w u w' :
  queueMail m o w = (Ok u, w') ->
  exists x, x_exchange x = "mail" /\ x_body x = MailBody m /\
    working w' = set_outbox (ins x (outbox (working w))) (working w) /\
    committed w' = committed w /\ tx_now w' = tx_now w /\ schema_ok (working w') = true.
Proof.
  intros E. wp_start E. unfold queueMail, outbox_insert. wp_go. eexists. repeat split; done.
Qed.

(** *** Invalidation *)

(** No process of the account can be used any more, and none holds a confirmation. *)
Definition untrusted (account : uuid) (d : DB) : Prop :=
  forall u, In u (authentications d) -> u_account_id u = Some account ->
    u_invalidation_timestamp u <> None.

Lemma invalidate_ok account o w u w' :
  invalidate account o w = (Ok u, w') ->
  exists now, reads_clock o now /\
    working w' = update_authentications (live_of account) (invalidate_row now) (working w) /\
    committed w' = committed w /\ tx_now w' = tx_now w /\ schema_ok (working w') = true.
Proof. intros E. wp_start E. unfold invalidate. wp_go. eexists. repeat split; eauto. Qed.

Lemma invalidate_untrusted account now d :
  untrusted account (update_authentications (live_of account) (invalidate_row now) d).
Proof.
  intros u. simpl. rewrite in_upd. intros (x & Hx & ->) Ha. unfold live_of, invalidate_row in *.
  destruct ((u_account_id x == Some account) && negb (isSome (u_invalidation_timestamp x))) eqn:E;
    [done|]. bsimp. destruct E as [?|E]; [done|]. by apply isSome_true in E as [? ->].
Qed.

(** *** Deleted sessions *)
Section DeleteSessions.
Context (p : SessionRow -> bool) (d : DB).

Lemma delete_sessions_in s :
  In s (sessions (delete_sessions p d)) -> In s (sessions d) /\ p s = false.
Proof.
  unfold delete_sessions. rewrite cascade_sessions, in_sel. simpl. rewrite in_del. tauto.
Qed.

Lemma delete_sessions_kept s :
  schema_ok d = true -> In s (sessions d) -> p s = false -> In s (sessions (delete_sessions p d)).
Proof.
  intros Hd Hs Hp. unfold delete_sessions. rewrite cascade_sessions, in_sel. simpl.
  rewrite in_del, has_account_cascade. repeat split; try done.
  revert Hd. unfold schema_ok, fk_ok. rewrite !andb_true_iff, !forallb_forall. intros Hd.
  destruct_and! Hd. by match goal with F : forall x, In x (sessions _) -> _ |- _ => apply F end.
Qed.

Lemma delete_sessions_accounts : accounts (delete_sessions p d) = accounts d.
Proof. done. Qed.

Lemma delete_sessions_totp : schema_ok d = true -> totp (delete_sessions p d) = totp d.
Proof.
  intros Hd. unfold delete_sessions. rewrite cascade_totp. apply sel_all. intros t Ht.
  rewrite has_account_cascade. revert Hd. unfold schema_ok, fk_ok.
  rewrite !andb_true_iff, !forallb_forall. intros Hd. destruct_and! Hd.
  by match goal with F : forall x, In x (totp _) -> _ |- _ => apply F end.
Qed.

(** A process of a deleted session is gone with it. *)
Lemma delete_sessions_authentications u :
  In u (authentications (delete_sessions p d)) ->
  In u (authentications d) /\
  forall id, u_session_id u = Some id -> exists s, In s (sessions d) /\ s_id s = id /\ p s = false.
Proof.
  unfold delete_sessions. rewrite cascade_authentications, !in_sel. simpl.
  intros [[Hu _] Hs]. split; [done|]. intros id Hid. rewrite Hid in Hs. simpl in Hs.
  unfold has_session in Hs. rewrite any_true in Hs. destruct Hs as (s & Hin & E). bsimp.
  exists s. split; [|split; [done|]]; by apply delete_sessions_in in Hin as [? ?].
Qed.

Lemma delete_sessions_untrusted account :
  untrusted account d -> untrusted account (delete_sessions p d).
Proof. intros H u [Hu _]%delete_sessions_authentications. by apply H. Qed.
End DeleteSessions.

Section PrincipalsAndPasswords.
Context `{Platform} `{WebAuthn}.

Lemma checkPrincipal_acts purpose who o w u w' :
  checkPrincipal who o w = (Ok u, w') -> principal_ok o (working w) who purpose.
Proof. by intros [? ?]%checkPrincipal_ok. Qed.

(** *** Passwords *)
Lemma GenerateFromPassword_ok password cost o w h w' :
  GenerateFromPassword password cost o w = (Ok h, w') ->
  exists salt, bcrypt_Generate salt password cost = Some h.
Proof. intros E. wp_start E. unfold GenerateFromPassword. wp_go. eauto. Qed.

(** The account's password is [hash] from now on and everything the old one granted is gone:
    its processes and confirmations, and exactly those of its sessions that are not to [keep]. *)
Definition password_replaced (account : uuid) (keep : SessionRow -> bool) (hash : string)
    (d d' : DB) : Prop :=
  (exists now, accounts d' = accounts (set_password account hash now d)) /\
  untrusted account d' /\
  forall s, In s (sessions d') <->
    In s (sessions d) /\ (s_account_id s = account -> keep s = true).

Lemma password_replaced_intro account hash now t p keep to m d d1 d2 :
  accounts d1 = accounts (set_password account hash now d) -> sessions d1 = sessions d ->
  mailed to m (update_authentications (live_of account) (invalidate_row t) d1) d2 ->
  schema_ok d2 = true ->
  (forall s, p s = (s_account_id s == account) && negb (keep s)) ->
  password_replaced account keep hash d (delete_sessions p d2).
Proof.
  intros Ha Hs (x & expiry & _ & _ & _ & ->) Hd Hp. split_and!.
  - exists now. by rewrite delete_sessions_accounts.
  - apply delete_sessions_untrusted. intros u Hu.
    by apply (invalidate_untrusted account t d1 u).
  - intros s. rewrite <- Hs. split.
    + intros [Hin Hk]%delete_sessions_in. split; [done|]. intros Hacc.
      rewrite Hp, Hacc, beq_refl in Hk. by apply negb_false_iff.
    + intros [Hin Hk]. apply delete_sessions_kept; [done..|]. rewrite Hp.
      destruct (s_account_id s == account) eqn:E; [|done].
      rewrite beq_true in E. by rewrite (Hk E).
Qed.

End PrincipalsAndPasswords.
