(* ===== verification/SessionFacts.v ===== *)
(** What sessions.go guarantees: a session comes from a sign-in confirmation that is spent, a
    refresh token works once, a revoked session is gone with everything that hangs on it. *)
From S2P Require Import Prelude GoLib Schema Limiter TxMonad Secrets PasskeyVerifier Engine Process Mail Sessions Toy ProcessFacts FlowFacts.
#[local] Open Scope string_scope.
#[local] Open Scope Z_scope.
#[local] Open Scope list_scope.

Section Facts.
Context `{Platform} `{WebAuthn} (e : Engine).

(** *** Tokens *)

(** The tokens issued for a session: the account exists and is not blocked; a pending
    deletion is disclosed as a restriction and in the access token, and a passed deadline
    issues nothing. *)
Definition issued (o : Oracle) (d : DB) (account : uuid) (id : Z) (issuer : TokenIssuer)
    (ttl : duration) (t : Tokens) : Prop :=
  tk_UserID t = account /\ tk_SessionID t = id /\
  exists a deleted k, In a (accounts d) /\ a_id a = account /\ a_blocking_timestamp a = None /\
    CreateAccess issuer k
      {| ap_UserId := account; ap_SessionID := id; ap_Email := a_email a;
         ap_Username := a_username a; ap_Deleted := deleted |} ttl = Ok (tk_AccessToken t) /\
    if deleted then
      exists x now, In x (account_deletion_requests d) /\ d_account_id x = account /\
        reads_clock o now /\ now < d_deletion_timestamp x /\
        tk_Restrictions t =
          [{| rs_Type := "pendingDeletion"; rs_DeletionTimestamp := d_deletion_timestamp x;
              rs_DeleteSharedData := d_delete_shared_data x |}]
    else tk_Restrictions t = [] /\ has_deletion d account = false.

Lemma issue_ok account id refresh expiry issuer ttl o w t w' :
  issue account id refresh expiry issuer ttl o w = (Ok t, w') ->
  issued o (working w) account id issuer ttl t /\ tk_RefreshToken t = refresh /\
  tk_ExpirationTimestamp t = expiry.
Proof.
  intros E. wp_start E. unfold issue, account_row, deletion_row, After. wp_go; wp_enter Er; wp_go;
    injection Er as Er; unfold issued; simpl; (split; [|done]); do 2 (split; [done|]);
    match goal with F : one _ (accounts _) = Some ?a |- _ =>
      exists a; apply one_some in F as [? ?] end.
  - exists false. eexists. bsimp. split_and!; [done..|exact Er|done|].
    unfold has_deletion. rewrite any_false. by apply one_none.
  - exists true. eexists. bsimp. split_and!; [done..|exact Er|].
    match goal with F : one _ (account_deletion_requests _) = Some ?x |- _ =>
      apply one_some in F as [? ?]; exists x end.
    bsimp. eexists. repeat (split; [by eauto|]). done.
Qed.

(** *** New sessions

    The row behind the tokens handed out: their refresh token was drawn in this run, the row
    carries its hash, the client and address of the request, and an expiration [ttl] from now. *)
Definition created (ip ua : string) (ttl : duration) (o : Oracle) (t : Tokens) (s : SessionRow)
    : Prop :=
  s_id s = tk_SessionID t /\ s_account_id s = tk_UserID t /\
  drawn o (tk_RefreshToken t) /\
  s_refresh_token_hash s = Hash (e_Secrets e) "refresh" "" (tk_RefreshToken t) /\
  s_ip s = ip /\ s_user_agent s = ua /\ s_expiration_timestamp s = tk_ExpirationTimestamp t /\
  exists now, reads_clock o now /\ tk_ExpirationTimestamp t = now + ttl.

Lemma CreateSession_ok grant ip ua issuer attl rttl o w t w' :
  CreateSession e grant ip ua issuer attl rttl o w = (Ok t, w') ->
  exists u purpose s d, one_of ["signIn"; "signUp"] purpose = true /\
    grant_accepted e o (committed w) grant purpose no_principal u /\
    tk_UserID t = uuid_of (u_account_id u) /\ created ip ua rttl o t s /\
    d = set_sessions (ins s (sessions (committed w)))
          (update_authentications (with_id (u_id u)) clear_grant (committed w)) /\
    issued o d (tk_UserID t) (tk_SessionID t) issuer attl t /\
    exists a, In a (accounts (committed w)) /\ a_id a = tk_UserID t /\
      mailed (a_email a) (with_client ua (mail_request "" "new_login" None)) d (committed w').
Proof.
  intros E. wp_start E. unfold CreateSession. wp_go.
  wp_call ConsumeGrant_ok as (u & Hu & -> & Hw & Hc & _). wp_use randomToken_ok as Hdr. wp_go.
  wp_use issue_ok as ((Ha & Hs & Hi) & Hr & Hx). wp_call notifyAccount_ok as (y & Hin & Hid & Hm & Hc2 & _).
  wp_go. rewrite Hw in Hi, Hin, Hm. exists u, a, (new_session q (uuid_of (u_account_id u))
    (Hash (e_Secrets e) "refresh" "" a0) ip ua (tx_now w0) (o_now o k + rttl)).
  eexists. split_and!; [|exact Hu|exact Ha| |reflexivity| |].
  - apply one_of_spec. simpl. bsimp. naive_solver.
  - unfold created. simpl. rewrite Ha, Hs, Hr, Hx. split_and!; eauto.
  - unfold issued. rewrite Ha, Hs. done.
  - exists y. rewrite Ha. done.
Qed.

(** *** Rotation *)
Lemma Refresh_ok id refresh ip ua issuer attl rttl o w t w' :
  Refresh e id refresh ip ua issuer attl rttl o w = (Ok t, w') ->
  exists s now1 now2 now3 d, In s (sessions (committed w)) /\ s_id s = id /\
    drawn o (tk_RefreshToken t) /\
    s_refresh_token_hash s = Hash (e_Secrets e) "refresh" "" refresh /\
    reads_clock o now1 /\ now1 < s_expiration_timestamp s /\
    reads_clock o now2 /\ tk_ExpirationTimestamp t = now2 + rttl /\ reads_clock o now3 /\
    d = set_sessions (upd (fun s => s_id s == id)
          (rotate_row (Hash (e_Secrets e) "refresh" "" (tk_RefreshToken t)) ip ua now3 (now2 + rttl))
          (sessions (committed w))) (committed w) /\
    issued o d (s_account_id s) id issuer attl t /\ committed w' = d /\ schema_ok d = true.
Proof.
  intros E. wp_start E. unfold Refresh. wp_go. wp_use randomToken_ok as Hdr. wp_go.
  wp_use issue_ok as (Hi & Hr & Hx). wp_go.
  match goal with F : one (refresh_row _ _ _) _ = Some ?s |- _ =>
    exists s; apply one_some in F as [? ?]; unfold refresh_row in * end.
  do 4 eexists. rewrite Hx, Hr. bsimp. split_and!; eauto.
Qed.

(** *** Revocation *)
Lemma checkSession_ok p o w u w' :
  checkSession p o w = (Ok u, w') ->
  exists now, reads_clock o now /\ live_session (working w) p now = true.
Proof.
  intros E. wp_start E. unfold checkSession. wp_go. eexists. split; [eauto|].
  by apply negb_false_iff.
Qed.

(** Which sessions a request revokes. *)
Definition revoked (who : Principal) (id : option Z) (s : SessionRow) : bool :=
  match id with
  | None => s_account_id s == AccountID who
  | Some id => (s_account_id s == AccountID who) && (s_id s == id)
  end.

Lemma RevokeSessions_ok who id o w u w' :
  RevokeSessions who id o w = (Ok u, w') ->
  (exists now, reads_clock o now /\ live_session (committed w) who now = true) /\
  committed w' = delete_sessions (revoked who id) (committed w).
Proof.
  intros E. wp_start E. unfold RevokeSessions. wp_go. wp_use checkSession_ok as Hs. wp_go; done.
Qed.
End Facts.

(** ** Properties *)
Section Properties.
Context `{Platform} `{WebAuthn} (e : Engine).

(** C16: a session is created only from an accepted sign-in or sign-up confirmation, for that
  confirmation's account; it stores the hash of the refresh token that is handed out, no
  account and no other session changes, and the confirmation is spent. *)
Theorem CreateSession_spends_sign_in grant ip ua issuer attl rttl o w t w' :
schema_ok (committed w) = true ->
CreateSession e grant ip ua issuer attl rttl o w = (Ok t, w') ->
exists u purpose s, In purpose ["signIn"; "signUp"] /\
  grant_accepted e o (committed w) grant purpose no_principal u /\
  tk_UserID t = uuid_of (u_account_id u) /\ created e ip ua rttl o t s /\
  sessions (committed w') = sessions (committed w) ++ [s] /\
  accounts (committed w') = accounts (committed w) /\ spent e (committed w') grant.
Proof.
intros Hd E. apply CreateSession_ok in E
  as (u & purpose & s & d & Hp & Hu & Ha & Hs & -> & _ & a & _ & _ & x & t0 & _ & _ & _ & ->).
exists u, purpose, s. rewrite one_of_spec in Hp. repeat (split; [done|]).
destruct Hu as (Hin & Hh & _). exact (clear_grant_spent e _ grant u Hd Hin Hh).
Qed.

(** Tokens are issued only for an existing account that is not blocked; a pending deletion
  is disclosed as a restriction and in the access token's payload, and once its deadline has
  passed no token is issued. *)
Theorem issue_discloses_deletion account id refresh expiry issuer ttl o w t w' :
issue account id refresh expiry issuer ttl o w = (Ok t, w') ->
issued o (working w) account id issuer ttl t.
Proof. by intros [? _]%issue_ok. Qed.

(** C17: a refresh succeeds only with the current token of an unexpired session; it gives the
  session the hash of a token drawn from the random source in this run, the address and client of
  the request, the time of the refresh and an expiration [rttl] from now, keeps its account, and
  leaves every other session and everything else in the database as it was. The tokens are issued
  for the session's own account, which exists and is not blocked. *)
Theorem Refresh_rotates id refresh ip ua issuer attl rttl o w t w' :
Refresh e id refresh ip ua issuer attl rttl o w = (Ok t, w') ->
exists s now later, In s (sessions (committed w)) /\ s_id s = id /\
  s_refresh_token_hash s = Hash (e_Secrets e) "refresh" "" refresh /\
  reads_clock o now /\ now < s_expiration_timestamp s /\ reads_clock o later /\
  let s' := rotate_row (Hash (e_Secrets e) "refresh" "" (tk_RefreshToken t)) ip ua later
              (tk_ExpirationTimestamp t) s in
  created e ip ua rttl o t s' /\ In s' (sessions (committed w')) /\
  s_account_id s' = s_account_id s /\
  (forall x, s_id x <> id -> In x (sessions (committed w')) <-> In x (sessions (committed w))) /\
  set_sessions [] (committed w') = set_sessions [] (committed w) /\
  issued o (committed w') (s_account_id s) id issuer attl t.
Proof.
intros (s & now1 & now2 & now3 & d & Hs & Hid & Hdr & Hh & Hn & Hx & Hn2 & He & Hn3 & -> & Hi & -> & _)%Refresh_ok.
destruct (Hi) as (Ha & Ht & _). exists s, now1, now3. repeat (split; [done|]).
rewrite He. split_and!; try done.
- unfold created, rotate_row. simpl. rewrite Ha, Ht, Hid, He. split_and!; eauto.
- simpl. apply in_upd. exists s. by rewrite Hid, beq_refl.
- intros x Hne. simpl. rewrite in_upd. split.
  + intros (y & Hy & ->). destruct (s_id y == id) eqn:E; [|done]. bsimp.
  + intros Hin. exists x. split; [done|]. by destruct (s_id x == id) eqn:E; bsimp.
Qed.

(** A refresh token works once: after a refresh (whose new token has another hash) the old
  token is refused for that session, at any time, in the database the refresh left. *)
Theorem Refresh_single_use id refresh ip ua issuer attl rttl o w t w' :
Refresh e id refresh ip ua issuer attl rttl o w = (Ok t, w') ->
Hash (e_Secrets e) "refresh" "" (tk_RefreshToken t) <> Hash (e_Secrets e) "refresh" "" refresh ->
forall ip2 ua2 attl2 rttl2 o2 w2 t2 w3, committed w2 = committed w' ->
  Refresh e id refresh ip2 ua2 issuer attl2 rttl2 o2 w2 <> (Ok t2, w3).
Proof.
intros (s & now1 & now2 & now3 & d & _ & _ & _ & _ & _ & _ & _ & _ & _ & -> & _ & Hc & _)%Refresh_ok.
intros Hne ip2 ua2 attl2 rttl2 o2 w2 t2 w3 Hw E.
apply Refresh_ok in E as (s2 & n1 & n2 & n3 & d & Hs & Hid & _ & Hh & _).
rewrite Hw, Hc in Hs. simpl in Hs. rewrite in_upd in Hs. destruct Hs as (y & _ & ->).
destruct (s_id y == id) eqn:E; [by unfold rotate_row in Hh|bsimp].
Qed.

(** Revocation needs a live session of the caller, removes exactly the caller's own session
  named (or all of them), together with every process bound to a removed session, and
  touches no account and no other session. *)
Theorem RevokeSessions_scope who id o w u w' :
schema_ok (committed w) = true -> RevokeSessions who id o w = (Ok u, w') ->
(exists now, reads_clock o now /\ live_session (committed w) who now = true) /\
(forall s, In s (sessions (committed w')) <->
   In s (sessions (committed w)) /\
   ~ (s_account_id s = AccountID who /\ (forall i, id = Some i -> s_id s = i))) /\
(forall a i, In a (authentications (committed w')) -> u_session_id a = Some i ->
   exists s, In s (sessions (committed w')) /\ s_id s = i) /\
accounts (committed w') = accounts (committed w).
Proof.
intros Hd [Hl ->]%RevokeSessions_ok. split; [done|].
assert (forall s, revoked who id s = false <->
  ~ (s_account_id s = AccountID who /\ (forall i, id = Some i -> s_id s = i))) as Hr.
{ intros s. unfold revoked. destruct id as [i|]; rewrite ?andb_false_iff, !beq_false.
  - destruct (decide (s_account_id s = AccountID who)), (decide (s_id s = i)); naive_solver.
  - split; [by intros Hn [? _]|]. intros Hn Ha. by apply Hn. }
split_and!; [| |done].
- intros s. rewrite <- Hr. split; [apply delete_sessions_in|].
  intros [? ?]. by apply delete_sessions_kept.
- intros a i [_ Ha]%delete_sessions_authentications Hi. destruct (Ha i Hi) as (s & ? & ? & ?).
  exists s. split; [|done]. by apply delete_sessions_kept.
Qed.
End Properties.

(** An issuer that puts the session into the token. *)
Definition toy_issuer : TokenIssuer :=
  {| CreateAccess := fun _ p _ => Ok (FormatInt (ap_SessionID p)) |}.
Definition sign_in_db : DB := granted_db "signIn".
Definition toy_session : result Tokens * World :=
  CreateSession toy_engine "G" "::1" "ua" toy_issuer Minute Hour quiet (at_rest sign_in_db).
Definition toy_refresh : result Tokens * World :=
  Refresh toy_engine 5 "R" "::2" "ua2" toy_issuer Minute Hour quiet (at_rest alice_db).

Lemma CreateSession_spends_sign_in_witness :
  exists s, sessions (committed toy_session.2) = [alice_session; s].
Proof.
  destruct (run_ex (CreateSession toy_engine "G" "::1" "ua" toy_issuer Minute Hour) quiet
    (at_rest sign_in_db) (fun _ => true)) as (t & E & _); [reflexivity|].
  destruct (CreateSession_spends_sign_in toy_engine "G" "::1" "ua" toy_issuer Minute Hour quiet
    (at_rest sign_in_db) t _ eq_refl E) as (u & purpose & s & _ & _ & _ & _ & Hs & _).
  exists s. exact Hs.
Defined.

Lemma issue_discloses_deletion_witness :
  exists t, tk_UserID t = alice_id /\ tk_SessionID t = 5.
Proof.
  destruct (run_ex (issue alice_id 5 "R2" toy_now toy_issuer Minute) quiet (at_rest alice_db)
    (fun _ => true)) as (t & E & _); [reflexivity|].
  destruct (issue_discloses_deletion alice_id 5 "R2" toy_now toy_issuer Minute quiet
    (at_rest alice_db) t _ E) as (Hu & Hs & _).
  exists t. split; [exact Hu|exact Hs].
Defined.

Lemma Refresh_rotates_witness :
  exists t s', In s' (sessions (committed toy_refresh.2)) /\
    created toy_engine "::2" "ua2" Hour quiet t s'.
Proof.
  destruct (run_ex (Refresh toy_engine 5 "R" "::2" "ua2" toy_issuer Minute Hour) quiet
    (at_rest alice_db) (fun _ => true)) as (t & E & _); [reflexivity|].
  destruct (Refresh_rotates toy_engine 5 "R" "::2" "ua2" toy_issuer Minute Hour quiet
    (at_rest alice_db) t _ E) as (s & now & later & _ & _ & _ & _ & _ & _ & Hc & Hs & _).
  eexists t, _. split; [exact Hs|exact Hc].
Defined.

Lemma Refresh_single_use_witness :
  succeeds (fun _ => true) (Refresh toy_engine 5 "R" "::2" "ua2" toy_issuer Minute Hour quiet
    (at_rest (committed toy_refresh.2))).1 = false.
Proof.
  destruct (run_ex (Refresh toy_engine 5 "R" "::2" "ua2" toy_issuer Minute Hour) quiet
    (at_rest alice_db) (fun t => negb (tk_RefreshToken t == "R"))) as (t & E & Hn); [reflexivity|].
  apply run_never. intros t2 w3.
  refine (Refresh_single_use toy_engine 5 "R" "::2" "ua2" toy_issuer Minute Hour quiet
    (at_rest alice_db) t _ E _ "::2" "ua2" Minute Hour quiet _ t2 w3 (committed_at_rest _)).
  intros Hh. apply (proj1 (negb_beq_true _ _) Hn).
  by apply hash_input_inj in Hh as (_ & _ & Hh).
Defined.

Lemma RevokeSessions_scope_witness :
  ~ In alice_session (sessions (committed (RevokeSessions who_alice None quiet (at_rest alice_db)).2)).
Proof.
  destruct (RevokeSessions_scope who_alice None quiet (at_rest alice_db) tt
    (RevokeSessions who_alice None quiet (at_rest alice_db)).2 eq_refl) as (_ & Hs & _);
    [apply run_ok; reflexivity|].
  intros [_ Hn]%Hs. apply Hn. split; [reflexivity|discriminate].
Defined.
