(* ===== verification/AccountFacts.v ===== *)
(** What account.go guarantees: a changed password ends what the old one granted, user names
    are unique and canonical, deletions keep their deadline and happen only when due. *)
From S2P Require Import Prelude GoLib Schema Limiter TxMonad Secrets PasskeyVerifier Engine Process Mail Usernames Account Toy ProcessFacts FlowFacts.
#[local] Open Scope string_scope.
#[local] Open Scope Z_scope.
#[local] Open Scope list_scope.

Section Facts.
Context `{Platform} `{WebAuthn} (e : Engine).

(** *** Passwords *)

(** [password] is the caller's new one: its hash replaces the old, the caller's session stays. *)
Definition new_password (who : Principal) (password : string) (d d' : DB) : Prop :=
  exists salt hash, bcrypt_Generate salt password (BcryptCost e) = Some hash /\
    password_replaced (AccountID who) (fun s => s_id s == SessionID who) hash d d'.

(** What setting [password] does to an account with the row [a]: without a password it gets one;
    otherwise a confirmation is consumed, and only a different password changes anything else. *)
Definition password_set (who : Principal) (grant password : string) (a : Account) (o : Oracle)
    (d d' : DB) : Prop :=
  match a_password_hash a with
  | None => new_password who password d d'
  | Some old => exists g, grant_accepted e o d grant "passwordChange" who g /\
      if bcrypt_Compare old password
      then d' = update_authentications (with_id (u_id g)) clear_grant d
      else new_password who password d d'
  end.

Lemma SetPassword_ok who grant password o w u w' :
  SetPassword e who grant password o w = (Ok u, w') ->
  password_length_ok password = true /\ principal_ok o (committed w) who "passwordChange" /\
  exists a, In a (accounts (committed w)) /\ a_id a = AccountID who /\
    password_set who grant password a o (committed w) (committed w').
Proof.
  intros E. wp_start E. unfold SetPassword. wp_step.
  wp_use GenerateFromPassword_ok as (salt & Hs). wp_go.
  wp_use (checkPrincipal_acts "passwordChange") as Hp. wp_go; [wp_call ConsumeGrant_ok as (g & Hg & _ & Hw & Hc & _); wp_go|];
    unfold account_row in *; match goal with F : option_map _ (one ?p ?l) = Some _ |- _ =>
      destruct (one p l) as [b|] eqn:Eb; simplify_eq/=; apply one_some in Eb as [Hb Eb]; bsimp end.
  all: unfold password_set.
  1: split; [done|]; split; [exact Hp|]; exists b; split_and!; [done..|].
  1: match goal with F : a_password_hash _ = Some _, G : bcrypt_Compare _ _ = _ |- _ =>
       rewrite F, G end; by exists g.
  all: wp_call invalidate_ok as (t1 & _ & Hi & Hc1 & _);
    wp_call notifyAccount_ok as (y & _ & _ & Hm & Hc2 & _ & Hd2); wp_go.
  all: rewrite Hi in Hm; split_and!; [done|exact Hp|]; exists b; split_and!; [done..|].
  all: repeat match goal with F : a_password_hash _ = _ |- _ => rewrite F; clear F
         | G : bcrypt_Compare _ _ = _ |- _ => rewrite G; clear G end.
  1: exists g; split; [exact Hg|].
  all: exists salt, a; split; [done|]; eapply password_replaced_intro; [..|exact Hm|exact Hd2|];
    by rewrite ?Hw.
Qed.

(** *** User names *)
Lemma SetUsername_ok who name o w u w' :
  SetUsername who name o w = (Ok u, w') ->
  validUsername (normalizeUsername name) = true /\ principal_ok o (committed w) who "" /\
  accounts (committed w') =
    upd (fun a => a_id a == AccountID who) (set_a_username (Some (normalizeUsername name)))
      (accounts (committed w)) /\
  sessions (committed w') = sessions (committed w) /\
  authentications (committed w') = authentications (committed w).
Proof.
  intros E. wp_start E. unfold SetUsername. wp_step.
  wp_go. wp_use (checkPrincipal_acts "") as Hp. wp_go.
  - apply negb_false_iff in Heqb. split_and!; try done. symmetry.
    rewrite <- (upd_skip (fun a => (a_id a == AccountID who) &&
      (a_username a != Some (normalizeUsername name)))); [|by intros; bsimp|].
    + apply upd_nop. apply one_none. by case_match.
    + intros r _ Hi Hn. bsimp. destruct Hn as [?|<-]; [done|]. by destruct r.
  - case_match; [|done]. simplify_eq. wp_call notifyAccount_ok as (y & _ & _ & Hm & Hc & _). wp_go.
    destruct Hm as (x & expiry & _ & _ & _ & ->). apply negb_false_iff in Heqb.
    split_and!; try done. simpl. apply upd_skip; [by intros; bsimp|].
    intros r _ Hi Hn. bsimp. destruct Hn as [?|<-]; [done|]. by destruct r.
Qed.

(** *** Deletion requests *)
Definition deletion_row_of (who : Principal) (shared : bool) (t : Deletion) : DeletionRequest :=
  {| d_account_id := AccountID who; d_delete_shared_data := shared;
     d_deletion_timestamp := dl_DeletionTimestamp t |}.

(** The deadline a request ends up with: a new one, or the one already set. *)
Definition deadline_kept (o : Oracle) (d : DB) (who : Principal) (delay : duration) (t : Deletion)
    : Prop :=
  exists now, reads_clock o now /\
  match one (fun x => d_account_id x == AccountID who) (account_deletion_requests d) with
  | None => dl_DeletionTimestamp t = now + delay
  | Some x => now < d_deletion_timestamp x /\ dl_DeletionTimestamp t = d_deletion_timestamp x
  end.

Lemma upsert_deletion_ok account shared deadline now d t d' :
  upsert_deletion account shared deadline now d = Some (t, d') ->
  (exists x, In x (account_deletion_requests d') /\ d_account_id x = account /\
     d_delete_shared_data x = shared /\ d_deletion_timestamp x = dl_DeletionTimestamp t) /\
  dl_DeleteSharedData t = shared /\
  match one (fun x => d_account_id x == account) (account_deletion_requests d) with
  | None => dl_DeletionTimestamp t = deadline
  | Some x => now < d_deletion_timestamp x /\ dl_DeletionTimestamp t = d_deletion_timestamp x
  end /\ set_account_deletion_requests [] d' = set_account_deletion_requests [] d.
Proof.
  unfold upsert_deletion. destruct (one _ _) as [x|] eqn:Ex; [destruct (now <? _) eqn:En; [|done]|];
    intros [= <- <-]; (split; [|by bsimp]).
  - apply one_some in Ex as [Hin Ex]. exists (set_d_delete_shared_data shared x). simpl. bsimp.
    split_and!; try done. apply in_upd. exists x. by rewrite beq_refl.
  - simpl. eexists. rewrite in_ins. split; [by right|]. done.
Qed.

Lemma RequestDeletion_ok who grant shared delay o w t w' :
  RequestDeletion e who grant shared delay o w = (Ok t, w') ->
  (exists g, grant_accepted e o (committed w) grant "accountDeletion" who g) /\
  deadline_kept o (committed w) who delay t /\ dl_DeleteSharedData t = shared /\
  (exists x, In x (account_deletion_requests (committed w')) /\ d_account_id x = AccountID who /\
     d_delete_shared_data x = shared /\ d_deletion_timestamp x = dl_DeletionTimestamp t) /\
  accounts (committed w') = accounts (committed w) /\ sessions (committed w') = sessions (committed w).
Proof.
  intros E. wp_start E. unfold RequestDeletion. wp_step.
  wp_call ConsumeGrant_ok as (g & Hg & _ & Hw & Hc & _). wp_go.
  match goal with F : upsert_deletion _ _ _ _ _ = Some _ |- _ =>
    apply upsert_deletion_ok in F as (Hx & Hsh & Ht & Hd); rewrite Hw in Ht, Hd end.
  wp_call notifyAccount_ok as (y & _ & _ & Hm & Hc1 & _). wp_go.
  destruct Hm as (z & expiry & _ & _ & _ & ->).
  split_and!; [by eexists| |done|done| |].
  - unfold deadline_kept. destruct (one _ (account_deletion_requests _)); eexists; split; eauto.
  - simpl. change (accounts d) with (accounts (set_account_deletion_requests [] d)). by rewrite Hd.
  - simpl. change (sessions d) with (sessions (set_account_deletion_requests [] d)). by rewrite Hd.
Qed.

(** *** Due accounts *)
Lemma due_le_total x y : due_le x y = true \/ due_le y x = true.
Proof. unfold due_le. rewrite !Z.leb_le. lia. Qed.
Lemma due_le_trans x y z : due_le x y = true -> due_le y z = true -> due_le x z = true.
Proof. unfold due_le. rewrite !Z.leb_le. lia. Qed.

Lemma in_due_accounts now d a x :
  In (a, x) (due_accounts now d) <-> In a (accounts d) /\ In x (account_deletion_requests d) /\
    d_account_id x = a_id a /\ d_deletion_timestamp x <= now.
Proof.
  unfold due_accounts. rewrite in_order_by, in_flat_map. split.
  - intros (b & Hb & Hin). apply in_map_iff in Hin as (y & [= <- <-] & Hy).
    rewrite in_sel in Hy. destruct Hy as [Hy Hp]. bsimp. done.
  - intros (Ha & Hx & Hi & Hd). exists a. split; [done|]. apply in_map_iff. exists x.
    split; [done|]. rewrite in_sel. split; [done|]. apply andb_true_iff.
    split; [by apply beq_true|by apply Z.leb_le].
Qed.

(** The row [DeleteDueAccount] takes: due, and the earliest of those that are. *)
Definition first_due (now : time) (d : DB) (a : Account) (x : DeletionRequest) : Prop :=
  In a (accounts d) /\ In x (account_deletion_requests d) /\ d_account_id x = a_id a /\
  d_deletion_timestamp x <= now /\
  forall b y, In b (accounts d) -> In y (account_deletion_requests d) -> d_account_id y = a_id b ->
    d_deletion_timestamp y <= now -> d_deletion_timestamp x <= d_deletion_timestamp y.

Lemma head_due now d a x : head (due_accounts now d) = Some (a, x) -> first_due now d a x.
Proof.
  unfold due_accounts. intros [Hin Hle]%(order_by_head due_le due_le_total due_le_trans).
  assert (In (a, x) (due_accounts now d)) as (?&?&?&?)%in_due_accounts
    by by apply in_order_by.
  split_and!; try done. intros b y Hb Hy Hi Ht.
  assert (In (b, y) (due_accounts now d)) as Hby by by apply in_due_accounts.
  apply in_order_by, Hle in Hby. unfold due_le in Hby. simpl in Hby. lia.
Qed.

(** Nothing in the database belongs to the account any more. *)
Definition erased (x : uuid) (d : DB) : Prop :=
  (forall a, In a (accounts d) -> a_id a <> x) /\
  (forall i, In i (identities d) -> i_account_id i <> x) /\
  (forall s, In s (sessions d) -> s_account_id s <> x) /\
  (forall u, In u (authentications d) -> u_account_id u <> Some x) /\
  (forall c, In c (email_change_requests d) -> ec_account_id c <> x) /\
  (forall c, In c (password_reset_requests d) -> pr_account_id c <> x) /\
  (forall c, In c (account_deletion_requests d) -> d_account_id c <> x) /\
  (forall c, In c (totp d) -> tp_account_id c <> x) /\
  (forall c, In c (totp_activation_requests d) -> ta_account_id c <> x) /\
  (forall k, In k (passkeys d) -> k_account_id k <> x) /\
  (forall b, In b (backup_codes d) -> b_account_id b <> x).

Lemma delete_account_erased x d : erased x (delete_account x d).
Proof.
  assert (has_account (delete_account x d) x = false) as Hn.
  { unfold has_account, delete_account. rewrite cascade_accounts. simpl. rewrite any_false.
    intros a [_ Ha]%in_del. done. }
  pose proof (cascade_fk (set_accounts (del (fun a => a_id a == x) (accounts d)) d)) as Hf.
  fold (delete_account x d) in Hf. revert Hf Hn. generalize (delete_account x d). intros d' Hf Hn.
  unfold fk_ok in Hf. rewrite !andb_true_iff, !forallb_forall in Hf. destruct_and! Hf.
  unfold erased. split_and!; [|intros r Hr; match goal with
    F : forall y, In y (?t d') -> _ = true, G : In r (?t d') |- _ => specialize (F r G) end..].
  { intros a Ha <-. unfold has_account in Hn. rewrite any_false in Hn. specialize (Hn a Ha).
    by rewrite beq_refl in Hn. }
  all: intros Hx; bsimp; rewrite ?Hx in *; simpl in *; congruence.
Qed.

Lemma delete_account_others x d b :
  In b (accounts d) -> a_id b <> x -> In b (accounts (delete_account x d)).
Proof.
  intros Hb Hne. unfold delete_account. rewrite cascade_accounts. simpl. rewrite in_del.
  split; [done|]. by apply beq_false.
Qed.

Definition announced (a : Account) (x : DeletionRequest) (d : DB) : Prop :=
  exists m, In m (outbox d) /\ x_exchange m = "auth.profiles" /\ x_type m = "profile.deleted" /\
    x_body m = ProfileDeleted (a_id a) (d_delete_shared_data x).

Lemma DeleteDueAccount_ok o w r w' :
  DeleteDueAccount o w = (Ok r, w') ->
  exists now, reads_clock o now /\
  if r then
    exists a x, first_due now (committed w) a x /\ erased (a_id a) (committed w') /\
      announced a x (committed w') /\
      (forall b, In b (accounts (committed w)) -> a_id b <> a_id a -> In b (accounts (committed w'))) /\
      (forall m, In m (outbox (committed w)) -> In m (outbox (committed w')))
  else due_accounts now (committed w) = [] /\ committed w' = committed w.
Proof.
  intros E. wp_start E. unfold DeleteDueAccount, outbox_insert. wp_go.
  1: match goal with F : head (due_accounts ?now ?d) = None |- _ =>
       exists now; split; [eauto|]; split; [by destruct (due_accounts now d)|done] end.
  wp_call notifyAccount_ok as (y & _ & _ & Hm & Hc & _). wp_go.
  destruct Hm as (z & expiry & _ & _ & _ & ->).
  match goal with F : head (due_accounts ?now _) = Some (?a, ?x) |- _ =>
    exists now; split; [eauto|]; exists a, x; apply head_due in F end.
  split_and!; [done|apply delete_account_erased| | |].
  - eexists. unfold delete_account. rewrite cascade_outbox. simpl. rewrite !in_ins.
    split; [left; by right|done].
  - intros b Hb Hne. by apply delete_account_others.
  - intros m Hm. unfold delete_account. rewrite cascade_outbox. simpl. rewrite !in_ins. by left; left.
Qed.

(** *** Cancelled deletions *)
Lemma CancelDeletion_ok who o w u w' :
  CancelDeletion who o w = (Ok u, w') ->
  (exists now, reads_clock o now /\ live_unblocked_session (committed w) who now = true) /\
  has_deletion (committed w') (AccountID who) = false /\
  (forall x, one (fun x => d_account_id x == AccountID who) (account_deletion_requests (committed w))
     = Some x -> exists now, reads_clock o now /\ now < d_deletion_timestamp x) /\
  accounts (committed w') = accounts (committed w) /\ sessions (committed w') = sessions (committed w).
Proof.
  intros E. wp_start E. unfold CancelDeletion. wp_go.
  wp_use checkRecoveryPrincipal_ok as Hp. wp_go; (split; [exact Hp|]);
    match goal with F : option_map _ (one ?p ?l) = _ |- _ =>
      destruct (one p l) as [b|] eqn:Eb; simplify_eq/= end.
  - split_and!; try done. unfold has_deletion. rewrite any_false. by apply one_none.
  - unfold After in *. bsimp. split_and!; try done.
    + unfold has_deletion. simpl. rewrite any_false. by intros x [_ Hx]%in_del.
    + intros x [= <-]. match goal with F : o_now o ?k < _ |- _ => exists (o_now o k) end. eauto.
Qed.
End Facts.

(** ** Properties *)
Section Properties.
Context `{Platform} `{WebAuthn} (e : Engine).

(** C22: a password is set only by a live session of an unblocked account with no pending
  deletion. If the account already has one, an accepted confirmation of its own purpose is spent;
  when the new password equals the old nothing else changes, and when it does not, or when there
  was none, the hash is replaced, every process and confirmation of the account is invalidated,
  and of its sessions exactly the caller's stays. *)
Theorem SetPassword_resets_trust who grant password o w u w' :
SetPassword e who grant password o w = (Ok u, w') ->
password_length_ok password = true /\ principal_ok o (committed w) who "passwordChange" /\
exists a, In a (accounts (committed w)) /\ a_id a = AccountID who /\
  password_set e who grant password a o (committed w) (committed w').
Proof. apply SetPassword_ok. Qed.

(** C34: a user name is stored in canonical form and only if it is valid; it becomes the name of
  the caller's account and of no other, and in the database it leaves every spelling of it is
  reported as taken. *)
Theorem SetUsername_takes_name who name o w u w' :
SetUsername who name o w = (Ok u, w') ->
validUsername (normalizeUsername name) = true /\
accounts (committed w') =
  upd (fun a => a_id a == AccountID who) (set_a_username (Some (normalizeUsername name)))
    (accounts (committed w)) /\
forall other o2 w2, committed w2 = committed w' ->
  normalizeUsername other = normalizeUsername name ->
  (UsernameAvailable other o2 w2).1 <> Ok true.
Proof.
intros (Hv & [(now & _ & Hl) _] & Ha & _)%SetUsername_ok. repeat (split; [done|]).
intros other o2 w2 Hw Hn. unfold UsernameAvailable. rewrite Hn, Hv. simpl.
rewrite validUsername_lower by done.
assert (any (fun a => a_username a == Some (normalizeUsername name)) (accounts (committed w2)) = true)
  as Hany.
{ unfold live_unblocked_session in Hl. rewrite any_true in Hl. destruct Hl as (s & _ & Hl).
  rewrite !andb_true_iff, any_true in Hl. destruct Hl as [[[_ Hs] _] (a & Hin & Hi)]. bsimp.
  rewrite any_true, Hw, Ha. exists (set_a_username (Some (normalizeUsername name)) a).
  split; [|apply beq_refl]. apply in_upd. exists a. split; [done|].
  assert (a_id a = AccountID who) as -> by congruence. by rewrite beq_refl. }
unfold query, statement. destruct (o_fault o2 _); [done|]. simpl. rewrite Hany. done.
Qed.

(** An account's deletion is requested only with a confirmation for it; a repeated request
  keeps the deadline of the first and is refused once that deadline has passed, and what it
  answers with is what is stored. *)
Theorem RequestDeletion_keeps_deadline who grant shared delay o w t w' :
RequestDeletion e who grant shared delay o w = (Ok t, w') ->
(exists g, grant_accepted e o (committed w) grant "accountDeletion" who g) /\
deadline_kept o (committed w) who delay t /\ dl_DeleteSharedData t = shared /\
(exists x, In x (account_deletion_requests (committed w')) /\ d_account_id x = AccountID who /\
   d_delete_shared_data x = shared /\ d_deletion_timestamp x = dl_DeletionTimestamp t) /\
accounts (committed w') = accounts (committed w) /\ sessions (committed w') = sessions (committed w).
Proof. apply RequestDeletion_ok. Qed.

(** A deletion is cancelled only by a live session and before its deadline; afterwards no
  deletion is pending, and nothing was deleted. *)
Theorem CancelDeletion_before_deadline who o w u w' :
schema_ok (committed w) = true -> CancelDeletion who o w = (Ok u, w') ->
(exists now, reads_clock o now /\ live_unblocked_session (committed w) who now = true) /\
has_deletion (committed w') (AccountID who) = false /\
(forall x, In x (account_deletion_requests (committed w)) -> d_account_id x = AccountID who ->
   exists now, reads_clock o now /\ now < d_deletion_timestamp x) /\
accounts (committed w') = accounts (committed w) /\ sessions (committed w') = sessions (committed w).
Proof.
intros Hd (Hp & Hn & Hx & Ha & Hs)%CancelDeletion_ok. split_and!; try done. intros x Hin Hi.
destruct (one_is_some (fun x => d_account_id x == AccountID who) _ x Hin) as [y Ey];
  [by rewrite Hi, beq_refl|].
assert (y = x) as <-; [|by apply Hx].
apply one_some in Ey as [Hy Ey]. bsimp. eapply deletion_key; [exact Hd|done|done|congruence].
Qed.

(** C30: the daemon deletes an account only when its deadline has passed, the longest overdue
  one first, together with everything that belongs to it and with the event that announces it;
  other accounts and events stay. When it answers that nothing was deleted, nothing was due. *)
Theorem DeleteDueAccount_only_due o w r w' :
DeleteDueAccount o w = (Ok r, w') ->
exists now, reads_clock o now /\
if r then
  exists a x, first_due now (committed w) a x /\ erased (a_id a) (committed w') /\
    announced a x (committed w') /\
    (forall b, In b (accounts (committed w)) -> a_id b <> a_id a -> In b (accounts (committed w'))) /\
    (forall m, In m (outbox (committed w)) -> In m (outbox (committed w')))
else
  committed w' = committed w /\
  forall a x, In a (accounts (committed w)) -> In x (account_deletion_requests (committed w)) ->
    d_account_id x = a_id a -> now < d_deletion_timestamp x.
Proof.
intros (now & Hn & E)%DeleteDueAccount_ok. exists now. split; [done|]. destruct r; [done|].
destruct E as [Hd Hc]. split; [done|]. intros a x Ha Hx Hi. apply Z.nle_gt. intros Hle.
assert (In (a, x) (due_accounts now (committed w))) as Hin by by apply in_due_accounts.
by rewrite Hd in Hin.
Qed.
End Properties.

Definition deleting_db (deadline : time) : DB :=
  set_account_deletion_requests
    [{| d_account_id := alice_id; d_delete_shared_data := true; d_deletion_timestamp := deadline |}]
    alice_db.

Lemma SetPassword_resets_trust_witness :
  new_password toy_engine who_alice "secret-2" (granted_db "passwordChange")
    (committed (SetPassword toy_engine who_alice "G" "secret-2" quiet
       (at_rest (granted_db "passwordChange"))).2).
Proof.
  destruct (SetPassword_resets_trust toy_engine who_alice "G" "secret-2" quiet
    (at_rest (granted_db "passwordChange")) tt (SetPassword toy_engine who_alice "G" "secret-2"
      quiet (at_rest (granted_db "passwordChange"))).2) as (_ & _ & a & Ha & _ & Hr);
    [apply run_ok; reflexivity|].
  destruct Ha as [<-|[]]. destruct Hr as (g & _ & Hr). exact Hr.
Defined.

Lemma SetUsername_takes_name_witness :
  (UsernameAvailable "Alice_New" quiet (at_rest (committed (SetUsername who_alice " alice_new "
     quiet (at_rest alice_db)).2))).1 <> Ok true.
Proof.
  destruct (SetUsername_takes_name who_alice " alice_new " quiet (at_rest alice_db) tt
    (SetUsername who_alice " alice_new " quiet (at_rest alice_db)).2) as (_ & _ & Hn);
    [apply run_ok; reflexivity|].
  apply Hn; [apply committed_at_rest|reflexivity].
Defined.

Lemma RequestDeletion_keeps_deadline_witness :
  exists t, dl_DeletionTimestamp t = toy_now + Hour /\ dl_DeleteSharedData t = false.
Proof.
  destruct (run_ex (RequestDeletion toy_engine who_alice "G" false Hour) quiet
    (at_rest (granted_db "accountDeletion")) (fun _ => true)) as (t & E & _); [reflexivity|].
  destruct (RequestDeletion_keeps_deadline toy_engine who_alice "G" false Hour quiet
    (at_rest (granted_db "accountDeletion")) t _ E) as (_ & (now & [k <-] & Hd) & Hs & _).
  exists t. split; [exact Hd|exact Hs].
Defined.

Lemma CancelDeletion_before_deadline_witness :
  exists now, now < toy_now + Hour /\
    has_deletion (committed (CancelDeletion who_alice quiet (at_rest (deleting_db (toy_now + Hour)))).2)
      alice_id = false.
Proof.
  destruct (CancelDeletion_before_deadline who_alice quiet (at_rest (deleting_db (toy_now + Hour))) tt
    (CancelDeletion who_alice quiet (at_rest (deleting_db (toy_now + Hour)))).2 eq_refl)
    as (_ & Hn & Hx & _); [apply run_ok; reflexivity|].
  destruct (Hx _ (or_introl eq_refl) eq_refl) as (now & _ & Hlt).
  exists now. split; [exact Hlt|exact Hn].
Defined.

Lemma DeleteDueAccount_only_due_witness :
  exists a, erased (a_id a)
    (committed (DeleteDueAccount quiet (at_rest (deleting_db (toy_now - Hour)))).2).
Proof.
  destruct (DeleteDueAccount_only_due quiet (at_rest (deleting_db (toy_now - Hour))) true
    (DeleteDueAccount quiet (at_rest (deleting_db (toy_now - Hour)))).2)
    as (now & _ & a & x & _ & He & _); [apply run_ok; reflexivity|].
  exists a. exact He.
Defined.

(** The last two words of the repository's list. *)
Lemma legacy_Validate_rejects_all_witness :
  Validate (NewValidator (Some ("wank" +:+ String newline ("whore" +:+ String newline ""))))
    "robert_1" = Some GrpcUsernameForbiddenWord /\
  Validate (NewValidator (Some ("wank" +:+ String newline ("whore" +:+ String newline ""))))
    "robert_1" <> None.
Proof.
  split; [vm_compute; reflexivity|].
  apply (legacy_Validate_rejects_all (Some ("wank" +:+ String newline ("whore" +:+ String newline "")))
    "robert_1").
  exists ("wank" +:+ String newline "whore"). reflexivity.
Defined.
