(* ===== verification/MailFacts.v ===== *)
(** What mail.go guarantees: a reset link works once and ends what the old password granted, an
    unknown address learns nothing, an email changes only after both addresses agreed. *)
From S2P Require Import Prelude GoLib Schema Limiter TxMonad Secrets PasskeyVerifier Engine Process Mail Toy ProcessFacts FlowFacts.
#[local] Open Scope string_scope.
#[local] Open Scope Z_scope.
#[local] Open Scope list_scope.

(** A run without faults: the transaction begins. *)
Definition begun (o : Oracle) (w : World) : World :=
  mkWorld (committed w) (committed w) (o_db_now o (tick w)) (session_sequence w) (memory w)
    (S (S (S (tick w)))).

Lemma transaction_no_fault {A} (body : M A) o w :
  (forall k, o_fault o k = None) ->
  transaction body o w = (let '(r, w2) := body o (begun o w) in (r, rollback w2)).
Proof.
  intros Hf. unfold transaction, begin, begin_tx, set_lock_timeout, advisory_lock, try, bind, query,
    statement. by rewrite !Hf.
Qed.

Section Facts.
Context `{Platform} `{WebAuthn} (e : Engine).

(** *** Password reset *)
Lemma ConfirmPasswordReset_ok token password o w u w' :
  ConfirmPasswordReset e token password o w = (Ok u, w') ->
  password_length_ok password = true /\
  exists r now salt hash, In r (password_reset_requests (committed w)) /\
    pr_token_hash r = Hash (e_Secrets e) "reset" "" token /\
    reads_clock o now /\ now < pr_expiration_timestamp r /\
    bcrypt_Generate salt password (BcryptCost e) = Some hash /\
    (forall x, In x (password_reset_requests (committed w')) ->
       In x (password_reset_requests (committed w)) /\
       reset_token (Hash (e_Secrets e) "reset" "" token) now x = false) /\
    password_replaced (pr_account_id r) (fun _ => false) hash (committed w) (committed w').
Proof.
  intros E. wp_start E. unfold ConfirmPasswordReset. wp_step.
  wp_use GenerateFromPassword_ok as (salt & Hs). wp_go.
  match goal with F : match delete_returning ?p ?l with _ => _ end = Some _ |- _ =>
    unfold delete_returning in F; destruct (one p l) as [r|] eqn:Er; simplify_eq/= end.
  apply one_some in Er as [Hr Et]. unfold reset_token in Et. bsimp.
  wp_call invalidate_ok as (t1 & _ & Hi & Hc1 & _).
  wp_call notifyAccount_ok as (y & _ & _ & Hm & Hc2 & _ & Hd2). wp_go.
  rewrite Hi in Hm. split; [done|]. exists r. do 3 eexists. split_and!; [done..| |].
  - destruct Hm as (z & expiry & _ & _ & _ & ->). unfold delete_sessions.
    intros x. rewrite cascade_password_reset_requests, in_sel. simpl. rewrite in_del. tauto.
  - eapply password_replaced_intro; [..|exact Hm|exact Hd2|]; [done..|]. intros x.
    by rewrite andb_true_r.
Qed.

(** *** Email change *)

(** The request a confirmation token stands for. *)
Definition change_found (o : Oracle) (d : DB) (token : string) (c : EmailChangeRequest) : Prop :=
  In c (email_change_requests d) /\ ec_token_hash c = Hash (e_Secrets e) "email-change" "" token /\
  exists now, reads_clock o now /\ now < ec_expiration_timestamp c.

(** The request after its first confirmation: it waits for the new address, with the token that is
    sent there and a new half hour. *)
Definition awaiting_new_email (token : string) (expiry : time) (c : EmailChangeRequest)
    : EmailChangeRequest :=
  {| ec_account_id := ec_account_id c; ec_previous_email := ec_previous_email c;
     ec_email := ec_email c; ec_stage := "awaiting_new_email";
     ec_token_hash := Hash (e_Secrets e) "email-change" "" token;
     ec_expiration_timestamp := expiry |}.

(** First stage: the owner of the previous address agreed; the new address is asked. The database
    differs in the account's request and one more mail, which carries the new token. *)
Definition first_stage (o : Oracle) (baseURL : string) (d d' : DB) (c : EmailChangeRequest)
    : Prop :=
  ec_stage c = "awaiting_previous_email" /\
  exists token now link x, drawn o token /\ reads_clock o now /\
    confirmationURL baseURL token = Ok link /\ x_exchange x = "mail" /\
    x_body x = MailBody (with_url link
      (mail_request (ec_email c) "email_change_new" (Some (now + 30 * Minute)))) /\
    d' = set_outbox (outbox d ++ [x]) (set_email_change_requests
      (upd (fun y => ec_account_id y == ec_account_id c)
         (awaiting_new_email token (now + 30 * Minute)) (email_change_requests d)) d).

(** Second stage: the new address agreed; it replaces the previous one, verified, the request is
    removed and the account's processes end. The database differs in nothing else. *)
Definition second_stage (o : Oracle) (d d' : DB) (c : EmailChangeRequest) : Prop :=
  ec_stage c <> "awaiting_previous_email" /\
  (exists a now later, In a (accounts d) /\ a_id a = ec_account_id c /\
     a_email a = ec_previous_email c /\ reads_clock o now /\ reads_clock o later /\
     In (set_a_email (ec_email c) (set_a_email_verification_timestamp (Some now) a)) (accounts d') /\
     d' = update_authentications (live_of (ec_account_id c)) (invalidate_row later)
       (set_email_change_requests
          (del (fun x => ec_account_id x == ec_account_id c) (email_change_requests d))
          (replace_email (ec_account_id c) (ec_previous_email c) (ec_email c) now d).2)) /\
  (forall b, In b (accounts d) -> a_id b <> ec_account_id c -> In b (accounts d')) /\
  (forall x, In x (email_change_requests d') -> ec_account_id x <> ec_account_id c) /\
  untrusted (ec_account_id c) d'.

Lemma replace_email_found account old email now d :
  (replace_email account old email now d).1 = 1 ->
  exists a, In a (accounts d) /\ a_id a = account /\ a_email a = old /\
    In (set_a_email email (set_a_email_verification_timestamp (Some now) a))
      (accounts (replace_email account old email now d).2).
Proof.
  unfold replace_email. simpl. destruct (sel _ (accounts d)) as [|a l] eqn:E; [done|]. intros _.
  assert (In a (a :: l)) as Hin by by left. rewrite <- E in Hin. rewrite in_sel in Hin.
  destruct Hin as [Hin Hp]. exists a. pose proof Hp as Hp'. bsimp. split_and!; try done.
  apply in_upd. exists a. split; [done|]. by rewrite !beq_refl.
Qed.

Lemma ConfirmEmail_ok token baseURL o w r w' :
  ConfirmEmail e token baseURL o w = (Ok r, w') ->
  exists c, change_found o (committed w) token c /\
    ((r = "pendingNewEmail" /\ first_stage o baseURL (committed w) (committed w') c) \/
     (r = "changed" /\ second_stage o (committed w) (committed w') c)).
Proof.
  intros E. wp_start E. unfold ConfirmEmail, or_conflict. wp_go.
  all: match goal with F : one _ _ = Some ?c |- _ =>
    apply one_some in F as [Hin Hc] end; unfold change_token in Hc; bsimp.
  - wp_use randomToken_ok as Hdr. wp_go. wp_call queueMail_ok as (x & Hxx & Hx & Hw & Hcm & _). wp_go.
    exists a. split; [split_and!; [done..|by eexists; split; [eauto|]]|]. left. split; [done|].
    split; [done|]. rewrite Hw. do 4 eexists. split_and!; eauto.
  - wp_call invalidate_ok as (t1 & Ht1 & Hi & Hc1 & _). wp_go.
    exists a. split; [split_and!; [done..|by eexists; split; [apply reads_clock_intro|]]|]. right. split; [done|].
    rewrite Hi. split_and!; [done| | | |].
    + match goal with F : Z.of_nat (length (sel _ (accounts _))) = 1 |- _ =>
        destruct (replace_email_found (ec_account_id a) (ec_previous_email a) (ec_email a)
          (o_now o (S (S (S (S (S (tick w))))))) (committed w) F) as (b & ? & ? & ? & ?) end.
      exists b, (o_now o (S (S (S (S (S (tick w))))))), t1. by split_and!.
    + intros b Hb Hne. simpl. apply in_upd. exists b. split; [done|].
      destruct (a_id b == ec_account_id a) eqn:Eb; [by bsimp|done].
    + simpl. intros x [_ Hx]%in_del. by bsimp.
    + apply invalidate_untrusted.
Qed.

(** *** A reset asked for an unknown address *)
Definition no_account (d : DB) (email : string) : Prop :=
  forall a, In a (accounts d) -> a_email a = email -> a_blocking_timestamp a <> None.
End Facts.

(** ** Properties *)
Section Properties.
Context `{Platform} `{WebAuthn} (e : Engine).

(** Asking for a reset of an address no unblocked account has succeeds, like any other, and
  leaves the database as it was: nothing is stored and no mail is queued. *)
Theorem StartPasswordReset_unknown_address email baseURL o w :
(forall k, o_fault o k = None) ->
confirmationURL baseURL "configuration-check" <> Err ErrUnavailable ->
no_account (committed w) (ToLower (TrimSpace email)) ->
exists w', StartPasswordReset e email baseURL o w = (Ok tt, w') /\ committed w' = committed w.
Proof.
intros Hf Hu Hn. unfold StartPasswordReset, bind, lift.
assert (exists url, confirmationURL baseURL "configuration-check" = Ok url) as [url ->].
{ unfold confirmationURL in *. destruct (url_Parse baseURL); [|done]. case_match; [done|eauto]. }
rewrite transaction_no_fault by done. unfold try, query_row, statement. rewrite Hf. simpl.
assert (one (fun a => (a_email a == ToLower (TrimSpace email)) &&
  negb (isSome (a_blocking_timestamp a))) (accounts (committed w)) = None) as ->; [|by eexists].
apply one_none. intros a Ha. destruct (a_email a == _) eqn:Ee; [|done]. bsimp.
right. apply isSome_true. destruct (a_blocking_timestamp a) eqn:Eb; [eauto|].
by destruct (Hn a Ha Ee).
Qed.

(** C23: a password is reset only with the token of an unexpired request; the request is consumed,
  the account gets the new hash, every process and confirmation of it is invalidated and every
  session of it ends. *)
Theorem ConfirmPasswordReset_ends_sessions token password o w u w' :
ConfirmPasswordReset e token password o w = (Ok u, w') ->
password_length_ok password = true /\
exists r now hash, In r (password_reset_requests (committed w)) /\
  pr_token_hash r = Hash (e_Secrets e) "reset" "" token /\
  reads_clock o now /\ now < pr_expiration_timestamp r /\
  (exists salt, bcrypt_Generate salt password (BcryptCost e) = Some hash) /\
  password_replaced (pr_account_id r) (fun _ => false) hash (committed w) (committed w').
Proof.
intros (Hl & r & now & salt & hash & ? & ? & ? & ? & ? & _ & ?)%ConfirmPasswordReset_ok.
split; [done|]. exists r, now, hash. split_and!; eauto.
Qed.

(** A reset token works once: in the database a successful reset leaves, the same token is
  refused, whatever the new password. *)
Theorem ConfirmPasswordReset_single_use token password o w u w' :
schema_ok (committed w) = true -> ConfirmPasswordReset e token password o w = (Ok u, w') ->
forall password2 o2 w2 u2 w3, committed w2 = committed w' ->
  ConfirmPasswordReset e token password2 o2 w2 <> (Ok u2, w3).
Proof.
intros Hd E password2 o2 w2 u2 w3 Hw E2.
apply ConfirmPasswordReset_ok in E as (_ & r & now & salt & hash & Hr & Hh & _ & Hx & _ & Hk & _).
apply ConfirmPasswordReset_ok in E2 as (_ & r2 & now2 & s2 & h2 & Hr2 & Hh2 & _).
rewrite Hw in Hr2. apply Hk in Hr2 as [Hin Ht].
assert (r2 = r) as -> by (eapply reset_key; [exact Hd|done..|congruence]).
unfold reset_token in Ht. bsimp. destruct Ht as [Ht|Ht]; [done|lia].
Qed.

(** C24: an email changes only in the second stage of an unexpired request. The first
  confirmation changes nothing but the account's request, which gets a new stage, a freshly drawn
  token and half an hour, and mails the link with that token to the new address; the second
  replaces exactly the address the request was made for, verified, removes the request, ends the
  account's processes and changes nothing else. *)
Theorem ConfirmEmail_two_stages token baseURL o w r w' :
ConfirmEmail e token baseURL o w = (Ok r, w') ->
exists c, change_found e o (committed w) token c /\
  ((r = "pendingNewEmail" /\ first_stage e o baseURL (committed w) (committed w') c) \/
   (r = "changed" /\ second_stage o (committed w) (committed w') c)).
Proof. apply ConfirmEmail_ok. Qed.
End Properties.

Definition reset_db : DB :=
  set_password_reset_requests
    [reset_row alice_id (hash_input "reset" "" "T") 1 (toy_now + Minute)] alice_db.
Definition toy_reset : result unit * World :=
  ConfirmPasswordReset toy_engine "T" "secret-2" quiet (at_rest reset_db).
Definition change_db (stage : string) : DB :=
  set_email_change_requests
    [{| ec_account_id := alice_id; ec_previous_email := "a@b"; ec_email := "c@d";
        ec_stage := stage; ec_token_hash := hash_input "email-change" "" "T";
        ec_expiration_timestamp := toy_now + Minute |}] alice_db.

Lemma StartPasswordReset_unknown_address_witness :
  exists w', StartPasswordReset toy_engine "x@y" "https://h" quiet (at_rest alice_db) = (Ok tt, w') /\
    committed w' = alice_db.
Proof.
  apply (StartPasswordReset_unknown_address toy_engine "x@y" "https://h" quiet (at_rest alice_db));
    [reflexivity|discriminate|]. intros a [<-|[]] Ha. discriminate Ha.
Defined.

Lemma ConfirmPasswordReset_ends_sessions_witness :
  exists hash, password_replaced alice_id (fun _ => false) hash reset_db (committed toy_reset.2).
Proof.
  destruct (ConfirmPasswordReset_ends_sessions toy_engine "T" "secret-2" quiet (at_rest reset_db) tt
    toy_reset.2) as (_ & r & now & hash & Hr & _ & _ & _ & _ & Hp); [apply run_ok; reflexivity|].
  destruct Hr as [<-|[]]. exists hash. exact Hp.
Defined.

Lemma ConfirmPasswordReset_single_use_witness :
  succeeds (fun _ => true) (ConfirmPasswordReset toy_engine "T" "secret-3" quiet
    (at_rest (committed toy_reset.2))).1 = false.
Proof.
  apply run_never. intros u2 w3.
  refine (ConfirmPasswordReset_single_use toy_engine "T" "secret-2" quiet (at_rest reset_db) tt
    toy_reset.2 _ _ "secret-3" quiet _ u2 w3 (committed_at_rest _));
    [reflexivity|apply run_ok; reflexivity].
Defined.

Lemma ConfirmEmail_two_stages_witness :
  (exists c, first_stage toy_engine quiet "https://h" (change_db "awaiting_previous_email")
    (committed (ConfirmEmail toy_engine "T" "https://h" quiet
       (at_rest (change_db "awaiting_previous_email"))).2) c) /\
  exists c, second_stage quiet (change_db "awaiting_new_email")
    (committed (ConfirmEmail toy_engine "T" "https://h" quiet
       (at_rest (change_db "awaiting_new_email"))).2) c.
Proof.
  split.
  - destruct (ConfirmEmail_two_stages toy_engine "T" "https://h" quiet
      (at_rest (change_db "awaiting_previous_email")) "pendingNewEmail"
      (ConfirmEmail toy_engine "T" "https://h" quiet
        (at_rest (change_db "awaiting_previous_email"))).2) as (c & _ & [[_ Hs]|[Hs _]]);
      [apply run_ok; reflexivity|exists c; exact Hs|discriminate Hs].
  - destruct (ConfirmEmail_two_stages toy_engine "T" "https://h" quiet
      (at_rest (change_db "awaiting_new_email")) "changed"
      (ConfirmEmail toy_engine "T" "https://h" quiet
        (at_rest (change_db "awaiting_new_email"))).2) as (c & _ & [[Hs _]|[_ Hs]]);
      [apply run_ok; reflexivity|discriminate Hs|exists c; exact Hs].
Defined.
