(* ===== verification/FactorFacts.v ===== *)
(** What totp.go, identities.go and passkeys.go guarantee of an account's factors: enrolment
    needs a proved code, backup codes come in tens, the last credential cannot be removed. *)
From S2P Require Import Prelude GoLib Schema Limiter TxMonad Secrets PasskeyVerifier Engine Process Mail Passkeys OAuth Totp Identities Toy ProcessFacts FlowFacts.
#[local] Open Scope string_scope.
#[local] Open Scope Z_scope.
#[local] Open Scope list_scope.

Section Facts.
Context `{Platform} `{WebAuthn} (e : Engine).

(** *** Backup codes *)
Definition code_row (account : uuid) (at_ : time) (code : string) : BackupCodeRow :=
  {| b_account_id := account;
     b_code_hash := Hash (e_Secrets e) "backup" (uuid_String account) code;
     b_generation_timestamp := at_ |}.

Lemma insert_backup_codes_ok account at_ n o w codes w' :
  insert_backup_codes e account at_ n o w = (Ok codes, w') ->
  working w' = set_backup_codes
    (backup_codes (working w) ++ map (code_row account at_) codes) (working w) /\
  committed w' = committed w /\ tx_now w' = tx_now w /\ length codes = n /\
  (schema_ok (working w) = true -> schema_ok (working w') = true).
Proof.
  revert w codes w'. induction n as [|n IH]; intros w codes w' E; wp_start E; simpl.
  - wp_go. rewrite app_nil_r. destruct w as [c []]; done.
  - wp_step. wp_skip. wp_go. wp_call IH as (Hw & Hc & Ht & Hl & Hs). wp_go.
    split_and!; [|done|done|simpl; lia|by intros _; apply Hs].
    rewrite Hw. simpl. unfold ins. by rewrite <- app_assoc.
Qed.

(** The account's codes are exactly [codes], ten different ones, stored as hashes. *)
Definition codes_issued (account : uuid) (codes : list string) (d : DB) : Prop :=
  length codes = 10%nat /\ List.NoDup codes /\
  exists at_, sel (fun b => b_account_id b == account) (backup_codes d) =
    map (code_row account at_) codes.

Lemma sel_code_rows account at_ codes :
  sel (fun b => b_account_id b == account) (map (code_row account at_) codes) =
    map (code_row account at_) codes.
Proof. induction codes as [|c codes IH]; simpl; [done|]. by rewrite beq_refl, IH. Qed.

Lemma replaceBackupCodes_ok who o w r w' :
  replaceBackupCodes e who o w = (Ok r, w') ->
  codes_issued (AccountID who) (bc_Codes r) (working w') /\
  (forall b, b_account_id b <> AccountID who ->
     In b (backup_codes (working w')) <-> In b (backup_codes (working w))) /\
  set_backup_codes [] (working w') = set_backup_codes [] (working w) /\
  committed w' = committed w /\ tx_now w' = tx_now w /\ schema_ok (working w') = true.
Proof.
  intros E. wp_start E. unfold replaceBackupCodes. wp_go.
  wp_call insert_backup_codes_ok as (Hw & Hc & Ht & Hl & Hs). wp_go.
  match goal with F : schema_ok _ = true |- _ => specialize (Hs F) end.
  assert (sel (fun b => b_account_id b == AccountID who) (backup_codes (working w0)) =
    map (code_row (AccountID who) (o_now o (tick w))) a) as Hsel.
  { rewrite Hw. simpl. by rewrite sel_app, sel_del, sel_code_rows. }
  split_and!; [split_and!; [done| |by eexists]| |by rewrite Hw|done..].
  - revert Hs. unfold schema_ok, unique_ok, factors_unique. rewrite !andb_true_iff. intros Hs.
    destruct_and! Hs. unfold distinct in *.
    match goal with F : bool_decide (base.NoDup (map _ (backup_codes _))) = true |- _ =>
      apply bool_decide_eq_true in F; rename F into Hnd end.
    apply (sublist_NoDup (map (fun b => (b_account_id b, b_code_hash b))
      (sel (fun b => b_account_id b == AccountID who) (backup_codes (working w0))))) in Hnd;
      [|apply map_sel_sublist].
    rewrite Hsel, map_map in Hnd. apply NoDup_ListNoDup in Hnd. by eapply List.NoDup_map_inv.
  - intros b Hb. rewrite Hw. simpl. rewrite in_app_iff, in_del, in_map_iff. split.
    + by intros [[? _]|(c & <- & _)].
    + intros Hin. left. split; [done|]. by apply beq_false.
Qed.

(** *** TOTP *)

(** The secret that [code] proves: the one of an unexpired enrolment of this very session. *)
Definition enrolment_proved (o : Oracle) (d : DB) (who : Principal) (code : string)
    (encrypted : bytes) (step : Z) : Prop :=
  exists r secret now1 now2, In r (totp_activation_requests d) /\
    ta_account_id r = AccountID who /\ ta_session_id r = SessionID who /\
    ta_encrypted_secret r = encrypted /\ reads_clock o now1 /\ now1 < ta_expiration_timestamp r /\
    Decrypt (e_Secrets e) encrypted (uuid_String (AccountID who)) = Ok secret /\
    reads_clock o now2 /\ In step (totp_window now2) /\ totp_code secret step = code.

Lemma ConfirmTotp_ok who code o w r w' :
  ConfirmTotp e who code o w = (Ok r, w') ->
  principal_ok o (committed w) who "totpEnrollment" /\
  exists encrypted step t, enrolment_proved o (committed w) who code encrypted step /\
    In t (totp (committed w')) /\ tp_account_id t = AccountID who /\
    tp_encrypted_secret t = encrypted /\ tp_last_used_step t = step /\
    (forall x, In x (totp_activation_requests (committed w')) -> ta_account_id x <> AccountID who) /\
    (forall s, In s (sessions (committed w')) -> In s (sessions (committed w)) /\
       (s_account_id s = AccountID who -> s_id s = SessionID who)) /\
    untrusted (AccountID who) (committed w') /\
    codes_issued (AccountID who) (bc_Codes r) (committed w').
Proof.
  intros E. wp_start E. unfold ConfirmTotp. wp_step. wp_skip. wp_go.
  wp_use (checkPrincipal_acts "totpEnrollment") as Hp. unfold or_conflict. wp_go.
  wp_call invalidate_ok as (t1 & _ & Hi & Hc1 & _ & Hok). wp_go.
  wp_call replaceBackupCodes_ok as (Hcodes & _ & Hsame & Hc2 & _ & _). wp_go.
  match type of Hsame with _ = set_backup_codes _ ?d =>
    assert (totp (working w1) = totp d) as Et by exact (f_equal totp Hsame);
    assert (totp_activation_requests (working w1) = totp_activation_requests d) as Ea
      by exact (f_equal totp_activation_requests Hsame);
    assert (sessions (working w1) = sessions d) as Es by exact (f_equal sessions Hsame);
    assert (authentications (working w1) = authentications d) as Eu
      by exact (f_equal authentications Hsame) end.
  clear Hsame. rewrite delete_sessions_totp in Et by done.
  match goal with F : totpStep _ _ _ _ = Some _ |- _ => apply totpStep_some in F as (Hstep & _ & _ & ?) end.
  match goal with F : option_map _ (one ?p ?l) = Some _ |- _ =>
    destruct (one p l) as [r|] eqn:Er; [injection F as <-|discriminate F];
    apply one_some in Er as [Hr Er] end.
  unfold activation_request in Er. rewrite !andb_true_iff, !beq_true, Z.ltb_lt in Er.
  destruct Er as [[Er1 Er2] Er3].
  split; [done|]. do 3 eexists. split_and!.
  - exists r. do 3 eexists. split_and!; [done|done|done|done| |exact Er3|eassumption| |exact Hstep|done]; eauto.
  - rewrite Et, Hi. simpl. rewrite in_ins. by right.
  - done.
  - done.
  - done.
  - intros x. rewrite Ea. unfold delete_sessions. rewrite cascade_totp_activation_requests, !in_sel.
    rewrite Hi. simpl. rewrite in_del. intros [[[_ Hx] _] _]. by bsimp.
  - intros s. rewrite Es. intros [Hin Hs]%delete_sessions_in. rewrite Hi in Hin. split; [done|].
    intros Ha. rewrite Ha, beq_refl in Hs. simpl in Hs.
    by rewrite negb_beq_false in Hs.
  - intros u. rewrite Eu. revert u. apply delete_sessions_untrusted. rewrite Hi.
    apply invalidate_untrusted.
  - done.
Qed.

(** *** Credentials left *)

(** A first factor the account can still prove. *)
Definition credential_left (account : uuid) (d : DB) : Prop :=
  exists a, In a (accounts d) /\ a_id a = account /\
    (a_password_hash a <> None \/ (exists i, In i (identities d) /\ i_account_id i = account) \/
     exists k, In k (passkeys d) /\ k_account_id k = account).

Lemma sel_pos {R} (p : R -> bool) (t : list R) :
  Z.of_nat (length (sel p t)) <> 0 -> exists r, In r t /\ p r = true.
Proof.
  destruct (sel p t) as [|r l] eqn:E; [done|]. intros _. exists r. rewrite <- in_sel, E. by left.
Qed.

Lemma remaining_left account a p q d :
  account_row d account = Some a ->
  (password_count a + identity_count p d + passkey_count q d == 0) = false ->
  In a (accounts d) /\ a_id a = account /\
  (a_password_hash a <> None \/ (exists i, In i (identities d) /\ p i = true) \/
   exists k, In k (passkeys d) /\ q k = true).
Proof.
  intros Ha Hn. apply one_some in Ha as [Ha Hi]. bsimp. split; [done|]. split; [done|].
  unfold password_count, identity_count, passkey_count in Hn.
  destruct (decide (Z.of_nat (length (sel p (identities d))) = 0)) as [Ei|Ei];
    [|right; left; by apply sel_pos].
  destruct (decide (Z.of_nat (length (sel q (passkeys d))) = 0)) as [Ek|Ek];
    [|right; right; by apply sel_pos].
  left. rewrite Ei, Ek in Hn. by destruct (a_password_hash a).
Qed.

Lemma UnlinkIdentity_ok who grant provider o w u w' :
  UnlinkIdentity e who grant provider o w = (Ok u, w') ->
  one_of ["google"; "vk"] provider = true /\
  (exists g, grant_accepted e o (committed w) grant "identityUnlink" who g) /\
  identities (committed w') = del (fun i => (i_account_id i == AccountID who) && (i_provider i == provider))
    (identities (committed w)) /\
  credential_left (AccountID who) (committed w') /\ untrusted (AccountID who) (committed w').
Proof.
  intros E. wp_start E. unfold UnlinkIdentity. wp_step. wp_step.
  wp_call ConsumeGrant_ok as (g & Hg & _ & Hw & Hc & _). wp_go.
  wp_call invalidate_ok as (t1 & _ & Hi & Hc1 & _). wp_go.
  unfold remaining_after_identity in *. destruct (account_row _ _) as [b|] eqn:Eb; [|done].
  match goal with F : option_map _ _ = Some _ |- _ => injection F as <- end.
  match goal with F : (_ == 0) = false |- _ =>
    apply (remaining_left _ _ _ _ _ Eb) in F as (Hb & Hbi & Hl) end.
  rewrite Hw in Hb, Hl. rewrite Hi, Hw.
  split_and!; [by apply one_of_spec; bsimp; naive_solver|by exists g|done| |apply invalidate_untrusted].
  exists b. split; [done|]. split; [done|]. destruct Hl as [?|[(i & Hin & Hp)|(k1 & Hin & Hp)]].
  - by left.
  - right. left. exists i. simpl in *. rewrite in_del. bsimp. split; [|done]. split; [done|].
    by right.
  - right. right. exists k1. by bsimp.
Qed.

(** *** Passkeys *)
Lemma delete_passkeys_kept p d :
  schema_ok d = true ->
  accounts (delete_passkeys p d) = accounts d /\ identities (delete_passkeys p d) = identities d /\
  passkeys (delete_passkeys p d) = del p (passkeys d).
Proof.
  intros Hd. unfold delete_passkeys. rewrite cascade_accounts, cascade_identities, cascade_passkeys.
  revert Hd. unfold schema_ok, fk_ok. rewrite !andb_true_iff, !forallb_forall. intros Hd.
  destruct_and! Hd. split; [done|]. split; apply sel_all; intros r; rewrite has_account_cascade;
    simpl; rewrite ?in_del; intros Hr.
  - by match goal with F : forall x, In x (identities _) -> _ |- _ => apply F end.
  - by match goal with F : forall x, In x (passkeys _) -> _ |- _ => apply F, Hr end.
Qed.

Lemma DeletePasskey_ok who grant id o w u w' :
  DeletePasskey e who grant id o w = (Ok u, w') ->
  (exists g, grant_accepted e o (committed w) grant "passkeyRemoval" who g) /\
  passkeys (committed w') = del (fun k => (k_account_id k == AccountID who) && (k_id k == id))
    (passkeys (committed w)) /\
  credential_left (AccountID who) (committed w') /\ untrusted (AccountID who) (committed w').
Proof.
  intros E. wp_start E. unfold DeletePasskey. wp_step.
  wp_call ConsumeGrant_ok as (g & Hg & _ & Hw & Hc & _ & Hok). wp_go.
  wp_call invalidate_ok as (t1 & _ & Hi & Hc1 & _). wp_go.
  unfold remaining_after_passkey in *. destruct (account_row _ _) as [b|] eqn:Eb; [|done].
  match goal with F : option_map _ _ = Some _ |- _ => injection F as <- end.
  match goal with F : (_ == 0) = false |- _ =>
    apply (remaining_left _ _ _ _ _ Eb) in F as (Hb & Hbi & Hl) end.
  destruct (delete_passkeys_kept (fun k => (k_account_id k == AccountID who) && (k_id k == id))
    (working w0) Hok) as (Hka & Hki & Hkk).
  revert Hka Hki Hkk Hi. generalize (delete_passkeys (fun k =>
    (k_account_id k == AccountID who) && (k_id k == id)) (working w0)) as D.
  intros D Ea Ei Ek Hi. rewrite <- Ea, <- Ei in *.
  unfold credential_left. rewrite Hi. simpl. rewrite Ek.
  split_and!; [by exists g|by rewrite Hw| |apply invalidate_untrusted].
  exists b. split; [done|]. split; [done|]. destruct Hl as [?|[(i & Hin & Hp)|(k1 & Hin & Hp)]].
  - by left.
  - right. left. exists i. by bsimp.
  - right. right. exists k1. rewrite in_del. bsimp. split; [|done]. split; [done|]. by right.
Qed.
End Facts.

(** ** Properties *)
Section Properties.
Context `{Platform} `{WebAuthn} (e : Engine).

(** C25: TOTP is enabled only by a session that may act and proves a code of the secret it was
  given itself, in an unexpired enrolment. The step of that code counts as used, the enrolment
  is over, the account's processes are invalidated, its other sessions end, and its backup
  codes are the ten new ones. *)
Theorem ConfirmTotp_proves_enrolment who code o w r w' :
ConfirmTotp e who code o w = (Ok r, w') ->
principal_ok o (committed w) who "totpEnrollment" /\
exists encrypted step t, enrolment_proved e o (committed w) who code encrypted step /\
  In t (totp (committed w')) /\ tp_account_id t = AccountID who /\
  tp_encrypted_secret t = encrypted /\ tp_last_used_step t = step /\
  (forall x, In x (totp_activation_requests (committed w')) -> ta_account_id x <> AccountID who) /\
  (forall s, In s (sessions (committed w')) -> In s (sessions (committed w)) /\
     (s_account_id s = AccountID who -> s_id s = SessionID who)) /\
  untrusted (AccountID who) (committed w') /\
  codes_issued e (AccountID who) (bc_Codes r) (committed w').
Proof. apply ConfirmTotp_ok. Qed.

(** A rotation replaces all backup codes of the account by ten different new ones, of which
  only hashes are stored; other accounts keep theirs. *)
Theorem RotateBackupCodes_ten_codes who grant o w r w' :
RotateBackupCodes e who grant o w = (Ok r, w') ->
(exists g, grant_accepted e o (committed w) grant "backupCodesRotation" who g) /\
codes_issued e (AccountID who) (bc_Codes r) (committed w') /\
(forall b, b_account_id b <> AccountID who ->
   In b (backup_codes (committed w')) <-> In b (backup_codes (committed w))) /\
untrusted (AccountID who) (committed w').
Proof.
intros E. wp_start E. unfold RotateBackupCodes. wp_step.
wp_call ConsumeGrant_ok as (g & Hg & _ & Hw & Hc & _).
wp_call replaceBackupCodes_ok as (Hcodes & Ho & _ & Hc2 & _).
wp_call invalidate_ok as (t1 & _ & Hi & Hc1 & _). wp_go.
rewrite Hw in Ho. rewrite Hi. split_and!; [by exists g|done|done|apply invalidate_untrusted].
Qed.

(** C32: an identity is unlinked only with a confirmation for it, and never the last way the
  account can prove itself: afterwards a password, another identity or a passkey is left. *)
Theorem UnlinkIdentity_keeps_credential who grant provider o w u w' :
UnlinkIdentity e who grant provider o w = (Ok u, w') ->
(exists g, grant_accepted e o (committed w) grant "identityUnlink" who g) /\
identities (committed w') = del (fun i => (i_account_id i == AccountID who) && (i_provider i == provider))
  (identities (committed w)) /\
credential_left (AccountID who) (committed w') /\ untrusted (AccountID who) (committed w').
Proof. by intros [_ ?]%UnlinkIdentity_ok. Qed.

(** A passkey is deleted only with a confirmation for it, and never the last way the account
  can prove itself: afterwards a password, an identity or another passkey is left. *)
Theorem DeletePasskey_keeps_credential who grant id o w u w' :
DeletePasskey e who grant id o w = (Ok u, w') ->
(exists g, grant_accepted e o (committed w) grant "passkeyRemoval" who g) /\
passkeys (committed w') = del (fun k => (k_account_id k == AccountID who) && (k_id k == id))
  (passkeys (committed w)) /\
credential_left (AccountID who) (committed w') /\ untrusted (AccountID who) (committed w').
Proof. apply DeletePasskey_ok. Qed.
End Properties.

(** Alice's session asked for TOTP; the toy digest makes every step's code the same. *)
Definition enrolling_db : DB :=
  set_totp_activation_requests
    [{| ta_account_id := alice_id; ta_session_id := 5;
        ta_encrypted_secret := "nnnnnnnnnnnnsecret";
        ta_expiration_timestamp := toy_now + Minute |}] alice_db.
Definition toy_confirm : result BackupCodes * World :=
  ConfirmTotp toy_engine who_alice (totp_code "s" 0) quiet (at_rest enrolling_db).
Definition linked_db : DB :=
  set_identities [{| i_account_id := alice_id; i_provider := "vk"; i_subject := "7" |}]
    (granted_db "identityUnlink").
Definition toy_passkey : PasskeyRow :=
  {| k_id := 40; k_account_id := alice_id; k_credential_id := "c"; k_public_key := "p";
     k_name := "phone"; k_sign_count := 1; k_backup_eligible := false; k_backup_state := false;
     k_creation_timestamp := 1; k_last_use_timestamp := None |}.
Definition passkey_db : DB := set_passkeys [toy_passkey] (granted_db "passkeyRemoval").

Lemma ConfirmTotp_proves_enrolment_witness :
  exists t, In t (totp (committed toy_confirm.2)) /\ tp_account_id t = alice_id.
Proof.
  destruct (run_ex (ConfirmTotp toy_engine who_alice (totp_code "s" 0)) quiet
    (at_rest enrolling_db) (fun _ => true)) as (r & E & _); [vm_compute; reflexivity|].
  destruct (ConfirmTotp_proves_enrolment toy_engine who_alice (totp_code "s" 0) quiet
    (at_rest enrolling_db) r _ E) as (_ & x & step & t & _ & Ht & Ha & _).
  exists t. split; [exact Ht|exact Ha].
Defined.

Lemma RotateBackupCodes_ten_codes_witness :
  exists codes, codes_issued toy_engine alice_id codes
    (committed (RotateBackupCodes toy_engine who_alice "G" quiet
       (at_rest (granted_db "backupCodesRotation"))).2).
Proof.
  destruct (run_ex (RotateBackupCodes toy_engine who_alice "G") quiet
    (at_rest (granted_db "backupCodesRotation")) (fun _ => true)) as (r & E & _);
    [vm_compute; reflexivity|].
  destruct (RotateBackupCodes_ten_codes toy_engine who_alice "G" quiet
    (at_rest (granted_db "backupCodesRotation")) r _ E) as (_ & Hc & _).
  exists (bc_Codes r). exact Hc.
Defined.

Lemma UnlinkIdentity_keeps_credential_witness :
  credential_left alice_id
    (committed (UnlinkIdentity toy_engine who_alice "G" "vk" quiet (at_rest linked_db)).2).
Proof.
  destruct (UnlinkIdentity_keeps_credential toy_engine who_alice "G" "vk" quiet (at_rest linked_db) tt
    (UnlinkIdentity toy_engine who_alice "G" "vk" quiet (at_rest linked_db)).2) as (_ & _ & Hl & _);
    [apply run_ok; vm_compute; reflexivity|exact Hl].
Defined.

Lemma DeletePasskey_keeps_credential_witness :
  credential_left alice_id
    (committed (DeletePasskey toy_engine who_alice "G" 40%N quiet (at_rest passkey_db)).2).
Proof.
  destruct (DeletePasskey_keeps_credential toy_engine who_alice "G" 40%N quiet (at_rest passkey_db) tt
    (DeletePasskey toy_engine who_alice "G" 40%N quiet (at_rest passkey_db)).2) as (_ & _ & Hl & _);
    [apply run_ok; vm_compute; reflexivity|exact Hl].
Defined.
