(* ===== verification/OAuthFacts.v ===== *)
(** What oauth.go guarantees: an OAuth request works once and only for the step and client it
    was made for; a provider's answer is accepted only for the identity, nonce and freshness the
    process asks for. *)
From S2P Require Import Prelude GoLib Schema Limiter TxMonad Secrets PasskeyVerifier Engine Process Mail Passkeys OAuth Challenge Toy ProcessFacts ChallengeFacts.
#[local] Open Scope string_scope.
#[local] Open Scope Z_scope.
#[local] Open Scope list_scope.

Section Facts.
Context `{Platform} `{WebAuthn} (e : Engine).

(** *** Consuming the request *)

(** What the first transaction found: the nonce of an ID-token step, or the one request of that
    state, provider, step and client, which is gone afterwards. *)
Definition request_consumed (o : Oracle) (d d' : DB) (cid : uuid) (flow : string) (proof : Proof)
    (c : Consumed) : Prop :=
  if f_IDToken proof == "" then
    exists r now, In r (oauth_requests d) /\ reads_clock o now /\
      oauth_request e (f_State proof) (f_Method proof) cid flow now r = true /\
      co_nonce_hash c = o_nonce_hash r /\ co_redirect c = o_redirect_uri r /\
      co_encrypted c = o_encrypted_code_verifier r /\
      d' = set_oauth_requests
             (del (oauth_request e (f_State proof) (f_Method proof) cid flow now) (oauth_requests d)) d
  else
    f_Method proof = "google" /\ d' = d /\
    exists g, In g (google_authentication_steps d) /\ gt_step_id g = cid /\
      co_nonce_hash c = gt_nonce_hash g.

(** The process and step an attempt may work on. *)
Definition pending_step (o : Oracle) (d : DB) (id cid : uuid) (flow : string) (who : Principal)
    (u : Authentication) (t : Step) : Prop :=
  loaded e o d id flow who u /\ u_status u = "pending" /\
  In t (authentication_steps d) /\ t_id t = cid /\ t_authentication_id t = id /\
  t_status t = "pending" /\ exists now, reads_clock o now /\ now < t_expiration_timestamp t.

Lemma pending_intro o d id cid flow who u st k :
  loaded e o d id flow who u -> In st (authentication_steps d) -> t_id st = cid ->
  t_authentication_id st = id ->
  (p_Status (process_of u) != "pending") || (c_Status (challenge_of st) != "pending") ||
  negb (After (c_ExpirationTimestamp (challenge_of st)) (o_now o k)) = false ->
  pending_step o d id cid flow who u st.
Proof. unfold After. intros ???? Hp. bsimp. split_and!; eauto. Qed.

Lemma consume_request_ok id cid flow who proof o w c w' :
  consume_request e id cid flow who proof o w = (Ok c, w') ->
  (exists u t, pending_step o (committed w) id cid flow who u t /\ co_process c = process_of u /\
     StepMethod (t_type t) = f_Method proof) /\
  request_consumed o (committed w) (committed w') cid flow proof c.
Proof.
  intros E. wp_start E. unfold consume_request. wp_step.
  wp_use load_ok as (u & -> & Hu). wp_use loadChallenge_ok as (st & Ht & Hti & Hta & ->).
  wp_go. wp_skip. wp_go.
  all: (split; [exists u, st|]).
  1,3: match goal with F : _ || _ || negb (After _ _) = false |- _ =>
         apply orb_false_iff in F as [G Hx] end;
       apply orb_false_iff in G as [G Hm]; rewrite negb_beq_false in Hm;
       (split; [eapply pending_intro; [done..|]; rewrite G; exact Hx|]).
  - destruct (one _ (google_authentication_steps _)) as [g|]; simplify_eq/=; done.
  - match goal with F : match delete_returning ?p ?l with _ => _ end = Some _ |- _ =>
      unfold delete_returning in F; destruct (one p l); simplify_eq/=; done end.
  - destruct (one _ (google_authentication_steps _)) as [g|] eqn:Eg; simplify_eq/=.
    apply one_some in Eg as [Hg Eg]. unfold request_consumed. bsimp.
    rewrite bool_decide_eq_false_2 by done. split_and!; [done|done|]. by exists g.
  - match goal with F : match delete_returning ?p ?l with _ => _ end = Some _ |- _ =>
      unfold delete_returning in F; destruct (one p l) as [r|] eqn:Er; simplify_eq/= end.
    apply one_some in Er as [Hr Er]. unfold request_consumed.
    match goal with F : (f_IDToken proof != "") = false |- _ =>
      rewrite negb_beq_false in F; rewrite F, beq_refl end.
    exists r. eexists. split_and!; [done| |exact Er|done..]. eauto.
Qed.

(** *** The provider's answer *)

(** The answer names a subject, carries the nonce the step was made with (Google), and, for a
    sensitive purpose, says that the user authenticated just now. *)
Definition answer_accepted (o : Oracle) (proof : Proof) (c : Consumed) (i : ProviderIdentity) : Prop :=
  id_Subject i <> "" /\
  (f_Method proof = "google" ->
     id_Nonce i <> "" /\ co_nonce_hash c = Hash (e_Secrets e) "nonce" "" (id_Nonce i)) /\
  (sensitive (p_Purpose (co_process c)) = true -> exists t now now2,
     id_AuthenticatedAt i = Some t /\ reads_clock o now /\ now - ReuseTTL e <= t /\
     reads_clock o now2 /\ t <= now2 + Minute).

(** Where the answer comes from. *)
Definition answered (provider : Provider) (proof : Proof) (c : Consumed) (i : ProviderIdentity) : Prop :=
  exists k, if f_IDToken proof == "" then
      exists verifier, Decrypt (e_Secrets e) (co_encrypted c) ("oauth:" +:+ f_State proof) = Ok verifier /\
        Exchange provider k (f_Code proof) (co_redirect c) verifier = Ok i
    else Native provider k (f_IDToken proof) = Ok i.

Lemma answer_intro o proof c i k1 k2 :
  (id_Subject i == "") || ((f_Method proof == "google") && ((id_Nonce i == "") ||
    (co_nonce_hash c != Hash (e_Secrets e) "nonce" "" (id_Nonce i)))) = false ->
  sensitive (p_Purpose (co_process c)) && match id_AuthenticatedAt i with
    | Some t => Before t (o_now o k1 - ReuseTTL e) || After t (o_now o k2 + Minute)
    | None => true end = false ->
  answer_accepted o proof c i.
Proof.
  unfold Before, After. intros Hs Ht. rewrite orb_false_iff, beq_false in Hs. destruct Hs as [Hs Hn].
  split_and!; [done| |].
  - intros Hg. rewrite Hg, beq_refl in Hn. simpl in Hn.
    by rewrite orb_false_iff, beq_false, negb_beq_false in Hn.
  - intros Hp. rewrite Hp in Ht. simpl in Ht. destruct (id_AuthenticatedAt i) as [t|]; [|done].
    rewrite orb_false_iff, !Z.ltb_ge in Ht. exists t, (o_now o k1), (o_now o k2).
    split_and!; eauto; lia.
Qed.

Lemma provider_identity_ok provider proof c o w i w' :
  provider_identity e provider proof c o w = (Ok i, w') ->
  answered provider proof c i /\ answer_accepted o proof c i.
Proof.
  intros E. wp_start E. unfold provider_identity. wp_go.
  all: wp_enter Er; wp_go; injection Er as Er;
    (split; [|by eapply answer_intro]); exists (tick w).
  - match goal with F : (f_IDToken proof != "") = true |- _ =>
      rewrite negb_beq_true in F; by rewrite bool_decide_eq_false_2 end.
  - match goal with F : (f_IDToken proof != "") = false |- _ =>
      rewrite negb_beq_false in F; rewrite F, beq_refl end. by eexists.
Qed.

(** *** The second transaction *)

(** The account the answer's subject is linked to, unblocked. *)
Definition linked (d : DB) (provider subject : string) (account : uuid) : Prop :=
  (exists i, In i (identities d) /\ i_provider i = provider /\ i_subject i = subject /\
     i_account_id i = account) /\
  exists a, In a (accounts d) /\ a_id a = account /\ a_blocking_timestamp a = None.

Lemma identity_account_linked provider subject d account :
  identity_account provider subject d = Some account -> linked d provider subject account.
Proof.
  unfold identity_account. destruct (one _ _) as [i|] eqn:Ei; [|done]. intros [= <-].
  apply one_some in Ei as [Hi Ei]. rewrite !andb_true_iff, !beq_true, any_true in Ei.
  destruct Ei as [[Hp Hs] (a & Ha & Hb)]. bsimp. split; [by exists i|by exists a].
Qed.

Lemma finish_provider_ok id cid flow who proof i o w a w' :
  finish_provider e id cid flow who proof i o w = (Ok a, w') ->
  exists u t account d1, pending_step o (committed w) id cid flow who u t /\
    linked (committed w) (f_Method proof) (id_Subject i) account /\
    (sensitive (u_purpose u) = true -> u_account_id u = Some account) /\
    finished e o d1 (committed w') (set_p_accountID (Some account) (process_of u))
      (at_Authentication a).
Proof.
  intros E. wp_start E. unfold finish_provider, cancelAlternatives. wp_step.
  wp_use load_ok as (u & -> & Hu). wp_use loadChallenge_ok as (st & Ht & Hti & Hta & ->).
  wp_go. wp_skip. wp_go. wp_enter En.
  match goal with F : identity_account _ _ _ = Some ?x |- _ =>
    apply identity_account_linked in F; rename F into Hl; rename x into account end.
  match goal with F : _ || _ || negb (After _ _) = false |- _ =>
    apply (pending_intro _ _ _ _ _ _ _ _ _ Hu Ht Hti Hta) in F; rename F into Hpend end.
  match goal with F : sensitive _ && _ = false |- _ => rename F into Hs end.
  assert (sensitive (u_purpose u) = true -> u_account_id u = Some account) as Hacc.
  { intros Hp. simpl in Hs. rewrite Hp in Hs. simpl in Hs. rewrite negb_beq_false in Hs.
    destruct Hu as (_ & _ & _ & _ & _ & Hu). destruct (Hu Hp) as (Ha & _). rewrite Ha in *. by subst. }
  apply next_done in En; [|apply Hpend].
  match type of En with _ <-> evidence_complete ?d ?p =>
    assert (forall a d', finished e o d d' p a -> exists u t account d1,
      pending_step o (committed w) id cid flow who u t /\
      linked (committed w) (f_Method proof) (id_Subject i) account /\
      (sensitive (u_purpose u) = true -> u_account_id u = Some account) /\
      finished e o d1 d' (set_p_accountID (Some account) (process_of u)) a) as Hfin
      by (intros; exists u, st, account, d; by split_and!) end.
  wp_go.
  - wp_call complete_status as
      (Hst & Ha & Hi & Hu' & _ & token & t1 & now & Ht' & _ & _ & Hw & _ & _ & _ & Hd).
    wp_skip. wp_go. apply Hfin. unfold finished. simpl in *. split_and!; try done. right.
    split_and!; [done|by apply En|by eexists _, _, _].
  - wp_skip. wp_go. apply Hfin. unfold finished. simpl in *. split_and!; try done. by left.
Qed.

(** *** Refused attempts *)

(** A failure is counted, or nothing is. *)
Lemma count_provider_failure_refused id cid flow who o w r w' :
  count_provider_failure e id cid flow who o w = (r, w') ->
  exists err, r = Err err /\
    (committed w' = committed w /\ unremarkable err \/
     failure_counted e (committed w) (committed w') id cid err).
Proof.
  intros E. pattern r, w'. eapply wp_run; [exact E|]. clear E r w'. unfold count_provider_failure.
  wp_rule; [eexists; split; [done|]; left; split; [done|]; by destruct_or?; naive_solver|].
  wp_any E1; [|eexists; split; [done|]; left; split; [done|]; by eapply err_load].
  apply load_ok in E1 as (u & -> & (Hu & Hi & _)).
  wp_any E1; [|eexists; split; [done|]; left; split; [done|]; by eapply err_loadChallenge].
  apply loadChallenge_ok in E1 as (t' & _ & _ & _ & ->). wsimpl.
  wp_go; eexists; (split; [done|]); try by left.
  all: right; (split; [done|]); exists u; simpl in *; bsimp.
  all: (split_and!; [done..|]).
  all: destruct (Z.leb_spec (MaxAttempts e) (u_failed_attempts u + 1)); first [done|lia].
Qed.

Lemma attemptProvider_refused id cid flow who proof o w err w' :
  attemptProvider e id cid flow who proof o w = (Err err, w') ->
  committed w' = committed w \/ exists c, request_consumed o (committed w) (committed w') cid flow proof c.
Proof.
  unfold attemptProvider. destruct (Providers e (f_Method proof)) as [provider|]; [|by intros [= _ <-]; left].
  unfold bind. destruct (consume_request _ _ _ _ _ _ o w) as [[c|x] w1] eqn:E1.
  - apply consume_request_ok in E1 as [_ Hc].
    pose proof (ro_provider_identity e provider proof c o w1) as (_ & E2 & _).
    destruct (provider_identity e provider proof c o w1) as [[i|x] w2]; simpl in E2.
    + intros E3%atomic. right. exists c. by rewrite E3, E2.
    + intros [= _ <-]. right. exists c. by rewrite E2.
  - apply atomic in E1. intros [= _ <-]. by left.
Qed.

(** What a refused attempt through a provider leaves: the request of its state may be used up,
    and then a failure may be counted; it is whenever the credentials are said to be invalid. *)
Definition provider_refused (o : Oracle) (d : DB) (id cid : uuid) (flow : string) (proof : Proof)
    (err : error) (d' : DB) : Prop :=
  exists d1, (d1 = d \/ exists c, request_consumed o d d1 cid flow proof c) /\
    (d' = d1 /\ err <> ErrCredentials \/ failure_counted e d1 d' id cid err).

Lemma AttemptProvider_refused id cid flow who proof o w err w' :
  AttemptProvider e id cid flow who proof o w = (Err err, w') ->
  provider_refused o (committed w) id cid flow proof err (committed w').
Proof.
  unfold AttemptProvider, bind, try.
  destruct (attemptProvider _ _ _ _ _ _ o w) as [[a|x] w1] eqn:E; [done|].
  apply attemptProvider_refused in E. intros E1. exists (committed w1). split; [exact E|].
  destruct x; try (injection E1 as <- <-; by left).
  apply count_provider_failure_refused in E1 as (y & [= <-] & [[Hc Hy]|Hy]); [left|by right].
  split; [done|]. intros ->. done.
Qed.

(** The rows of the two transactions are the same process. *)
Lemma pending_same o d d' id cid cid' flow flow' who proof c u t u' t' :
  schema_ok d = true -> request_consumed o d d' cid flow proof c ->
  pending_step o d id cid flow who u t -> pending_step o d' id cid' flow' who u' t' -> u' = u.
Proof.
  intros Hd Hc [(Hu & Hi & _) _] [(Hu' & Hi' & _) _].
  assert (authentications d' = authentications d) as Ha.
  { unfold request_consumed in Hc. destruct (f_IDToken proof == "").
    - by destruct Hc as (r & now & _ & _ & _ & _ & _ & _ & ->).
    - by destruct Hc as (_ & -> & _). }
  rewrite Ha in Hu'. eapply authentication_id_key; [exact Hd|done..|congruence].
Qed.

(** A completed process has its evidence in the database it was completed in. *)
Lemma finished_complete o d d' p p' :
  finished e o d d' p p' -> p_Status p = "pending" -> p_Status p' = "completed" ->
  evidence_complete d' p'.
Proof.
  intros (Hi & Hp & Ha & [[Hs _]|(_ & He & token & t & now & _ & _ & ->)]) Hs1 Hs2; [congruence|].
  by eapply evidence_complete_ext, He.
Qed.
End Facts.

(** ** Properties *)
Section Properties.
Context `{Platform} `{WebAuthn} (e : Engine).

(** An OAuth state is accepted once: it is consumed, in a committed transaction, before the
  provider is asked, and in the database that leaves the same state is accepted for no process,
  step, client or provider. *)
Theorem consume_request_single_use id cid flow who proof o w c w' :
schema_ok (committed w) = true -> f_IDToken proof = "" ->
consume_request e id cid flow who proof o w = (Ok c, w') ->
forall id2 cid2 flow2 who2 proof2 o2 w2 c2 w3, committed w2 = committed w' ->
  f_IDToken proof2 = "" -> f_State proof2 = f_State proof ->
  consume_request e id2 cid2 flow2 who2 proof2 o2 w2 <> (Ok c2, w3).
Proof.
intros Hd Hi E id2 cid2 flow2 who2 proof2 o2 w2 c2 w3 Hw Hi2 Hs E2.
apply consume_request_ok in E as [_ Hc]. apply consume_request_ok in E2 as [_ Hc2].
unfold request_consumed in *. rewrite Hi, beq_refl in Hc. rewrite Hi2, beq_refl in Hc2.
destruct Hc as (r & now & Hr & _ & Hp & _ & _ & _ & Hc').
destruct Hc2 as (r2 & now2 & Hr2 & _ & Hp2 & _). rewrite Hw, Hc' in Hr2. simpl in Hr2.
rewrite in_del in Hr2. destruct Hr2 as [Hr2 Hn]. assert (r2 = r) as ->; [|congruence].
eapply oauth_key; [exact Hd|done..|]. unfold oauth_request in *. rewrite Hs in Hp2. bsimp. congruence.
Qed.

(** C19: an attempt through a provider succeeds only for a pending step of a pending process,
  with the answer the provider gave to the consumed request (or to the ID token), which names a
  subject, carries the expected nonce and is fresh where the purpose is sensitive; the subject
  is linked to an unblocked account, the process's own for a sensitive purpose; and a process
  that is now completed has its evidence complete in the committed database. *)
Theorem attemptProvider_proves_identity id cid flow who proof o w a w' :
schema_ok (committed w) = true ->
attemptProvider e id cid flow who proof o w = (Ok a, w') ->
exists provider c d1 i u t account,
  Providers e (f_Method proof) = Some provider /\
  request_consumed e o (committed w) d1 cid flow proof c /\
  answered e provider proof c i /\ answer_accepted e o proof c i /\
  pending_step e o d1 id cid flow who u t /\ co_process c = process_of u /\
  linked d1 (f_Method proof) (id_Subject i) account /\
  (sensitive (u_purpose u) = true -> u_account_id u = Some account) /\
  p_accountID (at_Authentication a) = Some account /\
  (p_Status (at_Authentication a) = "completed" ->
     evidence_complete (committed w') (at_Authentication a)).
Proof.
intros Hd E. wp_start E. unfold attemptProvider.
destruct (Providers e (f_Method proof)) as [provider|] eqn:Ep; [|by wp_go].
wp_call consume_request_ok as ((u & t & Hu & Hcp & _) & Hc).
wp_binds. apply wp_ro_ok; [apply _|done|]. intros i w1 [Ha Hi]%provider_identity_ok _ Hcm _.
apply wp_spec; [done|]. intros a1 w2 (u2 & t2 & account & d2 & Hu2 & Hl & Hs & Hf)%finish_provider_ok.
rewrite Hcm in Hu2, Hl. match goal with F : answered _ _ _ ?x _ |- _ => rename x into x0 end.
exists provider, x0, (committed w0), i, u2, t2, account.
assert (u2 = u) as -> by (eapply pending_same; [exact Hd|exact Hc|exact Hu|exact Hu2]).
split_and!; try done; [by destruct Hf as (_ & _ & -> & _)|].
eapply finished_complete; [exact Hf|apply Hu].
Qed.
End Properties.

(** *** A provider that names the subject "sub" and the nonce "N" *)
Definition toy_answer : ProviderIdentity :=
  {| id_Subject := "sub"; id_Email := "a@b"; id_Nonce := "N"; id_AuthenticatedAt := None |}.
Definition toy_provider : Provider := {|
  Authorize := fun state _ _ _ _ => Ok state;
  Exchange := fun _ _ _ _ => Ok toy_answer;
  Native := fun _ _ => Ok toy_answer;
|}.
Definition provider_engine : Engine :=
  {| Providers := fun m => if m == "google" then Some toy_provider else None;
     OAuthRedirects := ["https://h/"]; Passkeys := None; e_Secrets := toy_secrets; Mail := None;
     BcryptCost := 12; FlowTTL := 15 * Minute; ChallengeTTL := 5 * Minute;
     GrantTTL := 2 * Minute; ReuseTTL := 5 * Minute; MaxAttempts := 10 |}.
Definition alice_identity : IdentityRow :=
  {| i_account_id := alice_id; i_provider := "google"; i_subject := "sub" |}.

(** A sign-in with a pending Google step whose request has the state "S". *)
Definition provider_db : DB :=
  set_oauth_requests
    [{| o_state_hash := hash_input "state" "" "S"; o_provider := "google";
        o_step_id := Some 30%N; o_session_id := None;
        o_client_binding_hash := hash_input "binding" "" "F"; o_redirect_uri := "https://h/";
        o_nonce_hash := hash_input "nonce" "" "N"; o_encrypted_code_verifier := "nnnnnnnnnnnnV";
        o_expiration_timestamp := toy_now + Minute |}]
    (set_identities [alice_identity]
      (set_authentications
        [set_u_completion_timestamp None (set_u_account_id None
           (alice_process 9 "signIn" "pending" "F"))]
        (pending_db "signIn" "googleVerification"))).
Definition provider_proof : Proof :=
  {| f_Email := ""; f_Name := ""; f_IDToken := ""; f_State := "S"; f_Method := "google";
     f_Login := ""; f_Password := ""; f_Code := "C"; f_Credential := "" |}.

Lemma consume_request_single_use_witness : exists c w',
  consume_request provider_engine 9 30 "F" no_principal provider_proof quiet
    (at_rest provider_db) = (Ok c, w') /\
  succeeds (fun _ => true) (consume_request provider_engine 9 30 "F" no_principal
    provider_proof quiet (at_rest (committed w'))).1 = false.
Proof.
  destruct (run_ex (consume_request provider_engine 9 30 "F" no_principal provider_proof) quiet
    (at_rest provider_db) (fun _ => true)) as (c & E & _); [vm_compute; reflexivity|].
  revert E. generalize (consume_request provider_engine 9 30 "F" no_principal provider_proof quiet
    (at_rest provider_db)).2. intros w' E. exists c, w'. split; [exact E|].
  apply run_never. intros c2 w3.
  refine (consume_request_single_use provider_engine 9 30 "F" no_principal provider_proof quiet
    (at_rest provider_db) c w' _ _ E 9%N 30%N "F" no_principal provider_proof quiet
    _ c2 w3 (committed_at_rest _) _ _); [|reflexivity..].
  rewrite committed_at_rest. vm_compute. reflexivity.
Defined.

Lemma attemptProvider_proves_identity_witness : exists a w',
  attemptProvider provider_engine 9 30 "F" no_principal provider_proof quiet
    (at_rest provider_db) = (Ok a, w') /\
  (p_Status (at_Authentication a) = "completed" /\
   evidence_complete (committed w') (at_Authentication a)).
Proof.
  destruct (run_ex (attemptProvider provider_engine 9 30 "F" no_principal provider_proof) quiet
    (at_rest provider_db) (fun a => p_Status (at_Authentication a) == "completed"))
    as (a & E & Hc); [vm_compute; reflexivity|].
  eexists a, _. split; [exact E|]. rewrite beq_true in Hc. split; [exact Hc|].
  destruct (attemptProvider_proves_identity provider_engine 9 30 "F" no_principal
    provider_proof quiet (at_rest provider_db) a _
    ltac:(rewrite committed_at_rest; vm_compute; reflexivity) E)
    as (p & c & d1 & i & u & t & acc & H1 & H2 & H3 & H4 & H5 & H6 & H7 & H8 & H9 & H10).
  apply H10, Hc.
Defined.
