(* ===== verification/ServerFacts.v ===== *)
(** What the RPC layer guarantees: no status says more than the agreed reasons, a refused
    request has changed nothing but what an attempt or a link may use up, and a sensitive RPC
    needs a confirmation of its own purpose. *)
From S2P Require Import Prelude GoLib Schema Limiter Usernames TxMonad Secrets PasskeyVerifier Engine Process Mail Passkeys OAuth Challenge Sessions Account Totp Identities Server Toy ProcessFacts ChallengeFacts FlowFacts OAuthFacts.
#[local] Open Scope string_scope.
#[local] Open Scope Z_scope.
#[local] Open Scope list_scope.

(** ** Statuses *)
Definition public_statuses : list Status :=
  [rpcError NotFound "not_found"; rpcError Unauthenticated "invalid_session";
   rpcError InvalidArgument "invalid_request"; rpcError NotFound "invalid_flow_token";
   rpcError InvalidArgument "invalid_credentials"; rpcError InvalidArgument "invalid_refresh_token";
   rpcError PermissionDenied "insufficient_authentication"; rpcError FailedPrecondition "conflict";
   rpcError FailedPrecondition "account_exists"; rpcError ResourceExhausted "too_many_attempts";
   rpcError Unavailable "method_unavailable";
   rpcError Internal "authentication operation failed"].

Lemma failure_public err : In (failure err) public_statuses.
Proof. destruct err; simpl; tauto. Qed.

(** A handler's refusals: [refuses P h] when each of them satisfies [P]. *)
Class Refuses (P : Status -> World -> World -> Prop) {A} (h : rpc A) : Prop :=
  refuses : forall o w st w', h o w = (inl st, w') -> P st w w'.

Definition public (st : Status) (_ _ : World) : Prop := In st public_statuses.
Definition unchanged (_ : Status) (w w' : World) : Prop := committed w' = committed w.

Section Refusals.
Context (P : Status -> World -> World -> Prop).

Lemma refuses_answer {A} (f : A -> Response) (h : rpc A) : Refuses P h -> Refuses P (answer f h).
Proof. intros Hh o w st w'. unfold answer. destruct (h o w) as [[|] ?] eqn:E; [|done].
  intros [= -> ->]. by eapply Hh. Qed.
End Refusals.

Lemma public_reply {A B} (f : A -> B) (m : M A) : Refuses public (reply f m).
Proof. intros o w st w'. unfold reply. destruct (m o w) as [[|] ?]; intros [= <- _].
  apply failure_public. Qed.
Lemma public_refuse {A} err : Refuses public (@refuse A err).
Proof. intros o w st w' [= <- _]. apply failure_public. Qed.
Lemma unchanged_reply {A B} (f : A -> B) (m : M A) : Atomic m -> Refuses unchanged (reply f m).
Proof. intros Hm o w st w'. unfold reply. destruct (m o w) as [[|] ?] eqn:E; intros [= _ <-].
  by eapply Hm. Qed.
Lemma unchanged_refuse {A} err : Refuses unchanged (@refuse A err).
Proof. by intros o w st w' [= _ <-]. Qed.

Ltac solve_refuses := repeat first
  [ apply refuses_answer | apply public_reply | apply public_refuse | apply unchanged_refuse
  | apply unchanged_reply; apply _
  | match goal with |- Refuses _ (match ?x with _ => _ end) => destruct x end
  | match goal with |- Refuses _ (if ?x then _ else _) => destruct x end ].

(** ** Effects still missing *)

(** [MailSink.QueueCode] writes into the transaction it is called in and nowhere else. *)
Class MailInTransaction (e : Engine) : Prop :=
  mail_in_transaction : forall sink to code t, Mail e = Some sink -> NoCommit (QueueCode sink to code t).

Section Effects.
Context `{Platform} `{WebAuthn} (e : Engine) `{!MailInTransaction e}.

#[export] Instance atomic_CreateChallenge id flow m who os :
  Atomic (CreateChallenge e id flow m who os).
Proof.
  unfold CreateChallenge. destruct (Mail e) as [sink|] eqn:E; solve_effect.
  by apply mail_in_transaction.
Qed.

#[export] Instance nc_UsernameAvailable name : NoCommit (UsernameAvailable name).
Proof.
  intros o w. unfold UsernameAvailable. case_match; [done|].
  match goal with |- context [query ?q o ?v] => pose proof (nc_statement (fun d => Ok (q d, d)) o v) end.
  unfold query. by destruct (statement _ _ _) as [[|] ?].
Qed.
End Effects.

(** ** Sensitive requests

    The requests whose message carries a confirmation (their [SensitiveAction]), with the purpose
    it must have been given for: what the handlers are specified to ask for. *)
Definition gated (r : Request) : option (string * option SensitiveAction) :=
  match r with
  | rq_SetPassword a _ => Some ("passwordChange", a)
  | rq_ChangeEmail a _ => Some ("emailChange", a)
  | rq_RequestDeletion a _ => Some ("accountDeletion", a)
  | rq_StartTotp a => Some ("totpEnrollment", a)
  | rq_DeleteTotp a => Some ("totpRemoval", a)
  | rq_StartPasskeyRegistration a => Some ("passkeyEnrollment", a)
  | rq_DeletePasskey a _ => Some ("passkeyRemoval", a)
  | rq_RotateBackupCodes a => Some ("backupCodesRotation", a)
  | rq_LinkIdentity a _ _ _ => Some ("identityLink", a)
  | rq_UnlinkIdentity a _ => Some ("identityUnlink", a)
  | _ => None
  end.

Section Gates.
Context `{Platform} `{WebAuthn} (e : Engine).

(** The rest of a run, when what it does no longer matters. *)
Ltac wp_rest := wsimpl; repeat first
  [ progress wp_go
  | wp_binds; apply wp_spec; [intros; exact I|intros ? ? _; cbv beta iota; wsimpl] ].

(** A run of [m] that succeeds was authorised by a confirmation, or [alt] holds. *)
Definition granted_by (alt : Oracle -> DB -> Prop) (token purpose : string) (who : Principal)
    {A} (m : M A) : Prop :=
  forall o w a w', m o w = (Ok a, w') ->
    (exists u, grant_accepted e o (committed w) token purpose who u) \/ alt o (committed w).
Definition never (_ : Oracle) (_ : DB) : Prop := False.

Lemma granted_transaction alt token purpose who {A} (k : uuid -> M A) :
  granted_by alt token purpose who (transaction (bind (ConsumeGrant e token purpose who) k)).
Proof.
  intros o w a w' E. wp_start E. wp_step. wp_call ConsumeGrant_ok as (u & Hu & _).
  wp_rest. left. by exists u.
Qed.

Lemma granted_seq alt token purpose who {A B} (m : M A) (k : A -> M B) :
  ReadOnly m -> (forall a, granted_by alt token purpose who (k a)) ->
  granted_by alt token purpose who (bind m k).
Proof.
  intros Hm Hk o w a w' E. unfold bind in E. destruct (Hm o w) as (_ & Hc & _).
  destruct (m o w) as [[x|] w1]; [|done]. simpl in Hc. rewrite <- Hc. by eapply Hk.
Qed.

Lemma granted_fail alt token purpose who {A} err : granted_by alt token purpose who (@fail A err).
Proof. by intros o w a w' [=]. Qed.

(** A password is set for the first time without one: there is nothing to confirm with. *)
Definition first_password (who : Principal) (o : Oracle) (d : DB) : Prop :=
  principal_ok o d who "passwordChange" /\
  exists a, In a (accounts d) /\ a_id a = AccountID who /\ a_password_hash a = None.

Lemma granted_SetPassword who token password :
  granted_by (first_password who) token "passwordChange" who (SetPassword e who token password).
Proof.
  unfold SetPassword. destruct (negb _); [apply granted_fail|].
  apply granted_seq; [apply _|]. intros hash o w a w' E. wp_start E. wp_step.
  wp_use (checkPrincipal_acts "passwordChange") as Hp. wp_go.
  - wp_call ConsumeGrant_ok as (u & Hu & _). wp_rest. all: left; by exists u.
  - wp_rest. right. split; [done|].
    unfold account_row in *. destruct (one _ _) as [x|] eqn:Ex; simplify_eq/=.
    apply one_some in Ex as [? ?]. bsimp. by exists x.
Qed.

(** The OAuth request of a link is found, and used up. *)
Definition link_consumed (o : Oracle) (d : DB) (who : Principal) (provider state : string)
    (r : OAuthRequest) (d' : DB) : Prop :=
  exists now, reads_clock o now /\ In r (oauth_requests d) /\
    link_request e who provider state now r = true /\
    d' = set_oauth_requests (del (link_request e who provider state now) (oauth_requests d)) d.

Lemma consume_link_ok who provider st o w r w' :
  consume_link e who provider st o w = (Ok r, w') ->
  link_consumed o (committed w) who provider st r (committed w').
Proof.
  intros E. wp_start E. unfold consume_link. wp_go. wp_skip. wp_go.
  match goal with F : match delete_returning ?p ?l with _ => _ end = Some _ |- _ =>
    unfold delete_returning in F; destruct (one p l) as [x|] eqn:Ex; simplify_eq/= end.
  apply one_some in Ex as [? ?]. eexists. split_and!; eauto.
Qed.

Lemma LinkIdentity_refused who token provider code st o w err w' :
  LinkIdentity e who token provider code st o w = (Err err, w') ->
  committed w' = committed w \/
  exists r, link_consumed o (committed w) who provider st r (committed w').
Proof.
  unfold LinkIdentity. destruct (Providers e provider) as [adapter|]; [|by intros [= _ <-]; left].
  unfold bind. destruct (consume_link e who provider st o w) as [[r|x] w1] eqn:E1.
  - apply consume_link_ok in E1.
    pose proof (ro_link_identity e adapter provider code st r o w1) as (_ & E2 & _).
    destruct (link_identity e adapter provider code st r o w1) as [[i|x] w2]; simpl in E2.
    + intros E3%atomic. right. exists r. by rewrite E3, E2.
    + intros [= _ <-]. right. exists r. by rewrite E2.
  - apply atomic in E1. intros [= _ <-]. by left.
Qed.

Lemma granted_LinkIdentity alt who token provider code st :
  granted_by alt token "identityLink" who (LinkIdentity e who token provider code st).
Proof.
  unfold LinkIdentity. destruct (Providers e provider) as [adapter|]; [|apply granted_fail].
  intros o w a w' E. wp_start E.
  wp_binds. apply wp_spec; [done|]. intros r w1 (now & _ & _ & _ & Hc)%consume_link_ok. wp_skip.
  apply wp_spec; [done|]. intros linked w2 E. left.
  destruct (granted_transaction never token "identityLink" who _ o _ _ _ E) as [(u & Hu)|[]].
  simpl in Hu. rewrite Hc in Hu. by exists u.
Qed.

Lemma granted_answer alt token purpose who {A B} (m : M A) :
  granted_by alt token purpose who m ->
  forall (f : A -> B) g o w resp w', answer g (reply f m) o w = (inr resp, w') ->
  (exists u, grant_accepted e o (committed w) token purpose who u) \/ alt o (committed w).
Proof.
  intros Hm f g o w resp w'. unfold answer, reply.
  destruct (m o w) as [[x|] w1] eqn:E; [|done]. intros _. by eapply Hm.
Qed.
End Gates.

Ltac solve_granted :=
  cbv [ChangeEmail RequestDeletion StartTotp DeleteTotp StartPasskey DeletePasskey
       RotateBackupCodes UnlinkIdentity]; repeat first
  [ apply (granted_LinkIdentity _ never) | apply (granted_transaction _ never)
  | apply granted_fail
  | match goal with |- granted_by _ _ _ _ _ (match ?x with _ => _ end) => destruct x end
  | match goal with |- granted_by _ _ _ _ _ (if ?x then _ else _) => destruct x end ].


(** A sensitive request that succeeds was confirmed, or set the first password. *)
Section Gated.
Context `{Platform} `{WebAuthn} `{Wire} (s : ServerConfig).
Lemma serve_gated r purpose a o w resp w' :
  gated r = Some (purpose, a) -> serve s r o w = (inr resp, w') ->
  (exists u, grant_accepted (sv_Engine s) o (committed w) (action a).2 purpose (action a).1 u) \/
  (purpose = "passwordChange" /\ first_password (action a).1 o (committed w)).
Proof.
intros Hr. destruct r; simplify_eq/=; intros E; unfold answer_empty in E.
all: cbv [Server_SetPassword Server_ChangeEmail Server_RequestDeletion Server_LinkIdentity
  Server_UnlinkIdentity Server_StartTotp Server_DeleteTotp Server_StartPasskeyRegistration
  Server_DeletePasskey Server_RotateBackupCodes] in E.
all: repeat case_match; simplify_eq/=; try done.
1: destruct (granted_answer (sv_Engine s) _ _ _ _ _ (granted_SetPassword (sv_Engine s) _ _ _) _ _ _ _ _ _ E); tauto.
all: left; eapply (granted_answer _ never) in E; [destruct E as [E|[]]; exact E|]; solve_granted.
Qed.
End Gated.

(** ** Properties *)
Section Properties.
Context `{Platform} `{WebAuthn} `{Wire} (s : ServerConfig).

(** C35: whatever goes wrong, the caller sees one of twelve fixed statuses: the text of a driver
  error or of any other internal error never leaves the server. *)
Theorem serve_status_public r o w st w' :
serve s r o w = (inl st, w') -> In st public_statuses.
Proof.
revert o w st w'. change (Refuses public (serve s r)).
destruct r; simpl; apply refuses_answer; try by apply public_reply.
all: cbv [Server_GetAuthentication Server_StartAuthenticationStep Server_GetAuthenticationStep
  Server_CompleteAuthenticationStep Server_RevokeSessions Server_SetPassword Server_ChangeEmail
  Server_RequestDeletion Server_LinkIdentity Server_UnlinkIdentity Server_StartTotp
  Server_DeleteTotp Server_StartPasskeyRegistration Server_RegisterPasskey
  Server_RenamePasskey Server_DeletePasskey Server_RotateBackupCodes]; solve_refuses.
intros o w st w'. unfold Server_RefreshSession.
destruct (Refresh _ _ _ _ _ _ _ _ o w) as [[|err] w1]; [done|].
destruct err; intros [= <- _]; unfold public; first [apply failure_public | simpl; tauto].
Qed.

(** What a refused attempt leaves: a failure of a proof the service checks is counted, a sign-up
  for a taken address is over, an attempt through a provider has used up its OAuth request. *)
Definition attempt_leaves (o : Oracle) (d : DB) (step : option AuthenticationStepContext)
  (v : StepProof) (st : Status) (d' : DB) : Prop :=
exists sc id t who cid proof err, step = Some sc /\ flow (sc_Flow sc) = Ok (id, t, who) /\
  uuid_Parse (sc_StepId sc) = Some cid /\ step_proof v = Some proof /\ st = failure err /\
  if (f_Method proof == "google") || (f_Method proof == "vk")
  then provider_refused (sv_Engine s) o d id cid t proof err d'
  else attempt_refused (sv_Engine s) d id cid err d'.

(** What a refused request leaves of the database it found. *)
Definition refusal_leaves (o : Oracle) (d : DB) (r : Request) (st : Status) (d' : DB) : Prop :=
match r with
| rq_CompleteAuthenticationStep step v => d' = d \/ attempt_leaves o d step v st d'
| rq_LinkIdentity a provider _ state =>
    d' = d \/ exists x, link_consumed (sv_Engine s) o d (action a).1 provider state x d'
| _ => d' = d
end.

Lemma attempt_refusal step v : forall o w st w',
Server_CompleteAuthenticationStep s step v o w = (inl st, w') ->
committed w' = committed w \/ attempt_leaves o (committed w) step v st (committed w').
Proof.
intros o w st w'. unfold Server_CompleteAuthenticationStep, refuse.
destruct step as [sc|]; [|by intros [= _ <-]; left].
destruct (flow (sc_Flow sc)) as [[[id t] who]|] eqn:Ef; [|by intros [= _ <-]; left].
destruct (uuid_Parse (sc_StepId sc)) as [cid|] eqn:Ec; [|by intros [= _ <-]; left].
destruct (step_proof v) as [proof|] eqn:Ep; [|by intros [= _ <-]; left].
intros E. right. unfold attempt_leaves.
destruct (_ || _) eqn:Em; unfold reply in E.
- destruct (AttemptProvider _ _ _ _ _ _ o w) as [[a|err] w1] eqn:E1; simplify_eq/=.
  apply AttemptProvider_refused in E1. exists sc, id, t, who, cid, proof, err. by rewrite Em.
- destruct (AttemptStep _ _ _ _ _ _ o w) as [[a|err] w1] eqn:E1; simplify_eq/=.
  apply AttemptStep_refused in E1. exists sc, id, t, who, cid, proof, err. by rewrite Em.
Qed.
Lemma link_refusal a provider c state : forall o w st w',
Server_LinkIdentity s a provider c state o w = (inl st, w') ->
committed w' = committed w \/
exists x, link_consumed (sv_Engine s) o (committed w) (action a).1 provider state x (committed w').
Proof.
intros o w st w'. unfold Server_LinkIdentity, reply. destruct (action a) as [who token].
destruct (LinkIdentity _ _ _ _ _ _ o w) as [[x|err] w1] eqn:E; intros [= _ <-].
by apply LinkIdentity_refused in E.
Qed.

(** C10: a request that is refused, whatever the reason, has changed nothing: the committed
  database is the one it found. There are two exceptions. An attempt at a step: a rejected proof
  is counted on the process and the step, and on nothing else; a sign-up that proved an address
  that has an account is over; an attempt through a provider may have used up the OAuth request
  of its state, and nothing else, before its failure is counted. And a link through a provider,
  which may have used up its OAuth request, and nothing else. *)
Theorem serve_refusal_changes_nothing `{!MailInTransaction (sv_Engine s)} r o w st w' :
serve s r o w = (inl st, w') -> refusal_leaves o (committed w) r st (committed w').
Proof.
intros E. assert (Refuses unchanged (serve s r) -> refusal_leaves o (committed w) r st (committed w'))
  as Hr by (intros Hr; apply Hr in E; destruct r; simpl; auto).
destruct r; lazymatch goal with
| |- refusal_leaves _ _ (rq_CompleteAuthenticationStep ?step ?v) _ _ =>
    simpl in E; unfold answer in E;
    destruct (Server_CompleteAuthenticationStep s step v o w) as [[x|] w1] eqn:E1; simplify_eq;
    by apply attempt_refusal in E1
| |- refusal_leaves _ _ (rq_LinkIdentity ?a ?provider ?c ?state) _ _ =>
    simpl in E; unfold answer in E;
    destruct (Server_LinkIdentity s a provider c state o w) as [[x|] w1] eqn:E1; simplify_eq;
    by apply link_refusal in E1
| |- _ => apply Hr; clear Hr E w w' o st
end; simpl; apply refuses_answer; cbv [Server_ValidateSession Server_CreateAuthentication Server_GetAuthentication
  Server_StartAuthenticationStep Server_GetAuthenticationStep Server_CreateSession
  Server_GetSessions Server_RevokeSessions Server_SetPassword Server_StartPasswordReset
  Server_ConfirmPasswordReset Server_SetUsername Server_UsernameAvailability Server_ChangeEmail
  Server_ConfirmEmail Server_RequestDeletion Server_PatchDeletion Server_CancelDeletion
  Server_GetIdentities Server_UnlinkIdentity Server_PrepareIdentityOAuth Server_GetTotp
  Server_StartTotp Server_ConfirmTotp Server_DeleteTotp Server_GetPasskeys
  Server_StartPasskeyRegistration Server_RegisterPasskey Server_RenamePasskey
  Server_DeletePasskey Server_GetBackupCodes Server_RotateBackupCodes]; solve_refuses.
intros o w st w'. unfold Server_RefreshSession, unchanged.
pose proof (atomic_Refresh (sv_Engine s) id refresh ip ua (sv_Issuer s) (sv_AccessTTL s)
  (sv_RefreshTTL s) o w) as Ha.
destruct (Refresh _ _ _ _ _ _ _ _ o w) as [[|err] w1]; [done|].
specialize (Ha _ _ eq_refl). destruct err; by intros [= _ <-].
Qed.
End Properties.

(** *** A server over the toy engine *)
#[export] Instance toy_wire : Wire := {| uuid_Partial := fun _ => uuid_Nil |}.
Definition toy_server : ServerConfig :=
  {| sv_Engine := toy_engine; sv_Issuer := {| CreateAccess := fun _ _ _ => Ok "access" |};
     sv_AccessTTL := 15 * Minute; sv_RefreshTTL := 24 * Hour; sv_DeletionDelay := 24 * Hour;
     sv_PasswordResetURL := "https://h/reset"; sv_EmailChangeURL := "https://h/email" |}.
#[export] Instance toy_mail_in_transaction : MailInTransaction toy_engine.
Proof. intros sink to code t. unfold toy_engine. simpl. congruence. Defined.

(** Everything works but the [n]-th effect, which fails with a talkative driver error. *)
Definition fault_at (n : nat) : Oracle :=
  Build_Oracle (o_now quiet) (o_db_now quiet) (o_random_ok quiet) (o_byte quiet) (o_int quiet)
    (o_uuid quiet) (fun t => if Nat.eqb t n then Some (Driver "dial 10.0.0.7: refused") else None).
Definition alice_action (token : string) : option SensitiveAction :=
  Some {| sa_Principal := Some {| ap_AccountId := "1"; ap_SessionId := 5 |};
          sa_ConfirmationToken := token |}.

Definition refused {A} (r : (Status + A) * World) : option Status :=
  match r.1 with inl st => Some st | inr _ => None end.
Lemma run_refused {A} (h : rpc A) o w st :
  refused (h o w) = Some st -> h o w = (inl st, (h o w).2).
Proof. unfold refused. destruct (h o w) as [[|] ?]; simpl; [|done]. by intros [= ->]. Defined.
Definition answered_with {A} (r : (Status + A) * World) : option A :=
  match r.1 with inr a => Some a | inl _ => None end.
Lemma run_answered {A} (h : rpc A) o w :
  isSome (answered_with (h o w)) = true -> exists a, h o w = (inr a, (h o w).2).
Proof. unfold answered_with. destruct (h o w) as [[|a] ?]; simpl; [done|]. by exists a. Defined.

Lemma serve_status_public_witness :
  refused (serve toy_server (rq_DeleteTotp (alice_action "G")) (fault_at 4) (at_rest alice_db)) =
    Some (rpcError Internal "authentication operation failed") /\
  In (rpcError Internal "authentication operation failed") public_statuses.
Proof.
  split; [vm_compute; reflexivity|].
  eapply (serve_status_public toy_server (rq_DeleteTotp (alice_action "G")) (fault_at 4)
    (at_rest alice_db)), run_refused.
  vm_compute. reflexivity.
Defined.

(** The commit of an otherwise successful change of name fails. *)
Lemma serve_refusal_changes_nothing_witness :
  committed (serve toy_server (rq_SetUsername (Some {| ap_AccountId := "1"; ap_SessionId := 5 |})
    "robert") (fault_at 11) (at_rest alice_db)).2 = alice_db /\
  refused (serve toy_server (rq_SetUsername (Some {| ap_AccountId := "1"; ap_SessionId := 5 |})
    "robert") (fault_at 11) (at_rest alice_db)) =
    Some (rpcError Internal "authentication operation failed").
Proof.
  split; [|vm_compute; reflexivity].
  refine (serve_refusal_changes_nothing toy_server
    (rq_SetUsername (Some {| ap_AccountId := "1"; ap_SessionId := 5 |}) "robert") (fault_at 11)
    (at_rest alice_db) _ _ (run_refused _ _ _ _ _)). vm_compute. reflexivity.
Defined.
