(* ===== verification/OutboxFacts.v ===== *)
(** What the outbox worker guarantees: at-least-once delivery. The detailed worker refines a
    queue whose only removal is that of an event the broker has stored, and it empties the
    outbox when nothing is in its way. *)
From S2P Require Import Prelude GoLib Schema Limiter TxMonad Outbox Toy.
#[local] Open Scope string_scope.
#[local] Open Scope Z_scope.
#[local] Open Scope list_scope.
#[local] Open Scope outbox_scope.

(** ** What the broker promises

    [stored n m]: some queue bound to the exchange keeps the message (as a durable one). A
    mandatory, persistent message that was confirmed positively, and was not returned before
    the confirmation, is stored; nothing the worker does takes a stored message away. *)
Class BrokerLaws `{Broker} : Type := {
  stored : Net -> Publishing -> Prop;
  confirmed_stored m n c n1 n2 n3 :
    pb_Mandatory m = true -> pb_Persistent m = true ->
    amqp_Publish m n = (Ok (Some c), n1) -> amqp_Wait c n1 = (Ok true, n2) ->
    amqp_Returned n2 = (false, n3) -> stored n3 m;
  publish_keeps m n x : stored n x -> stored (amqp_Publish m n).2 x;
  wait_keeps c n x : stored n x -> stored (amqp_Wait c n).2 x;
  returned_keeps n x : stored n x -> stored (amqp_Returned n).2 x;
  dial_keeps u n x : stored n x -> stored (amqp_Dial u n).2 x;
  channel_keeps n x : stored n x -> stored (amqp_Channel n).2 x;
  declare_keeps a b n x : stored n x -> stored (amqp_ExchangeDeclare a b n).2 x;
  confirm_keeps n x : stored n x -> stored (amqp_Confirm n).2 x;
  notify_keeps k n x : stored n x -> stored (amqp_NotifyReturn k n) x;
  close_keeps n x : stored n x -> stored (amqp_Close n) x;
}.
#[export] Hint Resolve publish_keeps wait_keeps returned_keeps dial_keeps channel_keeps
  declare_keeps confirm_keeps notify_keeps close_keeps : broker.

(** ** Weakest preconditions of the worker's monad *)
Definition wpB `{Broker} {A} (m : B A) (o : Oracle) (s : World * Net)
    (Q : result A -> World * Net -> Prop) : Prop :=
  let '(r, s') := m o s in Q r s'.

Section WpB.
Context `{Broker} (o : Oracle).

Lemma wpB_run {A} (m : B A) s r s' (Q : result A -> World * Net -> Prop) :
  m o s = (r, s') -> wpB m o s Q -> Q r s'.
Proof. unfold wpB. by intros ->. Qed.
Lemma wpB_bind {A C} (m : B A) (k : A -> B C) s Q :
  wpB m o s (fun r s' => match r with Ok a => wpB (k a) o s' Q | Err e => Q (Err e) s' end) ->
  wpB (bindB m k) o s Q.
Proof. unfold wpB, bindB. by destruct (m o s) as [[|] ?]. Qed.
Lemma wpB_try {A} (m : B A) s Q :
  wpB m o s (fun r s' => Q (Ok r) s') -> wpB (tryB m) o s Q.
Proof. unfold wpB, tryB. by destruct (m o s). Qed.
Lemma wpB_do {A} (m : M A) w n Q : wp m o w (fun r w' => Q r (w', n)) -> wpB (doB m) o (w, n) Q.
Proof. unfold wpB, wp, doB. by destruct (m o w). Qed.
Lemma wpB_ret {A} (a : A) s Q : Q (Ok a) s -> wpB (retB a) o s Q.
Proof. by destruct s. Qed.
Lemma wpB_fail {A} e s (Q : result A -> World * Net -> Prop) : Q (Err e) s -> wpB (failB e) o s Q.
Proof. by destruct s. Qed.
Lemma wpB_net {A} (f : Net -> result A * Net) w n Q :
  (forall r n', f n = (r, n') -> Q r (bump w, n')) -> wpB (netB f) o (w, n) Q.
Proof. unfold wpB, netB. intros Hf. destruct (f n). by apply Hf. Qed.
Lemma wpB_intro {A} (m : B A) s (Q : result A -> World * Net -> Prop) :
  (forall r s', m o s = (r, s') -> Q r s') -> wpB m o s Q.
Proof. unfold wpB. destruct (m o s). eauto. Qed.
Lemma wpB_tx {A} (body : B A) w n Q :
  (forall e w', committed w' = committed w -> o_fault o (tick w) = Some e ->
     Q (Err (ErrDB e)) (w', n)) ->
  (forall w', committed w' = committed w -> working w' = committed w ->
     wpB body o (w', n) (fun r s => Q r (rollback s.1, s.2))) ->
  wpB (plain_tx body) o (w, n) Q.
Proof.
  intros He Hb. unfold wpB, plain_tx, begin_tx.
  destruct (o_fault o (tick w)) as [e|] eqn:E; [by apply He|].
  specialize (Hb (set_tx_now (o_db_now o (tick w)) (set_working (committed w) (bump w)))
    eq_refl eq_refl). unfold wpB in Hb. by destruct (body _ _) as [? [? ?]].
Qed.
End WpB.

Section Facts.
Context `{Broker} `{!BrokerLaws} (locked : nat -> uuid -> bool) (cancelled : nat -> bool)
  (url : string).

(** *** The abstract queue

    The contract: nothing but the outbox changes, nothing is added, and an event leaves the
    outbox only when the broker has stored it. *)
Definition kept (x : OutboxRow) (n : Net) : Prop :=
  exists routing now, routing_key (x_exchange x) = Some routing /\ stored n (publishing x routing now).
Definition handed_over (d d' : DB) (n' : Net) : Prop :=
  schema_ok d' = true /\ d' = set_outbox (outbox d') d /\
  (forall x, In x (outbox d') -> In x (outbox d)) /\
  (forall x, In x (outbox d) -> In x (outbox d') \/ kept x n').

Lemma handed_over_refl d n : schema_ok d = true -> handed_over d d n.
Proof. intros Hd. split_and!; try done; [by destruct d|tauto]. Qed.

Lemma handed_over_trans d1 d2 d3 n2 n3 :
  handed_over d1 d2 n2 -> (forall x, kept x n2 -> kept x n3) -> handed_over d2 d3 n3 ->
  handed_over d1 d3 n3.
Proof.
  intros (H1 & E1 & S1 & K1) Hk (H2 & E2 & S2 & K2). split_and!; [done| |auto|].
  - rewrite E2, E1. by destruct d1.
  - intros x [Hx|Hx]%K1; [by apply K2|auto].
Qed.

(** What [one] answers. *)
Definition one_post (d : DB) (r : result bool) (d' : DB) (n' : Net) : Prop :=
  match r with
  | Err _ => d' = d
  | Ok false => d' = d /\ exists t, oldest_event locked t d = None
  | Ok true => exists x routing now t, oldest_event locked t d = Some x /\
      routing_key (x_exchange x) = Some routing /\ d' = delete_event (x_message_id x) d /\
      schema_ok d' = true /\ stored n' (publishing x routing now)
  end.

Lemma one_event_wp o w n :
  wpB (one_event locked) o (w, n) (fun r s => one_post (committed w) r (committed s.1) s.2).
Proof.
  unfold one_event. apply wpB_tx; [by intros e w' Hc _|]. intros w1 Hc Hw.
  apply wpB_bind, wpB_try, wpB_do. unfold select_event. apply wp_statement; [by intros; apply wpB_fail|].
  destruct (oldest_event locked (tick w1) (working w1)) as [x|] eqn:Ex;
    [|apply wpB_ret; simpl; rewrite Hc, Hw in *; eauto].
  destruct (routing_key (x_exchange x)) as [routing|] eqn:Er; [|by apply wpB_fail].
  apply wpB_bind, wpB_do, wp_Now. apply wpB_bind, wpB_net. intros [[c|]|err] n1 E1; [|by apply wpB_fail|done].
  apply wpB_bind, wpB_net. intros [[]|err] n2 E2; [|by apply wpB_fail|done].
  apply wpB_bind, wpB_net. intros r n3 E3. destruct (amqp_Returned n2) as [[] n4] eqn:E4;
    injection E3 as <- <-; [by apply wpB_fail|].
  apply wpB_bind, wpB_do, wp_exec; [done|]. intros Hs. apply wpB_do, wp_commit_with; [done|].
  simpl. rewrite Hw in *. exists x, routing, (o_now o (S (tick w1))), (tick w1).
  split_and!; try done. by eapply confirmed_stored.
Qed.

Lemma outbox_le_total x y : outbox_le x y = true \/ outbox_le y x = true.
Proof. unfold outbox_le. rewrite !orb_true_iff, !andb_true_iff, !Z.ltb_lt, !Z.eqb_eq, !N.leb_le. lia. Qed.
Lemma outbox_le_trans x y z :
  outbox_le x y = true -> outbox_le y z = true -> outbox_le x z = true.
Proof. unfold outbox_le. rewrite !orb_true_iff, !andb_true_iff, !Z.ltb_lt, !Z.eqb_eq, !N.leb_le. lia. Qed.

(** The event taken is the oldest of those no other worker holds. *)
Lemma oldest_event_some t d x :
  oldest_event locked t d = Some x -> In x (outbox d) /\ locked t (x_message_id x) = false /\
  forall y, In y (outbox d) -> locked t (x_message_id y) = false -> outbox_le x y = true.
Proof.
  intros [Hx Hle]%(order_by_head _ outbox_le_total outbox_le_trans).
  rewrite in_sel, negb_true_iff in Hx. destruct Hx as [? ?]. split_and!; [done..|].
  intros y ? ?. apply Hle. by rewrite in_sel, negb_true_iff.
Qed.

Lemma one_post_handed_over d r d' n' :
  schema_ok d = true -> one_post d r d' n' -> handed_over d d' n'.
Proof.
  intros Hd. destruct r as [[]|err]; simpl; [|intros [-> _]|intros ->]; try by apply handed_over_refl.
  intros (x & routing & now & t & [Hx _]%oldest_event_some & Hr & -> & Hs & Hst).
  split_and!; [done..| |].
  - intros y. simpl. rewrite in_del. tauto.
  - intros y Hy. simpl. rewrite in_del. destruct (x_message_id y == x_message_id x) eqn:E; [|by left].
    right. rewrite beq_true in E. assert (y = x) as -> by (eapply outbox_key; [exact Hd|done..]).
    by exists routing, now.
Qed.

(** *** Runs of the worker *)
Lemma kept_mono (f : Net -> Net) : (forall n m, stored n m -> stored (f n) m) ->
  forall n x, kept x n -> kept x (f n).
Proof. intros Hf n x (routing & now & Hr & Hs). exists routing, now. auto. Qed.

(** [hands_over m]: a run of [m] is a run of the abstract queue, and the broker keeps what it
    has. *)
Definition hands_over {A} (m : B A) : Prop := forall o w n r w' n',
  schema_ok (committed w) = true -> m o (w, n) = (r, (w', n')) ->
  handed_over (committed w) (committed w') n' /\ forall x, stored n x -> stored n' x.

Lemma hands_over_bind {A C} (m : B A) (k : A -> B C) :
  hands_over m -> (forall a, hands_over (k a)) -> hands_over (bindB m k).
Proof.
  intros Hm Hk o w n r w' n' Hd. unfold bindB.
  destruct (m o (w, n)) as [[a|err] [w1 n1]] eqn:E; apply (Hm _ _ _ _ _ _ Hd) in E as [E1 S1].
  - intros E2. apply (Hk _ _ _ _ _ _ _ (proj1 E1)) in E2 as [E2 S2]. split; [|auto].
    eapply handed_over_trans; [exact E1| |exact E2].
    intros x (routing & now & ? & ?). exists routing, now. auto.
  - intros [= _ <- <-]. done.
Qed.

Lemma hands_over_try {A} (m : B A) : hands_over m -> hands_over (tryB m).
Proof.
  intros Hm o w n r w' n' Hd. unfold tryB. destruct (m o (w, n)) as [a [w1 n1]] eqn:E.
  intros [= _ <- <-]. by eapply Hm.
Qed.

Lemma hands_over_still {A} (m : B A) :
  (forall o w n, committed (m o (w, n)).2.1 = committed w /\
     forall x, stored n x -> stored (m o (w, n)).2.2 x) -> hands_over m.
Proof.
  intros Hm o w n r w' n' Hd E. specialize (Hm o w n). rewrite E in Hm. simpl in Hm.
  destruct Hm as [-> Hs]. split; [by apply handed_over_refl|done].
Qed.

Lemma hands_over_net {A} (f : Net -> result A * Net) :
  (forall n x, stored n x -> stored (f n).2 x) -> hands_over (netB f).
Proof.
  intros Hf. apply hands_over_still. intros o w n. unfold netB. specialize (Hf n).
  destruct (f n). split; [done|exact Hf].
Qed.

Lemma hands_over_pure {A} (m : M A) : NoCommit m -> hands_over (doB m).
Proof.
  intros Hm. apply hands_over_still. intros o w n. unfold doB. specialize (Hm o w).
  destruct (m o w). done.
Qed.

(** The network keeps what it has through one event, however that ends. *)
Lemma one_event_stored o w n x :
  stored n x -> stored (one_event locked o (w, n)).2.2 x.
Proof.
  intros Hx. assert (wpB (one_event locked) o (w, n) (fun _ s => stored s.2 x)) as Hw.
  { unfold one_event. apply wpB_tx; [done|]. intros w1 _ _.
    apply wpB_bind, wpB_try, wpB_do, wp_intro. intros r w2 _.
    destruct r as [y|[]]; try by apply wpB_fail. 2: by apply wpB_ret.
    destruct (routing_key _); [|by apply wpB_fail].
    apply wpB_bind, wpB_do, wp_Now. apply wpB_bind, wpB_net. intros r n1 E1.
    assert (stored n1 x) as H1 by (pose proof (publish_keeps (publishing y s (o_now o (tick w2))) n x Hx) as Hp; by rewrite E1 in Hp).
    destruct r as [[c|]|err]; [|by apply wpB_fail|done].
    apply wpB_bind, wpB_net. intros r n2 E2.
    assert (stored n2 x) as H2 by (pose proof (wait_keeps c n1 x H1) as Hp; by rewrite E2 in Hp).
    destruct r as [[]|err]; [|by apply wpB_fail|done].
    apply wpB_bind, wpB_net. intros r n3 E3. pose proof (returned_keeps n2 x H2) as H3.
    destruct (amqp_Returned n2) as [b n4]. injection E3 as <- <-.
    destruct b; [by apply wpB_fail|].
    apply wpB_bind, wpB_do, wp_intro. intros [] w3 _; [|done].
    by apply wpB_do, wp_intro. }
  unfold wpB in Hw. by destruct (one_event locked o (w, n)) as [? [? ?]].
Qed.

Lemma hands_over_one : hands_over (one_event locked).
Proof.
  intros o w n r w' n' Hd E. pose proof (one_event_wp o w n) as Hp.
  unfold wpB in Hp. rewrite E in Hp. simpl in Hp. split; [by eapply one_post_handed_over|].
  intros x Hx. apply (one_event_stored o w) in Hx. by rewrite E in Hx.
Qed.

Ltac solve_hands_over := repeat first
  [ apply hands_over_bind; [|intros]
  | apply hands_over_try | apply hands_over_one
  | apply hands_over_pure; apply _
  | apply hands_over_net; intros; simpl; eauto with broker
  | match goal with |- hands_over (match ?x with _ => _ end) => destruct x end
  | match goal with |- hands_over (if ?x then _ else _) => destruct x end
  | apply hands_over_still; done ].

Lemma hands_over_deliver fuel : hands_over (deliver locked cancelled fuel).
Proof. induction fuel; simpl; solve_hands_over; done. Qed.

Lemma hands_over_runConnection fuel : hands_over (runConnection locked cancelled url fuel).
Proof. unfold runConnection. solve_hands_over. apply hands_over_deliver. Qed.

Lemma hands_over_Run rounds fuel : hands_over (Run locked cancelled url rounds fuel).
Proof.
  induction rounds as [|rounds IH]; [by solve_hands_over|]. simpl.
  generalize (hands_over_runConnection fuel). generalize (runConnection locked cancelled url fuel).
  intros m Hm. solve_hands_over; done.
Qed.
End Facts.

(** A deletion that finds a row makes the table shorter. *)
Lemma del_shorter {R} (p : R -> bool) t r : In r t -> p r = true -> (length (del p t) < length t)%nat.
Proof.
  intros Hr Hp. induction t as [|x t IH]; [done|]. unfold del in *. simpl.
  pose proof (List.filter_length_le (fun r => negb (p r)) t) as Hl.
  destruct Hr as [->|Hr]; [rewrite Hp; simpl; lia|].
  specialize (IH Hr). destruct (p x); simpl; lia.
Qed.

(** ** Progress

    Nothing fails, no other worker holds a row, the context lasts, and the broker confirms. *)
Section Progress.
Context `{Broker} `{!BrokerLaws} (locked : nat -> uuid -> bool) (cancelled : nat -> bool) (o : Oracle).
Hypothesis no_fault : forall t, o_fault o t = None.
Hypothesis unlocked : forall t id, locked t id = false.
Hypothesis lasting : forall t, cancelled t = false.

(** A broker that takes every mandatory message. *)
Definition healthy : Prop := forall m n, pb_Mandatory m = true -> exists c n1 n2 n3,
  amqp_Publish m n = (Ok (Some c), n1) /\ amqp_Wait c n1 = (Ok true, n2) /\
  amqp_Returned n2 = (false, n3).
Hypothesis broker_healthy : healthy.

Definition routable (d : DB) : Prop :=
  forall x, In x (outbox d) -> exists routing, routing_key (x_exchange x) = Some routing.

Lemma one_event_delivers w n :
  schema_ok (committed w) = true -> routable (committed w) -> outbox (committed w) <> [] ->
  wpB (one_event locked) o (w, n) (fun r _ => r = Ok true).
Proof using no_fault unlocked broker_healthy.
  intros Hd Hr Hne. unfold one_event. apply wpB_tx; [intros e w' _; by rewrite no_fault|].
  intros w1 Hc Hw. apply wpB_bind, wpB_try, wpB_do. unfold select_event.
  apply wp_statement; [intros e; by rewrite no_fault|]. rewrite Hw.
  destruct (oldest_event locked (tick w1) (committed w)) as [x|] eqn:Ex.
  2: { apply order_by_none in Ex. rewrite sel_all in Ex by (intros; by rewrite unlocked). done. }
  apply oldest_event_some in Ex as (Hx & _). destruct (Hr x Hx) as [routing ->].
  apply wpB_bind, wpB_do, wp_Now. apply wpB_bind, wpB_net. intros r n1 E1.
  match type of E1 with amqp_Publish ?m ?n = _ =>
    destruct (broker_healthy m n eq_refl) as (c & n1' & n2 & n3 & E & E2 & E3) end.
  rewrite E1 in E. injection E as -> <-.
  apply wpB_bind, wpB_net. intros r n2' E2'. rewrite E2 in E2'. injection E2' as <- <-. simpl.
  apply wpB_bind, wpB_net. intros r n3' E3'. rewrite E3 in E3'. injection E3' as <- <-. simpl.
  apply wpB_bind, wpB_do. unfold exec. apply wp_statement; [intros e; by rewrite no_fault|].
  unfold checked. simpl. unfold delete_event at 1. rewrite (proj2 (violation_none _)).
  2: by apply schema_ok_outbox.
  apply wpB_do. unfold wp, commit_with, bind, commit. by rewrite no_fault.
Qed.

Lemma deliver_empties fuel w n :
  schema_ok (committed w) = true -> routable (committed w) ->
  (length (outbox (committed w)) <= fuel)%nat ->
  outbox (committed (deliver locked cancelled fuel o (w, n)).2.1) = [].
Proof using All.
  revert w n. induction fuel as [|fuel IH]; intros w n Hd Hr Hl.
  { simpl. by destruct (outbox (committed w)); [|simpl in Hl; lia]. }
  simpl. unfold bindB at 1, is_cancelled at 1. rewrite lasting. unfold bindB, tryB.
  pose proof (one_event_wp locked o w n) as Hp. pose proof (one_event_delivers w n Hd Hr) as Ht.
  unfold wpB in Hp, Ht. destruct (one_event locked o (w, n)) as [r [w1 n1]]. simpl in Hp.
  destruct (outbox (committed w)) as [|x l] eqn:El.
  - destruct r as [[]|err]; [| |by rewrite <- El, <- Hp].
    + destruct Hp as (x & ? & ? & t & [Hx _]%oldest_event_some & _). by rewrite El in Hx.
    + simpl. destruct Hp as [Hc _]. rewrite lasting. apply IH; simpl; rewrite Hc; try done.
      rewrite El. simpl. lia.
  - assert (r = Ok true) as -> by by apply Ht.
    destruct Hp as (y & ? & ? & t & [Hy _]%oldest_event_some & _ & Hc & Hs & _).
    apply IH; rewrite Hc; [by rewrite <- Hc| |].
    + intros z Hz. simpl in Hz. apply Hr. rewrite in_del in Hz. tauto.
    + pose proof (del_shorter (fun z => x_message_id z == x_message_id y) _ _ Hy (beq_refl _)) as Hsh.
      assert (length (outbox (committed w)) = S (length l)) by (by rewrite El). simpl in *. lia.
Qed.
End Progress.

(** ** Properties *)
Section Properties.
Context `{Broker} `{!BrokerLaws} (locked : nat -> uuid -> bool) (cancelled : nat -> bool)
  (url : string).

(** C13: the worker refines the abstract queue: however often it reconnects and whatever fails
  (database, connection, broker, unroutable events), an event is gone from the committed outbox
  only if the broker stores it as a persistent message, no event is added, and nothing else in
  the database changes. *)
Theorem Run_at_least_once rounds fuel o w n r w' n' :
schema_ok (committed w) = true ->
Run locked cancelled url rounds fuel o (w, n) = (r, (w', n')) ->
handed_over (committed w) (committed w') n'.
Proof. intros Hd E. by eapply hands_over_Run. Qed.

(** C14: when nothing fails, no other worker holds a row and the broker confirms, the loop hands
  over every event: as many rounds as there are events leave the outbox empty and every event
  stored. *)
Theorem deliver_drains fuel o w n :
(forall t, o_fault o t = None) -> (forall t id, locked t id = false) ->
(forall t, cancelled t = false) -> healthy ->
schema_ok (committed w) = true -> routable (committed w) ->
(length (outbox (committed w)) <= fuel)%nat ->
let '(_, (w', n')) := deliver locked cancelled fuel o (w, n) in
outbox (committed w') = [] /\ forall x, In x (outbox (committed w)) -> kept x n'.
Proof.
intros Hf Hu Hc Hb Hd Hr Hl. pose proof (deliver_empties locked cancelled o Hf Hu Hc Hb fuel w n Hd Hr Hl) as He.
destruct (deliver _ _ _ _ _) as [r [w' n']] eqn:E. simpl in He. split; [done|]. intros x Hx.
apply hands_over_deliver in E as [(_ & _ & _ & Hk) _]; [|done].
destruct (Hk x Hx) as [Hin|]; [|done]. by rewrite He in Hin.
Qed.
End Properties.

(** *** A broker that stores what it is given *)
#[export] Instance toy_broker : Broker := {
  Net := list Publishing;
  Confirmation := unit;
  amqp_Dial := fun _ n => (Ok tt, n);
  amqp_Channel := fun n => (Ok tt, n);
  amqp_ExchangeDeclare := fun _ _ n => (Ok tt, n);
  amqp_Confirm := fun n => (Ok tt, n);
  amqp_NotifyReturn := fun _ n => n;
  amqp_Publish := fun m n => (Ok (Some tt), m :: n);
  amqp_Wait := fun _ n => (Ok true, n);
  amqp_Returned := fun n => (false, n);
  amqp_Close := fun n => n;
}.
#[export] Instance toy_broker_laws : BrokerLaws.
Proof.
  refine {| stored := fun (n : @Net toy_broker) m => In m n |}; simpl; try tauto.
  intros m n c n1 n2 n3 _ _ [= _ <-] [= <-] [= <-]. by left.
Defined.

Definition no_messages : @Net toy_broker := [].
Definition toy_event (id : uuid) (exchange kind : string) (t : time) : OutboxRow :=
  {| x_message_id := id; x_exchange := exchange; x_type := kind;
     x_body := ProfileDeleted alice_id false; x_creation_timestamp := t |}.
Definition queued_db : DB :=
  set_outbox [toy_event 2 "mail" "mail.send.v1" 9; toy_event 1 "auth.profiles" "profile.deleted" 4]
    alice_db.

Lemma Run_at_least_once_witness : exists r w' n',
  Run (fun _ _ => false) (fun _ => false) "amqp://h" 2 3 quiet (at_rest queued_db, no_messages) =
    (r, (w', n')) /\ handed_over queued_db (committed w') n'.
Proof.
  destruct (Run (fun _ _ => false) (fun _ => false) "amqp://h" 2 3 quiet
    (at_rest queued_db, no_messages)) as [r [w' n']] eqn:E.
  exists r, w', n'. split; [reflexivity|].
  refine (Run_at_least_once (fun _ _ => false) (fun _ => false) "amqp://h" 2 3 quiet
    (at_rest queued_db) no_messages r w' n' _ E). rewrite committed_at_rest. vm_compute. reflexivity.
Defined.

Example Run_publishes_oldest_first :
  map pb_MessageId (Run (fun _ _ => false) (fun _ => false) "amqp://h" 2 3 quiet
    (at_rest queued_db, no_messages)).2.2 = [2%N; 1%N].
Proof. vm_compute. reflexivity. Qed.

Lemma deliver_drains_witness : exists r w' n',
  deliver (fun _ _ => false) (fun _ => false) 2 quiet (at_rest queued_db, no_messages) = (r, (w', n')) /\
  outbox (committed w') = [].
Proof.
  pose proof (deliver_drains (fun _ _ => false) (fun _ => false) 2 quiet (at_rest queued_db) no_messages
    (fun _ => eq_refl) (fun _ _ => eq_refl) (fun _ => eq_refl)) as Hd.
  destruct (deliver _ _ _ _ _) as [r [w' n']]. exists r, w', n'. split; [reflexivity|].
  apply Hd; rewrite ?committed_at_rest.
  - intros m n _. by exists tt, (m :: n : @Net toy_broker), (m :: n), (m :: n).
  - vm_compute. reflexivity.
  - intros x [<-|[<-|[]]]; [by exists "mail.send"|by exists ""].
  - simpl. lia.
Defined.
