(* ===== verification/ProviderAdapters.v ===== *)
(** internal/authentication/provider/provider.go: the Google and VK adapters behind the engine's
    [Provider] interface. The HTTP exchange, the OAuth client library and the ID token
    validation are parameters, read at the moment of the call. *)
From S2P Require Import Prelude GoLib Schema Limiter TxMonad Secrets PasskeyVerifier Engine Process Mail Passkeys OAuth Toy ProcessFacts OAuthFacts.
#[local] Open Scope string_scope.
#[local] Open Scope Z_scope.
#[local] Open Scope list_scope.

(** ** The libraries

    What [providerError] can tell of an error: each field is one [errors.As] or [errors.Is]. *)
Record RemoteError := {
  re_net : bool;                      (* net.Error *)
  re_deadline : bool;                 (* context.DeadlineExceeded *)
  re_canceled : bool;                 (* context.Canceled *)
  re_oauth : option (option Z);       (* *oauth2.RetrieveError and its response's status *)
  re_api : option Z;                  (* *googleapi.Error *)
}.

(** A validated ID token. A claim of another type than the one asked for is no claim. *)
Record IDTokenPayload := {
  pl_Issuer : string;
  pl_Subject : string;
  pl_Expires : Z;
  pl_email : option string;
  pl_email_verified : option bool;
  pl_nonce : option string;
  pl_auth_time : option Z;            (* int64 of the float64 *)
}.

Record VkData := { vk_UserID : Z; vk_Email : string; vk_Token : string }.
Record HttpResponse := { hr_StatusCode : Z; hr_Body : bytes }.

Class Remote : Type := {
  (* oauth2.Config.AuthCodeURL: client, redirect, scopes, state, parameters *)
  oauth2_AuthCodeURL : string -> string -> list string -> string -> list (string * string) -> string;
  (* oauth2.Config.Exchange and Extra("id_token"): client, secret, redirect, code, verifier *)
  oauth2_Exchange : nat -> string -> string -> string -> string -> string -> option string + RemoteError;
  idtoken_Validate : nat -> string -> string -> IDTokenPayload + RemoteError;
  (* url.Values.Encode *)
  url_Encode : list (string * string) -> string;
  http_Post : nat -> string -> string -> option HttpResponse;
  json_VkData : bytes -> option VkData;
  remote_clock : nat -> time;
}.

Section Adapters.
Context `{Platform} `{Remote}.

Definition overloaded (status : Z) : bool := (500 <=? status) || (status =? 429).

Definition providerError (err : RemoteError) : error :=
  if re_net err || re_deadline err || re_canceled err then ErrUnavailable
  else if match re_oauth err with Some (Some status) => overloaded status | _ => false end
  then ErrUnavailable
  else if match re_api err with Some status => overloaded status | None => false end
  then ErrUnavailable
  else ErrCredentials.

(** *** Google *)
Record Google := { go_ClientID : string; go_ClientSecret : string }.
Definition google_scopes : list string := ["openid"; "email"; "profile"].

Definition Google_Authorize (g : Google) (state nonce challenge redirect : string) (reauth : bool)
    : result string :=
  if go_ClientID g == "" then Err ErrUnavailable else
  Ok (oauth2_AuthCodeURL (go_ClientID g) redirect google_scopes state
    ([("nonce", nonce); ("code_challenge", challenge); ("code_challenge_method", "S256")] ++
     if reauth then [("max_age", "0"); ("prompt", "select_account")] else [])).

Definition google_issuer (issuer : string) : bool :=
  (issuer == "accounts.google.com") || (issuer == "https://accounts.google.com").

Definition google_identity (p : IDTokenPayload) : ProviderIdentity :=
  {| id_Subject := pl_Subject p;
     id_Email := match pl_email_verified p, pl_email p with
                 | Some true, Some email => email
                 | _, _ => ""
                 end;
     id_Nonce := match pl_nonce p with Some nonce => nonce | None => "" end;
     id_AuthenticatedAt := option_map (fun t => t * Second) (pl_auth_time p) |}.

Definition Google_Native (g : Google) (t : nat) (raw : string) : result ProviderIdentity :=
  if (go_ClientID g == "") || (raw == "") then Err ErrCredentials else
  match idtoken_Validate t raw (go_ClientID g) with
  | inr err => Err (providerError err)
  | inl p =>
      if negb (google_issuer (pl_Issuer p)) || (pl_Subject p == "") ||
         (pl_Expires p <=? Unix (remote_clock t))
      then Err ErrCredentials
      else Ok (google_identity p)
  end.

Definition Google_Exchange (g : Google) (t : nat) (code redirect verifier : string)
    : result ProviderIdentity :=
  match oauth2_Exchange t (go_ClientID g) (go_ClientSecret g) redirect code verifier with
  | inr err => Err (providerError err)
  | inl token => Google_Native g t (match token with Some raw => raw | None => "" end)
  end.

Definition google_provider (g : Google) : Provider :=
  {| Authorize := Google_Authorize g; Exchange := Google_Exchange g; Native := Google_Native g |}.

(** *** VK *)
Record VK := { vk_ClientID : string; vk_ClientSecret : string }.

Definition https_redirect (redirect : string) : bool :=
  match url_Parse redirect with
  | None => false
  | Some u => (Scheme u == "https") && (Host u != "")
  end.

Definition VK_Authorize (v : VK) (state nonce challenge redirect : string) (reauth : bool)
    : result string :=
  if negb (https_redirect redirect) then Err ErrInvalid
  else if vk_ClientID v == "" then Err ErrUnavailable
  else Ok ("https://oauth.vk.com/authorize?" +:+
    url_Encode [("client_id", vk_ClientID v); ("redirect_uri", redirect);
                ("response_type", "code"); ("scope", "email"); ("state", state)]).

Definition VK_Native (v : VK) (t : nat) (raw : string) : result ProviderIdentity :=
  Err ErrUnavailable.

Definition vk_body_limit : nat := Nat.pow 2 16.

Definition VK_Exchange (v : VK) (t : nat) (code redirect verifier : string)
    : result ProviderIdentity :=
  if negb (https_redirect redirect) then Err ErrInvalid else
  match http_Post t "https://oauth.vk.com/access_token"
          (url_Encode [("client_id", vk_ClientID v); ("client_secret", vk_ClientSecret v);
                       ("redirect_uri", redirect); ("code", code)]) with
  | None => Err ErrUnavailable
  | Some res =>
      if overloaded (hr_StatusCode res) then Err ErrUnavailable
      else if hr_StatusCode res != 200 then Err ErrCredentials
      else match json_VkData (byte_take vk_body_limit (hr_Body res)) with
           | None => Err ErrCredentials
           | Some data =>
               if (vk_UserID data <=? 0) || (vk_Token data == "") then Err ErrCredentials
               else Ok {| id_Subject := FormatInt (vk_UserID data); id_Email := vk_Email data;
                          id_Nonce := ""; id_AuthenticatedAt := None |}
           end
  end.

Definition vk_provider (v : VK) : Provider :=
  {| Authorize := VK_Authorize v; Exchange := VK_Exchange v; Native := VK_Native v |}.

(** *** What the adapters answer *)
Lemma Google_Native_ok g t raw i :
  Google_Native g t raw = Ok i -> exists p, idtoken_Validate t raw (go_ClientID g) = inl p /\
    go_ClientID g <> "" /\ google_issuer (pl_Issuer p) = true /\ pl_Subject p <> "" /\
    Unix (remote_clock t) < pl_Expires p /\ i = google_identity p.
Proof.
  unfold Google_Native. destruct (_ || _) eqn:Ec; [done|].
  destruct (idtoken_Validate t raw (go_ClientID g)) as [p|err]; [|done].
  destruct (negb _ || _ || _) eqn:Ep; [done|]. intros [= Hi]. exists p. bsimp.
  split_and!; done.
Qed.

Lemma VK_Exchange_unauthenticated v t code redirect verifier i :
  VK_Exchange v t code redirect verifier = Ok i -> id_AuthenticatedAt i = None.
Proof.
  unfold VK_Exchange. destruct (negb _); [done|]. destruct (http_Post _ _ _) as [res|]; [|done].
  destruct (overloaded _), (hr_StatusCode res != 200); try done.
  destruct (json_VkData _) as [data|]; [|done]. destruct (_ || _); [done|]. by intros [= <-].
Qed.

(** The errors an adapter reports are the two the engine knows how to treat: "unavailable" is
    passed on, "credentials" is counted as a failed attempt. *)
Lemma providerError_two err : providerError err = ErrUnavailable \/ providerError err = ErrCredentials.
Proof. unfold providerError. repeat case_match; tauto. Qed.
End Adapters.

(** ** Properties *)
Section Properties.
Context `{Platform} `{WebAuthn} `{Remote} (e : Engine).

(** VK says nothing about when the user authenticated, so a VK step never completes for a
  sensitive purpose: whatever VK answers, an attempt of a sensitive process through it fails. *)
Theorem vk_never_reauthenticates v id cid flow who proof o w a w' :
f_Method proof = "vk" -> Providers e "vk" = Some (vk_provider v) ->
attemptProvider e id cid flow who proof o w = (Ok a, w') ->
exists u, loaded e o (committed w) id flow who u /\ sensitive (u_purpose u) = false.
Proof.
intros Hm Hv E. wp_start E. unfold attemptProvider. rewrite Hm, Hv.
wp_call consume_request_ok as ((u & t & Hu & Hcp & _) & _).
wp_binds. apply wp_ro_ok; [apply _|done|].
intros i w1 [Ha (_ & _ & Hs)]%provider_identity_ok _ _ _.
apply wp_spec; [done|]. intros ? ? _. simpl. exists u. split; [apply Hu|].
rewrite Hcp in Hs. simpl in Hs. destruct (sensitive (u_purpose u)); [|done].
destruct (Hs eq_refl) as (time & _ & _ & Hi & _). destruct Ha as [k Ha].
destruct (f_IDToken proof == ""); [|done].
destruct Ha as (verifier & _ & Hx). apply (VK_Exchange_unauthenticated v k _ _ verifier) in Hx. congruence.
Qed.
End Properties.

(** *** A VK that knows the user 7 *)
#[export] Instance toy_remote : Remote := {
  oauth2_AuthCodeURL := fun _ _ _ state _ => state;
  oauth2_Exchange := fun _ _ _ _ _ _ => inl None;
  idtoken_Validate := fun _ _ _ =>
    inr {| re_net := true; re_deadline := false; re_canceled := false; re_oauth := None; re_api := None |};
  url_Encode := fun _ => "q";
  http_Post := fun _ _ _ => Some {| hr_StatusCode := 200; hr_Body := "{}" |};
  json_VkData := fun _ => Some {| vk_UserID := 7; vk_Email := ""; vk_Token := "T" |};
  remote_clock := fun _ => toy_now;
}.
Definition vk_engine : Engine :=
  {| Providers := fun m => if m == "vk" then Some (vk_provider {| vk_ClientID := "id"; vk_ClientSecret := "s" |}) else None;
     OAuthRedirects := ["https://h/"]; Passkeys := None; e_Secrets := toy_secrets; Mail := None;
     BcryptCost := 12; FlowTTL := 15 * Minute; ChallengeTTL := 5 * Minute;
     GrantTTL := 2 * Minute; ReuseTTL := 5 * Minute; MaxAttempts := 10 |}.
Definition vk_db : DB :=
  set_oauth_requests
    [{| o_state_hash := hash_input "state" "" "S"; o_provider := "vk";
        o_step_id := Some 30%N; o_session_id := None;
        o_client_binding_hash := hash_input "binding" "" "F"; o_redirect_uri := "https://h/";
        o_nonce_hash := hash_input "nonce" "" "N"; o_encrypted_code_verifier := "nnnnnnnnnnnnV";
        o_expiration_timestamp := toy_now + Minute |}]
    (set_identities [{| i_account_id := alice_id; i_provider := "vk"; i_subject := "7" |}]
      (set_authentications
        [set_u_completion_timestamp None (set_u_account_id None
           (alice_process 9 "signIn" "pending" "F"))]
        (pending_db "signIn" "vkVerification"))).
Definition vk_proof : Proof :=
  {| f_Email := ""; f_Name := ""; f_IDToken := ""; f_State := "S"; f_Method := "vk";
     f_Login := ""; f_Password := ""; f_Code := "C"; f_Credential := "" |}.

Lemma vk_never_reauthenticates_witness : exists u,
  loaded vk_engine quiet vk_db 9 "F" no_principal u /\ sensitive (u_purpose u) = false.
Proof.
  destruct (run_ex (attemptProvider vk_engine 9 30 "F" no_principal vk_proof) quiet
    (at_rest vk_db) (fun a => p_Status (at_Authentication a) == "completed"))
    as (a & E & _); [vm_compute; reflexivity|].
  exact (vk_never_reauthenticates vk_engine {| vk_ClientID := "id"; vk_ClientSecret := "s" |}
    9 30 "F" no_principal vk_proof quiet (at_rest vk_db) a _ eq_refl eq_refl E).
Defined.
