(* ===== verification/LegacyReads.v ===== *)
(** internal/transport/authenticationgrpc/legacy_reads.go: the read RPCs of the old service that
    profile and gateway still use. They query the committed database, outside the lock. *)
From S2P Require Import Prelude GoLib Schema Limiter TxMonad Secrets Engine Server Toy ServerFacts ProviderAdapters.
#[local] Open Scope string_scope.
#[local] Open Scope Z_scope.
#[local] Open Scope list_scope.

(** ** Messages *)
Record OAuthIds := { oi_GoogleId : option string; oi_VkId : option Z }.
Record AuthInfo := {
  ai_Id : string;
  ai_Email : string;
  ai_Username : option string;
  ai_Role : string;
  ai_RegistrationTimestamp : time;
  ai_IsActivated : bool;
  ai_IsBlocked : bool;
  ai_OAuth : option OAuthIds;
  ai_DeletionTimestamp : option time;
}.
Record DeletionStatus := { ds_DeletionTimestamp : option time; ds_Deleted : bool }.

(** [LegacyReads]: whether there is a database, and the access token's public key. *)
Record LegacyConfig := { lr_DB : bool; lr_PublicKey : bytes }.

(** [errors.Is] of the context's errors. *)
Definition context_canceled (err : error) : bool := err == ErrDB (Driver "context canceled").
Definition context_deadline (err : error) : bool :=
  err == ErrDB (Driver "context deadline exceeded").

Definition legacyReadError (err : error) : Status :=
  if err == ErrNoRows then rpcError NotFound "not_found"
  else if context_canceled err then rpcError Canceled "request_cancelled"
  else if context_deadline err then rpcError DeadlineExceeded "request_timeout"
  else rpcError Internal "auth_lookup_failed".

(** [strconv.ParseInt(s, 10, 64)]. *)
Definition max_int64 : Z := 9223372036854775807.
Definition ParseInt64 (s : string) : option Z :=
  let '(negative, digits) :=
    match s with
    | String "-" rest => (true, rest)
    | String "+" rest => (false, rest)
    | _ => (false, s)
    end in
  if (digits == "") || negb (bytes_forall is_digit digits) then None
  else
    let n := if negative : bool then - decimal_value 0 digits else decimal_value 0 digits in
    if (n <? - max_int64 - 1) || (max_int64 <? n) then None else Some n.

Section LegacyReads.
Context `{Platform} (s : LegacyConfig).

(** [s.DB.QueryRowContext(...).Scan(...)] and [QueryContext]: one statement, no transaction. *)
Definition direct {A} (m : M A) : M A := fun o w => m o (set_working (committed w) w).
Definition status {A} (c : code) (reason : string) : rpc A :=
  fun _ w => (inl (rpcError c reason), w).
(** Continues with the value, or reports what [onError] makes of the error. *)
Definition rpc_bind {A B} (m : M A) (onError : error -> Status + B) (k : A -> Status + B) : rpc B :=
  fun o w => match m o w with
             | (Ok a, w') => (k a, w')
             | (Err err, w') => (onError err, w')
             end.

Definition GetAccessTokenPublicKey : rpc bytes :=
  if lr_PublicKey s == "" then status Unavailable "public_key_unavailable"
  else fun _ w => (inr (lr_PublicKey s), w).

(** The criteria of a request, in order; [None]: the request is invalid. *)
Definition id_criterion (id : string) : option (list (Account -> bool)) :=
  if id == "" then Some [] else
  match uuid_Parse id with
  | None => None
  | Some x => if x == uuid_Nil then None else Some [fun a => a_id a == x]
  end.
Definition email_criterion (email : string) : list (Account -> bool) :=
  let email := TrimSpace email in
  if email == "" then [] else [fun a => a_email a == ToLower email].
Definition username_criterion (username : string) : list (Account -> bool) :=
  let username := TrimSpace username in
  if username == "" then [] else [fun a => a_username a == Some username].
Definition criteria (id email username : string) : option (list (Account -> bool)) :=
  option_map (fun l => l ++ email_criterion email ++ username_criterion username)
    (id_criterion id).
Definition meets (ps : list (Account -> bool)) (a : Account) : bool := forallb (fun p => p a) ps.

(** The row of the query: the account with what is joined to it. *)
Definition subject_of (provider : string) (account : uuid) (d : DB) : option string :=
  option_map i_subject
    (one (fun i => (i_account_id i == account) && (i_provider i == provider)) (identities d)).
Definition deadline_of (account : uuid) (d : DB) : option time :=
  option_map d_deletion_timestamp
    (one (fun x => d_account_id x == account) (account_deletion_requests d)).
Definition auth_row (ps : list (Account -> bool)) (d : DB)
    : option (Account * option time * option string * option string) :=
  option_map (fun a => (a, deadline_of (a_id a) d, subject_of "google" (a_id a) d,
                        subject_of "vk" (a_id a) d)) (one (meets ps) (accounts d)).

Definition oauth_ids (google vk : option string) : option (option OAuthIds) :=
  match google, vk with
  | None, None => Some None
  | _, None => Some (Some {| oi_GoogleId := google; oi_VkId := None |})
  | _, Some v =>
      match ParseInt64 v with
      | None => None
      | Some n => if n <=? 0 then None
                  else Some (Some {| oi_GoogleId := google; oi_VkId := Some n |})
      end
  end.

Definition auth_info (row : Account * option time * option string * option string)
    : Status + AuthInfo :=
  let '(a, deleted, google, vk) := row in
  match oauth_ids google vk with
  | None => inl (rpcError Internal "invalid_identity")
  | Some ids => inr
      {| ai_Id := uuid_String (a_id a); ai_Email := a_email a; ai_Username := a_username a;
         ai_Role := "user"; ai_RegistrationTimestamp := a_creation_timestamp a;
         ai_IsActivated := isSome (a_email_verification_timestamp a);
         ai_IsBlocked := isSome (a_blocking_timestamp a); ai_OAuth := ids;
         ai_DeletionTimestamp := deleted |}
  end.

Definition GetAuthInfo (id email username : string) : rpc AuthInfo :=
  match criteria id email username with
  | None | Some [] => status InvalidArgument "invalid_request"
  | Some ps =>
      if negb (lr_DB s) then status Unavailable "auth_storage_unavailable"
      else rpc_bind (direct (query_row (auth_row ps))) (fun err => inl (legacyReadError err))
             auth_info
  end.

(** The distinct ids of the request, in order. *)
Fixpoint visible_ids (seen : list uuid) (raw : list string) : option (list uuid) :=
  match raw with
  | [] => Some seen
  | r :: raw =>
      match uuid_Parse r with
      | None => None
      | Some x => if x == uuid_Nil then None
                  else if any (fun y => y == x) seen then visible_ids seen raw
                  else visible_ids (seen ++ [x]) raw
      end
  end.

Definition names_of (ids : list uuid) (d : DB) : gmap string string :=
  list_to_map (omap (fun a => match a_username a with
                              | Some name => if any (fun y => y == a_id a) ids
                                             then Some (uuid_String (a_id a), name) else None
                              | None => None
                              end) (accounts d)).

Definition GetVisibleNames (raw : list string) : rpc (gmap string string) :=
  match visible_ids [] raw with
  | None => status InvalidArgument "invalid_request"
  | Some [] => fun _ w => (inr ∅, w)
  | Some ids =>
      if negb (lr_DB s) then status Unavailable "auth_storage_unavailable"
      else rpc_bind (direct (query (names_of ids))) (fun err => inl (legacyReadError err)) inr
  end.

Definition GetProfileDeletionStatus (raw : string) : rpc DeletionStatus :=
  match uuid_Parse raw with
  | None => status InvalidArgument "invalid_request"
  | Some id =>
      if id == uuid_Nil then status InvalidArgument "invalid_request"
      else if negb (lr_DB s) then status Unavailable "auth_storage_unavailable"
      else rpc_bind
             (direct (query_row (fun d =>
                if has_account d id then Some (deadline_of id d) else None)))
             (fun err => if err == ErrNoRows
                         then inr {| ds_DeletionTimestamp := None; ds_Deleted := true |}
                         else inl (legacyReadError err))
             (fun deadline => inr {| ds_DeletionTimestamp := deadline; ds_Deleted := false |})
  end.
End LegacyReads.

(** ** Facts *)
Lemma ParseInt64_FormatInt n : 0 < n <= max_int64 -> ParseInt64 (FormatInt n) = Some n.
Proof.
  intros Hn. unfold FormatInt. destruct (Z.ltb_spec n 0) as [|_]; [lia|].
  destruct (decimal_spec n 19) as (Hd & Hl & Hv); [unfold max_int64 in Hn; lia|lia|].
  unfold ParseInt64. destruct (decimal n) as [|c rest] eqn:E; [simpl in Hl; lia|].
  assert (is_digit c = true) as Hc by (simpl in Hd; bsimp; done).
  assert (match String c rest with
          | String "-" r => (true, r) | String "+" r => (false, r) | _ => (false, String c rest)
          end = (false, String c rest)) as ->.
  { destruct c as [[] [] [] [] [] [] [] []]; try reflexivity; discriminate Hc. }
  rewrite Hd, Hv. simpl. unfold max_int64 in *. destruct (_ || _) eqn:Er; [|done]. bsimp. lia.
Qed.

Section Facts.
Context `{Platform}.

Lemma direct_read_only {A} (m : M A) o w : ReadOnly m -> committed (direct m o w).2 = committed w.
Proof. intros Hm. unfold direct. by destruct (Hm o (set_working (committed w) w)) as (_ & -> & _). Qed.

Lemma rpc_bind_ok {A B} (m : M A) onError (k : A -> Status + B) o w b w' :
  rpc_bind m onError k o w = (inr b, w') ->
  (exists a, m o w = (Ok a, w') /\ k a = inr b) \/
  (exists err, m o w = (Err err, w') /\ onError err = inr b).
Proof. unfold rpc_bind. destruct (m o w) as [[a|err] w1]; intros [= Hk <-]; eauto. Qed.

Lemma auth_row_some ps d row :
  auth_row ps d = Some row -> exists a, In a (accounts d) /\ meets ps a = true /\
    row = (a, deadline_of (a_id a) d, subject_of "google" (a_id a) d, subject_of "vk" (a_id a) d).
Proof.
  unfold auth_row. destruct (one _ _) as [a|] eqn:Ea; simpl; [|done]. intros [= <-].
  apply one_some in Ea as [? ?]. by exists a.
Qed.
End Facts.

(** ** Properties *)
Section Properties.
Context `{Platform}.

(** The account information answered is that of an account that meets every criterion given
  (at least one), with the pending deletion and the identities of that account, and reading it
  changes nothing. *)
Theorem GetAuthInfo_matches s id email username o w info w' :
GetAuthInfo s id email username o w = (inr info, w') ->
exists ps a, criteria id email username = Some ps /\ ps <> [] /\
  In a (accounts (committed w)) /\ meets ps a = true /\
  auth_info (a, deadline_of (a_id a) (committed w), subject_of "google" (a_id a) (committed w),
             subject_of "vk" (a_id a) (committed w)) = inr info /\
  committed w' = committed w.
Proof.
unfold GetAuthInfo. destruct (criteria id email username) as [[|p ps]|] eqn:Ec; try by unfold status.
destruct (negb _); [by unfold status|].
intros [(row & E & Hi)|(err & _ & Hi)]%rpc_bind_ok; [|done].
pose proof (direct_read_only (query_row (auth_row (p :: ps))) o w _) as Hc. rewrite E in Hc.
exists (p :: ps). unfold direct, query_row, statement in E. simpl in E.
destruct (o_fault o _); [done|]. destruct (auth_row _ _) as [r|] eqn:Er; simplify_eq/=.
apply auth_row_some in Er as (a & Ha & Hm & ->). by exists a.
Qed.

(** C36: the VK id survives storage: what the adapter answers comes from the answer of VK's token
  endpoint to this very code, and from the subject it makes of the numeric user id in that answer
  the legacy read gives the same, positive number back. So two VK users have two subjects. *)
Theorem vk_id_roundtrip `{Remote} v t code redirect verifier i google :
(forall b data, json_VkData b = Some data -> vk_UserID data <= max_int64) ->
VK_Exchange v t code redirect verifier = Ok i ->
exists res data,
  http_Post t "https://oauth.vk.com/access_token"
    (url_Encode [("client_id", vk_ClientID v); ("client_secret", vk_ClientSecret v);
                 ("redirect_uri", redirect); ("code", code)]) = Some res /\
  hr_StatusCode res = 200 /\ json_VkData (byte_take vk_body_limit (hr_Body res)) = Some data /\
  0 < vk_UserID data /\ id_Email i = vk_Email data /\
  oauth_ids google (Some (id_Subject i)) =
    Some (Some {| oi_GoogleId := google; oi_VkId := Some (vk_UserID data) |}).
Proof.
intros Hj E. unfold VK_Exchange in E. destruct (negb _); [done|].
destruct (http_Post _ _ _) as [res|] eqn:Er; [|done].
destruct (overloaded _); [done|]. destruct (hr_StatusCode res != 200) eqn:Es; [done|].
destruct (json_VkData _) as [data|] eqn:Ed; [|done]. destruct (_ || _) eqn:Eb; [done|].
injection E as <-. apply orb_false_iff in Eb as [Hn _]. apply Z.leb_gt in Hn.
rewrite negb_beq_false in Es. exists res, data. split_and!; [done..|]. unfold oauth_ids. simpl.
rewrite ParseInt64_FormatInt by (split; [done|by eapply Hj]).
destruct (Z.leb_spec (vk_UserID data) 0); [lia|]. by destruct google.
Qed.
End Properties.

Definition toy_legacy : LegacyConfig := {| lr_DB := true; lr_PublicKey := "K" |}.
Lemma GetAuthInfo_matches_witness : exists info w' ps a,
  GetAuthInfo toy_legacy "" " A@B" "alice" quiet (at_rest alice_db) = (inr info, w') /\
  ai_Id info = "1" /\ meets ps a = true /\ In a (accounts alice_db).
Proof.
  destruct (run_answered (GetAuthInfo toy_legacy "" " A@B" "alice") quiet (at_rest alice_db))
    as (info & E); [vm_compute; reflexivity|].
  destruct (GetAuthInfo_matches toy_legacy "" " A@B" "alice" quiet (at_rest alice_db) info _ E)
    as (ps & a & _ & _ & Ha & Hm & _ & _).
  exists info, (GetAuthInfo toy_legacy "" " A@B" "alice" quiet (at_rest alice_db)).2, ps, a.
  split; [exact E|]. split; [|split; [exact Hm|exact Ha]].
  assert (isSome (answered_with (GetAuthInfo toy_legacy "" " A@B" "alice" quiet (at_rest alice_db)))
    = true) as _ by (vm_compute; reflexivity).
  revert E. vm_compute. by intros [= <-].
Defined.

Lemma vk_id_roundtrip_witness : exists i,
  VK_Exchange {| vk_ClientID := "id"; vk_ClientSecret := "s" |} 0 "C" "https://h/" "V" = Ok i /\
  oauth_ids None (Some (id_Subject i)) = Some (Some {| oi_GoogleId := None; oi_VkId := Some 7 |}).
Proof.
  eexists. destruct (vk_id_roundtrip {| vk_ClientID := "id"; vk_ClientSecret := "s" |} 0 "C"
    "https://h/" "V" {| id_Subject := "7"; id_Email := ""; id_Nonce := "";
                        id_AuthenticatedAt := None |} None) as (res & data & _ & _ & Hd & _ & _ & Hi).
  - intros b data [= <-]. vm_compute. discriminate.
  - vm_compute. reflexivity.
  - split; [vm_compute; reflexivity|]. injection Hd as <-. exact Hi.
Defined.
