(* ===== verification/Invariants.v ===== *)
(** Invariants of the database that may depend on what the random sources draw. [Keeps]: inside a
    transaction, what is written keeps the invariant. [Maintains]: an operation of whole
    transactions leaves the committed database within it. [Yields]: what is known of the answer of
    a call. A [RowInvariant] is the interface between an invariant and the operations: what each
    change of a row the engine makes must respect. Preservation.v proves against it, once, that
    every operation maintains any such invariant. *)
From S2P Require Import Prelude GoLib Schema Limiter Usernames TxMonad Secrets PasskeyVerifier Engine Process Mail Passkeys OAuth Challenge Sessions Account ProcessFacts ChallengeFacts.
#[local] Open Scope string_scope.
#[local] Open Scope Z_scope.
#[local] Open Scope list_scope.

Section Classes.
Context (O : Oracle -> Prop) (I : DB -> Prop).
Class Keeps {A} (m : M A) : Prop :=
  keeps : forall o w, O o -> I (working w) ->
    I (working (m o w).2) /\ (committed (m o w).2 = committed w \/ I (committed (m o w).2)).
Class Maintains {A} (m : M A) : Prop :=
  maintains : forall o w, O o -> I (committed w) -> I (committed (m o w).2).
Class Yields {A} (m : M A) (P : A -> Prop) : Prop :=
  yields : forall o w a w', O o -> I (working w) -> m o w = (Ok a, w') -> P a.
(** A body that succeeds has committed what it worked on. *)
Class Commits {A} (m : M A) : Prop :=
  commits : forall o w a w', m o w = (Ok a, w') -> committed w' = working w'.
End Classes.

(** What holds of the value of a call that may have failed. *)
Definition ok_and {A} (P : A -> Prop) (r : result A) : Prop :=
  match r with Ok a => P a | Err _ => True end.

Section Rules.
Context (O : Oracle -> Prop) (I : DB -> Prop) {A B : Type}.

#[export] Instance keeps_ro (m : M A) : ReadOnly m -> Keeps O I m.
Proof. intros H o w Ho Hw. destruct (H o w) as (-> & -> & _). by split; [|left]. Qed.
#[export] Instance keeps_nextval : Keeps O I nextval.
Proof. intros o w Ho Hw. unfold nextval. by case_match; split; [|left| |left]. Qed.
#[export] Instance keeps_try (m : M A) : Keeps O I m -> Keeps O I (try m).
Proof. intros H o w Ho Hw. specialize (H o w Ho Hw). unfold try. by destruct (m o w). Qed.
#[export] Instance keeps_commit : Keeps O I commit.
Proof.
  intros o w Ho Hw. unfold commit. destruct (o_fault o (tick w)); simpl; [by split; [|left]|].
  by split; [|right].
Qed.
Lemma keeps_bind (P : A -> Prop) (m : M A) (k : A -> M B) :
  Yields O I m P -> Keeps O I m -> (forall a, P a -> Keeps O I (k a)) -> Keeps O I (bind m k).
Proof.
  intros Hy Hm Hk o w Ho Hw. unfold bind. pose proof (Hm o w Ho Hw) as [Hw1 Hc1].
  destruct (m o w) as [[a|err] w1] eqn:E; [|done]. simpl in *.
  destruct (Hk a (Hy o w a w1 Ho Hw E) o w1 Ho Hw1) as [Hw2 Hc2]. split; [done|].
  destruct Hc2 as [->|?]; [done|by right].
Qed.
Lemma keeps_statement (f : DB -> result (A * DB)) :
  (forall d a d', I d -> f d = Ok (a, d') -> I d') -> Keeps O I (statement f).
Proof.
  intros Hf o w Ho Hw. unfold statement. destruct (o_fault o (tick w)); [by split; [|left]|].
  destruct (f (working w)) as [[a d']|?] eqn:E; simpl; (split; [eauto|by left]).
Qed.

#[export] Instance yields_any (m : M A) : Yields O I m (fun _ => True) | 100.
Proof. by intros o w a w'. Qed.
#[export] Instance yields_reject c err : Yields O I (reject_if c err) (fun _ => c = false).
Proof. intros o w a w' _ _. unfold reject_if. by destruct c. Qed.
#[export] Instance yields_try (m : M A) P : Yields O I m P -> Yields O I (try m) (ok_and P) | 10.
Proof.
  intros H o w a w' Ho Hw. unfold try. destruct (m o w) as [[x|err] w1] eqn:E; intros [= <- <-];
    simpl; [by eapply H|done].
Qed.

#[export] Instance maintains_nc (m : M A) : NoCommit m -> Maintains O I m | 5.
Proof. intros H o w _ Hw. by rewrite H. Qed.
Lemma maintains_bind (P : A -> Prop) (m : M A) (k : A -> M B) :
  Yields O (fun _ => True) m P -> Maintains O I m -> (forall a, P a -> Maintains O I (k a)) ->
  Maintains O I (bind m k).
Proof.
  intros Hy Hm Hk o w Ho Hw. specialize (Hm o w Ho Hw). unfold bind.
  destruct (m o w) as [[a|err] w1] eqn:E; [|done]. apply Hk; [by eapply Hy|done|done].
Qed.
#[export] Instance maintains_try (m : M A) : Maintains O I m -> Maintains O I (try m).
Proof. intros H o w Ho Hw. specialize (H o w Ho Hw). unfold try. by destruct (m o w). Qed.
Lemma maintains_transaction (m : M A) : Keeps O I m -> Maintains O I (transaction m).
Proof.
  intros H o w Ho Hw.
  assert (wp (transaction m) o w (fun _ w' => I (committed w'))) as Ht.
  { apply wp_transaction; [by intros ? ? -> ?|]. intros w1 Hc1 Hw1 _ _ _. apply wp_intro.
    intros r w2 E. destruct (H o w1 Ho) as [_ Hc2]; [by rewrite Hw1|]. rewrite E in Hc2.
    simpl in *. destruct Hc2 as [->|?]; [by rewrite Hc1|done]. }
  revert Ht. unfold wp. by destruct (transaction m o w).
Qed.

#[export] Instance commits_commit : Commits commit.
Proof. intros o w a w'. unfold commit. destruct (o_fault o (tick w)); by intros [= _ <-]. Qed.
#[export] Instance commits_commit_with (a : A) : Commits (commit_with a).
Proof.
  intros o w x w'. unfold commit_with, bind, commit. destruct (o_fault o (tick w)); by intros [= _ <-].
Qed.
#[export] Instance commits_fail err : Commits (@fail A err).
Proof. by intros o w x w'. Qed.
#[export] Instance commits_bind (m : M A) (k : A -> M B) :
  (forall a, Commits (k a)) -> Commits (bind m k).
Proof.
  intros Hk o w b w'. unfold bind. destruct (m o w) as [[a|err] w1]; [|done]. by apply Hk.
Qed.
End Rules.
#[export] Instance keeps_commit_with O I {A} (a : A) : Keeps O I (commit_with a).
Proof. apply (keeps_bind _ _ (fun _ => True)); intros; apply _. Qed.

(** ** Row invariants *)
Definition each {R} (P : R -> Prop) (t : list R) : Prop := forall r, In r t -> P r.

Section Each.
Context {R : Type} (P : R -> Prop).
Lemma each_upd p f t : (forall r, p r = true -> P r -> P (f r)) -> each P t -> each P (upd p f t).
Proof. intros Hf Ht r. rewrite in_upd. intros (x & Hx & ->). destruct (p x) eqn:?; auto. Qed.
Lemma each_ins r t : P r -> each P t -> each P (ins r t).
Proof. intros Hr Ht x. rewrite in_ins. intros [Hx| ->]; auto. Qed.
Lemma each_del p t : each P t -> each P (del p t).
Proof. intros Ht x. rewrite in_del. intros [Hx _]. auto. Qed.
Lemma each_sel p t : each P t -> each P (sel p t).
Proof. intros Ht x. rewrite in_sel. intros [Hx _]. auto. Qed.
End Each.

(** What an invariant says of rows, with what it may assume of the random sources: of the tokens
    and identifiers they draw. [target] are the processes whose state may still change: those just
    created and those that are pending. [hash_ok kind] is said of the hashes of one-time tokens,
    wherever a row carries one. *)
Class RowInvariant `{Platform} `{WebAuthn} (e : Engine) := {
  token_ok : string -> Prop;
  id_ok : uuid -> Prop;
  target : uuid -> Prop;
  hash_ok : string -> bytes -> Prop;
  u_ok : Authentication -> Prop;
  t_ok : Step -> Prop;
  a_ok : Account -> Prop;
  target_new id : id_ok id -> target id;
  target_pending u : u_ok u -> u_status u = "pending" -> target (u_id u);
  hash_drawn kind token : token_ok token -> hash_ok kind (Hash (e_Secrets e) kind "" token);
  u_new p hash : id_ok (p_ID p) -> u_ok (new_authentication p hash);
  u_fail u : target (u_id u) -> u_ok u -> u_ok (fail_authentication (MaxAttempts e) u);
  u_complete a n hash x u : target (u_id u) -> u_ok u -> u_ok (complete_row a n hash x u);
  u_failed u : target (u_id u) -> u_ok u -> u_ok (set_u_status "failed" u);
  u_bind a u : target (u_id u) -> u_ok u -> u_ok (set_u_account_id a u);
  u_clear u : u_ok u -> u_ok (clear_grant u);
  u_invalidate n u : u_ok u -> u_ok (invalidate_row n u);
  t_new c p n : t_ok (new_step c p n);
  t_fail t : t_ok t -> t_ok (fail_step (MaxAttempts e) t);
  t_complete n t : t_ok t -> t_ok (complete_step n t);
  t_cancel t : t_ok t -> t_ok (set_t_status "cancelled" t);
  a_new i m p n t : a_ok (new_account i m p n t);
  a_name n a : validUsername n = true -> a_ok a -> a_ok (set_a_username (Some n) a);
  a_same a b : a_username b = a_username a -> a_ok a -> a_ok b;
}.
#[global] Arguments hash_ok : simpl never.
#[global] Arguments u_ok : simpl never.
#[global] Arguments t_ok : simpl never.
#[global] Arguments a_ok : simpl never.
#[global] Arguments target : simpl never.

Section Within.
Context `{Platform} `{WebAuthn} {e : Engine} `{!RowInvariant e}.

Definition process_ok (u : Authentication) : Prop :=
  u_ok u /\ forall h, u_confirmation_token_hash u = Some h -> hash_ok "grant" h.
(** Every row of the database is within the invariant. *)
Definition rows_within (d : DB) : Prop :=
  each process_ok (authentications d) /\ each t_ok (authentication_steps d) /\
  each a_ok (accounts d) /\
  each (fun s => hash_ok "refresh" (s_refresh_token_hash s)) (sessions d) /\
  each (fun x => hash_ok "state" (o_state_hash x)) (oauth_requests d) /\
  each (fun r => hash_ok "reset" (pr_token_hash r)) (password_reset_requests d) /\
  each (fun c => hash_ok "email-change" (ec_token_hash c)) (email_change_requests d).
Definition within (d : DB) : Prop := schema_ok d = true /\ rows_within d.

Definition draws (o : Oracle) : Prop :=
  (forall k, token_ok (token_at o k)) /\ forall k, id_ok (o_uuid o k).
End Within.

Section ProcessRows.
Context `{Platform} `{WebAuthn} {e : Engine} `{!RowInvariant e}.

Lemma target_id id u : with_id id u = true -> target id -> target (u_id u).
Proof. unfold with_id. by intros ->%beq_true. Qed.
Lemma process_new p hash : id_ok (p_ID p) -> process_ok (new_authentication p hash).
Proof. intros Hi. split; [by apply u_new|done]. Qed.
Lemma process_fail u : target (u_id u) -> process_ok u ->
  process_ok (fail_authentication (MaxAttempts e) u).
Proof. intros Ht [Hu Hh]. split; [by apply u_fail|done]. Qed.
Lemma process_complete a n token x u : target (u_id u) -> token_ok token -> process_ok u ->
  process_ok (complete_row a n (Hash (e_Secrets e) "grant" "" token) x u).
Proof. intros Ht Hk [Hu Hh]. split; [by apply u_complete|]. intros h [= <-]. by apply hash_drawn. Qed.
Lemma process_failed u : target (u_id u) -> process_ok u -> process_ok (set_u_status "failed" u).
Proof. intros Ht [Hu Hh]. split; [by apply u_failed|done]. Qed.
Lemma process_bind a u : target (u_id u) -> process_ok u -> process_ok (set_u_account_id a u).
Proof. intros Ht [Hu Hh]. split; [by apply u_bind|done]. Qed.
Lemma process_clear u : process_ok u -> process_ok (clear_grant u).
Proof. intros [Hu Hh]. split; [by apply u_clear|done]. Qed.
Lemma process_invalidate n u : process_ok u -> process_ok (invalidate_row n u).
Proof. intros [Hu Hh]. split; [by apply u_invalidate|done]. Qed.

Lemma rows_cascade d : rows_within d -> rows_within (cascade d).
Proof.
  intros (Hu & Ht & Ha & Hs & Ho & Hr & Hc). unfold rows_within.
  rewrite cascade_authentications, cascade_authentication_steps, cascade_sessions,
    cascade_oauth_requests, cascade_password_reset_requests, cascade_email_change_requests.
  split_and!; auto using each_sel.
Qed.
Lemma rows_delete_sessions p d : rows_within d -> rows_within (delete_sessions p d).
Proof.
  intros (Hu & Ht & Ha & Hs & Ho & Hr & Hc). apply rows_cascade.
  split_and!; simpl; auto using each_del.
Qed.
Lemma rows_delete_passkeys p d : rows_within d -> rows_within (delete_passkeys p d).
Proof. intros Hd. apply rows_cascade. exact Hd. Qed.
Lemma rows_delete_account a d : rows_within d -> rows_within (delete_account a d).
Proof.
  intros (Hu & Ht & Ha & Hs & Ho & Hr & Hc). apply rows_cascade.
  split_and!; simpl; auto using each_del.
Qed.
End ProcessRows.

Create HintDb rows.
#[export] Hint Resolve rows_cascade rows_delete_sessions rows_delete_passkeys rows_delete_account : rows.
#[export] Hint Extern 1 (each _ (upd _ _ _)) => apply each_upd : rows.
#[export] Hint Extern 1 (each _ (ins _ _)) => apply each_ins : rows.
#[export] Hint Extern 1 (each _ (del _ _)) => apply each_del : rows.
#[export] Hint Extern 1 (each _ (sel _ _)) => apply each_sel : rows.
#[export] Hint Extern 1 (process_ok (new_authentication _ _)) => apply process_new : rows.
#[export] Hint Extern 1 (process_ok (fail_authentication _ _)) => apply process_fail : rows.
#[export] Hint Extern 1 (process_ok (complete_row _ _ _ _ _)) => apply process_complete : rows.
#[export] Hint Extern 1 (process_ok (set_u_status _ _)) => apply process_failed : rows.
#[export] Hint Extern 1 (process_ok (set_u_account_id _ _)) => apply process_bind : rows.
#[export] Hint Extern 1 (process_ok (clear_grant _)) => apply process_clear : rows.
#[export] Hint Extern 1 (process_ok (invalidate_row _ _)) => apply process_invalidate : rows.
#[export] Hint Extern 1 (t_ok (new_step _ _ _)) => apply t_new : rows.
#[export] Hint Extern 1 (t_ok (fail_step _ _)) => apply t_fail : rows.
#[export] Hint Extern 1 (t_ok (complete_step _ _)) => apply t_complete : rows.
#[export] Hint Extern 1 (t_ok (set_t_status _ _)) => apply t_cancel : rows.
#[export] Hint Extern 1 (a_ok (new_account _ _ _ _ _)) => apply a_new : rows.
#[export] Hint Extern 1 (a_ok (set_a_username _ _)) => apply a_name; [assumption|] : rows.
#[export] Hint Extern 1 (target (u_id _)) => eapply target_id; [eassumption|] : rows.
#[export] Hint Extern 2 (hash_ok _ _) => apply hash_drawn; assumption : rows.
#[export] Hint Extern 2 (a_ok _) => eapply a_same; [|eassumption]; reflexivity : rows.

(** ** Statements *)
Section Statements.
Context `{Platform} `{WebAuthn} {e : Engine} `{!RowInvariant e}.
Abbreviation Keeping := (Keeps draws within).

Lemma keeps_exec f : (forall d, rows_within d -> rows_within (f d)) -> Keeping (exec f).
Proof.
  intros Hf. apply keeps_statement. intros d a d' [_ Hr] E. unfold checked in E.
  destruct (violation (f d)) eqn:Ev; simplify_eq. split; [by apply violation_none|auto].
Qed.
Lemma keeps_qrr {A} (f : DB -> option (A * DB)) :
  (forall d a d', rows_within d -> f d = Some (a, d') -> rows_within d') ->
  Keeping (query_row_returning f).
Proof.
  intros Hf. apply keeps_statement. intros d a d' [_ Hr] E. destruct (f d) as [[a1 d1]|] eqn:Ef; [|done].
  unfold checked in E. destruct (violation d1) eqn:Ev; simplify_eq.
  split; [by apply violation_none|eauto].
Qed.
Lemma keeps_count f : (forall d, rows_within d -> rows_within (f d).2) -> Keeping (exec_count f).
Proof.
  intros Hf. apply keeps_statement. intros d a d' [_ Hr] E. specialize (Hf d Hr).
  destruct (f d) as [n d1]. unfold checked in E. destruct (violation d1) eqn:Ev; simplify_eq.
  split; [by apply violation_none|done].
Qed.
Lemma keeps_or_conflict {A} (m : M A) : Keeping m -> Keeping (or_conflict m).
Proof.
  intros Hm. unfold or_conflict. apply (keeps_bind _ _ (fun _ => True)); [apply _..|].
  intros [] _; apply _.
Qed.

(** *** What calls answer *)
#[export] Instance yields_randomToken I : Yields draws I randomToken token_ok.
Proof.
  intros o w a w' [Ht _] _. unfold randomToken, bind, rand_Read.
  destruct (o_random_ok o (tick w)); intros [= <- _]. apply Ht.
Qed.
#[export] Instance yields_uuid I : Yields draws I uuid_New id_ok.
Proof. intros o w a w' [_ Hi] _ [= <- _]. apply Hi. Qed.
#[export] Instance yields_load id flow who : Yields draws within (load e id flow who)
  (fun p => p_ID p = id /\ (p_Status p = "pending" -> target id)).
Proof.
  intros o w p w' _ [_ (Hu & _)] (u & -> & Hin & Hid & _)%load_ok. split; [done|].
  intros Hp. rewrite <- Hid. by apply target_pending; [apply Hu|].
Qed.
#[export] Instance yields_verify p c f :
  Yields draws within (verify e p c f) (fun p' => p_ID p' = p_ID p).
Proof. by intros o w p' w' _ _ [(? & _) _]%verify_frame. Qed.
#[export] Instance yields_register p : Yields draws within (register p) (fun p' => p_ID p' = p_ID p).
Proof. by intros o w p' w' _ _ (_ & _ & _ & ? & _)%register_ok. Qed.
End Statements.
