(* ===== verification/Preservation.v ===== *)
(** Every operation maintains every row invariant: one lemma per function of the engine, proved
    against the interface [RowInvariant], and the service with its daemons. *)
From S2P Require Import Prelude GoLib Schema Limiter Usernames TxMonad Secrets PasskeyVerifier Engine Process Mail Passkeys OAuth Challenge Sessions Account Totp Identities Cleanup Server ProcessFacts ChallengeFacts ServerFacts Invariants.
#[local] Open Scope string_scope.
#[local] Open Scope Z_scope.
#[local] Open Scope list_scope.

Create HintDb keeps.

(** ** Automation

    A process still changes: it was just created, or it was loaded pending. *)
Ltac target_now :=
  first [ assumption | apply target_new; assumption
        | match goal with H : target ?x |- target ?y => replace y with x by (simpl in *; congruence); exact H end ].
#[export] Hint Extern 1 (target _) => target_now : rows keeps.

(** What is known of the values bound so far. *)
Ltac known := cbv beta in *; repeat match goal with
  | H : ok_and _ (Ok _) |- _ => cbn [ok_and] in H
  | H : ok_and _ (Err _) |- _ => clear H
  | H : True |- _ => clear H
  | H : _ /\ _ |- _ => destruct H
  | H : (_ || _) = false |- _ => apply orb_false_iff in H as [? ?]
  | H : (_ != _) = false |- _ => rewrite negb_beq_false in H
  | H : ?p = "pending", G : ?p = "pending" -> _ |- _ => specialize (G H)
  end.

(** A statement leaves the tables alone or changes their rows in a way the hints know. *)
Ltac keeps_rows :=
  intros; unfold delete_returning, upsert_reset, upsert_deletion, upsert_activation,
    insert_account, insert_transport, use_passkey, bind_account, set_password, replace_email,
    update_accounts, update_authentications, update_steps in *;
  repeat case_match; simplify_eq/=; auto 2 with rows nocore;
  match goal with Hd : rows_within _ |- _ => destruct Hd as (? & ? & ? & ? & ? & ? & ?) end;
  split_and!; simpl; auto 6 with rows nocore.

Ltac solve_keeps := repeat (cbv beta iota;
  first
    [ progress (intros; known)
    | lazymatch goal with
      | |- Keeps _ _ (if ?c then _ else _) => destruct c eqn:?
      | |- Keeps _ _ (match ?x with _ => _ end) => destruct x
      | |- Maintains _ _ (if ?c then _ else _) => destruct c
      | |- Maintains _ _ (match ?x with _ => _ end) => destruct x
      | |- Keeps _ _ (bind _ _) => eapply keeps_bind; [apply _| |]
      | |- Maintains _ _ (transaction _) => apply maintains_transaction
      | |- Maintains _ _ (bind _ _) => eapply maintains_bind; [apply _| |]
      | |- _ _ _ (try _) => first [apply keeps_try | apply maintains_try]
      | |- Keeps _ _ (or_conflict _) => apply keeps_or_conflict
      | |- Keeps _ _ (exec _) => first [apply _ | apply keeps_exec; keeps_rows]
      | |- Keeps _ _ (query_row_returning _) => apply keeps_qrr; keeps_rows
      | |- Keeps _ _ (exec_count _) => apply keeps_count; keeps_rows
      end
    | apply _ | solve [eauto 4 with keeps] ]).

Section Engine.
Context `{Platform} `{WebAuthn} (e : Engine) `{!RowInvariant e}.
Abbreviation Keeping := (Keeps draws within).
Abbreviation Maintaining := (Maintains draws within).

(** *** Parts of transactions *)
#[export] Instance keeps_outbox_insert x k b : Keeping (outbox_insert x k b).
Proof. unfold outbox_insert. solve_keeps. Qed.
#[export] Instance keeps_queueMail m : Keeping (queueMail m).
Proof. unfold queueMail. solve_keeps. Qed.
#[export] Instance keeps_notifyAccount a m : Keeping (notifyAccount a m).
Proof. unfold notifyAccount. solve_keeps. Qed.
#[export] Instance keeps_invalidate a : Keeping (invalidate a).
Proof. unfold invalidate. solve_keeps. Qed.
#[export] Instance keeps_ConsumeGrant t p who : Keeping (ConsumeGrant e t p who).
Proof. unfold ConsumeGrant. solve_keeps. Qed.
#[export] Instance keeps_cancelAlternatives p a : Keeping (cancelAlternatives p a).
Proof. unfold cancelAlternatives. solve_keeps. Qed.
Lemma keeps_complete p : target (p_ID p) -> Keeping (complete e p).
Proof. unfold complete. solve_keeps. Qed.
Hint Resolve keeps_complete : keeps.
Lemma keeps_failRegistration {A} i r : target i -> Keeping (@failRegistration A i r).
Proof. unfold failRegistration. solve_keeps. Qed.
Hint Resolve keeps_failRegistration : keeps.
#[export] Instance keeps_createOAuthChallenge p c f o : Keeping (createOAuthChallenge e p c f o).
Proof. unfold createOAuthChallenge. solve_keeps. Qed.
#[export] Instance keeps_verify_registration p f : Keeping (verify_registration p f).
Proof. unfold verify_registration. solve_keeps. Qed.
#[export] Instance keeps_verify_passwordSetup p f : Keeping (verify_passwordSetup e p f).
Proof. unfold verify_passwordSetup. solve_keeps. Qed.
Lemma keeps_verify_password p f : target (p_ID p) -> Keeping (verify_password e p f).
Proof. unfold verify_password. solve_keeps. Qed.
#[export] Instance keeps_verify_totp p f : Keeping (verify_totp e p f).
Proof. unfold verify_totp. solve_keeps. Qed.
#[export] Instance keeps_verify_backupCode p f : Keeping (verify_backupCode e p f).
Proof. unfold verify_backupCode. solve_keeps. Qed.
#[export] Instance keeps_verify_email p c f : Keeping (verify_email e p c f).
Proof. unfold verify_email. solve_keeps. Qed.
Lemma keeps_verifyPasskey p c f : target (p_ID p) -> Keeping (verifyPasskey e p c f).
Proof. unfold verifyPasskey. solve_keeps. Qed.
Hint Resolve keeps_verify_password keeps_verifyPasskey : keeps.
Lemma keeps_verify p c f : target (p_ID p) -> Keeping (verify e p c f).
Proof. unfold verify. solve_keeps. Qed.
#[export] Instance keeps_register p : Keeping (register p).
Proof. unfold register. solve_keeps. Qed.
Lemma keeps_advance_signUp p c : target (p_ID p) -> Keeping (advance_signUp e p c).
Proof. unfold advance_signUp. solve_keeps. Qed.
Lemma keeps_advance p c : target (p_ID p) -> Keeping (advance e p c).
Proof. unfold advance. solve_keeps. Qed.
Lemma keeps_count_failure p i c : target i -> Keeping (count_failure e p i c).
Proof. unfold count_failure. solve_keeps. Qed.
Hint Resolve keeps_verify keeps_advance_signUp keeps_advance keeps_count_failure : keeps.

(** *** Operations *)
#[export] Instance maintains_Start p who : Maintaining (Start e p who).
Proof. unfold Start. solve_keeps. Qed.
#[export] Instance maintains_Get i f w : Maintaining (Get e i f w).
Proof. unfold Get. solve_keeps. Qed.
#[export] Instance maintains_consume_request i c f w p : Maintaining (consume_request e i c f w p).
Proof. unfold consume_request. solve_keeps. Qed.
#[export] Instance maintains_finish_provider i c f w p x :
  Maintaining (finish_provider e i c f w p x).
Proof. unfold finish_provider. solve_keeps. Qed.
#[export] Instance maintains_attemptProvider i c f w p : Maintaining (attemptProvider e i c f w p).
Proof. unfold attemptProvider. solve_keeps. Qed.
#[export] Instance maintains_count_provider_failure i c f w :
  Maintaining (count_provider_failure e i c f w).
Proof. unfold count_provider_failure. solve_keeps. Qed.
#[export] Instance maintains_AttemptProvider i c f w p : Maintaining (AttemptProvider e i c f w p).
Proof. unfold AttemptProvider. solve_keeps. Qed.
#[export] Instance maintains_GetChallenge i c f w : Maintaining (GetChallenge e i c f w).
Proof. unfold GetChallenge. solve_keeps. Qed.
#[export] Instance maintains_AttemptStep i c f w p : Maintaining (AttemptStep e i c f w p).
Proof. unfold AttemptStep. solve_keeps. Qed.
#[export] Instance maintains_CreateSession g i u s a r : Maintaining (CreateSession e g i u s a r).
Proof. unfold CreateSession. solve_keeps. Qed.
#[export] Instance maintains_Refresh i r p u s a t : Maintaining (Refresh e i r p u s a t).
Proof. unfold Refresh. solve_keeps. Qed.
#[export] Instance maintains_RevokeSessions w i : Maintaining (RevokeSessions w i).
Proof. unfold RevokeSessions. solve_keeps. Qed.
#[export] Instance maintains_LogoutRefresh i r : Maintaining (LogoutRefresh e i r).
Proof. unfold LogoutRefresh. solve_keeps. Qed.
#[export] Instance maintains_SetPassword w g p : Maintaining (SetPassword e w g p).
Proof. unfold SetPassword. solve_keeps. Qed.
#[export] Instance maintains_SetUsername w n : Maintaining (SetUsername w n).
Proof.
  unfold SetUsername. destruct (validUsername (normalizeUsername n)) eqn:?; simpl; solve_keeps.
Qed.
#[export] Instance maintains_RequestDeletion w g s t : Maintaining (RequestDeletion e w g s t).
Proof. unfold RequestDeletion. solve_keeps. Qed.
#[export] Instance maintains_PatchDeletion w s : Maintaining (PatchDeletion w s).
Proof. unfold PatchDeletion. solve_keeps. Qed.
#[export] Instance maintains_CancelDeletion w : Maintaining (CancelDeletion w).
Proof. unfold CancelDeletion. solve_keeps. Qed.
#[export] Instance maintains_DeleteDueAccount : Maintaining DeleteDueAccount.
Proof. unfold DeleteDueAccount. solve_keeps. Qed.
#[export] Instance maintains_StartPasswordReset a b : Maintaining (StartPasswordReset e a b).
Proof. unfold StartPasswordReset. solve_keeps. Qed.
#[export] Instance maintains_ConfirmPasswordReset t p : Maintaining (ConfirmPasswordReset e t p).
Proof. unfold ConfirmPasswordReset. solve_keeps. Qed.
#[export] Instance maintains_ChangeEmail w g a b : Maintaining (ChangeEmail e w g a b).
Proof. unfold ChangeEmail. solve_keeps. Qed.
#[export] Instance maintains_ConfirmEmail t b : Maintaining (ConfirmEmail e t b).
Proof. unfold ConfirmEmail. solve_keeps. Qed.
#[export] Instance maintains_StartTotp w g : Maintaining (StartTotp e w g).
Proof. unfold StartTotp. solve_keeps. Qed.
#[export] Instance keeps_insert_backup_codes a t n : Keeping (insert_backup_codes e a t n).
Proof. induction n; simpl; solve_keeps. Qed.
#[export] Instance keeps_replaceBackupCodes w : Keeping (replaceBackupCodes e w).
Proof. unfold replaceBackupCodes. solve_keeps. Qed.
#[export] Instance maintains_ConfirmTotp w c : Maintaining (ConfirmTotp e w c).
Proof. unfold ConfirmTotp. solve_keeps. Qed.
#[export] Instance maintains_DeleteTotp w g : Maintaining (DeleteTotp e w g).
Proof. unfold DeleteTotp. solve_keeps. Qed.
#[export] Instance maintains_RotateBackupCodes w g : Maintaining (RotateBackupCodes e w g).
Proof. unfold RotateBackupCodes. solve_keeps. Qed.
#[export] Instance maintains_StartPasskey w g : Maintaining (StartPasskey e w g).
Proof. unfold StartPasskey. solve_keeps. Qed.
#[export] Instance keeps_insert_transports i ts : Keeping (insert_transports i ts).
Proof. induction ts; simpl; solve_keeps. Qed.
#[export] Instance maintains_RegisterPasskey w i n r : Maintaining (RegisterPasskey e w i n r).
Proof. unfold RegisterPasskey. solve_keeps. Qed.
#[export] Instance maintains_RenamePasskey w i n : Maintaining (RenamePasskey w i n).
Proof. unfold RenamePasskey. solve_keeps. Qed.
#[export] Instance maintains_DeletePasskey w g i : Maintaining (DeletePasskey e w g i).
Proof. unfold DeletePasskey. solve_keeps. Qed.
#[export] Instance maintains_PrepareIdentityOAuth w p r : Maintaining (PrepareIdentityOAuth e w p r).
Proof. unfold PrepareIdentityOAuth. solve_keeps. Qed.
#[export] Instance maintains_consume_link w p s : Maintaining (consume_link e w p s).
Proof. unfold consume_link. solve_keeps. Qed.
#[export] Instance maintains_finish_link w g p s : Maintaining (finish_link e w g p s).
Proof. unfold finish_link. solve_keeps. Qed.
#[export] Instance maintains_LinkIdentity w g p c s : Maintaining (LinkIdentity e w g p c s).
Proof. unfold LinkIdentity. solve_keeps. Qed.
#[export] Instance maintains_UnlinkIdentity w g p : Maintaining (UnlinkIdentity e w g p).
Proof. unfold UnlinkIdentity. solve_keeps. Qed.

(** Each statement of a list leaves rows that are within the invariant so. *)
Definition harmless (q : time -> time -> DB -> DB) : Prop :=
  forall now cut d, rows_within d -> rows_within (q now cut d).
Lemma keeps_run_statements qs : Forall harmless qs -> Keeping (run_statements e qs).
Proof.
  induction 1 as [|q qs Hq _ IH]; simpl; [solve_keeps|].
  assert (forall now cut, Keeping (exec (q now cut))) by (intros; apply keeps_exec, Hq).
  solve_keeps.
Qed.
Lemma cleanup_harmless : Forall harmless cleanup_statements.
Proof.
  unfold cleanup_statements. repeat apply Forall_cons_2; [..|apply Forall_nil_2].
  all: intros now cut d Hd; cbv beta; pose proof Hd as (? & ? & ? & ? & ? & ? & ?).
  all: lazymatch goal with
    | |- rows_within (delete_sessions _ _) => by apply rows_delete_sessions
    | |- rows_within (cascade _) => apply rows_cascade
    | |- _ => idtac
    end; split_and!; simpl; auto 3 with rows nocore.
Qed.
#[export] Instance maintains_Cleanup : Maintaining (Cleanup e).
Proof.
  unfold Cleanup. pose proof (keeps_run_statements _ cleanup_harmless). solve_keeps.
Qed.
End Engine.

(** [MailSink.QueueCode] writes nothing the invariant forbids. *)
Class MailWithin `{Platform} `{WebAuthn} (e : Engine) `{!RowInvariant e} : Prop :=
  mail_within : forall sink to code t, Mail e = Some sink ->
    Keeps draws within (QueueCode sink to code t).
Lemma mail_within_outbox `{Platform} `{WebAuthn} (e : Engine) `{!RowInvariant e} :
  (forall sink, Mail e = Some sink -> sink = OutboxMail) -> MailWithin e.
Proof. intros Hm sink to code t Hs. rewrite (Hm sink Hs). simpl. apply _. Qed.

Section Challenges.
Context `{Platform} `{WebAuthn} (e : Engine) `{!RowInvariant e} `{!MailWithin e}.

#[export] Instance maintains_CreateChallenge i f m w os :
  Maintains draws within (CreateChallenge e i f m w os).
Proof.
  unfold CreateChallenge. destruct (Mail e) as [sink|] eqn:E; [|solve_keeps].
  pose proof (fun to code t => mail_within sink to code t E). solve_keeps.
Qed.
End Challenges.

(** ** The service *)
Class Serves (O : Oracle -> Prop) (I : DB -> Prop) {A} (h : rpc A) : Prop :=
  serves : forall o w, O o -> I (committed w) -> I (committed (h o w).2).

Section Serves.
Context (O : Oracle -> Prop) (I : DB -> Prop) {A B : Type}.
Lemma serves_reply (f : A -> B) (m : M A) : Maintains O I m -> Serves O I (reply f m).
Proof. intros Hm o w Ho Hw. specialize (Hm o w Ho Hw). unfold reply. by destruct (m o w) as [[|] ?]. Qed.
Lemma serves_refuse err : Serves O I (@refuse A err).
Proof. by intros o w. Qed.
Lemma serves_answer (f : A -> Response) (h : rpc A) : Serves O I h -> Serves O I (answer f h).
Proof. intros Hh o w Ho Hw. specialize (Hh o w Ho Hw). unfold answer. by destruct (h o w) as [[|] ?]. Qed.
End Serves.

Ltac solve_serves := repeat first
  [ apply serves_answer | apply serves_reply; apply _ | apply serves_refuse
  | match goal with |- Serves _ _ (match ?x with _ => _ end) => destruct x end
  | match goal with |- Serves _ _ (if ?x then _ else _) => destruct x end ].

Section Service.
Context `{Platform} `{WebAuthn} `{Wire} (s : ServerConfig) `{!RowInvariant (sv_Engine s)}
  `{!MailWithin (sv_Engine s)}.

(** Every request keeps the committed database within the invariant. *)
Lemma serve_maintains r : Serves draws within (serve s r).
Proof.
  destruct r; simpl;
    cbv [answer_empty Server_ValidateSession Server_CreateAuthentication Server_GetAuthentication
      Server_StartAuthenticationStep Server_GetAuthenticationStep
      Server_CompleteAuthenticationStep Server_CreateSession
      Server_GetSessions Server_RevokeSessions Server_SetPassword Server_StartPasswordReset
      Server_ConfirmPasswordReset Server_SetUsername Server_UsernameAvailability Server_ChangeEmail
      Server_ConfirmEmail Server_RequestDeletion Server_PatchDeletion Server_CancelDeletion
      Server_GetIdentities Server_LinkIdentity Server_UnlinkIdentity Server_PrepareIdentityOAuth
      Server_GetTotp Server_StartTotp Server_ConfirmTotp Server_DeleteTotp Server_GetPasskeys
      Server_StartPasskeyRegistration Server_RegisterPasskey Server_RenamePasskey
      Server_DeletePasskey Server_GetBackupCodes Server_RotateBackupCodes]; solve_serves.
  intros o w Ho Hw. unfold Server_RefreshSession.
  pose proof (maintains_Refresh (sv_Engine s) id refresh ip ua (sv_Issuer s) (sv_AccessTTL s)
    (sv_RefreshTTL s) o w Ho Hw) as Hr.
  by destruct (Refresh _ _ _ _ _ _ _ _ o w) as [[|[]] w1].
Qed.
End Service.
