(* ===== verification/Ownership.v ===== *)
(** What the service keeps of an account, and which operations leave it alone. An operation that
    acts for one account is proved not to touch the belongings of any other; an operation that
    acts for none, not to touch those of anyone. *)
From S2P Require Import Prelude GoLib Schema Limiter Usernames TxMonad Secrets PasskeyVerifier Engine Process Mail Passkeys OAuth Challenge Sessions Account Totp Identities Server ProcessFacts ChallengeFacts FlowFacts SessionFacts MailFacts ServerFacts Invariants Preservation.
#[local] Open Scope string_scope.
#[local] Open Scope Z_scope.
#[local] Open Scope list_scope.

(** ** Belongings *)

(** The rows of an account: its credentials, address, names and factors, its sessions and the
    request to delete it. *)
Record Belongings := {
  bl_account : list Account;
  bl_identities : list IdentityRow;
  bl_sessions : list SessionRow;
  bl_totp : list TotpRow;
  bl_passkeys : list PasskeyRow;
  bl_backup_codes : list BackupCodeRow;
  bl_deletion : list DeletionRequest;
}.
Definition belongings (x : uuid) (d : DB) : Belongings := {|
  bl_account := sel (fun a => a_id a == x) (accounts d);
  bl_identities := sel (fun i => i_account_id i == x) (identities d);
  bl_sessions := sel (fun s => s_account_id s == x) (sessions d);
  bl_totp := sel (fun t => tp_account_id t == x) (totp d);
  bl_passkeys := sel (fun k => k_account_id k == x) (passkeys d);
  bl_backup_codes := sel (fun b => b_account_id b == x) (backup_codes d);
  bl_deletion := sel (fun r => d_account_id r == x) (account_deletion_requests d);
|}.

(** *** Statements on other rows *)
Section Tables.
Context {R : Type} (q : R -> bool).
Lemma sel_upd_other p f t :
  (forall r, In r t -> p r = true -> q r = false /\ q (f r) = false) -> sel q (upd p f t) = sel q t.
Proof.
  induction t as [|r t IH]; intros Hf; [done|]. unfold upd in *. simpl.
  rewrite IH by (intros; apply Hf; [by right|done]).
  destruct (p r) eqn:E; [|done]. by destruct (Hf r (or_introl eq_refl) E) as [-> ->].
Qed.
Lemma sel_ins_other r t : q r = false -> sel q (ins r t) = sel q t.
Proof. intros Hr. unfold ins. rewrite sel_app. simpl. by rewrite Hr, app_nil_r. Qed.
Lemma sel_del_other p t :
  (forall r, In r t -> q r = true -> p r = false) -> sel q (del p t) = sel q t.
Proof.
  induction t as [|r t IH]; intros Hp; [done|]. unfold del in *. simpl.
  assert (sel q (List.filter (fun y => negb (p y)) t) = sel q t) as IH'
    by (apply IH; intros; apply Hp; [by right|done]).
  destruct (p r) eqn:E; simpl; [|by rewrite IH'].
  destruct (q r) eqn:F; [by rewrite (Hp r (or_introl eq_refl) F) in E|done].
Qed.
End Tables.

(** No row of an account is without it. *)
Definition owned (d : DB) : Prop :=
  each (fun i => has_account d (i_account_id i) = true) (identities d) /\
  each (fun s => has_account d (s_account_id s) = true) (sessions d) /\
  each (fun t => has_account d (tp_account_id t) = true) (totp d) /\
  each (fun k => has_account d (k_account_id k) = true) (passkeys d) /\
  each (fun b => has_account d (b_account_id b) = true) (backup_codes d) /\
  each (fun r => has_account d (d_account_id r) = true) (account_deletion_requests d).
Lemma schema_owned d : schema_ok d = true -> owned d.
Proof.
  unfold schema_ok, fk_ok. rewrite !andb_true_iff, !forallb_forall. intros Hd. destruct_and! Hd.
  by split_and!.
Qed.
Lemma belongings_cascade x d : owned d -> belongings x (cascade d) = belongings x d.
Proof.
  intros (Hi & Hs & Ht & Hk & Hb & Hr). unfold belongings. autorewrite with cascade.
  f_equal; f_equal; apply sel_all; intros r; rewrite has_account_cascade; auto.
Qed.

Section Spared.
Context (x : uuid).
Lemma spared_delete_sessions p d :
  schema_ok d = true -> (forall s, In s (sessions d) -> s_account_id s = x -> p s = false) ->
  belongings x (delete_sessions p d) = belongings x d.
Proof.
  intros (Hi & Hs & Ht & Hk & Hb & Hr)%schema_owned Hp. unfold delete_sessions.
  rewrite belongings_cascade by (split_and!; simpl; auto using each_del).
  unfold belongings. simpl. f_equal. apply sel_del_other. intros s Hin. bsimp. by apply Hp.
Qed.
Lemma spared_delete_passkeys p d :
  schema_ok d = true -> (forall k, In k (passkeys d) -> k_account_id k = x -> p k = false) ->
  belongings x (delete_passkeys p d) = belongings x d.
Proof.
  intros (Hi & Hs & Ht & Hk & Hb & Hr)%schema_owned Hp. unfold delete_passkeys.
  rewrite belongings_cascade by (split_and!; simpl; auto using each_del).
  unfold belongings. simpl. f_equal. apply sel_del_other. intros s Hin. bsimp. by apply Hp.
Qed.
End Spared.

(** ** Operations on other rows *)
Section Sparing.
Context `{Platform} `{WebAuthn} (e : Engine) (x : uuid) (v : Belongings).

(** The account [x] has the belongings [v]. *)
Definition holding (d : DB) : Prop := schema_ok d = true /\ belongings x d = v.
Abbreviation Sparing := (Keeps (fun _ => True) holding).

Lemma spared_statement {A} (f : DB -> result (A * DB)) :
  (forall d a d', schema_ok d = true -> f d = Ok (a, d') ->
     schema_ok d' = true /\ belongings x d' = belongings x d) -> Sparing (statement f).
Proof.
  intros Hf. apply keeps_statement. intros d a d' [Hd Hb] E. destruct (Hf d a d' Hd E) as [? Hb'].
  split; [done|]. by rewrite Hb'.
Qed.
Lemma checked_ok {A} (a b : A) d d' : checked a d = Ok (b, d') -> d' = d /\ schema_ok d' = true.
Proof. unfold checked. destruct (violation d) eqn:E; intros [= _ <-]. split; [done|by apply violation_none]. Qed.
Lemma spared_exec f :
  (forall d, schema_ok d = true -> belongings x (f d) = belongings x d) -> Sparing (exec f).
Proof. intros Hf. apply spared_statement. intros d a d' Hd [-> ?]%checked_ok. auto. Qed.
Lemma spared_qrr {A} (f : DB -> option (A * DB)) :
  (forall d a d', schema_ok d = true -> f d = Some (a, d') -> belongings x d' = belongings x d) ->
  Sparing (query_row_returning f).
Proof.
  intros Hf. apply spared_statement. intros d a d' Hd. destruct (f d) as [[b d1]|] eqn:E; [|done].
  intros [-> ?]%checked_ok. eauto.
Qed.
Lemma spared_or_conflict {A} (m : M A) : Sparing m -> Sparing (or_conflict m).
Proof.
  intros Hm. unfold or_conflict. apply (keeps_bind _ _ (fun _ => True)); [apply _..|].
  intros [] _; apply _.
Qed.
End Sparing.

(** A statement touches none of the tables, or only rows of others. *)
Ltac spare_rows :=
  first [ apply sel_upd_other | apply sel_ins_other | apply sel_del_other ];
  intros; simpl in *; bsimp; split_and?; first [done | congruence | left; congruence].
Ltac spare :=
  intros; unfold delete_returning, upsert_reset, upsert_deletion, upsert_activation,
    insert_transport, set_password, bind_account, update_accounts, update_authentications,
    update_steps in *;
  repeat case_match; simplify_eq/=;
  lazymatch goal with
  | |- belongings _ (delete_sessions _ _) = _ =>
      apply spared_delete_sessions; [assumption|intros; bsimp; naive_solver congruence]
  | |- belongings _ (delete_passkeys _ _) = _ =>
      apply spared_delete_passkeys; [assumption|intros; bsimp; naive_solver congruence]
  | |- _ => first [ reflexivity | unfold belongings; simpl; f_equal; spare_rows ]
  end.
Ltac solve_spared := repeat (cbv beta iota;
  first
    [ progress intros
    | lazymatch goal with
      | |- Keeps _ _ (if ?c then _ else _) => destruct c eqn:?
      | |- Keeps _ _ (match ?x with _ => _ end) => destruct x
      | |- Maintains _ _ (if ?c then _ else _) => destruct c
      | |- Maintains _ _ (match ?x with _ => _ end) => destruct x
      | |- Keeps _ _ (bind _ _) => apply (keeps_bind _ _ (fun _ => True)); [apply _| |]
      | |- Maintains _ _ (transaction _) => apply maintains_transaction
      | |- Maintains _ _ (bind _ _) => apply (maintains_bind _ _ (fun _ => True)); [apply _| |]
      | |- Keeps _ _ (try _) => apply keeps_try
      | |- Maintains _ _ (try _) => apply maintains_try
      | |- Keeps _ _ (or_conflict _) => apply spared_or_conflict
      | |- Keeps _ _ (exec _) => apply spared_exec; spare
      | |- Keeps _ _ (query_row_returning _) => apply spared_qrr; spare
      end
    | apply _ ]).

Section Anyone.
Context `{Platform} `{WebAuthn} (e : Engine) (x : uuid) (v : Belongings).
Abbreviation Sparing := (Keeps (fun _ => True) (holding x v)).
Abbreviation Spares := (Maintains (fun _ => True) (holding x v)).

(** *** Those that act for nobody *)
#[export] Instance spared_outbox_insert t k b : Sparing (outbox_insert t k b).
Proof. unfold outbox_insert. solve_spared. Qed.
#[export] Instance spared_queueMail m : Sparing (queueMail m).
Proof. unfold queueMail. solve_spared. Qed.
#[export] Instance spared_notifyAccount a m : Sparing (notifyAccount a m).
Proof. unfold notifyAccount. solve_spared. Qed.
#[export] Instance spared_invalidate a : Sparing (invalidate a).
Proof. unfold invalidate. solve_spared. Qed.
#[export] Instance spared_ConsumeGrant t p who : Sparing (ConsumeGrant e t p who).
Proof. unfold ConsumeGrant. solve_spared. Qed.
#[export] Instance spared_cancelAlternatives p a : Sparing (cancelAlternatives p a).
Proof. unfold cancelAlternatives. solve_spared. Qed.
#[export] Instance spared_complete p : Sparing (complete e p).
Proof. unfold complete. solve_spared. Qed.
#[export] Instance spared_createOAuthChallenge p c f o : Sparing (createOAuthChallenge e p c f o).
Proof. unfold createOAuthChallenge. solve_spared. Qed.
#[export] Instance spared_insert_transports i ts : Sparing (insert_transports i ts).
Proof. induction ts; simpl; solve_spared. Qed.
#[export] Instance spared_QueueCode to code t : Sparing (QueueCode OutboxMail to code t).
Proof. simpl. apply _. Qed.

#[export] Instance spares_Start p who : Spares (Start e p who).
Proof. unfold Start. solve_spared. Qed.
#[export] Instance spares_CreateChallenge (Hm : forall sink, Mail e = Some sink -> sink = OutboxMail)
  i f m w os : Spares (CreateChallenge e i f m w os).
Proof.
  unfold CreateChallenge. destruct (Mail e) as [sink|] eqn:E; [rewrite (Hm sink eq_refl)|]; solve_spared.
Qed.
#[export] Instance spares_StartPasswordReset a b : Spares (StartPasswordReset e a b).
Proof. unfold StartPasswordReset. solve_spared. Qed.
#[export] Instance spares_PrepareIdentityOAuth w p r : Spares (PrepareIdentityOAuth e w p r).
Proof. unfold PrepareIdentityOAuth. solve_spared. Qed.
#[export] Instance spares_ChangeEmail w g a b : Spares (ChangeEmail e w g a b).
Proof. unfold ChangeEmail. solve_spared. Qed.
#[export] Instance spares_StartTotp w g : Spares (StartTotp e w g).
Proof. unfold StartTotp. solve_spared. Qed.
#[export] Instance spares_StartPasskey w g : Spares (StartPasskey e w g).
Proof. unfold StartPasskey. solve_spared. Qed.
#[export] Instance spares_consume_request i c f w p : Spares (consume_request e i c f w p).
Proof. unfold consume_request. solve_spared. Qed.
#[export] Instance spares_finish_provider i c f w p y : Spares (finish_provider e i c f w p y).
Proof. unfold finish_provider. solve_spared. Qed.
#[export] Instance spares_count_provider_failure i c f w :
  Spares (count_provider_failure e i c f w).
Proof. unfold count_provider_failure. solve_spared. Qed.
#[export] Instance spares_attemptProvider i c f w p : Spares (attemptProvider e i c f w p).
Proof. unfold attemptProvider. solve_spared. Qed.
#[export] Instance spares_AttemptProvider i c f w p : Spares (AttemptProvider e i c f w p).
Proof. unfold AttemptProvider. solve_spared. Qed.
#[export] Instance spares_consume_link w p s : Spares (consume_link e w p s).
Proof. unfold consume_link. solve_spared. Qed.

(** *** Those that act for the caller, who is another *)
Section Others.
Context (who : Principal) (other : AccountID who <> x).

Lemma spares_SetPassword g p : Spares (SetPassword e who g p).
Proof. unfold SetPassword. solve_spared. Qed.
Lemma spares_SetUsername n : Spares (SetUsername who n).
Proof. unfold SetUsername. solve_spared. Qed.
Lemma spares_RequestDeletion g s t : Spares (RequestDeletion e who g s t).
Proof. unfold RequestDeletion. solve_spared. Qed.
Lemma spares_PatchDeletion s : Spares (PatchDeletion who s).
Proof. unfold PatchDeletion. solve_spared. Qed.
Lemma spares_CancelDeletion : Spares (CancelDeletion who).
Proof. unfold CancelDeletion. solve_spared. Qed.
Lemma spared_insert_backup_codes t n : Sparing (insert_backup_codes e (AccountID who) t n).
Proof. induction n; simpl; solve_spared. Qed.
#[local] Existing Instance spared_insert_backup_codes.
Lemma spared_replaceBackupCodes : Sparing (replaceBackupCodes e who).
Proof. unfold replaceBackupCodes. solve_spared. Qed.
#[local] Existing Instance spared_replaceBackupCodes.
Lemma spares_ConfirmTotp c : Spares (ConfirmTotp e who c).
Proof. unfold ConfirmTotp. solve_spared. Qed.
Lemma spares_DeleteTotp g : Spares (DeleteTotp e who g).
Proof. unfold DeleteTotp. solve_spared. Qed.
Lemma spares_RotateBackupCodes g : Spares (RotateBackupCodes e who g).
Proof. unfold RotateBackupCodes. solve_spared. Qed.
Lemma spares_RegisterPasskey i n r : Spares (RegisterPasskey e who i n r).
Proof. unfold RegisterPasskey. solve_spared. Qed.
Lemma spares_RenamePasskey i n : Spares (RenamePasskey who i n).
Proof. unfold RenamePasskey. solve_spared. Qed.
Lemma spares_DeletePasskey g i : Spares (DeletePasskey e who g i).
Proof. unfold DeletePasskey. solve_spared. Qed.
Lemma spares_LinkIdentity g p c s : Spares (LinkIdentity e who g p c s).
Proof. unfold LinkIdentity, finish_link. solve_spared. Qed.
Lemma spares_UnlinkIdentity g p : Spares (UnlinkIdentity e who g p).
Proof. unfold UnlinkIdentity. solve_spared. Qed.
Lemma spares_RevokeSessions i : Spares (RevokeSessions who i).
Proof. unfold RevokeSessions. solve_spared. Qed.
End Others.
End Anyone.
