(* ===== verification/Authority.v ===== *)
(** Who may change what: a request changes the belongings of an account only with authority over
    that account. Every request of the service is covered. *)
From S2P Require Import Prelude GoLib Schema Limiter Usernames TxMonad Secrets PasskeyVerifier Engine Process Mail Passkeys OAuth Challenge Sessions Account Totp Identities Server Toy ProcessFacts ChallengeFacts FlowFacts SessionFacts AccountFacts MailFacts FactorFacts OAuthFacts ServerFacts Invariants Preservation Ownership.
#[local] Open Scope string_scope.
#[local] Open Scope Z_scope.
#[local] Open Scope list_scope.

(** ** Operations that find out whom they act for *)
Section Found.
Context `{Platform} `{WebAuthn} (e : Engine) (x : uuid).
Abbreviation same d' d := (belongings x d' = belongings x d).

Lemma same_mailed to m d d' : mailed to m d d' -> same d' d.
Proof. by intros (y & t & _ & _ & _ & ->). Qed.

(** *** Sessions *)
Lemma CreateSession_for grant ip ua issuer attl rttl o w t w' :
  CreateSession e grant ip ua issuer attl rttl o w = (Ok t, w') ->
  same (committed w') (committed w) \/
  exists u purpose, one_of ["signIn"; "signUp"] purpose = true /\
    grant_accepted e o (committed w) grant purpose no_principal u /\ uuid_of (u_account_id u) = x.
Proof.
  intros (u & purpose & s & d & Hp & Hu & Ha & (_ & Hs & _) & -> & _ & a & _ & _ & Hm)%CreateSession_ok.
  apply same_mailed in Hm. rewrite Hm. destruct (decide (uuid_of (u_account_id u) = x)) as [E|E].
  - right. by exists u, purpose.
  - left. unfold belongings. simpl. f_equal. apply sel_ins_other, beq_false. congruence.
Qed.
Lemma Refresh_for id refresh ip ua issuer attl rttl o w t w' :
  schema_ok (committed w) = true ->
  Refresh e id refresh ip ua issuer attl rttl o w = (Ok t, w') ->
  same (committed w') (committed w) \/
  exists s now, In s (sessions (committed w)) /\ s_id s = id /\
    s_refresh_token_hash s = Hash (e_Secrets e) "refresh" "" refresh /\
    reads_clock o now /\ now < s_expiration_timestamp s /\ s_account_id s = x.
Proof.
  intros Hd (s & now & n2 & n3 & d & Hs & Hi & _ & Hh & Hn & Hx & _ & _ & _ & -> & _ & -> & _)%Refresh_ok.
  destruct (decide (s_account_id s = x)) as [E|E]; [right; by exists s, now|left].
  unfold belongings. simpl. f_equal. apply sel_upd_other. intros r Hr Hri. bsimp.
  assert (r = s) as -> by (by eapply session_id_key). by split.
Qed.
Lemma LogoutRefresh_for id refresh o w u w' :
  schema_ok (committed w) = true -> LogoutRefresh e id refresh o w = (Ok u, w') ->
  same (committed w') (committed w) \/
  exists s, In s (sessions (committed w)) /\ s_id s = id /\
    s_refresh_token_hash s = Hash (e_Secrets e) "refresh" "" refresh /\ s_account_id s = x.
Proof.
  intros Hd E. set (p s := (s_id s == id) && (s_refresh_token_hash s == Hash (e_Secrets e) "refresh" "" refresh)).
  assert (committed w' = delete_sessions p (committed w)) as ->.
  { wp_start E. unfold LogoutRefresh. by wp_go. }
  destruct (any (fun s => p s && (s_account_id s == x)) (sessions (committed w))) eqn:Ea.
  - right. apply any_true in Ea as (s & Hs & Hp). unfold p in Hp. bsimp. by exists s.
  - left. apply spared_delete_sessions; [done|]. intros s Hs Hx. rewrite any_false in Ea.
    specialize (Ea s Hs). rewrite Hx, beq_refl, andb_true_r in Ea. done.
Qed.

(** *** Confirmed by mail *)
Lemma ConfirmPasswordReset_for token password o w u w' :
  ConfirmPasswordReset e token password o w = (Ok u, w') ->
  same (committed w') (committed w) \/
  exists r now, In r (password_reset_requests (committed w)) /\
    pr_token_hash r = Hash (e_Secrets e) "reset" "" token /\ reads_clock o now /\
    now < pr_expiration_timestamp r /\ pr_account_id r = x.
Proof.
  intros E. wp_start E. unfold ConfirmPasswordReset. wp_step. wp_skip. wp_go.
  match goal with F : match delete_returning ?p ?l with _ => _ end = Some _ |- _ =>
    unfold delete_returning in F; destruct (one p l) as [r|] eqn:Er; simplify_eq/= end.
  apply one_some in Er as [Hr Et]. unfold reset_token in Et. bsimp.
  wp_call invalidate_ok as (t1 & _ & Hi & Hc1 & _).
  wp_call notifyAccount_ok as (y & _ & _ & Hm & Hc2 & _ & Hd2). wp_go.
  destruct (decide (pr_account_id r = x)) as [E|E]; [right; by eauto 8|left].
  rewrite spared_delete_sessions; [|done|intros s _ Hs; apply beq_false; congruence].
  apply same_mailed in Hm. rewrite Hm, Hi. unfold belongings. simpl. f_equal. spare_rows.
Qed.
Lemma ConfirmEmail_for token baseURL o w r w' :
  ConfirmEmail e token baseURL o w = (Ok r, w') ->
  same (committed w') (committed w) \/
  exists c, change_found e o (committed w) token c /\ ec_stage c <> "awaiting_previous_email" /\
    ec_account_id c = x.
Proof.
  intros (c & Hc & [[_ Hf]|[_ (Hs & Hx & _)]])%ConfirmEmail_ok.
  - left. destruct Hf as (_ & tok & now & link & y & _ & _ & _ & _ & _ & ->). done.
  - destruct (decide (ec_account_id c = x)) as [E|E]; [right; by exists c|left].
    destruct Hx as (a & now & later & _ & _ & _ & _ & _ & _ & ->).
    unfold belongings. simpl. f_equal. spare_rows.
Qed.

(** *** Attempts *)

(** The process is bound to the account its value names. *)
Definition bound (d : DB) (p : Process) : Prop :=
  exists u, In u (authentications d) /\ u_id u = p_ID p /\ u_account_id u = p_accountID p.
(** The process is the account's. *)
Definition belongs (d : DB) (id : uuid) : Prop :=
  exists u, In u (authentications d) /\ u_id u = id /\ u_account_id u = Some x.

Lemma bound_bind d p account :
  bound d p -> bound (bind_account (p_ID p) account d) (set_p_accountID (Some account) p).
Proof.
  intros (u & Hu & Hi & _). exists (set_u_account_id (Some account) u). split_and!; try done.
  simpl. apply in_upd. exists u. split; [done|]. unfold with_id. by rewrite Hi, beq_refl.
Qed.
Lemma verifyPasskey_ok p c f o w p' w' :
  verifyPasskey e p c f o w = (Ok p', w') -> exists account cred now,
  p' = set_p_accountID (Some account) p /\
  working w' = bind_account (p_ID p) account (use_passkey account cred now (working w)).
Proof. intros E. wp_start E. unfold verifyPasskey. wp_go. wp_skip. wp_go. wp_skip. wp_go. by do 3 eexists. Qed.

Lemma verify_bound p c f o w p' w' :
  verify e p c f o w = (Ok p', w') -> bound (working w) p -> bound (working w') p'.
Proof.
  unfold verify. intros E Hb.
  destruct (c_Method c == "registration").
  { by apply verify_registration_ok in E as (-> & _ & _ & ->). }
  destruct (c_Method c == "passwordSetup").
  { by apply verify_passwordSetup_ok in E as (-> & _ & _ & ? & ? & _ & ->). }
  destruct (c_Method c == "passkey").
  { apply verifyPasskey_ok in E as (account & cred & now & -> & ->). by apply bound_bind. }
  destruct (c_Method c == "password").
  { apply verify_password_ok in E as (a & ? & _ & _ & _ & _ & _ & -> & _ & _ & ->). by apply bound_bind. }
  destruct (c_Method c == "email"); [by apply verify_email_ok in E as (-> & _ & _ & -> & _)|].
  destruct (c_Method c == "totp").
  { by apply verify_totp_ok in E as (-> & _ & _ & ? & ? & ? & ? & ? & _ & _ & _ & _ & _ & _ & ->). }
  destruct (c_Method c == "backupCode"); [|done].
  by apply verify_backupCode_ok in E as (-> & _ & _ & ? & ? & _ & _ & _ & ->).
Qed.
(** A proof touches the belongings of the account the process is then bound to, of nobody else. *)
Lemma verify_spares p c f o w p' w' :
  verify e p c f o w = (Ok p', w') -> p_accountID p' <> Some x -> same (working w') (working w).
Proof.
  unfold verify. intros E Hx.
  destruct (c_Method c == "registration").
  { by apply verify_registration_ok in E as (-> & _ & _ & ->). }
  destruct (c_Method c == "passwordSetup").
  { by apply verify_passwordSetup_ok in E as (-> & _ & _ & ? & ? & _ & ->). }
  destruct (c_Method c == "passkey").
  { apply verifyPasskey_ok in E as (account & cred & now & -> & ->). simpl in Hx.
    unfold belongings. simpl. f_equal. spare_rows. }
  destruct (c_Method c == "password").
  { by apply verify_password_ok in E as (a & ? & _ & _ & _ & _ & _ & -> & _ & _ & ->). }
  destruct (c_Method c == "email"); [by apply verify_email_ok in E as (-> & _ & _ & -> & _)|].
  destruct (c_Method c == "totp").
  { apply verify_totp_ok in E as (-> & _ & _ & account & ? & ? & ? & ? & Ha & _ & _ & _ & _ & _ & ->).
    unfold belongings. simpl. f_equal. spare_rows. }
  destruct (c_Method c == "backupCode"); [|done].
  apply verify_backupCode_ok in E as (-> & _ & _ & account & ? & Ha & _ & _ & ->).
  unfold belongings. simpl. f_equal. apply sel_del_other. unfold backup_row. intros r _ Hr.
  bsimp. left. congruence.
Qed.

Lemma complete_belongs d id now hash expiry :
  In id (map u_id (authentications d)) ->
  belongs (update_authentications (with_id id) (complete_row x now hash expiry) d) id.
Proof.
  intros (u & Hi & Hu)%in_map_iff. exists (complete_row x now hash expiry u). split_and!; try done.
  simpl. apply in_upd. exists u. split; [done|]. unfold with_id. by rewrite Hi, beq_refl.
Qed.
Lemma bound_id d p : bound d p -> In (p_ID p) (map u_id (authentications d)).
Proof. intros (u & Hu & <- & _). by apply in_map. Qed.

Lemma advance_for p c o w a w' :
  advance e p c o w = (Ok a, w') -> p_Status p = "pending" -> bound (working w) p ->
  same (committed w') (working w) /\ (p_accountID p = Some x -> belongs (committed w') (p_ID p)).
Proof.
  intros E Hp Hb. apply advance_ok in E as (_ & _ & _ & Hf); [|done].
  destruct Hf as [(_ & _ & ->)|(_ & _ & token & t & now & _ & _ & ->)]; (split; [done|]); intros Hx.
  - destruct Hb as (u & Hu & Hi & Ha). exists u. by rewrite Ha.
  - rewrite Hx. simpl. by apply complete_belongs, bound_id.
Qed.
Lemma register_spares p o w p' w' :
  register p o w = (Ok p', w') -> p_accountID p' <> Some x -> same (working w') (working w).
Proof.
  intros E. wp_start E. unfold register, outbox_insert. wp_go. intros Hx.
  unfold insert_account in *. simpl in *.
  match goal with F : (if ?c then _ else _) = Some _ |- _ => destruct c; simplify_eq/= end.
  unfold belongings. simpl. f_equal. apply sel_ins_other. apply beq_false. simpl. congruence.
Qed.
Lemma advance_signUp_for p c o w a w' :
  advance_signUp e p c o w = (Ok a, w') -> p_Status p = "pending" -> bound (working w) p ->
  same (committed w') (working w) \/ belongs (committed w') (p_ID p).
Proof.
  intros E Hp Hb%bound_id. wp_start E. unfold advance_signUp. wp_skip.
  wp_go; try apply wp_failRegistration. wp_skip. wp_go; [|wp_skip; wp_go; by left].
  apply wp_intro. intros [p1|err] w1 Er; cbv beta iota; [|wp_go; try apply wp_failRegistration].
  pose proof (register_spares _ _ _ _ _ Er) as Hr. apply register_ok in Er as (_ & _ & Hu & Hi & _).
  wp_call complete_status as (_ & Ha & Hi' & _ & _ & token & t1 & now & _ & _ & _ & Hw & _).
  wp_skip. wp_skip. wp_go. rewrite Hw.
  destruct (decide (p_accountID p1 = Some x)) as [Hx|Hx]; [right|left; by apply Hr].
  simpl in Hu, Hi. rewrite Hx, Hi. apply complete_belongs. by rewrite Hu.
Qed.
Lemma AttemptStep_for id challenge flow who proof o w a w' :
  AttemptStep e id challenge flow who proof o w = (Ok a, w') ->
  same (committed w') (committed w) \/
  exists u, loaded e o (committed w) id flow who u /\ u_status u = "pending" /\
    belongs (committed w') id.
Proof.
  intros E. wp_start E. unfold AttemptStep. wp_go. wp_use load_ok as (u & -> & Hu). wp_go.
  wp_use loadChallenge_ok as (st & _ & _ & _ & ->). wp_go. wp_enter En. wp_go.
  match goal with F : negb (contains _ ?m) = false |- _ => apply negb_false_iff in F;
    assert (u_purpose u = "signUp" -> one_of signUp_methods m = true) as Hsm
      by (intros Hp; exact (next_signUp _ _ _ _ _ _ m En Hp F)) end.
  apply wp_intro. intros [p1|err] w1 Ev; cbv beta iota; [|wp_go; apply wp_count_failure].
  assert (bound (committed w) (process_of u)) as Hb0 by (exists u; by split_and!; [apply Hu|..]).
  pose proof (verify_bound _ _ _ _ _ _ _ Ev Hb0) as Hb.
  pose proof (verify_spares _ _ _ _ _ _ _ Ev) as Hsp.
  pose proof (verify_signUp _ _ _ _ _ _ _ _ Ev) as Hsu.
  apply verify_frame in Ev as ((Hi & Hpu & Hs & _) & _ & Hc & _). destruct Hu as (Hin & Hid & Hl).
  wsimpl. unfold cancelAlternatives. simpl in *. bsimp.
  assert (forall d', belongs d' (p_ID p1) -> exists u', loaded e o (committed w) (u_id u) flow who u' /\
    u_status u' = "pending" /\ belongs d' (u_id u)) as Hfin
    by (intros d' Hd'; exists u; rewrite <- Hi; split_and!; [by rewrite Hi|done..]).
  wp_go; (apply wp_spec; [done|]); intros at1 w2 Ef; wsimpl.
  - apply advance_signUp_for in Ef; [|congruence|exact Hb]. destruct Ef as [Ef|Ef]; [left|right; by apply Hfin].
    simpl. rewrite Ef. unfold belongings. simpl. bsimp. rewrite Hsu by (apply Hsm; congruence). done.
  - apply advance_for in Ef as [Ef Hbel]; [|congruence|exact Hb].
    destruct (decide (p_accountID p1 = Some x)) as [Hx|Hx]; [right; by apply Hfin, Hbel|left].
    simpl. rewrite Ef. exact (Hsp Hx).
Qed.
End Found.

(** ** Authority *)
Section Authority.
Context `{Platform} `{WebAuthn} `{Wire} (s : ServerConfig).
Abbreviation e := (sv_Engine s).

(** The caller has a live session of [x], which is not blocked. *)
Definition caller (o : Oracle) (d : DB) (p : option AuthPrincipal) (x : uuid) : Prop :=
  AccountID (principal p) = x /\
  exists now, reads_clock o now /\ live_unblocked_session d (principal p) now = true.
(** And no deletion of the account is pending. *)
Definition active_caller (o : Oracle) (d : DB) (p : option AuthPrincipal) (x : uuid) : Prop :=
  caller o d p x /\ has_deletion d x = false.

(** A sensitive action was confirmed, or sets the first password of an account without one. *)
Definition action_confirmed (o : Oracle) (d : DB) (purpose : string) (a : option SensitiveAction)
    : Prop :=
  let '(who, token) := action a in
  (exists u, grant_accepted e o d token purpose who u) \/
  (purpose = "passwordChange" /\ first_password who o d).

(** What authorises a request to change what belongs to [x], in the databases before and after. *)
Definition authority (o : Oracle) (d d' : DB) (r : Request) (x : uuid) : Prop :=
  match r with
  | rq_CompleteAuthenticationStep step _ => exists sc id t who u,
      step = Some sc /\ flow (sc_Flow sc) = Ok (id, t, who) /\ loaded e o d id t who u /\
      u_status u = "pending" /\ belongs x d' id
  | rq_CreateSession token _ _ => exists u purpose, one_of ["signIn"; "signUp"] purpose = true /\
      grant_accepted e o d token purpose no_principal u /\ uuid_of (u_account_id u) = x
  | rq_RefreshSession id refresh _ _ => exists row now, In row (sessions d) /\ s_id row = id /\
      s_refresh_token_hash row = Hash (e_Secrets e) "refresh" "" refresh /\
      reads_clock o now /\ now < s_expiration_timestamp row /\ s_account_id row = x
  | rq_RevokeSessions p id refresh =>
      if refresh == "" then AccountID (principal p) = x /\
        exists now, reads_clock o now /\ live_session d (principal p) now = true
      else exists row, In row (sessions d) /\ id = Some (s_id row) /\
        s_refresh_token_hash row = Hash (e_Secrets e) "refresh" "" refresh /\ s_account_id row = x
  | rq_ConfirmPasswordReset token _ => exists row now, In row (password_reset_requests d) /\
      pr_token_hash row = Hash (e_Secrets e) "reset" "" token /\
      reads_clock o now /\ now < pr_expiration_timestamp row /\ pr_account_id row = x
  | rq_ConfirmEmail token => exists c, change_found e o d token c /\
      ec_stage c <> "awaiting_previous_email" /\ ec_account_id c = x
  | rq_ConfirmTotp p code => active_caller o d p x /\
      exists encrypted step, enrolment_proved e o d (principal p) code encrypted step
  | rq_RegisterPasskey p request _ _ => active_caller o d p x /\ exists id row now,
      uuid_Parse request = Some id /\ In row (passkey_registration_requests d) /\
      reads_clock o now /\ registration_request id (principal p) now row = true
  | rq_SetUsername p _ | rq_RenamePasskey p _ _ => active_caller o d p x
  | rq_PatchDeletion p _ | rq_CancelDeletion p => caller o d p x
  | _ => match gated r with
         | Some (purpose, a) => AccountID (action a).1 = x /\ action_confirmed o d purpose a
         | None => False
         end
  end.

(** *** The caller of an operation *)
Definition live (o : Oracle) (d : DB) (who : Principal) : Prop :=
  exists now, reads_clock o now /\ live_unblocked_session d who now = true.
Definition active (o : Oracle) (d : DB) (who : Principal) : Prop :=
  live o d who /\ has_deletion d (AccountID who) = false.

Lemma transaction_active who {A B} (k : A -> M B) (m : unit -> M A) o w b w' :
  transaction (bind (checkPrincipal who) (fun u => bind (m u) k)) o w = (Ok b, w') ->
  active o (committed w) who.
Proof using Type.
  intros E. wp_start E. wp_step. wp_use checkPrincipal_ok as Hp. by apply wp_spec.
Qed.
Lemma transaction_live who {A B} (k : A -> M B) (m : unit -> M A) o w b w' :
  transaction (bind (checkRecoveryPrincipal who) (fun u => bind (m u) k)) o w = (Ok b, w') ->
  live o (committed w) who.
Proof using Type.
  intros E. wp_start E. wp_step. wp_use checkRecoveryPrincipal_ok as Hp. by apply wp_spec.
Qed.
Lemma SetUsername_active who n o w u w' :
  SetUsername who n o w = (Ok u, w') -> active o (committed w) who.
Proof using Type. unfold SetUsername. destruct (negb _); [done|]. apply transaction_active. Qed.
Lemma RenamePasskey_active who i n o w k w' :
  RenamePasskey who i n o w = (Ok k, w') -> active o (committed w) who.
Proof using Type. unfold RenamePasskey. destruct (negb _); [done|]. apply transaction_active. Qed.
Lemma PatchDeletion_live who shared o w x w' :
  PatchDeletion who shared o w = (Ok x, w') -> live o (committed w) who.
Proof using Type. apply transaction_live. Qed.
Lemma CancelDeletion_live who o w u w' :
  CancelDeletion who o w = (Ok u, w') -> live o (committed w) who.
Proof using Type. apply transaction_live. Qed.
Lemma RegisterPasskey_active who id n c o w k w' :
  RegisterPasskey e who id n c o w = (Ok k, w') -> active o (committed w) who /\
  exists row now, In row (passkey_registration_requests (committed w)) /\ reads_clock o now /\
    registration_request id who now row = true.
Proof using Type.
  intros E. wp_start E. unfold RegisterPasskey. wp_go. wp_use checkPrincipal_ok as Hp. wp_go.
  match goal with F : one _ _ = Some ?r |- _ => apply one_some in F as [Hr Hm]; rename r into row end.
  wp_skip. apply wp_spec; [done|]. intros ? ? _. split; [exact Hp|]. exists row. eexists. split_and!; eauto.
Qed.

(** *** Requests *)
Lemma answered_ok {A B} (g : B -> Response) (f : A -> B) (m : M A) o w resp w' :
  answer g (reply f m) o w = (inr resp, w') -> exists a, m o w = (Ok a, w').
Proof using Type.
  unfold answer, reply. destruct (m o w) as [[a|] w1]; [|done]. intros [= _ <-]. by exists a.
Qed.
Lemma serves_same x {A} (h : rpc A) o w r w' :
  Serves (fun _ => True) (holding x (belongings x (committed w))) h ->
  schema_ok (committed w) = true -> h o w = (r, w') ->
  belongings x (committed w') = belongings x (committed w).
Proof using Type. intros Hh Hd E. destruct (Hh o w I (conj Hd eq_refl)) as [_ Hb]. by rewrite E in Hb. Qed.
End Authority.

Create HintDb spares.
#[export] Hint Resolve spares_SetPassword spares_SetUsername spares_RequestDeletion
  spares_PatchDeletion spares_CancelDeletion spares_ConfirmTotp spares_DeleteTotp
  spares_RotateBackupCodes spares_RegisterPasskey spares_RenamePasskey spares_DeletePasskey
  spares_LinkIdentity spares_UnlinkIdentity spares_RevokeSessions spares_CreateChallenge : spares.
Ltac solve_same := repeat first
  [ apply serves_answer | apply serves_refuse | apply serves_reply; first [apply _ | auto with spares]
  | match goal with |- Serves _ _ (match ?x with _ => _ end) => destruct x end
  | match goal with |- Serves _ _ (if ?x then _ else _) => destruct x end ].

Section Same.
Context `{Platform} `{WebAuthn} `{Wire} (s : ServerConfig) (x : uuid) (v : Belongings).
Abbreviation e := (sv_Engine s).
Abbreviation Sparing h := (Serves (fun _ => True) (holding x v) h).

(** The caller of a request that needs no confirmation. *)
Definition caller_of (r : Request) : option (option AuthPrincipal) :=
  match r with
  | rq_SetUsername p _ | rq_PatchDeletion p _ | rq_CancelDeletion p | rq_ConfirmTotp p _
  | rq_RegisterPasskey p _ _ _ | rq_RenamePasskey p _ _ => Some p
  | rq_RevokeSessions p _ refresh => if refresh == "" then Some p else None
  | _ => None
  end.
(** Requests that change what belongs to nobody. *)
Definition for_nobody (r : Request) : bool :=
  match r with
  | rq_ValidateSession _ | rq_CreateAuthentication _ _ | rq_GetAuthentication _
  | rq_StartAuthenticationStep _ _ _ _ | rq_GetAuthenticationStep _ | rq_GetSessions _
  | rq_StartPasswordReset _ | rq_UsernameAvailability _ | rq_GetIdentities _
  | rq_PrepareIdentityOAuth _ _ _ | rq_GetTotp _ | rq_GetPasskeys _ | rq_GetBackupCodes _ => true
  | _ => false
  end.

Lemma gated_same r purpose a :
  gated r = Some (purpose, a) -> AccountID (action a).1 <> x -> Sparing (serve s r).
Proof.
  intros Hr. destruct (action a) as [who token] eqn:Ea. cbn [fst]. intros Hx.
  destruct r; simplify_eq/=;
    cbv [answer_empty Server_SetPassword Server_ChangeEmail Server_RequestDeletion
      Server_LinkIdentity Server_UnlinkIdentity Server_StartTotp Server_DeleteTotp
      Server_StartPasskeyRegistration Server_DeletePasskey Server_RotateBackupCodes];
    rewrite Ea; solve_same.
Qed.
Lemma caller_same r p :
  caller_of r = Some p -> AccountID (principal p) <> x -> Sparing (serve s r).
Proof.
  intros Hr Hx. destruct r; simplify_eq/=;
    cbv [answer_empty Server_SetUsername Server_PatchDeletion Server_CancelDeletion
      Server_ConfirmTotp Server_RegisterPasskey Server_RenamePasskey Server_RevokeSessions];
    try (destruct (refresh == "") eqn:Er; [|done]; injection Hr as ->; rewrite beq_true in Er; subst;
      cbn [negb]); solve_same.
Qed.
Lemma nobody_same r :
  (forall sink, Mail e = Some sink -> sink = OutboxMail) -> for_nobody r = true ->
  Sparing (serve s r).
Proof.
  intros Hm Hr. destruct r; try discriminate Hr; simpl;
    cbv [answer_empty Server_ValidateSession Server_CreateAuthentication Server_GetAuthentication
      Server_StartAuthenticationStep Server_GetAuthenticationStep Server_GetSessions
      Server_StartPasswordReset Server_UsernameAvailability Server_GetIdentities
      Server_PrepareIdentityOAuth Server_GetTotp Server_GetPasskeys Server_GetBackupCodes];
    solve_same.
Qed.
End Same.

Section Acting.
Context `{Platform} `{WebAuthn} `{Wire} (s : ServerConfig) (x : uuid).
Abbreviation e := (sv_Engine s).

Lemma active_intro o d p :
  AccountID (principal p) = x -> active o d (principal p) -> active_caller o d p x.
Proof. intros <- [Hl Hd]. by repeat split. Qed.

Lemma caller_authority r p o w resp w' :
  caller_of r = Some p -> AccountID (principal p) = x -> serve s r o w = (inr resp, w') ->
  authority s o (committed w) (committed w') r x.
Proof.
  intros Hr. destruct r; simplify_eq/=; unfold answer_empty; intros Hx E.
  - destruct (refresh == "") eqn:Er; [|done]. injection Hr as ->. rewrite beq_true in Er. subst refresh.
    apply answered_ok in E as [a E]. apply RevokeSessions_ok in E as [Hl _]. by split.
  - apply answered_ok in E as [a E]. by apply active_intro, (SetUsername_active _ _ _ _ _ _ E).
  - apply answered_ok in E as [a E]. split; [done|]. by apply PatchDeletion_live in E.
  - apply answered_ok in E as [a E]. split; [done|]. by apply CancelDeletion_live in E.
  - apply answered_ok in E as [a E]. apply ConfirmTotp_ok in E as [[Hl Hd] (c1 & st & t & Hp & _)].
    split; [apply active_intro; [done|split; [done|by apply Hd]]|by exists c1, st].
  - unfold Server_RegisterPasskey in E. destruct (uuid_Parse request) as [id|] eqn:Eu; [|done].
    apply answered_ok in E as [a E]. apply RegisterPasskey_active in E as [Ha (row & now & ? & ? & ?)].
    split; [by apply active_intro|]. by exists id, row, now.
  - unfold Server_RenamePasskey in E. destruct (uuid_Parse key) as [id|] eqn:Eu; [|done].
    apply answered_ok in E as [a E]. by apply active_intro, (RenamePasskey_active _ _ _ _ _ _ _ E).
Qed.

Lemma attempt_authority step proof o w resp w' :
  serve s (rq_CompleteAuthenticationStep step proof) o w = (inr resp, w') ->
  schema_ok (committed w) = true ->
  belongings x (committed w') = belongings x (committed w) \/
  authority s o (committed w) (committed w') (rq_CompleteAuthenticationStep step proof) x.
Proof.
  intros E Hd. simpl in E. unfold Server_CompleteAuthenticationStep in E.
  destruct step as [sc|]; [|done]. destruct (flow (sc_Flow sc)) as [[[id t] who]|] eqn:Ef; [|done].
  destruct (uuid_Parse (sc_StepId sc)) as [cid|] eqn:Ec; [|done].
  destruct (step_proof proof) as [f|]; [|done].
  destruct (_ || _); apply answered_ok in E as [a E].
  - left. destruct (spares_AttemptProvider e x (belongings x (committed w)) id cid t who f o w I
      (conj Hd eq_refl)) as [_ Hb]. by rewrite E in Hb.
  - apply (AttemptStep_for _ x) in E as [E|(u & Hu & Hp & Hb)]; [by left|right].
    by exists sc, id, t, who, u.
Qed.
Lemma refresh_answered id refresh ip ua o w resp w' :
  serve s (rq_RefreshSession id refresh ip ua) o w = (inr resp, w') ->
  exists t, Refresh e id refresh ip ua (sv_Issuer s) (sv_AccessTTL s) (sv_RefreshTTL s) o w = (Ok t, w').
Proof.
  simpl. unfold answer, Server_RefreshSession. destruct (Refresh _ _ _ _ _ _ _ _ o w) as [[t|[]] w1];
    intros [= _ <-]; by exists t.
Qed.

(** The requests that name no caller act for the account that their token belongs to. *)
Lemma found_authority r o w resp w' :
  serve s r o w = (inr resp, w') -> schema_ok (committed w) = true ->
  gated r = None -> caller_of r = None -> for_nobody r = false ->
  belongings x (committed w') = belongings x (committed w) \/
  authority s o (committed w) (committed w') r x.
Proof.
  intros E Hd Hg Hc Hn. destruct r; try discriminate; simpl in Hc.
  - by eapply attempt_authority.
  - apply answered_ok in E as [a E]. by apply (CreateSession_for _ x) in E.
  - apply refresh_answered in E as [a E]. by apply (Refresh_for _ x) in E.
  - destruct (refresh == "") eqn:Er; [done|]. simpl in E. unfold answer_empty, Server_RevokeSessions in E.
    rewrite Er in E. cbn [negb] in E. destruct id as [id|]; [|done]. apply answered_ok in E as [a E].
    apply (LogoutRefresh_for _ x) in E as [E|(row & ? & <- & ? & ?)]; [by left|right|done].
    simpl. rewrite Er. by exists row.
  - apply answered_ok in E as [a E]. by apply (ConfirmPasswordReset_for _ x) in E.
  - apply answered_ok in E as [a E]. by apply (ConfirmEmail_for _ x) in E.
Qed.
End Acting.

(** ** Properties *)
Section Properties.
Context `{Platform} `{WebAuthn} `{Wire} (s : ServerConfig).
Abbreviation e := (sv_Engine s).
Hypothesis mail_outbox : forall sink, Mail e = Some sink -> sink = OutboxMail.

(** C1: a request changes what belongs to an account (its row with the password, address and user
  name, its identities, TOTP, backup codes, passkeys, sessions and pending deletion) only with
  authority over that very account, as [authority] spells out for each of the 35 requests: a
  confirmation for that purpose accepted from its live session, for the ten sensitive actions (or
  the first password of an account without one, from its live session); a live session of it; the
  unexpired token of a reset or of the second stage of an email change that is its own; a refresh
  token of its session; a sign-in confirmation of it; or a pending process, loaded with its flow
  token, that the attempt leaves bound to it. And a sensitive action succeeds at all, whatever it
  changes, only when it is so confirmed. *)
Theorem serve_needs_authority r o w resp w' :
schema_ok (committed w) = true -> serve s r o w = (inr resp, w') ->
(forall purpose a, gated r = Some (purpose, a) -> action_confirmed s o (committed w) purpose a) /\
forall x, belongings x (committed w') <> belongings x (committed w) ->
  authority s o (committed w) (committed w') r x.
Proof using mail_outbox.
intros Hd E. assert (forall purpose a, gated r = Some (purpose, a) ->
  action_confirmed s o (committed w) purpose a) as Hg.
{ intros purpose a Hr. pose proof (serve_gated s r purpose a o w resp w' Hr E) as Hc.
  unfold action_confirmed. by destruct (action a). }
split; [exact Hg|]. intros x Hne.
destruct (gated r) as [[purpose a]|] eqn:Eg.
{ destruct (decide (AccountID (action a).1 = x)) as [Hx|Hx].
  - specialize (Hg purpose a eq_refl). destruct r; simplify_eq/=; by split.
  - destruct Hne. eapply serves_same; [by eapply gated_same|exact Hd|exact E]. }
destruct (caller_of r) as [p|] eqn:Ec.
{ destruct (decide (AccountID (principal p) = x)) as [Hx|Hx]; [by eapply caller_authority|].
  destruct Hne. eapply serves_same; [by eapply caller_same|exact Hd|exact E]. }
destruct (for_nobody r) eqn:En.
{ destruct Hne. eapply serves_same; [by eapply nobody_same|exact Hd|exact E]. }
by destruct (found_authority s x r o w resp w' E Hd Eg Ec En).
Qed.
End Properties.

(** *** A rotation of backup codes that was confirmed *)
Definition rotation_request : Request := rq_RotateBackupCodes (alice_action "G").
Definition rotation_db : DB := granted_db "backupCodesRotation".
Lemma serve_needs_authority_witness : exists u,
  grant_accepted toy_engine quiet rotation_db "G" "backupCodesRotation" who_alice u /\
  AccountID (action (alice_action "G")).1 = alice_id.
Proof.
  destruct (run_answered (serve toy_server rotation_request) quiet (at_rest rotation_db))
    as (resp & E); [vm_compute; reflexivity|].
  destruct (serve_needs_authority toy_server ltac:(discriminate) rotation_request quiet
    (at_rest rotation_db) resp _ ltac:(vm_compute; reflexivity) E) as [Hc Ha].
  destruct (Ha alice_id) as [Hx [(u & Hu)|[F _]]]; [|exists u; split; [exact Hu|exact Hx]|discriminate F].
  intros F. apply (f_equal (fun b => length (bl_backup_codes b))) in F. revert F. vm_compute. discriminate.
Defined.
