(* ===== verification/System.v ===== *)
(** The service as a whole: requests, the daemon's ticks and the outbox worker as steps of one
    system over the committed database, and the invariants of every state it can reach. *)
From S2P Require Import Prelude GoLib Schema Limiter Usernames TxMonad Secrets PasskeyVerifier Engine Process Mail Passkeys OAuth Challenge Sessions Account Totp Identities Cleanup Outbox Server Toy ServerFacts OutboxFacts Invariants Preservation.
#[local] Open Scope string_scope.
#[local] Open Scope Z_scope.
#[local] Open Scope list_scope.

(** ** The system

    Each step is one request, one transaction of a request that makes several (what happens
    between them are other steps), one tick of a daemon, one run of the outbox worker, or a restart
    of the process, with an oracle of its own; between two steps no transaction is open. *)
Definition fresh_memory : Memory :=
  {| dummyPasswordHash := None; activationAttempts := zero_limiter |}.

(** The transactions of [AttemptProvider] and [LinkIdentity], with any answer of the provider. *)
Inductive Part :=
| pt_consume_request (id cid : uuid) (flow : string) (who : Principal) (proof : Proof)
| pt_finish_provider (id cid : uuid) (flow : string) (who : Principal) (proof : Proof)
    (identity : ProviderIdentity)
| pt_count_provider_failure (id cid : uuid) (flow : string) (who : Principal)
| pt_consume_link (who : Principal) (provider state : string)
| pt_finish_link (who : Principal) (grant provider subject : string).

Section System.
Context `{Platform} `{WebAuthn} `{Wire} `{Broker} (s : ServerConfig).

Definition run_part (p : Part) (o : Oracle) (w : World) : World :=
  let e := sv_Engine s in
  match p with
  | pt_consume_request id cid flow who proof => (consume_request e id cid flow who proof o w).2
  | pt_finish_provider id cid flow who proof x => (finish_provider e id cid flow who proof x o w).2
  | pt_count_provider_failure id cid flow who => (count_provider_failure e id cid flow who o w).2
  | pt_consume_link who provider state => (consume_link e who provider state o w).2
  | pt_finish_link who grant provider subject => (finish_link e who grant provider subject o w).2
  end.

Inductive step_by (o : Oracle) (w : World) : World -> Prop :=
| step_rpc r : step_by o w (rollback (serve s r o w).2)
| step_part p : step_by o w (rollback (run_part p o w))
| step_cleanup : step_by o w (rollback (Cleanup (sv_Engine s) o w).2)
| step_delete : step_by o w (rollback (DeleteDueAccount o w).2)
| step_outbox locked cancelled url rounds fuel n :
    step_by o w (rollback (Run locked cancelled url rounds fuel o (w, n)).2.1)
| step_restart : step_by o w (set_memory fresh_memory w).

(** A step with some oracle, and one with an oracle of [O]. *)
Definition step_from (O : Oracle -> Prop) (w w' : World) : Prop := exists o, O o /\ step_by o w w'.
Definition step : World -> World -> Prop := step_from (fun _ => True).

(** The state right after the schema was created. *)
Definition initial (w : World) : Prop := committed w = empty_db /\ working w = empty_db.

Lemma committed_rollback w : committed (rollback w) = committed w.
Proof using Type. done. Qed.

Context `{!BrokerLaws}.

Lemma step_maintains `{!RowInvariant (sv_Engine s)} `{!MailWithin (sv_Engine s)} o w w' :
  draws o -> step_by o w w' -> within (committed w) -> within (committed w').
Proof using Type*.
  intros Ho [r|p| | |locked cancelled url rounds fuel n|] Hw;
    rewrite ?committed_rollback; [..|exact Hw].
  - exact (serve_maintains s r o w Ho Hw).
  - destruct p; exact (maintains _ _ o w Ho Hw).
  - exact (maintains_Cleanup (sv_Engine s) o w Ho Hw).
  - exact (maintains_DeleteDueAccount (sv_Engine s) o w Ho Hw).
  - destruct (Run _ _ _ _ _ _ _) as [r [w1 n1]] eqn:E.
    apply hands_over_Run in E as [(Hs & E & _) _]; [|apply Hw].
    split; [exact Hs|]. cbn [snd fst]. rewrite E. exact (proj2 Hw).
Qed.

(** What every step maintains holds of every later state. *)
Lemma run_maintains `{!RowInvariant (sv_Engine s)} `{!MailWithin (sv_Engine s)}
    (O : Oracle -> Prop) w w' :
  (forall o, O o -> draws o) -> rtc (step_from O) w w' ->
  within (committed w) -> within (committed w').
Proof using Type*.
  intros HO. induction 1 as [|x y z (o & Ho & Hxy) _ IH]; [done|]. intros Hx.
  apply IH. by eapply step_maintains; [apply HO| |].
Qed.
End System.

(** ** Well-formed databases *)

(** A pending process has attempts left. *)
Definition has_budget (max : Z) (u : Authentication) : Prop :=
  u_status u = "pending" -> u_failed_attempts u < max.
Definition step_has_budget (max : Z) (t : Step) : Prop :=
  t_status t = "pending" -> t_failed_attempts t < max.
(** A user name is one the service accepts, in lower case. *)
Definition name_ok `{Platform} (a : Account) : Prop :=
  forall n, a_username a = Some n -> validUsername n = true /\ ToLower n = n.

(** What the service's own statements maintain, and with it the constraints of the schema. *)
Definition rows_ok `{Platform} (max : Z) (d : DB) : Prop :=
  each (has_budget max) (authentications d) /\ each (step_has_budget max) (authentication_steps d) /\
  each name_ok (accounts d).
Definition well_formed `{Platform} (max : Z) (d : DB) : Prop :=
  schema_ok d = true /\ rows_ok max d.

Section Budgets.
Context `{Platform} `{WebAuthn} (e : Engine) (positive : 0 < MaxAttempts e).
Abbreviation max := (MaxAttempts e).

Lemma budget_fail u : has_budget max u -> has_budget max (fail_authentication max u).
Proof using Type.
  unfold has_budget, fail_authentication. simpl. intros Hu.
  destruct (Z.leb_spec max (u_failed_attempts u + 1)); [done|]. lia.
Qed.
Lemma step_budget_fail t : step_has_budget max t -> step_has_budget max (fail_step max t).
Proof using Type.
  unfold step_has_budget, fail_step. simpl. intros Ht.
  destruct (Z.leb_spec max (t_failed_attempts t + 1)); [done|]. lia.
Qed.
Lemma name_ok_set n a : validUsername n = true -> name_ok (set_a_username (Some n) a).
Proof using Type. intros Hn m [= <-]. split; [done|by apply validUsername_lower]. Qed.

(** Budgets and names are a row invariant, whatever is drawn. *)
Definition budgets : RowInvariant e.
Proof using positive.
  refine {| token_ok _ := True; id_ok _ := True; target _ := True; hash_ok _ _ := True;
    u_ok := has_budget max; t_ok := step_has_budget max; a_ok := name_ok |}.
  all: try done.
  - intros p hash _ _. exact positive.
  - intros u _. apply budget_fail.
  - intros c p n _. exact positive.
  - apply step_budget_fail.
  - intros n a Hn _. by apply name_ok_set.
  - unfold name_ok. by intros a b ->.
Defined.

Lemma draws_budgets o : @draws _ _ e budgets o.
Proof using Type. done. Qed.
Lemma within_budgets d : @within _ _ e budgets d <-> well_formed max d.
Proof using Type.
  split.
  - intros [Hs (Hu & Ht & Ha & _)]. split; [done|]. split_and!; [|done..]. intros u Hin. by apply Hu.
  - intros [Hs (Hu & Ht & Ha)]. split; [done|]. split_and!; try done. intros u Hin.
    split; [by apply Hu|done].
Qed.
End Budgets.

Section WellFormed.
Context `{Platform} `{WebAuthn} `{Wire} `{Broker} `{!BrokerLaws} (s : ServerConfig).

Hypothesis positive : 0 < MaxAttempts (sv_Engine s).
Hypothesis mail_keeps : forall sink to code t, Mail (sv_Engine s) = Some sink ->
  Keeps (fun _ => True) (well_formed (MaxAttempts (sv_Engine s))) (QueueCode sink to code t).

Lemma run_well_formed w w' :
  rtc (step s) w w' -> well_formed (MaxAttempts (sv_Engine s)) (committed w) ->
  well_formed (MaxAttempts (sv_Engine s)) (committed w').
Proof using All.
  intros Hr Hw. rewrite <- (within_budgets _ positive) in *.
  assert (@MailWithin _ _ _ (budgets _ positive)) as Hm.
  { intros sink to code t Hs o w1 _ Hw1. rewrite (within_budgets _ positive) in Hw1.
    rewrite !(within_budgets _ positive). by apply (mail_keeps sink to code t Hs o w1). }
  by apply (run_maintains s (fun _ => True) w w'); [intros; apply draws_budgets|..].
Qed.

Lemma well_formed_initial max w : initial w -> well_formed max (committed w).
Proof using Type. intros [-> _]. split; [reflexivity|split_and!; by intros ? []]. Qed.

(** C7: in every state the system can reach from an empty database, whatever is requested,
  whatever fails and whenever the process is restarted, the constraints of the schema hold, no
  pending process and no pending step has used up its attempts, every user name is one the
  service accepts, and no two accounts have names that differ in case only. *)
Theorem reachable_well_formed w0 w :
initial w0 -> rtc (step s) w0 w ->
well_formed (MaxAttempts (sv_Engine s)) (committed w) /\
forall a b n m, In a (accounts (committed w)) -> In b (accounts (committed w)) ->
  a_username a = Some n -> a_username b = Some m -> ToLower n = ToLower m -> a = b.
Proof using All.
intros Hi Hr. apply (well_formed_initial (MaxAttempts (sv_Engine s))) in Hi.
apply run_well_formed in Hr as [Hs Hrows]; [|done]. split; [done|]. destruct Hrows as (_ & _ & Hn). intros a b n m Ha Hb Ea Eb E.
destruct (Hn a Ha n Ea) as [_ La], (Hn b Hb m Eb) as [_ Lb].
assert (n = m) as -> by congruence. by eapply account_username_key.
Qed.
End WellFormed.

(** The toy server begins a sign-in. *)
Definition booted : World := at_rest empty_db.
Definition after_start : World :=
  rollback (serve toy_server (rq_CreateAuthentication "signIn" None) quiet booted).2.
Lemma reachable_well_formed_witness :
  map u_failed_attempts (authentications (committed after_start)) = [0] /\
  well_formed 10 (committed after_start).
Proof.
  split; [vm_compute; reflexivity|].
  refine (proj1 (reachable_well_formed toy_server eq_refl _ booted after_start _ _)).
  - intros sink to code t. simpl. discriminate.
  - split; reflexivity.
  - apply rtc_once. exists quiet. split; [exact I|].
    apply (step_rpc toy_server quiet booted (rq_CreateAuthentication "signIn" None)).
Defined.
