(* ===== verification/History.v ===== *)
(** What has happened stays so: along every run of the system, whatever is requested, whatever
    fails, however the transactions of requests interleave and whenever the process is restarted,
    a one-time secret that was used is accepted no more, and a process that has ended does not
    change. The random sources are assumed not to repeat the very value in question. *)
From S2P Require Import Prelude GoLib Schema Limiter Usernames TxMonad Secrets PasskeyVerifier Engine Process Mail Passkeys OAuth Challenge Sessions Account Totp Identities Cleanup Outbox Server Toy ProcessFacts ChallengeFacts FlowFacts SessionFacts MailFacts OAuthFacts ServerFacts OutboxFacts Invariants Preservation System.
#[local] Open Scope string_scope.
#[local] Open Scope Z_scope.
#[local] Open Scope list_scope.

(** The hashes of one-time tokens that the rows of a database carry. *)
Definition carried (kind : string) (d : DB) : list bytes :=
  if kind == "grant" then omap u_confirmation_token_hash (authentications d)
  else if kind == "refresh" then map s_refresh_token_hash (sessions d)
  else if kind == "state" then map o_state_hash (oauth_requests d)
  else if kind == "reset" then map pr_token_hash (password_reset_requests d)
  else if kind == "email-change" then map ec_token_hash (email_change_requests d)
  else [].
Definition gone (kind : string) (h : bytes) (d : DB) : Prop := ~ In h (carried kind d).

Section Secrets.
Context `{Platform} `{WebAuthn} (e : Engine) (kind : string) (h : bytes).

(** No token the source yields has this hash. *)
Definition avoids (o : Oracle) : Prop :=
  forall k, Hash (e_Secrets e) kind "" (token_at o k) <> h.

(** That no row carries a hash is a row invariant under such a source. *)
#[local] Instance unused : RowInvariant e.
Proof using kind h.
  refine {| token_ok token := Hash (e_Secrets e) kind "" token <> h; id_ok _ := True;
    target _ := True; hash_ok k x := k = kind -> x <> h;
    u_ok _ := True; t_ok _ := True; a_ok _ := True |}; try done.
  by intros k token Hk ->.
Defined.

Lemma draws_unused o : avoids o -> draws o.
Proof using Type. by intros Ho. Qed.
Lemma within_gone d : within d -> gone kind h d.
Proof using Type.
  intros [_ (Hu & _ & _ & Hs & Ho & Hr & Hc)]. unfold gone, carried.
  destruct (kind == "grant") eqn:E1; [|destruct (kind == "refresh") eqn:E2;
    [|destruct (kind == "state") eqn:E3; [|destruct (kind == "reset") eqn:E4;
    [|destruct (kind == "email-change") eqn:E5; [|by intros []]]]]].
  - rewrite <- list_elem_of_In, list_elem_of_omap. intros (u & Hin%list_elem_of_In & Hh). bsimp.
    by destruct (proj2 (Hu u Hin) h Hh).
  - rewrite in_map_iff. intros (x & Hx & Hin). bsimp. by destruct (Hs x Hin).
  - rewrite in_map_iff. intros (x & Hx & Hin). bsimp. by destruct (Ho x Hin).
  - rewrite in_map_iff. intros (x & Hx & Hin). bsimp. by destruct (Hr x Hin).
  - rewrite in_map_iff. intros (x & Hx & Hin). bsimp. by destruct (Hc x Hin).
Qed.
Lemma gone_within d : schema_ok d = true -> gone kind h d -> within d.
Proof using Type.
  intros Hd Hg. split; [done|]. unfold gone, carried in Hg.
  split_and!; try done.
  - intros u Hin. split; [done|]. intros x Hx <- ->. apply Hg. simpl.
    rewrite <- list_elem_of_In, list_elem_of_omap. exists u. by rewrite list_elem_of_In.
  - intros x Hin <- Hx. apply Hg. simpl. rewrite in_map_iff. eauto.
  - intros x Hin <- Hx. apply Hg. simpl. rewrite in_map_iff. eauto.
  - intros x Hin <- Hx. apply Hg. simpl. rewrite in_map_iff. eauto.
  - intros x Hin <- Hx. apply Hg. simpl. rewrite in_map_iff. eauto.
Qed.

(** The constraints of the schema alone are a row invariant. *)
Definition no_rows : RowInvariant e.
Proof using Type.
  by refine {| token_ok _ := True; id_ok _ := True; target _ := True; hash_ok _ _ := True;
    u_ok _ := True; t_ok _ := True; a_ok _ := True |}.
Defined.
Lemma maintains_schema {A} (m : M A) o w :
  @Maintains (@draws _ _ e no_rows) (@within _ _ e no_rows) A m ->
  schema_ok (committed w) = true -> schema_ok (committed (m o w).2) = true.
Proof using Type. intros Hm Hw. apply (Hm o w); [done|]. by split. Qed.
End Secrets.

(** *** A secret that no row carries never comes back *)
Section Forever.
Context `{Platform} `{WebAuthn} `{Wire} `{Broker} `{!BrokerLaws} (s : ServerConfig).
Abbreviation e := (sv_Engine s).
Hypothesis mail_outbox : forall sink, Mail e = Some sink -> sink = OutboxMail.

Lemma gone_forever kind h w w' :
  rtc (step_from s (avoids e kind h)) w w' -> schema_ok (committed w) = true ->
  gone kind h (committed w) -> gone kind h (committed w').
Proof using All.
  intros Hr Hs Hg. pose (R := unused e kind h). pose proof (mail_within_outbox e mail_outbox).
  apply (within_gone e).
  apply (gone_within e) in Hg; [|done]. revert Hg. apply (run_maintains s (avoids e kind h)); [|done].
  apply draws_unused.
Qed.
End Forever.

(** ** Confirmations *)

(** The confirmation a request presents. *)
Definition presents `{Platform} `{Wire} (r : Request) : option string :=
  match r with
  | rq_CreateSession token _ _ => Some token
  | _ => option_map (fun g => snd (action (snd g))) (gated r)
  end.

Ltac solve_commits := repeat (cbv beta iota;
  first [ progress intros
        | lazymatch goal with
          | |- Commits (bind _ _) => apply commits_bind
          | |- Commits (if ?c then _ else _) => destruct c
          | |- Commits (match ?x with _ => _ end) => destruct x
          end
        | apply _ ]).
Section Spending.
Context `{Platform} `{WebAuthn} (e : Engine) (token : string).
Abbreviation h := (Hash (e_Secrets e) "grant" "" token).
#[local] Existing Instance unused | 0.
#[local] Instance unused_grant : RowInvariant e := unused e "grant" h.
Abbreviation Keeping := (Keeps draws within).

(** A body that succeeds leaves no row with the confirmation, unless [alt] held. *)
Class Spends (alt : Oracle -> DB -> Prop) {A} (m : M A) : Prop :=
  spends : forall o w a w', draws o -> schema_ok (working w) = true -> m o w = (Ok a, w') ->
    within (working w') \/ alt o (working w).

Lemma spends_grant alt purpose who {A} (k : uuid -> M A) :
  (forall a, Keeping (k a)) -> Spends alt (bind (ConsumeGrant e token purpose who) k).
Proof.
  intros Hk o w a w' Ho Hw. unfold bind.
  destruct (ConsumeGrant _ _ _ _ o w) as [[x|err] w1] eqn:E; [|done]. intros Ek. left.
  apply ConsumeGrant_ok in E as (u & (Hu & Hh & _) & _ & E & _ & _ & Hs).
  assert (within (working w1)) as Hw1.
  { apply gone_within; [done|].
    change (~ In h (omap u_confirmation_token_hash (authentications (working w1)))).
    rewrite <- list_elem_of_In, list_elem_of_omap. intros (y & Hy%list_elem_of_In & E2).
    rewrite E in Hy. exact (clear_grant_spent e _ token u Hw Hu Hh y Hy E2). }
  destruct (Hk x o w1 Ho Hw1) as [H1 _]. by rewrite Ek in H1.
Qed.
Lemma spends_bind alt {A B} (m : M A) (k : A -> M B) :
  Spends alt m -> (forall a, Keeping (k a)) -> Spends alt (bind m k).
Proof.
  intros Hm Hk o w b w' Ho Hw. unfold bind. destruct (m o w) as [[a|err] w1] eqn:E; [|done].
  intros Ek. destruct (Hm o w a w1 Ho Hw E) as [Hw1|?]; [left|by right].
  destruct (Hk a o w1 Ho Hw1) as [H1 _]. by rewrite Ek in H1.
Qed.
Lemma spends_alt (alt : Oracle -> DB -> Prop) {A} (m : M A) : (forall o d, alt o d) -> Spends alt m.
Proof. intros Ha o w a w' _ _ _. right. apply Ha. Qed.
Lemma spends_seq alt {A B} (Q : A -> Oracle -> DB -> Prop) (m : M A) (k : A -> M B) :
  ReadOnly m -> (forall o w a w', m o w = (Ok a, w') -> Q a o (working w)) ->
  (forall a, Spends (fun o d => Q a o d -> alt o d) (k a)) -> Spends alt (bind m k).
Proof.
  intros Hm HQ Hk o w b w' Ho Hw. unfold bind. destruct (Hm o w) as (Hw1 & _).
  destruct (m o w) as [[a|err] w1] eqn:E; [|done]. simpl in Hw1. intros Ek.
  destruct (Hk a o w1 b w' Ho) as [?|Ha]; [by rewrite Hw1|done|by left|right].
  rewrite Hw1 in Ha. apply Ha. by eapply HQ.
Qed.
Lemma spends_transaction alt {A} (m : M A) o w a w' :
  Spends alt m -> Commits m -> draws o -> schema_ok (committed w) = true ->
  transaction m o w = (Ok a, w') ->
  within (committed w') \/ alt o (committed w).
Proof.
  intros Hm Hc Ho Hw E. wp_start E. apply wp_transaction; [done|].
  intros w1 Hc1 Hw1 _ _ _. apply wp_intro. intros [x|err] w2 E; simpl; [|done].
  rewrite (Hc _ _ _ _ E). rewrite <- Hw1. eapply Hm; [done|by rewrite Hw1|done].
Qed.

(** An operation that succeeds has spent the confirmation, unless [alt] held. *)
Definition redeems (alt : Oracle -> DB -> Prop) {A} (m : M A) : Prop :=
  forall o w a w', draws o -> schema_ok (committed w) = true -> m o w = (Ok a, w') ->
    within (committed w') \/ alt o (committed w).

Lemma redeems_transaction alt {A} (m : M A) :
  Spends alt m -> Commits m -> redeems alt (transaction m).
Proof. intros Hm Hc o w a w'. by apply spends_transaction. Qed.
Lemma redeems_fail alt {A} err : redeems alt (@fail A err).
Proof. by intros o w a w'. Qed.
Lemma redeems_seq alt {A B} (m : M A) (k : A -> M B) :
  ReadOnly m -> (forall a, redeems alt (k a)) -> redeems alt (bind m k).
Proof.
  intros Hm Hk o w b w' Ho Hw. unfold bind. destruct (Hm o w) as (_ & Hc & _).
  destruct (m o w) as [[a|err] w1] eqn:E; [|done]. simpl in Hc. rewrite <- Hc. apply Hk; [done|].
  by rewrite Hc.
Qed.

Lemma redeems_finish_link alt who provider subject :
  redeems alt (finish_link e who token provider subject).
Proof.
  unfold finish_link. apply redeems_transaction; [apply spends_grant; solve_keeps|solve_commits].
Qed.
Lemma redeems_LinkIdentity who provider code st :
  redeems never (LinkIdentity e who token provider code st).
Proof.
  unfold LinkIdentity. destruct (Providers e provider) as [adapter|]; [|apply redeems_fail].
  intros o w a w' Ho Hw. unfold bind.
  pose proof (maintains_schema e (consume_link e who provider st) o w _ Hw) as Hw1.
  destruct (consume_link _ _ _ _ o w) as [[r|err] w1]; [|done]. simpl in Hw1.
  destruct (link_identity e adapter provider code st r o w1) as [[x|err] w2] eqn:E; [|done].
  apply ro_run in E as (_ & Hc & _); [|apply _]. rewrite <- Hc in Hw1.
  intros E. eapply (redeems_finish_link never) in E; [|done..]. destruct E as [?|[]]. by left.
Qed.
Lemma redeems_SetPassword who password :
  redeems (first_password who) (SetPassword e who token password).
Proof.
  unfold SetPassword. destruct (negb _); [apply redeems_fail|].
  apply redeems_seq; [apply _|]. intros hash. apply redeems_transaction; [|solve_commits].
  apply (spends_seq _ (fun _ o d => principal_ok o d who "passwordChange")); [apply _| |intros _].
  { intros o w a w'. apply checkPrincipal_acts. }
  apply (spends_seq _ (fun x _ d =>
    option_map a_password_hash (account_row d (AccountID who)) = Some x)); [apply _| |].
  { intros o w x w' E. wp_start E. by wp_go. }
  intros [old|]; [apply spends_bind; [apply spends_grant|]; solve_keeps|].
  apply spends_alt. intros o d E Hp. split; [done|]. unfold account_row in E.
  destruct (one _ _) as [x|] eqn:Ex; simplify_eq/=. apply one_some in Ex as [? ?]. bsimp. by exists x.
Qed.
Lemma redeems_CreateSession ip ua issuer attl rttl :
  redeems never (CreateSession e token ip ua issuer attl rttl).
Proof.
  unfold CreateSession. apply redeems_transaction; [|solve_commits].
  apply (spends_seq _ (fun _ _ _ => True)); [apply _|done|].
  intros [purpose|err]; [|destruct err; by intros o w a w'].
  apply (spends_seq _ (fun _ _ _ => True)); [apply _|done|]. intros _.
  apply spends_grant. solve_keeps.
Qed.
End Spending.

Ltac solve_redeemed :=
  cbv [ChangeEmail RequestDeletion StartTotp DeleteTotp StartPasskey DeletePasskey
       RotateBackupCodes UnlinkIdentity]; repeat first
  [ apply redeems_LinkIdentity | apply redeems_CreateSession | apply redeems_fail
  | apply redeems_transaction; [apply spends_grant; solve_keeps | solve_commits]
  | match goal with |- redeems _ _ _ (match ?x with _ => _ end) => destruct x end
  | match goal with |- redeems _ _ _ (if ?x then _ else _) => destruct x end ].

Section Confirmations.
Context `{Platform} `{WebAuthn} `{Wire} (s : ServerConfig).
Abbreviation e := (sv_Engine s).
Abbreviation h := (Hash (e_Secrets e) "grant" "").

(** The one request that succeeds without looking at the confirmation it presents: the first
    password of an account. *)
Definition ignored (r : Request) (o : Oracle) (d : DB) : Prop :=
  exists a, gated r = Some ("passwordChange", a) /\ first_password (action a).1 o d.

Lemma redeemed_answer token alt {A B} (m : M A) (f : A -> B) g o w resp w' :
  redeems e token alt m -> avoids e "grant" (h token) o -> schema_ok (committed w) = true ->
  answer g (reply f m) o w = (inr resp, w') ->
  gone "grant" (h token) (committed w') \/ alt o (committed w).
Proof.
  intros Hm Ho Hw. unfold answer, reply. destruct (m o w) as [[x|] w1] eqn:E; [|done].
  intros [= _ <-]. destruct (Hm o w x w1) as [?|?]; [by apply draws_unused|done|done| |by right].
  left. by eapply within_gone.
Qed.

Lemma serve_redeems token r o w resp w' :
  presents r = Some token -> avoids e "grant" (h token) o -> schema_ok (committed w) = true ->
  serve s r o w = (inr resp, w') ->
  gone "grant" (h token) (committed w') \/ ignored r o (committed w).
Proof.
  intros Hr Ho Hw. destruct r; try discriminate Hr; injection Hr as <-; simpl;
    unfold answer_empty;
    cbv [Server_CreateSession Server_SetPassword Server_ChangeEmail Server_RequestDeletion
      Server_LinkIdentity Server_UnlinkIdentity Server_StartTotp Server_DeleteTotp
      Server_StartPasskeyRegistration Server_DeletePasskey Server_RotateBackupCodes].
  all: try match goal with a : option SensitiveAction |- _ =>
    destruct (action a) as [who tok] eqn:Ea; cbn [snd] in * end.
  all: repeat case_match; simplify_eq/=; try done; intros E.
  all: try match goal with A : action ?a = _, B : action ?a = _ |- _ =>
    pose proof (eq_trans (eq_sym A) B); clear B; simplify_eq end.
  all: try (eapply (redeemed_answer _ never) in E;
    [destruct E as [?|[]]; by left|solve [solve_redeemed]|done|done]).
  eapply (redeemed_answer _ (first_password who)) in E; [|apply redeems_SetPassword|done|done].
  destruct E as [?|?]; [by left|right]. exists a. split; [done|]. by rewrite Ea.
Qed.

(** A confirmation that no row carries authorises nothing. *)
Lemma gone_refused token r o w resp w' :
  presents r = Some token -> gone "grant" (h token) (committed w) ->
  serve s r o w = (inr resp, w') -> ignored r o (committed w).
Proof.
  intros Hr Hg E.
  assert (forall purpose who u, ~ grant_accepted e o (committed w) token purpose who u) as Hno.
  { intros purpose who u (Hu & Hh & _). apply Hg. unfold carried. simpl.
    rewrite <- list_elem_of_In, list_elem_of_omap. exists u. by rewrite list_elem_of_In. }
  destruct (gated r) as [[purpose a]|] eqn:Eg.
  - assert ((action a).2 = token) as <- by (destruct r; simplify_eq/=; congruence).
    destruct (serve_gated s r purpose a o w resp w' Eg E) as [(u & Hu)|[-> Hf]];
      [by eapply Hno in Hu|]. by exists a.
  - destruct r; try done; injection Hr as ->. simpl in E. unfold answer, Server_CreateSession, reply in E.
    destruct (CreateSession _ _ _ _ _ _ _ o w) as [[t|] w1] eqn:Ec; [|done].
    apply CreateSession_ok in Ec as (u & purpose & x & d & _ & Hu & _). by eapply Hno in Hu.
Qed.
End Confirmations.

(** ** Refresh tokens, OAuth states, reset tokens *)

(** A row deleted by its key leaves no row with that key. *)
Lemma del_key {R K} (key : R -> K) p (t : list R) r :
  (forall x, In x t -> key x = key r -> x = r) -> p r = true -> ~ In (key r) (map key (del p t)).
Proof.
  intros Hk Hp. rewrite in_map_iff. intros (x & Hx & Hin). apply in_del in Hin as [Hin Hn].
  rewrite (Hk x Hin Hx) in Hn. congruence.
Qed.

Section Tokens.
Context `{Platform} `{WebAuthn} (e : Engine).

Lemma Refresh_gone id refresh ip ua issuer attl rttl o w t w' :
  let h := Hash (e_Secrets e) "refresh" "" refresh in
  avoids e "refresh" h o -> schema_ok (committed w) = true ->
  Refresh e id refresh ip ua issuer attl rttl o w = (Ok t, w') -> gone "refresh" h (committed w').
Proof.
  intros h Ho Hs E.
  apply Refresh_ok in E as
    (x & n1 & n2 & n3 & d & Hx & Hid & (k & _ & Hk) & Hh & _ & _ & _ & _ & _ & -> & _ & -> & _).
  intros Hin. change (In h (map s_refresh_token_hash (sessions
    (set_sessions (upd (fun s => s_id s == id)
      (rotate_row (Hash (e_Secrets e) "refresh" "" (tk_RefreshToken t)) ip ua n3 (n2 + rttl))
      (sessions (committed w))) (committed w))))) in Hin.
  apply in_map_iff in Hin as (y & Hy & Hin). simpl in Hin. apply in_upd in Hin as (z & Hz & ->).
  destruct (s_id z == id) eqn:Ez; bsimp.
  - rewrite Hk in Hy. by apply (Ho k).
  - apply Ez. f_equal. eapply session_token_key; [exact Hs|done..|congruence].
Qed.

(** The two ways in which an OAuth state is used: a step of a process, a link. *)
Inductive takes_state (st : string) (o : Oracle) (w w' : World) : Prop :=
| takes_step id cid flow who proof c :
    f_IDToken proof = "" -> f_State proof = st ->
    consume_request e id cid flow who proof o w = (Ok c, w') -> takes_state st o w w'
| takes_link who provider r :
    consume_link e who provider st o w = (Ok r, w') -> takes_state st o w w'.

(** Used or not: whoever uses a state has found a request with its hash, which is then gone. *)
Lemma takes_state_gone st o w w' :
  let h := Hash (e_Secrets e) "state" "" st in
  takes_state st o w w' ->
  ~ gone "state" h (committed w) /\ (schema_ok (committed w) = true -> gone "state" h (committed w')).
Proof.
  intros h Ht.
  assert (exists p r, In r (oauth_requests (committed w)) /\ o_state_hash r = h /\ p r = true /\
    committed w' = set_oauth_requests (del p (oauth_requests (committed w))) (committed w))
    as (p & r & Hr & Hh & Hp & Hc).
  { destruct Ht as [id cid flow who proof c Hi Hs E|who provider r E].
    - apply consume_request_ok in E as [_ Hc]. unfold request_consumed in Hc.
      rewrite Hi, beq_refl, Hs in Hc. destruct Hc as (r & now & Hr & _ & Hp & _ & _ & _ & Hc).
      eexists _, r. split_and!; [done| |exact Hp|exact Hc]. unfold oauth_request in Hp. by bsimp.
    - apply consume_link_ok in E as (now & _ & Hr & Hp & Hc).
      eexists _, r. split_and!; [done| |exact Hp|exact Hc]. unfold link_request in Hp. by bsimp. }
  rewrite <- Hh. split.
  - intros Hg. apply Hg. by apply (in_map o_state_hash).
  - intros Hs. rewrite Hc. apply (del_key o_state_hash); [|done].
    intros x Hx. by apply (oauth_key _ Hs).
Qed.

Lemma takes_state_schema st o w w' :
  takes_state st o w w' -> schema_ok (committed w) = true -> schema_ok (committed w') = true.
Proof.
  intros [id cid flow who proof c _ _ E|who provider r E] Hs.
  - pose proof (maintains_schema e (consume_request e id cid flow who proof) o w _ Hs) as Hw.
    by rewrite E in Hw.
  - pose proof (maintains_schema e (consume_link e who provider st) o w _ Hs) as Hw.
    by rewrite E in Hw.
Qed.

Lemma ConfirmPasswordReset_gone token password o w u w' :
  let h := Hash (e_Secrets e) "reset" "" token in
  ConfirmPasswordReset e token password o w = (Ok u, w') ->
  ~ gone "reset" h (committed w) /\ (schema_ok (committed w) = true -> gone "reset" h (committed w')).
Proof.
  intros h (_ & r & now & salt & hash & Hr & Hh & _ & Hx & _ & Hrest & _)%ConfirmPasswordReset_ok.
  split.
  - intros Hg. apply Hg. change (In h (map pr_token_hash (password_reset_requests (committed w)))).
    unfold h. rewrite <- Hh. by apply (in_map pr_token_hash).
  - intros Hs Hin. change (In h (map pr_token_hash (password_reset_requests (committed w')))) in Hin.
    apply in_map_iff in Hin as (x & Hxh & Hin). apply Hrest in Hin as [Hin Hn].
    assert (x = r) as -> by (eapply reset_key; [exact Hs|done..|by rewrite Hxh, Hh]).
    unfold reset_token in Hn. rewrite Hh, beq_refl in Hn. simpl in Hn. lia.
Qed.
End Tokens.

(** ** Processes that have ended

    What may still happen to a process that is completed or failed: its confirmation is spent, and
    it is invalidated. *)
Definition withdrawn (u : Authentication) : Authentication :=
  set_u_invalidation_timestamp None (clear_grant u).
Definition ended_as (u v : Authentication) : Prop :=
  withdrawn v = withdrawn u /\
  (u_confirmation_token_hash v = u_confirmation_token_hash u \/ u_confirmation_token_hash v = None) /\
  (u_invalidation_timestamp u <> None -> u_invalidation_timestamp v <> None).

Section Ended.
Context `{Platform} `{WebAuthn} (e : Engine) (u : Authentication).
Hypothesis ended : u_status u <> "pending".

(** The source yields no second process with this identifier. *)
Definition new_ids (o : Oracle) : Prop := forall k, o_uuid o k <> u_id u.

Definition settled : RowInvariant e.
Proof using u ended.
  refine {| token_ok _ := True; id_ok i := i <> u_id u; target i := i <> u_id u;
    hash_ok _ _ := True; t_ok _ := True; a_ok _ := True;
    u_ok v := u_id v = u_id u -> ended_as u v |}; try done.
  all: try by intros; exfalso; simpl in *; congruence.
  - intros v Hv Hp Hi. destruct (Hv Hi) as (Hw & _). apply (f_equal u_status) in Hw.
    simpl in Hw. congruence.
  - intros v Hv Hi. destruct (Hv Hi) as (Hw & Hc & Hn). split_and!; [done|by right|done].
  - intros n v Hv Hi. destruct (Hv Hi) as (Hw & Hc & Hn). split_and!; [done|by right|done].
Defined.
End Ended.

(** *** Attempts at them *)
Section Attempts.
Context `{Platform} `{WebAuthn} (e : Engine) (id : uuid).

(** The runs that check a proof for the process or count a rejected one, the transactions of an
    attempt through a provider that is under way among them. *)
Inductive attempts : M Attempt -> Prop :=
| attempts_step challenge flow who proof : attempts (AttemptStep e id challenge flow who proof)
| attempts_provider challenge flow who proof :
    attempts (AttemptProvider e id challenge flow who proof)
| attempts_finish challenge flow who proof identity :
    attempts (finish_provider e id challenge flow who proof identity)
| attempts_count challenge flow who : attempts (count_provider_failure e id challenge flow who).

(** The two that count: [AttemptProvider] counts in a transaction of its own. *)
Inductive counts : M Attempt -> Prop :=
| counts_step challenge flow who proof : counts (AttemptStep e id challenge flow who proof)
| counts_provider challenge flow who : counts (count_provider_failure e id challenge flow who).

Lemma counted_exhausted m o w w' :
  counts m -> m o w = (Err ErrAttempts, w') ->
  exists u, In u (authentications (committed w')) /\ u_id u = id /\ u_status u = "failed" /\
    MaxAttempts e <= u_failed_attempts u.
Proof.
  intros Hm E.
  assert (exists challenge, failure_counted e (committed w) (committed w') id challenge ErrAttempts)
    as (challenge & Hc & u & Hu & Hi & _ & Hb).
  { destruct Hm as [challenge flow who proof|challenge flow who]; exists challenge.
    - by apply AttemptStep_refused in E.
    - by apply count_provider_failure_refused in E as (err & [= <-] & [[_ []]|]). }
  destruct (Z.leb_spec (MaxAttempts e) (u_failed_attempts u + 1)) as [Hmax|]; [|done].
  exists (fail_authentication (MaxAttempts e) u). split_and!; [|done| |done].
  - rewrite Hc. simpl. apply in_upd. exists u. unfold with_id. by rewrite Hi, beq_refl.
  - simpl. by rewrite (proj2 (Z.leb_le _ _) Hmax).
Qed.

(** Errors that are told before any proof is looked at. *)
Definition unevaluated (err : error) : Prop :=
  match err with
  | ErrUnauthorized | ErrForbidden | ErrConflict | ErrUnavailable | ErrDB _ => True
  | _ => False
  end.
Definition refused_unevaluated (d : DB) {A} (r : result A) (w' : World) : Prop :=
  (exists err, r = Err err /\ unevaluated err) /\ committed w' = d.

Lemma refused_intro d {A} err w' :
  unevaluated err -> committed w' = d -> @refused_unevaluated d A (Err err) w'.
Proof using Type. intros He Hw. split; [by exists err|done]. Qed.
Lemma load_unevaluated flow who o w err w' : load e id flow who o w = (Err err, w') -> unevaluated err.
Proof using Type.
  intros E. refine (wp_run o _ w (Err err) w'
    (fun r _ => match r with Err err => unevaluated err | Ok _ => True end) E _).
  unfold load, checkPurposePrincipal, checkPrincipal, checkRecoveryPrincipal. wp_go; exact I.
Qed.
Lemma loadChallenge_unevaluated challenge o w err w' :
  loadChallenge challenge id o w = (Err err, w') -> unevaluated err.
Proof using Type.
  intros E. refine (wp_run o _ w (Err err) w'
    (fun r _ => match r with Err err => unevaluated err | Ok _ => True end) E _).
  unfold loadChallenge. wp_go; exact I.
Qed.

(** Every transaction of an attempt looks at the status of the process first. *)
Definition over (d : DB) : Prop :=
  forall u, In u (authentications d) -> u_id u = id -> u_status u <> "pending".
Definition refuses_over {A} (m : M A) : Prop :=
  forall o w, over (committed w) -> wp m o w (refused_unevaluated (committed w)).

Lemma wp_load_over {A} flow who (k : Process -> M A) o w Q :
  over (working w) ->
  (forall err w', unevaluated err -> committed w' = committed w -> Q (Err err) w') ->
  (forall p w', p_Status p <> "pending" -> committed w' = committed w -> wp (k p) o w' Q) ->
  wp (bind (load e id flow who) k) o w Q.
Proof using Type.
  intros Ho He Hk. apply wp_bind, wp_ro_any; [apply _|]. intros [p|err] w1 E Hw Hc _.
  - apply load_ok in E as (u & -> & (Hu & Hi & _)). apply Hk; [by apply (Ho u)|done].
  - apply He; [by eapply load_unevaluated|done].
Qed.
Lemma wp_transaction_over {A} flow who (k : Process -> M A) :
  (forall p o w, p_Status p <> "pending" -> wp (k p) o w (refused_unevaluated (committed w))) ->
  refuses_over (transaction (bind (load e id flow who) k)).
Proof using Type.
  intros Hk o w Ho. apply wp_transaction.
  - intros err w' Hc _ _ _ He. apply refused_intro; [|done]. by destruct He as [->|[x ->]].
  - intros w' Hc Hw _ _ _. apply wp_load_over; [by rewrite Hw| |].
    + intros err w1 He Hc1. apply refused_intro; [done|]. simpl. congruence.
    + intros p w1 Hp Hc1. eapply wp_mono; [by apply Hk|].
      intros r w2 [Hr Hc2]. split; [done|]. simpl. congruence.
Qed.
Lemma wp_reject_over {A} c err (k : unit -> M A) o w :
  unevaluated err -> c = true ->
  wp (bind (reject_if c err) k) o w (refused_unevaluated (committed w)).
Proof using Type. intros He ->. apply wp_bind. by apply refused_intro. Qed.
Lemma wp_loadChallenge_refused {A} challenge (k : Challenge -> M A) o w :
  (forall c w', wp (k c) o w' (refused_unevaluated (committed w'))) ->
  wp (bind (loadChallenge challenge id) k) o w (refused_unevaluated (committed w)).
Proof using Type.
  intros Hk. apply wp_bind, wp_ro_any; [apply _|].
  intros [c|err] w1 E _ <- _; [apply Hk|by apply refused_intro; [eapply loadChallenge_unevaluated|]].
Qed.
Lemma not_pending p : p_Status p <> "pending" -> (p_Status p != "pending") = true.
Proof using Type. intros Hp. by rewrite negb_beq_true. Qed.

Lemma AttemptStep_over challenge flow who proof :
  refuses_over (AttemptStep e id challenge flow who proof).
Proof using Type.
  apply wp_transaction_over. intros p o w Hp. apply wp_reject_over; [done|by apply not_pending].
Qed.
Lemma count_over challenge flow who : refuses_over (count_provider_failure e id challenge flow who).
Proof using Type.
  apply wp_transaction_over. intros p o w Hp. apply wp_loadChallenge_refused. intros c w'.
  apply wp_reject_over; [done|]. by rewrite not_pending.
Qed.
Lemma finish_over challenge flow who proof identity :
  refuses_over (finish_provider e id challenge flow who proof identity).
Proof using Type.
  apply wp_transaction_over. intros p o w Hp. apply wp_loadChallenge_refused. intros c w'.
  apply wp_bind, wp_Now. apply (wp_reject_over _ _ _ _ (bump w')); [done|]. by rewrite not_pending.
Qed.
Lemma consume_over challenge flow who proof :
  refuses_over (consume_request e id challenge flow who proof).
Proof using Type.
  apply wp_transaction_over. intros p o w Hp. apply wp_loadChallenge_refused. intros c w'.
  apply wp_bind, wp_Now. apply (wp_reject_over _ _ _ _ (bump w')); [done|]. by rewrite not_pending.
Qed.
Lemma provider_over challenge flow who proof :
  refuses_over (AttemptProvider e id challenge flow who proof).
Proof using Type.
  intros o w Ho. unfold AttemptProvider, attemptProvider. apply wp_bind, wp_try.
  destruct (Providers e (f_Method proof)) as [provider|]; [|by apply refused_intro].
  apply wp_bind. eapply wp_mono; [by apply consume_over|].
  intros r w' [(err & -> & He) Hc]. destruct err; try done; by apply refused_intro.
Qed.

(** An attempt at a process that is over looks at no proof and changes nothing. *)
Lemma attempts_over m : attempts m -> refuses_over m.
Proof using Type.
  destruct 1; [apply AttemptStep_over|apply provider_over|apply finish_over|apply count_over].
Qed.
End Attempts.

(** ** Properties *)
Section Properties.
Context `{Platform} `{WebAuthn} `{Wire} `{Broker} `{!BrokerLaws} (s : ServerConfig).
Abbreviation e := (sv_Engine s).
Hypothesis mail_outbox : forall sink, Mail e = Some sink -> sink = OutboxMail.

Lemma serve_schema r o w :
  schema_ok (committed w) = true -> schema_ok (committed (serve s r o w).2) = true.
Proof using mail_outbox.
  intros Hw. pose (R := no_rows e). pose proof (mail_within_outbox e mail_outbox).
  apply (serve_maintains s r o w); [done|]. by split.
Qed.

(** C3: a confirmation authorises one request. Once a request that presents it has succeeded (and
  was not the first password of an account, which looks at no confirmation), then in every later
  state of the system [ConsumeGrant] accepts the token for no purpose and no caller, and no
  request that presents it succeeds, unless the random source yields a token of the same hash. *)
Theorem confirmation_redeemed_once token r o w resp w1 w2 :
let fresh := avoids e "grant" (Hash (e_Secrets e) "grant" "" token) in
schema_ok (committed w) = true -> presents r = Some token -> fresh o ->
serve s r o w = (inr resp, w1) -> ~ ignored r o (committed w) ->
rtc (step_from s fresh) (rollback w1) w2 ->
(forall purpose who o2 v account v', working v = committed w2 ->
   ConsumeGrant e token purpose who o2 v <> (Ok account, v')) /\
(forall r2 o2 resp2 w3, presents r2 = Some token -> serve s r2 o2 w2 = (inr resp2, w3) ->
   ignored r2 o2 (committed w2)).
Proof using All.
intros fresh Hs Hp Ho E Hi Hr. pose proof (serve_schema r o w Hs) as Hs1. rewrite E in Hs1.
apply (serve_redeems s token r o w resp w1 Hp Ho Hs) in E as [Hg|?]; [|done].
apply (gone_forever s mail_outbox) in Hr; [|done..]. split.
- intros purpose who o2 v account v' Hv Ec.
  apply ConsumeGrant_ok in Ec as (u & (Hu & Hh & _) & _). apply Hr. unfold carried. simpl.
  rewrite <- list_elem_of_In, list_elem_of_omap. exists u. by rewrite list_elem_of_In, <- Hv.
- intros r2 o2 resp2 w3 Hp2. by eapply gone_refused.
Qed.

(** C18: a refresh token works once: after a refresh with it no refresh with it, of any session,
  succeeds in any later state of the system. *)
Theorem refresh_token_used_once id refresh ip ua o w resp w1 w2 :
let fresh := avoids e "refresh" (Hash (e_Secrets e) "refresh" "" refresh) in
schema_ok (committed w) = true -> fresh o ->
serve s (rq_RefreshSession id refresh ip ua) o w = (inr resp, w1) ->
rtc (step_from s fresh) (rollback w1) w2 ->
forall id2 ip2 ua2 o2 resp2 w3,
  serve s (rq_RefreshSession id2 refresh ip2 ua2) o2 w2 <> (inr resp2, w3).
Proof using All.
intros fresh Hs Ho E Hr id2 ip2 ua2 o2 resp2 w3 E2.
pose proof (serve_schema (rq_RefreshSession id refresh ip ua) o w Hs) as Hs1. rewrite E in Hs1.
simpl in E, E2. unfold answer, Server_RefreshSession in E, E2.
destruct (Refresh _ _ _ _ _ _ _ _ o w) as [[t|[]] v] eqn:Er; simplify_eq.
destruct (Refresh _ _ _ _ _ _ _ _ o2 w2) as [[t2|[]] v2] eqn:Er2; simplify_eq.
apply Refresh_gone in Er; [|done..]. apply (gone_forever s mail_outbox) in Hr; [|done..].
apply Refresh_ok in Er2 as (x & _ & _ & _ & _ & Hx & _ & _ & Hh & _). apply Hr.
change (In (Hash (e_Secrets e) "refresh" "" refresh) (map s_refresh_token_hash (sessions (committed w2)))).
rewrite <- Hh. by apply (in_map s_refresh_token_hash).
Qed.

(** C20: an OAuth state is used once, whether by a step of a process or by a link: in no later
  state of the system is it accepted again, for any process, step, client, session or provider. *)
Theorem oauth_state_used_once st o w w1 w2 :
let fresh := avoids e "state" (Hash (e_Secrets e) "state" "" st) in
schema_ok (committed w) = true -> takes_state e st o w w1 ->
rtc (step_from s fresh) (rollback w1) w2 ->
forall o2 w3, ~ takes_state e st o2 w2 w3.
Proof using All.
intros fresh Hs Ht Hr o2 w3 [Hn _]%takes_state_gone. apply Hn.
pose proof (takes_state_schema e st o w w1 Ht Hs) as Hs1. apply takes_state_gone in Ht as [_ Hg].
apply (gone_forever s mail_outbox) in Hr; [done..|]. by apply Hg.
Qed.

(** A password reset token works once. *)
Theorem reset_token_used_once token password o w resp w1 w2 :
let fresh := avoids e "reset" (Hash (e_Secrets e) "reset" "" token) in
schema_ok (committed w) = true ->
serve s (rq_ConfirmPasswordReset token password) o w = (inr resp, w1) ->
rtc (step_from s fresh) (rollback w1) w2 ->
forall password2 o2 resp2 w3,
  serve s (rq_ConfirmPasswordReset token password2) o2 w2 <> (inr resp2, w3).
Proof using All.
intros fresh Hs E Hr password2 o2 resp2 w3 E2.
pose proof (serve_schema (rq_ConfirmPasswordReset token password) o w Hs) as Hs1. rewrite E in Hs1.
simpl in E, E2. unfold answer_empty, answer, Server_ConfirmPasswordReset, reply in E, E2.
destruct (ConfirmPasswordReset _ _ _ o w) as [[t|] v] eqn:Er; simplify_eq.
destruct (ConfirmPasswordReset _ _ _ o2 w2) as [[t2|] v2] eqn:Er2; simplify_eq.
apply ConfirmPasswordReset_gone in Er as [_ Hg], Er2 as [Hn _]. apply Hn.
apply (gone_forever s mail_outbox) in Hr; [done..|]. by apply Hg.
Qed.

(** A process that is over stays as it is. *)
Lemma ended_stays u w w' :
schema_ok (committed w) = true -> In u (authentications (committed w)) -> u_status u <> "pending" ->
rtc (step_from s (new_ids u)) w w' ->
forall v, In v (authentications (committed w')) -> u_id v = u_id u -> ended_as u v.
Proof using All.
intros Hs Hu Hn Hr v Hv Hi. pose (R := settled e u Hn).
pose proof (mail_within_outbox e mail_outbox).
assert (within (committed w')) as [_ (Hw & _)]; [|by apply (Hw v Hv)].
apply (run_maintains s (new_ids u) w w'); [by intros o Ho|done|]. split; [done|].
split_and!; try done. intros x Hx. split; [|done]. intros Hxi.
assert (x = u) as -> by (by eapply authentication_id_key). split_and!; [done|by left|done].
Qed.

(** C12: the budget of attempts is final. When the caller of an attempt is told "too many
  attempts", the process has failed, with its budget used up, in the committed database. From then
  on, in every later state of the system, whatever has been requested meanwhile, an attempt at
  that process, by whatever step or provider and with whatever proof, is refused before its proof
  is looked at, and changes nothing. (The source of identifiers yields no second process of that
  identifier.) *)
Theorem attempt_budget_is_final id m o w w1 :
schema_ok (committed w) = true -> counts e id m -> m o w = (Err ErrAttempts, w1) ->
(exists u, In u (authentications (committed w1)) /\ u_id u = id /\ u_status u = "failed" /\
   MaxAttempts e <= u_failed_attempts u) /\
forall w2, rtc (step_from s (fun o => forall k, o_uuid o k <> id)) (rollback w1) w2 ->
forall m2 o2, attempts e id m2 ->
  exists err w3, m2 o2 w2 = (Err err, w3) /\ unevaluated err /\ committed w3 = committed w2.
Proof using All.
intros Hs Hm E. assert (schema_ok (committed w1) = true) as Hs1.
{ pose proof (maintains_schema e m o w) as Hw. rewrite E in Hw. apply Hw; [|done].
  destruct Hm; apply _. }
apply (counted_exhausted e id) in E as (u & Hu & Hi & Hf & Hb); [|done].
split; [by exists u|]. intros w2 Hr m2 o2 Hm2.
assert (over id (committed w2)) as Ho.
{ intros v Hv Hvi. rewrite <- Hi in Hr, Hvi.
  assert (u_status u <> "pending") as Hn by by rewrite Hf.
  destruct (ended_stays u (rollback w1) w2 Hs1 Hu Hn Hr v Hv Hvi) as (He & _).
  apply (f_equal u_status) in He. simpl in He. by rewrite He, Hf. }
pose proof (attempts_over e id m2 Hm2 o2 w2 Ho) as Hw. unfold wp in Hw.
destruct (m2 o2 w2) as [r w3]. destruct Hw as [(err & -> & He) Hc]. by exists err, w3.
Qed.

(** C21: a process that is completed or failed stays as it is in every later state of the system
  that still has it: its purpose, account, session, status, counted failures and times never
  change again; its confirmation can only be spent, and once invalidated it stays so. *)
Theorem process_end_is_final u w w' :
let fresh (o : Oracle) := new_ids u o in
schema_ok (committed w) = true -> In u (authentications (committed w)) -> u_status u <> "pending" ->
rtc (step_from s fresh) w w' ->
forall v, In v (authentications (committed w')) -> u_id v = u_id u -> ended_as u v.
Proof using All.
intros fresh Hs Hu Hn Hr. exact (ended_stays u w w' Hs Hu Hn Hr).
Qed.
End Properties.

(** ** Witnesses

    The tokens of the toy source decode to 32 bytes, unlike ["G"] and ["R"]. *)
Lemma toy_avoids kind token :
  (forall b, base64_RawURL_Decode token = Some b -> (String.length b < 32)%nat) ->
  avoids toy_engine kind (Hash toy_secrets kind "" token) quiet.
Proof.
  intros Hd k E. simpl in E. unfold Hash, hash_input in E. simpl in E.
  apply (inj (String.append kind)) in E. injection E as E.
  specialize (Hd (string_of_bytes (o_byte quiet k) 32)).
  rewrite <- E in Hd. unfold token_at in Hd. rewrite base64_roundtrip in Hd.
  specialize (Hd eq_refl). simpl in Hd. lia.
Defined.
Lemma toy_mail_outbox sink : Mail (sv_Engine toy_server) = Some sink -> sink = OutboxMail.
Proof. discriminate. Defined.

(** Between the two uses another sign-in is begun. *)
Definition meanwhile (s : ServerConfig) (w : World) : World :=
  rollback (serve s (rq_CreateAuthentication "signIn" None) quiet (rollback w)).2.
Lemma meanwhile_step s (O : Oracle -> Prop) w :
  O quiet -> rtc (step_from s O) (rollback w) (meanwhile s w).
Proof.
  intros Ho. apply rtc_once. exists quiet. split; [exact Ho|].
  exact (step_rpc s quiet (rollback w) (rq_CreateAuthentication "signIn" None)).
Defined.
Lemma not_answered {A} (h : rpc A) o w :
  (forall a w', h o w <> (inr a, w')) -> answered_with (h o w) = None.
Proof. unfold answered_with. destruct (h o w) as [[|a] w1]; [done|]. intros Hn. by destruct (Hn a w1). Defined.

Definition rotation : Request := rq_RotateBackupCodes (alice_action "G").
Definition rotatable : World := at_rest (granted_db "backupCodesRotation").
Definition rotated : World := (serve toy_server rotation quiet rotatable).2.
Lemma rotation_answered : exists resp, serve toy_server rotation quiet rotatable = (inr resp, rotated).
Proof. unfold rotated. apply (run_answered (serve toy_server rotation)). vm_compute. reflexivity. Defined.
Lemma rotation_confirmed o d : ~ ignored rotation o d.
Proof. by intros (a & Ha & _). Defined.
Lemma toy_avoids_G : avoids toy_engine "grant" (Hash toy_secrets "grant" "" "G") quiet.
Proof. apply toy_avoids. vm_compute. discriminate. Defined.

Lemma confirmation_redeemed_once_witness :
  answered_with (serve toy_server rotation quiet (meanwhile toy_server rotated)) = None.
Proof.
  destruct rotation_answered as [resp E]. apply not_answered. intros resp2 w3 E2.
  destruct (confirmation_redeemed_once toy_server toy_mail_outbox "G" rotation quiet rotatable resp
    rotated (meanwhile toy_server rotated) eq_refl eq_refl toy_avoids_G E (rotation_confirmed _ _)
    (meanwhile_step _ _ _ toy_avoids_G)) as [_ Hn].
  exact (rotation_confirmed _ _ (Hn rotation quiet resp2 w3 eq_refl E2)).
Defined.

Definition refreshing : Request := rq_RefreshSession 5 "R" "::2" "ua2".
Definition refreshed : World := (serve toy_server refreshing quiet (at_rest alice_db)).2.
Lemma toy_avoids_R : avoids toy_engine "refresh" (Hash toy_secrets "refresh" "" "R") quiet.
Proof. apply toy_avoids. vm_compute. discriminate. Defined.
Lemma refresh_token_used_once_witness :
  isSome (answered_with (serve toy_server refreshing quiet (at_rest alice_db))) = true /\
  answered_with (serve toy_server refreshing quiet (meanwhile toy_server refreshed)) = None.
Proof.
  assert (isSome (answered_with (serve toy_server refreshing quiet (at_rest alice_db))) = true) as Ha
    by (vm_compute; reflexivity).
  split; [exact Ha|]. destruct (run_answered _ _ _ Ha) as [resp E].
  apply not_answered. intros resp2 w3.
  exact (refresh_token_used_once toy_server toy_mail_outbox 5 "R" "::2" "ua2" quiet (at_rest alice_db)
    resp refreshed (meanwhile toy_server refreshed) eq_refl toy_avoids_R E
    (meanwhile_step _ _ _ toy_avoids_R) 5 "::2" "ua2" quiet resp2 w3).
Defined.

(** A server with a provider. *)
Definition provider_server : ServerConfig :=
  {| sv_Engine := provider_engine; sv_Issuer := sv_Issuer toy_server;
     sv_AccessTTL := 15 * Minute; sv_RefreshTTL := 24 * Hour; sv_DeletionDelay := 24 * Hour;
     sv_PasswordResetURL := "https://h/reset"; sv_EmailChangeURL := "https://h/email" |}.
Lemma provider_mail_outbox sink : Mail (sv_Engine provider_server) = Some sink -> sink = OutboxMail.
Proof. discriminate. Defined.
Lemma toy_avoids_S :
  avoids (sv_Engine provider_server) "state" (Hash (e_Secrets (sv_Engine provider_server)) "state" "" "S")
    quiet.
Proof. apply toy_avoids. vm_compute. discriminate. Defined.
#[local] Notation consuming :=
  (consume_request (sv_Engine provider_server) 9 30 "F" no_principal provider_proof).
Lemma oauth_state_used_once_witness : exists c w1,
  consuming quiet (at_rest provider_db) = (Ok c, w1) /\
  succeeds (fun _ => true) (consuming quiet (meanwhile provider_server w1)).1 = false.
Proof.
  destruct (run_ex consuming quiet (at_rest provider_db) (fun _ => true)) as (c & E & _);
    [vm_compute; reflexivity|].
  revert E. generalize (consuming quiet (at_rest provider_db)).2. intros w1 E.
  exists c, w1. split; [exact E|]. apply run_never. intros c2 w3 E2.
  refine (oauth_state_used_once provider_server provider_mail_outbox "S" quiet (at_rest provider_db) w1
    (meanwhile provider_server w1) _ _ (meanwhile_step _ _ _ toy_avoids_S) quiet w3 _).
  - rewrite committed_at_rest. vm_compute. reflexivity.
  - exact (takes_step _ _ _ _ _ 9%N 30%N "F" no_principal provider_proof c eq_refl eq_refl E).
  - exact (takes_step _ _ _ _ _ 9%N 30%N "F" no_principal provider_proof c2 eq_refl eq_refl E2).
Defined.

(** The process whose confirmation the rotation spent. *)
Definition confirmed_process : Authentication :=
  with_grant "G" (alice_process 9 "backupCodesRotation" "completed" "F").
Lemma process_end_is_final_witness : exists v,
  In v (authentications (committed (rollback rotated))) /\
  u_confirmation_token_hash v = None /\ ended_as confirmed_process v.
Proof.
  exists (invalidate_row toy_now confirmed_process). split; [vm_compute; left; reflexivity|].
  split; [reflexivity|].
  apply (process_end_is_final toy_server toy_mail_outbox confirmed_process rotatable (rollback rotated)).
  - reflexivity.
  - left. reflexivity.
  - discriminate.
  - apply rtc_once. exists quiet. split; [intros k; simpl; lia|].
    exact (step_rpc toy_server quiet rotatable rotation).
  - vm_compute. left. reflexivity.
  - reflexivity.
Defined.

(** A single attempt is allowed, and a wrong password presented; the right one comes too late. *)
Definition strict_server : ServerConfig :=
  {| sv_Engine := strict_engine; sv_Issuer := sv_Issuer toy_server;
     sv_AccessTTL := 15 * Minute; sv_RefreshTTL := 24 * Hour; sv_DeletionDelay := 24 * Hour;
     sv_PasswordResetURL := "https://h/reset"; sv_EmailChangeURL := "https://h/email" |}.
Lemma strict_mail_outbox sink : Mail (sv_Engine strict_server) = Some sink -> sink = OutboxMail.
Proof. by intros [= <-]. Defined.
#[local] Notation attempting password :=
  (AttemptStep (sv_Engine strict_server) 9 30 "F" who_alice (password_proof password)).
Lemma attempt_budget_is_final_witness :
  exists w1, attempting "wrong" quiet (at_rest password_db) = (Err ErrAttempts, w1) /\
  exists err w3, attempting "secret-1" quiet (meanwhile strict_server w1) = (Err err, w3) /\
    unevaluated err.
Proof.
  assert (attempting "wrong" quiet (at_rest password_db) =
    (Err ErrAttempts, (attempting "wrong" quiet (at_rest password_db)).2)) as E
    by (apply run_err; vm_compute; reflexivity).
  revert E. generalize (attempting "wrong" quiet (at_rest password_db)).2. intros w1 E.
  exists w1. split; [exact E|].
  destruct (attempt_budget_is_final strict_server strict_mail_outbox 9 (attempting "wrong") quiet
    (at_rest password_db) w1 ltac:(rewrite committed_at_rest; vm_compute; reflexivity)
    (counts_step _ _ _ _ _ _) E) as [_ Hn].
  destruct (Hn (meanwhile strict_server w1)
    (meanwhile_step strict_server (fun o => forall k, o_uuid o k <> 9%N) w1 ltac:(intros k; simpl; lia)) (attempting "secret-1") quiet
    (attempts_step _ _ _ _ _ _)) as (err & w3 & E3 & He & _).
  exists err, w3. split; [exact E3|exact He].
Defined.
