(* ===== verification/Configuration.v ===== *)
(** internal/config, the flags of cmd/app/main.go and configureEngine of internal/app/app.go: how
    a configuration becomes an engine, and which configurations are refused.

    A pointer field is an [option]; following a nil pointer is a run-time panic, the [None] of
    the functions that do so. *)
From S2P Require Import Prelude GoLib Schema Limiter TxMonad Secrets PasskeyVerifier Engine Process Mail Sessions OAuth Toy ProviderAdapters SessionFacts.
#[local] Open Scope string_scope.
#[local] Open Scope Z_scope.
#[local] Open Scope list_scope.

(** ** The configuration *)
Definition EnvDev : string := "develop".
Definition EnvProd : string := "production".

Record SecurityConfig := {
  HMACKey : option string;
  EncryptionKey : option string;
  cf_RPID : option string;
  cf_Origins : option string;
  cf_OpaqueOrigins : option string;
  cf_OAuthRedirects : option string;
  PasswordResetURL : option string;
  EmailChangeURL : option string;
}.
Record TtlConfig := {
  AccessToken : option duration;
  RefreshToken : option duration;
  PasswordResetCode : option duration;
}.
Record FirebaseConfig := { fb_Credentials : option string; fb_GoogleApiKey : option string }.
Record AuthConfig := {
  SaltCost : option Z;
  AccessTokenSigningKey : option string;
  cf_Ttl : TtlConfig;
  cf_Firebase : FirebaseConfig;
}.
Record ClientConfig := { ClientId : option string; ClientSecret : option string }.
Record OAuthConfig := {
  oc_State : option string;
  oc_Google : ClientConfig;
  oc_Vk : ClientConfig;
}.
Record DeletionConfig := { Offset : option duration; CheckInterval : option duration }.
Record DatabaseConfig := {
  dc_SSLMode : option string;
  dc_Host : option string;
  dc_Port : option Z;
  dc_User : option string;
  dc_Password : option string;
  dc_DBName : option string;
}.
Record AmqpConfig := {
  am_Host : option string;
  am_Port : option Z;
  am_User : option string;
  am_Password : option string;
  am_VHost : option string;
}.
Record SmtpConfig := {
  sm_Username : option string;
  sm_Host : option string;
  sm_Port : option Z;
  sm_Email : option string;
  sm_Password : option string;
  sm_SendAttempts : option Z;
}.
Record AppConfig := {
  Environment : option string;
  Port : option Z;
  LogsPath : option string;
  Security : SecurityConfig;
  Auth : AuthConfig;
  OAuth_ : OAuthConfig;
  ProfileDeletion_ : DeletionConfig;
  SubscriptionService : option string;
  Database : DatabaseConfig;
  Amqp : AmqpConfig;
  Smtp : SmtpConfig;
}.
Definition set_Environment (v : string) (c : AppConfig) : AppConfig :=
  {| Environment := Some v; Port := Port c; LogsPath := LogsPath c; Security := Security c;
     Auth := Auth c; OAuth_ := OAuth_ c; ProfileDeletion_ := ProfileDeletion_ c;
     SubscriptionService := SubscriptionService c; Database := Database c; Amqp := Amqp c;
     Smtp := Smtp c |}.

(** [Config.Validate]: the environment is made one of the two known ones through its pointer,
    and a database must be named. *)
Definition refuse_if (c : bool) (msg : string) : result unit :=
  if c then Err (ErrOther msg) else Ok tt.
Definition and_then {A} (r : result unit) (k : option (A * result unit)) (a : A)
    : option (A * result unit) :=
  match r with Ok _ => k | Err err => Some (a, Err err) end.

Definition Config_Validate (c : AppConfig) : option (AppConfig * result unit) :=
  environment ← Environment c;
  let c := if environment != EnvProd then set_Environment EnvDev c else c in
  host ← dc_Host (Database c);
  and_then (refuse_if (host == "") "database host is empty")
    (name ← dc_DBName (Database c);
     and_then (refuse_if (name == "") "database name is empty")
       (user ← dc_User (Database c);
        and_then (refuse_if (user == "") "database username is empty")
          (password ← dc_Password (Database c);
           Some (c, refuse_if (password == "") "database user password is empty")) c) c) c.

(** The flags of main with their defaults; [state] is random.DigitString(10). *)
Definition default_flags (state : string) : AppConfig := {|
  Environment := Some "debug";
  Port := Some 8080;
  LogsPath := Some "";
  Security := {| HMACKey := Some ""; EncryptionKey := Some ""; cf_RPID := Some "";
                 cf_Origins := Some ""; cf_OpaqueOrigins := Some ""; cf_OAuthRedirects := Some "";
                 PasswordResetURL := Some ""; EmailChangeURL := Some "" |};
  Auth := {| SaltCost := Some 10; AccessTokenSigningKey := Some "";
             cf_Ttl := {| AccessToken := Some (20 * Minute); RefreshToken := Some (24 * Hour * 30);
                          PasswordResetCode := Some (24 * Hour) |};
             cf_Firebase := {| fb_Credentials := Some ""; fb_GoogleApiKey := Some "" |} |};
  OAuth_ := {| oc_State := Some state;
               oc_Google := {| ClientId := Some ""; ClientSecret := Some "" |};
               oc_Vk := {| ClientId := Some ""; ClientSecret := Some "" |} |};
  ProfileDeletion_ := {| Offset := Some (14 * 24 * Hour); CheckInterval := Some (30 * Minute) |};
  SubscriptionService := Some "";
  Database := {| dc_SSLMode := Some "require"; dc_Host := Some "localhost"; dc_Port := Some 5432;
                 dc_User := Some ""; dc_Password := Some ""; dc_DBName := Some "" |};
  Amqp := {| am_Host := Some ""; am_Port := Some 5672; am_User := Some "guest";
             am_Password := Some "guest"; am_VHost := Some "" |};
  Smtp := {| sm_Username := Some ""; sm_Host := Some ""; sm_Port := Some 465; sm_Email := Some "";
             sm_Password := Some ""; sm_SendAttempts := Some 3 |};
|}.

(** What main gives to Run. [parse] is ff.Parse over the arguments and the environment
    variables; an error of it or of Validate is a panic. *)
Definition main_config (parse : AppConfig -> result AppConfig) (state : string) : option AppConfig :=
  match parse (default_flags state) with
  | Err _ => None
  | Ok cfg =>
      match Config_Validate cfg with
      | Some (cfg, Ok _) => Some cfg
      | _ => None
      end
  end.

(** ** Texts *)

(** net.JoinHostPort *)
Definition JoinHostPort (host port : string) : string :=
  if Contains host ":" then "[" +:+ host +:+ "]:" +:+ port else host +:+ ":" +:+ port.

(** The fields of a url.URL literal whose [String] is taken. *)
Record URLLiteral := {
  ul_Scheme : string;
  ul_User : string * string;
  ul_Host : string;
  ul_Path : string;
  ul_Query : list (string * string);
}.
Class URLText : Type := { url_Text : URLLiteral -> string }.

(** base64.StdEncoding.DecodeString: line breaks are skipped, the last quantum must be padded,
    nothing may follow it. *)
Definition base64_std_alphabet : string :=
  "ABCDEFGHIJKLMNOPQRSTUVWXYZabcdefghijklmnopqrstuvwxyz0123456789+/".
Definition sextet (c : ascii) : option (list bool) :=
  option_map sextet_bits (index_of c base64_std_alphabet).
Fixpoint without_line_breaks (s : string) : string :=
  match s with
  | EmptyString => EmptyString
  | String c s => if is_line_break c then without_line_breaks s
                  else String c (without_line_breaks s)
  end.
Fixpoint decode_quanta (s : string) : option bytes :=
  match s with
  | EmptyString => Some ""
  | String a (String b (String c (String d rest))) =>
      i ← sextet a; j ← sextet b;
      if c == "="%char then
        if (d == "="%char) && (rest == "") then Some (bytes_of_bits (i ++ j)) else None
      else
        k ← sextet c;
        if d == "="%char then
          if rest == "" then Some (bytes_of_bits (i ++ j ++ k)) else None
        else
          l ← sextet d; more ← decode_quanta rest;
          Some (bytes_of_bits (i ++ j ++ k ++ l) +:+ more)
  | _ => None
  end.
Definition base64_Std_Decode (s : string) : option bytes := decode_quanta (without_line_breaks s).

Example base64_std_padded : map base64_Std_Decode ["SGVsbG8/Pg=="; "Zm9v"; "Zm8="; "Zm8"; "Zg=v"; "!"]
  = [Some "Hello?>"; Some "foo"; Some "fo"; None; None; None].
Proof. vm_compute. reflexivity. Qed.

(** ** The engine *)

(** chefbook-backend-common/tokens and crypto/rsa: keys and the manager that signs with them.
    The [nat] is the moment of the call. *)
Class TokenKeys : Type := {
  PrivateKey : Type;
  Manager : Type;
  NewManagerByRawKey : bytes -> option Manager;
  rsa_GenerateKey : nat -> option PrivateKey;
  NewManagerByKey : PrivateKey -> Manager;
  manager_issuer : Manager -> TokenIssuer;
  (* x509.MarshalPKCS1PublicKey of GetAccessPublicKey *)
  manager_public : Manager -> bytes;
}.

Section Configure.
Context `{Platform} `{WebAuthn} `{Remote} `{URLText} `{TokenKeys}.

Definition DatabaseURL (c : DatabaseConfig) : option string :=
  let mode := match dc_SSLMode c with
              | Some mode => if mode != "" then mode else "require"
              | None => "require"
              end in
  host ← dc_Host c; port ← dc_Port c; name ← dc_DBName c; user ← dc_User c;
  password ← dc_Password c;
  Some (url_Text {| ul_Scheme := "postgres"; ul_User := (user, password);
                    ul_Host := JoinHostPort host (FormatInt port); ul_Path := "/" +:+ name;
                    ul_Query := [("sslmode", mode)] |}).

Definition split (value : option string) : list string :=
  match value with
  | None => []
  | Some value => List.filter (fun v => v != "") (map TrimSpace (Split value ","))
  end.
Definition text (value : option string) : string :=
  match value with Some s => s | None => "" end.

Definition stableSecrets (c : SecurityConfig) : result Secrets :=
  match base64_Std_Decode (text (HMACKey c)) with
  | None => Err (ErrOther "invalid auth HMAC key encoding")
  | Some mac =>
      match base64_Std_Decode (text (EncryptionKey c)) with
      | None => Err (ErrOther "invalid auth encryption key encoding")
      | Some encryption => NewSecrets mac encryption
      end
  end.

(** The signing key: configured, or made up at start in any environment but production. *)
Definition signing_manager (t : nat) (cfg : AppConfig) : option (result Manager) :=
  let key := text (AccessTokenSigningKey (Auth cfg)) in
  let made (m : option Manager) : result Manager :=
    match m with Some m => Ok m | None => Err (ErrOther "cannot initialize signing key") end in
  if key != "" then Some (made (NewManagerByRawKey key))
  else
    environment ← Environment cfg;
    if environment == EnvProd then Some (Err (ErrOther "production signing key is required"))
    else Some (made (option_map NewManagerByKey (rsa_GenerateKey t))).

Definition configured_providers (c : OAuthConfig) (name : string) : option Provider :=
  let google := text (ClientId (oc_Google c)) in
  let vk := text (ClientId (oc_Vk c)) in
  if (name == "google") && (google != "") then
    Some (google_provider {| go_ClientID := google;
                             go_ClientSecret := text (ClientSecret (oc_Google c)) |})
  else if (name == "vk") && (vk != "") && (text (ClientSecret (oc_Vk c)) != "") then
    Some (vk_provider {| vk_ClientID := vk; vk_ClientSecret := text (ClientSecret (oc_Vk c)) |})
  else None.

Definition redirect_ok (redirect : string) : bool :=
  match url_Parse redirect with
  | None => false
  | Some u => (Scheme u != "") && negb (User u) && (Fragment u == "")
  end.
Definition confirmation_url_ok (raw : string) : bool :=
  (raw == "") ||
  match url_Parse raw with
  | None => false
  | Some u => (Scheme u == "https") && (Host u != "") && negb (User u) && (Fragment u == "")
  end.

Definition configured_passkeys (c : SecurityConfig) : result (option Verifier) :=
  if text (cf_RPID c) != "" then
    match New {| RPID := text (cf_RPID c); Origins := split (cf_Origins c);
                 OpaqueOrigins := split (cf_OpaqueOrigins c) |} with
    | Ok v => Ok (Some v)
    | Err err => Err err
    end
  else Ok None.

Definition configureEngine (t : nat) (cfg : AppConfig) : option (result (Engine * Manager)) :=
  match stableSecrets (Security cfg) with
  | Err err => Some (Err err)
  | Ok secrets =>
      signed ← signing_manager t cfg;
      match signed with
      | Err err => Some (Err err)
      | Ok issuer =>
          let engine := NewEngine secrets (Some OutboxMail) in
          cost ← SaltCost (Auth cfg);
          let redirects := split (cf_OAuthRedirects (Security cfg)) in
          if negb (forallb redirect_ok redirects)
          then Some (Err (ErrOther "invalid OAuth redirect allowlist")) else
          match configured_passkeys (Security cfg) with
          | Err err => Some (Err err)
          | Ok passkeys =>
              if negb (forallb confirmation_url_ok
                         [text (PasswordResetURL (Security cfg)); text (EmailChangeURL (Security cfg))])
              then Some (Err (ErrOther "invalid HTTPS confirmation URL")) else
              Some (Ok ({| Providers := configured_providers (OAuth_ cfg);
                           OAuthRedirects := redirects; Passkeys := passkeys;
                           e_Secrets := e_Secrets engine; Mail := Mail engine; BcryptCost := cost;
                           FlowTTL := FlowTTL engine; ChallengeTTL := ChallengeTTL engine;
                           GrantTTL := GrantTTL engine; ReuseTTL := ReuseTTL engine;
                           MaxAttempts := MaxAttempts engine |}, issuer))
          end
      end
  end.
End Configure.

(** ** What a configured engine satisfies *)
Section Facts.
Context `{Platform} `{WebAuthn} `{Remote} `{URLText} `{TokenKeys}.

(** An OAuth redirect the engine may answer to, a link a mail may carry. *)
Definition allowed_redirect (r : string) : Prop :=
  r <> "" /\ exists u, url_Parse r = Some u /\ Scheme u <> "" /\ User u = false /\ Fragment u = "".
Definition allowed_link (r : string) : Prop :=
  r = "" \/ exists u, url_Parse r = Some u /\ Scheme u = "https" /\ Host u <> "" /\
    User u = false /\ Fragment u = "".

Lemma in_split value r : In r (split value) ->
  r <> "" /\ exists v piece, value = Some v /\ In piece (Split v ",") /\ r = TrimSpace piece.
Proof.
  unfold split. destruct value as [v|]; [|done]. rewrite filter_In, in_map_iff.
  intros [(piece & <- & Hp) Hr]. rewrite negb_beq_true in Hr. eauto 6.
Qed.

Lemma redirect_ok_spec r : redirect_ok r = true -> exists u,
  url_Parse r = Some u /\ Scheme u <> "" /\ User u = false /\ Fragment u = "".
Proof.
  unfold redirect_ok. destruct (url_Parse r) as [u|]; [|done]. intros Hu. bsimp. eauto 6.
Qed.

Lemma confirmation_url_ok_spec r : confirmation_url_ok r = true -> allowed_link r.
Proof.
  unfold confirmation_url_ok, allowed_link. destruct (url_Parse r) as [u|]; intros Hu; bsimp;
    destruct Hu; bsimp; eauto 8.
Qed.

Lemma stableSecrets_ok c s : stableSecrets c = Ok s ->
  base64_Std_Decode (text (HMACKey c)) = Some (macKey s) /\ 32 <= len (macKey s) /\
  base64_Std_Decode (text (EncryptionKey c)) = Some (cipher s) /\ len (cipher s) = 32.
Proof.
  unfold stableSecrets, NewSecrets. destruct (base64_Std_Decode (text (HMACKey c))); [|done].
  destruct (base64_Std_Decode (text (EncryptionKey c))); [|done].
  destruct ((_ <? 32) || _) eqn:E; [done|]. intros [= <-]. bsimp. done.
Qed.

Lemma configured_providers_known c name p : configured_providers c name = Some p ->
  name = "google" /\ text (ClientId (oc_Google c)) <> "" \/
  name = "vk" /\ text (ClientId (oc_Vk c)) <> "" /\ text (ClientSecret (oc_Vk c)) <> "".
Proof. unfold configured_providers. intros E. repeat case_match; bsimp; eauto. Qed.

Lemma configured_passkeys_ok c o : configured_passkeys c = Ok o ->
  match o with
  | None => text (cf_RPID c) = ""
  | Some v => text (cf_RPID c) <> "" /\ web_RPID (web v) = text (cf_RPID c) /\
      web_RPOrigins (web v) = split (cf_Origins c) /\ split (cf_Origins c) <> []
  end.
Proof.
  unfold configured_passkeys, New. intros E.
  repeat (case_match; simplify_eq/=); bsimp; try done; split_and!; try done; congruence.
Qed.

(** C9: an engine configureEngine builds is well-formed: stable keys of at least 32 and exactly
  32 bytes taken from the configuration, a positive attempt budget, mail through the outbox,
  only the OAuth redirects that are URLs with a scheme and without user or fragment, providers
  and passkeys only where configured; links in mails are empty or https; and in production the
  signing key was configured. *)
Theorem configureEngine_well_formed t cfg e m :
configureEngine t cfg = Some (Ok (e, m)) ->
base64_Std_Decode (text (HMACKey (Security cfg))) = Some (macKey (e_Secrets e)) /\
32 <= len (macKey (e_Secrets e)) /\
base64_Std_Decode (text (EncryptionKey (Security cfg))) = Some (cipher (e_Secrets e)) /\
len (cipher (e_Secrets e)) = 32 /\
MaxAttempts e = 10 /\ Mail e = Some OutboxMail /\ SaltCost (Auth cfg) = Some (BcryptCost e) /\
(forall r, In r (OAuthRedirects e) -> allowed_redirect r) /\
allowed_link (text (PasswordResetURL (Security cfg))) /\
allowed_link (text (EmailChangeURL (Security cfg))) /\
(forall name p, Providers e name = Some p -> name = "google" \/ name = "vk") /\
(forall v, Passkeys e = Some v -> web_RPID (web v) <> "" /\ web_RPOrigins (web v) <> []) /\
(Environment cfg = Some EnvProd -> text (AccessTokenSigningKey (Auth cfg)) <> "").
Proof.
unfold configureEngine. destruct (stableSecrets _) as [secrets|] eqn:Es; [|done].
apply stableSecrets_ok in Es as (? & ? & ? & ?).
destruct (signing_manager t cfg) as [[issuer|]|] eqn:Ek; [|done..]. cbn [mbind option_bind].
destruct (SaltCost (Auth cfg)) as [cost|]; [|done]. cbn [mbind option_bind].
destruct (negb (forallb redirect_ok _)) eqn:Er; [done|].
destruct (configured_passkeys _) as [passkeys|] eqn:Ep; [|done].
destruct (negb (forallb confirmation_url_ok _)) eqn:El; [done|]. intros [= <- <-].
rewrite negb_false_iff in Er, El. rewrite forallb_forall in Er, El.
apply configured_passkeys_ok in Ep.
split_and!; try done; simpl.
- intros r Hr. split; [by apply in_split in Hr as [? _]|]. by apply redirect_ok_spec, Er.
- apply confirmation_url_ok_spec, El. by left.
- apply confirmation_url_ok_spec, El. right. by left.
- intros name p Hp%configured_providers_known. naive_solver.
- intros v ->. simpl in *. destruct Ep as (? & -> & -> & ?). done.
- intros Henv Hkey. unfold signing_manager in Ek. rewrite Henv, Hkey in Ek. by vm_compute in Ek.
Qed.
End Facts.

(** ** A configuration that works *)
#[export] Instance toy_remote_text : URLText := { url_Text := fun u => ul_Path u }.
#[export] Instance toy_keys : TokenKeys := {
  PrivateKey := unit; Manager := bytes; NewManagerByRawKey := fun k => Some k;
  rsa_GenerateKey := fun _ => Some tt; NewManagerByKey := fun _ => "made up";
  manager_issuer := fun _ => toy_issuer; manager_public := fun m => m }.
Definition toy_key : string := "QUFBQUFBQUFBQUFBQUFBQUFBQUFBQUFBQUFBQUFBQUE=".
Definition toy_flags (environment signing : string) : AppConfig :=
  let c := default_flags "0123456789" in
  {| Environment := Some environment; Port := Port c; LogsPath := LogsPath c;
     Security := {| HMACKey := Some toy_key; EncryptionKey := Some toy_key; cf_RPID := Some "rp";
                    cf_Origins := Some "https://a, https://b,"; cf_OpaqueOrigins := None;
                    cf_OAuthRedirects := Some "https://app/callback"; PasswordResetURL := Some "";
                    EmailChangeURL := Some "https://app/email" |};
     Auth := {| SaltCost := Some 10; AccessTokenSigningKey := Some signing;
                cf_Ttl := cf_Ttl (Auth c); cf_Firebase := cf_Firebase (Auth c) |};
     OAuth_ := OAuth_ c; ProfileDeletion_ := ProfileDeletion_ c;
     SubscriptionService := SubscriptionService c;
     Database := {| dc_SSLMode := None; dc_Host := Some "::1"; dc_Port := Some 5432;
                    dc_User := Some "u"; dc_Password := Some "p"; dc_DBName := Some "auth" |};
     Amqp := Amqp c; Smtp := Smtp c |}.

Definition configured (environment signing : string) : option (result (Engine * bytes)) :=
  configureEngine 0 (toy_flags environment signing).
Definition built (r : option (result (Engine * bytes))) : Engine * bytes :=
  match r with Some (Ok p) => p | _ => (toy_engine, "") end.

Example production_needs_a_key :
  configured EnvProd "" = Some (Err (ErrOther "production signing key is required")) /\
  (built (configured EnvDev "")).2 = "made up" /\ (built (configured EnvProd "pem")).2 = "pem".
Proof. split_and!; vm_compute; reflexivity. Qed.
Example defaults_are_refused : main_config Ok "0123456789" = None.
Proof. vm_compute. reflexivity. Qed.
Example unknown_environment :
  option_map Environment (main_config (fun _ => Ok (toy_flags "prod" "")) "") = Some (Some EnvDev) /\
  option_map Environment (main_config (fun _ => Ok (toy_flags EnvProd "")) "") = Some (Some EnvProd).
Proof. split; vm_compute; reflexivity. Qed.
Example ipv6_database : DatabaseURL (Database (toy_flags "" "")) = Some "/auth" /\
  JoinHostPort "::1" (FormatInt 5432) = "[::1]:5432".
Proof. split; vm_compute; reflexivity. Qed.

Lemma configureEngine_well_formed_witness :
  configured EnvProd "pem" = Some (Ok (built (configured EnvProd "pem"))) /\
  MaxAttempts (built (configured EnvProd "pem")).1 = 10 /\
  (Environment (toy_flags EnvProd "pem") = Some EnvProd -> "pem" <> "").
Proof.
  assert (exists e m, configured EnvProd "pem" = Some (Ok (e, m))) as (e & m & E)
    by (do 2 eexists; vm_compute; reflexivity).
  rewrite E. split; [reflexivity|].
  destruct (@configureEngine_well_formed toy toy_webauthn toy_remote toy_keys 0 (toy_flags EnvProd "pem") e m E)
    as (_ & _ & _ & _ & Hm & _ & _ & _ & _ & _ & _ & _ & Hk).
  split; [exact Hm|exact Hk].
Defined.
