(* ===== verification/Installation.v ===== *)
(** schema/apply.go and cmd/migrations/main.go: the one-time creation of the schema, and the
    check the service makes of it at start. *)
From S2P Require Import Prelude GoLib Schema.
#[local] Open Scope string_scope.
#[local] Open Scope Z_scope.
#[local] Open Scope list_scope.

(** What PostgreSQL's current schema holds: its tables with their columns, and, where the tables
    are those of initial.sql, the service's data. *)
Record Catalog := { tables : list (string * list string); service_data : option DB }.

(** The tables initial.sql creates. *)
Definition initial_tables : list (string * list string) :=
  [("accounts", ["account_id"; "email"; "email_verification_timestamp"; "username";
      "password_hash"; "password_change_timestamp"; "blocking_timestamp"; "creation_timestamp"]);
   ("identities", ["account_id"; "provider"; "subject"; "creation_timestamp"]);
   ("sessions", ["session_id"; "account_id"; "refresh_token_hash"; "ip"; "user_agent";
      "creation_timestamp"; "last_refresh_timestamp"; "expiration_timestamp"]);
   ("authentications", ["authentication_id"; "purpose"; "status"; "account_id"; "session_id";
      "flow_token_hash"; "failed_attempts"; "creation_timestamp"; "expiration_timestamp";
      "completion_timestamp"; "invalidation_timestamp"; "confirmation_token_hash";
      "confirmation_expiration_timestamp"]);
   ("registrations", ["authentication_id"; "email"; "password_hash"]);
   ("authentication_steps", ["step_id"; "authentication_id"; "type"; "status";
      "failed_attempts"; "creation_timestamp"; "expiration_timestamp"; "completion_timestamp"]);
   ("email_authentication_steps", ["step_id"; "email"; "code_hash"]);
   ("passkey_authentication_steps", ["step_id"; "challenge"]);
   ("google_authentication_steps", ["step_id"; "nonce_hash"]);
   ("oauth_requests", ["state_hash"; "provider"; "step_id"; "session_id";
      "client_binding_hash"; "redirect_uri"; "nonce_hash"; "encrypted_code_verifier";
      "creation_timestamp"; "expiration_timestamp"]);
   ("email_change_requests", ["account_id"; "previous_email"; "email"; "stage"; "token_hash";
      "creation_timestamp"; "expiration_timestamp"]);
   ("password_reset_requests", ["account_id"; "token_hash"; "creation_timestamp";
      "expiration_timestamp"]);
   ("account_deletion_requests", ["account_id"; "delete_shared_data"; "request_timestamp";
      "deletion_timestamp"]);
   ("totp", ["account_id"; "encrypted_secret"; "last_used_step"; "activation_timestamp"]);
   ("totp_activation_requests", ["account_id"; "session_id"; "encrypted_secret";
      "expiration_timestamp"]);
   ("passkeys", ["passkey_id"; "account_id"; "credential_id"; "public_key"; "name";
      "sign_count"; "backup_eligible"; "backup_state"; "creation_timestamp";
      "last_use_timestamp"]);
   ("passkey_transports", ["passkey_id"; "transport"]);
   ("passkey_registration_requests", ["request_id"; "session_id"; "challenge";
      "expiration_timestamp"]);
   ("backup_codes", ["account_id"; "code_hash"; "generation_timestamp"]);
   ("outbox", ["message_id"; "exchange"; "type"; "body"; "creation_timestamp"])].

(** The service's data is in tables. *)
Definition catalog_ok (c : Catalog) : Prop := isSome (service_data c) = true -> tables c <> [].

(** initial.sql applied to an empty schema. *)
Definition Initial : Catalog := {| tables := initial_tables; service_data := Some empty_db |}.

(** The [k]-th statement of the transaction fails with the error [fault k]; nothing is visible
    outside before the commit, and a failure rolls back. *)
Definition statement_at (fault : nat -> option error) (k : nat) (c : Catalog)
    (next : result unit * Catalog) : result unit * Catalog :=
  match fault k with Some e => (Err e, c) | None => next end.

Definition not_empty : error :=
  ErrOther "initial schema requires an empty database schema; no existing tables were modified".

Definition Initialize (fault : nat -> option error) (c : Catalog) : result unit * Catalog :=
  statement_at fault 0 c          (* BeginTx *)
  (statement_at fault 1 c         (* SELECT pg_advisory_xact_lock *)
  (statement_at fault 2 c         (* SELECT count of pg_tables *)
  (if Z.of_nat (length (tables c)) != 0 then (Err not_empty, c) else
   statement_at fault 3 c         (* initial.sql *)
  (statement_at fault 4 c         (* Commit *)
   (Ok tt, Initial))))).

(** The columns the query of [Check] selects, each with its table. *)
Definition expected_columns : list (string * string) :=
  [("accounts", "account_id"); ("sessions", "refresh_token_hash");
   ("authentications", "flow_token_hash"); ("outbox", "creation_timestamp");
   ("google_authentication_steps", "nonce_hash"); ("authentication_steps", "type");
   ("registrations", "password_hash")].
Definition has_column (c : Catalog) (column : string * string) : bool :=
  existsb (fun t => (t.1 == column.1) && existsb (fun name => name == column.2) t.2) (tables c).

(** [Check]: the query, which PostgreSQL accepts where every column it names is there, returns no
    rows; then they are closed. Other tables and columns are not looked at. *)
Definition Check_schema (query_fault close_fault : option error) (c : Catalog) : result unit :=
  if isSome query_fault || negb (forallb (has_column c) expected_columns)
  then Err (ErrOther "new auth initial schema is required; apply schema/initial.sql to an explicitly selected empty database")
  else match close_fault with Some e => Err e | None => Ok tt end.

(** The command: its exit code. [parsed] is whether ff.Parse succeeds, [opened] sql.Open. *)
Definition initialize_main (parsed initialize opened : bool) (fault : nat -> option error)
    (c : Catalog) : Z * Catalog :=
  if negb parsed then (2, c)
  else if negb initialize then (2, c)
  else if negb opened then (1, c)
  else match Initialize fault c with
       | (Ok _, c') => (0, c')
       | (Err _, c') => (1, c')
       end.

Lemma Initialize_spec fault c r c' : Initialize fault c = (r, c') ->
  match r with
  | Ok _ => tables c = [] /\ c' = Initial
  | Err _ => c' = c
  end.
Proof.
  unfold Initialize, statement_at. intros E.
  repeat (case_match; simplify_eq/=; try done). bsimp. split; [|done].
  apply length_zero_iff_nil. lia.
Qed.

Lemma Check_schema_ok f g c : Check_schema f g c = Ok tt ->
  forall column, In column expected_columns -> has_column c column = true.
Proof.
  unfold Check_schema. intros E. apply forallb_forall. by case_match; bsimp.
Qed.

(** C31: the command never touches a database in which the service's tables exist, whatever its
  arguments and whatever fails; its exit code is 0 exactly when it found an empty schema and
  created the tables of initial.sql, empty, which the service's own check accepts; a second run is
  then refused. *)
Theorem initialize_main_preserves_data parsed initialize opened fault c :
catalog_ok c ->
let '(code, c') := initialize_main parsed initialize opened fault c in
catalog_ok c' /\
(forall d, service_data c = Some d -> service_data c' = Some d) /\
(if code == 0
 then tables c = [] /\ tables c' = initial_tables /\ service_data c' = Some empty_db /\ schema_ok empty_db = true /\
   Check_schema None None c' = Ok tt /\
   forall fault', exists err, Initialize fault' c' = (Err err, c')
 else c' = c).
Proof.
intros Hc. unfold initialize_main.
destruct parsed, initialize, opened; simpl; try done.
destruct (Initialize fault c) as [[u|err] c'] eqn:E; apply Initialize_spec in E; simpl; subst;
  [|done].
destruct E as [Ht ->]. split_and!; [by intros _| |done|done|done|done|done|].
- intros d Hd. unfold catalog_ok in Hc. rewrite Hd in Hc. specialize (Hc eq_refl). congruence.
- intros fault'. unfold Initialize, statement_at.
  repeat (case_match; eauto); done.
Qed.

Lemma initialize_main_preserves_data_witness :
  catalog_ok {| tables := []; service_data := None |} /\
  let '(code, c') := initialize_main true true true (fun _ => None)
    {| tables := []; service_data := None |} in
  code = 0 /\ service_data c' = Some empty_db /\ Check_schema None None c' = Ok tt.
Proof.
  split; [intros [=]|].
  pose proof (initialize_main_preserves_data true true true (fun _ => None)
    {| tables := []; service_data := None |}) as T.
  destruct T as (_ & _ & _ & _ & Hd & _ & Hk & _); [intros [=]|].
  split; [reflexivity|split; [exact Hd|exact Hk]].
Defined.

(** A schema with the seven columns and nothing else passes the check, though the service could
    not work in it; one that lacks any of them does not. *)
Definition only_checked : Catalog :=
  {| tables := map (fun column => (column.1, [column.2])) expected_columns;
     service_data := None |}.
Example Check_schema_partial : Check_schema None None only_checked = Ok tt /\
  forallb (fun column =>
    match Check_schema None None {| tables := filter (fun t => t.1 <> column.1) (tables only_checked);
                                    service_data := None |} with
    | Err _ => true | Ok _ => false end) expected_columns = true.
Proof. split; vm_compute; reflexivity. Qed.
