(* ===== verification/Application.v ===== *)
(** internal/app: the life of the process. Start-up, which fails at the first thing that is
    missing; the workers beside the gRPC server (health monitor, outbox worker, deletion daemon,
    cleanup); and the order in which everything is wound down. *)
From S2P Require Import Prelude GoLib Schema Limiter Usernames TxMonad Secrets PasskeyVerifier Engine Process Mail Passkeys OAuth Challenge Sessions Account Totp Identities Cleanup Outbox Server Toy ProcessFacts FlowFacts AccountFacts ServerFacts OutboxFacts ProviderAdapters LegacyReads Invariants Preservation System Configuration Installation.
#[local] Open Scope string_scope.
#[local] Open Scope Z_scope.
#[local] Open Scope list_scope.

(** ** Outside the repository

    database/sql and the network at a moment, and the gRPC health server. *)
Class Host : Type := {
  sql_Open : string -> result unit;
  sql_Ping : nat -> result unit;
  net_Listen : nat -> string -> result unit;
  HealthServer : Type;
  NewHealthServer : HealthServer;
  SetServingStatus : string -> bool -> HealthServer -> HealthServer;
}.

(** ** Health *)
Definition health_services : list string := [""; "v1.AuthService"; "v1.AuthenticationService"].

Section Health.
Context `{Host}.
Definition setHealthStatus (serving : bool) (h : HealthServer) : HealthServer :=
  fold_left (fun h name => SetServingStatus name serving h) health_services h.

(** [monitorHealthChecking]: [pings] are the outcomes of the checks, one a minute, until the
    context is over. *)
Fixpoint monitorHealthChecking (pings : list (result unit)) (h : HealthServer) : HealthServer :=
  match pings with
  | [] => h
  | e :: pings =>
      let status := match e with Ok _ => true | Err _ => false end in
      monitorHealthChecking pings (setHealthStatus status h)
  end.
End Health.

(** ** Workers *)
Section Workers.
Context `{Platform} `{WebAuthn} (e : Engine).
(** Moments at which the context is over; what the other requests make of the database between
    two transactions of a worker. *)
Context (cancelled : nat -> bool) (others : nat -> DB -> DB).

Definition context_over : M bool := fun _ w => (Ok (cancelled (tick w)), w).
Definition meanwhile : M unit := fun _ w =>
  (Ok tt, bump (rollback (set_committed (others (tick w) (committed w)) w))).

(** Why the inner loop of [runDeletions] was left. *)
Inductive PassEnd := ContextOver | PassFailed (err : error) | NothingDue.

(** The inner loop; [None]: still running after [fuel] transactions. *)
Fixpoint deletion_pass (fuel : nat) : M (option PassEnd) :=
  match fuel with
  | O => ret None
  | S fuel =>
      meanwhile;;;
      over <- context_over;;
      if over then ret (Some ContextOver) else
      r <- try DeleteDueAccount;;
      match r with
      | Err err => ret (Some (PassFailed err))
      | Ok false => ret (Some NothingDue)
      | Ok true => deletion_pass fuel
      end
  end.

Definition deletion_interval (interval : duration) : duration :=
  if interval <=? 0 then Minute else interval.

(** [runDeletions] for [rounds] ticks: true when the context ended it. *)
Fixpoint runDeletions (rounds fuel : nat) : M bool :=
  match rounds with
  | O => ret false
  | S rounds =>
      _ <- deletion_pass fuel;;
      meanwhile;;;
      over <- context_over;;
      if over then ret true else runDeletions rounds fuel
  end.

(** The goroutine that calls Cleanup every minute; an error is logged. *)
Fixpoint run_cleanup (rounds : nat) : M bool :=
  match rounds with
  | O => ret false
  | S rounds =>
      meanwhile;;;
      over <- context_over;;
      if over then ret true else
      _ <- try (Cleanup e);;
      run_cleanup rounds
  end.
End Workers.

(** ** Start-up *)
Inductive Worker :=
| MonitorHealth
| PublishOutbox (url : string)
| RunDeletions (interval : duration)
| RunCleanup (interval : duration).

Section Run.
Context `{Platform} `{WebAuthn} `{Remote} `{URLText} `{TokenKeys} `{Host}.

Record Running := {
  ru_Server : ServerConfig;
  ru_Legacy : LegacyConfig;
  ru_Health : HealthServer;
  ru_Address : string;
  ru_Workers : list Worker;
}.
Inductive Startup := StartupFailed (stage : string) (err : error) | Serving (r : Running).

Definition broker_url (c : AmqpConfig) : option string :=
  host ← am_Host c; port ← am_Port c; user ← am_User c; password ← am_Password c;
  vhost ← am_VHost c;
  Some (url_Text {| ul_Scheme := "amqp"; ul_User := (user, password);
                    ul_Host := JoinHostPort host (FormatInt port); ul_Path := "/" +:+ vhost;
                    ul_Query := [] |}).

(** The outbox worker runs only where a broker is configured. *)
Definition outbox_workers (c : AmqpConfig) : option (list Worker) :=
  if text (am_Host c) != "" then url ← broker_url c; Some [PublishOutbox url] else Some [].

(** [Run] up to the workers. [c] is the database's schema, [fault] the errors of Check. *)
Definition start (t : nat) (fault : option error * option error) (c : Catalog) (cfg : AppConfig)
    : option Startup :=
  _ ← LogsPath cfg; _ ← Environment cfg;
  url ← DatabaseURL (Database cfg);
  match sql_Open url with
  | Err _ => Some (StartupFailed "connect_postgres" (ErrOther "database configuration failed"))
  | Ok _ =>
      match sql_Ping t, Check_schema fault.1 fault.2 c with
      | Err _, _ | Ok _, Err _ => Some (StartupFailed "check_initial_schema"
                  (ErrOther "database unavailable or initial auth schema missing"))
      | Ok _, Ok _ =>
          configured ← configureEngine t cfg;
          match configured with
          | Err err => Some (StartupFailed "configure_authentication" err)
          | Ok (engine, issuer) =>
              access ← AccessToken (cf_Ttl (Auth cfg));
              refresh ← RefreshToken (cf_Ttl (Auth cfg));
              offset ← Offset (ProfileDeletion_ cfg);
              port ← Port cfg;
              let address := ":" +:+ FormatInt port in
              match net_Listen t address with
              | Err err => Some (StartupFailed "listen_grpc" err)
              | Ok _ =>
                  publishers ← outbox_workers (Amqp cfg);
                  interval ← CheckInterval (ProfileDeletion_ cfg);
                  Some (Serving {|
                    ru_Server := {| sv_Engine := engine; sv_Issuer := manager_issuer issuer;
                                    sv_AccessTTL := access; sv_RefreshTTL := refresh;
                                    sv_DeletionDelay := offset;
                                    sv_PasswordResetURL := text (PasswordResetURL (Security cfg));
                                    sv_EmailChangeURL := text (EmailChangeURL (Security cfg)) |};
                    ru_Legacy := {| lr_DB := true; lr_PublicKey := manager_public issuer |};
                    ru_Health := setHealthStatus true NewHealthServer;
                    ru_Address := address;
                    ru_Workers := [MonitorHealth] ++ publishers ++
                      [RunDeletions (deletion_interval interval); RunCleanup Minute] |})
              end
          end
      end
  end.

(** ** The end *)

(** What the main goroutine does after start-up, in order. *)
Inductive Action :=
| ReportStartupFailed (stage : string) (err : error)
| ServerStarted
| ServerFailed (err : error)
| HealthShutdown
| CancelContext
| GracefulStop
| ForcedStop
| WaitForWorkers
| CloseListener
| CloseDatabase.

(** [served] is None when the context ended first, or what Serve returned; [graceful] is whether
    GracefulStop is done within five seconds. *)
Definition wind_down (served : option (result unit)) (graceful : bool) : list Action :=
  match served with
  | None => []
  | Some (Ok _) => [CancelContext]
  | Some (Err err) => [ServerFailed err; CancelContext]
  end ++
  [HealthShutdown; CancelContext; GracefulStop] ++
  (if graceful then [] else [ForcedStop]) ++
  [WaitForWorkers; CloseListener; CloseDatabase; CancelContext].

Definition Application_Run (t : nat) (fault : option error * option error) (c : Catalog)
    (cfg : AppConfig) (served : option (result unit)) (graceful : bool) : option (list Action) :=
  s ← start t fault c cfg;
  match s with
  | Serving _ => Some (ServerStarted :: wind_down served graceful)
  | StartupFailed stage err =>
      Some (ReportStartupFailed stage err ::
        (if stage == "connect_postgres" then [] else [CloseDatabase]) ++ [CancelContext])
  end.
End Run.

(** ** The deletion daemon's pass ends *)
Section Deletions.
Context (cancelled : nat -> bool) (others : nat -> DB -> DB).

(** A successful call removes accounts. *)
Lemma DeleteDueAccount_removes o w r w' : DeleteDueAccount o w = (Ok r, w') -> r = true ->
  (length (accounts (committed w')) < length (accounts (committed w)))%nat.
Proof.
  intros E. wp_start E. unfold DeleteDueAccount, outbox_insert. wp_go; [done|].
  wp_call notifyAccount_ok as (y & _ & _ & Hm & Hc & _). wp_go.
  destruct Hm as (z & expiry & _ & _ & _ & ->).
  match goal with F : head (due_accounts _ _) = Some _ |- _ => apply head_due in F as (Ha & _) end.
  unfold delete_account. rewrite cascade_accounts. simpl.
  intros _. by eapply length_del_lt; [exact Ha|apply beq_refl].
Qed.

(** Nothing that an account's owner asked to be deleted by now is still there. *)
Definition nothing_due (now : time) (d : DB) : Prop :=
  forall a x, In a (accounts d) -> In x (account_deletion_requests d) ->
    d_account_id x = a_id a -> now < d_deletion_timestamp x.

(** C15: a pass of the deletion daemon ends: while no accounts are added it takes at most one
  transaction per account and one more, whatever else happens to the database between them; and
  if neither the context nor a failure ended it, nothing is due in the database it leaves. *)
Theorem deletion_pass_ends fuel o w :
(forall t d, (length (accounts (others t d)) <= length (accounts d))%nat) ->
(length (accounts (committed w)) < fuel)%nat ->
exists reason, (deletion_pass cancelled others fuel o w).1 = Ok (Some reason) /\
  (reason = NothingDue -> exists now, reads_clock o now /\
     nothing_due now (committed (deletion_pass cancelled others fuel o w).2)).
Proof.
intros Ho. revert w. induction fuel as [|fuel IH]; intros w Hf; [lia|].
cbn [deletion_pass]. unfold meanwhile, context_over, bind, try. cbn.
destruct (cancelled _); [exists ContextOver; by split|].
match goal with |- context [DeleteDueAccount o ?v] => set (v0 := v) end.
assert (length (accounts (committed v0)) <= length (accounts (committed w)))%nat as Hv by apply Ho.
clearbody v0. destruct (DeleteDueAccount o v0) as [[[]|err] w1] eqn:E.
- apply DeleteDueAccount_removes in E; [|done]. apply IH. simpl. lia.
- exists NothingDue. split; [done|]. intros _.
  apply DeleteDueAccount_ok in E as (now & Hn & Hd & Hc). exists now. split; [done|].
  intros a x Ha Hx Hi. simpl in *. apply Z.nle_gt. intros Hle. rewrite Hc in Ha, Hx.
  assert (In (a, x) (due_accounts now (committed v0))) as Hin by by apply in_due_accounts.
  by rewrite Hd in Hin.
- exists (PassFailed err). by split.
Qed.
End Deletions.

(** ** What runs keeps the database well-formed *)
Section Composition.
Context `{Platform} `{WebAuthn} `{Remote} `{URLText} `{TokenKeys} `{Host} `{Wire} `{Broker} `{!BrokerLaws}.

Lemma start_serving t fault c cfg r : start t fault c cfg = Some (Serving r) ->
  Check_schema fault.1 fault.2 c = Ok tt /\
  exists e m, configureEngine t cfg = Some (Ok (e, m)) /\ sv_Engine (ru_Server r) = e.
Proof.
  unfold start. intros E.
  repeat (match type of E with
    | context [match ?x with _ => _ end] => destruct x eqn:?
    | context [?x ≫= _] => destruct x as [?|] eqn:?; cbn [mbind option_bind] in E
    end; simplify_eq/=).
  split; [by destruct_or?; repeat match goal with u : unit |- _ => destruct u end|eauto].
Qed.

Lemma steps_well_formed s w w' :
  0 < MaxAttempts (sv_Engine s) -> Mail (sv_Engine s) = Some OutboxMail ->
  rtc (step s) w w' -> well_formed (MaxAttempts (sv_Engine s)) (committed w) ->
  well_formed (MaxAttempts (sv_Engine s)) (committed w').
Proof.
  intros Hp Hm. apply run_well_formed; [done|]. intros sink to code u Hs o w1 _ Hw1.
  rewrite Hm in Hs. injection Hs as <-. simpl.
  rewrite <- !(within_budgets _ Hp) in *. by apply keeps_queueMail.
Qed.

(** C8: whatever configuration the process was started with, once it serves, every column the
  check of the schema names has been found, and a database that is well-formed (freshly created, or left by an earlier run under any
  other configuration) stays well-formed through all requests, daemons, outbox runs, failures and
  restarts. *)
Theorem serving_keeps_well_formed t fault c cfg r w0 w :
start t fault c cfg = Some (Serving r) ->
well_formed 10 (committed w0) -> rtc (step (ru_Server r)) w0 w ->
(forall column, In column expected_columns -> has_column c column = true) /\
well_formed 10 (committed w).
Proof.
intros Hs Hw Hr. apply start_serving in Hs as (Hc & e & m & Hb & He).
apply configureEngine_well_formed in Hb as (_ & _ & _ & _ & Hmax & Hmail & _).
rewrite <- He in Hmax, Hmail. split_and!.
- exact (Check_schema_ok _ _ _ Hc).
- rewrite <- Hmax. apply (steps_well_formed _ w0); [lia|done|done|]. by rewrite Hmax.
Qed.
End Composition.

(** ** Examples *)
#[export] Instance toy_host : Host := {
  sql_Open := fun _ => Ok tt; sql_Ping := fun _ => Ok tt; net_Listen := fun _ _ => Ok tt;
  HealthServer := list (string * bool); NewHealthServer := [];
  SetServingStatus := fun name b h => (name, b) :: h }.

Definition toy_start (c : Catalog) (environment signing : string) : option Startup :=
  start 0 (None, None) c (toy_flags environment signing).
Definition toy_workers (s : option Startup) : list Worker :=
  match s with Some (Serving r) => ru_Workers r | _ => [] end.

(** No broker is configured, so no outbox worker runs; the configured interval is kept. *)
Example started_workers : toy_workers (toy_start Initial EnvProd "pem") =
  [MonitorHealth; RunDeletions (30 * Minute); RunCleanup Minute].
Proof. vm_compute. reflexivity. Qed.
Example no_schema_no_service :
  toy_start {| tables := []; service_data := None |} EnvProd "pem" =
    Some (StartupFailed "check_initial_schema"
      (ErrOther "database unavailable or initial auth schema missing")) /\
  Application_Run 0 (None, None) {| tables := []; service_data := None |} (toy_flags EnvProd "pem")
    None true =
    Some [ReportStartupFailed "check_initial_schema"
            (ErrOther "database unavailable or initial auth schema missing");
          CloseDatabase; CancelContext].
Proof. split; vm_compute; reflexivity. Qed.

(** However the service ends, requests are drained and workers awaited before the database is
    closed. *)
Lemma wind_down_order served graceful : exists before,
  wind_down served graceful =
    before ++ [WaitForWorkers; CloseListener; CloseDatabase; CancelContext] /\
  In CancelContext before /\ In HealthShutdown before /\ In GracefulStop before /\
  (graceful = false -> last before = Some ForcedStop).
Proof.
  unfold wind_down. destruct served as [[[]|err]|], graceful; simpl;
    match goal with |- context [?l = _] =>
      let n := eval compute in (length l - 4)%nat in exists (take n l) end;
    simpl; split_and!; try done; tauto.
Qed.

(** The daemon deletes Alice, whose deadline has passed, and then finds nothing due. *)
Definition overdue : World := at_rest (deleting_db (toy_now - Hour)).
Lemma deletion_pass_ends_witness :
  (deletion_pass (fun _ => false) (fun _ d => d) 2 quiet overdue).1 = Ok (Some NothingDue) /\
  exists now, reads_clock quiet now /\
    nothing_due now (committed (deletion_pass (fun _ => false) (fun _ d => d) 2 quiet overdue).2).
Proof.
  assert ((deletion_pass (fun _ => false) (fun _ d => d) 2 quiet overdue).1 = Ok (Some NothingDue))
    as E by (vm_compute; reflexivity).
  split; [exact E|].
  destruct (deletion_pass_ends (fun _ => false) (fun _ d => d) 2 quiet overdue)
    as (reason & Er & Hn).
  - intros _ d. apply Nat.le_refl.
  - apply Nat.ltb_lt. vm_compute. reflexivity.
  - apply Hn. congruence.
Defined.

Lemma serving_keeps_well_formed_witness : exists r,
  toy_start Initial EnvProd "pem" = Some (Serving r) /\
  well_formed 10 (committed (rollback (serve (ru_Server r)
    (rq_CreateAuthentication "signIn" None) quiet booted).2)).
Proof.
  assert (exists r, toy_start Initial EnvProd "pem" = Some (Serving r)) as [r E]
    by (eexists; vm_compute; reflexivity).
  exists r. split; [exact E|].
  apply (serving_keeps_well_formed 0 (None, None) Initial (toy_flags EnvProd "pem") r booted _ E).
  - apply well_formed_initial. split; reflexivity.
  - apply rtc_once. exists quiet. split; [exact I|].
    apply (step_rpc (ru_Server r) quiet booted (rq_CreateAuthentication "signIn" None)).
Defined.
