(* ===== verification/LegacyProgram.v ===== *)
(** The previous generation of the service (internal/service, pkg/oauth) as programs over their
    collaborators: the values of internal/entity, the interfaces of
    internal/service/dependencies, and finite interaction trees whose events are the calls made
    through them. Nothing starts these services any more, but they are still built. *)
From S2P Require Import Prelude GoLib Server.
#[local] Open Scope string_scope.
#[local] Open Scope Z_scope.
#[local] Open Scope list_scope.

(** ** Errors

    The values of internal/entity/fail and of the common module that the services name, and the
    errors of collaborators. *)
Inductive Fail :=
| GrpcUnknown | GrpcInvalidCredentials | GrpcProfileNotActivated | GrpcProfileIsBlocked
| GrpcInvalidCode | GrpcEmailRequired | GrpcReauthentication | GrpcAccountDeleting
| GrpcDeletionExpired | GrpcUserNotFound | GrpcFewSignInMethods
| GrpcInvalidBody | GrpcNotFound
| GrpcUnableCreateProfile | GrpcInvalidActivationCode | GrpcActivationLinkNotFound
| GrpcAccountOccupied | GrpcInvalidRefreshToken | GrpcDeletionNotFound
| GrpcInvalidResetPasswordCode | GrpcUsernameOccupied
| GrpcConflict (type msg : string)       (* fail.CreateGrpcConflict *)
| StatusError (c : code) (msg : string)  (* status.Error *)
| Plain (msg : string)                   (* errors.New *)
| FirebaseInvalidCredentials             (* firebase.ErrInvalidCredentials *)
| OtherFail (n : nat).
#[export] Instance Fail_eq_dec : EqDecision Fail.
Proof. solve_decision. Defined.

(** [status.Code]; the codes behind the constructors of the common module are its own. *)
Class StatusCodes : Type := { status_Code : Fail -> option code }.
Class StatusLaws `{StatusCodes} : Prop := {
  status_error : forall c msg, status_Code (StatusError c msg) = Some c;
  status_plain : forall msg, status_Code (Plain msg) = None;
}.

(** A value and an error of which one counts. *)
Definition outcome (A : Type) : Type := (Fail + A)%type.

(** ** Values (internal/entity, api/mq) *)
Record OAuthEntity := { GoogleId : option string; VkId : option Z }.
Record AuthInfoEntity := {
  Id : uuid;
  Email : string;
  Username : option string;
  PasswordHash : string;
  Role : string;
  RegistrationTimestamp : time;
  IsActivated : bool;
  IsBlocked : bool;
  DeletionTimestamp : option time;
  DeleteSharedData : bool;
  OAuth : OAuthEntity;
}.
Record SignUpCredentials := { su_Id : option uuid; su_Email : string; su_Password : string }.
Record CredentialsHash := { ch_Id : option uuid; ch_Email : string; ch_PasswordHash : option string }.
Record SignInCredentials := { si_Email : option string; si_Username : option string; si_Password : string }.
Record OAuthCredentials := { oa_Code : string; oa_State : string }.
Record UserIdentifiers := { ui_UserId : option uuid; ui_Email : option string; ui_Username : option string }.
Record DeleteProfileRequest := { dr_UserId : uuid; dr_WithSharedData : bool; dr_Timestamp : time }.
Record EmailBinding := {
  eb_UserId : uuid;
  eb_Purpose : string;
  eb_Stage : string;
  eb_OldEmail : string;
  eb_Email : string;
  eb_Token : string;
  eb_LinkPattern : string;
  eb_PasswordHash : option string;
  eb_ExpiresAt : time;
}.
Record EmailConfirmation := { cn_Purpose : string; cn_Status : string }.
Record MessageData := { md_Id : uuid; md_Exchange : string; md_Type : string; md_Body : bytes }.
Record Reauthentication := {
  re_Method : string;
  re_Password : string;
  re_IdToken : string;
  re_Code : string;
  re_State : string;
}.
Record ClientData := { cd_Ip : string; cd_UserAgent : string }.
Record SessionInput := {
  sn_UserId : uuid;
  sn_RefreshToken : string;
  sn_Ip : string;
  sn_UserAgent : string;
  sn_ExpiresAt : time;
}.
Record SessionRawInfo := {
  sw_SessionId : Z;
  sw_UserId : uuid;
  sw_Ip : string;
  sw_UserAgent : string;
  sw_AccessTime : time;
}.
Record SessionClient := { sc_Name : string; sc_Platform : string; sc_Type : string }.
Record SessionInfoEntity := {
  ss_Client : SessionClient;
  ss_SessionId : Z;
  ss_UserId : uuid;
  ss_Ip : string;
  ss_AccessPoint : string;
  ss_Mobile : bool;
  ss_AccessTime : time;
  ss_Location : string;
}.
Record TokensEntity := {
  tk_SessionId : Z;
  tk_DeleteSharedData : bool;
  tk_ProfileId : uuid;
  tk_AccessToken : string;
  tk_RefreshToken : string;
  tk_ExpirationTimestamp : time;
  tk_DeletionTimestamp : option time;
}.
(** access.Payload of the common module *)
Record AccessPayload := {
  py_UserId : uuid;
  py_Email : string;
  py_Username : option string;
  py_Role : string;
  py_SubscriptionPlan : string;
  py_Deleted : bool;
}.
Record FirebaseProfile := { fp_Id : string; fp_CreationTimestamp : time }.

Record EmailDelivery := {
  ed_UserId : uuid;
  ed_Email : string;
  ed_Token : string;
  ed_LinkPattern : string;
  ed_Purpose : string;
  ed_Stage : string;
}.
(** mail.Payload of the common module *)
Record MailPayload := { mp_To : string; mp_Subject : string; mp_Body : string }.

(** The mails of internal/service/mail that the services send in the background. *)
Inductive LegacyMail :=
| NewLoginMail (user : uuid) (email : string) (client : ClientData) (at_time : time)
| ResetPasswordMail (user : uuid) (email code pattern : string)
| PasswordChangedMail (user : uuid) (email : string)
| UsernameChangedMail (user : uuid) (email username : string)
| DeletionRequestMail (user : uuid) (email : string) (deadline : time) (shared : bool)
| ProfileDeletedMail (user : uuid) (email : string).

(** What [go] starts. *)
Inductive task :=
| PublishTask (m : MessageData)
| MailTask (m : LegacyMail)
| DeleteOutdatedSessionsTask (user : uuid) (threshold : Z)
| ConnectImportedTask (user : uuid) (firebase : string) (created : time)
| ConnectFirebaseTask (user : uuid) (email : string).

(** ** Events: the calls of Data, MessageQueue and the other collaborators, with their answers *)
Inductive event : Type -> Type :=
| CreateOAuthState (provider redirect binding : string) : event (outcome string)
| ConsumeOAuthState (provider state redirect binding : string) : event (outcome unit)
| ConsumeReauthentication (user : uuid) (token : string) : event (outcome unit)
| CleanupAuthWorkflows : event (outcome unit)
| StartEmailBinding (b : EmailBinding) : event (outcome unit)
| ConfirmEmailBinding (token pattern : string) : event (outcome EmailConfirmation)
| DeliverEmail : event (outcome bool)    (* with SendEmailBinding as the callback *)
| GetPasswordResetUser (code : string) : event (outcome uuid)
| CreateUser (c : CredentialsHash) (activation : option string) (o : OAuthEntity) :
    event (outcome (uuid * MessageData))
| GetAuthInfoById (user : uuid) : event (outcome AuthInfoEntity)
| GetAuthInfoByEmail (email : string) : event (outcome AuthInfoEntity)
| GetAuthInfoByIdentifiers (i : UserIdentifiers) : event (outcome AuthInfoEntity)
| GetAuthInfoByUsername (username : string) : event (outcome AuthInfoEntity)
| GetAuthInfoByRefreshToken (token : string) : event (outcome AuthInfoEntity)
| GetAuthInfoByGoogleId (id : string) : event (outcome AuthInfoEntity)
| GetAuthInfoByVkId (id : Z) : event (outcome AuthInfoEntity)
| SetPasswordHash (user : uuid) (hash : string) : event (outcome unit)
| ActivateProfile (user : uuid) (code : string) : event (outcome unit)
| StoreSession (s : SessionInput) : event (outcome Z)
| ListSessions (user : uuid) : event (outcome (list SessionRawInfo))
| UpdateSession (s : SessionInput) (old : string) : event (outcome Z)
| DeleteSession (token : string) : event (outcome unit)
| DeleteSessions (user : uuid) (ids : list Z) : event (outcome unit)
| DeleteAllSessions (user : uuid) : event (outcome unit)
| DeleteOutdatedSessions (user : uuid) (threshold : Z) : event unit
| ConnectGoogle (user : uuid) (id : string) : event (outcome bool)
| DeleteGoogleConnection (user : uuid) : event (outcome unit)
| ConnectVk (user : uuid) (id : Z) : event (outcome bool)
| DeleteVkConnection (user : uuid) : event (outcome unit)
| IsFirebaseProfileConnected (id : string) : event bool
| ConnectFirebase (user : uuid) (id : string) (created : time) : event (outcome MessageData)
| GetProfilesToDelete : event (list DeleteProfileRequest)
| RequestDeleteProfile (user : uuid) (shared : bool) : event (outcome DeleteProfileRequest)
| UpdateProfileDeletion (user : uuid) (shared : bool) : event (outcome DeleteProfileRequest)
| CancelProfileDeletion (user : uuid) : event (outcome unit)
| DeleteUser (user : uuid) (shared : bool) : event (outcome (option MessageData))
| GetUsernames (users : list uuid) : event (outcome (list (uuid * string)))
| StoreUsername (user : uuid) (name : string) : event (outcome string)
| CreatePasswordResetRequest (user : uuid) (expires : time) : event (outcome uuid)
| ResetPassword (user : uuid) (code hash : string) : event (outcome unit)
| PublishProfilesMessage (m : MessageData) : event (outcome unit)
| SendMail (m : LegacyMail) : event unit
| HashPassword (password : string) : event (outcome string)
| ValidatePassword_ (password hash : string) : event bool
| CreateAccessToken (p : AccessPayload) (ttl : duration) : event (outcome string)
| CreateRefreshToken : event string
| CurrentSubscription (user : uuid) : event (option string)
| FirebaseSignIn (email password : string) : event (outcome string)
| FirebaseGetProfile (id : string) : event (outcome FirebaseProfile)
| FirebaseGetProfileByEmail (email : string) : event (outcome FirebaseProfile)
| GetLocation (ip : string) : event string
(* mail.Sender and amqp.Publisher of the libraries *)
| SmtpSend (p : MailPayload) (attempts : Z) : event (outcome unit)
| AmqpPublish (exchange app : string) (m : MessageData) : event (outcome unit)
| RandomDigits (n : nat) : event string
| TimeNow : event time
(* golang.org/x/oauth2: the response's status of a RetrieveError, or an access token *)
| OAuth2Exchange (redirect code : string) : event (option Z + string)
(* one HTTP request: status and body, the body unless reading it fails *)
| HttpGet (url : string) (bearer : option string) : event (option (Z * option bytes))
| Spawn (t : task) : event unit.

(** ** Programs

    A [tree E A] calls events of [E] and ends with an [A]; a [prog] calls the collaborators of the
    services. *)
Inductive tree (E : Type -> Type) (A : Type) : Type :=
| Done (a : A)
| Call {X : Type} (e : E X) (k : X -> tree E A).
Arguments Done {E A} a.
Arguments Call {E A X} e k.
Abbreviation prog := (tree event).

Section Trees.
Context {E : Type -> Type}.

Fixpoint bindP {A B} (p : tree E A) (k : A -> tree E B) : tree E B :=
  match p with Done a => k a | Call e c => Call e (fun x => bindP (c x) k) end.
Definition call {X} (e : E X) : tree E X := Call e Done.
Definition okP {A} (a : A) : tree E (outcome A) := Done (inr a).
Definition errP {A} (e : Fail) : tree E (outcome A) := Done (inl e).
(** [x, err := p; if err != nil { return err }] *)
Definition checkP {A B} (p : tree E (outcome A)) (k : A -> tree E (outcome B))
    : tree E (outcome B) :=
  bindP p (fun r => match r with inl e => errP e | inr a => k a end).

(** The program run against collaborators with a state of their own. *)
Fixpoint runP {S A} (h : forall X, E X -> S -> X * S) (p : tree E A) (s : S) : A * S :=
  match p with
  | Done a => (a, s)
  | Call e k => let '(x, s') := h _ e s in runP h (k x) s'
  end.

(** ** What holds of every run

    A log entry is a call with its answer; [wlp p log Q]: whatever the collaborators answer, the
    result of [p] and the calls made, after those of [log], satisfy [Q]. *)
Inductive entry_of :=
| Entry {X : Type} (e : E X) (x : X).
Fixpoint wlp {A} (p : tree E A) (log : list entry_of) (Q : list entry_of -> A -> Prop) : Prop :=
  match p with
  | Done a => Q log a
  | Call e k => forall x, wlp (k x) (log ++ [Entry e x]) Q
  end.
Definition always {A} (p : tree E A) (Q : list entry_of -> A -> Prop) : Prop := wlp p [] Q.

Lemma wlp_mono {A} (p : tree E A) log (Q Q' : list entry_of -> A -> Prop) :
  wlp p log Q -> (forall l a, Q l a -> Q' l a) -> wlp p log Q'.
Proof. revert log. induction p as [a|X e k IH]; simpl; intros log Hp HQ; eauto. Qed.

Lemma wlp_bind {A B} (p : tree E A) (k : A -> tree E B) log Q :
  wlp p log (fun l a => wlp (k a) l Q) -> wlp (bindP p k) log Q.
Proof. revert log. induction p as [a|X e c IH]; simpl; eauto. Qed.

Lemma wlp_check {A B} (p : tree E (outcome A)) (k : A -> tree E (outcome B)) log Q :
  wlp p log (fun l r => match r with inl e => Q l (inl e) | inr a => wlp (k a) l Q end) ->
  wlp (checkP p k) log Q.
Proof. intros Hp. apply wlp_bind. eapply wlp_mono; [exact Hp|]. by intros l [e|a]. Qed.

(** The log of a run only grows. *)
Lemma wlp_grows {A} (p : tree E A) log : wlp p log (fun l _ => exists tail, l = log ++ tail).
Proof.
  revert log. induction p as [a|X e k IH]; simpl; intros log; [exists []; by rewrite app_nil_r|].
  intros x. eapply wlp_mono; [apply IH|]. intros l _ [tail ->]. exists ([Entry e x] ++ tail).
  by rewrite app_assoc.
Qed.

Lemma wlp_and {A} (p : tree E A) log (Q Q' : list entry_of -> A -> Prop) :
  wlp p log Q -> wlp p log Q' -> wlp p log (fun l a => Q l a /\ Q' l a).
Proof. revert log. induction p as [a|X e k IH]; simpl; eauto. Qed.

Lemma wlp_shift {A} (p : tree E A) log1 log2 Q :
  wlp p log2 (fun l a => Q (log1 ++ l) a) -> wlp p (log1 ++ log2) Q.
Proof.
  revert log2. induction p as [a|X e k IH]; simpl; intros log2 Hp; [done|].
  intros x. rewrite <- app_assoc. apply IH, Hp.
Qed.

(** What always holds of a program is used where another calls it. *)
Lemma wlp_always {A} (p : tree E A) log (Q Q' : list entry_of -> A -> Prop) :
  always p Q -> (forall tail a, Q tail a -> Q' (log ++ tail) a) -> wlp p log Q'.
Proof.
  intros Hp HQ. rewrite <- (app_nil_r log). apply wlp_shift.
  eapply wlp_mono; [exact Hp|]. eauto.
Qed.

(** [wlp] speaks of the runs against any collaborators. *)
Fixpoint logP {S A} (h : forall X, E X -> S -> X * S) (p : tree E A) (s : S) : list entry_of :=
  match p with
  | Done _ => []
  | Call e k => let '(x, s') := h _ e s in Entry e x :: logP h (k x) s'
  end.
Lemma wlp_run {S A} (h : forall X, E X -> S -> X * S) (p : tree E A) s log Q :
  wlp p log Q -> Q (log ++ logP h p s) (runP h p s).1.
Proof.
  revert s log. induction p as [a|X e k IH]; simpl; intros s log Hp; [by rewrite app_nil_r|].
  destruct (h X e s) as [x s']. specialize (IH x s' (log ++ [Entry e x])).
  rewrite <- app_assoc in IH. by apply IH.
Qed.

End Trees.
Arguments entry_of E : clear implicits.
Abbreviation entry := (entry_of event).

Declare Scope legacy_scope.
Delimit Scope legacy_scope with legacy.
Notation "x <~ p ;; k" := (bindP p (fun x => k))
  (at level 100, p at next level, right associativity) : legacy_scope.
Notation "x <<- p ;; k" := (checkP p (fun x => k))
  (at level 100, p at next level, right associativity) : legacy_scope.

(** [legacy] runs through a program: every answer, every branch. *)
Ltac legacy_branch x :=
  lazymatch type of x with
  | outcome _ => destruct x as [?|?]
  | (_ + _)%type => destruct x as [?|?]
  | _ => destruct x eqn:?
  end.
Ltac legacy_step :=
  lazymatch goal with
  | |- forall _, _ => intros ?
  | |- wlp (bindP _ _) _ _ => apply wlp_bind
  | |- wlp (checkP _ _) _ _ => apply wlp_check
  | |- wlp (match ?x with _ => _ end) _ _ => legacy_branch x
  | |- match ?x with _ => _ end => legacy_branch x
  | |- wlp _ _ _ => progress cbn
  end; cbn beta iota.
Ltac legacy := repeat legacy_step.
(** [in_log] finds a call among those of a concrete log. *)
Ltac find_entry := first [left; reflexivity | right; find_entry].
Ltac in_log := simpl; find_entry.
