(* ===== verification/LegacyServices.v ===== *)
(** internal/service/{session,email,password,oauth,profile_deletion,reauthentication,username} and
    pkg/oauth: the previous generation of the service, as programs over its collaborators. A
    definition [package_Name] is the function or method Name of that package. *)
From S2P Require Import Prelude GoLib Secrets Server ProviderAdapters LegacyReads LegacyProgram.
#[local] Open Scope string_scope.
#[local] Open Scope Z_scope.
#[local] Open Scope list_scope.
#[local] Open Scope legacy_scope.

(** ** Parameters *)

(** encoding/json into the response types, and github.com/mssola/useragent. *)
Record TokenInfo := {
  ti_AuthTime : string;
  ti_Sub : string;
  ti_Audience : string;
  ti_Issuer : string;
  ti_Expiration : string;
  ti_Email : string;
  ti_EmailVerified : string;
}.
Record UserInfoResponse := {
  ur_AuthenticatedAt : Z;
  ur_VerifiedEmail : bool;
  ur_UserId : string;
  ur_Email : string;
}.
Record AccessTokenResponse := {
  ar_AccessToken : string;
  ar_ExpiresIn : Z;
  ar_UserId : Z;
  ar_Email : string;
}.
Class LegacyLibraries : Type := {
  json_TokenInfo : bytes -> option TokenInfo;
  json_UserInfo : bytes -> option UserInfoResponse;
  json_AccessToken : bytes -> option AccessTokenResponse;
  ua_Mobile : string -> bool;
  ua_Model : string -> string;
  ua_Browser : string -> string * string;
  ua_OS : string -> string;
  PlanFree : string;
}.

(** strconv.ParseInt's value where its error is dropped. *)
Definition ParseInt64_value (s : string) : Z :=
  match ParseInt64 s with
  | Some n => n
  | None =>
      let '(negative, digits) :=
        match s with
        | String "-" rest => (true, rest)
        | String "+" rest => (false, rest)
        | _ => (false, s)
        end in
      if (digits == "") || negb (bytes_forall is_digit digits) then 0
      else if negative : bool then - max_int64 - 1 else max_int64
  end.

(** ** pkg/oauth

    The links to the providers' pages, and the identities behind codes and tokens. Requests are
    made of constant endpoints and encoded queries, so building them does not fail. [binding] is
    flow.Binding of the context. *)
Record GoogleProvider := { gp_ClientId : string; gp_ClientSecret : string; gp_Scopes : list string }.
Record VkProvider := { vp_ClientId : string; vp_ClientSecret : string; vp_Scope : string }.
Record VkOAuthParams := { vo_Display : string; vo_ResponseType : string; vo_RedirectUri : string }.

Definition body_limit : nat := Z.to_nat 65536.
#[global] Opaque body_limit.
Definition google_unavailable : Fail := StatusError Unavailable "google unavailable".
Definition vk_unavailable : Fail := StatusError Unavailable "vk unavailable".

Section OAuthPackage.
Context `{Remote} `{LegacyLibraries} (binding : string) (google : GoogleProvider) (vk : VkProvider).

(** The body of a response with status 200, read up to the limit. *)
Definition http_body (unavailable rejected : Fail) (url : string) (bearer : option string)
    : prog (outcome bytes) :=
  res <~ call (HttpGet url bearer);;
  match res with
  | None => errP unavailable
  | Some (status, body) =>
      if (500 <=? status) || (status =? 429) then errP unavailable
      else if status != 200 then errP rejected
      else match body with
           | None => errP (Plain "read body")
           | Some body => okP (byte_take body_limit body)
           end
  end.

Definition google_CreateOAuthLink (redirect : string) : prog (outcome string) :=
  state <<- call (CreateOAuthState "google" redirect binding);;
  okP (oauth2_AuthCodeURL (gp_ClientId google) redirect (gp_Scopes google) state []).

Definition google_GetAccessToken (code state redirect : string) : prog (outcome string) :=
  _ <<- call (ConsumeOAuthState "google" state redirect binding);;
  tokens <~ call (OAuth2Exchange redirect code);;
  match tokens with
  | inr token => okP token
  | inl (Some status) =>
      if (status <? 500) && (status != 429) then errP (Plain "oauth2") else errP google_unavailable
  | inl None => errP google_unavailable
  end.

Definition google_GetUserInfoByAccessToken (token : string) : prog (outcome UserInfoResponse) :=
  body <<- http_body google_unavailable (Plain "invalid google response")
    "https://www.googleapis.com/oauth2/v2/userinfo" (Some ("Bearer " +:+ token));;
  match json_UserInfo body with
  | None => errP (Plain "json")
  | Some info =>
      if (ur_UserId info == "") || negb (ur_VerifiedEmail info)
      then errP (Plain "invalid Google identity") else okP info
  end.

Definition token_claims_ok (claims : TokenInfo) (now : time) : bool :=
  match ParseInt64 (ti_Expiration claims) with
  | None => false
  | Some expiration =>
      negb ((expiration <=? Unix now) || (ti_Sub claims == "") || (gp_ClientId google == "") ||
            (ti_Audience claims != gp_ClientId google) ||
            ((ti_Issuer claims != "accounts.google.com") &&
             (ti_Issuer claims != "https://accounts.google.com")) ||
            (ti_EmailVerified claims != "true"))
  end.

Definition google_GetUserInfoByIdToken (token : string) : prog (outcome UserInfoResponse) :=
  if token == "" then errP (Plain "empty Google ID token") else
  body <<- http_body google_unavailable (Plain "invalid Google ID token")
    ("https://oauth2.googleapis.com/tokeninfo?" +:+ url_Encode [("id_token", token)]) None;;
  match json_TokenInfo body with
  | None => errP (Plain "json")
  | Some claims =>
      now <~ call TimeNow;;
      if negb (token_claims_ok claims now) then errP (Plain "invalid Google ID token claims")
      else okP {| ur_UserId := ti_Sub claims; ur_Email := ti_Email claims; ur_VerifiedEmail := true;
                  ur_AuthenticatedAt := ParseInt64_value (ti_AuthTime claims) |}
  end.

Definition google_GetUserInfoByCode (code state redirect : string) : prog (outcome UserInfoResponse) :=
  token <<- google_GetAccessToken code state redirect;;
  google_GetUserInfoByAccessToken token.

Definition acceptableDisplays : list string := ["page"; "popup"; "mobile"].
Definition acceptableResponseTypes : list string := ["token"; "code"].
Definition or_default (acceptable : list string) (value default : string) : string :=
  if existsb (fun v => v == value) acceptable then value else default.

Definition vk_CreateOAuthLink (params : VkOAuthParams) : prog (outcome string) :=
  let display := or_default acceptableDisplays (vo_Display params) "page" in
  let responseType := or_default acceptableResponseTypes (vo_ResponseType params) "code" in
  state <<- call (CreateOAuthState "vk" (vo_RedirectUri params) binding);;
  okP ("https://oauth.vk.com/authorize?" +:+ url_Encode
    [("client_id", vp_ClientId vk); ("redirect_uri", vo_RedirectUri params); ("display", display);
     ("scope", vp_Scope vk); ("response_type", responseType); ("state", state)]).

Definition vk_createGetAccessTokenUrl (code redirect : string) : string :=
  "https://oauth.vk.com/access_token?" +:+ url_Encode
    [("client_id", vp_ClientId vk); ("client_secret", vp_ClientSecret vk);
     ("redirect_uri", redirect); ("code", code)].

Definition vk_GetAccessToken (code state redirect : string) : prog (outcome AccessTokenResponse) :=
  _ <<- call (ConsumeOAuthState "vk" state redirect binding);;
  body <<- http_body vk_unavailable (Plain "invalid vk response")
    (vk_createGetAccessTokenUrl code redirect) None;;
  match json_AccessToken body with
  | None => errP (Plain "json")
  | Some res =>
      if (ar_UserId res <=? 0) || (ar_AccessToken res == "")
      then errP (Plain "invalid VK identity") else okP res
  end.
End OAuthPackage.

(** ** internal/service/session: clients *)
Section Clients.
Context `{Platform} `{LegacyLibraries}.

Definition session_parseClient (raw : string) : SessionClient :=
  let value := ToLower raw in
  let platform :=
    if Contains value "android" then "android"
    else if Contains value "iphone" || Contains value "ipad" || Contains value "ios" then "ios"
    else if Contains value "windows" then "windows"
    else if Contains value "macintosh" || Contains value "mac os" then "macos"
    else if Contains value "linux" then "linux"
    else "unknown" in
  let browser := (ua_Browser raw).1 in
  if Contains value "chefbook" then
    {| sc_Name := "ChefBook"; sc_Platform := platform; sc_Type := "app" |}
  else if (browser != "") && (Contains value "mozilla/" || Contains value "opera/") then
    {| sc_Name := browser; sc_Platform := platform; sc_Type := "browser" |}
  else {| sc_Name := ""; sc_Platform := platform; sc_Type := "unknown" |}.

Definition access_point (agent : string) : string :=
  if ua_Mobile agent then ua_Model agent
  else (ua_Browser agent).1 +:+ " " +:+ (ua_Browser agent).2 +:+ ", " +:+ ua_OS agent.

Definition session_humanizeSessionInfo (raw : SessionRawInfo) (location : string)
    : SessionInfoEntity :=
  {| ss_SessionId := sw_SessionId raw; ss_Client := session_parseClient (sw_UserAgent raw);
     ss_UserId := sw_UserId raw; ss_Ip := sw_Ip raw; ss_AccessPoint := access_point (sw_UserAgent raw);
     ss_Mobile := ua_Mobile (sw_UserAgent raw); ss_AccessTime := sw_AccessTime raw;
     ss_Location := location |}.
End Clients.

(** One lookup per different address; the goroutines fill a map under a mutex, so their order does
    not matter. *)
Fixpoint session_locations (ips : list string) : prog (gmap string string) :=
  match ips with
  | [] => Done ∅
  | ip :: ips =>
      location <~ call (GetLocation ip);;
      rest <~ session_locations ips;;
      Done (<[ip := location]> rest)
  end.
Definition session_getIpLocationMap (infos : list SessionRawInfo) : prog (gmap string string) :=
  session_locations (remove_dups (map sw_Ip infos)).

Section Services.
Context `{Platform} `{Remote} `{StatusCodes} `{LegacyLibraries}.
Context (binding : string) (google : GoogleProvider) (vk : VkProvider).
(** Whether a Firebase client is configured; the lifetimes of the configuration. *)
Context (firebase : bool) (accessTokenTtl refreshTokenTtl resetPasswordCodeTTL : duration).

Definition not_found (err : Fail) : bool := status_Code err == Some NotFound.
(** Errors of a provider that are passed on; the others become "invalid code". *)
Definition passed_on (err : Fail) : bool :=
  (status_Code err == Some Internal) || (status_Code err == Some Unavailable).
Definition provider_answer {A} (p : prog (outcome A)) : prog (outcome A) :=
  r <~ p;;
  match r with
  | inr info => okP info
  | inl err => if passed_on err then errP err else errP GrpcInvalidCode
  end.
Definition spawn (t : task) : prog unit := call (Spawn t).
(** Hash, with its failure hidden. *)
Definition hash_password (password : string) : prog (outcome string) :=
  r <~ call (HashPassword password);;
  match r with inr hash => okP hash | inl _ => errP GrpcUnknown end.

(** ** internal/service/reauthentication *)
Definition reauth_freshAuthentication (timestamp : Z) (now : time) : bool :=
  (0 <? timestamp) && (timestamp <=? Unix now + 30) && (Unix now - timestamp <=? 300).

Definition reauth_Check (id : uuid) (c : Reauthentication) (redirect : string)
    : prog (outcome unit) :=
  info <<- call (GetAuthInfoById id);;
  if IsBlocked info then errP GrpcProfileIsBlocked else
  if re_Method c == "password" then
    if (re_Password c != "") && (re_IdToken c == "") && (re_Code c == "") && (re_State c == "") then
      valid <~ call (ValidatePassword_ (re_Password c) (PasswordHash info));;
      if valid : bool then okP tt else errP GrpcReauthentication
    else errP GrpcReauthentication
  else if re_Method c == "google" then
    if (re_IdToken c == "") || (re_Password c != "") || (re_Code c != "") || (re_State c != "")
    then errP GrpcReauthentication else
    r <~ google_GetUserInfoByIdToken google (re_IdToken c);;
    match r with
    | inl err => if passed_on err then errP err else errP GrpcReauthentication
    | inr p =>
        if GoogleId (OAuth info) == Some (ur_UserId p) then
          now <~ call TimeNow;;
          if negb (reauth_freshAuthentication (ur_AuthenticatedAt p) now)
          then errP GrpcReauthentication
          else call (ConsumeReauthentication id (re_IdToken c))
        else errP GrpcReauthentication
    end
  else if re_Method c == "vk" then
    if (re_Code c == "") || (re_State c == "") || (re_Password c != "") || (re_IdToken c != "")
    then errP GrpcReauthentication else
    r <~ vk_GetAccessToken binding vk (re_Code c) (re_State c) redirect;;
    match r with
    | inl err => if passed_on err then errP err else errP GrpcReauthentication
    | inr p =>
        if VkId (OAuth info) == Some (ar_UserId p) then okP tt else errP GrpcReauthentication
    end
  else errP GrpcReauthentication.

(** ** internal/service/email *)
Definition email_Verify (address pattern : string) (passwordHash : option string)
    : prog (outcome unit) :=
  r <~ call (GetAuthInfoByEmail address);;
  match r with
  | inl err => if not_found err then okP tt else errP err
  | inr info =>
      if IsActivated info || IsBlocked info then okP tt else
      now <~ call TimeNow;;
      call (StartEmailBinding
        {| eb_UserId := Id info; eb_Purpose := "verify"; eb_Stage := "verify";
           eb_OldEmail := Email info; eb_Email := Email info; eb_Token := "";
           eb_LinkPattern := pattern; eb_PasswordHash := passwordHash;
           eb_ExpiresAt := now + 24 * Hour |})
  end.

(** strings.EqualFold; [fold] is Unicode case folding, which ASCII texts do not need. *)
Definition EqualFold (fold : string -> string -> bool) (s t : string) : bool :=
  if is_ascii s && is_ascii t then ToLower s == ToLower t else fold s t.

Definition email_Change (fold : string -> string -> bool) (id : uuid)
    (address pattern redirect : string) (credentials : Reauthentication) : prog (outcome unit) :=
  _ <<- reauth_Check id credentials redirect;;
  info <<- call (GetAuthInfoById id);;
  if isSome (DeletionTimestamp info) then errP GrpcAccountDeleting else
  if EqualFold fold (Email info) address
  then errP (GrpcConflict "email_unchanged" "email already assigned to account") else
  now <~ call TimeNow;;
  call (StartEmailBinding
    {| eb_UserId := id; eb_Purpose := "change"; eb_Stage := "old"; eb_OldEmail := Email info;
       eb_Email := address; eb_Token := ""; eb_LinkPattern := pattern; eb_PasswordHash := None;
       eb_ExpiresAt := now + 24 * Hour |}).

Definition email_Confirm (token pattern : string) : prog (outcome EmailConfirmation) :=
  call (ConfirmEmailBinding token pattern).

Fixpoint email_deliveries (n : nat) : prog unit :=
  match n with
  | O => Done tt
  | S n =>
      r <~ call DeliverEmail;;
      match r with inr true => email_deliveries n | _ => Done tt end
  end.
Definition email_Dispatch : prog unit :=
  r <~ call CleanupAuthWorkflows;;
  match r with inl _ => Done tt | inr _ => email_deliveries 25 end.

(** ** internal/service/session *)
Definition session_checkProfileAvailability (info : AuthInfoEntity) : outcome unit :=
  if negb (IsActivated info) then inl GrpcProfileNotActivated
  else if IsBlocked info then inl GrpcProfileIsBlocked
  else inr tt.

Definition session_createSessionEntity (info : AuthInfoEntity) (ip userAgent : string)
    : prog (outcome (TokensEntity * SessionInput)) :=
  sub <~ call (CurrentSubscription (Id info));;
  let plan := match sub with Some plan => plan | None => PlanFree end in
  access <~ call (CreateAccessToken
    {| py_UserId := Id info; py_Email := Email info; py_Username := Username info;
       py_Role := Role info; py_SubscriptionPlan := plan;
       py_Deleted := isSome (DeletionTimestamp info) |} accessTokenTtl);;
  match access with
  | inl _ => errP GrpcUnknown
  | inr access =>
      refresh <~ call CreateRefreshToken;;
      now <~ call TimeNow;;
      let expires := now + refreshTokenTtl in
      okP ({| tk_SessionId := 0; tk_DeleteSharedData := DeleteSharedData info;
              tk_ProfileId := Id info; tk_AccessToken := access; tk_RefreshToken := refresh;
              tk_ExpirationTimestamp := expires; tk_DeletionTimestamp := DeletionTimestamp info |},
           {| sn_UserId := Id info; sn_RefreshToken := refresh; sn_Ip := ip;
              sn_UserAgent := userAgent; sn_ExpiresAt := expires |})
  end.
Definition set_SessionId (id : Z) (t : TokensEntity) : TokensEntity :=
  {| tk_SessionId := id; tk_DeleteSharedData := tk_DeleteSharedData t;
     tk_ProfileId := tk_ProfileId t; tk_AccessToken := tk_AccessToken t;
     tk_RefreshToken := tk_RefreshToken t; tk_ExpirationTimestamp := tk_ExpirationTimestamp t;
     tk_DeletionTimestamp := tk_DeletionTimestamp t |}.
Definition maxSessionsCount : Z := 5.
Definition activationCodeLength : nat := 6.

Definition session_createSession (info : AuthInfoEntity) (client : ClientData)
    : prog (outcome TokensEntity) :=
  pair <<- session_createSessionEntity info (cd_Ip client) (cd_UserAgent client);;
  id <<- call (StoreSession pair.2);;
  _ <~ spawn (DeleteOutdatedSessionsTask (Id info) maxSessionsCount);;
  now <~ call TimeNow;;
  _ <~ spawn (MailTask (NewLoginMail (Id info) (Email info) client now));;
  okP (set_SessionId id pair.1).

Definition session_createNewUserData (credentials : SignUpCredentials)
    : prog (outcome (CredentialsHash * option string)) :=
  hash <<- hash_password (su_Password credentials);;
  code <~ call (RandomDigits activationCodeLength);;
  okP ({| ch_Id := su_Id credentials; ch_Email := su_Email credentials;
          ch_PasswordHash := Some hash |}, Some code).

Definition no_oauth : OAuthEntity := {| GoogleId := None; VkId := None |}.

Definition session_SignUp (credentials : SignUpCredentials) (pattern : string)
    : prog (outcome (uuid * bool)) :=
  r <~ call (GetAuthInfoByEmail (su_Email credentials));;
  match r with
  | inr info =>
      if IsActivated info || IsBlocked info then okP (Id info, IsActivated info) else
      hash <<- hash_password (su_Password credentials);;
      _ <<- email_Verify (su_Email credentials) pattern (Some hash);;
      okP (Id info, false)
  | inl err =>
      if negb (not_found err) then errP err else
      data <<- session_createNewUserData credentials;;
      created <<- call (CreateUser data.1 data.2 no_oauth);;
      _ <~ spawn (PublishTask created.2);;
      _ <<- email_Verify (su_Email credentials) pattern (ch_PasswordHash data.1);;
      okP (created.1, false)
  end.

Definition session_ActivateProfile (user : uuid) (code : string) : prog (outcome unit) :=
  call (ActivateProfile user code).

Definition session_importFirebaseProfile (email password : string) : prog (outcome AuthInfoEntity) :=
  if negb firebase then errP GrpcInvalidCredentials else
  r <~ call (FirebaseSignIn email password);;
  match r with
  | inl err => if err == FirebaseInvalidCredentials then errP GrpcInvalidCredentials
               else errP (StatusError Unavailable "firebase unavailable")
  | inr localId =>
      connected <~ call (IsFirebaseProfileConnected localId);;
      if connected : bool then errP GrpcInvalidCredentials else
      hash <<- hash_password password;;
      r <~ call (FirebaseGetProfile localId);;
      match r with
      | inl _ => errP GrpcUnknown
      | inr profile =>
          created <<- call (CreateUser
            {| ch_Id := None; ch_Email := email; ch_PasswordHash := Some hash |} None no_oauth);;
          _ <~ spawn (PublishTask created.2);;
          _ <~ spawn (ConnectImportedTask created.1 localId (fp_CreationTimestamp profile));;
          call (GetAuthInfoById created.1)
      end
  end.

Definition session_connectFirebaseProfile (user : uuid) (email : string) : prog (outcome unit) :=
  if negb firebase then okP tt else
  r <~ call (FirebaseGetProfileByEmail email);;
  match r with
  | inl _ => errP GrpcUnknown
  | inr profile =>
      msg <<- call (ConnectFirebase user (fp_Id profile) (fp_CreationTimestamp profile));;
      _ <~ call (PublishProfilesMessage msg);;
      okP tt
  end.

Definition session_SignIn (credentials : SignInCredentials) (client : ClientData)
    : prog (outcome TokensEntity) :=
  r <~ call (GetAuthInfoByIdentifiers
    {| ui_UserId := None; ui_Email := si_Email credentials; ui_Username := si_Username credentials |});;
  info <<- (match r with
    | inr info => okP info
    | inl err =>
        if negb (not_found err) then errP err else
        match si_Email credentials with
        | Some email => if firebase then session_importFirebaseProfile email (si_Password credentials)
                        else errP GrpcInvalidCredentials
        | None => errP GrpcInvalidCredentials
        end
    end);;
  valid <~ call (ValidatePassword_ (si_Password credentials) (PasswordHash info));;
  if negb valid then errP GrpcInvalidCredentials else
  _ <<- Done (session_checkProfileAvailability info);;
  session_createSession info client.

Definition session_SignOut (refresh : string) : prog (outcome unit) := call (DeleteSession refresh).
Definition session_GetAuthInfo (i : UserIdentifiers) : prog (outcome AuthInfoEntity) :=
  call (GetAuthInfoByIdentifiers i).

Definition session_Refresh (refresh ip userAgent : string) : prog (outcome TokensEntity) :=
  info <<- call (GetAuthInfoByRefreshToken refresh);;
  if IsBlocked info then
    _ <~ call (DeleteSession refresh);;
    errP GrpcProfileIsBlocked
  else
    pair <<- session_createSessionEntity info ip userAgent;;
    id <<- call (UpdateSession pair.2 refresh);;
    okP (set_SessionId id pair.1).

Definition session_GetAll (user : uuid) : prog (outcome (list SessionInfoEntity)) :=
  infos <<- call (ListSessions user);;
  locations <~ session_getIpLocationMap infos;;
  okP (map (fun raw => session_humanizeSessionInfo raw
    (match locations !! sw_Ip raw with Some l => l | None => "" end)) infos).

Definition session_DeleteMultiple (user : uuid) (ids : list Z) : prog (outcome unit) :=
  match ids with [] => call (DeleteAllSessions user) | _ => call (DeleteSessions user ids) end.

(** *** Sign-in through a provider *)
Definition session_signInGoogleWithExistingProfile (info : AuthInfoEntity) (g : UserInfoResponse)
    (client : ClientData) : prog (outcome TokensEntity) :=
  _ <<- Done (session_checkProfileAvailability info);;
  if negb (isSome (GoogleId (OAuth info))) && isSome (DeletionTimestamp info)
  then errP GrpcInvalidCredentials else
  _ <<- (if GoogleId (OAuth info) == Some (ur_UserId g) then okP tt else
           r <~ call (ConnectGoogle (Id info) (ur_UserId g));;
           match r with
           | inr _ => okP tt
           | inl err => if status_Code err == Some FailedPrecondition then errP GrpcInvalidCredentials
                        else errP err
           end);;
  _ <<- Done (session_checkProfileAvailability info);;
  session_createSession info client.

Definition session_signInGoogleWithProfileCreation (g : UserInfoResponse) (client : ClientData)
    : prog (outcome TokensEntity) :=
  if ur_Email g == "" then errP GrpcEmailRequired else
  created <<- call (CreateUser {| ch_Id := None; ch_Email := ur_Email g; ch_PasswordHash := None |} None
    {| GoogleId := Some (ur_UserId g); VkId := None |});;
  _ <~ spawn (PublishTask created.2);;
  info <<- call (GetAuthInfoById created.1);;
  _ <~ spawn (ConnectFirebaseTask (Id info) (Email info));;
  session_createSession info client.

(** The profile of the identity, or else of its email. *)
Definition profile_by (by_identity : event (outcome AuthInfoEntity)) (email : string)
    : prog (outcome (option AuthInfoEntity)) :=
  r <~ call by_identity;;
  match r with
  | inr info => okP (Some info)
  | inl err =>
      if negb (not_found err) then errP err
      else if email == "" then okP None
      else
        r <~ call (GetAuthInfoByEmail email);;
        match r with
        | inr info => okP (Some info)
        | inl err => if negb (not_found err) then errP err else okP None
        end
  end.

Definition session_handleGoogleInfoResponse (g : UserInfoResponse) (client : ClientData)
    : prog (outcome TokensEntity) :=
  profile <<- profile_by (GetAuthInfoByGoogleId (ur_UserId g)) (ur_Email g);;
  match profile with
  | Some info => session_signInGoogleWithExistingProfile info g client
  | None => session_signInGoogleWithProfileCreation g client
  end.

Definition session_SignInGoogle (c : OAuthCredentials) (client : ClientData) (redirect : string)
    : prog (outcome TokensEntity) :=
  info <<- provider_answer (google_GetUserInfoByCode binding (oa_Code c) (oa_State c) redirect);;
  session_handleGoogleInfoResponse info client.
Definition session_SignInGoogleIdToken (token : string) (client : ClientData)
    : prog (outcome TokensEntity) :=
  info <<- provider_answer (google_GetUserInfoByIdToken google token);;
  session_handleGoogleInfoResponse info client.

Definition session_signInVkWithExistingProfile (info : AuthInfoEntity) (v : AccessTokenResponse)
    (client : ClientData) : prog (outcome TokensEntity) :=
  _ <<- Done (session_checkProfileAvailability info);;
  if negb (isSome (VkId (OAuth info))) && isSome (DeletionTimestamp info)
  then errP GrpcInvalidCredentials else
  _ <<- (if VkId (OAuth info) == Some (ar_UserId v) then okP tt else
           r <~ call (ConnectVk (Id info) (ar_UserId v));;
           match r with
           | inr _ => okP tt
           | inl err => if status_Code err == Some FailedPrecondition then errP GrpcInvalidCredentials
                        else errP err
           end);;
  _ <<- Done (session_checkProfileAvailability info);;
  session_createSession info client.

Definition session_signInVkWithProfileCreation (v : AccessTokenResponse) (client : ClientData)
    : prog (outcome TokensEntity) :=
  if ar_Email v == "" then errP GrpcEmailRequired else
  created <<- call (CreateUser {| ch_Id := None; ch_Email := ar_Email v; ch_PasswordHash := None |} None
    {| GoogleId := None; VkId := Some (ar_UserId v) |});;
  _ <~ spawn (PublishTask created.2);;
  info <<- call (GetAuthInfoById created.1);;
  _ <~ spawn (ConnectFirebaseTask (Id info) (Email info));;
  session_createSession info client.

Definition session_SignInVk (c : OAuthCredentials) (client : ClientData) (redirect : string)
    : prog (outcome TokensEntity) :=
  v <<- provider_answer (vk_GetAccessToken binding vk (oa_Code c) (oa_State c) redirect);;
  profile <<- profile_by (GetAuthInfoByVkId (ar_UserId v)) (ar_Email v);;
  match profile with
  | Some info => session_signInVkWithExistingProfile info v client
  | None => session_signInVkWithProfileCreation v client
  end.

(** ** internal/service/password *)
Definition password_RequestReset (email username : option string) (pattern : string)
    : prog (outcome unit) :=
  r <~ call (GetAuthInfoByIdentifiers
    {| ui_UserId := None; ui_Email := email; ui_Username := username |});;
  match r with
  | inl err => if not_found err then okP tt else errP err
  | inr info =>
      if negb (IsActivated info) || IsBlocked info || isSome (DeletionTimestamp info) then okP tt else
      now <~ call TimeNow;;
      code <<- call (CreatePasswordResetRequest (Id info) (now + resetPasswordCodeTTL));;
      _ <~ spawn (MailTask (ResetPasswordMail (Id info) (Email info) (uuid_String code) pattern));;
      okP tt
  end.

Definition password_Reset (user : uuid) (code password : string) : prog (outcome unit) :=
  user <<- (if user == uuid_Nil then call (GetPasswordResetUser code) else okP user);;
  info <<- call (GetAuthInfoById user);;
  if IsBlocked info then errP GrpcProfileIsBlocked else
  if isSome (DeletionTimestamp info) then errP GrpcAccountDeleting else
  hash <<- hash_password password;;
  call (ResetPassword user code hash).

Definition password_Change (user : uuid) (oldPassword newPassword : string) : prog (outcome unit) :=
  r <~ call (GetAuthInfoById user);;
  match r with
  | inl _ => errP GrpcUserNotFound
  | inr info =>
      if IsBlocked info then errP GrpcProfileIsBlocked else
      if isSome (DeletionTimestamp info) then errP GrpcAccountDeleting else
      same <~ call (ValidatePassword_ newPassword (PasswordHash info));;
      if same : bool then okP tt else
      if PasswordHash info == "" then errP GrpcReauthentication else
      valid <~ call (ValidatePassword_ oldPassword (PasswordHash info));;
      if negb valid then errP GrpcReauthentication else
      hash <<- hash_password newPassword;;
      _ <<- call (SetPasswordHash user hash);;
      _ <~ spawn (MailTask (PasswordChangedMail user (Email info)));;
      okP tt
  end.

(** ** internal/service/oauth *)
Definition VkScope : Z := Z.shiftl 1 22.

Definition oauth_GenerateGoogleLink (redirect : string) : prog (outcome string) :=
  google_CreateOAuthLink binding google redirect.
Definition oauth_ConnectGoogle (user : uuid) (code state redirect : string) : prog (outcome bool) :=
  info <<- provider_answer (google_GetUserInfoByCode binding code state redirect);;
  call (ConnectGoogle user (ur_UserId info)).
Definition oauth_ConnectGoogleToken (user : uuid) (token : string) : prog (outcome bool) :=
  info <<- provider_answer (google_GetUserInfoByIdToken google token);;
  call (ConnectGoogle user (ur_UserId info)).
Definition oauth_GenerateVkLink (display responseType redirect : string) : prog (outcome string) :=
  r <~ vk_CreateOAuthLink binding vk
    {| vo_Display := display; vo_ResponseType := responseType; vo_RedirectUri := redirect |};;
  match r with inl _ => errP GrpcUnknown | inr link => okP link end.
Definition oauth_ConnectVk (user : uuid) (code state redirect : string) : prog (outcome bool) :=
  v <<- provider_answer (vk_GetAccessToken binding vk code state redirect);;
  call (ConnectVk user (ar_UserId v)).

Definition oauth_hasMultipleSignInMethods (info : AuthInfoEntity) : bool :=
  let count := (if 0 <? len (PasswordHash info) then 1 else 0) +
               (if isSome (GoogleId (OAuth info)) then 1 else 0) +
               (if isSome (VkId (OAuth info)) then 1 else 0) in
  1 <? count.

Definition oauth_DeleteGoogleConnection (user : uuid) : prog (outcome unit) :=
  info <<- call (GetAuthInfoById user);;
  if IsBlocked info then errP GrpcProfileIsBlocked else
  if isSome (DeletionTimestamp info) then errP GrpcAccountDeleting else
  if negb (isSome (GoogleId (OAuth info))) then okP tt else
  if negb (oauth_hasMultipleSignInMethods info) then errP GrpcFewSignInMethods else
  call (DeleteGoogleConnection user).
Definition oauth_DeleteVkConnection (user : uuid) : prog (outcome unit) :=
  info <<- call (GetAuthInfoById user);;
  if IsBlocked info then errP GrpcProfileIsBlocked else
  if isSome (DeletionTimestamp info) then errP GrpcAccountDeleting else
  if negb (isSome (VkId (OAuth info))) then okP tt else
  if negb (oauth_hasMultipleSignInMethods info) then errP GrpcFewSignInMethods else
  call (DeleteVkConnection user).

(** ** internal/service/profile_deletion and the daemon *)
Definition deletion_GetInfo (user : uuid) : prog (option time * bool) :=
  r <~ call (GetAuthInfoById user);;
  match r with
  | inl _ => Done (None, true)
  | inr info => Done (DeletionTimestamp info, false)
  end.

Definition deletion_Request (user : uuid) (c : Reauthentication) (shared : bool) (redirect : string)
    : prog (outcome DeleteProfileRequest) :=
  _ <<- reauth_Check user c redirect;;
  info <<- call (GetAuthInfoById user);;
  expired <~ (match DeletionTimestamp info with
              | Some t => now <~ call TimeNow;; Done (negb (After t now))
              | None => Done false
              end);;
  if expired : bool then errP GrpcDeletionExpired else
  request <<- call (RequestDeleteProfile user shared);;
  _ <~ (if negb (isSome (DeletionTimestamp info)) then
          spawn (MailTask (DeletionRequestMail user (Email info) (dr_Timestamp request)
            (dr_WithSharedData request)))
        else Done tt);;
  okP request.

Definition deletion_Update (user : uuid) (shared : bool) : prog (outcome DeleteProfileRequest) :=
  info <<- call (GetAuthInfoById user);;
  if IsBlocked info then errP GrpcProfileIsBlocked else
  call (UpdateProfileDeletion user shared).

Definition deletion_Execute (request : DeleteProfileRequest) : prog (outcome unit) :=
  r <~ call (GetAuthInfoById (dr_UserId request));;
  match r with
  | inl _ => errP GrpcUserNotFound
  | inr info =>
      msg <<- call (DeleteUser (dr_UserId request) (dr_WithSharedData request));;
      match msg with
      | None => okP tt
      | Some msg =>
          _ <~ call (SendMail (ProfileDeletedMail (dr_UserId request) (Email info)));;
          _ <~ call (PublishProfilesMessage msg);;
          okP tt
      end
  end.

Fixpoint deletion_execute_each (requests : list DeleteProfileRequest) : prog unit :=
  match requests with
  | [] => Done tt
  | request :: requests =>
      _ <~ deletion_Execute request;;
      deletion_execute_each requests
  end.
Definition deletion_ExecuteAll : prog unit :=
  requests <~ call GetProfilesToDelete;;
  deletion_execute_each requests.

Definition deletion_Cancel (user : uuid) : prog (outcome unit) :=
  info <<- call (GetAuthInfoById user);;
  if IsBlocked info then errP GrpcProfileIsBlocked else
  call (CancelProfileDeletion user).

(** The loop of internal/app/daemon, for a number of rounds. *)
Fixpoint daemon_Start (rounds : nat) : prog unit :=
  match rounds with
  | O => Done tt
  | S rounds => _ <~ deletion_ExecuteAll;; daemon_Start rounds
  end.

(** ** internal/service/username *)
Definition username_Get (users : list uuid) : prog (outcome (list (uuid * string))) :=
  call (GetUsernames users).
Definition username_CheckAvailability (name : string) : prog (outcome bool) :=
  r <~ call (GetAuthInfoByUsername name);;
  match r with
  | inr _ => okP false
  | inl err => if negb (not_found err) then errP err else okP true
  end.
Definition username_Set (user : uuid) (name : string) : prog (outcome unit) :=
  info <<- call (GetAuthInfoById user);;
  if IsBlocked info then errP GrpcProfileIsBlocked else
  if isSome (DeletionTimestamp info) then errP GrpcAccountDeleting else
  if Username info == Some name then okP tt else
  email <<- call (StoreUsername user name);;
  _ <~ spawn (MailTask (UsernameChangedMail user email name));;
  okP tt.

(** ** What the started goroutines do *)
Definition run_task (t : task) : prog unit :=
  match t with
  | PublishTask msg => _ <~ call (PublishProfilesMessage msg);; Done tt
  | MailTask m => call (SendMail m)
  | DeleteOutdatedSessionsTask user n => call (DeleteOutdatedSessions user n)
  | ConnectImportedTask user localId created =>
      r <~ call (ConnectFirebase user localId created);;
      match r with
      | inr msg => _ <~ call (PublishProfilesMessage msg);; Done tt
      | inl _ => Done tt
      end
  | ConnectFirebaseTask user email =>
      _ <~ session_connectFirebaseProfile user email;; Done tt
  end.
End Services.
