(* ===== verification/LegacyFacts.v ===== *)
(** What the previous generation of the service guarantees whatever its collaborators answer:
    passwords come before everything an account would disclose, sensitive changes need fresh
    evidence, links to providers never lock an account out. *)
From S2P Require Import Prelude GoLib Secrets Server ProviderAdapters LegacyReads LegacyProgram LegacyServices.
#[local] Open Scope string_scope.
#[local] Open Scope Z_scope.
#[local] Open Scope list_scope.
#[local] Open Scope legacy_scope.

(** ** Reading logs *)

(** The calls that change accounts, sessions or mailboxes. *)
Definition changes {X} (e : event X) : bool :=
  match e with
  | ConsumeReauthentication _ _ | StartEmailBinding _ | ConfirmEmailBinding _ _ | DeliverEmail
  | CreateUser _ _ _ | SetPasswordHash _ _ | ActivateProfile _ _ | StoreSession _ | UpdateSession _ _
  | DeleteSession _ | DeleteSessions _ _ | DeleteAllSessions _ | DeleteOutdatedSessions _ _
  | ConnectGoogle _ _ | DeleteGoogleConnection _ | ConnectVk _ _ | DeleteVkConnection _
  | ConnectFirebase _ _ _ | RequestDeleteProfile _ _ | UpdateProfileDeletion _ _
  | CancelProfileDeletion _ | DeleteUser _ _ | StoreUsername _ _ | CreatePasswordResetRequest _ _
  | ResetPassword _ _ _ | PublishProfilesMessage _ | SendMail _ | Spawn _ => true
  | _ => false
  end.
Definition entry_changes (x : entry) : bool := match x with Entry e _ => changes e end.
Definition untouched (log : list entry) : Prop := existsb entry_changes log = false.
(** The call [e] was made and answered [x]. *)
Definition was {X} (e : event X) (x : X) (log : list entry) : Prop := In (Entry e x) log.

(** A collaborator answered with the error. *)
Definition reported (err : Fail) (log : list entry) : Prop :=
  exists A (e : event (outcome A)), was e (inl err) log.

Lemma was_app {X} (e : event X) x log tail : was e x log -> was e x (log ++ tail).
Proof. unfold was. rewrite in_app_iff. auto. Qed.
Lemma was_after {X} (e : event X) x log tail : was e x tail -> was e x (log ++ tail).
Proof. unfold was. rewrite in_app_iff. auto. Qed.

Section Facts.
Context `{Platform} `{Remote} `{StatusCodes} `{!StatusLaws} `{LegacyLibraries}.
Context (binding : string) (google : GoogleProvider) (vk : VkProvider).
Context (firebase : bool) (accessTokenTtl refreshTokenTtl resetPasswordCodeTTL : duration).

(** *** Sessions *)

(** A session is stored for the profile it is created for. *)
Lemma createSession_spec info client :
  always (session_createSession accessTokenTtl refreshTokenTtl info client) (fun log r =>
    match r with
    | inr tokens => tk_ProfileId tokens = Id info /\ exists s,
        was (StoreSession s) (inr (tk_SessionId tokens)) log /\ sn_UserId s = Id info /\
        sn_RefreshToken s = tk_RefreshToken tokens
    | inl err => err = GrpcUnknown \/ reported err log
    end).
Proof.
  unfold session_createSession, session_createSessionEntity, spawn, always. legacy.
  all: try (left; reflexivity).
  all: try (right; do 2 eexists; in_log).
  split; [done|]. eexists. split_and!; [in_log|done..].
Qed.






(** A refresh gives out new tokens only by replacing the session that the presented token
  names, for a profile that is not blocked; a blocked profile's session is deleted and refused. *)
Theorem legacy_Refresh_replaces_session refresh ip userAgent :
always (session_Refresh accessTokenTtl refreshTokenTtl refresh ip userAgent) (fun log r =>
  match r with
  | inr tokens => exists info s,
      was (GetAuthInfoByRefreshToken refresh) (inr info) log /\ IsBlocked info = false /\
      was (UpdateSession s refresh) (inr (tk_SessionId tokens)) log /\ sn_UserId s = Id info /\
      sn_RefreshToken s = tk_RefreshToken tokens
  | inl err => err = GrpcUnknown \/ reported err log \/
      err = GrpcProfileIsBlocked /\ exists x, was (DeleteSession refresh) x log
  end).
Proof.
unfold session_Refresh, session_createSessionEntity, always. legacy.
all: try (left; reflexivity).
all: try (right; left; do 2 eexists; in_log).
- right; right. split; [done|]. eexists. in_log.
- do 2 eexists. split_and!; [in_log|done|in_log|done..].
Qed.

(** The calls that store a password hash, and those that create a profile. *)
Definition stores_password (x : entry) : bool :=
  match x with Entry (SetPasswordHash _ _ | ResetPassword _ _ _) _ => true | _ => false end.
Definition creates_user (x : entry) : bool :=
  match x with Entry (CreateUser _ _ _) _ => true | _ => false end.

(** A sign-up for the address of an activated or blocked profile does nothing but look it up,
  and one for a profile that is neither creates none; the password is never stored but only
  staged behind the confirmation of the address. *)
Theorem SignUp_stages_password credentials pattern :
always (session_SignUp credentials pattern) (fun log r =>
  existsb stores_password log = false /\
  exists answer rest, log = Entry (GetAuthInfoByEmail (su_Email credentials)) answer :: rest /\
  match answer with
  | inr info =>
      if IsActivated info || IsBlocked info then rest = [] /\ r = inr (Id info, IsActivated info)
      else existsb creates_user rest = false /\ (forall id b, r = inr (id, b) -> id = Id info /\ b = false)
  | inl err => not_found err = false -> rest = [] /\ r = inl err
  end).
Proof.
unfold session_SignUp, session_createNewUserData, email_Verify, hash_password, spawn, always.
legacy; (split; [reflexivity|]; do 2 eexists; split; [reflexivity|]).
all: simpl; repeat match goal with E : _ = true |- _ => rewrite E | E : _ = false |- _ => rewrite E end.
all: try naive_solver; bsimp; try congruence.
Qed.

(** *** Sensitive changes *)

(** Authentication times are accepted within five minutes, with half a minute of clock skew. *)
Lemma freshAuthentication_window timestamp now :
  reauth_freshAuthentication timestamp now = true <->
  0 < timestamp /\ Unix now - 300 <= timestamp <= Unix now + 30.
Proof. unfold reauth_freshAuthentication. rewrite !andb_true_iff, !Z.leb_le, Z.ltb_lt. lia. Qed.

(** An identity that Google's token endpoint vouched for. *)
Definition google_vouched (token : string) (u : UserInfoResponse) (log : list entry) : Prop :=
  exists body claims expiration now,
    was (HttpGet ("https://oauth2.googleapis.com/tokeninfo?" +:+ url_Encode [("id_token", token)]) None)
      (Some (200, Some body)) log /\ was TimeNow now log /\
    json_TokenInfo (byte_take body_limit body) = Some claims /\
    ParseInt64 (ti_Expiration claims) = Some expiration /\ Unix now < expiration /\
    ti_Sub claims = ur_UserId u /\ ur_UserId u <> "" /\
    ti_Audience claims = gp_ClientId google /\ gp_ClientId google <> "" /\
    (ti_Issuer claims = "accounts.google.com" \/ ti_Issuer claims = "https://accounts.google.com") /\
    ti_EmailVerified claims = "true" /\ ur_Email u = ti_Email claims /\
    ur_AuthenticatedAt u = ParseInt64_value (ti_AuthTime claims).

Lemma google_vouched_app token u log tail :
  google_vouched token u log -> google_vouched token u (log ++ tail).
Proof. intros (body & claims & ex & now & ? & ? & ?). exists body, claims, ex, now. eauto using was_app. Qed.
Lemma google_vouched_after token u log tail :
  google_vouched token u tail -> google_vouched token u (log ++ tail).
Proof. intros (body & claims & ex & now & ? & ? & ?). exists body, claims, ex, now. eauto using was_after. Qed.

Lemma token_claims_ok_spec claims now : token_claims_ok google claims now = true ->
  exists expiration, ParseInt64 (ti_Expiration claims) = Some expiration /\ Unix now < expiration /\
    ti_Sub claims <> "" /\ gp_ClientId google <> "" /\ ti_Audience claims = gp_ClientId google /\
    (ti_Issuer claims = "accounts.google.com" \/ ti_Issuer claims = "https://accounts.google.com") /\
    ti_EmailVerified claims = "true".
Proof.
  unfold token_claims_ok. destruct (ParseInt64 _) as [ex|]; [|done]. intros E. exists ex. bsimp.
  split_and!; solve [done | lia | naive_solver].
Qed.

Lemma GetUserInfoByIdToken_spec token :
  always (google_GetUserInfoByIdToken google token) (fun log r =>
    untouched log /\ match r with inr u => token <> "" /\ google_vouched token u log | inl _ => True end).
Proof.
  unfold google_GetUserInfoByIdToken, http_body, always. legacy; (split; [reflexivity|try done]).
  bsimp. match goal with E : token_claims_ok _ _ _ = true |- _ =>
    apply token_claims_ok_spec in E as (ex & ? & ? & ? & ? & ? & ? & ?) end.
  split; [done|].
  exists s, t, ex, x0. split_and!; try done; in_log.
Qed.

(** An identity that VK's token endpoint answered with. *)
Definition vk_vouched (code redirect : string) (a : AccessTokenResponse) (log : list entry) : Prop :=
  exists body, was (HttpGet (vk_createGetAccessTokenUrl vk code redirect) None) (Some (200, Some body)) log /\
    json_AccessToken (byte_take body_limit body) = Some a /\ 0 < ar_UserId a /\ ar_AccessToken a <> "".
Lemma vk_vouched_app code redirect a log tail :
  vk_vouched code redirect a log -> vk_vouched code redirect a (log ++ tail).
Proof. intros (body & ? & ? & ?). exists body. eauto using was_app. Qed.
Lemma vk_vouched_after code redirect a log tail :
  vk_vouched code redirect a tail -> vk_vouched code redirect a (log ++ tail).
Proof. intros (body & ? & ? & ?). exists body. eauto using was_after. Qed.

Lemma GetAccessToken_spec code state redirect :
  always (vk_GetAccessToken binding vk code state redirect) (fun log r =>
    untouched log /\
    match r with
    | inr a => vk_vouched code redirect a log /\
        was (ConsumeOAuthState "vk" state redirect binding) (inr tt) log
    | inl _ => True
    end).
Proof.
  unfold vk_GetAccessToken, http_body, always. legacy; (split; [reflexivity|try done]).
  bsimp. match goal with u : () |- _ => destruct u end.
  split; [|in_log]. eexists. split_and!; [in_log|done|lia|done].
Qed.

Lemma untouched_app log tail : untouched log -> untouched tail -> untouched (log ++ tail).
Proof. unfold untouched. intros Hl Ht. by rewrite existsb_app, Hl, Ht. Qed.

(** The evidence a reauthentication accepts, by its method. *)
Definition reauthenticated (id : uuid) (c : Reauthentication) (redirect : string)
    (info : AuthInfoEntity) (log : list entry) : Prop :=
  (re_Method c = "password" /\ re_Password c <> "" /\
     was (ValidatePassword_ (re_Password c) (PasswordHash info)) true log) \/
  (re_Method c = "google" /\ exists u now,
     google_vouched (re_IdToken c) u log /\ GoogleId (OAuth info) = Some (ur_UserId u) /\
     was TimeNow now log /\ reauth_freshAuthentication (ur_AuthenticatedAt u) now = true /\
     was (ConsumeReauthentication id (re_IdToken c)) (inr tt) log) \/
  (re_Method c = "vk" /\ exists a,
     vk_vouched (re_Code c) redirect a log /\ VkId (OAuth info) = Some (ar_UserId a) /\
     was (ConsumeOAuthState "vk" (re_State c) redirect binding) (inr tt) log).

(** C40: a reauthentication succeeds only for an existing, unblocked profile and on evidence of
  the method it names: the profile's password, a fresh ID token of the linked Google identity that
  is consumed, or a code of the linked VK identity. *)
Theorem reauth_Check_proves id c redirect :
always (reauth_Check binding google vk id c redirect) (fun log r =>
  r = inr tt -> exists info,
    was (GetAuthInfoById id) (inr info) log /\ IsBlocked info = false /\
    reauthenticated id c redirect info log).
Proof.
unfold reauth_Check, always. apply wlp_check. cbn [wlp call]. intros [err|info]; [done|].
destruct (IsBlocked info) eqn:Hb; [done|].
repeat match goal with |- wlp (if ?x then _ else _) _ _ => destruct x eqn:?; [|try done] end; try done.
- apply wlp_bind. cbn [wlp call]. intros []; [|done]. intros _. bsimp.
  exists info. split_and!; [by left|done|]. left. split_and!; [done..|in_log].
- bsimp. apply wlp_bind. eapply wlp_always; [apply GetUserInfoByIdToken_spec|].
  intros tail [err|u] [_ Hu]; [by destruct (passed_on err)|]. destruct Hu as [_ Hu].
  destruct (GoogleId (OAuth info) == _) eqn:Hg; [|done]. rewrite beq_true in Hg.
  cbn [wlp call bindP]. intros now.
  destruct (reauth_freshAuthentication _ now) eqn:Hf; [|done]. cbn [wlp call]. intros [|[]]; [done|].
  intros _. exists info. split_and!; [by left|done|]. right; left. split; [done|]. exists u, now.
  split_and!; try done.
  + do 2 apply google_vouched_app. by apply google_vouched_after.
  + apply was_app, was_after. by left.
  + apply was_after. by left.
- apply wlp_bind. eapply wlp_always; [apply GetAccessToken_spec|].
  intros tail [err|a] [_ Ha]; [by destruct (passed_on err)|]. destruct Ha as [Ha Hs].
  destruct (VkId (OAuth info) == _) eqn:Hg; [|done]. intros _. bsimp.
  exists info. split_and!; [by left|done|]. right; right. split; [done|]. exists a.
  split_and!; [by apply (vk_vouched_after _ _ _ [_])|done|by right].
Qed.

(** A password is changed only after the old one was validated, for a profile that is neither
  blocked nor awaiting deletion; otherwise nothing changes at all. *)
Theorem legacy_Change_needs_old_password user old new :
always (password_Change user old new) (fun log r =>
  untouched log \/ exists info,
    was (GetAuthInfoById user) (inr info) log /\ IsBlocked info = false /\
    DeletionTimestamp info = None /\ was (ValidatePassword_ old (PasswordHash info)) true log).
Proof.
unfold password_Change, hash_password, spawn, always. legacy.
all: first [left; reflexivity|right].
all: bsimp; eexists; split_and!; [in_log|done|done|in_log].
Qed.

(** A link to a provider is removed only from a profile that keeps another way to sign in. *)
Definition other_method (google_link : bool) (info : AuthInfoEntity) : Prop :=
  PasswordHash info <> "" \/
  (if google_link then isSome (VkId (OAuth info)) else isSome (GoogleId (OAuth info))) = true.

Lemma hasMultipleSignInMethods_other info b : oauth_hasMultipleSignInMethods info = true ->
  other_method b info.
Proof.
  unfold oauth_hasMultipleSignInMethods, other_method, len. intros Hm. apply Z.ltb_lt in Hm.
  destruct (PasswordHash info); [right|by left].
  destruct b, (isSome (GoogleId _)), (isSome (VkId _)); simpl in *; (done || lia).
Qed.

(** Removing the Google or VK link of a profile never takes its last way to sign in. *)
Theorem legacy_unlink_keeps_method user :
let kept b (log : list entry) (_ : outcome unit) := untouched log \/ exists info,
  was (GetAuthInfoById user) (inr info) log /\ IsBlocked info = false /\
  DeletionTimestamp info = None /\ other_method b info in
always (oauth_DeleteGoogleConnection user) (kept true) /\
always (oauth_DeleteVkConnection user) (kept false).
Proof.
unfold oauth_DeleteGoogleConnection, oauth_DeleteVkConnection, always. split; legacy.
all: first [left; reflexivity|right].
all: bsimp; eexists; split_and!; [in_log|done|done|by apply hasMultipleSignInMethods_other].
Qed.

(** A reset is asked for with the same answer whether or not there is a profile that may have
  one; only an activated, unblocked profile that is not awaiting deletion gets a code by mail. *)
Theorem legacy_RequestReset_uniform email username pattern :
always (password_RequestReset resetPasswordCodeTTL email username pattern) (fun log r =>
  match r with
  | inr _ => untouched log \/ exists info code,
      was (GetAuthInfoByIdentifiers {| ui_UserId := None; ui_Email := email; ui_Username := username |})
        (inr info) log /\ IsActivated info = true /\ IsBlocked info = false /\
      DeletionTimestamp info = None /\
      was (Spawn (MailTask (ResetPasswordMail (Id info) (Email info) (uuid_String code) pattern))) tt log
  | inl err => reported err log
  end).
Proof.
unfold password_RequestReset, spawn, always. legacy.
all: first [left; reflexivity | do 2 eexists; in_log | right].
bsimp. repeat match goal with u : () |- _ => destruct u end.
do 2 eexists. split_and!; [in_log|done|done|done|in_log].
Qed.

(** One dispatch of the mail worker delivers at most 25 mails. *)
Lemma email_deliveries_bound n log :
  wlp (email_deliveries n) log (fun l _ => exists tail, l = log ++ tail /\ (length tail <= n)%nat).
Proof.
  revert log. induction n as [|n IH]; intros log; cbn; [exists []; by rewrite app_nil_r|].
  intros [err|[]]; cbn; try (eexists; split; [reflexivity|simpl; lia]).
  eapply wlp_mono; [apply IH|]. intros l _ (tail & -> & Ht). eexists.
  split; [by rewrite <- app_assoc|]. simpl. lia.
Qed.
Lemma email_Dispatch_bound : always email_Dispatch (fun log _ => (length log <= 26)%nat).
Proof.
  unfold email_Dispatch, always. cbn [wlp bindP call]. intros [err|u]; cbn [wlp]; [simpl; lia|].
  eapply wlp_mono; [apply email_deliveries_bound|]. intros l _ (tail & -> & Ht).
  rewrite length_app. simpl. lia.
Qed.

(** *** Sign-in through a provider *)

(** Signing in with Google gives a session only to an activated, unblocked profile that
  Google's identity is linked to, before or by this very call, or to a profile created for it. *)
Theorem handleGoogle_links_identity g client :
always (session_handleGoogleInfoResponse accessTokenTtl refreshTokenTtl g client) (fun log r =>
  match r with
  | inr tokens => exists info, tk_ProfileId tokens = Id info /\
      ((IsActivated info = true /\ IsBlocked info = false /\
        (GoogleId (OAuth info) = Some (ur_UserId g) \/
         exists b, was (ConnectGoogle (Id info) (ur_UserId g)) (inr b) log)) \/
       (ur_Email g <> "" /\ exists id msg, was (GetAuthInfoById id) (inr info) log /\
        was (CreateUser {| ch_Id := None; ch_Email := ur_Email g; ch_PasswordHash := None |} None
          {| GoogleId := Some (ur_UserId g); VkId := None |}) (inr (id, msg)) log))
  | inl _ => True
  end).
Proof.
unfold session_handleGoogleInfoResponse, always. apply wlp_check.
eapply wlp_mono with (Q := fun _ _ => True).
{ unfold profile_by. legacy; done. }
intros l [err|[info|]] _; [done| |].
- unfold session_signInGoogleWithExistingProfile, session_checkProfileAvailability. apply wlp_check.
  destruct (IsActivated info) eqn:Ha, (IsBlocked info) eqn:Hb; cbn [negb wlp]; try done.
  destruct (_ && _); [done|]. apply wlp_check. destruct (GoogleId (OAuth info) == _) eqn:Hg.
  + rewrite beq_true in Hg. cbn [wlp okP checkP bindP].
    eapply wlp_always; [apply createSession_spec|]. intros tail [err|tokens] Ht; [done|].
    exists info. split; [by destruct Ht|]. left. auto.
  + apply wlp_bind. cbn [wlp call]. intros [err|b]; [by case_match|].
    cbn [wlp okP checkP bindP].
    eapply wlp_always; [apply createSession_spec|]. intros tail [err|tokens] Ht; [done|].
    exists info. split; [by destruct Ht|]. left. split_and!; [done..|]. right. exists b.
    apply was_app, was_after. by left.
- unfold session_signInGoogleWithProfileCreation, spawn. destruct (ur_Email g == "") eqn:He; [done|].
  rewrite beq_false in He. apply wlp_check. cbn [wlp call]. intros [err|[id msg]]; [done|].
  cbn [wlp call bindP checkP fst snd]. intros ? [err|info]; [done|]. cbn [wlp bindP]. intros ?.
  eapply wlp_always; [apply createSession_spec|]. intros tail [err|tokens] Ht; [done|].
  exists info. split; [by destruct Ht|]. right. split; [done|]. exists id, msg.
  split; apply was_app, was_app; [apply was_after; by left|].
  apply was_app, was_app, was_after. by left.
Qed.

(** The answers to HTTP requests of a log. *)
Definition http_answer (x : entry) : option (option (Z * option bytes)) :=
  match x with
  | Entry e a => match e in event X return X -> option (option (Z * option bytes)) with
                 | HttpGet _ _ => fun a => Some a
                 | _ => fun _ => None
                 end a
  end.
Fixpoint http_answers (log : list entry) : list (option (Z * option bytes)) :=
  match log with
  | [] => []
  | x :: log =>
      match http_answer x with Some a => a :: http_answers log | None => http_answers log end
  end.
Definition outage (answer : option (Z * option bytes)) : Prop :=
  match answer with None => True | Some (status, _) => 500 <= status \/ status = 429 end.

(** An outage of Google is reported as one, not as a bad token. *)
Lemma outage_is_unavailable token : token <> "" ->
  always (provider_answer (google_GetUserInfoByIdToken google token)) (fun log r =>
    exists answer, http_answers log = [answer] /\ (outage answer -> r = inl google_unavailable)).
Proof.
  intros Ht. unfold provider_answer, google_GetUserInfoByIdToken, http_body, passed_on, always.
  rewrite (proj2 (beq_false token "") Ht). legacy.
  all: eexists; split; [reflexivity|]; simpl; try done.
  all: intros Ho; exfalso; unfold google_unavailable in *; rewrite ?status_error in *;
    repeat match goal with E : (_ || _) = false |- _ => apply orb_false_iff in E as [? ?] end;
    rewrite ?beq_refl, ?Z.eqb_neq, ?Z.leb_gt, ?negb_beq_false in *; (done || lia).
Qed.
End Facts.

(** ** A run

    Collaborators that know one profile; what is not of interest fails or answers nothing. *)
Definition toy_default {X} (e : event X) : X.
Proof.
  destruct e; first [exact (inl (OtherFail 0)) | exact tt | exact 1000000000 | exact "r"
                    | exact false | exact [] | exact None | exact (inr "")].
Defined.
Definition toy_profile (blocked : bool) : AuthInfoEntity :=
  {| Id := 1%N; Email := "a@b"; Username := None; PasswordHash := "hsecret"; Role := "user";
     RegistrationTimestamp := 0; IsActivated := true; IsBlocked := blocked;
     DeletionTimestamp := None; DeleteSharedData := false; OAuth := no_oauth |}.
Definition toy_collaborators (blocked : bool) (X : Type) (e : event X) (s : list SessionInput)
    : X * list SessionInput :=
  match e in event X return X * list SessionInput with
  | GetAuthInfoByIdentifiers _ => (inr (toy_profile blocked), s)
  | ValidatePassword_ password hash => (hash == "h" +:+ password, s)
  | CreateAccessToken p _ => (inr (py_Email p), s)
  | StoreSession x => (inr 7, x :: s)
  | e => (toy_default e, s)
  end.
#[export] Instance toy_codes : StatusCodes := { status_Code := fun e =>
  match e with StatusError c _ => Some c | GrpcUserNotFound => Some NotFound | _ => None end }.
#[export] Instance toy_status_laws : StatusLaws.
Proof. by split. Qed.
#[export] Instance toy_legacy_libraries : LegacyLibraries := {
  json_TokenInfo := fun _ => None; json_UserInfo := fun _ => None; json_AccessToken := fun _ => None;
  ua_Mobile := fun _ => false; ua_Model := fun _ => ""; ua_Browser := fun _ => ("", "");
  ua_OS := fun _ => ""; PlanFree := "free" }.

Definition toy_sign_in (blocked : bool) (password : string) : outcome TokensEntity * list SessionInput :=
  runP (toy_collaborators blocked)
    (session_SignIn false Minute Hour
      {| si_Email := Some "a@b"; si_Username := None; si_Password := password |}
      {| cd_Ip := "::1"; cd_UserAgent := "ua" |}) [].
Example sign_in_runs :
  (match (toy_sign_in false "secret").1 with inr t => Some (tk_SessionId t) | inl _ => None end) = Some 7 /\
  map sn_UserId (toy_sign_in false "secret").2 = [1%N] /\
  toy_sign_in true "wrong" = (inl GrpcInvalidCredentials, []) /\
  toy_sign_in true "secret" = (inl GrpcProfileIsBlocked, []).
Proof. split_and!; vm_compute; reflexivity. Qed.
