(* ===== verification/LegacyTransport.v ===== *)
(** internal/transport/grpc with its dto and query packages, and pkg/ip: the handlers of the
    previous API over the services of LegacyServices. A definition [AuthServer_X] is the method X
    of AuthServer; its arguments are the fields of the request it reads. *)
From S2P Require Import Prelude GoLib Usernames Secrets Server ProviderAdapters LegacyReads Configuration LegacyProgram LegacyServices LegacyFacts.
#[local] Open Scope string_scope.
#[local] Open Scope Z_scope.
#[local] Open Scope list_scope.
#[local] Open Scope legacy_scope.

(** ** Refusals: those of the handlers and validators, and those of the services *)
Inductive Refusal :=
| GrpcInvalidEmail
| PasswordRefused (e : password_error)
| UsernameRefused (e : username_error)
| ServiceRefused (e : Fail).

Definition answerR (A : Type) : Type := (Refusal + A)%type.
Definition refuseR {A} (e : Refusal) : prog (answerR A) := Done (inl e).
(** [value, err := service(); if err != nil { return nil, err }; return response(value), nil] *)
Definition respond {A B} (p : prog (outcome A)) (f : A -> B) : prog (answerR B) :=
  r <~ p;;
  Done (match r with inr a => inr (f a) | inl e => inl (ServiceRefused e) end).

(** ** Responses *)
Record SessionResponse := {
  sr_ProfileId : string;
  sr_SessionId : Z;
  sr_DeleteSharedData : bool;
  sr_AccessToken : string;
  sr_RefreshToken : string;
  sr_ExpirationTimestamp : time;
  sr_ProfileDeletionTimestamp : option time;
}.
Record ApiSession := {
  as_Id : Z;
  as_Client : SessionClient;
  as_Ip : string;
  as_AccessPoint : string;
  as_Mobile : bool;
  as_AccessTime : time;
  as_Location : string;
}.
Record ApiReauthentication := {
  api_Method : string;
  api_Password : string;
  api_IdToken : string;
  api_Code : string;
  api_State : string;
}.

(** ** net/url.QueryUnescape *)
Definition unhex (c : ascii) : option N :=
  if in_range "0" "9" c then Some (byte_code c - 48)%N
  else if in_range "a" "f" c then Some (byte_code c - 97 + 10)%N
  else if in_range "A" "F" c then Some (byte_code c - 65 + 10)%N
  else None.
Fixpoint QueryUnescape (s : string) : option string :=
  match s with
  | EmptyString => Some ""
  | String "%" rest =>
      match rest with
      | String a (String b rest) =>
          match unhex a, unhex b, QueryUnescape rest with
          | Some x, Some y, Some r => Some (String (ascii_of_N (x * 16 + y)) r)
          | _, _, _ => None
          end
      | _ => None
      end
  | String "+" rest => option_map (String " ") (QueryUnescape rest)
  | String c rest => option_map (String c) (QueryUnescape rest)
  end.
(** query.Decode *)
Definition query_Decode (query : string) : string :=
  match QueryUnescape query with Some decoded => decoded | None => query end.

Example query_decoded : map query_Decode ["4%2F0Ab+c"; "100%"; "%zz"] = ["4/0Ab c"; "100%"; "%zz"].
Proof. reflexivity. Qed.

(** sort.Slice by a comparison of elements: a stable insertion. (Where the comparison is a strict
    order the result is the sorted slice; where it is never true no element moves.) *)
Fixpoint insert_less {A} (less : A -> A -> bool) (x : A) (l : list A) : list A :=
  match l with
  | [] => [x]
  | y :: l => if less x y then x :: y :: l else y :: insert_less less x l
  end.
Definition sort_Slice {A} (less : A -> A -> bool) (l : list A) : list A :=
  fold_left (fun sorted x => insert_less less x sorted) l [].

(** ** dto *)
Section Dto.
Context `{Platform}.
(** The text of a protobuf timestamp. *)
Context (timestamp_String : time -> string).

Definition NewGetAuthInfoResponse (info : AuthInfoEntity) : AuthInfo :=
  {| ai_Id := uuid_String (Id info); ai_Email := Email info; ai_Username := Username info;
     ai_Role := Role info; ai_RegistrationTimestamp := RegistrationTimestamp info;
     ai_IsActivated := IsActivated info; ai_IsBlocked := IsBlocked info;
     ai_OAuth := if isSome (GoogleId (OAuth info)) || isSome (VkId (OAuth info))
                 then Some {| oi_GoogleId := GoogleId (OAuth info); oi_VkId := VkId (OAuth info) |}
                 else None;
     ai_DeletionTimestamp := DeletionTimestamp info |}.

Definition api_session (info : SessionInfoEntity) : ApiSession :=
  {| as_Id := ss_SessionId info; as_Client := ss_Client info; as_Ip := ss_Ip info;
     as_AccessPoint := ss_AccessPoint info; as_Mobile := ss_Mobile info;
     as_AccessTime := ss_AccessTime info; as_Location := ss_Location info |}.

(** Go's [a > b] on strings. *)
Definition string_gt (a b : string) : bool := String.ltb b a.
(** The comparison as it is written: both sides are session i. *)
Definition sessions_less (x _ : ApiSession) : bool :=
  string_gt (timestamp_String (as_AccessTime x)) (timestamp_String (as_AccessTime x)).
Definition NewGetSessionsResponse (infos : list SessionInfoEntity) : list ApiSession :=
  sort_Slice sessions_less (map api_session infos).

Definition NewSessionResponse (t : TokensEntity) : SessionResponse :=
  {| sr_ProfileId := uuid_String (tk_ProfileId t); sr_SessionId := tk_SessionId t;
     sr_DeleteSharedData := tk_DeleteSharedData t; sr_AccessToken := tk_AccessToken t;
     sr_RefreshToken := tk_RefreshToken t; sr_ExpirationTimestamp := tk_ExpirationTimestamp t;
     sr_ProfileDeletionTimestamp := tk_DeletionTimestamp t |}.
End Dto.

Definition reauthenticationInput (c : option ApiReauthentication) : Reauthentication :=
  match c with
  | None => {| re_Method := ""; re_Password := ""; re_IdToken := ""; re_Code := ""; re_State := "" |}
  | Some c => {| re_Method := api_Method c; re_Password := api_Password c;
                 re_IdToken := api_IdToken c; re_Code := api_Code c; re_State := api_State c |}
  end.

(** A request field that is absent when empty. *)
Definition given (s : string) : option string := if s == "" then None else Some s.

(** ** The handlers *)
Section Handlers.
Context `{Platform} `{Remote} `{StatusCodes} `{LegacyLibraries}.
Context (google : GoogleProvider) (vk : VkProvider) (firebase : bool)
  (accessTokenTtl refreshTokenTtl resetPasswordCodeTTL : duration)
  (usernameValidator : Validator) (fold : string -> string -> bool)
  (timestamp_String : time -> string).

(** [id, err := uuid.Parse(raw); if err != nil { return nil, fail.GrpcInvalidBody }] *)
Definition with_uuid {A} (raw : string) (k : uuid -> prog (answerR A)) : prog (answerR A) :=
  match uuid_Parse raw with None => refuseR (ServiceRefused GrpcInvalidBody) | Some id => k id end.
Definition with_password {A} (password : string) (k : prog (answerR A)) : prog (answerR A) :=
  match ValidatePassword password with Some e => refuseR (PasswordRefused e) | None => k end.
Definition with_email {A} (email : string) (k : prog (answerR A)) : prog (answerR A) :=
  if ValidateEmail email then k else refuseR GrpcInvalidEmail.
Definition with_valid_username {A} (name : string) (k : prog (answerR A)) : prog (answerR A) :=
  match Validate usernameValidator name with Some e => refuseR (UsernameRefused e) | None => k end.

(** *** session.go *)
Definition AuthServer_SignUp (id email password pattern : string) : prog (answerR (string * bool)) :=
  with_email email (with_password password (
    respond (session_SignUp {| su_Id := uuid_Parse id; su_Email := email; su_Password := password |} pattern)
      (fun r => (uuid_String r.1, r.2)))).
Definition AuthServer_ActivateProfile (id code : string) : prog (answerR string) :=
  with_uuid id (fun id => respond (session_ActivateProfile id code) (fun _ => "profile activated")).
Definition AuthServer_SignIn (email username password ip agent : string) : prog (answerR SessionResponse) :=
  if (len email =? 0) && (len username =? 0) then refuseR (ServiceRefused GrpcInvalidBody) else
  respond (session_SignIn firebase accessTokenTtl refreshTokenTtl
    {| si_Email := given email; si_Username := given username; si_Password := password |}
    {| cd_Ip := ip; cd_UserAgent := agent |}) NewSessionResponse.
(** The service's half and the handler's. *)
Definition session_GetAccessTokenPublicKey `{TokenKeys} (m : Manager) : bytes := manager_public m.
Definition AuthServer_GetAccessTokenPublicKey `{TokenKeys} (m : Manager) : prog (answerR bytes) :=
  Done (inr (session_GetAccessTokenPublicKey m)).
Definition AuthServer_RefreshSession (refresh ip agent : string) : prog (answerR SessionResponse) :=
  respond (session_Refresh accessTokenTtl refreshTokenTtl refresh ip agent) NewSessionResponse.
Definition AuthServer_SignOut (refresh : string) : prog (answerR string) :=
  respond (session_SignOut refresh) (fun _ => "session closed").
Definition AuthServer_GetAuthInfo (id email username : string) : prog (answerR AuthInfo) :=
  if (len id =? 0) && (len email =? 0) && (len username =? 0) then refuseR (ServiceRefused GrpcInvalidBody) else
  respond (session_GetAuthInfo
    {| ui_UserId := uuid_Parse id; ui_Email := given email; ui_Username := given username |})
    NewGetAuthInfoResponse.
Definition AuthServer_GetSessions (id : string) : prog (answerR (list ApiSession)) :=
  with_uuid id (fun id => respond (session_GetAll id) (NewGetSessionsResponse timestamp_String)).
Definition AuthServer_EndSessions (id : string) (sessions : list Z) : prog (answerR string) :=
  with_uuid id (fun id => respond (session_DeleteMultiple id sessions) (fun _ => "sessions deleted")).

(** *** email.go *)
Definition AuthServer_StartEmailBinding (user purpose email pattern redirect binding : string)
    (credentials : option ApiReauthentication) : prog (answerR unit) :=
  let email := TrimSpace email in
  with_email email (
    if purpose == "verify" then respond (email_Verify email pattern None) id
    else if purpose == "change" then
      with_uuid user (fun user =>
        respond (email_Change binding google vk fold user email pattern redirect
          (reauthenticationInput credentials)) id)
    else refuseR (ServiceRefused GrpcInvalidBody)).
Definition AuthServer_ConfirmEmailBinding (token pattern : string) : prog (answerR EmailConfirmation) :=
  if token == "" then refuseR (ServiceRefused GrpcInvalidBody) else respond (email_Confirm token pattern) id.

(** *** oauth.go *)
Definition flow_TTL : duration := 10 * Minute.
Definition link_answer (link : prog (outcome string)) : prog (answerR (string * time)) :=
  r <~ link;;
  match r with
  | inl e => refuseR (ServiceRefused e)
  | inr link => now <~ call TimeNow;; Done (inr (link, now + flow_TTL))
  end.
Definition AuthServer_RequestGoogleOAuth (redirect binding : string) : prog (answerR (string * time)) :=
  link_answer (oauth_GenerateGoogleLink binding google redirect).
Definition AuthServer_SignInGoogle (code state redirect binding ip agent : string)
    : prog (answerR SessionResponse) :=
  respond (session_SignInGoogle binding accessTokenTtl refreshTokenTtl
    {| oa_Code := query_Decode code; oa_State := state |} {| cd_Ip := ip; cd_UserAgent := agent |}
    redirect) NewSessionResponse.
Definition AuthServer_SignInGoogleToken (token ip agent : string) : prog (answerR SessionResponse) :=
  respond (session_SignInGoogleIdToken google accessTokenTtl refreshTokenTtl token
    {| cd_Ip := ip; cd_UserAgent := agent |}) NewSessionResponse.
Definition AuthServer_ConnectGoogle (id token code state redirect binding : string)
    : prog (answerR bool) :=
  with_uuid id (fun user =>
    if token != "" then
      if (code != "") || (state != "") then refuseR (ServiceRefused GrpcInvalidBody)
      else respond (oauth_ConnectGoogleToken google user token) (fun b => b)
    else if (code == "") || (state == "") then refuseR (ServiceRefused GrpcInvalidBody)
    else respond (oauth_ConnectGoogle binding user code state redirect) (fun b => b)).
Definition AuthServer_DeleteGoogleConnection (id : string) : prog (answerR string) :=
  with_uuid id (fun user => respond (oauth_DeleteGoogleConnection user)
    (fun _ => "Google connection deleted")).
Definition AuthServer_RequestVkOAuth (display responseType redirect binding : string)
    : prog (answerR (string * time)) :=
  link_answer (oauth_GenerateVkLink binding vk display responseType redirect).
Definition AuthServer_SignInVk (code state redirect binding ip agent : string)
    : prog (answerR SessionResponse) :=
  respond (session_SignInVk binding vk accessTokenTtl refreshTokenTtl
    {| oa_Code := query_Decode code; oa_State := state |} {| cd_Ip := ip; cd_UserAgent := agent |}
    redirect) NewSessionResponse.
Definition AuthServer_ConnectVk (id code state redirect binding : string) : prog (answerR bool) :=
  with_uuid id (fun user => respond (oauth_ConnectVk binding vk user code state redirect) (fun b => b)).
Definition AuthServer_DeleteVkConnection (id : string) : prog (answerR string) :=
  with_uuid id (fun user => respond (oauth_DeleteVkConnection user) (fun _ => "VK connection deleted")).

(** *** password.go *)
Definition AuthServer_RequestPasswordReset (email username pattern : string) : prog (answerR string) :=
  if (len email =? 0) && (len username =? 0) then refuseR (ServiceRefused GrpcInvalidBody) else
  respond (password_RequestReset resetPasswordCodeTTL (given email) (given username) pattern)
    (fun _ => "if the profile exists, reset link has been sent").
Definition AuthServer_ResetPassword (id token code password : string) : prog (answerR string) :=
  with_password password (
    if token == "" then
      with_uuid id (fun user => respond (password_Reset user code password) (fun _ => "password reset"))
    else respond (password_Reset uuid_Nil token password) (fun _ => "password reset")).
Definition AuthServer_ChangePassword (id old password : string) : prog (answerR string) :=
  with_password password (
    with_uuid id (fun user => respond (password_Change user old password) (fun _ => "password changed"))).

(** *** profile_deletion.go *)
Definition AuthServer_GetProfileDeletionStatus (id : string) : prog (answerR DeletionStatus) :=
  with_uuid id (fun user =>
    r <~ deletion_GetInfo user;;
    Done (inr {| ds_DeletionTimestamp := r.1; ds_Deleted := r.2 |})).
Definition deletion_answer (r : DeleteProfileRequest) : time * bool := (dr_Timestamp r, dr_WithSharedData r).
Definition AuthServer_DeleteProfile (id password redirect binding : string) (shared : bool)
    (credentials : option ApiReauthentication) : prog (answerR (time * bool)) :=
  with_uuid id (fun user =>
    let c := match credentials with
             | None => {| re_Method := "password"; re_Password := password; re_IdToken := "";
                          re_Code := ""; re_State := "" |}
             | Some _ => reauthenticationInput credentials
             end in
    respond (deletion_Request binding google vk user c shared redirect) deletion_answer).
Definition AuthServer_CancelProfileDeletion (id : string) : prog (answerR string) :=
  with_uuid id (fun user => respond (deletion_Cancel user) (fun _ => "delete profile request canceled")).
Definition AuthServer_UpdateProfileDeletion (id : string) (shared : bool) : prog (answerR (time * bool)) :=
  with_uuid id (fun user => respond (deletion_Update user shared) deletion_answer).

(** *** username.go *)
Definition AuthServer_GetVisibleNames (ids : list string) : prog (answerR (gmap string string)) :=
  respond (username_Get (omap uuid_Parse ids))
    (fun names => list_to_map (map (fun p => (uuid_String p.1, p.2)) names)).
Definition AuthServer_CheckUsernameAvailability (name : string) : prog (answerR bool) :=
  with_valid_username name (respond (username_CheckAvailability name) (fun b => b)).
Definition AuthServer_SetUsername (id name : string) : prog (answerR string) :=
  with_uuid id (fun user => with_valid_username name (
    respond (username_Set user name) (fun _ => "username set"))).
End Handlers.

(** ** pkg/ip *)
Record freeApiIpResponse := { CountryName : string; CityName : string; RegionName : string }.
Section Ip.
Context (json_IpInfo : bytes -> option freeApiIpResponse).
Definition addFormattedLocationInfo (str info : string) : string :=
  if 0 <? len info then (if 0 <? len str then str +:+ ", " else str) +:+ info else str.
Definition createLocationStr (info : freeApiIpResponse) : string :=
  addFormattedLocationInfo (addFormattedLocationInfo (addFormattedLocationInfo ""
    (CityName info)) (RegionName info)) (CountryName info).
Definition getIpInfo (ip : string) : prog (outcome freeApiIpResponse) :=
  res <~ call (HttpGet ("https://freeipapi.com/api/json/" +:+ ip) None);;
  match res with
  | None => errP (Plain "http")
  | Some (status, body) =>
      if status != 200 then errP (Plain "error Free IP API server response") else
      match body with
      | None => errP (Plain "read body")
      | Some body => match json_IpInfo body with Some info => okP info | None => errP (Plain "json") end
      end
  end.
Definition FreeIpApi_GetLocation (ip : string) : prog string :=
  r <~ getIpInfo ip;;
  Done (match r with inr info => createLocationStr info | inl _ => "" end).
End Ip.

(** ** Facts *)
Lemma insert_less_never {A} (less : A -> A -> bool) x l :
  (forall y, less x y = false) -> insert_less less x l = l ++ [x].
Proof. intros Hl. induction l as [|y l IH]; simpl; [done|]. by rewrite Hl, IH. Qed.

Lemma sort_Slice_never {A} (less : A -> A -> bool) l :
  (forall x y, less x y = false) -> sort_Slice less l = l.
Proof.
  intros Hl. unfold sort_Slice. rewrite <- (app_nil_l l) at 2. generalize (@nil A).
  induction l as [|x l IH]; intros acc; simpl; [by rewrite app_nil_r|].
  rewrite (insert_less_never _ _ _ (Hl x)), IH. by rewrite <- app_assoc.
Qed.

(** The sessions are listed in the order the repository returns them, whatever their access times:
    the comparison given to sort.Slice compares a session with itself. *)
Lemma NewGetSessionsResponse_unsorted timestamp_String infos :
  NewGetSessionsResponse timestamp_String infos = map api_session infos.
Proof.
  apply sort_Slice_never. intros x y. unfold sessions_less, string_gt, String.ltb.
  match goal with |- context [String.compare ?s ?s] => pose proof (String.compare_antisym s s) as E end.
  by destruct (String.compare _ _).
Qed.

Section Facts.
Context `{Platform} `{Remote} `{StatusCodes} `{LegacyLibraries}.
Context (google : GoogleProvider) (vk : VkProvider).

(** No user name can be set through the previous API: its validator refuses every one. *)
Lemma AuthServer_SetUsername_refuses file id name :
  match file with None => True | Some text => exists s, text = s +:+ String newline "" end ->
  exists e, AuthServer_SetUsername (NewValidator file) id name = refuseR e.
Proof.
  intros Hf. unfold AuthServer_SetUsername, with_uuid, with_valid_username.
  destruct (uuid_Parse id); [|eauto].
  pose proof (Validate_accepts_none file name Hf) as Hv. destruct (Validate _ name); [eauto|done].
Qed.

(** A password the validator refuses is handed to no service. *)
Lemma refused_password_calls_nothing {A} password (k : prog (answerR A)) e :
  ValidatePassword password = Some e -> with_password password k = refuseR (PasswordRefused e).
Proof. unfold with_password. by intros ->. Qed.

(** Without credentials a deletion is authorised by the profile's password alone. *)
Lemma AuthServer_DeleteProfile_needs_password id password redirect binding shared :
  always (AuthServer_DeleteProfile google vk id password redirect binding shared None) (fun log r =>
    match r with
    | inr _ => exists info, was (ValidatePassword_ password (PasswordHash info)) true log
    | inl _ => True
    end).
Proof.
  unfold AuthServer_DeleteProfile, with_uuid, respond, deletion_Request, spawn, always.
  destruct (uuid_Parse id) as [user|]; [|done]. apply wlp_bind, wlp_check.
  unfold reauth_Check. cbn -[wlp]. legacy; try done; bsimp; try done.
  all: eexists; in_log.
Qed.

(** A location names only what is known. *)
Lemma createLocationStr_cases city region country :
  createLocationStr {| CountryName := country; CityName := city; RegionName := region |} =
  String.concat ", " (List.filter (fun s => 0 <? len s) [city; region; country]).
Proof.
  unfold createLocationStr, addFormattedLocationInfo. simpl.
  destruct city, region, country; simpl; try done; by rewrite ?string_app_nil, ?string_app_assoc.
Qed.
End Facts.
