(* ===== verification/LegacyResponses.v ===== *)
(** internal/entity/fail/responses.go: the errors of the previous generation as the responses they
    are, with the constructor of the common module that makes each, its type and its text. *)
From S2P Require Import Prelude GoLib Usernames LegacyProgram LegacyTransport.
#[local] Open Scope string_scope.

(** The constructors of the common module's package fail, which give the gRPC code. *)
Inductive response :=
| CreateGrpcServer (type msg : string)
| CreateGrpcClient (type msg : string)
| CreateGrpcAccessDenied (type msg : string)
| CreateGrpcConflict (type msg : string)
| CreateGrpcNotFound (type msg : string).
(** Its types of errors. *)
Class FailTypes : Type := {
  TypeUnknown : string;
  TypeInvalidBody : string;
  TypeNotFound : string;
}.

Definition typeInvalidCredentials : string := "invalid_credentials".
Definition typeProfileNotActivated : string := "profile_not_activated".
Definition typeInvalidActivationCode : string := "invalid_activation_code".
Definition typeProfileExists : string := "profile_exists".
Definition typeProfileBlocked : string := "profile_blocked".
Definition typeUsernameOccupied : string := "username_occupied".
Definition typeAccountOccupied : string := "account_occupied".
Definition typeFewSignInMethods : string := "few_sign_in_methods".

Section Responses.
Context `{FailTypes}.

(** [None]: errors of other packages. *)
Definition fail_response (f : Fail) : option response :=
  match f with
  | GrpcUnableCreateProfile => Some (CreateGrpcServer TypeUnknown "unable to create profile")
  | GrpcProfileNotActivated => Some (CreateGrpcAccessDenied typeProfileNotActivated
      "profile not activated. check your email")
  | GrpcInvalidActivationCode =>
      Some (CreateGrpcClient typeInvalidActivationCode "invalid activation code")
  | GrpcInvalidCredentials => Some (CreateGrpcClient typeInvalidCredentials "invalid credentials")
  | GrpcFewSignInMethods => Some (CreateGrpcConflict typeFewSignInMethods
      "if you disable this sign in method, you'll not be able to sign in your profile")
  | GrpcInvalidCode => Some (CreateGrpcClient TypeInvalidBody "code is invalid")
  | GrpcAccountOccupied => Some (CreateGrpcConflict typeAccountOccupied
      "this OAuth profile already connected to different ChefBook Profile")
  | GrpcEmailRequired =>
      Some (CreateGrpcClient TypeInvalidBody "email access is required to complete registration")
  | GrpcProfileIsBlocked => Some (CreateGrpcAccessDenied typeProfileBlocked "profile is blocked")
  | GrpcInvalidRefreshToken =>
      Some (CreateGrpcClient "invalid_refresh_token" "invalid refresh token")
  | GrpcReauthentication =>
      Some (CreateGrpcAccessDenied "invalid_credentials" "reauthentication failed")
  | GrpcAccountDeleting => Some (CreateGrpcConflict "account_deleting" "account pending deletion")
  | GrpcDeletionExpired =>
      Some (CreateGrpcConflict "account_deletion_expired" "account deletion deadline passed")
  | GrpcDeletionNotFound =>
      Some (CreateGrpcNotFound "account_deletion_not_found" "account deletion request not found")
  | GrpcUserNotFound => Some (CreateGrpcNotFound TypeNotFound "user not found")
  | GrpcActivationLinkNotFound => Some (CreateGrpcNotFound TypeNotFound "activation link not found")
  | GrpcInvalidResetPasswordCode =>
      Some (CreateGrpcClient TypeInvalidBody "invalid password reset code")
  | GrpcUsernameOccupied =>
      Some (CreateGrpcConflict typeUsernameOccupied "this username already occupied")
  | GrpcUnknown | GrpcInvalidBody | GrpcNotFound | GrpcConflict _ _ | StatusError _ _ | Plain _
  | FirebaseInvalidCredentials | OtherFail _ => None
  end.

Definition GrpcInvalidEmail_response : response := CreateGrpcClient TypeInvalidBody "email is invalid".
Definition password_response (e : password_error) : response :=
  CreateGrpcClient TypeInvalidBody
    match e with
    | GrpcPasswordTooShort => "password must contain at least 8 symbols"
    | GrpcPasswordTooLong => "password must contain maximum 64 symbols"
    | GrpcPasswordForbiddenSymbols => "password contains forbidden symbols"
    | GrpcPasswordNoLower => "password must contain at least 1 lower letter"
    | GrpcPasswordNoUpper => "password must contain at least 1 upper letter"
    | GrpcPasswordNoNumber => "password must contain at least 1 number"
    end.
Definition username_response (e : username_error) : response :=
  CreateGrpcClient TypeInvalidBody
    match e with
    | GrpcUsernameTooShort => "username must contain at least 5 symbols"
    | GrpcUsernameTooLong => "username must contain maximum 64 symbols"
    | GrpcUsernameId => "username must not be UUID"
    | GrpcUsernameStartLetter => "username must starts with latin letter"
    | GrpcUsernameEndLetter => "username must ends with latin letter or number"
    | GrpcUsernameForbiddenSymbols => "username must contain only latin letters, numbers and '_'"
    | GrpcUsernameForbiddenWord => "username contains forbidden word"
    | GrpcUsernameDoubleUnderscore => "username must contain no more than 1 underscore in a row"
    end.
(** The responses no code uses. *)
Definition GrpcInvalidPassword : response := CreateGrpcClient TypeInvalidBody "password is invalid".
Definition GrpcUserAlreadyExists : response :=
  CreateGrpcClient typeProfileExists "user with such email already exists".
Definition GrpcSessionNotFound : response := CreateGrpcNotFound TypeNotFound "session not found".

(** Different errors are different responses, whatever the types of the common module are called:
    a client can tell them apart, and the reason of a refused password or name is stated. *)
Lemma fail_response_inj f g r : fail_response f = Some r -> fail_response g = Some r -> f = g.
Proof. destruct f; intros [= <-]; destruct g; by intros [=]. Qed.
Lemma password_response_inj e f : password_response e = password_response f -> e = f.
Proof. destruct e, f; by intros [=]. Qed.
Lemma username_response_inj e f : username_response e = username_response f -> e = f.
Proof. destruct e, f; by intros [=]. Qed.
End Responses.
