(* ===== verification/LegacyDatabase.v ===== *)
(** database/sql as the repository of the previous generation uses it: statements with their
    arguments and answers as events, and what of a run takes effect. The tables behind the
    statements, defined in migrations/sql, have no model: a statement may answer anything of the
    types it is scanned into, which allows more than their constraints do. What is modelled is which statements are made, in which transaction, and which of
    them the database keeps. Statements are written as in the code, white space aside. *)
From S2P Require Import Prelude GoLib LegacyProgram.
#[local] Open Scope string_scope.
#[local] Open Scope Z_scope.
#[local] Open Scope list_scope.
#[local] Open Scope legacy_scope.

(** ** Statements *)

(** An argument of a statement. *)
Inductive arg :=
| AId (u : uuid)
| AText (s : string)
| AOptText (s : option string)
| AInt (n : Z)
| AOptInt (n : option Z)
| ABool (b : bool)
| ATime (t : time)
| AIds (us : list uuid)
| AInts (ns : list Z).

(** The destination of a Scan: the type of the variable, pointers being optional. *)
Inductive dest := TId | TText | TOptText | TInt | TOptInt | TBool | TTime | TOptTime.
Definition scanned (d : dest) : Set :=
  match d with
  | TId => uuid
  | TText => string
  | TOptText => option string
  | TInt => Z
  | TOptInt => option Z
  | TBool => bool
  | TTime => time
  | TOptTime => option time
  end.
Fixpoint row (ds : list dest) : Set :=
  match ds with [] => unit | d :: ds => scanned d * row ds end.

(** A statement runs on the pool or in the open transaction. *)
Inductive target := Pool | Tx.
#[export] Instance target_eq_dec : EqDecision target.
Proof. solve_decision. Defined.

(** Errors are those of GoLib. A failed Scan is an error of QueryRow; in a loop over rows it is
    seen row by row ([None]), and the boolean says that Rows.Err reported an error at the end. *)
Inductive dbevent : Type -> Type :=
| BeginTx : dbevent (error + unit)
| Commit : dbevent (error + unit)
| Rollback : dbevent unit
| QueryRow (on : target) (query : string) (args : list arg) (ds : list dest) : dbevent (error + row ds)
| QueryRows (query : string) (args : list arg) (ds : list dest) :
    dbevent (error + list (option (row ds)) * bool)
| Exec (on : target) (query : string) (args : list arg) : dbevent (error + option Z)  (* RowsAffected *)
| NewUUID : dbevent uuid
| RandRead (n : nat) : dbevent (option bytes)
| Now : dbevent time
| Outside {X : Type} (e : event X) : dbevent X.
Abbreviation dbprog := (tree dbevent).
Abbreviation dbentry := (entry_of dbevent).

(** ** Transactions

    [track log] follows the transaction of a run: it is [None] once a statement was made in a
    transaction that is not open, a second one was begun or the pool was used while one is open.
    After Commit the transaction is over whatever it answered, and Rollback does nothing. *)
Inductive tx := Closed | Open.
#[export] Instance tx_eq_dec : EqDecision tx.
Proof. solve_decision. Defined.

Definition tx_next (s : tx) (x : dbentry) : option tx :=
  match x with
  | Entry e a =>
      match e in dbevent X return X -> option tx with
      | BeginTx => fun a =>
          match s with Open => None | Closed => Some (if a then Closed else Open) end
      | Commit => fun _ => match s with Open => Some Closed | Closed => None end
      | Rollback => fun _ => Some Closed
      | QueryRow on _ _ _ => fun _ => if on == (if s then Pool else Tx) then Some s else None
      | Exec on _ _ => fun _ => if on == (if s then Pool else Tx) then Some s else None
      | QueryRows _ _ _ => fun _ => match s with Open => None | Closed => Some Closed end
      | _ => fun _ => Some s
      end a
  end.
Fixpoint track (s : tx) (log : list dbentry) : option tx :=
  match log with
  | [] => Some s
  | x :: log => match tx_next s x with Some s => track s log | None => None end
  end.

(** The program uses transactions as it should and leaves none open. *)
Definition closes {A} (p : dbprog A) : Prop := always p (fun log _ => track Closed log = Some Closed).

(** ** What the database keeps

    A statement that answered and is no SELECT is a write, even if no row met its condition: kept
    at once on the pool, in a transaction kept when Commit succeeds. *)
Definition write : Type := string * list arg.
Definition is_select (query : string) : bool := HasPrefix query "SELECT".
Record store := { st_kept : list write; st_pending : list write }.
Definition empty_store : store := {| st_kept := []; st_pending := [] |}.

Definition add_write (on : target) (w : write) (s : store) : store :=
  match on with
  | Pool => {| st_kept := st_kept s ++ [w]; st_pending := st_pending s |}
  | Tx => {| st_kept := st_kept s; st_pending := st_pending s ++ [w] |}
  end.
Definition store_next (s : store) (x : dbentry) : store :=
  match x with
  | Entry e a =>
      match e in dbevent X return X -> store with
      | BeginTx => fun _ => {| st_kept := st_kept s; st_pending := [] |}
      | Commit => fun a =>
          {| st_kept := if a then st_kept s else st_kept s ++ st_pending s; st_pending := [] |}
      | Rollback => fun _ => {| st_kept := st_kept s; st_pending := [] |}
      | QueryRow on query args _ => fun a =>
          if a then s else if is_select query then s else add_write on (query, args) s
      | Exec on query args => fun a => if a then s else add_write on (query, args) s
      | _ => fun _ => s
      end a
  end.
Definition run_store (s : store) (log : list dbentry) : store := fold_left store_next log s.
(** The writes of a run that the database keeps, in their order. *)
Definition kept (log : list dbentry) : list write := st_kept (run_store empty_store log).

(** ** Runs one after another *)
Lemma track_app s log tail :
  track s (log ++ tail) = match track s log with Some s => track s tail | None => None end.
Proof.
  revert s. induction log as [|x log IH]; intros s; simpl; [done|].
  by destruct (tx_next s x) as [s'|].
Qed.

Lemma closes_bind {A B} (p : dbprog A) (k : A -> dbprog B) :
  closes p -> (forall a, closes (k a)) -> closes (bindP p k).
Proof.
  intros Hp Hk. unfold closes, always. apply wlp_bind. eapply wlp_mono; [exact Hp|].
  intros log a Ha. eapply wlp_always; [apply Hk|]. intros tail b Hb.
  by rewrite track_app, Ha.
Qed.

(** ** Interpretation: events answered by programs *)
Fixpoint interpret {E F : Type -> Type} (h : forall X, E X -> tree F X) {A} (p : tree E A) : tree F A :=
  match p with
  | Done a => Done a
  | Call e k => bindP (h _ e) (fun x => interpret h (k x))
  end.

(** Programs over implementations that close their transactions close theirs. *)
Lemma interpret_closes {E : Type -> Type} (h : forall X, E X -> dbprog X) {A} (p : tree E A) :
  (forall X (e : E X), closes (h X e)) -> closes (interpret h p).
Proof.
  intros Hh. induction p as [a|X e k IH]; cbn; [reflexivity|]. by apply closes_bind.
Qed.
