(* ===== verification/LegacyRepository.v ===== *)
(** internal/repository/postgres: the repository of the previous generation, each method as the
    statements it makes. A definition [repo_X] is the method X of Repository, the other definitions
    have the names of their functions. Log calls are left out. *)
From S2P Require Import Prelude GoLib LegacyProgram LegacyServices LegacyDatabase.
#[local] Open Scope string_scope.
#[local] Open Scope Z_scope.
#[local] Open Scope list_scope.
#[local] Open Scope legacy_scope.

(** ** encoding/json of a string, and encoding/hex *)
Definition hex_digit (n : N) : ascii := ascii_of_N (if (n <? 10)%N then 48 + n else 87 + n)%N.
Fixpoint hex_EncodeToString (s : bytes) : string :=
  match s with
  | EmptyString => ""
  | String c s =>
      String (hex_digit (byte_code c / 16)) (String (hex_digit (byte_code c mod 16))
        (hex_EncodeToString s))
  end.

Definition byte_between (lo hi : N) (c : option ascii) : bool :=
  match c with Some c => (lo <=? byte_code c)%N && (byte_code c <=? hi)%N | None => false end.
(** The number of bytes of the UTF-8 sequence the text starts with; [None] if it is not valid. *)
Definition rune_width (s : string) : option nat :=
  match byte_at s 0 with
  | None => None
  | Some c =>
      let n := byte_code c in
      let cont i := byte_between 128 191 (byte_at s i) in
      let second lo hi := byte_between lo hi (byte_at s 1) in
      if (n <? 128)%N then Some 1%nat
      else if (194 <=? n)%N && (n <=? 223)%N then if cont 1%nat then Some 2%nat else None
      else if (224 <=? n)%N && (n <=? 239)%N then
        if second (if n =? 224 then 160 else 128)%N (if n =? 237 then 159 else 191)%N && cont 2%nat
        then Some 3%nat else None
      else if (240 <=? n)%N && (n <=? 244)%N then
        if second (if n =? 240 then 144 else 128)%N (if n =? 244 then 143 else 191)%N &&
           cont 2%nat && cont 3%nat
        then Some 4%nat else None
      else None
  end.
Definition backslash : string := String "092" "".
Definition quote : string := String "034" "".
(** One byte of ASCII: quotes, backslashes, control characters and the characters of HTML are
    escaped. *)
Definition json_byte (c : ascii) : string :=
  let n := byte_code c in
  if (n =? 34)%N || (n =? 92)%N then backslash +:+ String c ""
  else if (n =? 8)%N then backslash +:+ "b"
  else if (n =? 12)%N then backslash +:+ "f"
  else if (n =? 10)%N then backslash +:+ "n"
  else if (n =? 13)%N then backslash +:+ "r"
  else if (n =? 9)%N then backslash +:+ "t"
  else if (n <? 32)%N || (n =? 60)%N || (n =? 62)%N || (n =? 38)%N then
    backslash +:+ "u00" +:+ hex_EncodeToString (String c "")
  else String c "".
(** U+2028 and U+2029 *)
Definition line_separator : string := String "226" (String "128" (String "168" "")).
Definition paragraph_separator : string := String "226" (String "128" (String "169" "")).
Fixpoint json_go (fuel : nat) (s : string) : string :=
  match fuel with
  | O => ""
  | S fuel =>
      match s with
      | EmptyString => ""
      | String c rest =>
          match rune_width s with
          | None => backslash +:+ "ufffd" +:+ json_go fuel rest
          | Some 1%nat => json_byte c +:+ json_go fuel rest
          | Some w =>
              let rune := String.substring 0 w s in
              let rest := String.substring w (String.length s - w) s in
              (if rune == line_separator then backslash +:+ "u2028"
               else if rune == paragraph_separator then backslash +:+ "u2029"
               else rune) +:+ json_go fuel rest
          end
      end
  end.
Definition json_string (s : string) : string :=
  quote +:+ json_go (String.length s) s +:+ quote.
Definition json_field (name value : string) : string := json_string name +:+ ":" +:+ value.

(** ** api/mq *)
Definition ExchangeProfiles : string := "auth.profiles".
Definition AppId : string := "auth-service".
Definition MsgTypeProfileCreated : string := "profile.created".
Definition MsgTypeProfileFirebaseImport : string := "profile.firebase.import".
Definition MsgTypeProfileDeleted : string := "profile.deleted".

(** ** Tables *)
Definition usersTable : string := "users".
Definition activationCodesTable : string := "activation_codes".
Definition sessionsTable : string := "sessions".
Definition oauthTable : string := "oauth".
Definition firebaseTable : string := "firebase".
Definition passwordResetsTable : string := "password_resets".
Definition deleteProfileRequestsTable : string := "delete_profile_requests".
Definition outboxTable : string := "outbox".
Definition errUniqueViolation : string := "23505".

(** ** Transactions *)
Definition isUniqueViolationError (err : error) : bool := sql_state_is errUniqueViolation err.

(** [tx, err := r.db.BeginTx(ctx, nil); if err != nil { return fail.GrpcUnknown }] *)
Definition begin_then {A} (body : dbprog (outcome A)) : dbprog (outcome A) :=
  r <~ call BeginTx;;
  match r with inl _ => errP GrpcUnknown | inr _ => body end.
(** ... with [defer tx.Rollback()]. *)
Definition deferred {A} (body : dbprog (outcome A)) : dbprog (outcome A) :=
  begin_then (r <~ body;; _ <~ call Rollback;; Done r).
Definition errorWithTransactionRollback {A} (err : Fail) : dbprog (outcome A) :=
  _ <~ call Rollback;; errP err.
Definition commitTransaction : dbprog (outcome unit) :=
  r <~ call Commit;;
  match r with inl _ => _ <~ call Rollback;; errP GrpcUnknown | inr _ => okP tt end.
(** [return value, commitTransaction(ctx, tx)] *)
Definition committing {A} (a : A) : dbprog (outcome A) := _ <<- commitTransaction;; okP a.

(** A statement whose every error is answered with [err], or with its own answer for [no rows]. *)
Definition exec_or (err : Fail) (on : target) (query : string) (args : list arg)
    : dbprog (outcome (option Z)) :=
  r <~ call (Exec on query args);;
  match r with inl _ => errP err | inr n => okP n end.
Definition row_or (missing err : Fail) (on : target) (query : string) (args : list arg)
    (ds : list dest) : dbprog (outcome (row ds)) :=
  r <~ call (QueryRow on query args ds);;
  match r with
  | inl ErrNoRows => errP missing
  | inl _ => errP err
  | inr x => okP x
  end.
Definition scan_or (err : Fail) := row_or err err.
(** ... and rolls back. *)
Definition exec_or_rollback (err : Fail) (query : string) (args : list arg)
    : dbprog (outcome (option Z)) :=
  r <~ call (Exec Tx query args);;
  match r with inl _ => errorWithTransactionRollback err | inr n => okP n end.

Section Repository.
Context `{Platform}.
(** Repository.profileDeleteOffset *)
Context (profileDeleteOffset : duration).

(** ** oauth_state.go: tokens *)
Definition opaqueToken : dbprog (option string) :=
  b <~ call (RandRead 32);;
  Done (base64_RawURL_Encode <$> b).
Definition tokenHash (token : string) : string := hex_EncodeToString (sha256_Sum256 token).

(** ** outbox.go *)
Definition createOutboxMsg (m : MessageData) : dbprog (outcome unit) :=
  _ <<- exec_or_rollback GrpcUnknown
    ("INSERT INTO " +:+ outboxTable +:+ " (message_id, exchange, type, body) VALUES ($1, $2, $3, $4)")
    [AId (md_Id m); AText (md_Exchange m); AText (md_Type m); AText (md_Body m)];;
  okP tt.

(** json.Marshal does not fail on structs of strings and booleans. *)
Definition outbox_message (type body : string) : dbprog (outcome MessageData) :=
  id <~ call NewUUID;;
  let msg := {| md_Id := id; md_Exchange := ExchangeProfiles; md_Type := type; md_Body := body |} in
  _ <<- createOutboxMsg msg;;
  okP msg.

(** A loop over rows that passes over those that cannot be scanned. *)
Definition scan_each {A B} (f : A -> B) (rows : list (option A)) : list B :=
  flat_map (fun r => match r with Some r => [f r] | None => [] end) rows.
Definition scan_message (r : row [TId; TText; TText; TText]) : MessageData :=
  let '(id, (exchange, (type, (body, _)))) := r in
  {| md_Id := id; md_Exchange := exchange; md_Type := type; md_Body := body |}.
Definition repo_GetPendingMessages : dbprog (error + list MessageData) :=
  r <~ call (QueryRows ("SELECT message_id, exchange, type, body FROM " +:+ outboxTable) []
    [TId; TText; TText; TText]);;
  Done (match r with inl err => inl err | inr (rows, _) => inr (scan_each scan_message rows) end).

Definition repo_MarkMessageSent (id : uuid) : dbprog (error + unit) :=
  r <~ call (Exec Pool ("DELETE FROM " +:+ outboxTable +:+ " WHERE message_id=$1") [AId id]);;
  Done (match r with inl err => inl err | inr _ => inr tt end).

(** ** oauth_state.go *)
Definition repo_CreateOAuthState (provider redirect binding : string) : dbprog (outcome string) :=
  if (binding == "") || (redirect == "") then errP GrpcInvalidBody else
  token <~ opaqueToken;;
  match token with
  | None => errP GrpcUnknown
  | Some token =>
      now <~ call Now;;
      _ <<- exec_or GrpcUnknown Pool
        "INSERT INTO oauth_states(token_hash,provider,redirect_uri,binding_hash,expires_at) VALUES($1,$2,$3,$4,$5)"
        [AText (tokenHash token); AText provider; AText redirect; AText (tokenHash binding);
         ATime (now + 10 * Minute)];;
      okP token
  end.

Definition repo_ConsumeOAuthState (provider token redirect binding : string) : dbprog (outcome unit) :=
  if (token == "") || (binding == "") then errP GrpcInvalidCode else
  n <<- exec_or GrpcUnknown Pool
    "DELETE FROM oauth_states WHERE token_hash=$1 AND provider=$2 AND redirect_uri=$3 AND binding_hash=$4 AND expires_at>NOW()"
    [AText (tokenHash token); AText provider; AText redirect; AText (tokenHash binding)];;
  match n with
  | None => errP GrpcUnknown
  | Some n => if n != 1 then errP GrpcInvalidCode else okP tt
  end.

Definition repo_ConsumeReauthentication (id : uuid) (token : string) : dbprog (outcome unit) :=
  r <~ call (Exec Pool
    "INSERT INTO reauthentication_proofs(token_hash,user_id,expires_at) VALUES($1,$2,NOW()+interval '1 hour')"
    [AText (tokenHash token); AId id]);;
  match r with
  | inl err => if isUniqueViolationError err then errP GrpcReauthentication else errP GrpcUnknown
  | inr _ => okP tt
  end.

Definition cleanup_tables : list string :=
  ["oauth_states"; "email_deliveries"; "email_bindings"; "reauthentication_proofs"].
Fixpoint cleanup_each (tables : list string) : dbprog (outcome unit) :=
  match tables with
  | [] => okP tt
  | table :: tables =>
      _ <<- exec_or GrpcUnknown Pool ("DELETE FROM " +:+ table +:+ " WHERE expires_at<=NOW()") [];;
      cleanup_each tables
  end.
Definition repo_CleanupAuthWorkflows : dbprog (outcome unit) := cleanup_each cleanup_tables.

(** ** users.go *)
Definition addUsersRow (id : uuid) (c : CredentialsHash) (activated : bool) : dbprog (outcome unit) :=
  _ <<- exec_or_rollback GrpcUnableCreateProfile
    ("INSERT INTO " +:+ usersTable +:+ " (user_id, email, password, activated) VALUES ($1, $2, $3, $4)")
    [AId id; AText (ch_Email c); AOptText (ch_PasswordHash c); ABool activated];;
  okP tt.
Definition addOauthRow (id : uuid) (o : OAuthEntity) : dbprog (outcome unit) :=
  _ <<- exec_or_rollback GrpcUnableCreateProfile
    ("INSERT INTO " +:+ oauthTable +:+ " (user_id, google_id, vk_id) VALUES ($1, $2, $3)")
    [AId id; AOptText (GoogleId o); AOptInt (VkId o)];;
  okP tt.
Definition addActivationCodeRow (id : uuid) (code : option string) : dbprog (outcome unit) :=
  match code with
  | None => okP tt
  | Some code =>
      _ <<- exec_or_rollback GrpcUnableCreateProfile
        ("INSERT INTO " +:+ activationCodesTable +:+ " (activation_code, user_id) VALUES ($1, $2)")
        [AText code; AId id];;
      okP tt
  end.
Definition created_body (id : uuid) : string :=
  "{" +:+ json_field "userId" (json_string (uuid_String id)) +:+ "}".
Definition addOutboxProfileCreatedMsg (id : uuid) : dbprog (outcome MessageData) :=
  outbox_message MsgTypeProfileCreated (created_body id).

Definition repo_CreateUser (c : CredentialsHash) (code : option string) (o : OAuthEntity)
    : dbprog (outcome (uuid * MessageData)) :=
  id <~ (match ch_Id c with Some id => Done id | None => call NewUUID end);;
  begin_then (
    _ <<- addUsersRow id c (negb (isSome code));;
    _ <<- addOauthRow id o;;
    _ <<- addActivationCodeRow id code;;
    msg <<- addOutboxProfileCreatedMsg id;;
    committing (id, msg)).

(** dto.AuthInfo and its Entity *)
Definition auth_info_columns : list dest :=
  [TId; TText; TOptText; TOptText; TText; TTime; TBool; TBool; TOptText; TOptInt; TOptTime; TBool].
Definition dto_Entity (r : row auth_info_columns) : AuthInfoEntity :=
  let '(id, (email, (username, (password, (role, (registered, (activated, (blocked,
    (google, (vk, (deletion, (shared, _)))))))))))) := r in
  {| Id := id; Email := email; Username := username;
     PasswordHash := match password with Some hash => hash | None => "" end;
     Role := role; RegistrationTimestamp := registered; IsActivated := activated;
     IsBlocked := blocked; DeletionTimestamp := deletion; DeleteSharedData := shared;
     OAuth := {| GoogleId := google; VkId := vk |} |}.

Definition auth_info_query (condition : string) : string :=
  "SELECT users.user_id, users.email, users.username, users.password, users.role, users.registered, users.activated, users.blocked, oauth.google_id, oauth.vk_id, delete_profile_requests.deletion_timestamp, COALESCE(delete_profile_requests.with_shared_data,false) AS delete_shared_data FROM users LEFT JOIN oauth ON users.user_id=oauth.user_id LEFT JOIN delete_profile_requests ON users.user_id=delete_profile_requests.user_id WHERE "
  +:+ condition.
Definition getAuthInfoByCondition (condition : string) (a : arg) : dbprog (outcome AuthInfoEntity) :=
  info <<- row_or GrpcUserNotFound GrpcUnknown Pool (auth_info_query condition) [a] auth_info_columns;;
  okP (dto_Entity info).

Definition repo_GetAuthInfoById (user : uuid) : dbprog (outcome AuthInfoEntity) :=
  getAuthInfoByCondition (usersTable +:+ ".user_id=$1") (AId user).
Definition repo_GetAuthInfoByEmail (email : string) : dbprog (outcome AuthInfoEntity) :=
  getAuthInfoByCondition (usersTable +:+ ".email=$1") (AText email).
Definition repo_GetAuthInfoByUsername (username : string) : dbprog (outcome AuthInfoEntity) :=
  getAuthInfoByCondition (usersTable +:+ ".username=$1") (AText username).

(** [if err != nil && value != nil { authInfo, err = lookup(value) }] *)
Definition or_lookup {A} (r : outcome AuthInfoEntity) (value : option A)
    (lookup : A -> dbprog (outcome AuthInfoEntity)) : dbprog (outcome AuthInfoEntity) :=
  match r, value with
  | inl _, Some value => lookup value
  | _, _ => Done r
  end.
Definition repo_GetAuthInfoByIdentifiers (i : UserIdentifiers) : dbprog (outcome AuthInfoEntity) :=
  r <~ or_lookup (inl GrpcUserNotFound) (ui_UserId i) repo_GetAuthInfoById;;
  r <~ or_lookup r (ui_Email i) repo_GetAuthInfoByEmail;;
  or_lookup r (ui_Username i) repo_GetAuthInfoByUsername.

(** ** sessions.go *)
Definition repo_CreateSession (s : SessionInput) : dbprog (outcome Z) :=
  r <<- scan_or GrpcUnknown Pool
    ("INSERT INTO sessions (user_id, refresh_token, ip, user_agent, expires_at) " +:+
     "VALUES ($1,$2,$3,$4,$5) RETURNING session_id")
    [AId (sn_UserId s); AText (sn_RefreshToken s); AText (sn_Ip s); AText (sn_UserAgent s);
     ATime (sn_ExpiresAt s)] [TInt];;
  okP (fst r).

Definition session_row : list dest := [TInt; TId; TText; TText; TTime].
Definition raw_info (r : row session_row) : SessionRawInfo :=
  let '(id, (user, (ip, (agent, (accessed, _))))) := r in
  {| sw_SessionId := id; sw_UserId := user; sw_Ip := ip; sw_UserAgent := agent;
     sw_AccessTime := accessed |}.
(** The loop over the rows ends at the first that cannot be scanned. *)
Fixpoint scan_sessions (rows : list (option (row session_row))) : outcome (list SessionRawInfo) :=
  match rows with
  | [] => inr []
  | None :: _ => inl GrpcUnknown
  | Some r :: rows =>
      match scan_sessions rows with inl err => inl err | inr rest => inr (raw_info r :: rest) end
  end.
Definition repo_GetSessions (user : uuid) : dbprog (outcome (list SessionRawInfo)) :=
  r <~ call (QueryRows ("SELECT session_id, user_id, ip, user_agent, last_access FROM " +:+ sessionsTable
    +:+ " WHERE user_id=$1 AND expires_at>NOW()") [AId user] session_row);;
  match r with
  | inl _ => errP GrpcUnknown
  | inr (rows, failed) =>
      sessions <<- Done (scan_sessions rows);;
      if failed : bool then errP GrpcUnknown else okP sessions
  end.

Definition repo_UpdateSession (s : SessionInput) (old : string) : dbprog (outcome Z) :=
  r <<- row_or GrpcInvalidRefreshToken GrpcUnknown Pool
    ("UPDATE sessions SET refresh_token=$1,ip=$2,user_agent=$3,last_access=NOW(),expires_at=$4 " +:+
     "WHERE refresh_token=$5 AND expires_at>NOW() RETURNING session_id")
    [AText (sn_RefreshToken s); AText (sn_Ip s); AText (sn_UserAgent s); ATime (sn_ExpiresAt s);
     AText old] [TInt];;
  okP (fst r).

Definition repo_DeleteSession (token : string) : dbprog (outcome unit) :=
  _ <<- exec_or GrpcUnknown Pool "DELETE FROM sessions WHERE refresh_token=$1" [AText token];;
  okP tt.
Definition repo_DeleteSessions (user : uuid) (ids : list Z) : dbprog (outcome unit) :=
  _ <<- exec_or GrpcUnknown Pool
    ("DELETE FROM " +:+ sessionsTable +:+ " WHERE user_id=$1 AND session_id=ANY($2)")
    [AId user; AInts ids];;
  okP tt.
Definition repo_DeleteAllSessions (user : uuid) : dbprog (outcome unit) :=
  _ <<- exec_or GrpcUnknown Pool ("DELETE FROM " +:+ sessionsTable +:+ " WHERE user_id=$1") [AId user];;
  okP tt.
Definition repo_DeleteOutdatedSessions (user : uuid) (threshold : Z) : dbprog unit :=
  _ <~ call (Exec Pool
    ("DELETE FROM " +:+ sessionsTable +:+ " WHERE user_id=$1 AND session_id NOT IN ( SELECT session_id FROM "
     +:+ sessionsTable +:+ " WHERE user_id=$1 ORDER BY created_at DESC LIMIT " +:+ FormatInt threshold
     +:+ " )") [AId user]);;
  Done tt.

(** ** users.go: the rest *)
Definition repo_GetAuthInfoByRefreshToken (token : string) : dbprog (outcome AuthInfoEntity) :=
  r <<- row_or GrpcInvalidRefreshToken GrpcUnknown Pool
    ("SELECT user_id, expires_at FROM " +:+ sessionsTable +:+ " WHERE refresh_token=$1")
    [AText token] [TId; TTime];;
  let '(user, (expires, _)) := r in
  now <~ call Now;;
  if Before expires now then
    _ <~ repo_DeleteSession token;;
    errP GrpcInvalidRefreshToken
  else
    info <~ repo_GetAuthInfoById user;;
    Done (match info with
          | inl err => inl (if err == GrpcUserNotFound then GrpcInvalidRefreshToken else err)
          | inr info => inr info
          end).

Definition repo_GetAuthInfoByFirebaseId (firebase : string) : dbprog (outcome AuthInfoEntity) :=
  r <<- scan_or GrpcUserNotFound Pool
    ("SELECT user_id FROM " +:+ firebaseTable +:+ " WHERE firebase_id=$1") [AText firebase] [TId];;
  repo_GetAuthInfoById (fst r).

(** Rows that cannot be scanned are passed over, and so is an error after the last one. *)
Fixpoint scan_usernames (rows : list (option (row [TId; TOptText]))) (names : gmap uuid string)
    : gmap uuid string :=
  match rows with
  | [] => names
  | Some (id, (Some name, _)) :: rows => scan_usernames rows (<[id := name]> names)
  | _ :: rows => scan_usernames rows names
  end.
Definition repo_GetUsernames (users : list uuid) : dbprog (outcome (list (uuid * string))) :=
  r <~ call (QueryRows ("SELECT user_id, username FROM " +:+ usersTable +:+ " WHERE user_id=ANY($1)")
    [AIds users] [TId; TOptText]);;
  match r with
  | inl _ => errP GrpcNotFound
  | inr (rows, _) => okP (map_to_list (scan_usernames rows ∅))
  end.

Definition repo_SetUsername (user : uuid) (name : string) : dbprog (outcome string) :=
  r <~ call (QueryRow Pool ("UPDATE " +:+ usersTable +:+ " SET username=$1 WHERE user_id=$2 RETURNING email")
    [AText name; AId user] [TText]);;
  match r with
  | inl err => if isUniqueViolationError err then errP GrpcUsernameOccupied else errP GrpcUnknown
  | inr (email, _) => okP email
  end.

(** ** activation_codes.go *)
Definition repo_GetProfileActivationCode (user : uuid) : dbprog (outcome string) :=
  r <<- scan_or GrpcActivationLinkNotFound Pool
    ("SELECT activation_code FROM " +:+ activationCodesTable +:+ " WHERE user_id=$1") [AId user] [TText];;
  okP (fst r).
Definition repo_ActivateProfile (user : uuid) (code : string) : dbprog (outcome unit) :=
  n <<- exec_or GrpcInvalidActivationCode Pool
    ("UPDATE " +:+ usersTable +:+ " SET activated=true WHERE user_id= ( SELECT user_id FROM "
     +:+ activationCodesTable +:+ " WHERE user_id=$1 AND activation_code=$2 )") [AId user; AText code];;
  match n with
  | None => errP GrpcInvalidActivationCode
  | Some n => if n == 0 then errP GrpcInvalidActivationCode else okP tt
  end.

(** ** firebase.go *)
Definition repo_IsFirebaseProfileConnected (firebase : string) : dbprog bool :=
  r <~ call (QueryRow Pool ("SELECT user_id FROM " +:+ firebaseTable +:+ " WHERE firebase_id=$1")
    [AText firebase] [TId]);;
  Done (match r with inl _ => false | inr (id, _) => negb (len (uuid_String id) =? 0) end).

Definition firebase_body (id : uuid) (firebase : string) : string :=
  "{" +:+ json_field "userId" (json_string (uuid_String id)) +:+ "," +:+
  json_field "firebaseId" (json_string firebase) +:+ "}".
Definition addOutboxProfileFirebaseImportMsg (id : uuid) (firebase : string)
    : dbprog (outcome MessageData) :=
  outbox_message MsgTypeProfileFirebaseImport (firebase_body id firebase).
Definition repo_ConnectFirebase (user : uuid) (firebase : string) (created : time)
    : dbprog (outcome MessageData) :=
  begin_then (
    _ <<- exec_or_rollback GrpcUnknown
      ("UPDATE " +:+ usersTable +:+ " SET registered=$1 WHERE user_id=$2") [ATime created; AId user];;
    _ <<- exec_or_rollback GrpcUnknown
      ("INSERT INTO " +:+ firebaseTable +:+ " (user_id, firebase_id) VALUES ($1, $2)")
      [AId user; AText firebase];;
    msg <<- addOutboxProfileFirebaseImportMsg user firebase;;
    committing msg).

(** ** oauth.go *)
Definition repo_GetAuthInfoByGoogleId (id : string) : dbprog (outcome AuthInfoEntity) :=
  getAuthInfoByCondition (oauthTable +:+ ".google_id=$1") (AText id).
Definition repo_GetAuthInfoByVkId (id : Z) : dbprog (outcome AuthInfoEntity) :=
  getAuthInfoByCondition (oauthTable +:+ ".vk_id=$1") (AInt id).

Definition deletion_exists_query : string :=
  "SELECT EXISTS(SELECT 1 FROM delete_profile_requests WHERE user_id=$1)".
(** [if blocked { return GrpcProfileIsBlocked }], and the lookup of a deletion request. *)
Definition not_deleting {A} (user : uuid) (k : dbprog (outcome A)) : dbprog (outcome A) :=
  r <<- scan_or GrpcUnknown Tx deletion_exists_query [AId user] [TBool];;
  if fst r : bool then errP GrpcAccountDeleting else k.

(** [value] is the argument, [text] its fmt.Sprint. *)
Definition connectIdentity (user : uuid) (column : string) (value : arg) (text : string)
    : dbprog (outcome bool) :=
  deferred (
    r <<- scan_or GrpcUnknown Tx "SELECT blocked FROM users WHERE user_id=$1 FOR UPDATE" [AId user] [TBool];;
    if fst r : bool then errP GrpcProfileIsBlocked else
    not_deleting user (
      old <<- scan_or GrpcUnknown Tx
        ("SELECT " +:+ column +:+ "::text FROM oauth WHERE user_id=$1 FOR UPDATE") [AId user] [TOptText];;
      match fst old with
      | Some old => if old == text then okP false else errP GrpcAccountOccupied
      | None =>
          r <~ call (Exec Tx ("UPDATE oauth SET " +:+ column +:+ "=$2 WHERE user_id=$1") [AId user; value]);;
          match r with
          | inl err => if isUniqueViolationError err then errP GrpcAccountOccupied else errP GrpcUnknown
          | inr _ => committing true
          end
      end)).
Definition disconnectIdentity (user : uuid) (column : string) : dbprog (outcome unit) :=
  deferred (
    r <<- scan_or GrpcUnknown Tx
      "SELECT blocked,COALESCE(octet_length(password)>0,false) FROM users WHERE user_id=$1 FOR UPDATE"
      [AId user] [TBool; TBool];;
    let '(blocked, (hasPassword, _)) := r in
    if blocked : bool then errP GrpcProfileIsBlocked else
    not_deleting user (
      ids <<- scan_or GrpcUnknown Tx
        "SELECT google_id,vk_id::text FROM oauth WHERE user_id=$1 FOR UPDATE" [AId user]
        [TOptText; TOptText];;
      let '(google, (vk, _)) := ids in
      if ((column == "google_id") && negb (isSome google)) || ((column == "vk_id") && negb (isSome vk))
      then okP tt else
      if negb hasPassword && (negb (isSome google) || negb (isSome vk)) then errP GrpcFewSignInMethods else
      _ <<- exec_or GrpcUnknown Tx ("UPDATE oauth SET " +:+ column +:+ "=NULL WHERE user_id=$1") [AId user];;
      commitTransaction)).
Definition repo_ConnectGoogle (user : uuid) (id : string) : dbprog (outcome bool) :=
  connectIdentity user "google_id" (AText id) id.
Definition repo_DeleteGoogleConnection (user : uuid) : dbprog (outcome unit) :=
  disconnectIdentity user "google_id".
Definition repo_ConnectVk (user : uuid) (id : Z) : dbprog (outcome bool) :=
  connectIdentity user "vk_id" (AInt id) (FormatInt id).
Definition repo_DeleteVkConnection (user : uuid) : dbprog (outcome unit) :=
  disconnectIdentity user "vk_id".

(** ** password_resets.go *)
Definition removeOutdatedPasswordResetRequests (user : uuid) : dbprog unit :=
  now <~ call Now;;
  _ <~ call (Exec Pool
    ("DELETE FROM " +:+ passwordResetsTable +:+ " WHERE user_id=$1 AND used=false AND expires_at<=$2")
    [AId user; ATime now]);;
  Done tt.
Definition repo_CreatePasswordResetRequest (user : uuid) (expiration : time) : dbprog (outcome uuid) :=
  _ <~ removeOutdatedPasswordResetRequests user;;
  r <~ call (QueryRow Pool
    ("SELECT reset_code FROM " +:+ passwordResetsTable +:+ " WHERE user_id=$1 AND used=false")
    [AId user] [TId]);;
  match r with
  | inr (code, _) => okP code
  | inl _ =>
      code <~ call NewUUID;;
      _ <<- exec_or GrpcUnknown Pool
        ("INSERT INTO " +:+ passwordResetsTable +:+ " (user_id, reset_code, expires_at) VALUES ($1, $2, $3)")
        [AId user; AText (uuid_String code); ATime expiration];;
      okP code
  end.

Definition repo_ResetPassword (user : uuid) (code hash : string) : dbprog (outcome unit) :=
  deferred (
    blocked <<- scan_or GrpcUnknown Tx "SELECT blocked FROM users WHERE user_id=$1 FOR UPDATE"
      [AId user] [TBool];;
    valid <<- scan_or GrpcUnknown Tx
      "SELECT EXISTS(SELECT 1 FROM password_resets WHERE user_id=$1 AND reset_code=$2 AND used=false AND expires_at>NOW())"
      [AId user; AText code] [TBool];;
    if negb (fst valid) then errP GrpcInvalidResetPasswordCode else
    if fst blocked : bool then errP GrpcProfileIsBlocked else
    not_deleting user (
      now <~ call Now;;
      n <<- exec_or_rollback GrpcInvalidResetPasswordCode
        ("UPDATE " +:+ passwordResetsTable +:+
         " SET used=true WHERE user_id=$1 AND reset_code=$2 AND used=false AND expires_at>$3")
        [AId user; AText code; ATime now];;
      match n with
      | None => errorWithTransactionRollback GrpcInvalidResetPasswordCode
      | Some n =>
          if n == 0 then errorWithTransactionRollback GrpcInvalidResetPasswordCode else
          _ <<- exec_or_rollback GrpcUnknown
            ("UPDATE " +:+ usersTable +:+ " SET password=$1 WHERE user_id=$2") [AText hash; AId user];;
          commitTransaction
      end)).

Definition repo_SetPassword (user : uuid) (hash : string) : dbprog (outcome unit) :=
  r <<- scan_or GrpcUnknown Pool
    ("UPDATE " +:+ usersTable +:+ " SET password=$1 WHERE user_id=$2 RETURNING user_id")
    [AText hash; AId user] [TText];;
  if fst r == "" then errP GrpcUnknown else okP tt.
Definition repo_GetPasswordResetUser (token : string) : dbprog (outcome uuid) :=
  r <<- row_or GrpcInvalidResetPasswordCode GrpcUnknown Pool
    "SELECT user_id FROM password_resets WHERE reset_code=$1 AND used=false AND expires_at>NOW()"
    [AText token] [TId];;
  okP (fst r).

(** ** profile_deletions.go *)
Definition request_row : list dest := [TId; TBool; TTime].
Definition deletion_request (r : row request_row) : DeleteProfileRequest :=
  let '(id, (shared, (timestamp, _))) := r in
  {| dr_UserId := id; dr_WithSharedData := shared; dr_Timestamp := timestamp |}.
Definition repo_GetProfilesToDelete : dbprog (list DeleteProfileRequest) :=
  now <~ call Now;;
  r <~ call (QueryRows ("SELECT user_id, with_shared_data, deletion_timestamp FROM "
    +:+ deleteProfileRequestsTable +:+ " WHERE deletion_timestamp<=$1") [ATime now] request_row);;
  match r with
  | inl _ => Done []
  | inr (rows, _) => Done (scan_each deletion_request rows)
  end.
Definition repo_GetDeleteProfileRequest (user : uuid) : dbprog (outcome DeleteProfileRequest) :=
  r <<- row_or GrpcDeletionNotFound GrpcUnknown Pool
    ("SELECT user_id, with_shared_data, deletion_timestamp FROM " +:+ deleteProfileRequestsTable
     +:+ " WHERE user_id=$1") [AId user] request_row;;
  okP (deletion_request r).

Definition lockDeletionUser (user : uuid) : dbprog (outcome unit) :=
  r <<- row_or GrpcUserNotFound GrpcUnknown Tx "SELECT blocked FROM users WHERE user_id=$1 FOR UPDATE"
    [AId user] [TBool];;
  if fst r : bool then errP GrpcProfileIsBlocked else okP tt.
Definition lockDeletion (user : uuid) : dbprog (outcome DeleteProfileRequest) :=
  r <<- row_or GrpcDeletionNotFound GrpcUnknown Tx
    "SELECT user_id,with_shared_data,deletion_timestamp FROM delete_profile_requests WHERE user_id=$1 FOR UPDATE"
    [AId user] request_row;;
  now <~ call Now;;
  if negb (After (dr_Timestamp (deletion_request r)) now) then errP GrpcDeletionExpired
  else okP (deletion_request r).

Definition repo_RequestDeleteProfile (user : uuid) (shared : bool)
    : dbprog (outcome DeleteProfileRequest) :=
  deferred (
    _ <<- lockDeletionUser user;;
    existing <~ lockDeletion user;;
    match existing with
    | inr existing => okP existing
    | inl err =>
        if err != GrpcDeletionNotFound then errP err else
        now <~ call Now;;
        let deadline := now + profileDeleteOffset in
        _ <<- exec_or GrpcUnknown Tx
          "INSERT INTO delete_profile_requests(user_id,with_shared_data,deletion_timestamp) VALUES($1,$2,$3)"
          [AId user; ABool shared; ATime deadline];;
        committing {| dr_UserId := user; dr_WithSharedData := shared; dr_Timestamp := deadline |}
    end).
Definition repo_UpdateProfileDeletion (user : uuid) (shared : bool)
    : dbprog (outcome DeleteProfileRequest) :=
  deferred (
    _ <<- lockDeletionUser user;;
    request <<- lockDeletion user;;
    _ <<- exec_or GrpcUnknown Tx
      "UPDATE delete_profile_requests SET with_shared_data=$2 WHERE user_id=$1" [AId user; ABool shared];;
    committing {| dr_UserId := dr_UserId request; dr_WithSharedData := shared;
                 dr_Timestamp := dr_Timestamp request |}).
Definition repo_CancelProfileDeletion (user : uuid) : dbprog (outcome unit) :=
  deferred (
    _ <<- lockDeletionUser user;;
    r <~ lockDeletion user;;
    match r with
    | inl err => if err == GrpcDeletionNotFound then okP tt else errP err
    | inr _ =>
        _ <<- exec_or GrpcUnknown Tx "DELETE FROM delete_profile_requests WHERE user_id=$1" [AId user];;
        commitTransaction
    end).

Definition json_bool (b : bool) : string := if b then "true" else "false".
Definition deleted_body (id : uuid) (shared : bool) : string :=
  "{" +:+ json_field "userId" (json_string (uuid_String id)) +:+ "," +:+
  json_field "deleteSharedData" (json_bool shared) +:+ "}".
Definition addOutboxProfileDeletedMsg (id : uuid) (shared : bool) : dbprog (outcome MessageData) :=
  outbox_message MsgTypeProfileDeleted (deleted_body id shared).

(** A query whose missing row ends the call without an error. *)
Definition row_or_nothing {A} (query : string) (args : list arg) (ds : list dest)
    (k : row ds -> dbprog (outcome (option A))) : dbprog (outcome (option A)) :=
  r <~ call (QueryRow Tx query args ds);;
  match r with
  | inl ErrNoRows => okP None
  | inl _ => errP GrpcUnknown
  | inr x => k x
  end.
(** The policy given is overwritten by that of the request. *)
Definition repo_DeleteUser (user : uuid) (deleteSharedData : bool)
    : dbprog (outcome (option MessageData)) :=
  deferred (
    row_or_nothing "SELECT user_id FROM users WHERE user_id=$1 FOR UPDATE" [AId user] [TId] (fun _ =>
    row_or_nothing
      "SELECT with_shared_data,deletion_timestamp FROM delete_profile_requests WHERE user_id=$1 FOR UPDATE"
      [AId user] [TBool; TTime] (fun r =>
    let '(deleteSharedData, (deadline, _)) := r in
    now <~ call Now;;
    if After deadline now then okP None else
    _ <<- exec_or_rollback GrpcUnknown ("DELETE FROM " +:+ usersTable +:+ " WHERE user_id=$1") [AId user];;
    msg <<- addOutboxProfileDeletedMsg user deleteSharedData;;
    committing (Some msg)))).

(** ** email_bindings.go *)
Definition queueBindingEmail (b : EmailBinding) : dbprog (outcome unit) :=
  let email := if eb_Stage b == "old" then eb_OldEmail b else eb_Email b in
  _ <<- exec_or GrpcUnknown Tx "DELETE FROM email_deliveries WHERE user_id=$1 AND purpose=$2"
    [AId (eb_UserId b); AText (eb_Purpose b)];;
  _ <<- exec_or GrpcUnknown Tx
    "INSERT INTO email_deliveries(user_id,email,token,link_pattern,purpose,stage,expires_at) VALUES($1,$2,$3,$4,$5,$6,$7)"
    [AId (eb_UserId b); AText email; AText (eb_Token b); AText (eb_LinkPattern b);
     AText (eb_Purpose b); AText (eb_Stage b); ATime (eb_ExpiresAt b)];;
  okP tt.

Definition set_Token (token : string) (b : EmailBinding) : EmailBinding :=
  {| eb_UserId := eb_UserId b; eb_Purpose := eb_Purpose b; eb_Stage := eb_Stage b;
     eb_OldEmail := eb_OldEmail b; eb_Email := eb_Email b; eb_Token := token;
     eb_LinkPattern := eb_LinkPattern b; eb_PasswordHash := eb_PasswordHash b;
     eb_ExpiresAt := eb_ExpiresAt b |}.

(** The password hash of the outstanding proof, for a resend. *)
Definition bound_password (b : EmailBinding) : dbprog (outcome (option string)) :=
  if (eb_Purpose b == "verify") && negb (isSome (eb_PasswordHash b)) then
    r <~ call (QueryRow Tx
      "SELECT password_hash FROM email_bindings WHERE user_id=$1 AND purpose='verify' AND expires_at>NOW()"
      [AId (eb_UserId b)] [TOptText]);;
    match r with
    | inr (hash, _) => okP hash
    | inl ErrNoRows => okP None
    | inl _ => errP GrpcUnknown
    end
  else okP (eb_PasswordHash b).
Definition change_allowed (b : EmailBinding) (currentEmail : string) (blocked : bool)
    : dbprog (outcome unit) :=
  if eb_Purpose b == "change" then
    if blocked then errP GrpcProfileIsBlocked else
    if currentEmail != eb_OldEmail b then errP (GrpcConflict "email_change_conflict" "email changed") else
    not_deleting (eb_UserId b) (
      pending <<- scan_or GrpcUnknown Tx
        "SELECT EXISTS(SELECT 1 FROM email_bindings WHERE user_id=$1 AND purpose='change' AND expires_at>NOW())"
        [AId (eb_UserId b)] [TBool];;
      if fst pending : bool
      then errP (GrpcConflict "email_change_pending" "email change already pending") else okP tt)
  else okP tt.

Definition repo_StartEmailBinding (b : EmailBinding) : dbprog (outcome unit) :=
  token <~ opaqueToken;;
  match token with
  | None => errP GrpcUnknown
  | Some token =>
      let b := set_Token token b in
      deferred (
        user <<- scan_or GrpcUnknown Tx
          "SELECT email,activated,blocked FROM users WHERE user_id=$1 FOR UPDATE" [AId (eb_UserId b)]
          [TText; TBool; TBool];;
        let '(currentEmail, (activated, (blocked, _))) := user in
        if (eb_Purpose b == "verify") && (activated || blocked || (currentEmail != eb_Email b))
        then okP tt else
        hash <<- bound_password b;;
        _ <<- change_allowed b currentEmail blocked;;
        _ <<- exec_or GrpcUnknown Tx "DELETE FROM email_bindings WHERE user_id=$1 AND purpose=$2"
          [AId (eb_UserId b); AText (eb_Purpose b)];;
        _ <<- exec_or GrpcUnknown Tx
          "INSERT INTO email_bindings(token_hash,user_id,purpose,stage,old_email,email,password_hash,expires_at) VALUES($1,$2,$3,$4,$5,$6,$7,$8)"
          [AText (tokenHash token); AId (eb_UserId b); AText (eb_Purpose b); AText (eb_Stage b);
           AText currentEmail; AText (eb_Email b); AOptText hash; ATime (eb_ExpiresAt b)];;
        _ <<- queueBindingEmail b;;
        commitTransaction)
  end.

Definition binding_columns : list dest := [TText; TText; TText; TText; TOptText; TTime].
Definition binding_of (user : uuid) (pattern : string) (r : row binding_columns) : EmailBinding :=
  let '(purpose, (stage, (old, (email, (hash, (expires, _)))))) := r in
  {| eb_UserId := user; eb_Purpose := purpose; eb_Stage := stage; eb_OldEmail := old;
     eb_Email := email; eb_Token := ""; eb_LinkPattern := pattern; eb_PasswordHash := hash;
     eb_ExpiresAt := expires |}.
Definition advance_binding (b : EmailBinding) (token : string) (expires : time) : EmailBinding :=
  {| eb_UserId := eb_UserId b; eb_Purpose := eb_Purpose b; eb_Stage := "new";
     eb_OldEmail := eb_OldEmail b; eb_Email := eb_Email b; eb_Token := token;
     eb_LinkPattern := eb_LinkPattern b; eb_PasswordHash := eb_PasswordHash b;
     eb_ExpiresAt := expires |}.
Definition confirmation (b : EmailBinding) (status : string) : EmailConfirmation :=
  {| cn_Purpose := eb_Purpose b; cn_Status := status |}.

Fixpoint delete_of_user (user : uuid) (tables : list string) : dbprog (outcome unit) :=
  match tables with
  | [] => okP tt
  | table :: tables =>
      _ <<- exec_or GrpcUnknown Tx ("DELETE FROM " +:+ table +:+ " WHERE user_id=$1") [AId user];;
      delete_of_user user tables
  end.
(** What follows the last stage. *)
Definition finish_binding (b : EmailBinding) (status : string) : dbprog (outcome EmailConfirmation) :=
  _ <<- delete_of_user (eb_UserId b) (["email_bindings"; "activation_codes"; "email_deliveries"] ++
    (if eb_Stage b == "new" then ["password_resets"] else []));;
  committing (confirmation b status).

(** The switch on the stage of the proof. *)
Definition confirm_stage (token : string) (b : EmailBinding) : dbprog (outcome EmailConfirmation) :=
  if eb_Stage b == "verify" then
    _ <<- exec_or GrpcUnknown Tx
      "UPDATE users SET activated=true,password=COALESCE($2,password) WHERE user_id=$1"
      [AId (eb_UserId b); AOptText (eb_PasswordHash b)];;
    finish_binding b "verified"
  else if eb_Stage b == "old" then
    next <~ opaqueToken;;
    match next with
    | None => errP GrpcUnknown
    | Some next =>
        now <~ call Now;;
        let b := advance_binding b next (now + 24 * Hour) in
        _ <<- exec_or GrpcUnknown Tx
          "UPDATE email_bindings SET token_hash=$2,stage='new',expires_at=$3 WHERE token_hash=$1"
          [AText (tokenHash token); AText (tokenHash next); ATime (eb_ExpiresAt b)];;
        _ <<- queueBindingEmail b;;
        committing (confirmation b "pendingNewEmail")
    end
  else if eb_Stage b == "new" then
    r <~ call (Exec Tx "UPDATE users SET email=$2 WHERE user_id=$1" [AId (eb_UserId b); AText (eb_Email b)]);;
    match r with
    | inl err => if isUniqueViolationError err
                 then errP (GrpcConflict "email_unavailable" "email unavailable") else errP GrpcUnknown
    | inr _ => finish_binding b "changed"
    end
  else errP GrpcInvalidActivationCode.

Definition repo_ConfirmEmailBinding (token pattern : string) : dbprog (outcome EmailConfirmation) :=
  deferred (
    id <<- row_or GrpcInvalidActivationCode GrpcUnknown Tx
      "SELECT user_id FROM email_bindings WHERE token_hash=$1 AND expires_at>NOW()"
      [AText (tokenHash token)] [TId];;
    user <<- scan_or GrpcUnknown Tx "SELECT email,blocked FROM users WHERE user_id=$1 FOR UPDATE"
      [AId (fst id)] [TText; TBool];;
    let '(email, (blocked, _)) := user in
    proof <<- row_or GrpcInvalidActivationCode GrpcUnknown Tx
      "SELECT purpose,stage,old_email,email,password_hash,expires_at FROM email_bindings WHERE token_hash=$1 AND expires_at>NOW() FOR UPDATE"
      [AText (tokenHash token)] binding_columns;;
    let b := binding_of (fst id) pattern proof in
    if blocked : bool then errP GrpcProfileIsBlocked else
    if email != eb_OldEmail b then errP GrpcInvalidActivationCode else
    not_deleting (eb_UserId b) (confirm_stage token b)).

(** [send] is the callback, made while the delivery's row is locked. *)
Definition outside {A} (p : prog A) : dbprog A := interpret (fun X e => call (Outside e)) p.
Definition repo_DeliverEmail (send : EmailDelivery -> prog (outcome unit)) : dbprog (outcome bool) :=
  deferred (
    r <~ call (QueryRow Tx
      "SELECT id,user_id,email,token,link_pattern,purpose,stage FROM email_deliveries WHERE next_attempt<=NOW() AND expires_at>NOW() ORDER BY id FOR UPDATE SKIP LOCKED LIMIT 1"
      [] [TInt; TId; TText; TText; TText; TText; TText]);;
    match r with
    | inl ErrNoRows => okP false
    | inl _ => errP GrpcUnknown
    | inr (id, (user, (email, (token, (pattern, (purpose, (stage, _))))))) =>
        sent <~ outside (send {| ed_UserId := user; ed_Email := email; ed_Token := token;
          ed_LinkPattern := pattern; ed_Purpose := purpose; ed_Stage := stage |});;
        _ <<- exec_or GrpcUnknown Tx
          (match sent with
           | inl _ => "UPDATE email_deliveries SET attempts=attempts+1,next_attempt=NOW()+interval '1 minute' WHERE id=$1"
           | inr _ => "DELETE FROM email_deliveries WHERE id=$1"
           end) [AInt id];;
        committing true
    end).
End Repository.
