(* ===== verification/LegacyRepositoryFacts.v ===== *)
(** What the previous generation does to its database: transactions are always ended, an error
    leaves nothing behind, and passwords, addresses, links and accounts change together with what
    proves or announces the change. *)
From S2P Require Import Prelude GoLib LegacyProgram LegacyServices LegacyDatabase LegacyRepository.
#[local] Open Scope string_scope.
#[local] Open Scope Z_scope.
#[local] Open Scope list_scope.
#[local] Open Scope legacy_scope.

(** ** Runs *)

(** Calls outside the database change nothing of it. *)
Definition silent (log : list dbentry) : Prop :=
  forall s, track s log = Some s /\ forall st, run_store st log = st.

Lemma run_store_app st log tail : run_store st (log ++ tail) = run_store (run_store st log) tail.
Proof. apply fold_left_app. Qed.

Lemma silent_app log tail : silent log -> silent tail -> silent (log ++ tail).
Proof.
  intros Hl Ht s. destruct (Hl s) as [El Sl], (Ht s) as [Et St]. split.
  - by rewrite track_app, El.
  - intros st. by rewrite run_store_app, Sl, St.
Qed.

Lemma outside_silent {A} (p : prog A) : always (outside p) (fun log _ => silent log).
Proof.
  unfold outside, always. induction p as [a|X e k IH]; cbn; [by intros s|]. intros x.
  eapply wlp_always; [apply IH|]. intros tail a Ha. apply silent_app; [by intros s|done].
Qed.

(** [sql] runs through the statements of a method: every answer, every branch. *)
#[export] Hint Unfold begin_then deferred errorWithTransactionRollback commitTransaction committing
  exec_or row_or scan_or exec_or_rollback opaqueToken createOutboxMsg outbox_message
  repo_GetPendingMessages repo_MarkMessageSent repo_CreateOAuthState repo_ConsumeOAuthState
  repo_ConsumeReauthentication repo_CleanupAuthWorkflows addUsersRow addOauthRow
  addActivationCodeRow addOutboxProfileCreatedMsg repo_CreateUser getAuthInfoByCondition
  repo_GetAuthInfoById repo_GetAuthInfoByEmail repo_GetAuthInfoByUsername or_lookup
  repo_GetAuthInfoByIdentifiers repo_CreateSession repo_GetSessions repo_UpdateSession
  repo_DeleteSession repo_DeleteSessions repo_DeleteAllSessions repo_DeleteOutdatedSessions
  repo_GetAuthInfoByRefreshToken repo_GetAuthInfoByFirebaseId repo_GetUsernames repo_SetUsername
  repo_GetProfileActivationCode repo_ActivateProfile repo_IsFirebaseProfileConnected
  addOutboxProfileFirebaseImportMsg repo_ConnectFirebase repo_GetAuthInfoByGoogleId
  repo_GetAuthInfoByVkId not_deleting connectIdentity disconnectIdentity repo_ConnectGoogle
  repo_DeleteGoogleConnection repo_ConnectVk repo_DeleteVkConnection
  removeOutdatedPasswordResetRequests repo_CreatePasswordResetRequest repo_ResetPassword
  repo_SetPassword repo_GetPasswordResetUser repo_GetProfilesToDelete repo_GetDeleteProfileRequest
  lockDeletionUser lockDeletion repo_RequestDeleteProfile repo_UpdateProfileDeletion
  repo_CancelProfileDeletion addOutboxProfileDeletedMsg row_or_nothing repo_DeleteUser
  queueBindingEmail repo_StartEmailBinding repo_ConfirmEmailBinding repo_DeliverEmail
  always : sql.
#[local] Arguments is_select : simpl never.
#[local] Arguments finish_binding : simpl never.
#[local] Arguments confirm_stage : simpl never.
#[local] Arguments outside : simpl never.
#[local] Arguments bound_password : simpl never.
#[local] Arguments change_allowed : simpl never.
Ltac sql := autounfold with sql; legacy.

(** ** Errors *)

(** Whether an answer is an error. *)
Definition is_error {X} (e : event X) : X -> bool :=
  match e in event X return X -> bool with
  | CreateOAuthState _ _ _ | ConsumeOAuthState _ _ _ _ | ConsumeReauthentication _ _
  | CleanupAuthWorkflows | StartEmailBinding _ | ConfirmEmailBinding _ _ | DeliverEmail
  | GetPasswordResetUser _ | CreateUser _ _ _ | GetAuthInfoById _ | GetAuthInfoByEmail _
  | GetAuthInfoByIdentifiers _ | GetAuthInfoByUsername _ | GetAuthInfoByRefreshToken _
  | GetAuthInfoByGoogleId _ | GetAuthInfoByVkId _ | SetPasswordHash _ _ | ActivateProfile _ _
  | StoreSession _ | ListSessions _ | UpdateSession _ _ | DeleteSession _ | DeleteSessions _ _
  | DeleteAllSessions _ | ConnectGoogle _ _ | DeleteGoogleConnection _ | ConnectVk _ _
  | DeleteVkConnection _ | ConnectFirebase _ _ _ | RequestDeleteProfile _ _
  | UpdateProfileDeletion _ _ | CancelProfileDeletion _ | DeleteUser _ _ | GetUsernames _
  | StoreUsername _ _ | CreatePasswordResetRequest _ _ | ResetPassword _ _ _
  | PublishProfilesMessage _ => fun r => match r with inl _ => true | inr _ => false end
  | _ => fun _ => false
  end.
(** The calls that are several statements outside a transaction, and those that refuse what their
    statement answered after it was made. *)
Definition stepwise {X} (e : event X) : bool :=
  match e with
  | CleanupAuthWorkflows | GetAuthInfoByRefreshToken _ | CreatePasswordResetRequest _ _
  | ConsumeOAuthState _ _ _ _ | ActivateProfile _ _ | SetPasswordHash _ _ => true
  | _ => false
  end.
Definition transactional {X} (e : event X) (log : list dbentry) (x : X) : Prop :=
  track Closed log = Some Closed /\
  (is_error e x = true -> stepwise e = false -> kept log = []).

(** A call was made and answered. *)
Definition asked {X} (e : dbevent X) (x : X) (log : list dbentry) : Prop := In (Entry e x) log.

(** What holds of every call that succeeds or keeps nothing. *)
Definition atomically {A} (Q : list dbentry -> A -> Prop) (log : list dbentry) (r : outcome A) : Prop :=
  track Closed log = Some Closed /\ match r with inl _ => kept log = [] | inr a => Q log a end.
Ltac rows := repeat match goal with
  | x : row _ |- _ => destruct x
  | x : (_ * _)%type |- _ => destruct x
  end.
Ltac found := lazymatch goal with |- asked _ _ _ => in_log | _ => idtac end.
Ltac atomic := split; [reflexivity|try reflexivity].

Section Facts.
Context `{Platform}.

(** ** Email bindings *)
Definition delete_write (user : uuid) (table : string) : write :=
  ("DELETE FROM " +:+ table +:+ " WHERE user_id=$1", [AId user]).
Definition finished_tables (b : EmailBinding) : list string :=
  ["email_bindings"; "activation_codes"; "email_deliveries"] ++
  (if eb_Stage b == "new" then ["password_resets"] else []).

(** The last stage in an open transaction commits what was pending, and its own deletions. *)
Lemma finish_binding_spec b status :
  always (finish_binding b status) (fun log r =>
    (exists s, track Open log = Some s) /\
    match r with
    | inr c => c = confirmation b status /\ forall st, st_kept (run_store st log) =
        st_kept st ++ st_pending st ++ map (delete_write (eb_UserId b)) (finished_tables b)
    | inl _ => forall st, st_kept (run_store st log) = st_kept st
    end).
Proof.
  unfold finish_binding, finished_tables. destruct (eb_Stage b == "new"); sql.
  all: split; [by eexists|].
  all: try (split; [done|]); intros st; cbn; by rewrite <- ?app_assoc.
Qed.

Lemma kept_app log tail : kept (log ++ tail) = st_kept (run_store (run_store empty_store log) tail).
Proof. unfold kept, run_store. by rewrite fold_left_app. Qed.
Lemma kept_rollback log x : kept (log ++ [Entry Rollback x]) = kept log.
Proof. by rewrite kept_app. Qed.
Lemma track_rollback s s' log x : track s log = Some s' -> track s (log ++ [Entry Rollback x]) = Some Closed.
Proof. intros Hl. by rewrite track_app, Hl. Qed.

(** What a confirmation changes, by the stage of the proof that was found for the token. *)
Definition confirmed_writes (token next : string) (later : time) (b : EmailBinding) : list write :=
  if eb_Stage b == "verify" then
    ("UPDATE users SET activated=true,password=COALESCE($2,password) WHERE user_id=$1",
      [AId (eb_UserId b); AOptText (eb_PasswordHash b)])
    :: map (delete_write (eb_UserId b)) ["email_bindings"; "activation_codes"; "email_deliveries"]
  else if eb_Stage b == "old" then
    [("UPDATE email_bindings SET token_hash=$2,stage='new',expires_at=$3 WHERE token_hash=$1",
       [AText (tokenHash token); AText (tokenHash next); ATime later]);
     ("DELETE FROM email_deliveries WHERE user_id=$1 AND purpose=$2",
       [AId (eb_UserId b); AText (eb_Purpose b)]);
     ("INSERT INTO email_deliveries(user_id,email,token,link_pattern,purpose,stage,expires_at) VALUES($1,$2,$3,$4,$5,$6,$7)",
       [AId (eb_UserId b); AText (eb_Email b); AText next; AText (eb_LinkPattern b);
        AText (eb_Purpose b); AText "new"; ATime later])]
  else
    ("UPDATE users SET email=$2 WHERE user_id=$1", [AId (eb_UserId b); AText (eb_Email b)])
    :: map (delete_write (eb_UserId b))
         ["email_bindings"; "activation_codes"; "email_deliveries"; "password_resets"].
Definition stage_status (b : EmailBinding) : string :=
  if eb_Stage b == "verify" then "verified" else if eb_Stage b == "old" then "pendingNewEmail" else "changed".

(** The switch on the stage: what it commits, when it does. *)
Lemma confirm_stage_spec token b :
  always (confirm_stage token b) (fun log r =>
    (exists s, track Open log = Some s) /\
    match r with
    | inr c => c = confirmation b (stage_status b) /\ exists next later, forall st,
        st_kept (run_store st log) = st_kept st ++ st_pending st ++ confirmed_writes token next later b
    | inl _ => forall st, st_kept (run_store st log) = st_kept st
    end).
Proof.
  unfold confirm_stage, confirmed_writes, stage_status, always.
  destruct (eb_Stage b == "verify") eqn:Ev; [|destruct (eb_Stage b == "old") eqn:Eo].
  - sql; try (split; [by eexists|done]).
    eapply wlp_always; [apply finish_binding_spec|]. intros tail [err|c] [[s Hs] Hk].
    + split; [rewrite track_app; by eexists|]. intros st. by rewrite run_store_app, Hk.
    + destruct Hk as [-> Hk]. split; [rewrite track_app; by eexists|]. split; [done|].
      exists "", 0. intros st. rewrite run_store_app, Hk. unfold finished_tables.
      rewrite beq_true in Ev. rewrite Ev. cbn. by rewrite <- app_assoc.
  - sql; (split; [by eexists|]); try done.
    split; [done|]. do 2 eexists. intros st. cbn. rewrite <- !app_assoc. reflexivity.
  - destruct (eb_Stage b == "new") eqn:En; [|split; [by eexists|done]].
    sql; try (split; [by eexists|done]).
    eapply wlp_always; [apply finish_binding_spec|]. intros tail [err|c] [[s Hs] Hk].
    + split; [rewrite track_app; by eexists|]. intros st. by rewrite run_store_app, Hk.
    + destruct Hk as [-> Hk]. split; [rewrite track_app; by eexists|]. split; [done|].
      exists "", 0. intros st. rewrite run_store_app, Hk. unfold finished_tables. rewrite En.
      cbn. by rewrite <- app_assoc.
Qed.
(** A proof of an address is accepted once for an unblocked profile that still has the address
  the proof was made for; what it changes is committed together, by its stage: an activation, the
  request to the new address, or the new address. A refused proof changes nothing. *)
Lemma ConfirmEmailBinding_spec token pattern :
  always (repo_ConfirmEmailBinding token pattern) (atomically (fun log c =>
    exists id proof u next later,
      let b := binding_of id pattern proof in
      asked (QueryRow Tx "SELECT purpose,stage,old_email,email,password_hash,expires_at FROM email_bindings WHERE token_hash=$1 AND expires_at>NOW() FOR UPDATE"
        [AText (tokenHash token)] binding_columns) (inr proof) log /\
      asked (QueryRow Tx "SELECT email,blocked FROM users WHERE user_id=$1 FOR UPDATE" [AId id]
        [TText; TBool]) (inr (eb_OldEmail b, (false, u))) log /\
      c = confirmation b (stage_status b) /\ kept log = confirmed_writes token next later b)).
Proof.
  sql; try (split; reflexivity).
  eapply wlp_always; [apply confirm_stage_spec|]. intros tail r [[state Hs] Hr].
  cbn [wlp bindP]. intros rolled. split; [apply (track_rollback _ state); by rewrite track_app|].
  rewrite kept_rollback, kept_app. destruct r as [err|c]; [by rewrite Hr|].
  destruct Hr as (-> & next & later & Hk). exists p.1, p2, u0, next, later. cbv zeta.
  match goal with E : (_ != _) = false |- _ => rewrite negb_beq_false in E; rewrite <- E end.
  split_and!; [| |done|rewrite Hk; reflexivity].
  all: unfold asked; rewrite !in_app_iff; left; left; simpl; tauto.
Qed.

Lemma DeliverEmail_transactional (send : EmailDelivery -> prog (outcome unit)) :
  always (repo_DeliverEmail send) (transactional DeliverEmail).
Proof.
  sql; try (split; reflexivity).
  eapply wlp_always; [apply outside_silent|]. intros tail sent Ht. legacy.
  all: rewrite <- ?app_assoc; split; [simpl; rewrite track_app, (proj1 (Ht _)); reflexivity|].
  all: intros He _; try discriminate He.
  all: match goal with |- kept (?a :: ?b :: ?l) = _ => change (kept ([a; b] ++ l) = []) end.
  all: by rewrite kept_app, run_store_app, (proj2 (Ht Open)).
Qed.

(** A new password is stored only together with the use of an unexpired code of the same profile
  that affected a row, for a profile that is neither blocked nor awaiting deletion. *)
Lemma ResetPassword_spec user code hash :
  always (repo_ResetPassword user code hash) (atomically (fun log _ =>
    exists now n u v w, n <> 0 /\
      asked (QueryRow Tx "SELECT blocked FROM users WHERE user_id=$1 FOR UPDATE" [AId user] [TBool])
        (inr (false, u)) log /\
      asked (QueryRow Tx "SELECT EXISTS(SELECT 1 FROM password_resets WHERE user_id=$1 AND reset_code=$2 AND used=false AND expires_at>NOW())"
        [AId user; AText code] [TBool]) (inr (true, v)) log /\
      asked (QueryRow Tx deletion_exists_query [AId user] [TBool]) (inr (false, w)) log /\
      let use := ("UPDATE password_resets SET used=true WHERE user_id=$1 AND reset_code=$2 AND used=false AND expires_at>$3",
        [AId user; AText code; ATime now]) in
      asked (Exec Tx use.1 use.2) (inr (Some n)) log /\
      kept log = [use; ("UPDATE users SET password=$1 WHERE user_id=$2", [AText hash; AId user])])).
Proof.
  sql; atomic. rows.
  simpl in *. bsimp. do 5 eexists. split_and!; found; done.
Qed.

(** The link of a profile to an identity. *)
Lemma connectIdentity_spec user column value text :
  always (connectIdentity user column value text) (atomically (fun log changed =>
    exists old u v w,
      asked (QueryRow Tx "SELECT blocked FROM users WHERE user_id=$1 FOR UPDATE" [AId user] [TBool])
        (inr (false, u)) log /\
      asked (QueryRow Tx deletion_exists_query [AId user] [TBool]) (inr (false, v)) log /\
      asked (QueryRow Tx ("SELECT " +:+ column +:+ "::text FROM oauth WHERE user_id=$1 FOR UPDATE")
        [AId user] [TOptText]) (inr (old, w)) log /\
      if changed : bool
      then old = None /\
        kept log = [("UPDATE oauth SET " +:+ column +:+ "=$2 WHERE user_id=$1", [AId user; value])]
      else old = Some text /\ kept log = [])).
Proof.
  sql; atomic. all: rows.
  all: simpl in *; bsimp; do 4 eexists; split_and!; found; done.
Qed.
Lemma disconnectIdentity_spec user column :
  always (disconnectIdentity user column) (atomically (fun log _ =>
    kept log = [] \/ exists hasPassword google vk u v w,
      asked (QueryRow Tx "SELECT blocked,COALESCE(octet_length(password)>0,false) FROM users WHERE user_id=$1 FOR UPDATE"
        [AId user] [TBool; TBool]) (inr (false, (hasPassword, u))) log /\
      asked (QueryRow Tx deletion_exists_query [AId user] [TBool]) (inr (false, v)) log /\
      asked (QueryRow Tx "SELECT google_id,vk_id::text FROM oauth WHERE user_id=$1 FOR UPDATE" [AId user]
        [TOptText; TOptText]) (inr (google, (vk, w))) log /\
      (hasPassword = true \/ (isSome google = true /\ isSome vk = true)) /\
      kept log = [("UPDATE oauth SET " +:+ column +:+ "=NULL WHERE user_id=$1", [AId user])])).
Proof.
  sql; atomic; [by left|right]. rows.
  simpl in *. bsimp. do 6 eexists. split_and!; found; try reflexivity. naive_solver.
Qed.

(** An account is deleted only when its deadline has passed, together with the event that
  announces it and carries the policy of its request. *)
Lemma DeleteUser_spec user shared :
  always (repo_DeleteUser user shared) (atomically (fun log msg =>
    match msg with
    | None => kept log = []
    | Some m => exists policy deadline now u,
        asked (QueryRow Tx "SELECT with_shared_data,deletion_timestamp FROM delete_profile_requests WHERE user_id=$1 FOR UPDATE"
          [AId user] [TBool; TTime]) (inr (policy, (deadline, u))) log /\
        asked Now now log /\ deadline <= now /\
        md_Type m = MsgTypeProfileDeleted /\ md_Body m = deleted_body user policy /\
        kept log = [("DELETE FROM users WHERE user_id=$1", [AId user]);
          ("INSERT INTO outbox (message_id, exchange, type, body) VALUES ($1, $2, $3, $4)",
           [AId (md_Id m); AText (md_Exchange m); AText (md_Type m); AText (md_Body m)])]
    end)).
Proof.
  sql; atomic. do 4 eexists. unfold After in *. bsimp.
  split_and!; found; done.
Qed.

(** A profile is created with its links, its activation code and the event that announces it. *)
Lemma CreateUser_spec c code o :
  always (repo_CreateUser c code o) (atomically (fun log r =>
    let '(id, m) := r in
    md_Type m = MsgTypeProfileCreated /\ md_Body m = created_body id /\
    kept log =
      ("INSERT INTO users (user_id, email, password, activated) VALUES ($1, $2, $3, $4)",
        [AId id; AText (ch_Email c); AOptText (ch_PasswordHash c); ABool (negb (isSome code))]) ::
      ("INSERT INTO oauth (user_id, google_id, vk_id) VALUES ($1, $2, $3)",
        [AId id; AOptText (GoogleId o); AOptInt (VkId o)]) ::
      match code with
      | Some code => [("INSERT INTO activation_codes (activation_code, user_id) VALUES ($1, $2)",
                       [AText code; AId id])]
      | None => []
      end ++
      [("INSERT INTO outbox (message_id, exchange, type, body) VALUES ($1, $2, $3, $4)",
        [AId (md_Id m); AText (md_Exchange m); AText (md_Type m); AText (md_Body m)])])).
Proof. sql; atomic; by split_and!. Qed.

(** Statements of a transaction that only look. *)
Definition looks (log : list dbentry) : Prop :=
  track Open log = Some Open /\ forall st, run_store st log = st.
Lemma bound_password_looks b : always (bound_password b) (fun log _ => looks log).
Proof. unfold bound_password. sql; by split. Qed.
Lemma change_allowed_looks b current blocked :
  always (change_allowed b current blocked) (fun log r => looks log /\
    (r = inr tt -> eb_Purpose b = "change" -> blocked = false /\ current = eb_OldEmail b /\
      exists v, asked (QueryRow Tx deletion_exists_query [AId (eb_UserId b)] [TBool]) (inr (false, v)) log)).
Proof.
  unfold change_allowed. sql; (split; [by split|]); intros Hr Hp; try done; rows; simpl in *; bsimp; try done.
  split_and!; [done..|]. eexists. in_log.
Qed.
(** [looked] ends the account of a log with such statements in it. *)
Ltac looked :=
  try match goal with |- kept (?a :: ?b :: ?c :: ?l) = ?r => change (kept ([a; b; c] ++ l) = r) end;
  first [ unfold kept; rewrite !run_store_app | idtac ];
  repeat match goal with H : looks ?t |- context [run_store _ ?t] => rewrite (proj2 H) end;
  cbn;
  repeat (first [ rewrite track_app | rewrite beq_refl
                | match goal with H : looks ?t |- context [track Open ?t] => rewrite (proj1 H) end ]; cbn);
  reflexivity.

(** A proof of an address is asked for only for the address a profile has and may still verify, or
  by an unblocked profile without a pending change or deletion; the request replaces an earlier one
  of its purpose together with the mail that asks for it. *)
Lemma StartEmailBinding_spec b :
  always (repo_StartEmailBinding b) (atomically (fun log _ =>
    (eb_Purpose b = "verify" /\ kept log = []) \/
    exists token hash current activated blocked u,
      asked (QueryRow Tx "SELECT email,activated,blocked FROM users WHERE user_id=$1 FOR UPDATE"
        [AId (eb_UserId b)] [TText; TBool; TBool]) (inr (current, (activated, (blocked, u)))) log /\
      (eb_Purpose b = "verify" -> activated = false /\ blocked = false /\ current = eb_Email b) /\
      (eb_Purpose b = "change" -> blocked = false /\ current = eb_OldEmail b /\
        exists v, asked (QueryRow Tx deletion_exists_query [AId (eb_UserId b)] [TBool])
          (inr (false, v)) log) /\
      kept log =
        [("DELETE FROM email_bindings WHERE user_id=$1 AND purpose=$2",
          [AId (eb_UserId b); AText (eb_Purpose b)]);
         ("INSERT INTO email_bindings(token_hash,user_id,purpose,stage,old_email,email,password_hash,expires_at) VALUES($1,$2,$3,$4,$5,$6,$7,$8)",
          [AText (tokenHash token); AId (eb_UserId b); AText (eb_Purpose b); AText (eb_Stage b);
           AText current; AText (eb_Email b); AOptText hash; ATime (eb_ExpiresAt b)]);
         ("DELETE FROM email_deliveries WHERE user_id=$1 AND purpose=$2",
          [AId (eb_UserId b); AText (eb_Purpose b)]);
         ("INSERT INTO email_deliveries(user_id,email,token,link_pattern,purpose,stage,expires_at) VALUES($1,$2,$3,$4,$5,$6,$7)",
          [AId (eb_UserId b);
           AText (if eb_Stage b == "old" then eb_OldEmail b else eb_Email b); AText token;
           AText (eb_LinkPattern b); AText (eb_Purpose b); AText (eb_Stage b);
           ATime (eb_ExpiresAt b)])])).
Proof.
  sql; try (split; [reflexivity|first [reflexivity|left; by bsimp]]).
  eapply wlp_always; [apply bound_password_looks|]. intros t1 [err|hash] H1; cbn [wlp bindP errP].
  { intros rolled. split; looked. }
  apply wlp_bind. eapply wlp_always; [apply change_allowed_looks|]. intros t2 [err|[]] [H2 Hc].
  { cbn. intros rolled. split; looked. }
  legacy; (split; [looked|]); try looked.
  right. exists s, hash, s0, b0, b1, u0. split_and!; [right; right; by left| | |looked].
  - intros Hp. rewrite Hp in Heqb2. bsimp. destruct_or?; bsimp; done.
  - intros Hp. destruct (Hc eq_refl Hp) as (-> & -> & v & Hv). split_and!; [done..|]. exists v.
    unfold asked. do 3 right. rewrite !in_app_iff. tauto.
Qed.
End Facts.
