(* ===== verification/LegacyMail.v ===== *)
(** internal/service/mail: the mails of the previous generation, rendered and handed to a sender.
    A definition [mail_X] is the method X of Service. *)
From S2P Require Import Prelude GoLib LegacyProgram LegacyServices.
#[local] Open Scope string_scope.
#[local] Open Scope Z_scope.
#[local] Open Scope list_scope.
#[local] Open Scope legacy_scope.

(** Payload.SetHtmlBody of the common module (the body it leaves, and whether it succeeded),
    fmt.Sprintf of a pattern from outside with one string, and time.RFC1123. *)
Class MailLibraries : Type := {
  SetHtmlBody : string -> list (string * string) -> string * bool;
  Sprintf1 : string -> string -> string;
  Format_RFC1123 : time -> string;
}.

(** assets/routes.go *)
Definition RootDirPath : string := "./assets".
Definition EmailBindingMailTmplFilePath : string := RootDirPath +:+ "/mail/email_binding.html".
Definition MailTemplatesDirPath : string := RootDirPath +:+ "/mail".
Definition ProfileActivationMailTmplFilePath : string :=
  MailTemplatesDirPath +:+ "/profile_activation.html".
Definition NewLoginFilePath : string := MailTemplatesDirPath +:+ "/new_login.html".
Definition PasswordResetMailTmplFilePath : string := MailTemplatesDirPath +:+ "/password_reset.html".
Definition PasswordChangedMailTmplFilePath : string :=
  MailTemplatesDirPath +:+ "/password_changed.html".
Definition UsernameChangedMailTmplFilePath : string :=
  MailTemplatesDirPath +:+ "/username_changed.html".
Definition ProfileDeletionRequestMailTmplFilePath : string :=
  MailTemplatesDirPath +:+ "/profile_deletion_request.html".
Definition ProfileDeletedMailTmplFilePath : string := MailTemplatesDirPath +:+ "/profile_deleted.html".
Definition UsernamesDirPath : string := RootDirPath +:+ "/usernames".
Definition ForbiddenUsernamesFilePath : string := UsernamesDirPath +:+ "/forbidden_usernames.txt".

(** Service, without its collaborators; the sender is stubbed without an SMTP host. *)
Record MailService := { IsStub : bool; IsDevEnv : bool; sendAttempts : Z }.

Section Mail.
Context `{MailLibraries} `{LegacyLibraries} (s : MailService).

Definition mail_sendMessage (p : MailPayload) : prog unit :=
  let p := if IsDevEnv s
           then {| mp_To := mp_To p; mp_Subject := mp_Subject p; mp_Body := "DEV" +:+ String "010" (mp_Body p) |}
           else p in
  _ <~ call (SmtpSend p (sendAttempts s));;
  Done tt.
(** A mail whose template cannot be rendered is sent all the same. *)
Definition send_rendered (email subject template : string) (values : list (string * string))
    : prog unit :=
  mail_sendMessage {| mp_To := email; mp_Subject := subject;
    mp_Body := (SetHtmlBody template values).1 |}.

Definition mail_SendProfileActivationMail (email code pattern : string) : prog unit :=
  send_rendered email "ChefBook Profile Activation" ProfileActivationMailTmplFilePath
    [("ActivationCode", code); ("ActivationLink", Sprintf1 pattern code)].
Definition mail_SendNewLoginMail (email : string) (client : ClientData) (timestamp : time) : prog unit :=
  location <~ call (GetLocation (cd_Ip client));;
  send_rendered email "ChefBook New Profile Login" NewLoginFilePath
    [("IP", cd_Ip client); ("Access", access_point (cd_UserAgent client)); ("Location", location);
     ("Timestamp", Format_RFC1123 timestamp)].
Definition mail_SendResetPasswordMail (email code pattern : string) : prog unit :=
  send_rendered email "ChefBook Profile Password Reset" PasswordResetMailTmplFilePath
    [("ResetLink", Sprintf1 pattern code)].
Definition mail_SendPasswordChangedMail (email : string) : prog unit :=
  send_rendered email "ChefBook Profile Password Update" PasswordChangedMailTmplFilePath [].
Definition mail_SendUsernameChangedMail (email username : string) : prog unit :=
  send_rendered email "ChefBook Profile Username Update" UsernameChangedMailTmplFilePath
    [("Username", username)].
Definition mail_SendProfileDeletionRequestMail (email : string) (timestamp : time) (shared : bool)
    : prog unit :=
  send_rendered email "ChefBook Profile Deletion Request" ProfileDeletionRequestMailTmplFilePath
    [("IncludeSharedData", if shared then "including" else "excluding");
     ("Timestamp", Format_RFC1123 timestamp)].
Definition mail_SendProfileDeletedMail (email : string) : prog unit :=
  send_rendered email "ChefBook Profile Deleted" ProfileDeletedMailTmplFilePath [].

(** The callback of the delivery worker: its failures are reported, to be retried. *)
Definition mail_SendEmailBinding (d : EmailDelivery) : prog (outcome unit) :=
  let old := ed_Stage d == "old" in
  let subject := if old then "ChefBook: approve email change" else "ChefBook: confirm your email" in
  let instruction :=
    if old then "Approve changing your ChefBook email address. We will then send a separate confirmation to the new address."
    else "Confirm this email address for your ChefBook account." in
  match SetHtmlBody EmailBindingMailTmplFilePath
          [("Instruction", instruction); ("ConfirmationLink", Sprintf1 (ed_LinkPattern d) (ed_Token d))] with
  | (_, false) => errP (Plain "template")
  | (body, true) =>
      call (SmtpSend
        {| mp_To := ed_Email d;
           mp_Subject := if IsDevEnv s then "[DEV] " +:+ subject else subject;
           mp_Body := if IsDevEnv s then "DEV" +:+ String "010" body else body |} (sendAttempts s))
  end.

(** What a mail of the services makes the service send. *)
Definition send_mail (m : LegacyMail) : prog unit :=
  match m with
  | NewLoginMail _ email client at_time => mail_SendNewLoginMail email client at_time
  | ResetPasswordMail _ email code pattern => mail_SendResetPasswordMail email code pattern
  | PasswordChangedMail _ email => mail_SendPasswordChangedMail email
  | UsernameChangedMail _ email username => mail_SendUsernameChangedMail email username
  | DeletionRequestMail _ email deadline shared => mail_SendProfileDeletionRequestMail email deadline shared
  | ProfileDeletedMail _ email => mail_SendProfileDeletedMail email
  end.
End Mail.
