(* ===== verification/LegacySystem.v ===== *)
(** The previous generation put together: internal/repository/amqp, and the services over the
    repository, the mail service and the message queue as internal/transport/dependencies/service
    connects them; which writes of a run the database keeps. *)
From S2P Require Import Prelude GoLib LegacyProgram LegacyServices LegacyDatabase LegacyRepository LegacyMail.
#[local] Open Scope string_scope.
#[local] Open Scope Z_scope.
#[local] Open Scope list_scope.
#[local] Open Scope legacy_scope.

Section System.
Context `{Platform} `{MailLibraries} `{LegacyLibraries}.
Context (profileDeleteOffset : duration) (mail : MailService).

(** ** internal/repository/amqp *)

(** A message leaves the outbox when the broker has accepted it; that it may stay all the same is
    of no consequence to the caller. *)
Definition amqp_PublishProfilesMessage (m : MessageData) : dbprog (outcome unit) :=
  r <~ call (Outside (AmqpPublish ExchangeProfiles AppId m));;
  match r with
  | inl err => errP err
  | inr _ => _ <~ repo_MarkMessageSent (md_Id m);; okP tt
  end.

(** One round of observeOutbox: the pending messages, until five could not be published. *)
Fixpoint publish_each (msgs : list MessageData) (fails : Z) : dbprog unit :=
  match msgs with
  | [] => Done tt
  | m :: msgs =>
      r <~ amqp_PublishProfilesMessage m;;
      match r with
      | inr _ => publish_each msgs fails
      | inl _ => if 5 <=? fails + 1 then Done tt else publish_each msgs (fails + 1)
      end
  end.
Definition observe_round : dbprog unit :=
  r <~ repo_GetPendingMessages;;
  match r with inl _ => Done tt | inr msgs => publish_each msgs 0 end.
(** The loop, for a number of rounds. *)
Fixpoint amqp_observeOutbox (rounds : nat) : dbprog unit :=
  match rounds with O => Done tt | S rounds => _ <~ observe_round;; amqp_observeOutbox rounds end.

(** ** The collaborators of the services *)
Definition collaborators (X : Type) (e : event X) : dbprog X :=
  match e in event X return dbprog X with
  | CreateOAuthState provider redirect binding => repo_CreateOAuthState provider redirect binding
  | ConsumeOAuthState provider state redirect binding =>
      repo_ConsumeOAuthState provider state redirect binding
  | ConsumeReauthentication user token => repo_ConsumeReauthentication user token
  | CleanupAuthWorkflows => repo_CleanupAuthWorkflows
  | StartEmailBinding b => repo_StartEmailBinding b
  | ConfirmEmailBinding token pattern => repo_ConfirmEmailBinding token pattern
  | DeliverEmail => repo_DeliverEmail (mail_SendEmailBinding mail)
  | GetPasswordResetUser code => repo_GetPasswordResetUser code
  | CreateUser c activation o => repo_CreateUser c activation o
  | GetAuthInfoById user => repo_GetAuthInfoById user
  | GetAuthInfoByEmail email => repo_GetAuthInfoByEmail email
  | GetAuthInfoByIdentifiers i => repo_GetAuthInfoByIdentifiers i
  | GetAuthInfoByUsername username => repo_GetAuthInfoByUsername username
  | GetAuthInfoByRefreshToken token => repo_GetAuthInfoByRefreshToken token
  | GetAuthInfoByGoogleId id => repo_GetAuthInfoByGoogleId id
  | GetAuthInfoByVkId id => repo_GetAuthInfoByVkId id
  | SetPasswordHash user hash => repo_SetPassword user hash
  | ActivateProfile user code => repo_ActivateProfile user code
  | StoreSession s => repo_CreateSession s
  | ListSessions user => repo_GetSessions user
  | UpdateSession s old => repo_UpdateSession s old
  | DeleteSession token => repo_DeleteSession token
  | DeleteSessions user ids => repo_DeleteSessions user ids
  | DeleteAllSessions user => repo_DeleteAllSessions user
  | DeleteOutdatedSessions user threshold => repo_DeleteOutdatedSessions user threshold
  | ConnectGoogle user id => repo_ConnectGoogle user id
  | DeleteGoogleConnection user => repo_DeleteGoogleConnection user
  | ConnectVk user id => repo_ConnectVk user id
  | DeleteVkConnection user => repo_DeleteVkConnection user
  | IsFirebaseProfileConnected id => repo_IsFirebaseProfileConnected id
  | ConnectFirebase user id created => repo_ConnectFirebase user id created
  | GetProfilesToDelete => repo_GetProfilesToDelete
  | RequestDeleteProfile user shared => repo_RequestDeleteProfile profileDeleteOffset user shared
  | UpdateProfileDeletion user shared => repo_UpdateProfileDeletion user shared
  | CancelProfileDeletion user => repo_CancelProfileDeletion user
  | DeleteUser user shared => repo_DeleteUser user shared
  | GetUsernames users => repo_GetUsernames users
  | StoreUsername user name => repo_SetUsername user name
  | CreatePasswordResetRequest user expires => repo_CreatePasswordResetRequest user expires
  | ResetPassword user code hash => repo_ResetPassword user code hash
  | PublishProfilesMessage m => amqp_PublishProfilesMessage m
  | SendMail m => outside (send_mail mail m)
  | e => call (Outside e)
  end.
(** A program of the services over them. *)
Definition run_over {A} (p : prog A) : dbprog A := interpret collaborators p.
End System.
