(* ===== verification/LegacySystemFacts.v ===== *)
(** The services of the previous generation over their repository, mail and queue: every call ends
    its transaction and keeps nothing when it fails, and so do the programs made of calls. *)
From S2P Require Import Prelude GoLib LegacyProgram LegacyServices LegacyDatabase LegacyRepository LegacyMail LegacySystem LegacyFacts LegacyRepositoryFacts.
#[local] Open Scope string_scope.
#[local] Open Scope Z_scope.
#[local] Open Scope list_scope.
#[local] Open Scope legacy_scope.
#[local] Arguments is_select : simpl never.
#[local] Arguments dto_Entity : simpl never.

Section Facts.
Context `{Platform} `{MailLibraries} `{LegacyLibraries}.
Context (profileDeleteOffset : duration) (mail : MailService).
Abbreviation collab := (collaborators profileDeleteOffset mail).
Abbreviation over := (run_over profileDeleteOffset mail).

Lemma atomic_transactional {A} (e : event (outcome A)) (p : dbprog (outcome A)) Q :
  (forall a, is_error e (inr a) = false) -> always p (atomically Q) -> always p (transactional e).
Proof.
  intros He Hp. eapply wlp_mono; [exact Hp|]. intros log [err|a] [Ht Hk]; (split; [done|]).
  - done.
  - by rewrite He.
Qed.

(** Every call of the services. *)
Lemma collaborators_transactional X (e : event X) : always (collab X e) (transactional e).
Proof.
  destruct e; cbn [collaborators].
  all: lazymatch goal with
    | |- always (repo_ConfirmEmailBinding _ _) _ =>
        eapply atomic_transactional; [done|apply ConfirmEmailBinding_spec]
    | |- always (repo_StartEmailBinding _) _ =>
        eapply atomic_transactional; [done|apply StartEmailBinding_spec]
    | |- always (repo_ResetPassword _ _ _) _ => eapply atomic_transactional; [done|apply ResetPassword_spec]
    | |- always (repo_DeleteUser _ _) _ => eapply atomic_transactional; [done|apply DeleteUser_spec]
    | |- always (repo_CreateUser _ _ _) _ => eapply atomic_transactional; [done|apply CreateUser_spec]
    | |- always (repo_ConnectGoogle _ _) _ => eapply atomic_transactional; [done|apply connectIdentity_spec]
    | |- always (repo_ConnectVk _ _) _ => eapply atomic_transactional; [done|apply connectIdentity_spec]
    | |- always (repo_DeleteGoogleConnection _) _ =>
        eapply atomic_transactional; [done|apply disconnectIdentity_spec]
    | |- always (repo_DeleteVkConnection _) _ =>
        eapply atomic_transactional; [done|apply disconnectIdentity_spec]
    | |- always (repo_DeliverEmail _) _ => apply DeliverEmail_transactional
    | |- always (outside _) _ =>
        eapply wlp_mono; [apply outside_silent|]; intros log a Ha; split; [apply Ha|done]
    | |- always (amqp_PublishProfilesMessage _) _ =>
        unfold amqp_PublishProfilesMessage; sql; (split; [reflexivity|intros; solve [done|reflexivity]])
    | |- _ => sql; (split; [reflexivity|intros; solve [done|reflexivity]])
    end.
Qed.

(** ** Programs of the services over their collaborators *)
Lemma collaborators_closes X (e : event X) : closes (collab X e).
Proof. eapply wlp_mono; [apply collaborators_transactional|]. by intros log x [Ht _]. Qed.
Lemma run_over_closes {A} (p : prog A) : closes (over p).
Proof. apply interpret_closes, collaborators_closes. Qed.

(** Ended runs keep their writes one after the other. *)
Lemma run_store_kept log st : exists new, st_kept (run_store st log) = st_kept st ++ new /\
  forall st', st_pending st' = st_pending st -> st_kept (run_store st' log) = st_kept st' ++ new /\
    st_pending (run_store st' log) = st_pending (run_store st log).
Proof.
  revert st. induction log as [|x log IH]; intros st.
  - exists []. rewrite app_nil_r. split; [done|]. intros st' Hp. by rewrite app_nil_r.
  - destruct (IH (store_next st x)) as (new & _ & Hn).
    assert (exists first, forall st', st_pending st' = st_pending st ->
      st_kept (store_next st' x) = st_kept st' ++ first /\
      st_pending (store_next st' x) = st_pending (store_next st x)) as [first Hf].
    { destruct x as [X e a], e; cbn; unfold add_write; repeat case_match; cbn.
      all: first [ exists []; intros st' Hp; rewrite ?Hp, app_nil_r; by split
                 | eexists; intros st' Hp; rewrite Hp; by split ]. }
    assert (forall st', st_pending st' = st_pending st ->
      st_kept (run_store st' (x :: log)) = st_kept st' ++ first ++ new /\
      st_pending (run_store st' (x :: log)) = st_pending (run_store st (x :: log))) as Hall.
    { intros st' Hp. destruct (Hf st' Hp) as [Ek Ep], (Hn (store_next st' x) Ep) as [Hk Hq].
      cbn. fold (run_store (store_next st' x) log) (run_store (store_next st x) log).
      by rewrite Hk, Ek, <- app_assoc. }
    exists (first ++ new). split; [by apply Hall|done].
Qed.
Lemma closed_pending log s s' st : track s log = Some s' -> (s = Closed -> st_pending st = []) ->
  s' = Closed -> st_pending (run_store st log) = [].
Proof.
  revert s st. induction log as [|x log IH]; intros s st Ht Hs Hc; cbn in *; [by apply Hs; simplify_eq|].
  destruct (tx_next s x) as [s1|] eqn:Ex; [|done]. apply (IH _ (store_next st x) Ht); [|done].
  intros ->. destruct x as [X e a], e, s; cbn in *; unfold add_write in *; repeat case_match; simplify_eq/=; auto.
Qed.
Lemma kept_after log tail : track Closed log = Some Closed -> kept (log ++ tail) = kept log ++ kept tail.
Proof.
  intros Hl. rewrite kept_app. destruct (run_store_kept tail empty_store) as (new & Hn & Hall).
  destruct (Hall (run_store empty_store log)) as [E _].
  { by apply (closed_pending log Closed Closed). }
  rewrite E. unfold kept. by rewrite Hn.
Qed.

(** [wlp_ended] runs a call from an ended run: the writes it keeps follow those kept before. *)
Lemma wlp_ended {A} (p : dbprog A) log Q Q' :
  track Closed log = Some Closed -> closes p -> always p Q ->
  (forall tail a, track Closed (log ++ tail) = Some Closed -> kept (log ++ tail) = kept log ++ kept tail ->
     Q tail a -> Q' (log ++ tail) a) ->
  wlp p log Q'.
Proof.
  intros Hl Hc Hp HQ. eapply wlp_always; [apply wlp_and; [exact Hc|exact Hp]|].
  intros tail a [Ht Ha]. apply HQ; [by rewrite track_app, Hl|by apply kept_after|done].
Qed.

(** C38: Whatever the repository, mail and queue of the previous generation answer: each call the
  services make of them ends its transaction, and one that fails keeps none of its writes, unless it
  is several statements by design; and no program of the services leaves a transaction open. *)
Theorem legacy_calls_transactional :
(forall X (e : event X), always (collab X e) (transactional e)) /\
(forall A (p : prog A), closes (over p)).
Proof. split; [apply collaborators_transactional|apply @run_over_closes]. Qed.

(** Lookups keep nothing. *)
Definition reads {A} (log : list dbentry) (_ : A) : Prop := kept log = [].
Lemma GetAuthInfoById_reads user : always (repo_GetAuthInfoById user) reads.
Proof. unfold reads. sql; reflexivity. Qed.
Lemma GetPasswordResetUser_reads code : always (repo_GetPasswordResetUser code) reads.
Proof. unfold reads. sql; reflexivity. Qed.

(** [service] runs a program of the services up to its next call, or to its end. *)
Ltac service := unfold run_over; cbn [interpret bindP checkP call okP errP wlp].

(** The end of a reset, for the profile it was asked for. *)
Definition reset_writes (user : uuid) (code hash : string) (now : time) : list write :=
  [("UPDATE password_resets SET used=true WHERE user_id=$1 AND reset_code=$2 AND used=false AND expires_at>$3",
    [AId user; AText code; ATime now]);
   ("UPDATE users SET password=$1 WHERE user_id=$2", [AText hash; AId user])].
Definition reset_done (code new : string) (log : list dbentry) (r : outcome unit) : Prop :=
  match r with
  | inl _ => kept log = []
  | inr _ => exists user hash now, asked (Outside (HashPassword new)) (inr hash) log /\
      kept log = reset_writes user code hash now
  end.

Lemma Reset_from user code new log :
  track Closed log = Some Closed -> kept log = [] ->
  wlp (over (info <<- call (GetAuthInfoById user);;
       if IsBlocked info then errP GrpcProfileIsBlocked else
       if isSome (DeletionTimestamp info) then errP GrpcAccountDeleting else
       hash <<- hash_password new;;
       call (ResetPassword user code hash))) log (reset_done code new).
Proof.
  intros Hl Hk. service. apply wlp_bind.
  eapply wlp_ended; [done|apply collaborators_closes|apply GetAuthInfoById_reads|].
  intros tail [err|info] Ht Hkt Hr; service; rewrite Hk, Hr in Hkt; cbn in Hkt.
  { unfold reset_done. by rewrite Hkt. }
  destruct (IsBlocked info); [by unfold reset_done; service; rewrite Hkt|].
  destruct (isSome _); [by unfold reset_done; service; rewrite Hkt|].
  unfold hash_password. service. apply wlp_bind.
  cbn [collaborators]. service.
  intros [err|hash]; service; [unfold reset_done; by rewrite kept_after, Hkt|].
  apply wlp_bind.
  eapply wlp_ended; [by rewrite track_app, Ht|apply (collaborators_closes _ (ResetPassword _ _ _))|
    apply ResetPassword_spec|].
  intros tail' r _ Hk' [_ Hd]. service. rewrite (kept_after (_ ++ tail)), Hkt in Hk' by done. cbn in Hk'.
  destruct r as [err|[]]; unfold reset_done; [by rewrite Hk'|].
  destruct Hd as (now & n & u & v & w & _ & _ & _ & _ & _ & Hw). exists user, hash, now.
  split; [|by rewrite Hk', Hw]. unfold asked. rewrite !in_app_iff. left; right; by left.
Qed.

(** A reset, from the service to the database: a new password is kept only together with the use
  of its code, and is the hash of the password that was sent; otherwise nothing is kept. *)
Theorem Reset_over_repository user code new :
always (over (password_Reset user code new)) (reset_done code new).
Proof.
unfold password_Reset. destruct (user == uuid_Nil).
- service. apply wlp_bind.
  eapply wlp_ended; [done|apply collaborators_closes|apply GetPasswordResetUser_reads|].
  intros tail [err|id] Ht Hk Hr; service; [unfold reset_done; by rewrite Hk, Hr|].
  apply (Reset_from id); [done|by rewrite Hk, Hr].
- by apply (Reset_from user).
Qed.

(** A message leaves the outbox only after the broker has accepted it. *)
Lemma publish_removes_accepted m :
  always (amqp_PublishProfilesMessage m) (fun log r =>
    kept log = [] \/ (r = inr tt /\ asked (Outside (AmqpPublish ExchangeProfiles AppId m)) (inr tt) log /\
      kept log = [("DELETE FROM outbox WHERE message_id=$1", [AId (md_Id m)])])).
Proof.
  unfold amqp_PublishProfilesMessage. sql; try (left; reflexivity).
  destruct x as [err|n]; [by left|right]. repeat match goal with u : () |- _ => destruct u end.
  split_and!; [done|in_log|reflexivity].
Qed.
Definition accepted_removal (log : list dbentry) (w : write) : Prop := exists m,
  asked (Outside (AmqpPublish ExchangeProfiles AppId m)) (inr tt) log /\
  w = ("DELETE FROM outbox WHERE message_id=$1", [AId (md_Id m)]).
Theorem observe_round_removes_accepted :
always observe_round (fun log _ =>
  track Closed log = Some Closed /\ forall w, In w (kept log) -> accepted_removal log w).
Proof.
unfold observe_round, always. apply wlp_bind.
eapply wlp_mono with (Q := fun log _ => track Closed log = Some Closed /\ kept log = []).
{ sql; done. }
intros log [err|msgs] [Hl Hk]; [split; [done|]; rewrite Hk; by intros w []|].
assert (forall w, In w (kept log) -> accepted_removal log w) as Hw by (rewrite Hk; by intros w []).
clear Hk. generalize 0 as fails. revert log Hl Hw.
induction msgs as [|m msgs IH]; intros log Hl Hw fails; cbn [publish_each wlp]; [done|].
apply wlp_bind. eapply wlp_ended; [done|apply (collaborators_closes _ (PublishProfilesMessage m))|
  apply publish_removes_accepted|].
intros tail r Ht Hk Hr.
assert (forall w, In w (kept (log ++ tail)) -> accepted_removal (log ++ tail) w) as Hw'.
{ rewrite Hk. intros w [Hin|Hin]%in_app_iff.
  - destruct (Hw w Hin) as (m' & ? & ->). exists m'. split; [|done]. apply in_app_iff. by left.
  - destruct Hr as [E|(_ & Ha & E)]; rewrite E in Hin; [by destruct Hin|]. destruct Hin as [<-|[]].
    exists m. split; [|done]. apply in_app_iff. by right. }
destruct r; [case_match; [done|]|]; by apply IH.
Qed.

(** A mail waiting for delivery is removed only after it was sent; otherwise its next attempt is
  set. *)
Theorem DeliverEmail_removes_sent :
always (collab _ DeliverEmail) (fun log _ =>
  kept log = [] \/
  (exists id p, asked (Outside (SmtpSend p (sendAttempts mail))) (inr tt) log /\
     kept log = [("DELETE FROM email_deliveries WHERE id=$1", [AInt id])]) \/
  exists id, kept log =
    [("UPDATE email_deliveries SET attempts=attempts+1,next_attempt=NOW()+interval '1 minute' WHERE id=$1",
      [AInt id])]).
Proof.
cbn [collaborators]. unfold mail_SendEmailBinding. sql; try (left; reflexivity).
unfold outside. destruct (SetHtmlBody _ _) as [body []]; sql; try (left; reflexivity).
all: right; repeat match goal with u : () |- _ => destruct u | r : outcome () |- _ => destruct r end.
all: first [ right; eexists; reflexivity | left; do 2 eexists; split; [in_log|reflexivity] ].
Qed.
End Facts.

(** ** A run

    A database that answers every statement; [valid] says whether the reset code is. *)
Definition toy_column (d : dest) : scanned d :=
  match d with
  | TId => 1%N | TText => "" | TOptText => None | TInt => 1 | TOptInt => None | TBool => false
  | TTime => 0 | TOptTime => None
  end.
Fixpoint toy_row (ds : list dest) : row ds :=
  match ds with [] => tt | d :: ds => (toy_column d, toy_row ds) end.
Definition toy_database (valid : bool) (X : Type) (e : dbevent X) (s : unit) : X * unit :=
  (match e in dbevent X return X with
   | BeginTx | Commit => inr tt
   | Rollback => tt
   | QueryRow _ query _ ds => inr
       (match ds return row ds with
        | [TBool] => (HasPrefix query "SELECT EXISTS(SELECT 1 FROM password_resets" && valid, tt)
        | ds => toy_row ds
        end)
   | QueryRows _ _ _ => inr ([], false)
   | Exec _ _ _ => inr (Some 1)
   | NewUUID => 2%N
   | RandRead _ => None
   | Now => 100
   | Outside e => toy_default e
   end, s).
Example ResetPassword_runs :
  (runP (toy_database true) (repo_ResetPassword 1%N "code" "hash") tt).1 = inr tt /\
  kept (logP (toy_database true) (repo_ResetPassword 1%N "code" "hash") tt) =
    reset_writes 1%N "code" "hash" 100 /\
  (runP (toy_database false) (repo_ResetPassword 1%N "code" "hash") tt).1 =
    inl GrpcInvalidResetPasswordCode /\
  kept (logP (toy_database false) (repo_ResetPassword 1%N "code" "hash") tt) = [].
Proof. split_and!; vm_compute; reflexivity. Qed.
