(* ===== verification/LegacyWiring.v ===== *)
(** How internal/transport/dependencies/service builds the previous generation from the
    configuration, with the constructors of internal/service/mail, pkg/oauth and of the
    repositories. A pointer field of the configuration that is nil is a panic: [None]. *)
From S2P Require Import Prelude GoLib Configuration LegacyProgram LegacyServices LegacyDatabase LegacyRepository LegacyMail.
#[local] Open Scope string_scope.
#[local] Open Scope Z_scope.
#[local] Open Scope list_scope.

(** The clients of libraries: whether they can be built. *)
Class LegacyClients : Type := {
  NewSmtpSender : forall (email password host : string) (port : Z) (timeout : duration)
    (username : string), bool;
  firebase_NewClient : bytes -> string -> bool;
  sqlx_Connect : string -> bool;      (* with the pgx driver *)
  amqp_NewConn : string -> bool;
  amqp_NewPublisher : string -> string -> bool -> bool -> bool;
    (* of an exchange: its name, kind, whether it is durable and whether it is declared *)
  amqp_Conn_Close : bool;             (* closing the connection succeeds *)
  grpc_Dial : string -> bool;         (* without transport security *)
}.

(** What starting and stopping does with the connections, in order. *)
Inductive connection_action :=
| OpenPublisher (exchange kind : string) (durable declare : bool)
| ObserveOutbox                       (* the goroutine of observeOutbox *)
| ClosePublisher
| CloseAmqp
| CloseSubscription.

Section Wiring.
Context `{TokenKeys} `{LegacyClients}.

(** [fmt.Sprintf] of host, port, user, database and password. *)
Definition postgres_Connect (c : DatabaseConfig) : option (result unit) :=
  host ← dc_Host c; port ← dc_Port c; user ← dc_User c; name ← dc_DBName c; password ← dc_Password c;
  Some (if sqlx_Connect ("host=" +:+ host +:+ " port=" +:+ FormatInt port +:+ " user=" +:+ user +:+
             " dbname=" +:+ name +:+ " password=" +:+ password +:+ " sslmode=require")
        then Ok tt else Err (ErrOther "connect")).
Definition amqp_NewRepository (c : AmqpConfig) : option (result unit) :=
  user ← am_User c; password ← am_Password c; host ← am_Host c; port ← am_Port c; vhost ← am_VHost c;
  Some (if amqp_NewConn ("amqp://" +:+ user +:+ ":" +:+ password +:+ "@" +:+ host +:+ ":" +:+
             FormatInt port +:+ "/" +:+ vhost)
        then Ok tt else Err (ErrOther "connect")).

(** The publisher is opened before the outbox is looked at. *)
Definition amqp_Start : list connection_action * result unit :=
  let opened := OpenPublisher ExchangeProfiles "fanout" true true in
  if amqp_NewPublisher ExchangeProfiles "fanout" true true
  then ([opened; ObserveOutbox], Ok tt) else ([opened], Err (ErrOther "publisher")).
Definition amqp_Stop : list connection_action * result unit :=
  ([ClosePublisher; CloseAmqp], if amqp_Conn_Close then Ok tt else Err (ErrOther "close")).

(** internal/repository/grpc: the client of the subscription service. *)
Definition grpc_NewSubscription (addr : string) : result unit :=
  if grpc_Dial addr then Ok tt else Err (ErrOther "dial").
Definition grpc_NewRepository (cfg : AppConfig) : option (result unit) :=
  addr ← SubscriptionService cfg; Some (grpc_NewSubscription addr).
Definition grpc_Stop : list connection_action * result unit := ([CloseSubscription], Ok tt).

Definition mail_NewService (cfg : AppConfig) : option (result MailService) :=
  let smtp := Smtp cfg in
  host ← sm_Host smtp;
  built ← (if 0 <? len host then
             email ← sm_Email smtp; password ← sm_Password smtp; port ← sm_Port smtp;
             username ← sm_Username smtp;
             Some (NewSmtpSender email password host port (30 * Second) username)
           else Some true);
  if negb built then Some (Err (ErrOther "smtp")) else
  environment ← Environment cfg; attempts ← sm_SendAttempts smtp;
  Some (Ok {| IsStub := len host =? 0; IsDevEnv := environment == EnvDev; sendAttempts := attempts |}).

(** google.NewOAuthProvider and vk.NewOAuthProvider; the state they are given is not used. *)
Definition google_NewOAuthProvider (id secret : string) (scopes : list string) : GoogleProvider :=
  {| gp_ClientId := id; gp_ClientSecret := secret; gp_Scopes := scopes |}.
Definition vk_NewOAuthProvider (id secret scope : string) : VkProvider :=
  {| vp_ClientId := id; vp_ClientSecret := secret; vp_Scope := scope |}.
Definition legacy_google_scopes : list string :=
  ["https://www.googleapis.com/auth/userinfo.email"; "https://www.googleapis.com/auth/userinfo.profile";
   "openid"].

(** What New builds: the parameters of the services. *)
Record LegacyService := {
  lg_mail : MailService;
  lg_saltCost : Z;
  lg_tokens : Manager;
  lg_google : GoogleProvider;
  lg_vk : VkProvider;
  lg_firebase : bool;
  lg_accessTokenTtl : duration;
  lg_refreshTokenTtl : duration;
  lg_resetPasswordCodeTTL : duration;
}.

(** The signing key that is configured, or else a new one. [t] is the moment of the call. *)
Definition token_manager (t : nat) (key : string) : result Manager :=
  let made (m : option Manager) : result Manager :=
    match m with Some m => Ok m | None => Err (ErrOther "key") end in
  if 0 <? len key then made (NewManagerByRawKey key)
  else made (NewManagerByKey <$> rsa_GenerateKey t).
(** A Firebase client is optional: without its configuration, or when it cannot be built, there is
    none. *)
Definition firebase_client (c : FirebaseConfig) : option bool :=
  credentials ← fb_Credentials c;
  if 0 <? len credentials then
    key ← fb_GoogleApiKey c;
    Some ((0 <? len key) && firebase_NewClient credentials key)
  else Some false.

Definition service_New (t : nat) (cfg : AppConfig) : option (result LegacyService) :=
  mail ← mail_NewService cfg;
  match mail with
  | Err err => Some (Err err)
  | Ok mail =>
      cost ← SaltCost (Auth cfg); key ← AccessTokenSigningKey (Auth cfg);
      match token_manager t key with
      | Err err => Some (Err err)
      | Ok tokens =>
          google_id ← ClientId (oc_Google (OAuth_ cfg));
          google_secret ← ClientSecret (oc_Google (OAuth_ cfg));
          state ← oc_State (OAuth_ cfg);
          vk_id ← ClientId (oc_Vk (OAuth_ cfg)); vk_secret ← ClientSecret (oc_Vk (OAuth_ cfg));
          firebase ← firebase_client (cf_Firebase (Auth cfg));
          access ← AccessToken (cf_Ttl (Auth cfg)); refresh ← RefreshToken (cf_Ttl (Auth cfg));
          reset ← PasswordResetCode (cf_Ttl (Auth cfg));
          Some (Ok {| lg_mail := mail; lg_saltCost := cost; lg_tokens := tokens;
            lg_google := google_NewOAuthProvider google_id google_secret legacy_google_scopes;
            lg_vk := vk_NewOAuthProvider vk_id vk_secret (FormatInt VkScope);
            lg_firebase := firebase; lg_accessTokenTtl := access; lg_refreshTokenTtl := refresh;
            lg_resetPasswordCodeTTL := reset |})
      end
  end.

(** The outbox is observed exactly when there is a publisher to publish with. *)
Lemma amqp_Start_observes : In ObserveOutbox amqp_Start.1 <-> amqp_Start.2 = Ok tt.
Proof. unfold amqp_Start. destruct (amqp_NewPublisher _ _ _ _); simpl; naive_solver. Qed.

(** A mail service that was built is a stub exactly when no SMTP host is configured. *)
Lemma mail_NewService_stub cfg s : mail_NewService cfg = Some (Ok s) ->
  exists host, sm_Host (Smtp cfg) = Some host /\ (IsStub s = true <-> host = "").
Proof.
  unfold mail_NewService. intros (host & Hh & E)%bind_Some. exists host. split; [done|].
  apply bind_Some in E as (built & _ & E). destruct built; [|done].
  apply bind_Some in E as (environment & _ & E). apply bind_Some in E as (attempts & _ & E).
  simplify_eq/=. unfold len. rewrite Z.eqb_eq. by destruct host.
Qed.
(** Tokens are signed by the configured key whenever there is one. *)
Lemma service_New_key t cfg s : service_New t cfg = Some (Ok s) ->
  exists key, AccessTokenSigningKey (Auth cfg) = Some key /\
    (key <> "" -> NewManagerByRawKey key = Some (lg_tokens s)).
Proof.
  unfold service_New. intros (m & _ & E)%bind_Some. destruct m as [m|]; [|done].
  apply bind_Some in E as (cost & _ & E). apply bind_Some in E as (key & Hkey & E).
  exists key. split; [done|]. intros Hne. destruct (token_manager t key) as [tokens|] eqn:Ht; [|done].
  repeat match type of E with _ = Some _ => apply bind_Some in E as (? & _ & E) end.
  simplify_eq/=. unfold token_manager in Ht.
  assert (0 <? len key = true) as Hl by (apply Z.ltb_lt; unfold len; destruct key; simpl; [done|lia]).
  rewrite Hl in Ht. by destruct (NewManagerByRawKey _); simplify_eq.
Qed.
End Wiring.
