(* ===== verification/Logging.v ===== *)
(** internal/logging: the log events of the service as values, and how errors appear in them. The
    calls made here go to the log package of the common module; a definition [Events_X] is the call
    that the method X of Events makes. *)
From S2P Require Import Prelude GoLib.
#[local] Open Scope string_scope.
#[local] Open Scope Z_scope.
#[local] Open Scope list_scope.

(** ** Errors

    An error value with the errors it wraps, as errors.Is and errors.As walk them. *)
#[warnings="-register-all"]
Inductive goerror :=
| ContextCanceled
| ContextDeadlineExceeded
| SQLStateError (state text : string) (wrapped : list goerror)
| TextError (text : string) (wrapped : list goerror).

Section Induction.
Variable P : goerror -> Prop.
Hypothesis canceled : P ContextCanceled.
Hypothesis exceeded : P ContextDeadlineExceeded.
Hypothesis state_error : forall state text wrapped, Forall P wrapped -> P (SQLStateError state text wrapped).
Hypothesis text_error : forall text wrapped, Forall P wrapped -> P (TextError text wrapped).
Fixpoint goerror_nested (e : goerror) : P e :=
  let all := fix all (es : list goerror) : Forall P es :=
    match es with
    | [] => Forall_nil_2 _
    | e :: es => Forall_cons_2 _ _ _ (goerror_nested e) (all es)
    end in
  match e with
  | ContextCanceled => canceled
  | ContextDeadlineExceeded => exceeded
  | SQLStateError state text wrapped => state_error state text wrapped (all wrapped)
  | TextError text wrapped => text_error text wrapped (all wrapped)
  end.
End Induction.

(** The errors of a tree, in the order they are visited. *)
Fixpoint chain (e : goerror) : list goerror :=
  e :: match e with
       | SQLStateError _ _ wrapped | TextError _ wrapped => flat_map chain wrapped
       | _ => []
       end.
Definition is_canceled (e : goerror) : bool := match e with ContextCanceled => true | _ => false end.
Definition is_exceeded (e : goerror) : bool :=
  match e with ContextDeadlineExceeded => true | _ => false end.
Definition sql_state (e : goerror) : option string :=
  match e with SQLStateError state _ _ => Some state | _ => None end.
Fixpoint first_state (es : list goerror) : option string :=
  match es with
  | [] => None
  | e :: es => match sql_state e with Some state => Some state | None => first_state es end
  end.

(** The error types the events carry; [None] is a nil error. *)
Definition safeErrorType (err : option goerror) (fallback : string) : string :=
  let es := match err with Some e => chain e | None => [] end in
  if existsb is_canceled es then "context_canceled"
  else if existsb is_exceeded es then "context_deadline_exceeded"
  else match first_state es with
       | Some state => "postgres_sqlstate_" +:+ state
       | None => fallback
       end.

(** ** Events *)
Inductive payload_value := PText (s : string) | PInt (n : Z) | PBool (b : bool).
Abbreviation payload := (gmap string payload_value).
Record log_event := {
  ev_Event : string;
  ev_Message : string;
  ev_Component : string;
  ev_UserID : string;
  ev_MessageID : string;
  ev_Operation : string;
  ev_ErrorType : string;
  ev_Payload : option payload;
}.
(** The fields of a composite literal that are set. *)
Inductive field :=
| Component (s : string)
| UserID (s : string)
| MessageID (s : string)
| Operation (s : string)
| ErrorType (s : string)
| Payload (p : option payload).
Definition text_of (get : field -> option string) (fs : list field) : string :=
  match omap get fs with s :: _ => s | [] => "" end.
Definition log_entry (name message : string) (fs : list field) : log_event :=
  {| ev_Event := name; ev_Message := message;
     ev_Component := text_of (fun f => match f with Component s => Some s | _ => None end) fs;
     ev_UserID := text_of (fun f => match f with UserID s => Some s | _ => None end) fs;
     ev_MessageID := text_of (fun f => match f with MessageID s => Some s | _ => None end) fs;
     ev_Operation := text_of (fun f => match f with Operation s => Some s | _ => None end) fs;
     ev_ErrorType := text_of (fun f => match f with ErrorType s => Some s | _ => None end) fs;
     ev_Payload := match omap (fun f => match f with Payload p => p | _ => None end) fs with
                   | p :: _ => Some p
                   | [] => None
                   end |}.

(** A call of the log package: the function, the event, and the error handed over with it. *)
Inductive log_function := Log | LogWarn | LogWarnError | LogError | LogFatal.
Record log_call := { lc_Function : log_function; lc_Event : log_event; lc_Error : option goerror }.
Definition log_ (e : log_event) : log_call := {| lc_Function := Log; lc_Event := e; lc_Error := None |}.
Definition logWarn (e : log_event) : log_call :=
  {| lc_Function := LogWarn; lc_Event := e; lc_Error := None |}.
Definition logWarnError (err : option goerror) (e : log_event) : log_call :=
  {| lc_Function := LogWarnError; lc_Event := e; lc_Error := err |}.
Definition logError (err : option goerror) (e : log_event) : log_call :=
  {| lc_Function := LogError; lc_Event := e; lc_Error := err |}.
Definition logFatal (err : option goerror) (e : log_event) : log_call :=
  {| lc_Function := LogFatal; lc_Event := e; lc_Error := err |}.

Record PostgresOperationData := {
  pd_Operation : string;
  pd_UserID : string;
  pd_MessageID : string;
  pd_Entity : string;
  pd_Count : Z;
}.
Record MailData := { ma_Kind : string; ma_UserID : string; ma_WithSharedData : option bool }.
Record OAuthData := { od_Provider : string; od_UserID : string }.
Record LogMessageData := { lm_MessageID : string; lm_Type : string; lm_Exchange : string }.

Definition postgresPayload (data : PostgresOperationData) : option payload :=
  let p : payload := if pd_Entity data != "" then {["entity" := PText (pd_Entity data)]} else ∅ in
  let p := if 0 <? pd_Count data then <["count" := PInt (pd_Count data)]> p else p in
  if decide (p = ∅) then None else Some p.
Definition mailPayload (data : MailData) : payload :=
  let p : payload := {["kind" := PText (ma_Kind data)]} in
  match ma_WithSharedData data with
  | Some shared => <["with_shared_data" := PBool shared]> p
  | None => p
  end.
Definition message_payload (data : LogMessageData) : payload :=
  <["message_type" := PText (lm_Type data)]> {["exchange" := PText (lm_Exchange data)]}.

(** The names of components are those of the log package. *)
Class LogComponents : Type := {
  ComponentPostgres : string;
  ComponentFirebase : string;
  ComponentAMQP : string;
  ComponentGRPC : string;
}.

Section LogCalls.
Context `{LogComponents}.

Definition Events_PostgresOperationFailed (data : PostgresOperationData) (err : option goerror)
    : log_call :=
  logError None (log_entry "auth.postgres.operation.failed" "postgres operation failed"
    [Component ComponentPostgres; UserID (pd_UserID data); MessageID (pd_MessageID data);
     Operation (pd_Operation data); ErrorType (safeErrorType err "postgres_error");
     Payload (postgresPayload data)]).
Definition Events_PostgresOperationWarned (data : PostgresOperationData) (err : option goerror)
    : log_call :=
  logWarn (log_entry "auth.postgres.operation.warned" "postgres operation completed with a warning"
    [Component ComponentPostgres; UserID (pd_UserID data); MessageID (pd_MessageID data);
     Operation (pd_Operation data); ErrorType (safeErrorType err "postgres_error");
     Payload (postgresPayload data)]).
Definition Events_PostgresRowScanFailed (data : PostgresOperationData) (err : option goerror)
    : log_call :=
  logError None (log_entry "auth.postgres.row.scan_failed" "unable to scan postgres row"
    [Component ComponentPostgres; UserID (pd_UserID data); Operation (pd_Operation data);
     ErrorType (safeErrorType err "postgres_scan_error"); Payload (postgresPayload data)]).
Definition Events_PostgresLookupMissed (data : PostgresOperationData) : log_call :=
  log_ (log_entry "auth.postgres.lookup.missed" "postgres lookup returned no matching record"
    [Component ComponentPostgres; UserID (pd_UserID data); Operation (pd_Operation data);
     Payload (postgresPayload data)]).
Definition Events_PostgresLookupWarned (data : PostgresOperationData) : log_call :=
  logWarn (log_entry "auth.postgres.lookup.warned" "postgres lookup returned no matching record"
    [Component ComponentPostgres; UserID (pd_UserID data); Operation (pd_Operation data);
     Payload (postgresPayload data)]).
Definition Events_UserCreationStarted (userID : string) : log_call :=
  log_ (log_entry "auth.user.creation.started" "user creation started"
    [Component ComponentPostgres; UserID userID]).
Definition Events_PasswordResetReused (userID : string) : log_call :=
  log_ (log_entry "auth.password_reset.reused" "existing password reset request reused"
    [Component ComponentPostgres; UserID userID]).
Definition Events_ActivationCodeRejected (userID : string) : log_call :=
  log_ (log_entry "auth.activation_code.rejected" "profile activation code rejected"
    [Component ComponentPostgres; UserID userID]).
Definition Events_PasswordResetCodeRejected (userID : string) : log_call :=
  log_ (log_entry "auth.password_reset.code_rejected" "password reset code rejected"
    [Component ComponentPostgres; UserID userID]).
Definition Events_OAuthIdentityOccupied (data : OAuthData) : log_call :=
  logWarn (log_entry "auth.oauth.identity_occupied" "oauth identity is already connected"
    [Component ComponentPostgres; UserID (od_UserID data);
     Payload (Some {["provider" := PText (od_Provider data)]})]).
Definition Events_PasswordInvalid (userID : string) : log_call :=
  log_ (log_entry "auth.credentials.password_invalid" "password validation failed"
    [UserID userID]).
Definition Events_PasswordHashFailed (err : option goerror) : log_call :=
  logError err (log_entry "auth.credentials.password_hash_failed" "unable to hash password"
    []).
Definition Events_ProfileNotActivated (userID : string) : log_call :=
  log_ (log_entry "auth.profile.not_activated" "profile is not activated"
    [UserID userID]).
Definition Events_ProfileBlocked (userID : string) : log_call :=
  logWarn (log_entry "auth.profile.blocked" "profile is blocked"
    [UserID userID]).
Definition Events_ProfileAlreadyExists (userID : string) : log_call :=
  logWarn (log_entry "auth.profile.already_exists" "activated profile already exists"
    [UserID userID]).
Definition Events_SessionCreationStarted (userID : string) : log_call :=
  log_ (log_entry "auth.session.creation.started" "session creation started"
    [UserID userID]).
Definition Events_AccessTokenCreationFailed (userID : string) (err : option goerror) : log_call :=
  logError err (log_entry "auth.access_token.creation_failed" "unable to create access token"
    [UserID userID]).
Definition Events_OAuthCodeRejected (data : OAuthData) (err : option goerror) : log_call :=
  logWarn (log_entry "auth.oauth.code_rejected" "oauth authorization code rejected"
    [UserID (od_UserID data); ErrorType (safeErrorType err "oauth_provider_error");
     Payload (Some {["provider" := PText (od_Provider data)]})]).
Definition Events_FirebaseImportStarted : log_call :=
  log_ (log_entry "auth.firebase.import.started" "firebase profile import started"
    [Component ComponentFirebase]).
Definition Events_FirebaseIdentityOccupied : log_call :=
  logWarn (log_entry "auth.firebase.identity_occupied" "firebase identity is already connected"
    [Component ComponentFirebase]).
Definition Events_FirebaseProfileFetchFailed (err : option goerror) : log_call :=
  logError None (log_entry "auth.firebase.profile_fetch_failed" "unable to fetch firebase profile"
    [Component ComponentFirebase; ErrorType (safeErrorType err "firebase_api_error")]).
Definition Events_FirebaseProfileConnected (userID : string) : log_call :=
  log_ (log_entry "auth.firebase.profile_connected" "firebase profile connected"
    [Component ComponentFirebase; UserID userID]).
Definition Events_FirebaseProfileConnectFailed (userID : string) (err : option goerror)
    : log_call :=
  logError err (log_entry "auth.firebase.profile_connect_failed" "unable to connect firebase profile"
    [Component ComponentFirebase; UserID userID]).
Definition Events_FirebaseClientInitialized : log_call :=
  log_ (log_entry "auth.firebase.client_initialized" "firebase client initialized"
    [Component ComponentFirebase]).
Definition Events_ProfileDeletionTargetMissing (userID : string) : log_call :=
  logWarn (log_entry "auth.profile_deletion.target_missing" "profile scheduled for deletion was not found"
    [UserID userID]).
Definition Events_MailDeliveryStarted (data : MailData) : log_call :=
  log_ (log_entry "auth.mail.delivery.started" "mail delivery started"
    [UserID (ma_UserID data); Payload (Some (mailPayload data))]).
Definition Events_MailTemplateRenderFailed (data : MailData) (err : option goerror) : log_call :=
  logError err (log_entry "auth.mail.template_render_failed" "unable to render mail template"
    [UserID (ma_UserID data); Payload (Some (mailPayload data))]).
Definition Events_MailDeliveryFailed (data : MailData) (err : option goerror) : log_call :=
  logError err (log_entry "auth.mail.delivery_failed" "unable to deliver mail"
    [UserID (ma_UserID data); Payload (Some (mailPayload data))]).
Definition Events_MessagePublishStarted (data : LogMessageData) : log_call :=
  log_ (log_entry "auth.mq.message.publish_started" "message publish started"
    [Component ComponentAMQP; MessageID (lm_MessageID data);
     Payload (Some (message_payload data))]).
Definition Events_MessagePublished (data : LogMessageData) : log_call :=
  log_ (log_entry "auth.mq.message.published" "message published"
    [Component ComponentAMQP; MessageID (lm_MessageID data);
     Payload (Some (message_payload data))]).
Definition Events_MessagePublishFailed (data : LogMessageData) (err : option goerror) : log_call :=
  logWarnError err (log_entry "auth.mq.message.publish_failed" "unable to publish message"
    [Component ComponentAMQP; MessageID (lm_MessageID data);
     Payload (Some (message_payload data))]).
Definition Events_UsernameValidatorInitializationFailed (err : option goerror) : log_call :=
  logError err (log_entry "auth.username.validator_initialization_failed" "unable to initialize username validator"
    []).
Definition Events_ConfigLoaded : log_call :=
  log_ (log_entry "config.loaded" "service configuration loaded"
    [Component "config"]).
Definition Events_StartupFailed (operation : string) (err : option goerror) : log_call :=
  logFatal None (log_entry "app.startup.failed" "service startup failed"
    [Component "app"; Operation operation; ErrorType (safeErrorType err "startup_error")]).
Definition Events_MQServerInitialized : log_call :=
  log_ (log_entry "mq.server.initialized" "MQ server initialized"
    [Component ComponentAMQP]).
Definition Events_GRPCServerStarted : log_call :=
  log_ (log_entry "grpc.server.started" "gRPC server started"
    [Component ComponentGRPC; Operation "serve"]).
Definition Events_GRPCServerFailed (err : option goerror) : log_call :=
  logError err (log_entry "grpc.server.failed" "gRPC server stopped with an error"
    [Component ComponentGRPC; Operation "serve"]).
Definition Events_PostgresHealthCheckFailed (err : option goerror) : log_call :=
  logWarn (log_entry "postgres.health_check.failed" "database is unavailable"
    [Component ComponentPostgres; Operation "ping";
     ErrorType (safeErrorType err "postgres_error")]).
Definition Events_AccountDeletionBatchFailed (err : option goerror) : log_call :=
  logWarn (log_entry "account.deletion.failed" "Scheduled account deletion could not complete"
    [Component ComponentPostgres; Operation "delete_due_account";
     ErrorType (safeErrorType err "postgres_error")]).
Definition Events_TemporaryStateCleanupFailed (err : option goerror) : log_call :=
  logWarn (log_entry "auth.cleanup.failed" "Expired authentication state cleanup could not complete"
    [Component ComponentPostgres; Operation "cleanup_auth_state";
     ErrorType (safeErrorType err "postgres_error")]).
End LogCalls.

(** ** What the events disclose of errors

    The texts of errors may hold what users sent; the same error without them: *)
Fixpoint without_text (e : goerror) : goerror :=
  match e with
  | SQLStateError state _ wrapped => SQLStateError state "" (map without_text wrapped)
  | TextError _ wrapped => TextError "" (map without_text wrapped)
  | e => e
  end.

Lemma chain_without_text e : chain (without_text e) = map without_text (chain e).
Proof.
  induction e as [| |state text wrapped IH|text wrapped IH] using goerror_nested; try done; cbn; f_equal.
  all: induction IH as [|e es He Hes IHes]; cbn; [done|]; by rewrite He, IHes, map_app.
Qed.
Lemma existsb_without_text p es : (forall e, p (without_text e) = p e) ->
  existsb p (map without_text es) = existsb p es.
Proof. intros Hp. induction es as [|e es IH]; cbn; [done|]. by rewrite Hp, IH. Qed.
Lemma first_state_without_text es : first_state (map without_text es) = first_state es.
Proof. induction es as [|[] es IH]; cbn; done. Qed.

(** The type of an error does not depend on texts. *)
Lemma safeErrorType_without_text err fallback :
  safeErrorType (without_text <$> err) fallback = safeErrorType err fallback.
Proof.
  unfold safeErrorType. destruct err as [e|]; cbn; [|done].
  rewrite chain_without_text, !existsb_without_text, first_state_without_text; [done|by intros []..].
Qed.

(** It is the cancellation or deadline of a context, the SQLSTATE of the first error that has one,
  or else the fallback. *)
Lemma safeErrorType_spec err fallback :
  let es := match err with Some e => chain e | None => [] end in
  (In ContextCanceled es /\ safeErrorType err fallback = "context_canceled") \/
  (In ContextDeadlineExceeded es /\ ~ In ContextCanceled es /\
     safeErrorType err fallback = "context_deadline_exceeded") \/
  (~ In ContextCanceled es /\ ~ In ContextDeadlineExceeded es /\
     match first_state es with
     | Some state => safeErrorType err fallback = "postgres_sqlstate_" +:+ state
     | None => safeErrorType err fallback = fallback
     end).
Proof.
  intros es. unfold safeErrorType. fold es.
  assert (existsb is_canceled es = true <-> In ContextCanceled es) as Hc.
  { rewrite existsb_exists. split; [by intros ([] & ? & ?)|by exists ContextCanceled]. }
  assert (existsb is_exceeded es = true <-> In ContextDeadlineExceeded es) as Hd.
  { rewrite existsb_exists. split; [by intros ([] & ? & ?)|by exists ContextDeadlineExceeded]. }
  destruct (existsb is_canceled es); [left; naive_solver|right].
  destruct (existsb is_exceeded es); [left; naive_solver|right].
  split_and!; [naive_solver..|]. by destruct (first_state es).
Qed.

(** Databases, providers and the start-up report errors by their type alone: the events are the
  same whatever the errors say. *)
Theorem reported_errors_hide_text `{LogComponents} err pd od operation :
let hidden (f : option goerror -> log_call) := f (without_text <$> err) = f err /\ lc_Error (f err) = None in
hidden (Events_PostgresOperationFailed pd) /\ hidden (Events_PostgresOperationWarned pd) /\
hidden (Events_PostgresRowScanFailed pd) /\ hidden (Events_OAuthCodeRejected od) /\
hidden Events_FirebaseProfileFetchFailed /\ hidden (Events_StartupFailed operation) /\
hidden Events_PostgresHealthCheckFailed /\ hidden Events_AccountDeletionBatchFailed /\
hidden Events_TemporaryStateCleanupFailed.
Proof.
cbv zeta beta. split_and!; try reflexivity.
all: unfold Events_PostgresOperationFailed, Events_PostgresOperationWarned,
  Events_PostgresRowScanFailed, Events_OAuthCodeRejected, Events_FirebaseProfileFetchFailed,
  Events_StartupFailed, Events_PostgresHealthCheckFailed, Events_AccountDeletionBatchFailed,
  Events_TemporaryStateCleanupFailed; by rewrite safeErrorType_without_text.
Qed.

Example sql_state_excludes_text :
  safeErrorType (Some (TextError "insert: duplicate" [SQLStateError "23505" "email person@example.com" []]))
    "postgres_error" = "postgres_sqlstate_23505".
Proof. reflexivity. Qed.
